(* ===== verification/_CoqProject ===== *)
-Q . S2P
Prelude.v
Crc24q.v
RtcmParser.v
NtripRing.v
NtripTx.v
GnssAck.v
Nmea.v
Retry.v
Supervisor.v
SupRace.v
SupLive.v
Ingest.v
MsgRace.v
NetUtil.v
NtripServer.v
NtripDrain.v
Nvs.v
OtaState.v
OtaInstall.v
OtaRelease.v
Config.v
Doubles.v
Address.v
StreamStats.v
Gnss.v
Telemetry.v
Uart.v
Station.v
Json.v
StrNum.v
Provisioning.v
NtripDial.v
Console.v
Slist.v
StatusLed.v
SocketServer.v
SocketClient.v
Wifi.v
Dns.v
WebConfig.v
WebFiles.v
WebStatus.v
Log.v
Main.v
