(* ===== verification/Prelude.v ===== *)
(** * Reference-station firmware: verification library

    The firmware turns an ESP32 with a UM980 GNSS receiver into a reference
    station: receiver bytes arrive on a UART, are cut into RTCM3 frames, kept in a
    ring and sent by up to ten NTRIP connections to casters, while a supervisor
    watches the data path, a server configures the station, updates come over
    the air, and an access point with a web interface is there for the set-up.
    This library models the C code under src/main and proves what makes
    each part correct.  A definition has the name of the C function it translates;
    a loop or a branch that needed a name of its own says which function it is in.

    ** Parts, files and how they interact

    - [Crc24q], [RtcmParser] (interface/ntrip_tx_core.c, first half): the CRC with
      its table, and the byte-stream parser [rtcm_parser_feed] with its hunting.
      The parser's contract is the relation [scans] over whole streams.
    - [NtripRing], [NtripTx] (ntrip_tx_core.c, second half): the ring the UART
      path pushes frames into, and the sender core of one connection, which copies
      from the ring and offers bytes to a socket.  The socket is the class
      [Sender]; interleaving with the UART path is the relation [sys_step].
    - [GnssAck] (gnss_ack.c): the verdict on a command in a captured reply.
    - [Gnss], [Doubles] (gnss.c): configuring the receiver with acknowledged
      commands, the latch of the acknowledged coordinate, its persistence; the
      receiver is the class [Receiver].  [Doubles] is what C's [double] means there.
    - [Nmea] (protocol/nmea.c), [Retry] (retry.c): status sentences, retry delays.
    - [Supervisor] (supervisor.c): liveness notes and the recovery ladder.  [SupRace]
      has its 64-bit time stamps written and read as two words; [SupLive] follows a
      silent station up the ladder to the restart.
    - [Ingest] (interface/ntrip_server.c, UART side): a chunk through the parser
      into ring, freshness contract and supervisor.  [MsgRace] has the same contract
      at the level of single memory accesses of the UART task, of a reset and of the
      task that reads the verdict, interleaved at will.
    - [NetUtil] (util.c, interface/ntrip_util.c): sockets and HTTP headers.
    - [NtripServer] (interface/ntrip_server.c, server side): registry, keep-alive,
      dialling and handshake, drain loop, disconnects, totals.  It drives [NtripTx]
      and sleeps with [Retry].  [NtripDrain] runs the drain loop of a connection whose
      socket takes nothing.  [NtripDial] is what a connection's task does before and
      around it: the caster's settings from [Config], the socket options, the send callback
      that notes bytes with [Supervisor] and [StreamStats], one turn of the task.
    - [Address] (util.c, interface/ntrip_util.c): an address as text, basic authentication.
    - [Nvs]: ESP-IDF's key-value store as the class [Nvs] with the laws [NvsLaws] of a
      store with room; [flash] has these laws.  [NvsFallible] are those of a store that
      may refuse a write.
    - [Config] (config.c): the table of items and its accessors over [Nvs].
    - [OtaState], [OtaInstall] (update.c): the version order, the attempt budget,
      the boot-loop guard, the health confirmation (which reads the totals of
      [NtripServer], the health of [Supervisor] and the freshness of [Ingest]);
      downloads, the staging copy, the boot check and the daily check.  [OtaRelease]
      follows a release whose files arrive whole.
    - [StreamStats] (stream_stats.c), [Uart] (uart.c): stream counters; the byte
      queue and the turn of the reader task that feeds [Gnss] and [Ingest].  [Console]
      (uart.c): both ports' set-up, the console's event task against the driver's
      buffer, the receiver's buffered port.  [Station] composes the reader task, the
      parser, the ring and the senders into one system.
    - [Telemetry] (telemetry_json.c), [Provisioning] (provisioning.c): the heartbeat
      with the totals of [NtripServer], enrolment, and what a server's reply changes
      in [Config], [Gnss] and the registry.  JSON is the class [Json], with trees
      [js] as the instance the web pages build; [StrNum] has the numbers of strings.
    - [Slist] (the list macros status_led.c and socket_server.c use): a linked list
      of nodes in memory, so that a walk can meet a node that is gone.  [StatusLed]
      (status_led.c): colours, the task that shows them and its notifications, with
      registrations and removals taken apart into single accesses to the list.
      [SocketServer], [SocketClient] (interface/socket_server.c, socket_client.c):
      the local clients of the stream and the descriptors they hold.
    - [Wifi] (wifi.c): access point and station, their event handlers, the timer
      that closes the access point, the first configuration; it drives [StatusLed]
      and [Retry].  [Dns] (dns_server.c): the captive responder's replies and the
      life of its socket between the task and those who start and stop it.
    - [WebConfig], [WebFiles], [WebStatus] (web_server.c): the guard and the form
      over [Config]; files and their checksums; the status pages, which read
      [Wifi], [StreamStats], [NtripServer], [Ingest] and [Provisioning], and the routes.
    - [Log] (log.c, core_dump.c), [Main] (main.c, state.c): the log buffer and the core
      dump; the order in which everything is started, the reset button, the stored mode.

    ** How C is represented

    An unsigned integer is a [Z] with [u8] ... [u64] at every store that can wrap;
    a signed one goes through [i8] ... [i64] where the code relies on no overflow.
    A buffer is a [list Z] of bytes, a C string the bytes before its terminator.  A
    struct is a record whose fields carry a prefix, with [r <| f := v |>] for an
    assignment ([derive_setter] makes the setters).  A handler takes the state and gives the new one; calls into
    libraries, drivers and the network are arguments (their answers) and results
    (what was called, with which data).  A lock makes the code under it one step; where
    tasks share data without one, [MsgRace], [SupRace], [StatusLed] and [Dns] have the
    single accesses as steps.  [sys_step] has each round of a poll as a step of its own,
    while [drain_poll] and what is built on it find one ring for all rounds of a poll.
    Log output is left out.

    ** What the theorems show

    - The parser implements [scans] for every way of cutting the stream into
      chunks, accounts for every byte, delivers only frames with a right CRC, in
      order, and finds every valid frame noise does not imitate; the CRC is the
      polynomial division.
    - Through the whole station: every caster's wire decodes, with the code's own parser, to
      frames the receiver sent; a frame read by the UART task reaches a caster that has
      caught up and whose socket takes it.
    - A connection's wire carries whole frames; every ring byte is sent, dropped
      or skipped with a count; the ring keeps the last sixteen frames.
    - Replies are believed only when their checksum is right; the latched
      coordinate is the receiver's; it survives a reboot if its save succeeds; needless
      commands are not sent.
    - Updates: an image is activated only when its bytes, counted together with those of
      the files before it, are as many as announced; the web partition is
      replaced only by a staged image; a release that arrives whole is installed if its
      application image comes first; an image is confirmed on evidence of a
      working data path and only then; a release that cannot be installed costs at
      most three attempts and three restarts; the boot-loop guard counts exactly
      the faults, in eight bits.
    - The supervisor's ladder acts exactly on its conditions and is debounced; a station
      that stays silent is restarted; a connection whose socket takes nothing ends by
      itself.  Freshness needs new frames, also when the tasks interleave access by
      access, for as long as the 32-bit stamps do not wrap; a reconnect request is never lost; back-off is reset only by bytes on
      the wire; a reset of the configuration keeps the device's identity.
    - Enrolment is all or nothing; a reply's caster settings are stored and
      reconnect the casters once; what a reply stores is what is dialled and asked for next; no heartbeat is skipped or cut off; a reply is read
      whole.  The byte queue is a bounded first-in first-out list; the console
      task never waits in a read if its callback is set before it runs.
    - The captive responder answers exactly the single-question queries, and its
      socket is lost only through one race.  The form posted back as shown changes
      nothing; a refused entry changes nothing; a page tells nothing about a secret but
      whether it is set.  A file is sent whole, in finitely many reads, and is
      recognised by its checksum; which addresses write past the path buffers.
    - The colours' list stays well formed as long as registrations and removals do not
      overlap, access by access, and is lost in part when they do; the local server's list
      stays well formed and no descriptor is lost as long as its loops take turns; a round
      of the local client frees its texts (one of them twice).
    - The open access point closes by itself when the station does not connect, and
      may stay open when it does; the parts start in an order in which each
      finds what it needs.

    ** Bounds and fuel

    [parser_process] has one turn per buffered byte and one more, and the theorem
    [parser_refines_scanner] shows that it always answers.  [gnss_ack_scan] has one
    turn per byte and one more ([gnss_ack_sound]).  The sending loops have the C
    code's own bounds.  [copy_loop] has one turn per block of 1024 bytes
    ([copy_spec]).  [decimal] has one turn per binary digit.  A walk of a linked list
    has one turn per node in memory and one more; [send_loop] one per block of 4096 bytes, the
    last perhaps not full, and one more ([file_send_terminates]); [qname_walk] one per byte.  The local client's
    read loop has no bound in the code: its theorems say for which fuel it ends and that no
    fuel ends it when the reads never fail.  Time stamps in [Supervisor] are below
    2^50 microseconds.  The clock of [MsgRace] is unbounded; its theorem is for runs below
    2^31 milliseconds, 24.8 days, where the 32-bit time stamps do not wrap, and fewer than
    2^32 resets, and shows a wrong verdict beyond.  [sys_step] pushes fewer than 2^32
    frames in all (13 years at ten a second), where the ring's counter would wrap.

    ** What is not modelled

    Of uart.c, registering handlers with the event bus; the lines that only print: the
    handlers of wifi.c that name a changed authentication or an assigned address, the
    heap figures around a connection, the console line of an enrolment; of
    stream_stats.c, looking a stream up by its name.  Creating a task is a step of the
    part that creates it; priorities and stack sizes are left out.  The HTTP client,
    TLS, JSON, the partition and flash drivers, FreeRTOS and lwIP are libraries. *)

From stdpp Require Export base list numbers strings.
From Stdlib Require Export ZArith Lia Bool.
#[global] Open Scope Z_scope.

(** ** Fixed-width integers

    A C integer of width [w] is a [Z]; every store into such an object goes
    through its wrap function. *)

Definition u8 (x : Z) : Z := x mod 2 ^ 8.
Definition u16 (x : Z) : Z := x mod 2 ^ 16.
Definition u32 (x : Z) : Z := x mod 2 ^ 32.
Definition u64 (x : Z) : Z := x mod 2 ^ 64.

(** Conversion to [int32_t] / [int] (two's complement). *)
Definition i8 (x : Z) : Z := (x + 2 ^ 7) mod 2 ^ 8 - 2 ^ 7.
Definition i16 (x : Z) : Z := (x + 2 ^ 15) mod 2 ^ 16 - 2 ^ 15.
Definition i32 (x : Z) : Z := (x + 2 ^ 31) mod 2 ^ 32 - 2 ^ 31.
Definition i64 (x : Z) : Z := (x + 2 ^ 63) mod 2 ^ 64 - 2 ^ 63.

Definition UINT32_MAX : Z := 2 ^ 32 - 1.

(** ** Memory as lists of bytes

    A C array of [n] bytes is a list of length [n]; indices are [Z]. *)

Definition zlen {A} (l : list A) : Z := Z.of_nat (length l).
Definition ztake {A} (n : Z) (l : list A) : list A := take (Z.to_nat n) l.
Definition zdrop {A} (n : Z) (l : list A) : list A := drop (Z.to_nat n) l.
Definition zget (l : list Z) (i : Z) : Z := default 0 (l !! Z.to_nat i).

(** [memcpy (dst + off) src (zlen src)] *)
Definition splice (dst : list Z) (off : Z) (src : list Z) : list Z :=
  ztake off dst ++ src ++ zdrop (off + zlen src) dst.

(** [memmove dst (dst + from) n] *)
Definition memmove_down (dst : list Z) (from n : Z) : list Z :=
  splice dst 0 (ztake n (zdrop from dst)).

Definition is_byte (b : Z) : Prop := 0 <= b < 256.
Definition bytes (l : list Z) : Prop := Forall is_byte l.

Definition bytesb (l : list Z) : bool := forallb (fun b => (0 <=? b) && (b <? 256)) l.

(** Text literals as the bytes the compiler emits. *)
Fixpoint of_str (s : string) : list Z :=
  match s with
  | EmptyString => []
  | String c s' => Z.of_nat (Ascii.nat_of_ascii c) :: of_str s'
  end.

(** And back. *)
Definition str_key (s : list Z) : string :=
  String.string_of_list_ascii (map (fun c => Ascii.ascii_of_nat (Z.to_nat c)) s).

Fixpoint zsum (l : list Z) : Z :=
  match l with
  | [] => 0
  | x :: l' => x + zsum l'
  end.

(** Byte-string comparison ([memcmp] = 0 on equal lengths, [strcmp] = 0). *)
Fixpoint bytes_eqb (a b : list Z) : bool :=
  match a, b with
  | [], [] => true
  | x :: a', y :: b' => (x =? y) && bytes_eqb a' b'
  | _, _ => false
  end.

#[global] Arguments u8 : simpl never.
#[global] Arguments u16 : simpl never.
#[global] Arguments u32 : simpl never.
#[global] Arguments u64 : simpl never.
#[global] Arguments i8 : simpl never.
#[global] Arguments i16 : simpl never.
#[global] Arguments i32 : simpl never.
#[global] Arguments i64 : simpl never.
#[global] Arguments zlen : simpl never.
#[global] Arguments ztake : simpl never.
#[global] Arguments zdrop : simpl never.
#[global] Arguments zget : simpl never.
#[global] Arguments splice : simpl never.
#[global] Arguments memmove_down : simpl never.

(** ** Record updates *)

Class Setter {R T : Type} (proj : R -> T) := upd : T -> R -> R.
Arguments upd {R T} proj {_} _ _.
Declare Scope fw_scope.
Delimit Scope fw_scope with fw.
Notation "r <| f := v |>" := (upd f v r)
  (at level 1, left associativity, f at level 1, v at level 200,
   format "r  <|  f  :=  v  |>") : fw_scope.
#[global] Open Scope fw_scope.

(** The setter of a field from the record's eta expansion [eta]. *)
Ltac derive_setter eta :=
  match goal with
  | |- Setter ?proj =>
    refine (fun v x => ltac:(
      let t := eval red in (eta x) in
      let t := eval pattern (proj x) in t in
      match t with
      | ?f _ => let r := eval cbv beta in (f v) in exact r
      end))
  end.

(** ** Generic automation *)

Create HintDb fw discriminated.
Create Rewrite HintDb u64.
Create Rewrite HintDb zlen.

(** Split on the next condition the goal computes with. *)
Ltac case_if :=
  match goal with
  | |- context [if ?c then _ else _] => destruct c eqn:?
  end.

(** Same, in a hypothesis. *)
Ltac case_if_in H :=
  match type of H with
  | context [if ?c then _ else _] => destruct c eqn:?
  end.


(** ** Integer lemmas *)

Ltac wrap_tac :=
  unfold u8, u16, u32, u64 in *; try lia.

Lemma u8_small x : 0 <= x < 2 ^ 8 -> u8 x = x.
Proof. intros; apply Z.mod_small; assumption. Qed.
Lemma u16_small x : 0 <= x < 2 ^ 16 -> u16 x = x.
Proof. intros; apply Z.mod_small; assumption. Qed.
Lemma u32_small x : 0 <= x < 2 ^ 32 -> u32 x = x.
Proof. intros; apply Z.mod_small; assumption. Qed.
Lemma u64_small x : 0 <= x < 2 ^ 64 -> u64 x = x.
Proof. intros; apply Z.mod_small; assumption. Qed.

Lemma i8_small x : - 2 ^ 7 <= x < 2 ^ 7 -> i8 x = x.
Proof. intros. unfold i8. rewrite Z.mod_small; lia. Qed.
Lemma i16_small x : - 2 ^ 15 <= x < 2 ^ 15 -> i16 x = x.
Proof. intros. unfold i16. rewrite Z.mod_small; lia. Qed.
Lemma i32_small x : - 2 ^ 31 <= x < 2 ^ 31 -> i32 x = x.
Proof. intros. unfold i32. rewrite Z.mod_small; lia. Qed.
Lemma i64_small x : - 2 ^ 63 <= x < 2 ^ 63 -> i64 x = x.
Proof. intros. unfold i64. rewrite Z.mod_small; lia. Qed.

Lemma u8_range x : 0 <= u8 x < 2 ^ 8.
Proof. apply Z.mod_pos_bound; lia. Qed.
Lemma u16_range x : 0 <= u16 x < 2 ^ 16.
Proof. apply Z.mod_pos_bound; lia. Qed.
Lemma u32_range x : 0 <= u32 x < 2 ^ 32.
Proof. apply Z.mod_pos_bound; lia. Qed.
Lemma u64_range x : 0 <= u64 x < 2 ^ 64.
Proof. apply Z.mod_pos_bound; lia. Qed.

Lemma u64_add_l a b : u64 (u64 a + b) = u64 (a + b).
Proof. apply Zplus_mod_idemp_l. Qed.
Lemma u64_add_r a b : u64 (a + u64 b) = u64 (a + b).
Proof. apply Zplus_mod_idemp_r. Qed.
Lemma u64_sub_l a b : u64 (u64 a - b) = u64 (a - b).
Proof. apply Zminus_mod_idemp_l. Qed.
Lemma u64_sub_r a b : u64 (a - u64 b) = u64 (a - b).
Proof. apply Zminus_mod_idemp_r. Qed.
Lemma u64_idem a : u64 (u64 a) = u64 a.
Proof. apply Zmod_mod. Qed.
Lemma u32_add_l a b : u32 (u32 a + b) = u32 (a + b).
Proof. apply Zplus_mod_idemp_l. Qed.
Lemma u32_idem a : u32 (u32 a) = u32 a.
Proof. apply Zmod_mod. Qed.

Lemma u64_add_ll a b c : u64 (u64 a + b + c) = u64 (a + b + c).
Proof. by rewrite <- !Z.add_assoc, u64_add_l. Qed.
Lemma u64_add_lr a b c : u64 (a + u64 b + c) = u64 (a + b + c).
Proof. by rewrite <- (u64_add_l (a + u64 b)), u64_add_r, u64_add_l. Qed.

#[export] Hint Rewrite u64_add_ll u64_add_lr u64_add_l u64_add_r u64_sub_l u64_sub_r u64_idem : u64.

(** Two wrapped sums are equal when the unwrapped ones are. *)
Lemma u64_eq a b : a = b -> u64 a = u64 b.
Proof. by intros ->. Qed.

(** Adding the same amount on both sides of a wrapped equation. *)
Lemma u64_shift a b x c d : u64 a = u64 b -> c = a + x -> d = b + x -> u64 c = u64 d.
Proof. intros H -> ->. by rewrite <- (u64_add_l a), H, u64_add_l. Qed.

Ltac u64_norm := autorewrite with u64; apply u64_eq; try lia.

(** ** List lemmas *)

Lemma zlen_nonneg {A} (l : list A) : 0 <= zlen l.
Proof. unfold zlen; lia. Qed.
Lemma zlen_nil {A} : zlen (@nil A) = 0.
Proof. reflexivity. Qed.
Lemma zlen_cons {A} (x : A) l : zlen (x :: l) = 1 + zlen l.
Proof. unfold zlen; simpl; lia. Qed.
Lemma zlen_app {A} (l k : list A) : zlen (l ++ k) = zlen l + zlen k.
Proof. unfold zlen; rewrite length_app; lia. Qed.
Lemma zlen_snoc {A} (l : list A) x : zlen (l ++ [x]) = zlen l + 1.
Proof. by rewrite zlen_app. Qed.
Lemma zlen_ztake {A} n (l : list A) : 0 <= n -> zlen (ztake n l) = Z.min n (zlen l).
Proof. intros; unfold zlen, ztake; rewrite length_take; lia. Qed.
Lemma zlen_ztake_le {A} n (l : list A) : 0 <= n <= zlen l -> zlen (ztake n l) = n.
Proof. intros; rewrite zlen_ztake; lia. Qed.
Lemma zlen_zdrop {A} n (l : list A) : 0 <= n <= zlen l -> zlen (zdrop n l) = zlen l - n.
Proof. intros; unfold zlen, zdrop in *; rewrite length_drop; lia. Qed.
Lemma zlen_0 {A} (l : list A) : zlen l = 0 -> l = [].
Proof. destruct l; [done|]. rewrite zlen_cons. pose proof (zlen_nonneg l). lia. Qed.

#[export] Hint Rewrite @zlen_nil @zlen_cons @zlen_app : zlen.

Lemma ztake_zdrop {A} n (l : list A) : ztake n l ++ zdrop n l = l.
Proof. apply take_drop. Qed.
Lemma ztake_0 {A} (l : list A) : ztake 0 l = [].
Proof. reflexivity. Qed.
Lemma zdrop_0 {A} (l : list A) : zdrop 0 l = l.
Proof. reflexivity. Qed.
Lemma ztake_ge {A} n (l : list A) : zlen l <= n -> ztake n l = l.
Proof. intros; apply take_ge. unfold zlen in *; lia. Qed.
Lemma zdrop_ge {A} n (l : list A) : zlen l <= n -> zdrop n l = [].
Proof. intros; apply drop_ge. unfold zlen in *; lia. Qed.
Lemma ztake_app_le {A} n (l k : list A) : 0 <= n <= zlen l -> ztake n (l ++ k) = ztake n l.
Proof. intros; apply take_app_le. unfold zlen in *; lia. Qed.
Lemma zdrop_app_le {A} n (l k : list A) : 0 <= n <= zlen l -> zdrop n (l ++ k) = zdrop n l ++ k.
Proof. intros; apply drop_app_le. unfold zlen in *; lia. Qed.
Lemma ztake_app_exact {A} (l k : list A) : ztake (zlen l) (l ++ k) = l.
Proof. rewrite ztake_app_le by (pose proof (zlen_nonneg l); lia). by apply ztake_ge. Qed.
Lemma zdrop_app_exact {A} (l k : list A) : zdrop (zlen l) (l ++ k) = k.
Proof.
  rewrite zdrop_app_le by (pose proof (zlen_nonneg l); lia). by rewrite zdrop_ge by lia.
Qed.
Lemma ztake_ztake {A} n m (l : list A) : 0 <= n <= m -> ztake n (ztake m l) = ztake n l.
Proof. intros; unfold ztake. rewrite take_take. f_equal. lia. Qed.
Lemma zdrop_zdrop {A} n m (l : list A) : 0 <= n -> 0 <= m -> zdrop n (zdrop m l) = zdrop (m + n) l.
Proof. intros; unfold zdrop. rewrite drop_drop. f_equal. lia. Qed.
Lemma zdrop_ztake {A} n m (l : list A) :
  0 <= n <= m -> zdrop n (ztake m l) = ztake (m - n) (zdrop n l).
Proof.
  intros; unfold ztake, zdrop. rewrite skipn_firstn_comm. f_equal. lia.
Qed.
Lemma ztake_cons {A} n (x : A) l : 0 < n -> ztake n (x :: l) = x :: ztake (n - 1) l.
Proof.
  intros; unfold ztake. replace (Z.to_nat n) with (S (Z.to_nat (n - 1))) by lia. reflexivity.
Qed.
Lemma zdrop_cons {A} n (x : A) l : 0 < n -> zdrop n (x :: l) = zdrop (n - 1) l.
Proof.
  intros; unfold zdrop. replace (Z.to_nat n) with (S (Z.to_nat (n - 1))) by lia. reflexivity.
Qed.
Lemma ztake_add {A} a b (l : list A) :
  0 <= a -> 0 <= b -> ztake (a + b) l = ztake a l ++ ztake b (zdrop a l).
Proof.
  intros; unfold ztake, zdrop.
  replace (Z.to_nat (a + b)) with (Z.to_nat a + Z.to_nat b)%nat by lia.
  symmetry; apply take_take_drop.
Qed.

Lemma zget_app_l l k i : 0 <= i < zlen l -> zget (l ++ k) i = zget l i.
Proof. intros; unfold zget. rewrite lookup_app_l; [done|]. unfold zlen in *; lia. Qed.
Lemma zget_ztake l n i : 0 <= i < n -> zget (ztake n l) i = zget l i.
Proof. intros; unfold zget, ztake. rewrite lookup_take_lt; [done|lia]. Qed.
Lemma zget_zdrop l n i : 0 <= n -> 0 <= i -> zget (zdrop n l) i = zget l (n + i).
Proof. intros; unfold zget, zdrop. rewrite lookup_drop. do 2 f_equal. lia. Qed.
Lemma zget_app_r (l k : list Z) i : zlen l <= i -> zget (l ++ k) i = zget k (i - zlen l).
Proof.
  intros. unfold zget, zlen in *. rewrite lookup_app_r by lia. do 2 f_equal. lia.
Qed.

Lemma zget_cons_0 x l : zget (x :: l) 0 = x.
Proof. reflexivity. Qed.
Lemma zget_cons_S x l i : 0 < i -> zget (x :: l) i = zget l (i - 1).
Proof.
  intros; unfold zget. replace (Z.to_nat i) with (S (Z.to_nat (i - 1))) by lia. reflexivity.
Qed.

Lemma zlen_splice dst off src :
  0 <= off -> off + zlen src <= zlen dst -> zlen (splice dst off src) = zlen dst.
Proof.
  intros. pose proof (zlen_nonneg src). unfold splice.
  rewrite !zlen_app, zlen_ztake_le, zlen_zdrop; lia.
Qed.
Lemma ztake_splice dst off src :
  0 <= off <= zlen dst ->
  ztake (off + zlen src) (splice dst off src) = ztake off dst ++ src.
Proof.
  intros. unfold splice. rewrite app_assoc.
  replace (off + zlen src) with (zlen (ztake off dst ++ src)) at 1
    by (rewrite zlen_app, zlen_ztake_le; lia).
  apply ztake_app_exact.
Qed.

Lemma zdrop_splice dst off src :
  0 <= off <= zlen dst ->
  zdrop (off + zlen src) (splice dst off src) = zdrop (off + zlen src) dst.
Proof.
  intros. unfold splice. rewrite app_assoc.
  replace (off + zlen src) with (zlen (ztake off dst ++ src)) at 1
    by (rewrite zlen_app, zlen_ztake_le; lia).
  apply zdrop_app_exact.
Qed.

Lemma splice_nil dst off : 0 <= off <= zlen dst -> splice dst off [] = dst.
Proof. intros. unfold splice. rewrite zlen_nil, Z.add_0_r. apply ztake_zdrop. Qed.

(** Two adjacent copies are one copy. *)
Lemma splice_splice dst off a b :
  0 <= off -> off + zlen a + zlen b <= zlen dst ->
  splice (splice dst off a) (off + zlen a) b = splice dst off (a ++ b).
Proof.
  intros. pose proof (zlen_nonneg a). pose proof (zlen_nonneg b).
  unfold splice at 1. rewrite ztake_splice by lia.
  unfold splice. rewrite <- !app_assoc. do 3 f_equal.
  rewrite zlen_app.
  replace (off + zlen a + zlen b) with ((off + zlen a) + zlen b) by lia.
  rewrite <- zdrop_zdrop by lia.
  rewrite app_assoc.
  replace (off + zlen a) with (zlen (ztake off dst ++ a)) at 1
    by (rewrite zlen_app, zlen_ztake_le; lia).
  rewrite zdrop_app_exact, zdrop_zdrop by lia. f_equal. lia.
Qed.

Lemma zsum_app a b : zsum (a ++ b) = zsum a + zsum b.
Proof. induction a as [|x a IH]; simpl; lia. Qed.

Lemma bytes_eqb_eq a b : bytes_eqb a b = true <-> a = b.
Proof.
  revert b. induction a as [|x a IH]; intros [|y b]; simpl; split; try done.
  - intros [?%Z.eqb_eq ?%IH]%andb_true_iff; congruence.
  - intros [= -> ->]. rewrite Z.eqb_refl. by apply IH.
Qed.
Lemma bytes_eqb_refl a : bytes_eqb a a = true.
Proof. by apply bytes_eqb_eq. Qed.

Lemma of_str_app a b : of_str (a +:+ b) = of_str a ++ of_str b.
Proof.
  induction a as [|c a IH]; [done|].
  change (of_str (String c a +:+ b)) with (Z.of_nat (Ascii.nat_of_ascii c) :: of_str (a +:+ b)).
  by rewrite IH.
Qed.

Lemma zget_byte l i : bytes l -> is_byte (zget l i).
Proof.
  intros Hb. unfold zget. destruct (l !! Z.to_nat i) eqn:E; simpl; [|unfold is_byte; lia].
  eapply Forall_lookup in Hb; eauto.
Qed.

Lemma bytesb_bytes l : bytesb l = true -> bytes l.
Proof.
  unfold bytesb. rewrite forallb_forall. intros H. apply Forall_forall. intros b Hb.
  apply list_elem_of_In in Hb. specialize (H b Hb). unfold is_byte. lia.
Qed.

(** [Forall] of byte-ness over a literal list of byte strings. *)
Ltac bytes_each :=
  repeat (apply Forall_cons; split; [cbn beta; by apply bytesb_bytes|]); by apply Forall_nil.

#[export] Hint Resolve zlen_nonneg : fw.
