(* ===== verification/Crc24q.v ===== *)
(** * CRC-24Q (src/main/interface/ntrip_tx_core.c, "CRC24Q")

    The checksum of an RTCM3 frame.  [rtcm_crc24q] is the table-driven routine
    the device runs; [crc24q_bitwise] is the reference it stands for, which
    divides the message by the generator polynomial one bit at a time. *)

From S2P Require Import Prelude.

Definition CRC24Q_POLY : Z := 0x1864CFB.

(** One turn of the inner loop of [crc24q_build_table]. *)
Definition crc24q_shift (crc : Z) : Z :=
  let crc := u32 (Z.shiftl crc 1) in
  if Z.land crc 0x1000000 =? 0 then crc else Z.lxor crc CRC24Q_POLY.

Fixpoint crc24q_shifts (n : nat) (crc : Z) : Z :=
  match n with
  | O => crc
  | S n' => crc24q_shifts n' (crc24q_shift crc)
  end.

(** One table entry: [s_crc24q_table[i]]. *)
Definition crc24q_entry (i : Z) : Z :=
  Z.land (crc24q_shifts 8 (Z.shiftl i 16)) 0xFFFFFF.

(** [crc24q_build_table]: the 256 entries of [s_crc24q_table]. *)
Definition crc24q_build_table : list Z :=
  map (fun i => crc24q_entry (Z.of_nat i)) (seq 0 256).

(** The index into the table for the byte [b]. *)
Definition crc24q_pos (crc b : Z) : Z := Z.land (Z.lxor (Z.shiftr crc 16) b) 0xFF.

(** The body of the loop of [rtcm_crc24q], with the table as an argument. *)
Definition crc24q_step (table : list Z) (crc b : Z) : Z :=
  Z.lxor (Z.land (u32 (Z.shiftl crc 8)) 0xFFFFFF)
         (zget table (crc24q_pos crc b)).

(** [rtcm_crc24q]: the table exists before the loop runs, whichever of
    [rtcm_parser_init] and [rtcm_crc24q] built it first. *)
Definition s_crc24q_table : list Z := Eval vm_compute in crc24q_build_table.

Definition rtcm_crc24q (data : list Z) : Z :=
  fold_left (crc24q_step s_crc24q_table) data 0.

(** A complete RTCM 1005 message of the standard's example, without its CRC. *)
Definition sample_1005 : list Z :=
  [0xD3; 0x00; 0x13; 0x3E; 0xD7; 0xD3; 0x02; 0x02; 0x98; 0x0E; 0xDE; 0xEF; 0x34;
   0xB4; 0xBD; 0x62; 0xAC; 0x09; 0x41; 0x98; 0x6F; 0x33].

(** ** Reference: bitwise division by the generator

    The register holds 24 bits; one step shifts it left, brings the carry out
    and subtracts the generator when the carry is set. *)
Definition ref_shift (crc : Z) : Z :=
  let crc := Z.shiftl crc 1 in
  if Z.testbit crc 24 then Z.lxor crc CRC24Q_POLY else crc.

Fixpoint ref_shifts (n : nat) (crc : Z) : Z :=
  match n with
  | O => crc
  | S n' => ref_shifts n' (ref_shift crc)
  end.

Definition ref_step (crc b : Z) : Z :=
  ref_shifts 8 (Z.lxor crc (Z.shiftl b 16)).

Definition crc24q_bitwise (data : list Z) : Z := fold_left ref_step data 0.

(** ** Bounds and linearity of one bit step *)

Lemma testbit_high a n i : 0 <= a < 2 ^ n -> 0 <= n <= i -> Z.testbit a i = false.
Proof.
  intros Ha Hi. rewrite <- (Z.mod_small a (2 ^ n)) by done.
  apply Z.mod_pow2_bits_high. lia.
Qed.

Lemma lt_of_bits a n :
  0 <= n -> 0 <= a -> (forall i, n <= i -> Z.testbit a i = false) -> 0 <= a < 2 ^ n.
Proof.
  intros Hn Ha Hb. split; [done|].
  assert (a = a mod 2 ^ n) as ->; [|apply Z.mod_pos_bound; lia].
  rewrite <- Z.land_ones by done. apply Z.bits_inj'. intros i Hi.
  rewrite Z.land_spec. destruct (Z.lt_ge_cases i n).
  - rewrite Z.ones_spec_low by lia. by rewrite andb_true_r.
  - by rewrite Hb.
Qed.

Lemma lxor_lt a b n :
  0 <= n -> 0 <= a < 2 ^ n -> 0 <= b < 2 ^ n -> 0 <= Z.lxor a b < 2 ^ n.
Proof.
  intros Hn Ha Hb. apply lt_of_bits; [done|apply Z.lxor_nonneg; lia|].
  intros i Hi. by rewrite Z.lxor_spec, (testbit_high a n), (testbit_high b n) by lia.
Qed.

Lemma land_ones_lt a n : 0 <= n -> 0 <= Z.land a (Z.ones n) < 2 ^ n.
Proof. intros. rewrite Z.land_ones by done. apply Z.mod_pos_bound. lia. Qed.

Lemma ref_shift_lxor a b : ref_shift (Z.lxor a b) = Z.lxor (ref_shift a) (ref_shift b).
Proof.
  unfold ref_shift. rewrite Z.shiftl_lxor, Z.lxor_spec.
  set (x := Z.shiftl a 1). set (y := Z.shiftl b 1).
  destruct (Z.testbit x 24), (Z.testbit y 24); simpl.
  - rewrite (Z.lxor_assoc x), (Z.lxor_comm CRC24Q_POLY), Z.lxor_assoc, Z.lxor_nilpotent.
    by rewrite Z.lxor_0_r.
  - by rewrite !Z.lxor_assoc, (Z.lxor_comm y).
  - by rewrite Z.lxor_assoc.
  - done.
Qed.

Lemma ref_shifts_lxor n a b :
  ref_shifts n (Z.lxor a b) = Z.lxor (ref_shifts n a) (ref_shifts n b).
Proof.
  revert a b. induction n as [|n IH]; intros; simpl; [done|].
  by rewrite ref_shift_lxor, IH.
Qed.

(** Bits that cannot reach position 24 are only shifted. *)
Lemma ref_shifts_low n lo :
  (n <= 8)%nat -> 0 <= lo < 2 ^ (24 - Z.of_nat n) ->
  ref_shifts n lo = Z.shiftl lo (Z.of_nat n).
Proof.
  revert lo. induction n as [|n IH]; intros lo Hn Hlo; [by rewrite Z.shiftl_0_r|].
  cbn [ref_shifts]. unfold ref_shift.
  rewrite Z.shiftl_spec, (testbit_high lo (24 - Z.of_nat (S n))) by lia.
  assert (Hlo' : 0 <= Z.shiftl lo 1 < 2 ^ (24 - Z.of_nat n)).
  { rewrite Z.shiftl_mul_pow2 by lia.
    replace (24 - Z.of_nat n) with (24 - Z.of_nat (S n) + 1) by lia.
    rewrite Z.pow_add_r by lia. lia. }
  rewrite IH by lia. rewrite Z.shiftl_shiftl by lia. f_equal. lia.
Qed.

(** ** The table *)

Definition table_ok (i : Z) : bool :=
  (zget s_crc24q_table i =? ref_shifts 8 (Z.shiftl i 16))
  && (zget s_crc24q_table i <? 2 ^ 24) && (0 <=? zget s_crc24q_table i).

Lemma table_entry i :
  0 <= i < 256 ->
  zget s_crc24q_table i = ref_shifts 8 (Z.shiftl i 16)
  /\ 0 <= zget s_crc24q_table i < 2 ^ 24.
Proof.
  intros Hi.
  assert (Hall : forallb (fun k => table_ok (Z.of_nat k)) (seq 0 256) = true)
    by (vm_compute; reflexivity).
  rewrite forallb_forall in Hall.
  specialize (Hall (Z.to_nat i)). rewrite Z2Nat.id in Hall by lia.
  unfold table_ok in Hall.
  assert (In (Z.to_nat i) (seq 0 256)) as Hin by (apply in_seq; lia).
  specialize (Hall Hin). lia.
Qed.

(** The index of a table lookup is always inside the table. *)
Lemma crc24q_index crc b :
  0 <= crc < 2 ^ 24 -> is_byte b ->
  Z.land (Z.lxor (Z.shiftr crc 16) b) 0xFF = Z.lxor (Z.shiftr crc 16) b
  /\ 0 <= Z.lxor (Z.shiftr crc 16) b < 256.
Proof.
  intros Hc Hb. unfold is_byte in Hb.
  assert (Hr : 0 <= Z.shiftr crc 16 < 2 ^ 8).
  { rewrite Z.shiftr_div_pow2 by lia. split; [apply Z.div_pos; lia|].
    apply Z.div_lt_upper_bound; lia. }
  pose proof (lxor_lt (Z.shiftr crc 16) b 8 ltac:(lia) Hr ltac:(lia)) as Hx.
  change 0xFF with (Z.ones 8). rewrite Z.land_ones, Z.mod_small by lia. split; [done|lia].
Qed.

Lemma land_low24 crc :
  0 <= crc < 2 ^ 24 ->
  Z.land (u32 (Z.shiftl crc 8)) 0xFFFFFF = Z.shiftl (Z.land crc 0xFFFF) 8.
Proof.
  intros Hc. change 0xFFFFFF with (Z.ones 24). change 0xFFFF with (Z.ones 16).
  unfold u32. rewrite !Z.land_ones by lia.
  rewrite !Z.shiftl_mul_pow2 by lia.
  pose proof (Z.div_mod crc (2 ^ 16) ltac:(lia)).
  rewrite (Z.mod_small (crc * 2 ^ 8) (2 ^ 32)) by lia.
  change (2 ^ 24) with (2 ^ 16 * 2 ^ 8). rewrite Z.mul_mod_distr_r by lia. done.
Qed.

Lemma crc24q_step_ref crc b :
  0 <= crc < 2 ^ 24 -> is_byte b -> crc24q_step s_crc24q_table crc b = ref_step crc b.
Proof.
  intros Hc Hb. destruct (crc24q_index crc b Hc Hb) as [Hi1 Hi2].
  destruct (table_entry _ Hi2) as [Ht _].
  unfold crc24q_step, crc24q_pos, ref_step. rewrite Hi1, land_low24, Ht by done.
  set (lo := Z.land crc 0xFFFF). set (hi := Z.shiftr crc 16).
  assert (Hlo : 0 <= lo < 2 ^ 16) by (apply (land_ones_lt crc 16); lia).
  assert (Hcrc : crc = Z.lxor (Z.shiftl hi 16) lo).
  { apply Z.bits_inj'. intros i Hi. unfold lo, hi. rewrite Z.lxor_spec, Z.land_spec.
    change 0xFFFF with (Z.ones 16). rewrite Z.shiftl_spec by lia.
    destruct (Z.lt_ge_cases i 16).
    - rewrite (Z.testbit_neg_r (Z.shiftr crc 16)), Z.ones_spec_low by lia. by rewrite andb_true_r.
    - rewrite Z.shiftr_spec, Z.ones_spec_high by lia.
      rewrite andb_false_r, xorb_false_r. f_equal. lia. }
  rewrite Hcrc. rewrite Z.lxor_assoc, (Z.lxor_comm lo), <- Z.lxor_assoc.
  rewrite <- Z.shiftl_lxor, ref_shifts_lxor, (ref_shifts_low 8 lo) by (simpl; lia).
  apply Z.lxor_comm.
Qed.

Lemma crc24q_step_range crc b :
  0 <= crc < 2 ^ 24 -> is_byte b -> 0 <= crc24q_step s_crc24q_table crc b < 2 ^ 24.
Proof.
  intros Hc Hb. destruct (crc24q_index crc b Hc Hb) as [Hi1 Hi2].
  destruct (table_entry _ Hi2) as [_ Ht].
  unfold crc24q_step, crc24q_pos. rewrite Hi1. apply lxor_lt; [lia| |done].
  apply (land_ones_lt _ 24); lia.
Qed.

Lemma rtcm_crc24q_fold data crc :
  bytes data -> 0 <= crc < 2 ^ 24 ->
  fold_left (crc24q_step s_crc24q_table) data crc = fold_left ref_step data crc
  /\ 0 <= fold_left (crc24q_step s_crc24q_table) data crc < 2 ^ 24.
Proof.
  intros Hd. revert crc. induction Hd as [|b data Hb Hd IH]; intros crc Hc; [done|].
  cbn [fold_left]. rewrite <- (crc24q_step_ref crc b) by done.
  apply IH, crc24q_step_range; done.
Qed.

Lemma rtcm_crc24q_range data : bytes data -> 0 <= rtcm_crc24q data < 2 ^ 24.
Proof. intros Hd. apply (rtcm_crc24q_fold data 0 Hd). lia. Qed.

(** ** Properties *)

(** C5: on every byte string the table-driven [rtcm_crc24q] returns the 24-bit
    remainder that bitwise division by the generator 0x1864CFB returns; the table has 256
    entries, and the index looked up for each byte, with the register the bytes before
    it leave, is one of theirs. *)
Theorem rtcm_crc24q_correct data :
  bytes data ->
  rtcm_crc24q data = crc24q_bitwise data /\ 0 <= rtcm_crc24q data < 2 ^ 24 /\
  zlen s_crc24q_table = 256 /\
  forall before b after, data = before ++ b :: after ->
    0 <= crc24q_pos (rtcm_crc24q before) b < zlen s_crc24q_table.
Proof.
  intros Hd. split; [apply (rtcm_crc24q_fold data 0 Hd); lia|].
  split; [by apply rtcm_crc24q_range|]. split; [done|].
  intros before b after ->. apply Forall_app in Hd as [Hb [Hx _]%Forall_cons].
  destruct (crc24q_index _ b (rtcm_crc24q_range before Hb) Hx) as [E R].
  unfold crc24q_pos. rewrite E. exact R.
Qed.

Lemma rtcm_crc24q_correct_witness :
  bytes sample_1005 /\ rtcm_crc24q sample_1005 = 0x360B98.
Proof.
  assert (H : bytes sample_1005) by (repeat constructor; unfold is_byte; lia).
  split; [exact H|].
  rewrite (proj1 (rtcm_crc24q_correct sample_1005 H)). vm_compute. reflexivity.
Defined.
