(* ===== verification/RtcmParser.v ===== *)
(** * RTCM3 stream parser (src/main/interface/ntrip_tx_core.c, "Parser")

    The buffer-level parser of the device, and an abstract scanner of the byte
    stream it implements.  [rtcm_parser_feed] works on a 1029-byte buffer with a
    fill level; [scans] says what a stream of bytes means, without buffer,
    chunks or fill level. *)

From S2P Require Import Prelude Crc24q.

Definition RTCM_MAX_FRAME_B : Z := 1029.

Record rtcm_parser_t := mk_parser {
  p_buf : list Z;              (* uint8_t buf[RTCM_MAX_FRAME_B] *)
  p_have : Z;                  (* uint16_t *)
  p_need : Z;                  (* uint16_t *)
  p_frames_ok : Z;             (* uint64_t, as the three below *)
  p_bytes_ok : Z;
  p_bytes_discarded : Z;
  p_crc_errors : Z
}.

Definition eta_rtcm_parser_t (x : rtcm_parser_t) : rtcm_parser_t := mk_parser (p_buf x) (p_have x) (p_need x)
  (p_frames_ok x) (p_bytes_ok x) (p_bytes_discarded x) (p_crc_errors x).
#[export] Instance set_p_buf : Setter p_buf := ltac:(derive_setter eta_rtcm_parser_t).
#[export] Instance set_p_have : Setter p_have := ltac:(derive_setter eta_rtcm_parser_t).
#[export] Instance set_p_need : Setter p_need := ltac:(derive_setter eta_rtcm_parser_t).
#[export] Instance set_p_frames_ok : Setter p_frames_ok := ltac:(derive_setter eta_rtcm_parser_t).
#[export] Instance set_p_bytes_ok : Setter p_bytes_ok := ltac:(derive_setter eta_rtcm_parser_t).
#[export] Instance set_p_bytes_discarded : Setter p_bytes_discarded := ltac:(derive_setter eta_rtcm_parser_t).
#[export] Instance set_p_crc_errors : Setter p_crc_errors := ltac:(derive_setter eta_rtcm_parser_t).

(** [rtcm_parser_init]: the memset (the table is built on the same occasion,
    see [s_crc24q_table]). *)
Definition rtcm_parser_init : rtcm_parser_t :=
  mk_parser (repeat 0 1029) 0 0 0 0 0 0.

(** The loop of [parser_hunt_in_buf]: [n] is [have - i]. *)
Fixpoint hunt_scan (n : nat) (buf : list Z) (i : Z) : Z :=
  match n with
  | O => i
  | S n' => if zget buf i =? 0xD3 then i else hunt_scan n' buf (i + 1)
  end.

Definition parser_hunt_in_buf (p : rtcm_parser_t) (from : Z) : rtcm_parser_t :=
  let i := hunt_scan (Z.to_nat (p_have p - from)) (p_buf p) from in
  let p := p <| p_bytes_discarded := u64 (p_bytes_discarded p + i) |> in
  let p :=
    if i <? p_have p
    then p <| p_buf := memmove_down (p_buf p) i (p_have p - i) |>
           <| p_have := u16 (p_have p - i) |>
    else p <| p_have := 0 |> in
  p <| p_need := 0 |>.

(** The frame length a header announces: [need]. *)
Definition header_need (b1 b2 : Z) : Z :=
  u16 (Z.lor (Z.shiftl (Z.land b1 0x03) 8) b2 + 6).

(** [want]: the CRC field of a frame of [need] bytes in [buf]. *)
Definition crc_field (buf : list Z) (need : Z) : Z :=
  Z.lor (Z.lor (Z.shiftl (zget buf (need - 3)) 16) (Z.shiftl (zget buf (need - 2)) 8))
        (zget buf (need - 1)).

Section Callback.
(** The frame callback [rtcm_frame_cb], with the context it threads; it gets
    the frame bytes, their number and the chunk's time. *)
Context {C : Type} (cb : option (C -> list Z -> Z -> Z -> C)).

Definition run_cb (c : C) (frame : list Z) (len now_ms : Z) : C :=
  match cb with Some f => f c frame len now_ms | None => c end.

(** [parser_process]: the endless loop, [None] when the fuel is spent. *)
Fixpoint parser_process_loop (fuel : nat) (p : rtcm_parser_t) (now_ms : Z) (c : C)
    : option (rtcm_parser_t * C) :=
  match fuel with
  | O => None
  | S fuel' =>
    if p_have p <? 3 then Some (p <| p_need := 0 |>, c)
    else if negb (Z.land (zget (p_buf p) 1) 0xFC =? 0)
    then parser_process_loop fuel' (parser_hunt_in_buf p 1) now_ms c
    else
      let need := header_need (zget (p_buf p) 1) (zget (p_buf p) 2) in
      let p := p <| p_need := need |> in
      if p_have p <? need then Some (p, c)
      else if rtcm_crc24q (ztake (need - 3) (p_buf p)) =? crc_field (p_buf p) need
      then
        let p := p <| p_frames_ok := u64 (p_frames_ok p + 1) |>
                   <| p_bytes_ok := u64 (p_bytes_ok p + need) |> in
        let c := run_cb c (ztake need (p_buf p)) need now_ms in
        let p := if need <? p_have p
                 then p <| p_buf := memmove_down (p_buf p) need (p_have p - need) |>
                 else p in
        let p := p <| p_have := u16 (p_have p - need) |> <| p_need := 0 |> in
        let p := if (0 <? p_have p) && negb (zget (p_buf p) 0 =? 0xD3)
                 then parser_hunt_in_buf p 0 else p in
        parser_process_loop fuel' p now_ms c
      else
        let p := p <| p_crc_errors := u64 (p_crc_errors p + 1) |> in
        parser_process_loop fuel' (parser_hunt_in_buf p 1) now_ms c
  end.

(** Every turn of the loop shortens the buffer, so [have + 1] turns do. *)
Definition parser_process (p : rtcm_parser_t) (now_ms : Z) (c : C)
    : option (rtcm_parser_t * C) :=
  parser_process_loop (S (Z.to_nat (p_have p))) p now_ms c.

(** The preamble hunt of [rtcm_parser_feed]: the rest of the input behind the
    preamble, or [None] when the input ended first. *)
Fixpoint hunt_input (p : rtcm_parser_t) (data : list Z)
    : rtcm_parser_t * option (list Z) :=
  match data with
  | [] => (p, None)
  | b :: rest =>
    if b =? 0xD3
    then (p <| p_buf := splice (p_buf p) 0 [0xD3] |> <| p_have := 1 |>, Some rest)
    else hunt_input (p <| p_bytes_discarded := u64 (p_bytes_discarded p + 1) |>) rest
  end.

(** The rest of the loop body of [rtcm_parser_feed]: top up toward the next
    decision point.  [None] stands for a [parser_process] that never returns. *)
Definition feed_top_up (p : rtcm_parser_t) (data : list Z) (now_ms : Z) (c : C)
    : option (rtcm_parser_t * C * list Z) :=
  let target := if p_have p <? 3 then 3 else p_need p in
  let want := u32 (target - p_have p) in
  let avail := zlen data in
  let take_n := if want <? avail then want else avail in
  let p := p <| p_buf := splice (p_buf p) (p_have p) (ztake take_n data) |>
             <| p_have := u16 (p_have p + take_n) |> in
  if p_have p =? target
  then match parser_process p now_ms c with
       | Some (p, c) => Some (p, c, zdrop take_n data)
       | None => None
       end
  else Some (p, c, zdrop take_n data).

(** [rtcm_parser_feed]: [data] is what is left of the chunk ([data + i]). *)
Fixpoint rtcm_parser_feed_loop (fuel : nat) (p : rtcm_parser_t) (data : list Z)
    (now_ms : Z) (c : C) : option (rtcm_parser_t * C) :=
  match data with
  | [] => Some (p, c)
  | _ :: _ =>
    match fuel with
    | O => None
    | S fuel' =>
      let '(p, rest) := if p_have p =? 0 then hunt_input p data else (p, Some data) in
      match rest with
      | None => Some (p, c)
      | Some data =>
        match feed_top_up p data now_ms c with
        | Some (p, c, data) => rtcm_parser_feed_loop fuel' p data now_ms c
        | None => None
        end
      end
    end
  end.

(** Every turn consumes a byte, so the chunk's length bounds the turns. *)
Definition rtcm_parser_feed (p : rtcm_parser_t) (data : list Z) (now_ms : Z) (c : C)
    : option (rtcm_parser_t * C) :=
  rtcm_parser_feed_loop (length data) p data now_ms c.

(** A sequence of calls, one per UART chunk, each with its time. *)
Fixpoint feed_chunks (p : rtcm_parser_t) (chunks : list (list Z * Z)) (c : C)
    : option (rtcm_parser_t * C) :=
  match chunks with
  | [] => Some (p, c)
  | (data, now_ms) :: rest =>
    match rtcm_parser_feed p data now_ms c with
    | Some (p, c) => feed_chunks p rest c
    | None => None
    end
  end.
End Callback.

(** ** Abstract scanner *)

Definition stream_need (l : list Z) : Z := header_need (zget l 1) (zget l 2).

(** A byte string that is one complete, valid RTCM3 frame. *)
Definition valid_frame (f : list Z) : Prop :=
  zget f 0 = 0xD3 /\ 6 <= zlen f /\ Z.land (zget f 1) 0xFC = 0
  /\ stream_need f = zlen f
  /\ rtcm_crc24q (ztake (zlen f - 3) f) = crc_field f (zlen f).

(** [at_header l]: the stream starts with a plausible, complete header. *)
Definition at_header (l : list Z) : Prop :=
  zget l 0 = 0xD3 /\ 3 <= zlen l /\ Z.land (zget l 1) 0xFC = 0.

(** [incomplete l]: nothing can be decided about [l] before more input. *)
Definition incomplete (l : list Z) : Prop :=
  zget l 0 = 0xD3 /\ 0 < zlen l /\
  (zlen l < 3 \/ (at_header l /\ zlen l < stream_need l)).

(** [scans l fs d e r]: reading the stream [l] emits the frames [fs], discards
    [d] bytes, meets [e] checksum errors and waits with [r] pending. *)
Inductive scans : list Z -> list (list Z) -> Z -> Z -> list Z -> Prop :=
  | scans_empty : scans [] [] 0 0 []
  | scans_wait l : incomplete l -> scans l [] 0 0 l
  | scans_noise b l fs d e r :
      b <> 0xD3 -> scans l fs d e r -> scans (b :: l) fs (d + 1) e r
  | scans_reserved l fs d e r :
      zget l 0 = 0xD3 -> 3 <= zlen l -> Z.land (zget l 1) 0xFC <> 0 ->
      scans (zdrop 1 l) fs d e r -> scans l fs (d + 1) e r
  | scans_frame l fs d e r :
      at_header l -> stream_need l <= zlen l ->
      rtcm_crc24q (ztake (stream_need l - 3) l) = crc_field l (stream_need l) ->
      scans (zdrop (stream_need l) l) fs d e r ->
      scans l (ztake (stream_need l) l :: fs) d e r
  | scans_bad_crc l fs d e r :
      at_header l -> stream_need l <= zlen l ->
      rtcm_crc24q (ztake (stream_need l - 3) l) <> crc_field l (stream_need l) ->
      scans (zdrop 1 l) fs d e r -> scans l fs (d + 1) (e + 1) r.

(** The bytes the parser holds. *)
Definition contents (p : rtcm_parser_t) : list Z := ztake (p_have p) (p_buf p).

(** What [rtcm_parser_feed] relies on between calls (the three cases of the
    comment on [parser_process]). *)
Definition parser_inv (p : rtcm_parser_t) : Prop :=
  zlen (p_buf p) = RTCM_MAX_FRAME_B /\ bytes (p_buf p) /\ 0 <= p_have p /\
  ((p_have p = 0 /\ p_need p = 0) \/
   (zget (p_buf p) 0 = 0xD3 /\ 0 < p_have p < 3 /\ p_need p = 0) \/
   (at_header (contents p) /\ p_need p = stream_need (contents p) /\
    p_have p < p_need p)).

(** The counters of [p'] are those of [p] plus what a scan found. *)
Definition counted (p p' : rtcm_parser_t) (fs : list (list Z)) (d e : Z) : Prop :=
  p_frames_ok p' = u64 (p_frames_ok p + zlen fs) /\
  p_bytes_ok p' = u64 (p_bytes_ok p + zsum (map zlen fs)) /\
  p_bytes_discarded p' = u64 (p_bytes_discarded p + d) /\
  p_crc_errors p' = u64 (p_crc_errors p + e).

(** The counters are stored as [uint64_t]. *)
Definition counters_u64 (p : rtcm_parser_t) : Prop :=
  0 <= p_frames_ok p < 2 ^ 64 /\ 0 <= p_bytes_ok p < 2 ^ 64 /\
  0 <= p_bytes_discarded p < 2 ^ 64 /\ 0 <= p_crc_errors p < 2 ^ 64.

(** Length of the prefix without preamble byte. *)
Fixpoint noise_len (l : list Z) : Z :=
  match l with
  | [] => 0
  | b :: l' => if b =? 0xD3 then 0 else 1 + noise_len l'
  end.

(** The buffer facts every step of the parser keeps. *)
Definition buf_ok (p : rtcm_parser_t) : Prop :=
  zlen (p_buf p) = RTCM_MAX_FRAME_B /\ bytes (p_buf p) /\
  0 <= p_have p <= RTCM_MAX_FRAME_B.

(** A stream taken apart: a gap before each frame, then a last gap. *)
Definition weave (gaps fs : list (list Z)) : list Z :=
  concat (zip_with (fun g f => g ++ f) gaps fs).

Definition no_preamble (g : list Z) : Prop := Forall (fun b => b <> 0xD3) g.

(** The bytes of a chunk sequence. *)
Definition stream (chunks : list (list Z * Z)) : list Z := concat (map fst chunks).

(** A callback that records the frames. *)
Definition log_frame (log : list (list Z)) (f : list Z) (_ _ : Z) : list (list Z) := log ++ [f].

(** Buffers [parser_process] is entered with: nothing, or a preamble first. *)
Definition aligned (p : rtcm_parser_t) : Prop :=
  contents p = [] \/ zget (contents p) 0 = 0xD3.

(** Consuming an accepted frame: the tail moves down, noise in front of the
    next preamble is dropped. *)
Definition consume (p : rtcm_parser_t) (need : Z) : rtcm_parser_t :=
  let p := if need <? p_have p
           then p <| p_buf := memmove_down (p_buf p) need (p_have p - need) |>
           else p in
  let p := p <| p_have := u16 (p_have p - need) |> <| p_need := 0 |> in
  if (0 <? p_have p) && negb (zget (p_buf p) 0 =? 0xD3)
  then parser_hunt_in_buf p 0 else p.

Section CallbackSpec.
Context {C : Type} (cb : option (C -> list Z -> Z -> Z -> C)).

(** The callbacks a sequence of frames makes, in order. *)
Definition run_cbs (c : C) (fs : list (list Z)) (now_ms : Z) : C :=
  fold_left (fun c f => run_cb cb c f (zlen f) now_ms) fs c.

(** The callbacks of frames completed in chunks of different times. *)
Definition run_timed (c : C) (fts : list (list Z * Z)) : C :=
  fold_left (fun c ft => run_cb cb c ft.1 (zlen ft.1) ft.2) fts c.

(** What one run of [parser_process] does to the bytes it holds. *)
Definition process_post (p : rtcm_parser_t) (now : Z) (c : C)
    (res : option (rtcm_parser_t * C)) : Prop :=
  exists q fs d e,
    res = Some (q, run_cbs c fs now) /\ parser_inv q /\
    scans (contents p) fs d e (contents q) /\ counted p q fs d e.

(** The result of feeding [data] to [p], of which [rest] is not looked at. *)
Definition feed_post (p : rtcm_parser_t) (data : list Z) (now : Z) (c : C)
    (q : rtcm_parser_t) (c' : C) : Prop :=
  exists fs d e, c' = run_cbs c fs now /\ parser_inv q /\
    scans (contents p ++ data) fs d e (contents q) /\ counted p q fs d e.
End CallbackSpec.

(** Inputs for the witnesses: a whole 1005 frame, one with a damaged checksum,
    and chunk sequences around them. *)
Definition frame_1005 : list Z := sample_1005 ++ [0x36; 0x0B; 0x98].
Definition bad_1005 : list Z := sample_1005 ++ [0x36; 0x0B; 0x99].
Definition demo_stream : list Z := [1; 2] ++ frame_1005 ++ [7] ++ frame_1005 ++ [].
Definition demo_chunks : list (list Z * Z) :=
  [(ztake 4 demo_stream, 10); (zdrop 4 demo_stream, 20)].

(** ** Helper lemmas: headers and lists *)

Lemma header_need_range b1 b2 : is_byte b2 -> 6 <= header_need b1 b2 <= RTCM_MAX_FRAME_B.
Proof.
  unfold is_byte, header_need, RTCM_MAX_FRAME_B. intros H2.
  pose proof (land_ones_lt b1 2 ltac:(lia)) as H1. change (Z.ones 2) with 3 in H1.
  set (h := Z.land b1 3) in *.
  assert (Hor : 0 <= Z.lor (Z.shiftl h 8) b2 < 2 ^ 10).
  { apply lt_of_bits; [lia| |].
    - apply Z.lor_nonneg. split; [apply Z.shiftl_nonneg; lia|lia].
    - intros i Hi. rewrite Z.lor_spec, Z.shiftl_spec by lia.
      rewrite (testbit_high h 2), (testbit_high b2 8) by lia. done. }
  rewrite u16_small by lia. lia.
Qed.

Lemma bytes_app l k : bytes (l ++ k) <-> bytes l /\ bytes k.
Proof. apply Forall_app. Qed.
Lemma bytes_ztake n l : bytes l -> bytes (ztake n l).
Proof. apply Forall_take. Qed.
Lemma bytes_zdrop n l : bytes l -> bytes (zdrop n l).
Proof. apply Forall_drop. Qed.
Lemma bytes_splice l off k : bytes l -> bytes k -> bytes (splice l off k).
Proof.
  intros. unfold splice. rewrite !bytes_app. auto using bytes_ztake, bytes_zdrop.
Qed.
#[export] Hint Resolve bytes_ztake bytes_zdrop bytes_splice : fw.

Lemma zget_1_drop l i : 0 <= i -> zget (zdrop 1 l) i = zget l (1 + i).
Proof. intros. by apply zget_zdrop; lia. Qed.

Lemma crc_field_ext l k n :
  3 <= n -> (forall i, 0 <= i < n -> zget l i = zget k i) -> crc_field l n = crc_field k n.
Proof. intros Hn H. unfold crc_field. rewrite !H by lia. done. Qed.

Lemma contents_get p i :
  0 <= i < p_have p -> zget (contents p) i = zget (p_buf p) i.
Proof. intros. by apply zget_ztake. Qed.

Lemma zlen_contents p :
  0 <= p_have p <= zlen (p_buf p) -> zlen (contents p) = p_have p.
Proof. intros. by apply zlen_ztake_le. Qed.

(** ** Scanner: composition and determinism *)

Lemma at_header_app l k : at_header l -> at_header (l ++ k).
Proof.
  intros (H0 & Hl & H1). pose proof (zlen_nonneg k).
  unfold at_header. rewrite zlen_app, !zget_app_l by lia. split_and!; auto; lia.
Qed.

Lemma stream_need_app l k : 3 <= zlen l -> stream_need (l ++ k) = stream_need l.
Proof. intros. unfold stream_need. by rewrite !zget_app_l by lia. Qed.

Lemma stream_need_range l : bytes l -> 6 <= stream_need l <= RTCM_MAX_FRAME_B.
Proof. intros. by apply header_need_range, zget_byte. Qed.

Lemma crc_field_app l k n :
  3 <= n <= zlen l -> crc_field (l ++ k) n = crc_field l n.
Proof. intros. apply crc_field_ext; [lia|]. intros. apply zget_app_l; lia. Qed.

(** Scanning a stream is scanning its first part and then the rest behind what
    was pending. *)
Lemma scans_app l fs d e r :
  scans l fs d e r -> bytes l -> forall k fs2 d2 e2 r2,
  scans (r ++ k) fs2 d2 e2 r2 ->
  scans (l ++ k) (fs ++ fs2) (d + d2) (e + e2) r2.
Proof.
  induction 1 as [|l Hi|b l fs d e r Hb Hs IH|l fs d e r H0 Hl H1 Hs IH
                 |l fs d e r Hh Hn Hc Hs IH|l fs d e r Hh Hn Hc Hs IH];
    intros Hby k fs2 d2 e2 r2 Hk; simpl.
  - exact Hk.
  - exact Hk.
  - apply Forall_cons in Hby as [_ Hby].
    replace (d + 1 + d2) with (d + d2 + 1) by lia. constructor; auto.
  - replace (d + 1 + d2) with (d + d2 + 1) by lia. pose proof (zlen_nonneg k).
    apply scans_reserved; rewrite ?zlen_app, ?zget_app_l by lia; auto; [lia|].
    rewrite zdrop_app_le by lia. auto with fw.
  - pose proof (stream_need_range l Hby) as Hr. destruct Hh as (? & ? & ?).
    rewrite <- (ztake_app_le (stream_need l) l k), <- (stream_need_app l k) by lia.
    pose proof (zlen_nonneg k).
    apply scans_frame.
    + apply at_header_app. repeat split; auto.
    + rewrite stream_need_app, zlen_app by lia. lia.
    + rewrite stream_need_app, ztake_app_le, crc_field_app by lia. done.
    + rewrite stream_need_app, zdrop_app_le by lia. auto with fw.
  - pose proof (stream_need_range l Hby) as Hr. destruct Hh as (? & ? & ?).
    replace (d + 1 + d2) with (d + d2 + 1) by lia.
    replace (e + 1 + e2) with (e + e2 + 1) by lia. pose proof (zlen_nonneg k).
    apply scans_bad_crc.
    + apply at_header_app. repeat split; auto.
    + rewrite stream_need_app, zlen_app by lia. lia.
    + rewrite stream_need_app, ztake_app_le, crc_field_app by lia. done.
    + rewrite zdrop_app_le by lia. auto with fw.
Qed.

Lemma incomplete_cons b l : b <> 0xD3 -> ~ incomplete (b :: l).
Proof. intros Hb (H & _). by rewrite zget_cons_0 in H. Qed.

Ltac scan_absurd :=
  unfold incomplete, at_header, zlen in *; simpl in *;
  rewrite ?zget_cons_0 in *; destruct_and?; destruct_or?; destruct_and?;
  first [congruence | lia].

(** The scanner is deterministic. *)
Lemma scans_det l fs d e r :
  scans l fs d e r -> forall fs' d' e' r', scans l fs' d' e' r' ->
  fs = fs' /\ d = d' /\ e = e' /\ r = r'.
Proof.
  induction 1 as [|l Hi|b l fs d e r Hb Hs IH|l fs d e r H0 Hl H1 Hs IH
                 |l fs d e r Hh Hn Hc Hs IH|l fs d e r Hh Hn Hc Hs IH];
    intros fs' d' e' r' H'; inversion H'; subst;
    first [ done | scan_absurd
          | destruct (IH _ _ _ _ ltac:(eassumption)) as (-> & -> & -> & ->); done ].
Qed.

(** ** Hunting *)

Lemma noise_len_bounds l : 0 <= noise_len l <= zlen l.
Proof.
  induction l as [|b l IH]; simpl; [unfold zlen; simpl; lia|].
  rewrite zlen_cons. case_if; lia.
Qed.

(** After the noise comes the end or a preamble. *)
Lemma noise_len_drop l :
  zdrop (noise_len l) l = [] \/ zget (zdrop (noise_len l) l) 0 = 0xD3.
Proof.
  induction l as [|b l IH]; simpl; [by left|].
  pose proof (noise_len_bounds l). case_if.
  - right. apply Z.eqb_eq in Heqb0. by subst.
  - rewrite zdrop_cons by lia. replace (1 + noise_len l - 1) with (noise_len l) by lia.
    exact IH.
Qed.

Lemma scans_noise_len l fs d e r :
  scans (zdrop (noise_len l) l) fs d e r -> scans l fs (d + noise_len l) e r.
Proof.
  revert d. induction l as [|b l IH]; intros d; simpl.
  - rewrite Z.add_0_r. done.
  - pose proof (noise_len_bounds l). case_if.
    + rewrite Z.add_0_r. done.
    + rewrite zdrop_cons by lia. replace (1 + noise_len l - 1) with (noise_len l) by lia.
      intros Hs. replace (d + (1 + noise_len l)) with (d + noise_len l + 1) by lia.
      constructor; [lia|]. auto.
Qed.

Lemma hunt_scan_spec n buf i l :
  0 <= i -> n = length l -> (forall k, 0 <= k < zlen l -> zget buf (i + k) = zget l k) ->
  hunt_scan n buf i = i + noise_len l.
Proof.
  revert n i. induction l as [|b l IH]; intros n i Hi -> Hg; simpl.
  - lia.
  - pose proof (zlen_nonneg l). rewrite zlen_cons in Hg.
    assert (Hb : zget buf i = b).
    { rewrite <- (Z.add_0_r i), Hg by lia. by rewrite zget_cons_0. }
    rewrite Hb. case_if; [lia|].
    rewrite (IH _ (i + 1)); [lia|lia|done|].
    intros k Hk. replace (i + 1 + k) with (i + (1 + k)) by lia.
    rewrite Hg, zget_cons_S by lia. f_equal. lia.
Qed.

Lemma buf_ok_len p : buf_ok p -> zlen (contents p) = p_have p.
Proof. intros (H & _ & ?). apply zlen_contents. lia. Qed.

Lemma buf_ok_bytes p : buf_ok p -> bytes (contents p).
Proof. intros (_ & H & _). by apply bytes_ztake. Qed.

(** Moving the tail of the buffer to its start keeps exactly that tail. *)
Lemma move_down p i :
  buf_ok p -> 0 <= i < p_have p ->
  let q := p <| p_buf := memmove_down (p_buf p) i (p_have p - i) |>
             <| p_have := u16 (p_have p - i) |> in
  buf_ok q /\ p_have q = p_have p - i /\ contents q = zdrop i (contents p).
Proof.
  intros (Hl & Hb & Hh) Hi. unfold RTCM_MAX_FRAME_B in *.
  assert (Hlen : zlen (ztake (p_have p - i) (zdrop i (p_buf p))) = p_have p - i).
  { rewrite zlen_ztake_le; [lia|]. rewrite zlen_zdrop; lia. }
  unfold buf_ok, contents, memmove_down, RTCM_MAX_FRAME_B; cbn.
  rewrite u16_small by lia. split_and!; try lia.
  - rewrite zlen_splice; rewrite ?Hlen; lia.
  - auto with fw.
  - rewrite zdrop_ztake by lia.
    rewrite <- Hlen at 1. rewrite <- (Z.add_0_l (zlen _)), ztake_splice by lia. done.
Qed.

Lemma hunt_spec p from :
  buf_ok p -> 0 <= from <= p_have p ->
  let k := from + noise_len (zdrop from (contents p)) in
  let q := parser_hunt_in_buf p from in
  buf_ok q /\ contents q = zdrop k (contents p) /\ p_have q = p_have p - k /\
  p_need q = 0 /\ p_frames_ok q = p_frames_ok p /\ p_bytes_ok q = p_bytes_ok p /\
  p_bytes_discarded q = u64 (p_bytes_discarded p + k) /\
  p_crc_errors q = p_crc_errors p /\
  (contents q = [] \/ zget (contents q) 0 = 0xD3).
Proof.
  intros Hok Hfrom k q. pose proof (buf_ok_len p Hok) as Hlen.
  set (tl := zdrop from (contents p)) in *.
  assert (Htl : zlen tl = p_have p - from) by (unfold tl; rewrite zlen_zdrop; lia).
  pose proof (noise_len_bounds tl) as Hn.
  assert (Hi : hunt_scan (Z.to_nat (p_have p - from)) (p_buf p) from = k).
  { apply hunt_scan_spec; [lia|unfold zlen in Htl; lia|].
    intros j Hj. unfold tl. rewrite zget_zdrop, contents_get by lia. done. }
  assert (Hnext : zdrop k (contents p) = [] \/ zget (zdrop k (contents p)) 0 = 0xD3).
  { unfold k. rewrite <- zdrop_zdrop by lia. apply noise_len_drop. }
  assert (Hkb : from <= k <= p_have p) by (unfold k; lia).
  unfold q, parser_hunt_in_buf. rewrite Hi. clearbody k. cbn [p_have upd set_p_bytes_discarded].
  destruct (k <? p_have p) eqn:Hk.
  - destruct (move_down (p <| p_bytes_discarded := u64 (p_bytes_discarded p + k) |>) k)
      as (Hok' & Hh' & Hc'); [exact Hok|cbn; lia|].
    cbn in Hh' |- *. change (contents p) with
      (contents (p <| p_bytes_discarded := u64 (p_bytes_discarded p + k) |>)).
    change (zdrop k (contents p)) with
      (zdrop k (contents (p <| p_bytes_discarded := u64 (p_bytes_discarded p + k) |>))) in Hnext.
    rewrite <- Hc' in *. split_and!; try done; apply Hok'.
  - assert (k = p_have p) as -> by lia.
    destruct Hok as (? & ? & ?).
    rewrite (zdrop_ge (p_have p) (contents p)) by lia.
    cbn. unfold buf_ok, contents. cbn. unfold RTCM_MAX_FRAME_B in *.
    split_and!; auto; lia.
Qed.

(** ** The buffer level *)

Section Refinement.
Context {C : Type} (cb : option (C -> list Z -> Z -> Z -> C)).
Local Abbreviation run_cbs := (run_cbs cb).
Local Abbreviation run_timed := (run_timed cb).
Local Abbreviation process_post := (process_post cb).
Local Abbreviation feed_post := (feed_post cb).

Lemma run_cbs_app c fs gs now : run_cbs c (fs ++ gs) now = run_cbs (run_cbs c fs now) gs now.
Proof. apply fold_left_app. Qed.

Lemma counted_trans p q r fs d e fs' d' e' :
  counted p q fs d e -> counted q r fs' d' e' ->
  counted p r (fs ++ fs') (d + d') (e + e').
Proof.
  unfold counted. intros (-> & -> & -> & ->) (-> & -> & -> & ->).
  rewrite map_app, zsum_app, zlen_app. split_and!; u64_norm.
Qed.

Lemma counters_counted_nil p q :
  counters_u64 p -> p_frames_ok q = p_frames_ok p -> p_bytes_ok q = p_bytes_ok p ->
  p_bytes_discarded q = p_bytes_discarded p -> p_crc_errors q = p_crc_errors p ->
  counted p q [] 0 0.
Proof.
  unfold counted. intros (? & ? & ? & ?) -> -> -> ->. simpl.
  rewrite !zlen_nil, !Z.add_0_r, !u64_small by done. done.
Qed.

Lemma counted_u64 p q fs d e : counted p q fs d e -> counters_u64 q.
Proof.
  intros (H1 & H2 & H3 & H4). unfold counters_u64. rewrite H1, H2, H3, H4.
  split_and!; apply u64_range.
Qed.

(** A hunt from behind the preamble: the scanner drops the preamble (and
    meets [e0] checksum errors doing so) and then the noise. *)
Lemma process_hunt p p' now c res e0 :
  buf_ok p -> 3 <= p_have p ->
  (forall fs d e r, scans (zdrop 1 (contents p)) fs d e r ->
                    scans (contents p) fs (d + 1) (e + e0) r) ->
  buf_ok p' -> contents p' = contents p -> p_have p' = p_have p ->
  counted p p' [] 0 e0 ->
  process_post (parser_hunt_in_buf p' 1) now c res ->
  process_post p now c res.
Proof.
  intros Hok H3 Hscan Hok' Hc' Hh' Hcnt (q & fs & d & e & -> & Hinv & Hs & Hq).
  destruct (hunt_spec p' 1) as (_ & Hc & _ & _ & H1 & H2 & Hd & H4 & _);
    [done|lia|].
  rewrite Hc' in Hc, Hd. pose proof (noise_len_bounds (zdrop 1 (contents p))) as Hk.
  set (k := noise_len (zdrop 1 (contents p))) in *.
  exists q, fs, (d + k + 1), (e + e0). split_and!; [done|done| |].
  - apply Hscan, scans_noise_len. fold k. rewrite zdrop_zdrop by lia. by rewrite <- Hc.
  - assert (Hm : counted p (parser_hunt_in_buf p' 1) [] (k + 1) e0).
    { destruct Hcnt as (G1 & G2 & G3 & G4). unfold counted.
      rewrite H1, H2, Hd, H4, G1, G2, G3, G4. split_and!; u64_norm. }
    replace (d + k + 1) with (k + 1 + d) by lia. rewrite (Z.add_comm e).
    exact (counted_trans _ _ _ [] _ _ fs _ _ Hm Hq).
Qed.

Lemma consume_spec p need :
  buf_ok p -> counters_u64 p -> 0 < need <= p_have p ->
  let tl := zdrop need (contents p) in
  let q := consume p need in
  buf_ok q /\ contents q = zdrop (noise_len tl) tl /\
  p_have q = zlen tl - noise_len tl /\
  counted p q [] (noise_len tl) 0 /\ aligned q.
Proof.
  intros Hok Hu Hn tl q. pose proof (buf_ok_len p Hok) as Hlen.
  pose proof (noise_len_bounds tl) as Hk.
  assert (Htl : zlen tl = p_have p - need) by (unfold tl; rewrite zlen_zdrop; lia).
  set (m := (if need <? p_have p
             then p <| p_buf := memmove_down (p_buf p) need (p_have p - need) |>
             else p) <| p_have := u16 (p_have p - need) |> <| p_need := 0 |>).
  assert (Hm : buf_ok m /\ contents m = tl /\ p_have m = zlen tl /\ counted p m [] 0 0).
  { unfold m. destruct (need <? p_have p) eqn:E.
    - destruct (move_down p need Hok) as (? & ? & ?); [lia|].
      split_and!; [done|done|cbn in *; lia|].
      apply counters_counted_nil; done.
    - assert (need = p_have p) as -> by lia. rewrite Z.sub_diag.
      destruct Hok as (? & ? & ?). unfold tl. rewrite (zdrop_ge (p_have p)) by lia.
      split_and!; try done.
      apply counters_counted_nil; done. }
  destruct Hm as (Hmo & Hmc & Hmh & Hmu).
  replace q with (if (0 <? p_have m) && negb (zget (p_buf m) 0 =? 0xD3)
                  then parser_hunt_in_buf m 0 else m)
    by (unfold q, consume, m; destruct (need <? p_have p); done).
  destruct (0 <? p_have m) eqn:E0; cbn [andb].
  - assert (Hg : zget (p_buf m) 0 = zget tl 0)
      by (rewrite <- Hmc, contents_get by lia; done).
    destruct (zget (p_buf m) 0 =? 0xD3) eqn:ED; cbn [negb].
    + assert (Hz : noise_len tl = 0).
      { destruct tl as [|b tl']; [done|]. rewrite zget_cons_0 in Hg. simpl.
        rewrite <- Hg, ED. done. }
      rewrite Hz, zdrop_0, Z.sub_0_r. split_and!; auto.
      right. rewrite Hmc. lia.
    + destruct (hunt_spec m 0) as (G1 & G2 & G3 & _ & F1 & F2 & F3 & F4 & G4); [done|lia|].
      rewrite zdrop_0, Z.add_0_l, Hmc in *. split_and!; auto; [lia|].
      destruct Hmu as (U1 & U2 & U3 & U4). unfold counted.
      rewrite F1, F2, F3, F4, U1, U2, U3, U4. split_and!; u64_norm.
  - assert (tl = []) as Ht by (apply zlen_0; lia). rewrite Ht in *. simpl.
    split_and!; auto. by left.
Qed.

Lemma parser_inv_waiting p :
  buf_ok p -> p_need p = 0 -> p_have p < 3 -> aligned p -> parser_inv p.
Proof.
  intros Hok Hn Hh Ha. pose proof (buf_ok_len p Hok) as Hl.
  destruct Hok as (? & ? & ?). unfold parser_inv. split_and!; auto; [lia|].
  destruct Ha as [Hc|Hc].
  - left. rewrite Hc, zlen_nil in Hl. done.
  - assert (p_have p <> 0).
    { intros E. rewrite E in Hl. apply zlen_0 in Hl. rewrite Hl in Hc. done. }
    right; left. rewrite contents_get in Hc by lia. split_and!; auto; lia.
Qed.

Lemma scans_waiting p : 
  buf_ok p -> p_have p < 3 -> aligned p -> scans (contents p) [] 0 0 (contents p).
Proof.
  intros Hok Hh [Hc|Hc]; [rewrite Hc; constructor|].
  pose proof (buf_ok_len p Hok) as Hl. constructor.
  assert (zlen (contents p) <> 0).
  { intros E. apply zlen_0 in E. rewrite E in Hc. done. }
  pose proof (zlen_nonneg (contents p)). split_and!; [done|lia|left; lia].
Qed.

(** One turn of the loop, given what the turns after it do. *)
Section Turn.
Context (fuel : nat).
Hypothesis rest_ok : forall p now c,
  buf_ok p -> counters_u64 p -> aligned p -> p_have p < Z.of_nat fuel ->
  process_post p now c (parser_process_loop cb fuel p now c).

Lemma turn_hunt p p' now c :
  buf_ok p' -> contents p' = contents p -> p_have p' = p_have p ->
  counters_u64 p' -> 3 <= p_have p < Z.of_nat (S fuel) ->
  process_post (parser_hunt_in_buf p' 1) now c
    (parser_process_loop cb fuel (parser_hunt_in_buf p' 1) now c).
Proof.
  intros Hok' Hc' Hh' (U1 & U2 & U3 & U4) Hp.
  destruct (hunt_spec p' 1) as (G1 & G2 & G3 & _ & F1 & F2 & F3 & F4 & G4); [done|lia|].
  pose proof (noise_len_bounds (zdrop 1 (contents p'))).
  apply rest_ok; [done| |done|lia].
  unfold counters_u64. rewrite F1, F2, F3, F4. split_and!; try lia; apply u64_range.
Qed.

(** The frame at the head has a right CRC. *)
Lemma turn_frame p now c :
  let need := stream_need (contents p) in
  let frame := ztake need (contents p) in
  let p1 := p <| p_need := need |> <| p_frames_ok := u64 (p_frames_ok p + 1) |>
              <| p_bytes_ok := u64 (p_bytes_ok p + need) |> in
  buf_ok p -> counters_u64 p -> p_have p < Z.of_nat (S fuel) ->
  at_header (contents p) -> need <= p_have p ->
  rtcm_crc24q (ztake (need - 3) (contents p)) = crc_field (contents p) need ->
  process_post p now c
    (parser_process_loop cb fuel (consume p1 need) now (run_cb cb c frame need now)).
Proof.
  intros need frame p1 Hok Hu Hf Hat Hn Ecrc.
  pose proof (buf_ok_len p Hok) as Hl. pose proof (stream_need_range _ (buf_ok_bytes p Hok)) as Hnr.
  fold need in Hnr.
  assert (Hlf : zlen frame = need) by (apply zlen_ztake_le; lia).
  assert (Hc1 : counted p p1 [frame] 0 0).
  { destruct Hu as (U1 & U2 & U3 & U4). unfold counted, p1. cbn -[Z.pow].
    rewrite Hlf, !Z.add_0_r, (u64_small _ U3), (u64_small _ U4). done. }
  destruct (consume_spec p1 need) as (G1 & G2 & G3 & G4 & G5);
    [exact Hok|exact (counted_u64 _ _ _ _ _ Hc1)|cbn; lia|].
  change (contents p1) with (contents p) in *.
  set (tl := zdrop need (contents p)) in *.
  assert (Htl : zlen tl = p_have p - need) by (unfold tl; rewrite zlen_zdrop; lia).
  pose proof (noise_len_bounds tl).
  destruct (rest_ok (consume p1 need) now (run_cb cb c frame need now))
    as (q & fs & d & e & -> & Hinv & Hs & Hc2);
    [done|exact (counted_u64 _ _ _ _ _ G4)|done|lia|].
  exists q, (frame :: fs), (d + noise_len tl), e. split_and!.
  - cbn. by rewrite Hlf.
  - done.
  - apply scans_frame; [done|fold need; lia|fold need; lia|].
    apply scans_noise_len. fold need tl. by rewrite <- G2.
  - pose proof (counted_trans _ _ _ _ _ _ _ _ _ Hc1
      (counted_trans _ _ _ _ _ _ _ _ _ G4 Hc2)) as Hall.
    rewrite (Z.add_comm d). exact Hall.
Qed.

(** The frame at the head has a wrong CRC. *)
Lemma turn_bad_crc p now c :
  let need := stream_need (contents p) in
  let p1 := p <| p_need := need |> <| p_crc_errors := u64 (p_crc_errors p + 1) |> in
  buf_ok p -> counters_u64 p -> 3 <= p_have p < Z.of_nat (S fuel) ->
  at_header (contents p) -> need <= p_have p ->
  rtcm_crc24q (ztake (need - 3) (contents p)) <> crc_field (contents p) need ->
  process_post p now c
    (parser_process_loop cb fuel (parser_hunt_in_buf p1 1) now c).
Proof.
  intros need p1 Hok Hu Hf Hat Hn Ecrc. pose proof (buf_ok_len p Hok) as Hl.
  assert (Hc1 : counted p p1 [] 0 1).
  { destruct Hu as (U1 & U2 & U3 & U4). unfold counted, p1. cbn -[Z.pow].
    rewrite !Z.add_0_r, (u64_small _ U1), (u64_small _ U2), (u64_small _ U3). done. }
  apply (process_hunt p p1 now c _ 1); [done|lia| |done|done|done|done|].
  - intros. apply scans_bad_crc; [done|fold need; lia|fold need; lia|done].
  - apply (turn_hunt p); try done. exact (counted_u64 _ _ _ _ _ Hc1).
Qed.
End Turn.

(** [parser_process] terminates and decides everything that can be decided. *)
Lemma process_loop_spec fuel : forall p now c,
  buf_ok p -> counters_u64 p -> aligned p -> p_have p < Z.of_nat fuel ->
  process_post p now c (parser_process_loop cb fuel p now c).
Proof.
  induction fuel as [|fuel IH]; intros p now c Hok Hu Ha Hf;
    [destruct Hok as (_ & _ & ?); lia|].
  pose proof (buf_ok_len p Hok) as Hl. pose proof (buf_ok_bytes p Hok) as Hb.
  cbn [parser_process_loop]. destruct (p_have p <? 3) eqn:E3.
  { exists (p <| p_need := 0 |>), [], 0, 0. split_and!; [done| | |].
    - apply parser_inv_waiting; try done. cbn. lia.
    - apply (scans_waiting p); try done. lia.
    - apply counters_counted_nil; done. }
  assert (Hd3 : zget (contents p) 0 = 0xD3).
  { destruct Ha as [Hc|]; [|done]. rewrite Hc, zlen_nil in Hl. lia. }
  rewrite <- !(contents_get p) by lia.
  fold (stream_need (contents p)). pose proof (stream_need_range _ Hb) as Hnr.
  destruct (Z.land (zget (contents p) 1) 252 =? 0) eqn:Er; cbn [negb].
  2:{ apply (process_hunt p p now c _ 0); try done; [lia| | |].
    - intros. rewrite Z.add_0_r. apply scans_reserved; [done|lia|lia|done].
    - by apply counters_counted_nil.
    - apply (turn_hunt fuel IH p); (done || lia). }
  assert (Hat : at_header (contents p)) by (split_and!; [done|lia|lia]).
  set (need := stream_need (contents p)) in *.
  cbn [p_have p_buf upd set_p_need].
  destruct (p_have p <? need) eqn:En.
  { exists (p <| p_need := need |>), [], 0, 0. split_and!; [done| | |].
    - destruct Hok as (? & ? & ?). unfold parser_inv. cbn. split_and!; auto; [lia|].
      right; right. split; [exact Hat|split; [done|lia]].
    - change (contents (p <| p_need := need |>)) with (contents p).
      apply scans_wait. unfold incomplete. fold need. split_and!; [done|lia|].
      right. split; [done|lia].
    - apply counters_counted_nil; done. }
  rewrite (crc_field_ext (p_buf p) (contents p) need) by
    (lia || (intros; rewrite contents_get by lia; done)).
  rewrite <- (ztake_ztake (need - 3) (p_have p)), <- (ztake_ztake need (p_have p)) by lia.
  fold (contents p). destruct (Z.eqb_spec (rtcm_crc24q (ztake (need - 3) (contents p))) (crc_field (contents p) need)).
  - apply (turn_frame fuel IH p now c); (done || lia).
  - apply (turn_bad_crc fuel IH p now c); (done || lia).
Qed.

Lemma parser_inv_buf_ok p : parser_inv p -> buf_ok p.
Proof.
  intros (H1 & H2 & H3 & H). split_and!; auto. unfold RTCM_MAX_FRAME_B in *.
  destruct H as [[? ?]|[(? & ? & ?)|(? & Hn & ?)]]; [lia|lia|].
  pose proof (stream_need_range (contents p) (bytes_ztake _ _ H2)).
  unfold RTCM_MAX_FRAME_B in *. lia.
Qed.

(** Between two calls the held bytes are exactly a pending prefix. *)
Lemma parser_inv_waits p : parser_inv p -> scans (contents p) [] 0 0 (contents p).
Proof.
  intros Hinv. pose proof (parser_inv_buf_ok p Hinv) as Hok.
  pose proof (buf_ok_len p Hok) as Hl. destruct Hinv as (_ & _ & _ & H).
  destruct H as [[H ?]|[(? & ? & ?)|(Ha & Hn & ?)]].
  - rewrite H in Hl. rewrite (zlen_0 _ Hl). constructor.
  - constructor. rewrite <- (contents_get p) in * by lia.
    split_and!; [done|lia|left; lia].
  - constructor. split_and!; [apply Ha|destruct Ha as (_ & ? & _); lia|].
    right. split; [done|lia].
Qed.

Lemma feed_post_app p data1 data2 now c q c1 r c2 :
  bytes (contents p) -> bytes data1 ->
  feed_post p data1 now c q c1 -> feed_post q data2 now c1 r c2 ->
  feed_post p (data1 ++ data2) now c r c2.
Proof.
  intros Hp Hb (fs & d & e & -> & Hi & Hs & Hc) (fs' & d' & e' & -> & Hi' & Hs' & Hc').
  exists (fs ++ fs'), (d + d'), (e + e'). split_and!; [|done| |].
  - by rewrite run_cbs_app.
  - rewrite app_assoc. eapply scans_app; eauto. by apply bytes_app.
  - by eapply counted_trans.
Qed.

Lemma top_up_fill p data n :
  parser_inv p -> bytes data -> 0 <= n <= zlen data ->
  p_have p + n <= RTCM_MAX_FRAME_B ->
  let p' := p <| p_buf := splice (p_buf p) (p_have p) (ztake n data) |>
              <| p_have := u16 (p_have p + n) |> in
  buf_ok p' /\ p_have p' = p_have p + n /\ contents p' = contents p ++ ztake n data.
Proof.
  intros Hinv Hb Hn Hmax. destruct (parser_inv_buf_ok p Hinv) as (H1 & H2 & H3).
  unfold RTCM_MAX_FRAME_B in *.
  assert (Hlen : zlen (ztake n data) = n) by (apply zlen_ztake_le; lia).
  unfold buf_ok, contents, RTCM_MAX_FRAME_B; cbn.
  rewrite u16_small by lia. split_and!; try lia.
  - rewrite zlen_splice; rewrite ?Hlen; lia.
  - auto with fw.
  - rewrite <- Hlen at 1. apply ztake_splice. lia.
Qed.

(** Fewer bytes than the decision needs leave the parser waiting. *)
Lemma top_up_waits p data n :
  let target := if p_have p <? 3 then 3 else p_need p in
  let p' := p <| p_buf := splice (p_buf p) (p_have p) (ztake n data) |>
              <| p_have := u16 (p_have p + n) |> in
  parser_inv p -> 0 < p_have p -> buf_ok p' -> 0 <= n -> p_have p' = p_have p + n -> p_have p' < target ->
  contents p' = contents p ++ ztake n data -> zget (contents p') 0 = 0xD3 -> parser_inv p'.
Proof.
  intros target p' Hinv Hpos Hok' Hn Hh' Ht Hc' Hd3.
  pose proof (buf_ok_len p (parser_inv_buf_ok p Hinv)) as Hl.
  pose proof Hinv as (_ & _ & _ & Hcase).
  destruct Hok' as (? & ? & ?). unfold parser_inv. split_and!; auto; [lia|].
  right. destruct Hcase as [?|[(? & ? & Hn0)|(Hat & Hneed & Hlt)]]; [lia| |].
  - left. rewrite contents_get in Hd3 by lia.
    assert (target = 3) by (unfold target; case_if; lia).
    split_and!; try done; lia.
  - destruct (decide (p_have p < 3)).
    + destruct Hat as (_ & ? & _). lia.
    + right. rewrite Hc'. split; [by apply at_header_app|].
      rewrite stream_need_app by lia. split; [done|].
      assert (target = p_need p) by (unfold target; case_if; lia).
      change (p_need p') with (p_need p). lia.
Qed.

Lemma feed_top_up_spec p data now c :
  parser_inv p -> 0 < p_have p -> counters_u64 p -> bytes data ->
  exists q c' taken rest, feed_top_up cb p data now c = Some (q, c', rest) /\
    data = taken ++ rest /\ (data <> [] -> taken <> []) /\
    feed_post p taken now c q c'.
Proof.
  intros Hinv Hpos Hu Hb. pose proof (parser_inv_buf_ok p Hinv) as Hok.
  pose proof (buf_ok_len p Hok) as Hl.
  unfold feed_top_up. set (target := if p_have p <? 3 then 3 else p_need p).
  pose proof Hinv as (_ & Hbb & _ & Hcase).
  assert (Ht : p_have p < target <= RTCM_MAX_FRAME_B).
  { pose proof (stream_need_range (contents p) (bytes_ztake _ _ Hbb)).
    unfold target, RTCM_MAX_FRAME_B in *. case_if; lia. }
  assert (Hw : u32 (target - p_have p) = target - p_have p)
    by (unfold RTCM_MAX_FRAME_B in *; apply u32_small; lia).
  rewrite Hw. set (n := if target - p_have p <? zlen data then _ else _).
  pose proof (zlen_nonneg data).
  assert (Hn : 0 <= n <= zlen data /\ n <= target - p_have p /\
               (n < target - p_have p -> n = zlen data) /\ (0 < zlen data -> 0 < n))
    by (unfold n; case_if; lia).
  clearbody n. destruct Hn as (Hn & Hnt & Hna & Hnp).
  destruct (top_up_fill p data n) as (Hok' & Hh' & Hc'); [done|done|lia|lia|].
  set (p' := p <| p_buf := _ |> <| p_have := _ |>) in *.
  assert (Hne : data <> [] -> ztake n data <> []).
  { intros Hd Ht0. assert (0 < zlen data).
    { destruct data; [done|]. rewrite zlen_cons. pose proof (zlen_nonneg data). lia. }
    pose proof (zlen_ztake_le n data Hn) as Hz. rewrite Ht0, zlen_nil in Hz. lia. }
  assert (Hd3 : zget (contents p') 0 = 0xD3).
  { rewrite Hc', zget_app_l by lia. destruct Hcase as [?|[(? & ? & ?)|((? & ?) & ?)]]; [lia| |done].
    by rewrite contents_get by lia. }
  destruct (p_have p' =? target) eqn:Et.
  - destruct (process_loop_spec (S (Z.to_nat (p_have p'))) p' now c)
      as (q & fs & d & e & Heq & Hi & Hs & Hcnt);
      [done|exact Hu|by right|destruct Hok' as (_ & _ & ?); lia|].
    exists q, (run_cbs c fs now), (ztake n data), (zdrop n data).
    unfold parser_process. rewrite Heq. split_and!; [done| |done|].
    + by rewrite ztake_zdrop.
    + exists fs, d, e. rewrite <- Hc'. done.
  - assert (n = zlen data) as -> by lia.
    exists p', c, (ztake (zlen data) data), (zdrop (zlen data) data).
    split_and!; [done|by rewrite ztake_zdrop|done|].
    assert (Hi' : parser_inv p') by (apply (top_up_waits p data (zlen data)); try done; fold p' target; lia).
    exists [], 0, 0. split_and!; [done|done| |by apply counters_counted_nil].
    rewrite <- Hc'. by apply parser_inv_waits.
Qed.

Lemma hunt_input_spec data : forall p now c,
  parser_inv p -> p_have p = 0 -> counters_u64 p -> bytes data ->
  exists q pre rest, hunt_input p data = (q, rest) /\
    data = pre ++ default [] rest /\ feed_post p pre now c q c /\
    (data <> [] -> pre <> []) /\ (is_Some rest -> 0 < p_have q).
Proof.
  induction data as [|b data IH]; intros p now c Hinv H0 Hu Hb; cbn.
  - exists p, [], None. split_and!; try done.
    exists [], 0, 0. rewrite app_nil_r.
    split_and!; [done|done|by apply parser_inv_waits|by apply counters_counted_nil].
  - apply Forall_cons in Hb as [Hb1 Hb].
    pose proof (parser_inv_buf_ok p Hinv) as Hok.
    assert (Hc0 : contents p = []).
    { apply zlen_0. rewrite buf_ok_len by done. done. }
    assert (Hneed : p_need p = 0).
    { destruct Hinv as (_ & _ & _ & [[_ ?]|[(_ & ? & _)|((_ & Hl & _) & _)]]); [done|lia|].
      by rewrite Hc0 in Hl. }
    destruct (b =? 0xD3) eqn:Eb.
    + eexists _, [b], (Some data). split_and!; try done.
      assert (b = 0xD3) as -> by lia.
      set (q := p <| p_buf := splice (p_buf p) 0 [211] |> <| p_have := 1 |>).
      assert (Hq : contents q = [0xD3]).
      { unfold q, contents. cbn. pose proof (ztake_splice (p_buf p) 0 [0xD3]) as Hs.
        apply Hs. split; [lia|apply zlen_nonneg]. }
      exists [], 0, 0. rewrite Hc0, Hq. split_and!; try done.
      * apply parser_inv_waiting; [|done|cbn; lia|by right; rewrite Hq].
        destruct Hok as (? & ? & ?). unfold buf_ok, RTCM_MAX_FRAME_B in *. cbn.
        split_and!; try lia.
        -- rewrite zlen_splice; [done|lia|]. change (zlen [211]) with 1. lia.
        -- apply bytes_splice; [done|]. apply Forall_singleton. unfold is_byte. lia.
      * constructor. split_and!; [done|done|left]. done.
      * by apply counters_counted_nil.
    + set (p' := p <| p_bytes_discarded := u64 (p_bytes_discarded p + 1) |>).
      assert (Hu' : counters_u64 p').
      { destruct Hu as (? & ? & ? & ?). unfold counters_u64. cbn -[Z.pow].
        split_and!; try lia; apply u64_range. }
      destruct (IH p' now c) as (q & pre & rest & Heq & Hd & Hp & Hne & Hr); try done.
      exists q, (b :: pre), rest. split_and!; [done|by rewrite Hd at 1| |done|done].
      destruct Hp as (fs & d & e & Hcb & Hi & Hs & Hcnt).
      exists fs, (d + 1), e. split_and!; [done|done| |].
      * rewrite Hc0 in *. change (contents p') with (contents p) in Hs.
        rewrite Hc0 in Hs. cbn. constructor; [lia|done].
      * destruct Hcnt as (C1 & C2 & C3 & C4). unfold counted.
        rewrite C1, C2, C3, C4. cbn -[Z.pow]. split_and!; try done. u64_norm.
Qed.

Lemma feed_post_u64 p data now c q c' : feed_post p data now c q c' -> counters_u64 q.
Proof. intros (? & ? & ? & _ & _ & _ & H). exact (counted_u64 _ _ _ _ _ H). Qed.

Lemma feed_post_inv p data now c q c' : feed_post p data now c q c' -> parser_inv q.
Proof. by intros (? & ? & ? & _ & H & _). Qed.

Lemma feed_post_refl p now c : parser_inv p -> counters_u64 p -> feed_post p [] now c p c.
Proof.
  intros. exists [], 0, 0. rewrite app_nil_r.
  split_and!; [done|done|by apply parser_inv_waits|by apply counters_counted_nil].
Qed.

Lemma parser_inv_bytes p : parser_inv p -> bytes (contents p).
Proof. intros H. by apply buf_ok_bytes, parser_inv_buf_ok. Qed.

Lemma feed_loop_spec fuel : forall p data now c,
  parser_inv p -> counters_u64 p -> bytes data -> (length data <= fuel)%nat ->
  exists q c', rtcm_parser_feed_loop cb fuel p data now c = Some (q, c') /\
               feed_post p data now c q c'.
Proof.
  induction fuel as [|fuel IH]; intros p data now c Hinv Hu Hb Hf;
    (destruct data as [|b data]; [exists p, c; split; [done|by apply feed_post_refl]|]);
    [cbn in Hf; lia|].
  set (l := b :: data) in *.
  assert (Hturn : forall p1 pre l1, parser_inv p1 -> 0 < p_have p1 ->
    feed_post p pre now c p1 c -> l = pre ++ l1 -> (pre = [] -> l1 <> []) ->
    exists q c', match feed_top_up cb p1 l1 now c with
      | Some (p2, c2, l2) => rtcm_parser_feed_loop cb fuel p2 l2 now c2
      | None => None end = Some (q, c') /\ feed_post p l now c q c').
  { intros p1 pre l1 Hi1 Hh1 Hp1 Hl Hne. rewrite Hl in Hb, Hf |- *.
    apply bytes_app in Hb as [Hb0 Hb1]. rewrite length_app in Hf.
    destruct (feed_top_up_spec p1 l1 now c) as (p2 & c2 & tk & l2 & -> & Hl1 & Hne1 & Hp2);
      [done|done|by eapply feed_post_u64|done|].
    rewrite Hl1 in Hb1, Hf |- *. apply bytes_app in Hb1 as [Hb1 Hb2].
    rewrite length_app in Hf.
    assert (0 < length pre + length tk)%nat.
    { destruct pre; [|cbn; lia]. destruct tk; [|cbn; lia]. by destruct Hne1; auto. }
    destruct (IH p2 l2 now c2) as (q & c' & -> & Hp3);
      [by eapply feed_post_inv|by eapply feed_post_u64|done|lia|].
    exists q, c'. split; [done|].
    pose proof (parser_inv_bytes _ Hinv). pose proof (parser_inv_bytes _ Hi1).
    eapply feed_post_app; [done|done|exact Hp1|].
    by eapply feed_post_app. }
  unfold rtcm_parser_feed_loop; fold (rtcm_parser_feed_loop cb fuel).
  subst l. cbv iota. set (l := b :: data) in *.
  destruct (p_have p =? 0) eqn:E0.
  - destruct (hunt_input_spec l p now c) as (p1 & pre & rest & -> & Hl & Hp & Hne & Hr);
      [done|lia|done|done|].
    destruct rest as [l1|]; cbn in Hl.
    + apply (Hturn p1 pre l1); [by eapply feed_post_inv|by apply Hr|done|done|].
      intros ->. by destruct Hne.
    + rewrite app_nil_r in Hl. exists p1, c. rewrite Hl. done.
  - destruct Hinv as (?&?&?&?) eqn:E. apply (Hturn p [] l); try done; [lia|].
    by apply feed_post_refl.
Qed.

Lemma feed_spec p data now c :
  parser_inv p -> counters_u64 p -> bytes data ->
  exists q c', rtcm_parser_feed cb p data now c = Some (q, c') /\ feed_post p data now c q c'.
Proof. intros. by apply feed_loop_spec. Qed.

Lemma run_cbs_timed fs now c : run_cbs c fs now = run_timed c (map (fun f => (f, now)) fs).
Proof. revert c. induction fs as [|f fs IH]; intros c; [done|]. apply IH. Qed.

Lemma feed_chunks_spec chunks : forall p c,
  parser_inv p -> counters_u64 p -> Forall (fun ch => bytes ch.1) chunks ->
  exists q fts d e,
    feed_chunks cb p chunks c = Some (q, run_timed c fts) /\ parser_inv q /\
    scans (contents p ++ stream chunks) (map fst fts) d e (contents q) /\
    counted p q (map fst fts) d e /\ Forall (fun ft => ft.2 ∈ map snd chunks) fts.
Proof.
  induction chunks as [|[data now] chunks IH]; intros p c Hinv Hu Hb; cbn.
  - exists p, [], 0, 0. rewrite app_nil_r.
    split_and!; [done|done|by apply parser_inv_waits|by apply counters_counted_nil|done].
  - apply Forall_cons in Hb as [Hb1 Hb]. cbn in Hb1.
    destruct (feed_spec p data now c) as (p1 & c1 & -> & fs & d & e & -> & Hi1 & Hs1 & Hc1);
      [done|done|done|].
    destruct (IH p1 (run_cbs c fs now)) as (q & fts & d2 & e2 & -> & Hi2 & Hs2 & Hc2 & Ht);
      [done|exact (counted_u64 _ _ _ _ _ Hc1)|done|].
    exists q, (map (fun f => (f, now)) fs ++ fts), (d + d2), (e + e2).
    rewrite map_app, map_map, map_id. split_and!; [|done| | |].
    + unfold run_timed. rewrite run_cbs_timed, fold_left_app. done.
    + unfold stream. cbn. rewrite app_assoc. eapply scans_app; eauto.
      apply bytes_app. split; [by apply parser_inv_bytes|done].
    + by eapply counted_trans.
    + apply Forall_app. split.
      * apply Forall_map, Forall_true. intros. cbn. constructor.
      * eapply Forall_impl; [done|]. intros. by constructor.
Qed.
End Refinement.

(** ** What a scan says about the stream *)

Lemma zlen_split {A} n (l : list A) : 0 <= n <= zlen l -> zlen l = n + zlen (zdrop n l).
Proof. intros. rewrite zlen_zdrop by lia. lia. Qed.

Lemma scans_conserve l fs d e r :
  scans l fs d e r -> bytes l -> zlen l = zsum (map zlen fs) + d + zlen r.
Proof.
  induction 1 as [|l Hi|b l fs d e r Hb Hs IH|l fs d e r H0 Hl H1 Hs IH
                 |l fs d e r Hh Hn Hc Hs IH|l fs d e r Hh Hn Hc Hs IH];
    intros Hby; cbn [map zsum].
  - done.
  - lia.
  - apply Forall_cons in Hby as [_ Hby]. rewrite zlen_cons, IH by done. lia.
  - rewrite (zlen_split 1 l), IH by (lia || auto with fw). lia.
  - pose proof (stream_need_range l Hby).
    rewrite (zlen_split (stream_need l) l), IH, zlen_ztake_le by (lia || auto with fw). lia.
  - destruct Hh as (_ & ? & _).
    rewrite (zlen_split 1 l), IH by (lia || auto with fw). lia.
Qed.

(** The frames of a scan are valid, and lie in the stream in that order,
    without overlap; what is between them was discarded. *)
Lemma scans_layout l fs d e r :
  scans l fs d e r -> bytes l ->
  Forall valid_frame fs /\
  exists gaps last, length gaps = length fs /\ l = weave gaps fs ++ last ++ r /\
    d = zsum (map zlen gaps) + zlen last.
Proof.
  assert (Hone : forall l fs r d, 1 <= zlen l ->
    (exists gaps last, length gaps = length fs /\ zdrop 1 l = weave gaps fs ++ last ++ r /\
       d = zsum (map zlen gaps) + zlen last) ->
    exists gaps last, length gaps = length fs /\ l = weave gaps fs ++ last ++ r /\
       d + 1 = zsum (map zlen gaps) + zlen last).
  { intros l0 fs0 r0 d0 H1 (gaps & last & Hg & Hl & Hd).
    destruct l0 as [|b l0]; [done|]. rewrite zdrop_cons, zdrop_0 in Hl by lia.
    destruct fs0 as [|f fs0], gaps as [|g gaps]; try done.
    - exists [], (b :: last). split_and!; [done|by rewrite Hl|].
      rewrite zlen_cons. cbn in *. lia.
    - exists ((b :: g) :: gaps), last. split_and!; [done|by rewrite Hl|].
      cbn [map zsum] in *. rewrite zlen_cons. lia. }
  induction 1 as [|l Hi|b l fs d e r Hb Hs IH|l fs d e r H0 Hl H1 Hs IH
                 |l fs d e r Hh Hn Hc Hs IH|l fs d e r Hh Hn Hc Hs IH]; intros Hby.
  - split; [done|]. by exists [], [].
  - split; [done|]. by exists [], [].
  - apply Forall_cons in Hby as [_ Hby]. destruct (IH Hby) as [Hv Hx]. split; [done|].
    apply Hone; [rewrite zlen_cons; pose proof (zlen_nonneg l); lia|].
    by rewrite zdrop_cons, zdrop_0 by lia.
  - destruct IH as [Hv Hx]; [auto with fw|]. split; [done|]. apply Hone; [lia|done].
  - destruct IH as [Hv (gaps & last & Hg & Hx & Hd)]; [auto with fw|].
    pose proof (stream_need_range l Hby) as Hr. set (need := stream_need l) in *.
    assert (Hlen : zlen (ztake need l) = need) by (apply zlen_ztake_le; lia).
    destruct Hh as (A0 & A1 & A2). split.
    + constructor; [|done]. unfold valid_frame.
      rewrite Hlen, !(zget_ztake _ need) by lia. split_and!; [done|lia|done| |].
      * unfold stream_need. rewrite !(zget_ztake _ need) by lia. done.
      * rewrite ztake_ztake by lia. rewrite Hc. apply crc_field_ext; [lia|].
        intros. by rewrite zget_ztake by lia.
    + exists ([] :: gaps), last. split_and!; [cbn; lia| |done].
      rewrite <- (ztake_zdrop need l) at 1. rewrite Hx. unfold weave. cbn.
      by rewrite <- app_assoc.
  - destruct IH as [Hv Hx]; [auto with fw|]. split; [done|].
    destruct Hh as (_ & ? & _). apply Hone; [lia|done].
Qed.

Lemma scans_gap g l fs d e r :
  no_preamble g -> scans l fs d e r -> scans (g ++ l) fs (d + zlen g) e r.
Proof.
  induction 1 as [|b g Hb Hg IH]; intros Hs; cbn.
  - by rewrite Z.add_0_r.
  - rewrite zlen_cons. replace (d + (1 + zlen g)) with (d + zlen g + 1) by lia.
    constructor; auto.
Qed.

Lemma valid_frame_at f l : valid_frame f -> at_header (f ++ l) /\ stream_need (f ++ l) = zlen f.
Proof.
  intros (H0 & Hl & H1 & Hn & _). split.
  - apply at_header_app. split_and!; auto. lia.
  - rewrite stream_need_app by lia. done.
Qed.

(** Valid frames between noise without preamble bytes are what the scanner
    finds, with no error counted. *)
Lemma scans_weave gaps fs last :
  length gaps = length fs -> Forall no_preamble gaps -> Forall valid_frame fs ->
  no_preamble last ->
  scans (weave gaps fs ++ last) fs (zsum (map zlen gaps) + zlen last) 0 [].
Proof.
  revert gaps. induction fs as [|f fs IH]; intros [|g gaps] Hl Hg Hf Hlast; try done; cbn.
  - rewrite <- (app_nil_r last) at 1. apply (scans_gap last [] [] 0); [done|constructor].
  - apply Forall_cons in Hg as [Hg1 Hg]. apply Forall_cons in Hf as [Hf1 Hf].
    rewrite <- !app_assoc.
    replace (zlen g + zsum (map zlen gaps) + zlen last)
      with (zsum (map zlen gaps) + zlen last + zlen g) by lia.
    apply scans_gap; [done|].
    set (l := concat (zip_with app gaps fs) ++ last).
    destruct (valid_frame_at f l Hf1) as [Ha Hn].
    destruct Hf1 as (H0 & Hl6 & H1 & Hn1 & Hcrc). pose proof (zlen_nonneg l).
    rewrite <- (ztake_app_exact f l) at 2. rewrite <- Hn. apply scans_frame.
    + done.
    + rewrite Hn, zlen_app. lia.
    + rewrite Hn, ztake_app_le, crc_field_app by lia. done.
    + rewrite Hn, zdrop_app_exact. apply IH; auto.
Qed.

Lemma parser_init_inv : parser_inv rtcm_parser_init.
Proof.
  unfold parser_inv. cbn. split_and!; [done| |lia|left; done].
  apply (Forall_replicate is_byte 1029 0). unfold is_byte. lia.
Qed.
Lemma contents_init : contents rtcm_parser_init = [].
Proof. reflexivity. Qed.
Lemma parser_init_u64 : counters_u64 rtcm_parser_init.
Proof. unfold counters_u64. cbn. lia. Qed.

Lemma parser_inv_need p : parser_inv p ->
  p_have p = zlen (contents p) /\
  p_need p = if zlen (contents p) <? 3 then 0 else stream_need (contents p).
Proof.
  intros Hinv. rewrite buf_ok_len by by apply parser_inv_buf_ok. split; [done|].
  pose proof (buf_ok_len p (parser_inv_buf_ok p Hinv)) as Hl.
  destruct Hinv as (_ & _ & _ & [[? ?]|[(_ & ? & ?)|((_ & ? & _) & ? & _)]]); case_if; lia.
Qed.

Lemma stream_bytes chunks : Forall (fun ch => bytes ch.1) chunks -> bytes (stream chunks).
Proof.
  induction 1 as [|[data t] chunks Hd Hc IH]; [by apply Forall_nil|].
  unfold stream. cbn. apply bytes_app. done.
Qed.

Lemma run_timed_log fts l : run_timed (Some log_frame) l fts = l ++ map fst fts.
Proof.
  unfold run_timed. revert l.
  induction fts as [|[f t] fts IH]; intros l; cbn; [by rewrite app_nil_r|].
  rewrite IH. unfold log_frame. by rewrite <- app_assoc.
Qed.

(** ** Properties *)

(** C1: [rtcm_parser_feed] returns on every chunk sequence, from every state
    the parser can be left in, and refines the abstract scanner: its callbacks
    are those of the frames the scanner finds in the held bytes followed by the
    chunks, in order and each with the time of one of the chunks, it holds what
    the scanner leaves pending, and its four counters move by what the scanner
    counts. *)
Theorem parser_refines_scanner {C} (cb : option (C -> list Z -> Z -> Z -> C)) p chunks c :
  parser_inv p -> counters_u64 p -> Forall (fun ch => bytes ch.1) chunks ->
  exists q fts d e,
    feed_chunks cb p chunks c = Some (q, run_timed cb c fts) /\ parser_inv q /\
    scans (contents p ++ stream chunks) (map fst fts) d e (contents q) /\
    counted p q (map fst fts) d e /\ Forall (fun ft => ft.2 ∈ map snd chunks) fts.
Proof. apply feed_chunks_spec. Qed.

Lemma parser_refines_scanner_witness :
  exists q fts d e,
    feed_chunks (Some log_frame) rtcm_parser_init ((bad_1005, 5) :: demo_chunks) [] =
      Some (q, run_timed (Some log_frame) [] fts) /\ parser_inv q /\
    scans (bad_1005 ++ demo_stream) (map fst fts) d e (contents q) /\
    counted rtcm_parser_init q (map fst fts) d e /\
    Forall (fun ft => ft.2 ∈ [5; 10; 20]) fts.
Proof.
  exact (parser_refines_scanner (Some log_frame) rtcm_parser_init
    ((bad_1005, 5) :: demo_chunks) [] parser_init_inv parser_init_u64
    ltac:(bytes_each)).
Defined.

(** C2: how the UART driver cuts the stream into chunks is irrelevant: two chunk
    sequences with the same bytes give the same frames (for any callback that
    does not look at the time), the same pending bytes and the same counters. *)
Theorem parser_chunking_irrelevant {C} (f : C -> list Z -> Z -> Z -> C) p ch1 ch2 c :
  (forall c fr n t1 t2, f c fr n t1 = f c fr n t2) ->
  parser_inv p -> counters_u64 p ->
  Forall (fun ch => bytes ch.1) ch1 -> Forall (fun ch => bytes ch.1) ch2 ->
  stream ch1 = stream ch2 ->
  exists q1 q2 c', feed_chunks (Some f) p ch1 c = Some (q1, c') /\
    feed_chunks (Some f) p ch2 c = Some (q2, c') /\
    contents q1 = contents q2 /\ p_have q1 = p_have q2 /\ p_need q1 = p_need q2 /\
    p_frames_ok q1 = p_frames_ok q2 /\ p_bytes_ok q1 = p_bytes_ok q2 /\
    p_bytes_discarded q1 = p_bytes_discarded q2 /\ p_crc_errors q1 = p_crc_errors q2.
Proof.
  intros Hf Hinv Hu H1 H2 Heq.
  destruct (feed_chunks_spec (Some f) ch1 p c) as (q1 & g1 & d1 & e1 & F1 & I1 & S1 & K1 & _);
    [done..|].
  destruct (feed_chunks_spec (Some f) ch2 p c) as (q2 & g2 & d2 & e2 & F2 & I2 & S2' & K2 & _);
    [done..|].
  rewrite Heq in S1. destruct (scans_det _ _ _ _ _ S1 _ _ _ _ S2') as (Hg & -> & -> & Hc).
  rewrite Hg in K1. exists q1, q2, (run_timed (Some f) c g2).
  destruct K1 as (-> & -> & -> & ->), K2 as (-> & -> & -> & ->).
  destruct (parser_inv_need q1 I1) as [-> ->], (parser_inv_need q2 I2) as [-> ->]. rewrite Hc. split_and!; try done.
  rewrite F1. do 2 f_equal. clear -Hf Hg. revert c g2 Hg.
  induction g1 as [|[a t] g1 IH]; intros c [|[a' t'] g2] Hg; try done.
  cbn in *. injection Hg as -> Hg. rewrite (Hf c a' (zlen a') t t'). by apply IH.
Qed.

Lemma parser_chunking_irrelevant_witness :
  exists q1 q2 c', feed_chunks (Some log_frame) rtcm_parser_init demo_chunks [] = Some (q1, c') /\
    feed_chunks (Some log_frame) rtcm_parser_init [(demo_stream, 3)] [] = Some (q2, c') /\
    contents q1 = contents q2 /\ p_have q1 = p_have q2 /\ p_need q1 = p_need q2 /\
    p_frames_ok q1 = p_frames_ok q2 /\ p_bytes_ok q1 = p_bytes_ok q2 /\
    p_bytes_discarded q1 = p_bytes_discarded q2 /\ p_crc_errors q1 = p_crc_errors q2.
Proof.
  exact (parser_chunking_irrelevant log_frame rtcm_parser_init demo_chunks [(demo_stream, 3)] []
    (fun _ _ _ _ _ => eq_refl) parser_init_inv parser_init_u64
    ltac:(bytes_each)
    ltac:(bytes_each) eq_refl).
Defined.

(** No byte of the receiver's stream goes missing: after any chunks from a
    fresh parser, the bytes of accepted frames, the discarded bytes and the
    bytes still held add up to the bytes fed (in the 64-bit counters). *)
Theorem parser_conserves_bytes {C} (cb : option (C -> list Z -> Z -> Z -> C)) chunks c :
  Forall (fun ch => bytes ch.1) chunks ->
  exists q c', feed_chunks cb rtcm_parser_init chunks c = Some (q, c') /\
    u64 (p_bytes_ok q + p_bytes_discarded q + p_have q) = u64 (zlen (stream chunks)).
Proof.
  intros Hb.
  destruct (feed_chunks_spec cb chunks rtcm_parser_init c)
    as (q & fts & d & e & Hq & Hi & Hs & (_ & H1 & H2 & _) & _);
    [apply parser_init_inv|apply parser_init_u64|done|].
  exists q, (run_timed cb c fts). split; [done|]. rewrite H1, H2.
  apply scans_conserve in Hs.
  - rewrite contents_init in Hs. cbn in Hs. rewrite Hs. destruct (parser_inv_need q Hi) as [-> _].
    change (p_bytes_ok rtcm_parser_init) with 0. change (p_bytes_discarded rtcm_parser_init) with 0.
    u64_norm.
  - apply bytes_app. split; [by apply Forall_nil|]. by apply stream_bytes.
Qed.

Lemma parser_conserves_bytes_witness :
  exists q c', feed_chunks (Some log_frame) rtcm_parser_init demo_chunks [] = Some (q, c') /\
    u64 (p_bytes_ok q + p_bytes_discarded q + p_have q) = 53.
Proof.
  exact (parser_conserves_bytes (Some log_frame) demo_chunks []
    ltac:(bytes_each)).
Defined.

(** C3: everything the parser hands to its callback is a whole RTCM3 frame with
    a correct checksum, and the frames lie in the stream in the order of the
    callbacks, without overlap: the stream is the frames, the gaps before them
    and the bytes still pending, and the gaps are the discarded bytes. *)
Theorem parser_frames_valid_in_order chunks :
  Forall (fun ch => bytes ch.1) chunks ->
  exists q fs gaps last,
    feed_chunks (Some log_frame) rtcm_parser_init chunks [] = Some (q, fs) /\
    Forall valid_frame fs /\ length gaps = length fs /\
    stream chunks = weave gaps fs ++ last ++ contents q /\
    p_bytes_discarded q = u64 (zsum (map zlen gaps) + zlen last).
Proof.
  intros Hb.
  destruct (feed_chunks_spec (Some log_frame) chunks rtcm_parser_init [])
    as (q & fts & d & e & Hq & Hi & Hs & (_ & _ & H1 & _) & _);
    [apply parser_init_inv|apply parser_init_u64|done|].
  rewrite run_timed_log in Hq. rewrite contents_init in Hs. cbn in Hs.
  apply scans_layout in Hs as [Hv (gaps & last & Hg & Hl & Hd)]; [|by apply stream_bytes].
  exists q, (map fst fts), gaps, last. split_and!; try done.
  rewrite H1, Hd. done.
Qed.

Lemma parser_frames_valid_in_order_witness :
  exists q fs gaps last,
    feed_chunks (Some log_frame) rtcm_parser_init demo_chunks [] = Some (q, fs) /\
    Forall valid_frame fs /\ length gaps = length fs /\
    demo_stream = weave gaps fs ++ last ++ contents q /\
    p_bytes_discarded q = u64 (zsum (map zlen gaps) + zlen last).
Proof.
  exact (parser_frames_valid_in_order demo_chunks
    ltac:(bytes_each)).
Defined.

(** C4: round trip: valid frames sent with noise between them that contains no
    preamble byte are recovered exactly, however the stream is cut, with no
    checksum error, nothing pending, and only the noise discarded. *)
Theorem parser_recovers_frames gaps fs last chunks :
  length gaps = length fs -> Forall no_preamble gaps -> no_preamble last ->
  Forall valid_frame fs -> Forall (fun ch => bytes ch.1) chunks ->
  stream chunks = weave gaps fs ++ last ->
  exists q,
    feed_chunks (Some log_frame) rtcm_parser_init chunks [] = Some (q, fs) /\
    p_have q = 0 /\ p_crc_errors q = 0 /\ p_frames_ok q = u64 (zlen fs) /\
    p_bytes_discarded q = u64 (zsum (map zlen gaps) + zlen last).
Proof.
  intros Hlen Hg Hlast Hf Hb Hst.
  destruct (feed_chunks_spec (Some log_frame) chunks rtcm_parser_init [])
    as (q & fts & d & e & Hq & Hi & Hs & (H1 & _ & H2 & H3) & _);
    [apply parser_init_inv|apply parser_init_u64|done|].
  rewrite run_timed_log in Hq. rewrite contents_init in Hs. cbn in Hs. rewrite Hst in Hs.
  destruct (scans_det _ _ _ _ _ Hs _ _ _ _ (scans_weave gaps fs last Hlen Hg Hf Hlast))
    as (Hfs & -> & -> & Hc).
  rewrite Hfs in *. exists q. rewrite H1, H2, H3. destruct (parser_inv_need q Hi) as [-> _]. rewrite Hc.
  split_and!; done.
Qed.

Lemma parser_recovers_frames_witness :
  exists q,
    feed_chunks (Some log_frame) rtcm_parser_init demo_chunks [] =
      Some (q, [frame_1005; frame_1005]) /\
    p_have q = 0 /\ p_crc_errors q = 0 /\ p_frames_ok q = u64 2 /\
    p_bytes_discarded q = u64 3.
Proof.
  assert (Hv : valid_frame frame_1005) by (unfold valid_frame; vm_compute; repeat split; congruence).
  apply (parser_recovers_frames [[1; 2]; [7]] [frame_1005; frame_1005] [] demo_chunks).
  - reflexivity.
  - repeat (apply Forall_cons; split); try done; repeat (apply Forall_cons; split; [done|]); by apply Forall_nil.
  - by apply Forall_nil.
  - by repeat (apply Forall_cons; split; [exact Hv|]).
  - bytes_each.
  - reflexivity.
Defined.
