(* ===== verification/NtripRing.v ===== *)
(** * Frame ring (src/main/interface/ntrip_tx_core.c, "Ring")

    Sixteen slots shared by the UART path, which pushes complete frames, and one
    reader per NTRIP instance.  The ghost state is the history of all frames ever
    pushed; [ring_ok] says what the slots promise about it, and
    [ring_reads_history] is the interface the sender is proved against.

    Both sides work under the ring's mutex, so an operation is one atomic step;
    the hooks [lock]/[unlock] themselves are not part of the state. *)

From S2P Require Import Prelude RtcmParser.

Definition RTCM_RING_SLOTS : Z := 16.

Record ntrip_ring_slot_t := mk_slot {
  s_seq : Z;            (* uint32_t *)
  s_received_ms : Z;    (* uint32_t *)
  s_len : Z;            (* uint16_t *)
  s_cum_bytes : Z;      (* uint64_t *)
  s_data : list Z       (* uint8_t data[RTCM_MAX_FRAME_B] *)
}.

Definition slot_zero : ntrip_ring_slot_t := mk_slot 0 0 0 0 (repeat 0 1029).
#[export] Instance slot_inhabited : Inhabited ntrip_ring_slot_t := populate slot_zero.

Record ntrip_ring_t := mk_ring {
  r_slot : list ntrip_ring_slot_t;
  r_next_seq : Z;       (* uint32_t *)
  r_cum_bytes : Z;      (* uint64_t *)
  r_pushed_frames : Z   (* uint64_t *)
}.

Definition ntrip_ring_init : ntrip_ring_t := mk_ring (repeat slot_zero 16) 0 0 0.

Definition slot_index (seq : Z) : nat := Z.to_nat (seq mod RTCM_RING_SLOTS).

(** [&ring->slot[seq % RTCM_RING_SLOTS]] *)
Definition slot_at (r : ntrip_ring_t) (seq : Z) : ntrip_ring_slot_t :=
  r_slot r !!! slot_index seq.

Definition ntrip_ring_push (r : ntrip_ring_t) (frame : list Z) (len now_ms : Z) : ntrip_ring_t :=
  if (len <? 6) || (RTCM_MAX_FRAME_B <? len) then r
  else
    let cum := u64 (r_cum_bytes r + len) in
    let s := mk_slot (r_next_seq r) now_ms len cum
               (splice (s_data (slot_at r (r_next_seq r))) 0 (ztake len frame)) in
    mk_ring (<[slot_index (r_next_seq r) := s]> (r_slot r))
            (u32 (r_next_seq r + 1)) cum (u64 (r_pushed_frames r + 1)).

Definition ring_oldest_seq (r : ntrip_ring_t) : Z :=
  if RTCM_RING_SLOTS <? r_next_seq r then r_next_seq r - RTCM_RING_SLOTS else 0.

(** ** History *)

(** A pushed frame and the time it was pushed at. *)
Abbreviation entry := (list Z * Z)%type.

Definition entry_ok (e : entry) : Prop := 6 <= zlen e.1 <= RTCM_MAX_FRAME_B /\ 0 <= e.2 < 2 ^ 32.

Definition entry_okb (e : entry) : bool :=
  (6 <=? zlen e.1) && (zlen e.1 <=? RTCM_MAX_FRAME_B) && (0 <=? e.2) && (e.2 <? 2 ^ 32).

Definition entry_at (hist : list entry) (k : Z) : entry := default ([], 0) (hist !! Z.to_nat k).

(** Bytes of the first [k] frames. *)
Definition cum (hist : list entry) (k : Z) : Z := zsum (map (fun e => zlen e.1) (ztake k hist)).

(** What a slot holds for the frame number [k]. *)
Definition slot_holds (s : ntrip_ring_slot_t) (hist : list entry) (k : Z) : Prop :=
  s_seq s = k /\ s_received_ms s = (entry_at hist k).2 /\
  s_len s = zlen (entry_at hist k).1 /\ s_cum_bytes s = u64 (cum hist (k + 1)) /\
  ztake (s_len s) (s_data s) = (entry_at hist k).1.

(** The ring after the frames of [hist]: the frame numbers are the positions in
    the history as long as it is shorter than 2^32 frames. *)
Definition ring_ok (r : ntrip_ring_t) (hist : list entry) : Prop :=
  zlen hist < 2 ^ 32 /\ Forall entry_ok hist /\
  length (r_slot r) = 16%nat /\ Forall (fun s => zlen (s_data s) = RTCM_MAX_FRAME_B) (r_slot r) /\
  r_next_seq r = zlen hist /\ r_cum_bytes r = u64 (cum hist (zlen hist)) /\
  r_pushed_frames r = u64 (zlen hist) /\
  forall k, ring_oldest_seq r <= k < zlen hist -> slot_holds (slot_at r k) hist k.

(** A sequence of pushes. *)
Definition push_all (r : ntrip_ring_t) (es : list entry) : ntrip_ring_t :=
  fold_left (fun r e => ntrip_ring_push r e.1 (zlen e.1) e.2) es r.

(** ** Lemmas on the history *)

Lemma entry_at_app h e k : 0 <= k < zlen h -> entry_at (h ++ e) k = entry_at h k.
Proof. intros. unfold entry_at. rewrite lookup_app_l; [done|]. unfold zlen in *. lia. Qed.
Lemma entry_at_last h e : entry_at (h ++ [e]) (zlen h) = e.
Proof. unfold entry_at, zlen. by rewrite Nat2Z.id, list_lookup_middle. Qed.

Lemma zdrop_entry h k : 0 <= k < zlen h -> zdrop k h = entry_at h k :: zdrop (k + 1) h.
Proof.
  intros. unfold zdrop, entry_at, zlen in *. replace (Z.to_nat (k + 1)) with (S (Z.to_nat k)) by lia.
  destruct (lookup_lt_is_Some_2 h (Z.to_nat k) ltac:(lia)) as [x Hx]. rewrite Hx. by apply drop_S.
Qed.

Lemma cum_0 h : cum h 0 = 0.
Proof. reflexivity. Qed.
Lemma cum_app h e k : 0 <= k <= zlen h -> cum (h ++ e) k = cum h k.
Proof. intros. unfold cum. by rewrite ztake_app_le. Qed.

Lemma cum_S h k : 0 <= k < zlen h -> cum h (k + 1) = cum h k + zlen (entry_at h k).1.
Proof.
  intros Hk. unfold cum. rewrite (ztake_add k 1) by lia. rewrite map_app, zsum_app. f_equal.
  rewrite zdrop_entry, ztake_cons by lia. change (1 - 1) with 0. rewrite ztake_0. cbn. lia.
Qed.

Lemma entries_okb es : forallb entry_okb es = true -> Forall entry_ok es.
Proof.
  rewrite forallb_forall. intros H. apply Forall_forall. intros e He.
  apply list_elem_of_In in He. specialize (H e He). unfold entry_okb, entry_ok in *. lia.
Qed.

Lemma cum_nonneg h k : 0 <= cum h k.
Proof.
  unfold cum. induction (ztake k h) as [|e l IH]; cbn; [lia|].
  pose proof (zlen_nonneg e.1). lia.
Qed.

Lemma entry_at_ok h k : Forall entry_ok h -> 0 <= k < zlen h -> entry_ok (entry_at h k).
Proof.
  intros Hh Hk. unfold entry_at, zlen in *.
  destruct (lookup_lt_is_Some_2 h (Z.to_nat k) ltac:(lia)) as [x Hx]. rewrite Hx.
  by eapply Forall_lookup_1.
Qed.

(** ** Lemmas on the slots *)

Lemma slot_index_lt k : (slot_index k < 16)%nat.
Proof.
  unfold slot_index, RTCM_RING_SLOTS. pose proof (Z.mod_pos_bound k 16). lia.
Qed.

(** Sixteen consecutive numbers have different slots. *)
Lemma slot_index_inj j k : 0 <= j -> j < k < j + 16 -> slot_index j <> slot_index k.
Proof.
  unfold slot_index, RTCM_RING_SLOTS. intros H0 H1 Heq.
  assert (j mod 16 = k mod 16)
    by (pose proof (Z.mod_pos_bound j 16); pose proof (Z.mod_pos_bound k 16); lia).
  Z.to_euclidean_division_equations. lia.
Qed.

Lemma slot_data_len r seq hist : ring_ok r hist -> zlen (s_data (slot_at r seq)) = RTCM_MAX_FRAME_B.
Proof.
  intros (_ & _ & Hl & Hd & _). unfold slot_at. apply (Forall_lookup_total_1 _ _ _ Hd).
  rewrite Hl. apply slot_index_lt.
Qed.

Lemma ring_init_ok : ring_ok ntrip_ring_init [].
Proof.
  unfold ring_ok. split_and!; try done.
  - repeat (apply Forall_cons; split; [done|]). by apply Forall_nil.
  - intros k Hk. unfold zlen in Hk. cbn in Hk. lia.
Qed.

Lemma ring_oldest_range r hist : ring_ok r hist -> 0 <= ring_oldest_seq r <= zlen hist.
Proof.
  intros (_ & _ & _ & _ & Hn & _). unfold ring_oldest_seq, RTCM_RING_SLOTS. rewrite Hn.
  pose proof (zlen_nonneg hist). case_if; lia.
Qed.

Lemma slot_holds_app s h e k : 0 <= k < zlen h -> slot_holds s h k -> slot_holds s (h ++ e) k.
Proof.
  intros Hk (H1 & H2 & H3 & H4 & H5). unfold slot_holds.
  rewrite entry_at_app, cum_app by lia. done.
Qed.

(** A push appends to the history. *)
Lemma ring_push_ok r hist e :
  ring_ok r hist -> entry_ok e -> zlen hist + 1 < 2 ^ 32 ->
  ring_ok (ntrip_ring_push r e.1 (zlen e.1) e.2) (hist ++ [e]).
Proof.
  intros Hok He Hlt. pose proof (slot_data_len r (r_next_seq r) hist Hok) as Hsd.
  destruct Hok as (Hl & Hh & Hs & Hd & Hn & Hc & Hp & Hslots).
  pose proof (zlen_nonneg hist) as Hnn. destruct He as [He1 He2].
  unfold ntrip_ring_push.
  destruct (zlen e.1 <? 6) eqn:E1; [lia|]. cbn [orb].
  destruct (RTCM_MAX_FRAME_B <? zlen e.1) eqn:E2; [lia|].
  assert (Hcum : u64 (r_cum_bytes r + zlen e.1) = u64 (cum (hist ++ [e]) (zlen hist + 1))).
  { rewrite Hc, u64_add_l, cum_S by (rewrite zlen_snoc; lia).
    by rewrite cum_app, entry_at_last by lia. }
  rewrite Hcum, Hn in *. rewrite (ztake_ge (zlen e.1)) by lia.
  set (s := mk_slot _ _ _ _ _).
  assert (Hlen : zlen (s_data s) = RTCM_MAX_FRAME_B)
    by (cbn; rewrite zlen_splice; rewrite ?Z.add_0_l; lia).
  assert (Hnew : slot_holds s (hist ++ [e]) (zlen hist)).
  { unfold slot_holds. rewrite entry_at_last. cbn. split_and!; try done.
    rewrite <- (Z.add_0_l (zlen e.1)), ztake_splice; [done|lia]. }
  clearbody s. unfold ring_ok. cbn [r_slot r_next_seq r_cum_bytes r_pushed_frames].
  rewrite zlen_snoc. split_and!; try done.
  - apply Forall_app. split; [done|]. apply Forall_singleton. done.
  - by rewrite length_insert.
  - by apply Forall_insert.
  - apply u32_small. lia.
  - rewrite Hp. u64_norm.
  - intros k Hk. unfold slot_at. cbn [r_slot].
    destruct (decide (k = zlen hist)) as [->|Hne].
    + rewrite list_lookup_total_insert_eq by (rewrite Hs; apply slot_index_lt). done.
    + assert (Hk2 : zlen hist - 15 <= k < zlen hist /\ 0 <= k).
      { unfold ring_oldest_seq, RTCM_RING_SLOTS in Hk. cbn in Hk.
        rewrite u32_small in Hk by lia. case_if_in Hk; lia. }
      rewrite list_lookup_total_insert_ne by (apply not_eq_sym, slot_index_inj; lia).
      apply slot_holds_app; [lia|]. apply Hslots.
      unfold ring_oldest_seq, RTCM_RING_SLOTS. rewrite Hn. case_if; lia.
Qed.

Lemma push_all_ok es : forall r hist,
  ring_ok r hist -> Forall entry_ok es -> zlen hist + zlen es < 2 ^ 32 ->
  ring_ok (push_all r es) (hist ++ es).
Proof.
  induction es as [|e es IH]; intros r hist Hok He Hlt; [by rewrite app_nil_r|].
  apply Forall_cons in He as [He Hes]. rewrite zlen_cons in Hlt. pose proof (zlen_nonneg es).
  change (hist ++ e :: es) with (hist ++ [e] ++ es). rewrite app_assoc.
  apply IH; [|done|rewrite zlen_snoc; lia].
  apply ring_push_ok; auto. lia.
Qed.

(** ** Property *)

(** After any number of pushes (fewer than 2^32) the ring holds exactly the
    last sixteen frames (all of them, while there are fewer), each in the slot
    of its number with its bytes, its time of arrival, its length and the byte
    total up to and including it; older frames are overwritten, never mixed. *)
Theorem ring_keeps_last_frames es :
  Forall entry_ok es -> zlen es < 2 ^ 32 ->
  let r := push_all ntrip_ring_init es in
  r_next_seq r = zlen es /\ r_cum_bytes r = u64 (cum es (zlen es)) /\
  r_pushed_frames r = u64 (zlen es) /\
  ring_oldest_seq r = Z.max 0 (zlen es - 16) /\
  forall k, Z.max 0 (zlen es - 16) <= k < zlen es -> slot_holds (slot_at r k) es k.
Proof.
  intros He Hl r. pose proof (push_all_ok es _ [] ring_init_ok He Hl) as Hok.
  cbn in Hok. fold r in Hok.
  assert (Ho : ring_oldest_seq r = Z.max 0 (zlen es - 16)).
  { destruct Hok as (_ & _ & _ & _ & Hn & _). unfold ring_oldest_seq, RTCM_RING_SLOTS.
    rewrite Hn. case_if; lia. }
  destruct Hok as (_ & _ & _ & _ & Hn & Hc & Hp & Hs). rewrite Ho in Hs. done.
Qed.

Lemma ring_keeps_last_frames_witness :
  let es := map (fun i => (repeat (Z.of_nat i) 7, Z.of_nat i)) (seq 0 20) in
  let r := push_all ntrip_ring_init es in
  r_next_seq r = zlen es /\ r_cum_bytes r = u64 (cum es (zlen es)) /\
  r_pushed_frames r = u64 (zlen es) /\
  ring_oldest_seq r = Z.max 0 (zlen es - 16) /\
  forall k, Z.max 0 (zlen es - 16) <= k < zlen es -> slot_holds (slot_at r k) es k.
Proof.
  intros es. apply (ring_keeps_last_frames es).
  - by apply entries_okb.
  - vm_compute. reflexivity.
Defined.
