(* ===== verification/NtripTx.v ===== *)
(** * Per-connection sender (src/main/interface/ntrip_tx_core.c, "Sender")

    Each NTRIP instance has one [ntrip_tx_t]: a cursor into the shared ring and
    the frame it is in the middle of sending.  The socket is an interface:
    [Sender] is the send callback, [SenderOk] the part of the socket contract
    the file documents.  The system relation at the end interleaves the UART
    path's pushes with the rounds of every sender. *)

From Stdlib Require Import Sorting.Sorted.
From S2P Require Import Prelude RtcmParser NtripRing.

(** The [errno] values the C library defines. *)
Class Errno := { EAGAIN : Z; EWOULDBLOCK : Z; ECONNRESET : Z }.

(** [ntrip_tx_send_fn]: the new context, the return value and [*out_errno]. *)
Class Sender (S : Type) := send : S -> list Z -> S * Z * Z.

(** The contract of the callback: it never accepts more than it is given, and
    what it accepts is what goes out next. *)
Class SenderOk (S : Type) `{Sender S} := {
  wire : S -> list Z;
  send_le s b s' n err : send s b = (s', n, err) -> n <= zlen b;
  send_wire s b s' n err : send s b = (s', n, err) -> wire s' = wire s ++ ztake n b
}.

Record ntrip_tx_t := mk_tx {
  tx_cursor_seq : Z;  (* uint32_t *)
  tx_cum_through : Z;  (* uint64_t *)
  tx_current : list Z;  (* uint8_t[RTCM_MAX_FRAME_B] *)
  tx_current_len : Z;  (* uint16_t *)
  tx_current_off : Z;  (* uint16_t *)
  tx_current_received_ms : Z;  (* uint32_t *)
  tx_last_progress_ms : Z;  (* uint32_t *)
  tx_copied_bytes : Z;  (* uint64_t *)
  tx_accepted_to_lwip : Z;  (* uint64_t *)
  tx_sent_frames : Z;  (* uint64_t *)
  tx_dropped_bytes : Z;  (* uint64_t *)
  tx_skipped_bytes : Z;  (* uint64_t *)
  tx_skipped_frames : Z;  (* uint32_t *)
  tx_dropped_frames_stale : Z;  (* uint32_t *)
  tx_dropped_stale_bytes : Z;  (* uint64_t *)
  tx_eagain_count : Z;  (* uint64_t *)
  tx_reconnects : Z;  (* uint32_t *)
  tx_max_queue_age_ms : Z;  (* uint32_t *)
  tx_last_sock_errno : Z  (* int *)
}.

Definition eta_ntrip_tx_t (x : ntrip_tx_t) : ntrip_tx_t := mk_tx (tx_cursor_seq x) (tx_cum_through x)
  (tx_current x) (tx_current_len x) (tx_current_off x) (tx_current_received_ms x) (tx_last_progress_ms x)
  (tx_copied_bytes x) (tx_accepted_to_lwip x) (tx_sent_frames x) (tx_dropped_bytes x) (tx_skipped_bytes x)
  (tx_skipped_frames x) (tx_dropped_frames_stale x) (tx_dropped_stale_bytes x) (tx_eagain_count x)
  (tx_reconnects x) (tx_max_queue_age_ms x) (tx_last_sock_errno x).
#[export] Instance set_tx_cursor_seq : Setter tx_cursor_seq := ltac:(derive_setter eta_ntrip_tx_t).
#[export] Instance set_tx_cum_through : Setter tx_cum_through := ltac:(derive_setter eta_ntrip_tx_t).
#[export] Instance set_tx_current : Setter tx_current := ltac:(derive_setter eta_ntrip_tx_t).
#[export] Instance set_tx_current_len : Setter tx_current_len := ltac:(derive_setter eta_ntrip_tx_t).
#[export] Instance set_tx_current_off : Setter tx_current_off := ltac:(derive_setter eta_ntrip_tx_t).
#[export] Instance set_tx_current_received_ms : Setter tx_current_received_ms := ltac:(derive_setter eta_ntrip_tx_t).
#[export] Instance set_tx_last_progress_ms : Setter tx_last_progress_ms := ltac:(derive_setter eta_ntrip_tx_t).
#[export] Instance set_tx_copied_bytes : Setter tx_copied_bytes := ltac:(derive_setter eta_ntrip_tx_t).
#[export] Instance set_tx_accepted_to_lwip : Setter tx_accepted_to_lwip := ltac:(derive_setter eta_ntrip_tx_t).
#[export] Instance set_tx_sent_frames : Setter tx_sent_frames := ltac:(derive_setter eta_ntrip_tx_t).
#[export] Instance set_tx_dropped_bytes : Setter tx_dropped_bytes := ltac:(derive_setter eta_ntrip_tx_t).
#[export] Instance set_tx_skipped_bytes : Setter tx_skipped_bytes := ltac:(derive_setter eta_ntrip_tx_t).
#[export] Instance set_tx_skipped_frames : Setter tx_skipped_frames := ltac:(derive_setter eta_ntrip_tx_t).
#[export] Instance set_tx_dropped_frames_stale : Setter tx_dropped_frames_stale := ltac:(derive_setter eta_ntrip_tx_t).
#[export] Instance set_tx_dropped_stale_bytes : Setter tx_dropped_stale_bytes := ltac:(derive_setter eta_ntrip_tx_t).
#[export] Instance set_tx_eagain_count : Setter tx_eagain_count := ltac:(derive_setter eta_ntrip_tx_t).
#[export] Instance set_tx_reconnects : Setter tx_reconnects := ltac:(derive_setter eta_ntrip_tx_t).
#[export] Instance set_tx_max_queue_age_ms : Setter tx_max_queue_age_ms := ltac:(derive_setter eta_ntrip_tx_t).
#[export] Instance set_tx_last_sock_errno : Setter tx_last_sock_errno := ltac:(derive_setter eta_ntrip_tx_t).

Definition ntrip_tx_init : ntrip_tx_t :=
  mk_tx 0 0 (repeat 0 1029) 0 0 0 0 0 0 0 0 0 0 0 0 0 0 0 0.

(** Bytes of the current frame not yet accepted. *)
Definition ntrip_tx_pending (tx : ntrip_tx_t) : Z := u32 (tx_current_len tx - tx_current_off tx).

Definition ntrip_tx_abort (tx : ntrip_tx_t) : ntrip_tx_t :=
  let tx := if tx_current_off tx <? tx_current_len tx
            then tx <| tx_dropped_bytes :=
                   u64 (tx_dropped_bytes tx + (tx_current_len tx - tx_current_off tx)) |>
            else tx in
  tx <| tx_current_len := 0 |> <| tx_current_off := 0 |>.

Definition ntrip_tx_reset_conn (tx : ntrip_tx_t) (ring : ntrip_ring_t) (now_ms : Z) : ntrip_tx_t :=
  let tx := ntrip_tx_abort tx in
  let tx := if tx_cursor_seq tx <? r_next_seq ring
            then tx <| tx_skipped_frames :=
                        u32 (tx_skipped_frames tx + (r_next_seq ring - tx_cursor_seq tx)) |>
                    <| tx_skipped_bytes :=
                        u64 (tx_skipped_bytes tx + u64 (r_cum_bytes ring - tx_cum_through tx)) |>
            else tx in
  tx <| tx_cursor_seq := r_next_seq ring |> <| tx_cum_through := r_cum_bytes ring |>
     <| tx_last_progress_ms := now_ms |>.

Definition ntrip_tx_stalled (tx : ntrip_tx_t) (now_ms timeout_ms : Z) : bool :=
  if tx_current_len tx <=? tx_current_off tx then false
  else timeout_ms <? u32 (now_ms - tx_last_progress_ms tx).

Definition ntrip_tx_frame_overdue (tx : ntrip_tx_t) (now_ms deadline_ms : Z) : bool :=
  if tx_current_len tx <=? tx_current_off tx then false
  else deadline_ms <? u32 (now_ms - tx_current_received_ms tx).

(** [tx_copy_next], first part: jump over frames the ring no longer has. *)
Definition tx_jump (tx : ntrip_tx_t) (ring : ntrip_ring_t) : ntrip_tx_t :=
  let oldest := ring_oldest_seq ring in
  if tx_cursor_seq tx <? oldest then
    let o := slot_at ring oldest in
    let cum_before_oldest := u64 (s_cum_bytes o - s_len o) in
    tx <| tx_skipped_bytes :=
           u64 (tx_skipped_bytes tx + u64 (cum_before_oldest - tx_cum_through tx)) |>
       <| tx_skipped_frames := u32 (tx_skipped_frames tx + (oldest - tx_cursor_seq tx)) |>
       <| tx_cum_through := cum_before_oldest |>
       <| tx_cursor_seq := oldest |>
  else tx.

(** Its loop: drop what is stale, copy the first frame that is not.  The fuel
    is the number of frames ahead of the cursor. *)
Fixpoint tx_take (fuel : nat) (tx : ntrip_tx_t) (ring : ntrip_ring_t) (now_ms stale_ms : Z)
    : ntrip_tx_t * bool :=
  match fuel with
  | O => (tx, false)
  | S fuel' =>
    if tx_cursor_seq tx <? r_next_seq ring then
      let s := slot_at ring (tx_cursor_seq tx) in
      let age := u32 (now_ms - s_received_ms s) in
      if (0 <? stale_ms) && (stale_ms <? age) then
        tx_take fuel'
          (tx <| tx_dropped_frames_stale := u32 (tx_dropped_frames_stale tx + 1) |>
              <| tx_dropped_stale_bytes := u64 (tx_dropped_stale_bytes tx + s_len s) |>
              <| tx_cum_through := s_cum_bytes s |>
              <| tx_cursor_seq := u32 (tx_cursor_seq tx + 1) |>) ring now_ms stale_ms
      else
        (tx <| tx_current := splice (tx_current tx) 0 (ztake (s_len s) (s_data s)) |>
            <| tx_current_len := s_len s |>
            <| tx_current_off := 0 |>
            <| tx_current_received_ms := s_received_ms s |>
            <| tx_last_progress_ms := now_ms |>
            <| tx_copied_bytes := u64 (tx_copied_bytes tx + s_len s) |>
            <| tx_cum_through := s_cum_bytes s |>
            <| tx_cursor_seq := u32 (tx_cursor_seq tx + 1) |>
            <| tx_max_queue_age_ms :=
                 if tx_max_queue_age_ms tx <? age then age else tx_max_queue_age_ms tx |>, true)
    else (tx, false)
  end.

Definition tx_copy_next (tx : ntrip_tx_t) (ring : ntrip_ring_t) (now_ms stale_ms : Z)
    : ntrip_tx_t * bool :=
  let tx := tx_jump tx ring in
  tx_take (Z.to_nat (r_next_seq ring - tx_cursor_seq tx)) tx ring now_ms stale_ms.

Inductive ntrip_tx_poll_result_t :=
  | NTRIP_TX_POLL_IDLE | NTRIP_TX_POLL_PROGRESS | NTRIP_TX_POLL_WOULDBLOCK | NTRIP_TX_POLL_ERROR.

(** How one round of [ntrip_tx_poll] leaves the loop body. *)
Inductive round_result := R_caught_up | R_sent | R_wouldblock | R_error.
#[export] Instance round_result_eq : EqDecision round_result.
Proof. solve_decision. Defined.

Section Poll.
Context `{Errno} {S : Type} `{Sender S}.

(** The part of a round behind the copy: one call of [send_fn]. *)
Definition tx_send_once (tx : ntrip_tx_t) (now_ms : Z) (s : S) : ntrip_tx_t * S * round_result :=
  let buf := ztake (tx_current_len tx - tx_current_off tx)
                   (zdrop (tx_current_off tx) (tx_current tx)) in
  let '(s, n, err) := send s buf in
  if 0 <? n then
    let tx := tx <| tx_current_off := u16 (tx_current_off tx + u16 n) |>
                 <| tx_accepted_to_lwip := u64 (tx_accepted_to_lwip tx + n) |>
                 <| tx_last_progress_ms := now_ms |> in
    let tx := if tx_current_off tx =? tx_current_len tx
              then tx <| tx_sent_frames := u64 (tx_sent_frames tx + 1) |>
                      <| tx_current_len := 0 |> <| tx_current_off := 0 |>
              else tx in
    (tx, s, R_sent)
  else if (n <? 0) && ((err =? EAGAIN) || (err =? EWOULDBLOCK))
  then (tx <| tx_eagain_count := u64 (tx_eagain_count tx + 1) |>, s, R_wouldblock)
  else (ntrip_tx_abort (tx <| tx_last_sock_errno := if n <? 0 then err else ECONNRESET |>),
        s, R_error).

(** One round of the loop of [ntrip_tx_poll]. *)
Definition tx_round (tx : ntrip_tx_t) (ring : ntrip_ring_t) (now_ms stale_ms : Z) (s : S)
    : ntrip_tx_t * S * round_result :=
  if tx_current_len tx <=? tx_current_off tx then
    let '(tx, copied) := tx_copy_next tx ring now_ms stale_ms in
    if copied then tx_send_once tx now_ms s else (tx, s, R_caught_up)
  else tx_send_once tx now_ms s.

Fixpoint tx_rounds (rounds : nat) (tx : ntrip_tx_t) (ring : ntrip_ring_t) (now_ms stale_ms : Z)
    (s : S) (result : ntrip_tx_poll_result_t) : ntrip_tx_t * S * ntrip_tx_poll_result_t :=
  match rounds with
  | O => (tx, s, result)
  | Datatypes.S rounds' =>
    match tx_round tx ring now_ms stale_ms s with
    | (tx, s, R_caught_up) => (tx, s, result)
    | (tx, s, R_sent) => tx_rounds rounds' tx ring now_ms stale_ms s NTRIP_TX_POLL_PROGRESS
    | (tx, s, R_wouldblock) => (tx, s, NTRIP_TX_POLL_WOULDBLOCK)
    | (tx, s, R_error) => (tx, s, NTRIP_TX_POLL_ERROR)
    end
  end.

Definition ntrip_tx_poll (tx : ntrip_tx_t) (ring : ntrip_ring_t) (now_ms max_sends stale_ms : Z)
    (s : S) : ntrip_tx_t * S * ntrip_tx_poll_result_t :=
  tx_rounds (Z.to_nat max_sends) tx ring now_ms stale_ms s NTRIP_TX_POLL_IDLE.
End Poll.

(** A scripted socket, for concrete runs: what it accepted and the outcomes of
    the next calls; it takes everything once the script is over. *)
Definition script_sock : Type := list Z * list (Z * Z).
#[export] Instance script_sender : Sender script_sock := fun s b =>
  match s.2 with
  | [] => ((s.1 ++ b, []), zlen b, 0)
  | (n, err) :: rest => let n := Z.min n (zlen b) in ((s.1 ++ ztake n b, rest), n, err)
  end.
#[export] Instance script_sender_ok : SenderOk script_sock.
Proof.
  exists fst; intros [w [|[n e] rest]] b s' n' err; cbn; intros [= <- <- <-]; cbn.
  - lia.
  - lia.
  - by rewrite ztake_ge by lia.
  - done.
Defined.
(** newlib's numbers *)
#[export] Instance newlib_errno : Errno := {| EAGAIN := 11; EWOULDBLOCK := 11; ECONNRESET := 104 |}.

(** ** Specification *)

(** The accounting of one sender: where it is in the history, and where every
    byte of the frames before the cursor went. *)
Definition tx_ok (tx : ntrip_tx_t) (hist : list entry) : Prop :=
  0 <= tx_cursor_seq tx <= zlen hist /\
  tx_cum_through tx = u64 (cum hist (tx_cursor_seq tx)) /\
  zlen (tx_current tx) = RTCM_MAX_FRAME_B /\
  ((tx_current_len tx = 0 /\ tx_current_off tx = 0) \/
   (0 <= tx_current_off tx < tx_current_len tx /\ tx_current_len tx <= RTCM_MAX_FRAME_B)) /\
  u64 (tx_copied_bytes tx + tx_skipped_bytes tx + tx_dropped_stale_bytes tx)
    = u64 (cum hist (tx_cursor_seq tx)) /\
  tx_copied_bytes tx =
    u64 (tx_accepted_to_lwip tx + tx_dropped_bytes tx + (tx_current_len tx - tx_current_off tx)) /\
  u32 (tx_dropped_frames_stale tx) = tx_dropped_frames_stale tx /\
  u64 (tx_dropped_stale_bytes tx) = tx_dropped_stale_bytes tx.

Definition is_stale (hist : list entry) (now_ms stale_ms k : Z) : bool :=
  (0 <? stale_ms) && (stale_ms <? u32 (now_ms - (entry_at hist k).2)).

(** The frame [tx_take] goes for: the first one that is not stale. *)
Definition first_fresh (hist : list entry) (now_ms stale_ms from k : Z) : Prop :=
  from <= k < zlen hist /\ is_stale hist now_ms stale_ms k = false /\
  forall j, from <= j < k -> is_stale hist now_ms stale_ms j = true.

(** The sender is at the start of frame number [k]. *)
Definition holds_frame (tx : ntrip_tx_t) (hist : list entry) (k : Z) : Prop :=
  tx_current_len tx = zlen (entry_at hist k).1 /\
  ztake (tx_current_len tx) (tx_current tx) = (entry_at hist k).1 /\
  tx_current_received_ms tx = (entry_at hist k).2.

(** Counters a copy does not touch. *)
Definition same_io (tx q : ntrip_tx_t) : Prop :=
  tx_accepted_to_lwip q = tx_accepted_to_lwip tx /\ tx_dropped_bytes q = tx_dropped_bytes tx /\
  tx_sent_frames q = tx_sent_frames tx /\ tx_eagain_count q = tx_eagain_count tx /\
  tx_reconnects q = tx_reconnects tx /\ tx_last_sock_errno q = tx_last_sock_errno tx.

(** What [tx_copy_next] does, by the history: [from] is the cursor after the
    jump over overwritten frames. *)
Definition copy_post (tx q : ntrip_tx_t) (copied : bool) (hist : list entry)
    (from now_ms stale_ms : Z) : Prop :=
  exists k, from <= k <= zlen hist /\
    (forall j, from <= j < k -> is_stale hist now_ms stale_ms j = true) /\
    tx_dropped_stale_bytes q = u64 (tx_dropped_stale_bytes tx + (cum hist k - cum hist from)) /\
    tx_dropped_frames_stale q = u32 (tx_dropped_frames_stale tx + (k - from)) /\
    if copied
    then k < zlen hist /\ is_stale hist now_ms stale_ms k = false /\
         tx_cursor_seq q = k + 1 /\ holds_frame q hist k /\ tx_current_off q = 0 /\
         tx_last_progress_ms q = now_ms /\
         tx_copied_bytes q = u64 (tx_copied_bytes tx + zlen (entry_at hist k).1)
    else k = zlen hist /\ tx_cursor_seq q = k /\ tx_current q = tx_current tx /\
         tx_current_len q = tx_current_len tx /\ tx_current_off q = tx_current_off tx /\
         tx_last_progress_ms q = tx_last_progress_ms tx /\
         tx_copied_bytes q = tx_copied_bytes tx.

(** The frames with the numbers [ks], one after the other. *)
Definition frames_of (hist : list entry) (ks : list Z) : list Z :=
  concat (map (fun k => (entry_at hist k).1) ks).

(** What an open connection that started at frame [start] has on the wire:
    whole frames in order, then the sent part of the current one. *)
Definition conn_ok (tx : ntrip_tx_t) (hist : list entry) (start : Z) (w : list Z) : Prop :=
  exists ks, StronglySorted Z.lt ks /\ 0 <= start <= tx_cursor_seq tx /\
    if tx_current_off tx <? tx_current_len tx
    then Forall (fun k => start <= k < tx_cursor_seq tx - 1) ks /\
         start <= tx_cursor_seq tx - 1 /\ holds_frame tx hist (tx_cursor_seq tx - 1) /\
         w = frames_of hist ks ++
             ztake (tx_current_off tx) (entry_at hist (tx_cursor_seq tx - 1)).1
    else Forall (fun k => start <= k < tx_cursor_seq tx) ks /\ w = frames_of hist ks.

(** The same for a connection that may have been given up: at most the last
    frame is incomplete. *)
Definition whole_then_prefix (hist : list entry) (start : Z) (w : list Z) : Prop :=
  exists ks tail, StronglySorted Z.lt ks /\
    Forall (fun k => start <= k < zlen hist) ks /\ w = frames_of hist ks ++ tail /\
    (tail = [] \/ exists k off, start <= k < zlen hist /\ Forall (fun j => j < k) ks /\
                                tail = ztake off (entry_at hist k).1).

(** ** Copying out of the ring *)

Lemma slot_cum_before r hist k :
  ring_ok r hist -> ring_oldest_seq r <= k < zlen hist ->
  u64 (s_cum_bytes (slot_at r k) - s_len (slot_at r k)) = u64 (cum hist k).
Proof.
  intros Hok Hk. pose proof (ring_oldest_range r hist Hok).
  destruct Hok as (_ & _ & _ & _ & _ & _ & _ & Hs). destruct (Hs k Hk) as (_ & _ & -> & -> & _).
  rewrite cum_S by lia. u64_norm.
Qed.

Lemma tx_jump_spec tx r hist :
  ring_ok r hist -> tx_ok tx hist ->
  let q := tx_jump tx r in
  let from := Z.max (tx_cursor_seq tx) (ring_oldest_seq r) in
  tx_ok q hist /\ tx_cursor_seq q = from /\
  tx_skipped_bytes q = (if tx_cursor_seq tx <? from
    then u64 (tx_skipped_bytes tx + (cum hist from - cum hist (tx_cursor_seq tx)))
    else tx_skipped_bytes tx) /\
  tx_skipped_frames q = (if tx_cursor_seq tx <? from
    then u32 (tx_skipped_frames tx + (from - tx_cursor_seq tx)) else tx_skipped_frames tx) /\
  tx_current q = tx_current tx /\ tx_current_len q = tx_current_len tx /\
  tx_current_off q = tx_current_off tx /\ tx_last_progress_ms q = tx_last_progress_ms tx /\
  tx_current_received_ms q = tx_current_received_ms tx /\
  tx_copied_bytes q = tx_copied_bytes tx /\
  tx_dropped_stale_bytes q = tx_dropped_stale_bytes tx /\
  tx_dropped_frames_stale q = tx_dropped_frames_stale tx /\ same_io tx q.
Proof.
  intros Hok Htx. pose proof (ring_oldest_range r hist Hok) as Ho.
  unfold tx_jump. destruct (tx_cursor_seq tx <? ring_oldest_seq r) eqn:E; cbv zeta.
  2:{ replace (Z.max _ _) with (tx_cursor_seq tx) by lia. rewrite Z.ltb_irrefl.
      unfold same_io. by split_and!. }
  replace (Z.max _ _) with (ring_oldest_seq r) by lia. rewrite E.
  assert (Hlt : ring_oldest_seq r < zlen hist).
  { destruct Hok as (_ & _ & _ & _ & Hn & _). unfold ring_oldest_seq, RTCM_RING_SLOTS in *.
    destruct Htx as ((? & ?) & _). rewrite Hn in E |- *. case_if; lia. }
  rewrite (slot_cum_before r hist _ Hok) by lia.
  destruct Htx as (Hc & Ht & Hcur & Hpend & Hb & Hcp & Hu32 & Hu64).
  set (o := ring_oldest_seq r) in *. clearbody o.
  assert (Hsk : u64 (tx_skipped_bytes tx + u64 (u64 (cum hist o) - tx_cum_through tx)) =
                u64 (tx_skipped_bytes tx + (cum hist o - cum hist (tx_cursor_seq tx))))
    by (rewrite Ht; u64_norm).
  rewrite Hsk. unfold tx_ok, same_io. cbn -[Z.pow]. split_and!; try done; try lia; try apply u32_idem; try apply u64_idem.
  rewrite u64_add_lr. apply (u64_shift _ _ (cum hist o - cum hist (tx_cursor_seq tx)) _ _ Hb); lia.
Qed.

Lemma splice_0_take dst src : zlen src <= zlen dst -> ztake (zlen src) (splice dst 0 src) = src.
Proof.
  intros. rewrite <- (Z.add_0_l (zlen src)), ztake_splice by (pose proof (zlen_nonneg dst); lia).
  done.
Qed.

(** One turn of the loop on a stale frame. *)
Lemma tx_drop_stale_ok tx r hist :
  ring_ok r hist -> tx_ok tx hist -> ring_oldest_seq r <= tx_cursor_seq tx < zlen hist ->
  tx_ok (tx <| tx_dropped_frames_stale := u32 (tx_dropped_frames_stale tx + 1) |>
            <| tx_dropped_stale_bytes :=
                 u64 (tx_dropped_stale_bytes tx + s_len (slot_at r (tx_cursor_seq tx))) |>
            <| tx_cum_through := s_cum_bytes (slot_at r (tx_cursor_seq tx)) |>
            <| tx_cursor_seq := u32 (tx_cursor_seq tx + 1) |>) hist.
Proof.
  intros (Hlt & _ & _ & _ & _ & _ & _ & Hs) (Hc & Ht & Hcur & Hpend & Hb & Hcp & Hu32 & Hu64) Hk.
  destruct (Hs _ Hk) as (_ & _ & -> & -> & _). unfold tx_ok. cbn -[Z.pow].
  rewrite u32_small by lia. split_and!; try done; try lia; try apply u32_idem; try apply u64_idem.
  rewrite u64_add_r, cum_S by lia.
  apply (u64_shift _ _ (zlen (entry_at hist (tx_cursor_seq tx)).1) _ _ Hb); lia.
Qed.

(** The turn that copies. *)
Lemma tx_copy_ok tx r hist now age :
  ring_ok r hist -> tx_ok tx hist -> ring_oldest_seq r <= tx_cursor_seq tx < zlen hist ->
  tx_current_len tx <= tx_current_off tx ->
  let s := slot_at r (tx_cursor_seq tx) in
  let q := tx <| tx_current := splice (tx_current tx) 0 (ztake (s_len s) (s_data s)) |>
            <| tx_current_len := s_len s |>
            <| tx_current_off := 0 |>
            <| tx_current_received_ms := s_received_ms s |>
            <| tx_last_progress_ms := now |>
            <| tx_copied_bytes := u64 (tx_copied_bytes tx + s_len s) |>
            <| tx_cum_through := s_cum_bytes s |>
            <| tx_cursor_seq := u32 (tx_cursor_seq tx + 1) |>
            <| tx_max_queue_age_ms := age |> in
  tx_ok q hist /\ tx_cursor_seq q = tx_cursor_seq tx + 1 /\ holds_frame q hist (tx_cursor_seq tx) /\
  tx_copied_bytes q = u64 (tx_copied_bytes tx + zlen (entry_at hist (tx_cursor_seq tx)).1).
Proof.
  intros (Hlt & He & _ & _ & _ & _ & _ & Hs) (Hc & Ht & Hcur & Hpend & Hb & Hcp & Hu32 & Hu64) Hk Hoff.
  destruct (Hs _ Hk) as (_ & Hrec & Hlen & Hcum & Hdat).
  pose proof (entry_at_ok hist (tx_cursor_seq tx) He ltac:(lia)) as [Hl6 _].
  cbv zeta. rewrite Hdat, Hlen, Hrec, Hcum. set (f := (entry_at hist (tx_cursor_seq tx)).1) in *.
  unfold tx_ok, holds_frame. cbn -[Z.pow]. fold f. rewrite u32_small by lia.
  split_and!; try done; try lia.
  - rewrite zlen_splice; lia.
  - rewrite u64_add_ll, cum_S by lia. fold f. 
    apply (u64_shift _ _ (zlen f) _ _ Hb); lia.
  - rewrite Hcp. u64_norm.
  - by rewrite splice_0_take by lia.
Qed.

Definition copy_rest (tx q : ntrip_tx_t) : Prop :=
  same_io tx q /\ tx_skipped_bytes q = tx_skipped_bytes tx /\
  tx_skipped_frames q = tx_skipped_frames tx.

Lemma tx_take_spec fuel : forall tx r hist now stale,
  ring_ok r hist -> tx_ok tx hist -> ring_oldest_seq r <= tx_cursor_seq tx ->
  tx_current_len tx <= tx_current_off tx ->
  fuel = Z.to_nat (zlen hist - tx_cursor_seq tx) ->
  let '(q, b) := tx_take fuel tx r now stale in
  tx_ok q hist /\ copy_post tx q b hist (tx_cursor_seq tx) now stale /\ copy_rest tx q.
Proof.
  induction fuel as [|fuel IH]; intros tx r hist now stale Hok Htx Ho Hoff Hf; cbn;
    pose proof Htx as (_ & _ & _ & _ & _ & _ & Hu32 & Hu64).
  - split; [done|]. pose proof (proj1 Htx). split; [|by unfold copy_rest, same_io].
    exists (tx_cursor_seq tx). split_and!; try done; try lia.
    + rewrite Z.sub_diag, Z.add_0_r. done.
    + rewrite Z.sub_diag, Z.add_0_r. done.
  - pose proof (proj1 Htx). pose proof Hok as (Hlt & He & _ & _ & Hn & _ & _ & Hs).
    rewrite Hn. destruct (tx_cursor_seq tx <? zlen hist) eqn:E; [|lia].
    pose proof (Hs (tx_cursor_seq tx) ltac:(lia)) as (_ & Hrec & Hlen & _ & _).
    destruct ((0 <? stale) && (stale <? u32 (now - s_received_ms (slot_at r (tx_cursor_seq tx)))))
      eqn:Est.
    + pose proof (tx_drop_stale_ok tx r hist Hok Htx ltac:(lia)) as Hd.
      set (q := upd tx_cursor_seq _ _) in *.
      assert (Hcq : tx_cursor_seq q = tx_cursor_seq tx + 1) by (apply u32_small; lia).
      specialize (IH q r hist now stale Hok Hd). rewrite Hcq in IH.
      destruct (tx_take fuel q r now stale) as [q' b].
      destruct IH as (Hq' & (k & Hk & Hst & Hdb & Hdf & Hrest) & Hio);
        [lia|exact Hoff|lia|].
      split; [done|]. split; [|exact Hio]. exists k. split_and!; try lia.
      * intros j Hj. destruct (decide (j = tx_cursor_seq tx)) as [->|].
        -- unfold is_stale. rewrite <- Hrec. done.
        -- apply Hst. lia.
      * rewrite Hdb. cbn -[Z.pow]. rewrite Hlen, cum_S by lia. u64_norm.
      * rewrite Hdf. cbn -[Z.pow]. unfold u32. rewrite Zplus_mod_idemp_l. f_equal. lia.
      * exact Hrest.
    + set (age := u32 (now - _)) in *. set (m := if _ <? age then _ else _).
      pose proof (tx_copy_ok tx r hist now m Hok Htx ltac:(lia) Hoff) as (H1 & H2 & H3 & H4).
      split; [exact H1|]. split; [|by unfold copy_rest, same_io].
      exists (tx_cursor_seq tx). split_and!; try lia; try done.
      * rewrite Z.sub_diag, Z.add_0_r. done.
      * rewrite Z.sub_diag, Z.add_0_r. done.
      * unfold is_stale. rewrite <- Hrec. done.
Qed.

(** [tx_copy_next] picks the oldest frame the ring still has that is not stale. *)
Lemma tx_copy_next_ok tx r hist now stale :
  ring_ok r hist -> tx_ok tx hist -> tx_current_len tx <= tx_current_off tx ->
  let from := Z.max (tx_cursor_seq tx) (ring_oldest_seq r) in
  let '(q, b) := tx_copy_next tx r now stale in
  tx_ok q hist /\ copy_post tx q b hist from now stale /\ same_io tx q /\
  tx_skipped_bytes q = (if tx_cursor_seq tx <? from
    then u64 (tx_skipped_bytes tx + (cum hist from - cum hist (tx_cursor_seq tx)))
    else tx_skipped_bytes tx) /\
  tx_skipped_frames q = (if tx_cursor_seq tx <? from
    then u32 (tx_skipped_frames tx + (from - tx_cursor_seq tx)) else tx_skipped_frames tx).
Proof.
  intros Hok Htx Hoff from. unfold tx_copy_next.
  destruct (tx_jump_spec tx r hist Hok Htx)
    as (Hj & Hc & Hsb & Hsf & E1 & E2 & E3 & E4 & E5 & E6 & E7 & E8 & E9).
  set (j := tx_jump tx r) in *. fold from in Hc, Hsb, Hsf. clearbody j.
  pose proof Hok as (_ & _ & _ & _ & Hn & _).
  pose proof (tx_take_spec _ j r hist now stale Hok Hj ltac:(lia) ltac:(lia) eq_refl) as Ht.
  rewrite Hn. destruct (tx_take _ j r now stale) as [q b].
  destruct Ht as (Hq & Hp & ((I1 & I2 & I3 & I4 & I5 & I6) & G1 & G2)).
  destruct E9 as (J1 & J2 & J3 & J4 & J5 & J6).
  split_and!; [done| | |by rewrite G1|by rewrite G2].
  - unfold copy_post in *. rewrite Hc in Hp. by rewrite E1, E2, E3, E4, E6, E7, E8 in Hp.
  - unfold same_io. split_and!; congruence.
Qed.

(** ** Sending *)

Section SendSpec.
Context `{Errno} {S : Type} `{SenderOk S}.

(** One call of the send callback on a pending frame. *)
Definition send_post (tx q : ntrip_tx_t) (s s' : S) (res : round_result) : Prop :=
  let off := tx_current_off tx in
  tx_cursor_seq q = tx_cursor_seq tx /\ tx_current q = tx_current tx /\
  tx_current_received_ms q = tx_current_received_ms tx /\
  match res with
  | R_caught_up => False
  | R_sent => exists n, 0 < n <= tx_current_len tx - off /\
      wire s' = wire s ++ ztake n (zdrop off (tx_current tx)) /\
      tx_accepted_to_lwip q = u64 (tx_accepted_to_lwip tx + n) /\
      if off + n =? tx_current_len tx
      then tx_current_len q = 0 /\ tx_current_off q = 0 /\
           tx_sent_frames q = u64 (tx_sent_frames tx + 1)
      else tx_current_len q = tx_current_len tx /\ tx_current_off q = off + n /\
           tx_sent_frames q = tx_sent_frames tx
  | R_wouldblock => wire s' = wire s /\ tx_current_len q = tx_current_len tx /\
      tx_current_off q = off /\ tx_eagain_count q = u64 (tx_eagain_count tx + 1) /\
      tx_accepted_to_lwip q = tx_accepted_to_lwip tx
  | R_error => wire s' = wire s /\ tx_current_len q = 0 /\ tx_current_off q = 0 /\
      tx_dropped_bytes q = u64 (tx_dropped_bytes tx + (tx_current_len tx - off)) /\
      tx_accepted_to_lwip q = tx_accepted_to_lwip tx
  end.

Lemma abort_ok tx hist : tx_ok tx hist -> tx_ok (ntrip_tx_abort tx) hist.
Proof.
  intros (Hc & Ht & Hcur & Hpend & Hb & Hcp & Hu32 & Hu64).
  unfold ntrip_tx_abort, tx_ok. destruct (tx_current_off tx <? tx_current_len tx) eqn:E;
    cbn -[Z.pow]; split_and!; try done; try lia; try (by left).
  - rewrite Hcp. u64_norm.
  - rewrite Hcp. u64_norm.
Qed.

Lemma tx_send_once_ok tx now (s : S) hist :
  tx_ok tx hist -> tx_current_off tx < tx_current_len tx ->
  let '(q, s', res) := tx_send_once tx now s in
  tx_ok q hist /\ send_post tx q s s' res.
Proof.
  intros Htx Hoff. pose proof Htx as (Hc & Ht & Hcur & Hpend & Hb & Hcp & Hu32 & Hu64).
  unfold tx_send_once.
  set (off := tx_current_off tx) in *. set (len := tx_current_len tx) in *.
  set (buf := ztake (len - off) (zdrop off (tx_current tx))).
  assert (Hpend' : 0 <= off < len /\ len <= RTCM_MAX_FRAME_B) by (destruct Hpend; lia).
  assert (Hlen : zlen buf = len - off)
    by (unfold buf; rewrite zlen_ztake_le; [done|rewrite zlen_zdrop; lia]).
  destruct (send s buf) as [[s' n] err] eqn:Es.
  pose proof (send_le s buf s' n err Es) as Hle. pose proof (send_wire s buf s' n err Es) as Hw.
  rewrite Hlen in Hle. unfold RTCM_MAX_FRAME_B in *.
  destruct (0 <? n) eqn:En.
  - cbn [tx_current_off upd set_tx_last_progress_ms set_tx_accepted_to_lwip set_tx_current_off
         tx_current_len]. fold off len.
    rewrite (u16_small n), (u16_small (off + n)) by lia.
    assert (Hwn : wire s' = wire s ++ ztake n (zdrop off (tx_current tx)))
      by (rewrite Hw; unfold buf; by rewrite ztake_ztake by lia).
    destruct (off + n =? len) eqn:El.
    + split.
      * unfold tx_ok. cbn -[Z.pow]. split_and!; try done; try lia; try (by left).
        rewrite Hcp. fold off len. u64_norm.
      * unfold send_post. fold off len. cbn -[Z.pow]. split_and!; try done.
        exists n. rewrite El. split_and!; try done; lia.
    + split.
      * unfold tx_ok, RTCM_MAX_FRAME_B. cbn -[Z.pow]. fold len. split_and!; try done; try lia.
        rewrite Hcp. fold off len. u64_norm.
      * unfold send_post. fold off len. cbn -[Z.pow]. split_and!; try done.
        exists n. rewrite El. split_and!; try done; lia.
  - assert (Hw0 : wire s' = wire s).
    { rewrite Hw. unfold ztake. replace (Z.to_nat n) with 0%nat by lia. cbn.
      apply app_nil_r. }
    destruct ((n <? 0) && _); cbn beta iota.
    + split; [exact Htx|]. unfold send_post. split_and!; done.
    + set (tx1 := upd tx_last_sock_errno _ tx).
      assert (Ha : tx_ok tx1 hist) by exact Htx.
      split; [exact (abort_ok _ _ Ha)|]. unfold send_post, ntrip_tx_abort, tx1. cbn -[Z.pow].
      fold off len. destruct (off <? len) eqn:E; [|lia]. cbn -[Z.pow]. split_and!; done.
Qed.
End SendSpec.

(** ** What is on the wire *)

Lemma frames_of_app hist ks ks' : frames_of hist (ks ++ ks') = frames_of hist ks ++ frames_of hist ks'.
Proof. unfold frames_of. by rewrite map_app, concat_app. Qed.

Lemma frames_of_one hist k : frames_of hist [k] = (entry_at hist k).1.
Proof. unfold frames_of. cbn. apply app_nil_r. Qed.

Lemma sorted_snoc ks k : StronglySorted Z.lt ks -> Forall (fun j => j < k) ks ->
  StronglySorted Z.lt (ks ++ [k]).
Proof.
  induction 1 as [|j ks Hs IH Hj]; intros Hk; cbn.
  - repeat constructor.
  - apply Forall_cons in Hk as [Hk1 Hk]. constructor; [auto|].
    apply Forall_app. split; [done|]. by apply Forall_singleton.
Qed.

Lemma frames_of_hist hist e start ks m :
  0 <= start -> m <= zlen hist -> Forall (fun k => start <= k < m) ks ->
  frames_of (hist ++ e) ks = frames_of hist ks.
Proof.
  intros H0 Hm Hk. unfold frames_of. f_equal. apply map_ext_in. intros k Hin.
  apply list_elem_of_In in Hin. rewrite Forall_forall in Hk. specialize (Hk k Hin).
  by rewrite entry_at_app by lia.
Qed.

(** What the history gains later does not change what was sent. *)
Lemma tx_ok_app tx hist e : tx_ok tx hist -> tx_ok tx (hist ++ e).
Proof.
  intros (Hc & Ht & Hcur & Hpend & Hb & Hcp & Hw). unfold tx_ok.
  rewrite zlen_app, cum_app by lia. pose proof (zlen_nonneg e). split_and!; try done; lia.
Qed.

Lemma conn_ok_app tx hist e start w :
  tx_ok tx hist -> conn_ok tx hist start w -> conn_ok tx (hist ++ e) start w.
Proof.
  intros (Hc & _) (ks & Hs & Hst & Hk). exists ks. split; [done|]. split; [done|].
  destruct (tx_current_off tx <? tx_current_len tx).
  - destruct Hk as (Hks & Hr & Hh & Hw). unfold holds_frame in *.
    rewrite entry_at_app by lia. rewrite (frames_of_hist _ _ start _ (tx_cursor_seq tx - 1)) by (done || lia).
    done.
  - destruct Hk as [Hks Hw].
    rewrite (frames_of_hist _ _ start _ (tx_cursor_seq tx)) by (done || lia). done.
Qed.

Lemma prefix_app hist e start w :
  0 <= start -> whole_then_prefix hist start w -> whole_then_prefix (hist ++ e) start w.
Proof.
  intros H0 (ks & tail & Hs & Hk & Hw & Ht). pose proof (zlen_nonneg e).
  exists ks, tail. rewrite (frames_of_hist _ _ start _ (zlen hist)) by (done || lia).
  split_and!; [done| |done|].
  - eapply Forall_impl; [exact Hk|]. cbn. intros k. rewrite zlen_app. lia.
  - destruct Ht as [|(k & off & Hr & Hj & ->)]; [by left|right].
    exists k, off. rewrite zlen_app, entry_at_app by lia. split_and!; try done; lia.
Qed.

Lemma conn_ok_prefix tx hist start w :
  tx_ok tx hist -> conn_ok tx hist start w -> whole_then_prefix hist start w.
Proof.
  intros (Hc & _) (ks & Hs & Hst & Hk).
  destruct (tx_current_off tx <? tx_current_len tx).
  - destruct Hk as (Hks & Hr & Hh & Hw). eexists ks, _. split_and!; [done| |exact Hw|right].
    + eapply Forall_impl; [exact Hks|]. cbn. intros. lia.
    + eexists _, _. split; [|split; [|reflexivity]]; [lia|].
      eapply Forall_impl; [exact Hks|]. cbn. intros. lia.
  - destruct Hk as [Hks Hw]. exists ks, []. rewrite app_nil_r. split_and!; [done| |done|by left].
    eapply Forall_impl; [exact Hks|]. cbn. intros. lia.
Qed.

(** Starting a frame puts nothing on the wire yet. *)
Lemma conn_ok_copy tx q hist start w from now stale b :
  tx_ok tx hist -> tx_current_len tx <= tx_current_off tx ->
  tx_cursor_seq tx <= from -> tx_ok q hist ->
  copy_post tx q b hist from now stale -> conn_ok tx hist start w -> conn_ok q hist start w.
Proof.
  intros Htx Hoff Hfrom Hq (k & Hk & _ & _ & _ & Hcase) (ks & Hs & Hst & Hw).
  destruct (tx_current_off tx <? tx_current_len tx) eqn:E; [lia|]. destruct Hw as [Hks Hw].
  exists ks. split; [done|]. destruct b.
  - destruct Hcase as (Hlt & _ & Hcq & Hh & Ho & _). rewrite Hcq, Ho. split; [lia|].
    destruct (0 <? tx_current_len q) eqn:El.
    + replace (k + 1 - 1) with k by lia. rewrite ztake_0, app_nil_r. split_and!; [|lia|done|done].
      eapply Forall_impl; [exact Hks|]. cbn. intros. lia.
    + split; [|done]. eapply Forall_impl; [exact Hks|]. cbn. intros. lia.
  - destruct Hcase as (_ & Hcq & _ & E1 & E2 & _). rewrite Hcq, E1, E2, E. split; [lia|].
    split; [|done]. eapply Forall_impl; [exact Hks|]. cbn. intros. lia.
Qed.

Section WireSpec.
Context `{Errno} {S : Type} `{SenderOk S}.

(** A send moves the boundary inside the frame, or ends the frame. *)
Lemma conn_ok_send tx q (s s' : S) res hist start :
  tx_ok tx hist -> tx_current_off tx < tx_current_len tx -> res <> R_error ->
  send_post tx q s s' res -> conn_ok tx hist start (wire s) -> conn_ok q hist start (wire s').
Proof.
  intros Htx Hoff Hres (Hc & Hcur & Hrec & Hcase) (ks & Hs & Hst & Hw).
  destruct (tx_current_off tx <? tx_current_len tx) eqn:E; [|lia].
  destruct Hw as (Hks & Hr & (Hl & Hf & Hm) & Hw).
  destruct Htx as (_ & _ & _ & Hpend & _).
  set (k := tx_cursor_seq tx - 1) in *. set (off := tx_current_off tx) in *.
  destruct res; try done.
  - destruct Hcase as (n & Hn & Hws & _ & Hx).
    assert (Hsent : wire s' = frames_of hist ks ++ ztake (off + n) (entry_at hist k).1).
    { rewrite Hws, Hw, <- app_assoc, ztake_add by lia. do 2 f_equal.
      rewrite <- Hf, zdrop_ztake, ztake_ztake by lia. done. }
    destruct (off + n =? tx_current_len tx) eqn:El.
    + exists (ks ++ [k]). destruct Hx as (-> & -> & _). rewrite Hc. cbn. split_and!; try lia.
      * apply sorted_snoc; [done|]. eapply Forall_impl; [exact Hks|]. cbn. intros. lia.
      * apply Forall_app. split; [eapply Forall_impl; [exact Hks|]; cbn; intros; lia|].
        apply Forall_singleton. lia.
      * rewrite frames_of_app, frames_of_one, Hsent.
        by rewrite (ztake_ge (off + n)) by (rewrite <- Hl; lia).
    + destruct Hx as (Hlq & Hoq & _). exists ks. rewrite Hlq, Hoq, Hc.
      destruct (off + n <? tx_current_len tx) eqn:El2; [|lia]. split_and!; try done; try lia.
      unfold holds_frame. by rewrite Hlq, Hcur, Hrec.
  - destruct Hcase as (Hws & Hlq & Hoq & _). exists ks. rewrite Hlq, Hoq, Hc, Hws, E.
    split_and!; try done; try lia. unfold holds_frame. by rewrite Hlq, Hcur, Hrec.
Qed.

(** How a round ends, beside what [conn_ok] says. *)
Definition round_end (tx q : ntrip_tx_t) (hist : list entry) (s s' : S) (res : round_result) : Prop :=
  (exists sent, wire s' = wire s ++ sent /\
     u64 (tx_accepted_to_lwip q) = u64 (tx_accepted_to_lwip tx + zlen sent) /\
     (res = R_sent \/ sent = [])) /\
  match res with
  | R_caught_up => tx_cursor_seq q = zlen hist /\ tx_current_len q <= tx_current_off q
  | R_sent => True
  | R_wouldblock => tx_current_off q < tx_current_len q
  | R_error => tx_current_len q = 0 /\ tx_current_off q = 0
  end.

Lemma send_round_end tx1 q hist (s s' : S) res :
  tx_ok tx1 hist -> tx_current_off tx1 < tx_current_len tx1 ->
  send_post tx1 q s s' res -> round_end tx1 q hist s s' res.
Proof.
  intros (_ & _ & Hcur & Hpend & _) Hoff (Hc & Hcur' & Hrec & Hcase). destruct res; try done.
  - destruct Hcase as (n & Hn & Hw & Ha & _). split; [|done].
    eexists. split; [exact Hw|]. rewrite Ha, zlen_ztake_le by (rewrite zlen_zdrop; lia).
    split; [by rewrite u64_idem|by left].
  - destruct Hcase as (Hw & El & Eo & _ & Ea). split; [|rewrite El, Eo; done].
    exists []. rewrite app_nil_r, Ea, zlen_nil, Z.add_0_r. auto.
  - destruct Hcase as (Hw & El & Eo & _ & Ea). split; [|done].
    exists []. rewrite app_nil_r, Ea, zlen_nil, Z.add_0_r. auto.
Qed.

(** One whole round. *)
Lemma tx_round_ok tx r hist start now stale (s : S) :
  ring_ok r hist -> tx_ok tx hist -> conn_ok tx hist start (wire s) ->
  let '(q, s', res) := tx_round tx r now stale s in
  tx_ok q hist /\ whole_then_prefix hist start (wire s') /\
  (res <> R_error -> conn_ok q hist start (wire s')) /\
  round_end tx q hist s s' res.
Proof.
  intros Hok Htx Hconn. unfold tx_round.
  assert (Hsend : forall tx1, tx_ok tx1 hist -> conn_ok tx1 hist start (wire s) ->
    tx_current_off tx1 < tx_current_len tx1 ->
    tx_accepted_to_lwip tx1 = tx_accepted_to_lwip tx ->
    let '(q, s', res) := tx_send_once tx1 now s in
    tx_ok q hist /\ whole_then_prefix hist start (wire s') /\
    (res <> R_error -> conn_ok q hist start (wire s')) /\ round_end tx q hist s s' res).
  { intros tx1 A1 A2 A3 A4. pose proof (tx_send_once_ok tx1 now s hist A1 A3) as Hp.
    destruct (tx_send_once tx1 now s) as [[q s'] res]. destruct Hp as [Hq Hp].
    assert (Hc : res <> R_error -> conn_ok q hist start (wire s'))
      by (intros; by eapply (conn_ok_send tx1 q s s' res)).
    split_and!; [done| |done|].
    - destruct (decide (res = R_error)) as [->|].
      + destruct Hp as (_ & _ & _ & -> & _). by apply (conn_ok_prefix tx1).
      + apply (conn_ok_prefix q); auto.
    - pose proof (send_round_end tx1 q hist s s' res A1 A3 Hp) as He.
      unfold round_end in *. by rewrite A4 in He. }
  destruct (tx_current_len tx <=? tx_current_off tx) eqn:E; [|apply Hsend; auto; lia].
  pose proof (tx_copy_next_ok tx r hist now stale Hok Htx ltac:(lia)) as Hp.
  destruct (tx_copy_next tx r now stale) as [q b]. destruct Hp as (Hq & Hp & (Ha & _) & _).
  assert (Hcq : conn_ok q hist start (wire s)) by (eapply conn_ok_copy; [..|exact Hp|]; eauto; lia).
  destruct b.
  - apply Hsend; auto. destruct Hp as (k & Hk & _ & _ & _ & Hlt & _ & _ & (-> & _) & -> & _).
    destruct Hok as (_ & He & _), Htx as ((? & ?) & _).
    pose proof (entry_at_ok hist k He ltac:(lia)) as [? _]. lia.
  - split_and!; [done|by apply (conn_ok_prefix q)|done|].
    destruct Hp as (k & _ & _ & _ & _ & -> & Hck & _ & El & Eo & _). split; [|split; [done|lia]].
    exists []. rewrite app_nil_r, Ha, zlen_nil, Z.add_0_r. auto.
Qed.

(** ** The system: the UART path and the server tasks *)

Record conn := mk_conn { cn_tx : ntrip_tx_t; cn_sock : S; cn_start : Z; cn_open : bool }.
Record sys := mk_sys { sy_ring : ntrip_ring_t; sy_hist : list entry; sy_conns : list conn }.

(** The steps that happen one at a time: a push, one round of one sender's
    poll, giving a connection up, and a (re)connect with a fresh socket. *)
Inductive sys_step : sys -> sys -> Prop :=
  | step_push y frame now :
      entry_ok (frame, now) -> zlen (sy_hist y) + 1 < 2 ^ 32 ->
      sys_step y (mk_sys (ntrip_ring_push (sy_ring y) frame (zlen frame) now)
                         (sy_hist y ++ [(frame, now)]) (sy_conns y))
  | step_round y i c now stale tx s res :
      sy_conns y !! i = Some c -> cn_open c = true ->
      tx_round (cn_tx c) (sy_ring y) now stale (cn_sock c) = (tx, s, res) ->
      sys_step y (mk_sys (sy_ring y) (sy_hist y)
        (<[i := mk_conn tx s (cn_start c) (match res with R_error => false | _ => true end)]>
           (sy_conns y)))
  | step_abort y i c :
      sy_conns y !! i = Some c ->
      sys_step y (mk_sys (sy_ring y) (sy_hist y)
        (<[i := mk_conn (ntrip_tx_abort (cn_tx c)) (cn_sock c) (cn_start c) false]> (sy_conns y)))
  | step_connect y i c s now :
      sy_conns y !! i = Some c -> wire s = [] ->
      sys_step y (mk_sys (sy_ring y) (sy_hist y)
        (<[i := mk_conn (ntrip_tx_reset_conn (cn_tx c) (sy_ring y) now) s
                        (r_next_seq (sy_ring y)) true]> (sy_conns y))).

(** [n] instances before their first connection. *)
Definition sys_init (s : S) (n : nat) : sys :=
  mk_sys ntrip_ring_init [] (replicate n (mk_conn ntrip_tx_init s 0 false)).

Inductive reachable (s0 : S) (n : nat) : sys -> Prop :=
  | reach_init : reachable s0 n (sys_init s0 n)
  | reach_step y z : reachable s0 n y -> sys_step y z -> reachable s0 n z.

Definition conn_inv (hist : list entry) (c : conn) : Prop :=
  tx_ok (cn_tx c) hist /\ 0 <= cn_start c /\
  whole_then_prefix hist (cn_start c) (wire (cn_sock c)) /\
  (cn_open c = true -> conn_ok (cn_tx c) hist (cn_start c) (wire (cn_sock c))).

Lemma reset_ok tx r hist now :
  ring_ok r hist -> tx_ok tx hist ->
  let q := ntrip_tx_reset_conn tx r now in
  tx_ok q hist /\ tx_cursor_seq q = zlen hist /\ tx_current_len q = 0 /\ tx_current_off q = 0.
Proof.
  intros (_ & _ & _ & _ & Hn & Hcb & _) Htx. pose proof (abort_ok tx hist Htx) as Ha.
  unfold ntrip_tx_reset_conn.
  assert (Hz : tx_current_len (ntrip_tx_abort tx) = 0 /\ tx_current_off (ntrip_tx_abort tx) = 0)
    by (unfold ntrip_tx_abort; case_if; done).
  set (a := ntrip_tx_abort tx) in *. clearbody a. destruct Hz as [Hz1 Hz2].
  destruct Ha as (Hc & Ht & Hcur & Hpend & Hb & Hcp & Hu32 & Hu64).
  rewrite Hn, Hcb. destruct (tx_cursor_seq a <? zlen hist) eqn:E; unfold tx_ok; cbn -[Z.pow];
    split_and!; try done; try lia.
  - assert (Hsk : u64 (tx_skipped_bytes a + u64 (u64 (cum hist (zlen hist)) - tx_cum_through a)) =
              u64 (tx_skipped_bytes a + (cum hist (zlen hist) - cum hist (tx_cursor_seq a))))
      by (rewrite Ht; u64_norm).
    rewrite Hsk, u64_add_lr.
    apply (u64_shift _ _ (cum hist (zlen hist) - cum hist (tx_cursor_seq a)) _ _ Hb); lia.
  - by replace (zlen hist) with (tx_cursor_seq a) by lia.
Qed.

Lemma conn_inv_app hist e c : conn_inv hist c -> conn_inv (hist ++ e) c.
Proof.
  intros (A1 & A2 & A3 & A4). unfold conn_inv. split_and!; [by apply tx_ok_app|done|by apply prefix_app|].
  intros Ho. apply conn_ok_app; auto.
Qed.

Lemma reachable_inv s0 n y :
  wire s0 = [] -> reachable s0 n y ->
  ring_ok (sy_ring y) (sy_hist y) /\ Forall (conn_inv (sy_hist y)) (sy_conns y).
Proof.
  intros Hs0. induction 1 as [|y z Hr [Hok Hinv] Hstep].
  - split; [apply ring_init_ok|]. apply (Forall_replicate (conn_inv []) n).
    assert (Hi : tx_ok ntrip_tx_init []) by (unfold tx_ok; cbn; split_and!; try done; by left).
    unfold conn_inv; cbn [cn_tx cn_sock cn_start cn_open]. rewrite Hs0.
    split_and!; try done. exists [], []. split_and!; try done; [constructor|by left].
  - destruct Hstep as [y frame now He Hlt|y i c now stale tx s res Hi Ho Hround|y i c Hi|y i c s now Hi Hs];
      cbn [sy_ring sy_hist sy_conns] in *.
    + split; [by apply (ring_push_ok _ _ (frame, now))|].
      eapply Forall_impl; [exact Hinv|]. intros c. apply conn_inv_app.
    + split; [done|]. apply Forall_insert; [done|].
      destruct (Forall_lookup_1 _ _ _ _ Hinv Hi) as (A1 & A2 & A3 & A4).
      pose proof (tx_round_ok _ _ _ (cn_start c) now stale _ Hok A1 (A4 Ho)) as Hp.
      rewrite Hround in Hp. destruct Hp as (B1 & B2 & B3 & _).
      unfold conn_inv; cbn. split_and!; try done. intros Hres. apply B3. by destruct res.
    + split; [done|]. apply Forall_insert; [done|].
      destruct (Forall_lookup_1 _ _ _ _ Hinv Hi) as (A1 & A2 & A3 & A4).
      unfold conn_inv; cbn. split_and!; try done. by apply abort_ok.
    + split; [done|]. apply Forall_insert; [done|].
      destruct (Forall_lookup_1 _ _ _ _ Hinv Hi) as (A1 & A2 & A3 & A4).
      destruct (reset_ok _ _ _ now Hok A1) as (B1 & B2 & B3 & B4).
      pose proof Hok as (_ & _ & _ & _ & Hn & _). pose proof (zlen_nonneg (sy_hist y)).
      assert (Hco : conn_ok (ntrip_tx_reset_conn (cn_tx c) (sy_ring y) now) (sy_hist y)
                      (r_next_seq (sy_ring y)) (wire s)).
      { exists []. rewrite B2, B3, B4, Hn, Hs. cbn. split_and!; try done; try constructor; lia. }
      unfold conn_inv; cbn. split_and!; [done|lia|by eapply conn_ok_prefix|done].
Qed.

Lemma tx_rounds_ok rounds : forall tx r hist start now stale (s : S) res0,
  ring_ok r hist -> tx_ok tx hist -> conn_ok tx hist start (wire s) ->
  res0 = NTRIP_TX_POLL_IDLE \/ res0 = NTRIP_TX_POLL_PROGRESS ->
  let '(q, s', res) := tx_rounds rounds tx r now stale s res0 in
  tx_ok q hist /\
  exists sent, (wire s' = wire s ++ sent /\
     u64 (tx_accepted_to_lwip q) = u64 (tx_accepted_to_lwip tx + zlen sent)) /\
  match res with
  | NTRIP_TX_POLL_ERROR => tx_current_len q = 0 /\ tx_current_off q = 0 /\
      whole_then_prefix hist start (wire s')
  | NTRIP_TX_POLL_WOULDBLOCK => conn_ok q hist start (wire s') /\
      tx_current_off q < tx_current_len q
  | NTRIP_TX_POLL_IDLE => conn_ok q hist start (wire s') /\ res0 = NTRIP_TX_POLL_IDLE /\
      sent = [] /\
      (rounds = 0%nat \/ (tx_cursor_seq q = zlen hist /\ tx_current_len q <= tx_current_off q))
  | NTRIP_TX_POLL_PROGRESS => conn_ok q hist start (wire s')
  end.
Proof.
  induction rounds as [|rounds IH]; intros tx r hist start now stale s res0 Hok Htx Hconn Hres0;
    cbn [tx_rounds].
  - split; [done|]. exists []. rewrite app_nil_r, zlen_nil, Z.add_0_r. split; [done|].
    destruct Hres0 as [->| ->]; [|done]. split_and!; try done. by left.
  - pose proof (tx_round_ok tx r hist start now stale s Hok Htx Hconn) as Hr.
    destruct (tx_round tx r now stale s) as [[q s'] res].
    destruct Hr as (Hq & Hpre & Hc & (sent & Hw & Ha & Hsent) & Hend). destruct res.
    + destruct Hsent as [|Hsent]; [done|].
      split; [done|]. exists sent. split; [done|].
      destruct Hres0 as [->| ->]; [|by apply Hc]. split_and!; try done; [by apply Hc|by right].
    + specialize (IH q r hist start now stale s' NTRIP_TX_POLL_PROGRESS Hok Hq (Hc ltac:(done))
                    (or_intror eq_refl)).
      destruct (tx_rounds rounds q r now stale s' NTRIP_TX_POLL_PROGRESS) as [[q2 s2] res2].
      destruct IH as (Hq2 & sent2 & (Hw2 & Ha2) & Hcase). split; [done|]. exists (sent ++ sent2).
      split.
      * split; [by rewrite Hw2, Hw, app_assoc|].
        rewrite Ha2, <- u64_add_l, Ha, zlen_app. u64_norm.
      * destruct res2; try done. by destruct Hcase as (_ & ? & _).
    + split; [done|]. exists sent. split; [done|]. split; [by apply Hc|done].
    + split; [done|]. exists sent. split; [done|]. destruct Hend. by split_and!.
Qed.

(** ** Properties *)

(** C8: the wire never carries a damaged frame boundary: in every interleaving
    of pushes, poll rounds of all instances, aborts and reconnects, the bytes an
    instance's current connection has accepted are whole frames of the ring's
    history, in increasing order from the first frame pushed after the connect,
    followed by the sent part of the frame in progress; once a connection is
    given up, at most its last frame is incomplete.  (The runs push fewer than 2^32
    frames, what the ring's 32-bit counter can tell apart.) *)
Theorem tx_wire_whole_frames s0 n y :
  wire s0 = [] -> reachable s0 n y ->
  Forall (fun c => whole_then_prefix (sy_hist y) (cn_start c) (wire (cn_sock c)) /\
    (cn_open c = true -> conn_ok (cn_tx c) (sy_hist y) (cn_start c) (wire (cn_sock c)))) (sy_conns y).
Proof.
  intros Hs Hr. destruct (reachable_inv s0 n y Hs Hr) as [_ Hinv].
  eapply Forall_impl; [exact Hinv|]. by intros c (_ & _ & ? & ?).
Qed.

(** C9: no byte is lost from the accounting of an instance: in every
    interleaving, what the stack accepted, what was dropped on aborts, what is
    pending, what the ring overwrote and what was too old add up to the bytes of
    all frames before the cursor (in the 64-bit counters; the runs push fewer than
    2^32 frames, 13 years at ten a second). *)
Theorem tx_bytes_accounted s0 n y :
  wire s0 = [] -> reachable s0 n y ->
  Forall (fun c => let tx := cn_tx c in
    0 <= tx_cursor_seq tx <= zlen (sy_hist y) /\
    u64 (tx_accepted_to_lwip tx + tx_dropped_bytes tx + ntrip_tx_pending tx +
         tx_skipped_bytes tx + tx_dropped_stale_bytes tx)
      = u64 (cum (sy_hist y) (tx_cursor_seq tx))) (sy_conns y).
Proof.
  intros Hs Hr. destruct (reachable_inv s0 n y Hs Hr) as [_ Hinv].
  eapply Forall_impl; [exact Hinv|].
  intros c ((Hc & _ & _ & Hp & Hb & Hcp & _) & _). cbv zeta. split; [done|].
  rewrite <- Hb, Hcp. unfold ntrip_tx_pending, RTCM_MAX_FRAME_B in *.
  rewrite u32_small by lia. u64_norm.
Qed.

(** A poll keeps the stream intact and reports what happened: the bytes it
    counts as accepted are the bytes that went out; WOULDBLOCK keeps the rest of
    the frame pending; IDLE sent nothing and, when a send was allowed, no fresh
    frame is left in the ring; ERROR leaves nothing pending. *)
Theorem tx_poll_contract tx r hist start now max_sends stale (s : S) :
  ring_ok r hist -> tx_ok tx hist -> conn_ok tx hist start (wire s) ->
  let '(q, s', res) := ntrip_tx_poll tx r now max_sends stale s in
  tx_ok q hist /\
  (exists sent, wire s' = wire s ++ sent /\
     u64 (tx_accepted_to_lwip q) = u64 (tx_accepted_to_lwip tx + zlen sent)) /\
  match res with
  | NTRIP_TX_POLL_ERROR => tx_current_len q = 0 /\ tx_current_off q = 0 /\
      whole_then_prefix hist start (wire s')
  | NTRIP_TX_POLL_WOULDBLOCK => conn_ok q hist start (wire s') /\
      tx_current_off q < tx_current_len q
  | NTRIP_TX_POLL_IDLE => conn_ok q hist start (wire s') /\ wire s' = wire s /\
      (max_sends <= 0 \/ (tx_cursor_seq q = zlen hist /\ tx_current_len q <= tx_current_off q))
  | NTRIP_TX_POLL_PROGRESS => conn_ok q hist start (wire s')
  end.
Proof.
  intros Hok Htx Hconn. unfold ntrip_tx_poll.
  pose proof (tx_rounds_ok (Z.to_nat max_sends) tx r hist start now stale s NTRIP_TX_POLL_IDLE
                Hok Htx Hconn (or_introl eq_refl)) as Hp.
  destruct (tx_rounds _ _ _ _ _ _ _) as [[q s'] res]. destruct Hp as (Hq & sent & [Hw Ha] & Hres).
  split; [done|]. split; [by exists sent|]. destruct res; try tauto.
  destruct Hres as (Hc & _ & Hs & Hx). rewrite Hw, Hs, app_nil_r. rewrite Hw, Hs, app_nil_r in Hc.
  split_and!; try done. destruct Hx; [left; lia|by right].
Qed.
End WireSpec.

(** An instance sends the oldest frame the ring still holds that is not too
    old: frames the ring has overwritten are skipped and counted, frames older
    than [stale_ms] are dropped and counted, the first other frame becomes the
    current one with its age clock and a fresh progress clock; with none left
    the cursor is at the end of the ring. *)
Theorem tx_copy_next_first_fresh tx r hist now stale :
  ring_ok r hist -> tx_ok tx hist -> tx_current_len tx <= tx_current_off tx ->
  let from := Z.max (tx_cursor_seq tx) (ring_oldest_seq r) in
  let '(q, b) := tx_copy_next tx r now stale in
  copy_post tx q b hist from now stale /\
  tx_skipped_bytes q = (if tx_cursor_seq tx <? from
    then u64 (tx_skipped_bytes tx + (cum hist from - cum hist (tx_cursor_seq tx)))
    else tx_skipped_bytes tx) /\
  tx_skipped_frames q = (if tx_cursor_seq tx <? from
    then u32 (tx_skipped_frames tx + (from - tx_cursor_seq tx)) else tx_skipped_frames tx).
Proof.
  intros Hok Htx Hoff from. pose proof (tx_copy_next_ok tx r hist now stale Hok Htx Hoff) as Hp.
  destruct (tx_copy_next tx r now stale) as [q b]. by destruct Hp as (_ & ? & _ & ? & ?).
Qed.

(** The 32-bit frame number is where the accounting ends: a sender that has
    read all of the first 2^32 - 1 frames does not see the next one, because the
    ring's counter wraps to 0 and the cursor is compared, not subtracted. *)
Theorem tx_seq_wrap_starves tx r frame now1 now stale :
  6 <= zlen frame <= RTCM_MAX_FRAME_B -> r_next_seq r = UINT32_MAX ->
  tx_cursor_seq tx = UINT32_MAX ->
  tx_copy_next tx (ntrip_ring_push r frame (zlen frame) now1) now stale = (tx, false).
Proof.
  intros Hf Hr Hc.
  assert (Hn : r_next_seq (ntrip_ring_push r frame (zlen frame) now1) = 0).
  { unfold ntrip_ring_push.
    destruct (zlen frame <? 6) eqn:E1; [lia|]. destruct (RTCM_MAX_FRAME_B <? zlen frame) eqn:E2; [lia|].
    cbn. by rewrite Hr. }
  unfold tx_copy_next, tx_jump, ring_oldest_seq. rewrite Hn.
  change (if RTCM_RING_SLOTS <? 0 then 0 - RTCM_RING_SLOTS else 0) with 0.
  destruct (tx_cursor_seq tx <? 0) eqn:E; rewrite Hc in *; [done|].
  change (Z.to_nat (0 - UINT32_MAX)) with 0%nat. reflexivity.
Qed.

(** ** Witnesses *)

Definition demo_frame (b : Z) : list Z := repeat b 7.
Definition demo_sock : script_sock := ([], [(3, 0); (-1, 11)]).
Definition demo_ring : ntrip_ring_t := push_all ntrip_ring_init [(demo_frame 1, 5); (demo_frame 2, 6)].
Definition demo_hist : list entry := [(demo_frame 1, 5); (demo_frame 2, 6)].
Definition demo_tx : ntrip_tx_t := (tx_round ntrip_tx_init demo_ring 7 1000 demo_sock).1.1.
Definition demo_sys : @sys script_sock := mk_sys demo_ring demo_hist
  [mk_conn demo_tx ([1; 1; 1], [(-1, 11)]) 0 true].

Lemma demo_hist_ok : ring_ok demo_ring demo_hist.
Proof.
  apply (push_all_ok demo_hist ntrip_ring_init []); [apply ring_init_ok| |done].
  by apply entries_okb.
Qed.

Lemma demo_init_ok : tx_ok ntrip_tx_init demo_hist.
Proof. unfold tx_ok. cbn. split_and!; try done. by left. Qed.

Lemma demo_reachable : reachable demo_sock 1 demo_sys.
Proof.
  eapply (reach_step _ _ (mk_sys demo_ring demo_hist
    [mk_conn (ntrip_tx_reset_conn ntrip_tx_init ntrip_ring_init 0) demo_sock 0 true])).
  2:{ refine (step_round (mk_sys demo_ring demo_hist
        [mk_conn (ntrip_tx_reset_conn ntrip_tx_init ntrip_ring_init 0) demo_sock 0 true])
        0%nat _ 7 1000 _ _ R_sent eq_refl eq_refl _). vm_compute. reflexivity. }
  eapply reach_step; [|refine (step_push (mk_sys (ntrip_ring_push ntrip_ring_init (demo_frame 1) 7 5)
    [(demo_frame 1, 5)] _) (demo_frame 2) 6 _ _)]; [|by vm_compute|done].
  eapply reach_step; [|refine (step_push (mk_sys ntrip_ring_init [] _) (demo_frame 1) 5 _ _)];
    [|by vm_compute|done].
  eapply reach_step; [apply reach_init|].
  exact (step_connect (sys_init demo_sock 1) 0%nat _ demo_sock 0 eq_refl eq_refl).
Qed.

Lemma tx_wire_whole_frames_witness :
  Forall (fun c => whole_then_prefix demo_hist (cn_start c) (wire (cn_sock c)) /\
    (cn_open c = true -> conn_ok (cn_tx c) demo_hist (cn_start c) (wire (cn_sock c))))
    (sy_conns demo_sys).
Proof. exact (tx_wire_whole_frames demo_sock 1 demo_sys eq_refl demo_reachable). Defined.

Lemma tx_bytes_accounted_witness :
  Forall (fun c => let tx := cn_tx c in
    0 <= tx_cursor_seq tx <= 2 /\
    u64 (tx_accepted_to_lwip tx + tx_dropped_bytes tx + ntrip_tx_pending tx +
         tx_skipped_bytes tx + tx_dropped_stale_bytes tx)
      = u64 (cum demo_hist (tx_cursor_seq tx))) (sy_conns demo_sys).
Proof. exact (tx_bytes_accounted demo_sock 1 demo_sys eq_refl demo_reachable). Defined.

Lemma tx_poll_contract_witness :
  let '(q, s', res) := ntrip_tx_poll ntrip_tx_init demo_ring 7 5 1000 demo_sock in
  res = NTRIP_TX_POLL_WOULDBLOCK /\ wire s' = [1; 1; 1] /\ tx_ok q demo_hist /\
  conn_ok q demo_hist 0 (wire s') /\ tx_current_off q < tx_current_len q.
Proof.
  assert (Hc : conn_ok ntrip_tx_init demo_hist 0 (wire demo_sock))
    by (exists []; split; [constructor|split; [done|by split]]).
  pose proof (tx_poll_contract ntrip_tx_init demo_ring demo_hist 0 7 5 1000 demo_sock
    demo_hist_ok demo_init_ok Hc) as Hp.
  assert (Hres : (ntrip_tx_poll ntrip_tx_init demo_ring 7 5 1000 demo_sock).2 =
                 NTRIP_TX_POLL_WOULDBLOCK) by (vm_compute; reflexivity).
  assert (Hw : wire (ntrip_tx_poll ntrip_tx_init demo_ring 7 5 1000 demo_sock).1.2 = [1; 1; 1])
    by (vm_compute; reflexivity).
  destruct (ntrip_tx_poll ntrip_tx_init demo_ring 7 5 1000 demo_sock) as [[q s'] res].
  cbn in Hres, Hw. subst res. destruct Hp as (Hq & _ & Hx & Hy). by split_and!.
Defined.

Lemma tx_copy_next_first_fresh_witness :
  let '(q, b) := tx_copy_next ntrip_tx_init demo_ring 1006 1000 in
  b = true /\ copy_post ntrip_tx_init q b demo_hist 0 1006 1000 /\ tx_skipped_bytes q = 0.
Proof.
  pose proof (tx_copy_next_first_fresh ntrip_tx_init demo_ring demo_hist 1006 1000
    demo_hist_ok demo_init_ok ltac:(done)) as Hp.
  assert (Hb : (tx_copy_next ntrip_tx_init demo_ring 1006 1000).2 = true)
    by (vm_compute; reflexivity).
  destruct (tx_copy_next ntrip_tx_init demo_ring 1006 1000) as [q b].
  destruct Hp as (Hp & Hs & _). by split_and!.
Defined.

Lemma tx_seq_wrap_starves_witness :
  let r := mk_ring (repeat slot_zero 16) UINT32_MAX 0 0 in
  let tx := ntrip_tx_init <| tx_cursor_seq := UINT32_MAX |> in
  tx_copy_next tx (ntrip_ring_push r (demo_frame 1) 7 5) 6 1000 = (tx, false).
Proof.
  apply (tx_seq_wrap_starves _ _ (demo_frame 1) 5 6 1000).
  - cbn. unfold RTCM_MAX_FRAME_B, demo_frame. vm_compute. split; congruence.
  - reflexivity.
  - reflexivity.
Defined.
