(* ===== verification/GnssAck.v ===== *)
(** * Command replies of the receiver (src/main/gnss_ack.c)

    [gnss_ack_scan] looks for a verdict addressed to a command in a buffer that
    mixes text records and binary data.  Offsets are [Z]; -1 is "not found". *)

From S2P Require Import Prelude.

Definition PREFIX : list Z := Eval compute in of_str "$command,".
Definition PREFIX_LEN : Z := 9.
Definition RESPONSE : list Z := Eval compute in of_str ",response:".
Definition NO_ECHO : list Z := Eval compute in of_str "response:".
Definition NO_FUNC : list Z := Eval compute in of_str "NO MATCHING FUNC".
Definition PARSING_FAIL : list Z := Eval compute in of_str "PARSING FAIL".
Definition OK_TEXT : list Z := [79; 75].
Definition STAR : list Z := [42].

(** [hay[i, i+len)] *)
Definition span (hay : list Z) (i len : Z) : list Z := ztake len (zdrop i hay).

(** The loop of [find_at], [k] offsets left. *)
Fixpoint find_from (k : nat) (hay : list Z) (i : Z) (needle : list Z) : Z :=
  match k with
  | O => -1
  | S k' =>
    if (zget hay i =? zget needle 0) && bytes_eqb (span hay i (zlen needle)) needle then i
    else find_from k' hay (i + 1) needle
  end.

Definition find_at (hay : list Z) (n from : Z) (needle : list Z) : Z :=
  let nlen := zlen needle in
  if (nlen =? 0) || (n <? nlen) then -1
  else find_from (Z.to_nat (n - nlen - from + 1)) hay from needle.

Definition span_equals (s : list Z) (cmd : list Z) : bool := bytes_eqb s cmd.

Definition is_hex (c : Z) : bool :=
  ((48 <=? c) && (c <=? 57)) || ((97 <=? c) && (c <=? 102)) || ((65 <=? c) && (c <=? 70)).

Definition hex_val (c : Z) : Z :=
  if (48 <=? c) && (c <=? 57) then c - 48
  else if (97 <=? c) && (c <=? 102) then c - 97 + 10
  else c - 65 + 10.

(** XOR over [buf[rec, star)]. *)
Definition xor_sum (l : list Z) : Z := fold_left Z.lxor l 0.

Definition record_valid_at (buf : list Z) (n rec star : Z) : bool :=
  if n <=? star + 2 then false
  else if negb (is_hex (zget buf (star + 1))) || negb (is_hex (zget buf (star + 2))) then false
  else
    let want := Z.lor (Z.shiftl (hex_val (zget buf (star + 1))) 4) (hex_val (zget buf (star + 2))) in
    xor_sum (span buf rec (star - rec)) =? want.

Inductive gnss_ack_verdict_t := GNSS_ACK_NONE | GNSS_ACK_OK | GNSS_ACK_REJECTED.

(** The inner loop: the first delimiter whose checksum is right, not behind the
    next record; -1 without one; [None] only when the fuel is spent. *)
Fixpoint star_loop (fuel : nat) (buf : list Z) (n rec next s : Z) : option Z :=
  match fuel with
  | O => None
  | S fuel' =>
    if s <? 0 then Some (-1)
    else if (0 <=? next) && (next <? s) then Some (-1)
    else if record_valid_at buf n rec s then Some s
    else star_loop fuel' buf n rec next (find_at buf n (s + 1) STAR)
  end.

Definition find_star (buf : list Z) (n rec next body : Z) : option Z :=
  star_loop (S (Z.to_nat n)) buf n rec next (find_at buf n body STAR).

(** [while (v < end && buf[v] == ' ') v++], [k = end - v] *)
Fixpoint skip_spaces (k : nat) (buf : list Z) (v : Z) : Z :=
  match k with
  | O => v
  | S k' => if zget buf v =? 32 then skip_spaces k' buf (v + 1) else v
  end.

(** [while (vend > v && (buf[vend-1] == ' ' || buf[vend-1] == '\r')) vend--] *)
Fixpoint trim_end (k : nat) (buf : list Z) (vend : Z) : Z :=
  match k with
  | O => vend
  | S k' => if (zget buf (vend - 1) =? 32) || (zget buf (vend - 1) =? 13)
            then trim_end k' buf (vend - 1) else vend
  end.

(** The verdict of the complete record [buf[body, end)], or the one so far. *)
Definition judge_record (buf cmd : list Z) (body end_ : Z) (verdict : gnss_ack_verdict_t)
    : gnss_ack_verdict_t :=
  let no_echo := (9 <=? end_ - body) && bytes_eqb (span buf body 9) NO_ECHO in
  let resp := if no_echo then body else find_at buf end_ body RESPONSE in
  if no_echo then
    let func := find_at buf end_ body NO_FUNC in
    if 0 <=? func then
      let cstart := skip_spaces (Z.to_nat (end_ - (func + 16))) buf (func + 16) in
      if span_equals (span buf cstart (end_ - cstart)) cmd then GNSS_ACK_REJECTED else verdict
    else verdict
  else if 0 <=? resp then
    if span_equals (span buf body (resp - body)) cmd then
      let v := skip_spaces (Z.to_nat (end_ - (resp + 10))) buf (resp + 10) in
      let vend := trim_end (Z.to_nat (end_ - v)) buf end_ in
      if (v + 12 <=? vend) && bytes_eqb (span buf v 12) PARSING_FAIL then GNSS_ACK_REJECTED
      else if span_equals (span buf v (vend - v)) OK_TEXT then GNSS_ACK_OK
      else verdict
    else verdict
  else verdict.

Fixpoint scan_loop (fuel : nat) (buf : list Z) (n : Z) (cmd : list Z) (pos : Z)
    (verdict : gnss_ack_verdict_t) : option gnss_ack_verdict_t :=
  match fuel with
  | O => None
  | S fuel' =>
    let rec := find_at buf n pos PREFIX in
    if rec <? 0 then Some verdict
    else
      let body := rec + PREFIX_LEN in
      let next := find_at buf n body PREFIX in
      match find_star buf n rec next body with
      | None => None
      | Some star =>
        if (star <? 0) || ((0 <=? next) && (next <? star))
        then scan_loop fuel' buf n cmd body verdict
        else scan_loop fuel' buf n cmd star (judge_record buf cmd body star verdict)
      end
  end.

(** [gnss_ack_scan(buf, n, cmd)] for non-NULL pointers: every turn moves [pos]
    by at least the prefix, so [n + 1] turns are enough. *)
Definition gnss_ack_scan (buf cmd : list Z) : option gnss_ack_verdict_t :=
  if zlen buf =? 0 then Some GNSS_ACK_NONE
  else scan_loop (S (Z.to_nat (zlen buf))) buf (zlen buf) cmd 0 GNSS_ACK_NONE.

(** ** What a reply is *)

Definition spaces (l : list Z) : Prop := Forall (fun c => c = 32) l.
Definition padding (l : list Z) : Prop := Forall (fun c => c = 32 \/ c = 13) l.

(** A complete record in [buf]: [r] is everything from the "$" to before the
    "*", and the two hexadecimal digits behind it are its checksum. *)
Definition sealed_record (buf r : list Z) : Prop :=
  exists pre h1 h2 post, buf = pre ++ r ++ STAR ++ h1 :: h2 :: post /\
    is_hex h1 = true /\ is_hex h2 = true /\
    xor_sum r = Z.lor (Z.shiftl (hex_val h1) 4) (hex_val h2).

Definition ok_reply (cmd r : list Z) : Prop :=
  exists sp pad, spaces sp /\ padding pad /\
    r = PREFIX ++ cmd ++ RESPONSE ++ sp ++ OK_TEXT ++ pad.

(** Both forms of a rejection. *)
Definition reject_reply (cmd r : list Z) : Prop :=
  (exists sp rest, spaces sp /\ r = PREFIX ++ cmd ++ RESPONSE ++ sp ++ PARSING_FAIL ++ rest) \/
  (exists rest sp, spaces sp /\ r = PREFIX ++ NO_ECHO ++ rest ++ NO_FUNC ++ sp ++ cmd).

(** ** Lemmas on the searches *)

Lemma span_len hay i len : 0 <= i -> 0 <= len -> i + len <= zlen hay -> zlen (span hay i len) = len.
Proof. intros. unfold span. rewrite zlen_ztake_le; [done|]. rewrite zlen_zdrop; lia. Qed.

Lemma span_split hay i a b :
  0 <= i -> 0 <= a -> 0 <= b -> span hay i (a + b) = span hay i a ++ span hay (i + a) b.
Proof.
  intros. unfold span. rewrite ztake_add by lia. by rewrite zdrop_zdrop by lia.
Qed.

Lemma span_all hay i len : 0 <= i -> 0 <= len -> i + len <= zlen hay ->
  hay = ztake i hay ++ span hay i len ++ zdrop (i + len) hay.
Proof.
  intros. unfold span. rewrite <- (zdrop_zdrop len i) by lia.
  by rewrite ztake_zdrop, ztake_zdrop.
Qed.

Lemma find_from_spec k : forall hay i needle r,
  find_from k hay i needle = r -> 0 <= i -> 0 <= r ->
  i <= r < i + Z.of_nat k /\ span hay r (zlen needle) = needle.
Proof.
  induction k as [|k IH]; intros hay i needle r; cbn; [lia|].
  destruct (_ && _) eqn:E; intros H Hi Hr.
  - subst. apply andb_true_iff in E as [_ E]. apply bytes_eqb_eq in E. split; [lia|done].
  - apply IH in H as [? ?]; [|lia|lia]. split; [lia|done].
Qed.

Lemma find_at_spec hay n from needle r :
  find_at hay n from needle = r -> 0 <= from -> 0 <= r ->
  from <= r /\ r + zlen needle <= n /\ span hay r (zlen needle) = needle.
Proof.
  unfold find_at. destruct (_ || _); intros H Hf Hr; [lia|].
  apply find_from_spec in H as [H1 H2]; [|lia|lia]. split_and!; [lia|lia|done].
Qed.

Lemma find_from_ge k : forall hay i needle, 0 <= i -> -1 <= find_from k hay i needle.
Proof. induction k as [|k IH]; intros; cbn; [lia|]. case_if; [lia|apply IH; lia]. Qed.

Lemma find_at_ge hay n from needle : 0 <= from -> -1 <= find_at hay n from needle.
Proof. intros. unfold find_at. case_if; [lia|by apply find_from_ge]. Qed.


(** The delimiter search always ends, with -1 or a sealed record's end. *)
Lemma star_loop_spec fuel : forall buf n rec next lo s,
  0 <= lo -> (0 < fuel)%nat -> (0 <= s -> n - s < Z.of_nat fuel /\ lo <= s /\ s + 1 <= n /\ span buf s 1 = STAR) ->
  exists r, star_loop fuel buf n rec next s = Some r /\
    (0 <= r -> lo <= r /\ r < n /\ span buf r 1 = STAR /\ record_valid_at buf n rec r = true /\
               (0 <= next -> r <= next)).
Proof.
  induction fuel as [|fuel IH]; intros buf n rec next lo s Hlo Hf Hs; [lia|]. cbn.
  destruct (s <? 0) eqn:E0; [exists (-1); split; [done|lia]|].
  destruct (Hs ltac:(lia)) as (Hfs & Hls & Hsn & Hst).
  destruct ((0 <=? next) && (next <? s)) eqn:En; [exists (-1); split; [done|lia]|].
  destruct (record_valid_at buf n rec s) eqn:Er.
  - exists s. split; [done|]. intros _. split_and!; try done; lia.
  - apply (IH _ _ _ _ lo); [done|lia|]. intros Hs2.
    pose proof (find_at_spec buf n (s + 1) STAR _ eq_refl ltac:(lia) Hs2) as (H1 & H2 & H3).
    change (zlen STAR) with 1 in *. split_and!; try done; lia.
Qed.

Lemma find_star_spec buf n rec next body :
  0 <= body -> 0 <= n ->
  exists r, find_star buf n rec next body = Some r /\
    (0 <= r -> body <= r /\ r < n /\ span buf r 1 = STAR /\ record_valid_at buf n rec r = true /\
               (0 <= next -> r <= next)).
Proof.
  intros Hb Hn. apply star_loop_spec; [done|lia|]. intros Hs.
  pose proof (find_at_spec buf n body STAR _ eq_refl ltac:(lia) Hs) as (H1 & H2 & H3).
  change (zlen STAR) with 1 in *. split_and!; try done; lia.
Qed.

Lemma zdrop_zget l i : 0 <= i < zlen l -> zdrop i l = zget l i :: zdrop (i + 1) l.
Proof.
  intros. unfold zdrop, zget, zlen in *. replace (Z.to_nat (i + 1)) with (S (Z.to_nat i)) by lia.
  destruct (lookup_lt_is_Some_2 l (Z.to_nat i) ltac:(lia)) as [x Hx]. rewrite Hx. by apply drop_S.
Qed.

Lemma zget_span buf i len j : 0 <= i -> 0 <= j < len -> zget (span buf i len) j = zget buf (i + j).
Proof. intros. unfold span. rewrite zget_ztake, zget_zdrop by lia. done. Qed.

Lemma span_app_1 buf i len : 0 <= i -> 0 < len -> i + len <= zlen buf ->
  span buf i len = zget buf i :: span buf (i + 1) (len - 1).
Proof. intros. unfold span. by rewrite (zdrop_zget buf i), ztake_cons by lia. Qed.

Lemma record_sealed buf rec star :
  0 <= rec <= star -> span buf star 1 = STAR -> record_valid_at buf (zlen buf) rec star = true ->
  sealed_record buf (span buf rec (star - rec)).
Proof.
  intros Hr Hs. unfold record_valid_at.
  destruct (zlen buf <=? star + 2) eqn:E; [done|].
  destruct (is_hex (zget buf (star + 1))) eqn:H1; [|done].
  destruct (is_hex (zget buf (star + 2))) eqn:H2; [|done]. cbn [negb orb]. intros Hx.
  exists (ztake rec buf), (zget buf (star + 1)), (zget buf (star + 2)), (zdrop (star + 3) buf).
  split_and!; [|done|done|lia].
  rewrite (span_all buf rec (star - rec)) at 1 by lia. do 2 f_equal.
  replace (rec + (star - rec)) with star by lia.
  rewrite <- Hs. rewrite (span_app_1 buf star 1) by lia. change (1 - 1) with 0.
  rewrite (zdrop_zget buf star), (zdrop_zget buf (star + 1)), (zdrop_zget buf (star + 1 + 1)) by lia.
  replace (star + 1 + 1) with (star + 2) by lia. replace (star + 2 + 1) with (star + 3) by lia. done.
Qed.

Lemma zget_in l i : 0 <= i -> zget l i <> 0 -> i < zlen l.
Proof.
  intros Hi Hz. destruct (decide (i < zlen l)); [done|]. exfalso. apply Hz.
  unfold zget. rewrite lookup_ge_None_2; [done|]. unfold zlen in *. lia.
Qed.

Lemma skip_spaces_spec k : forall buf v,
  0 <= v -> let r := skip_spaces k buf v in
  v <= r <= v + Z.of_nat k /\ spaces (span buf v (r - v)) /\ (v < r -> r <= zlen buf).
Proof.
  induction k as [|k IH]; intros buf v Hv; cbn.
  - rewrite Z.sub_diag. split_and!; [lia|lia|by apply Forall_nil|lia].
  - destruct (zget buf v =? 32) eqn:E.
    + destruct (IH buf (v + 1) ltac:(lia)) as (H1 & H2 & H3). set (r := skip_spaces _ _ _) in *.
      pose proof (zget_in buf v Hv ltac:(lia)).
      assert (r <= zlen buf) by (destruct (decide (v + 1 < r)); [auto|lia]).
      split_and!; [lia|lia| |lia].
      rewrite span_app_1 by lia. apply Forall_cons. split; [lia|].
      by replace (r - v - 1) with (r - (v + 1)) by lia.
    + rewrite Z.sub_diag. split_and!; [lia|lia|by apply Forall_nil|lia].
Qed.

Lemma trim_end_spec k : forall buf e,
  Z.of_nat k <= e <= zlen buf -> let r := trim_end k buf e in
  e - Z.of_nat k <= r <= e /\ padding (span buf r (e - r)).
Proof.
  induction k as [|k IH]; intros buf e He; cbn.
  - rewrite Z.sub_diag. split; [lia|by apply Forall_nil].
  - destruct (_ || _) eqn:E.
    + destruct (IH buf (e - 1) ltac:(lia)) as [H1 H2]. set (r := trim_end _ _ _) in *.
      split; [lia|]. replace (e - r) with (e - 1 - r + 1) by lia.
      rewrite span_split by lia. replace (r + (e - 1 - r)) with (e - 1) by lia.
      apply Forall_app. split; [done|]. rewrite span_app_1 by lia.
      apply Forall_cons. split; [lia|by apply Forall_nil].
    + rewrite Z.sub_diag. split; [lia|by apply Forall_nil].
Qed.

(** ** Soundness of one record *)

Lemma span_cat buf a b c : 0 <= a <= b -> b <= c -> span buf a (c - a) = span buf a (b - a) ++ span buf b (c - b).
Proof.
  intros. replace (c - a) with ((b - a) + (c - b)) by lia. rewrite span_split by lia.
  by replace (a + (b - a)) with b by lia.
Qed.

Definition verdict_backed (buf cmd : list Z) (v : gnss_ack_verdict_t) : Prop :=
  match v with
  | GNSS_ACK_NONE => True
  | GNSS_ACK_OK => exists r, sealed_record buf r /\ ok_reply cmd r
  | GNSS_ACK_REJECTED => exists r, sealed_record buf r /\ reject_reply cmd r
  end.

Lemma judge_no_echo buf cmd rec end_ func :
  0 <= rec -> end_ <= zlen buf -> span buf rec 9 = PREFIX -> span buf (rec + 9) 9 = NO_ECHO ->
  rec + 9 <= func -> func + 16 <= end_ -> span buf func 16 = NO_FUNC ->
  let cstart := skip_spaces (Z.to_nat (end_ - (func + 16))) buf (func + 16) in
  span buf cstart (end_ - cstart) = cmd ->
  reject_reply cmd (span buf rec (end_ - rec)).
Proof.
  intros Hr He Hp Hn Hf1 Hf2 Hfn cstart Hc.
  destruct (skip_spaces_spec (Z.to_nat (end_ - (func + 16))) buf (func + 16) ltac:(lia)) as (H1 & H2 & _).
  fold cstart in H1, H2.
  assert (Hf : rec + 18 <= func).
  { destruct (decide (rec + 18 <= func)) as [|Hlt]; [done|exfalso].
    assert (H78 : zget buf func = 78).
    { pose proof (zget_span buf func 16 0 ltac:(lia) ltac:(lia)) as Hz.
      rewrite Hfn, Z.add_0_r in Hz. by rewrite <- Hz. }
    pose proof (zget_span buf (rec + 9) 9 (func - (rec + 9)) ltac:(lia) ltac:(lia)) as Hz.
    rewrite Hn in Hz. replace (rec + 9 + (func - (rec + 9))) with func in Hz by lia.
    rewrite H78 in Hz. assert (Hd : 0 <= func - (rec + 9) <= 8) by lia.
    set (d := func - (rec + 9)) in *. clearbody d.
    assert (d = 0 \/ d = 1 \/ d = 2 \/ d = 3 \/ d = 4 \/ d = 5 \/ d = 6 \/ d = 7 \/ d = 8) as Hc9 by lia.
    clear -Hz Hc9. destruct_or?; subst; discriminate Hz. }
  right. exists (span buf (rec + 18) (func - (rec + 18))), (span buf (func + 16) (cstart - (func + 16))).
  split; [done|].
  rewrite (span_cat buf rec (rec + 9)), (span_cat buf (rec + 9) (rec + 18)),
    (span_cat buf (rec + 18) func), (span_cat buf func (func + 16)),
    (span_cat buf (func + 16) cstart) by lia.
  replace (rec + 9 - rec) with 9 by lia. replace (rec + 18 - (rec + 9)) with 9 by lia.
  replace (func + 16 - func) with 16 by lia. by rewrite Hp, Hn, Hfn, Hc.
Qed.

Lemma judge_record_sound buf cmd rec end_ verdict :
  0 <= rec -> rec + 9 <= end_ <= zlen buf -> span buf rec 9 = PREFIX ->
  sealed_record buf (span buf rec (end_ - rec)) -> verdict_backed buf cmd verdict ->
  verdict_backed buf cmd (judge_record buf cmd (rec + 9) end_ verdict).
Proof.
  intros Hr He Hp Hs Hv. unfold judge_record. set (body := rec + 9) in *.
  destruct ((9 <=? end_ - body) && bytes_eqb (span buf body 9) NO_ECHO) eqn:En.
  - apply andb_true_iff in En as [En1 En2]. apply bytes_eqb_eq in En2.
    set (func := find_at buf end_ body NO_FUNC). destruct (0 <=? func) eqn:Ef; [|done].
    destruct (find_at_spec buf end_ body NO_FUNC func eq_refl) as (F1 & F2 & F3); [lia|lia|].
    change (zlen NO_FUNC) with 16 in *.
    case_if; [|done]. apply bytes_eqb_eq in Heqb.
    exists (span buf rec (end_ - rec)). split; [done|].
    apply (judge_no_echo buf cmd rec end_ func); try done; lia.
  - set (resp := find_at buf end_ body RESPONSE). destruct (0 <=? resp) eqn:Ef; [|done].
    destruct (find_at_spec buf end_ body RESPONSE resp eq_refl) as (F1 & F2 & F3); [lia|lia|].
    change (zlen RESPONSE) with 10 in *.
    destruct (span_equals (span buf body (resp - body)) cmd) eqn:Ec; [|done].
    apply bytes_eqb_eq in Ec.
    destruct (skip_spaces_spec (Z.to_nat (end_ - (resp + 10))) buf (resp + 10) ltac:(lia)) as (S1 & S2 & _).
    set (v := skip_spaces _ _ _) in *.
    destruct (trim_end_spec (Z.to_nat (end_ - v)) buf end_ ltac:(lia)) as (T1 & T2).
    set (vend := trim_end _ _ _) in *.
    assert (Hcat : span buf rec (end_ - rec) =
      PREFIX ++ cmd ++ RESPONSE ++ span buf (resp + 10) (v - (resp + 10)) ++ span buf v (end_ - v)).
    { rewrite (span_cat buf rec body), (span_cat buf body resp), (span_cat buf resp (resp + 10)),
        (span_cat buf (resp + 10) v) by lia.
      replace (body - rec) with 9 by lia. replace (resp + 10 - resp) with 10 by lia.
      by rewrite Hp, Ec, F3. }
    destruct ((v + 12 <=? vend) && _) eqn:Epf.
    + apply andb_true_iff in Epf as [E1 E2]. apply bytes_eqb_eq in E2.
      exists (span buf rec (end_ - rec)). split; [done|]. left.
      exists (span buf (resp + 10) (v - (resp + 10))), (span buf (v + 12) (end_ - (v + 12))).
      split; [done|]. rewrite Hcat. rewrite (span_cat buf v (v + 12)) by lia.
      replace (v + 12 - v) with 12 by lia. by rewrite E2.
    + destruct (span_equals (span buf v (vend - v)) OK_TEXT) eqn:Eok; [|done].
      apply bytes_eqb_eq in Eok. exists (span buf rec (end_ - rec)). split; [done|].
      exists (span buf (resp + 10) (v - (resp + 10))), (span buf vend (end_ - vend)).
      split_and!; [done|done|]. rewrite Hcat. rewrite (span_cat buf v vend) by lia. by rewrite Eok.
Qed.

Lemma scan_loop_sound fuel : forall buf cmd pos verdict,
  0 <= pos <= zlen buf -> zlen buf - pos < Z.of_nat fuel -> verdict_backed buf cmd verdict ->
  exists v, scan_loop fuel buf (zlen buf) cmd pos verdict = Some v /\ verdict_backed buf cmd v.
Proof.
  induction fuel as [|fuel IH]; intros buf cmd pos verdict Hpos Hf Hv; [lia|].
  cbn [scan_loop]. set (rec := find_at buf (zlen buf) pos PREFIX).
  destruct (rec <? 0) eqn:Er; [by exists verdict|].
  destruct (find_at_spec buf (zlen buf) pos PREFIX rec eq_refl) as (R1 & R2 & R3); [lia|lia|].
  change (zlen PREFIX) with 9 in *. unfold PREFIX_LEN.
  set (next := find_at buf (zlen buf) (rec + 9) PREFIX).
  destruct (find_star_spec buf (zlen buf) rec next (rec + 9) ltac:(lia) (zlen_nonneg buf))
    as (star & -> & Hstar).
  destruct ((star <? 0) || _) eqn:Es; [apply IH; [lia|lia|done]|].
  destruct Hstar as (S1 & S2 & S3 & S4 & _); [lia|].
  apply IH; [lia|lia|]. apply judge_record_sound; try done; [lia|lia|].
  apply record_sealed; [lia|done|done].
Qed.

(** ** Completeness for one reply *)

Lemma find_from_first k : forall hay i needle r,
  i <= r < i + Z.of_nat k -> 0 <= i -> zget hay r = zget needle 0 ->
  span hay r (zlen needle) = needle ->
  (forall j, i <= j < r -> zget hay j = zget needle 0 -> span hay j (zlen needle) <> needle) ->
  find_from k hay i needle = r.
Proof.
  induction k as [|k IH]; intros hay i needle r Hr Hi Hg Hs Hno; [lia|]. cbn.
  destruct (decide (i = r)) as [->|Hne].
  - rewrite Hs, bytes_eqb_refl, Hg, Z.eqb_refl. done.
  - destruct (_ && _) eqn:E.
    + apply andb_true_iff in E as [E1 E2]. apply bytes_eqb_eq in E2. exfalso.
      apply (Hno i); [lia|lia|done].
    + apply IH; try done; [lia|lia|]. intros j Hj. apply Hno. lia.
Qed.

Lemma find_from_none k : forall hay i needle,
  0 <= i -> (forall j, i <= j < i + Z.of_nat k -> zget hay j = zget needle 0 -> False) ->
  find_from k hay i needle = -1.
Proof.
  induction k as [|k IH]; intros hay i needle Hi Hno; [done|]. cbn.
  destruct (zget hay i =? zget needle 0) eqn:E; cbn [andb].
  - exfalso. apply (Hno i); lia.
  - apply IH; [lia|]. intros j Hj. apply Hno. lia.
Qed.

Lemma find_at_first hay n i needle r :
  0 <= i <= r -> r + zlen needle <= n -> needle <> [] -> zget hay r = zget needle 0 ->
  span hay r (zlen needle) = needle ->
  (forall j, i <= j < r -> zget hay j = zget needle 0 -> span hay j (zlen needle) <> needle) ->
  find_at hay n i needle = r.
Proof.
  intros Hi Hr Hne Hg Hs Hno. unfold find_at.
  assert (0 < zlen needle).
  { destruct needle; [done|]. rewrite zlen_cons. pose proof (zlen_nonneg needle). lia. }
  destruct (_ || _) eqn:E; [lia|]. apply find_from_first; auto; lia.
Qed.

Lemma find_at_none hay n i needle :
  0 <= i -> (forall j, i <= j <= n - zlen needle -> zget hay j = zget needle 0 -> False) ->
  find_at hay n i needle = -1.
Proof.
  intros Hi Hno. unfold find_at. destruct (_ || _); [done|].
  apply find_from_none; [done|]. intros j Hj. apply Hno. lia.
Qed.

Definition lacks (c : Z) (l : list Z) : Prop := Forall (fun b => b <> c) l.

Lemma lacks_get c l i : lacks c l -> 0 <= i < zlen l -> zget l i <> c.
Proof.
  intros Hl Hi. unfold zget, zlen in *.
  destruct (lookup_lt_is_Some_2 l (Z.to_nat i) ltac:(lia)) as [x Hx]. rewrite Hx.
  exact (Forall_lookup_1 _ _ _ _ Hl Hx).
Qed.

Lemma span_mid a b c : span (a ++ b ++ c) (zlen a) (zlen b) = b.
Proof. unfold span. by rewrite zdrop_app_exact, ztake_app_exact. Qed.

Lemma lacks_app c l k : lacks c (l ++ k) <-> lacks c l /\ lacks c k.
Proof. apply Forall_app. Qed.

Lemma skip_spaces_exact sp : forall k pre rest,
  spaces sp -> zget rest 0 <> 32 -> zlen sp <= Z.of_nat k ->
  skip_spaces k (pre ++ sp ++ rest) (zlen pre) = zlen pre + zlen sp.
Proof.
  induction sp as [|c sp IH]; intros k pre rest Hs Hr Hk.
  - destruct k as [|k]; cbn; [rewrite zlen_nil; lia|].
    rewrite zget_app_r, Z.sub_diag by lia. change (zlen []) with 0.
    destruct (zget rest 0 =? 32) eqn:E; lia.
  - apply Forall_cons in Hs as [-> Hs]. rewrite zlen_cons in *. pose proof (zlen_nonneg sp).
    destruct k as [|k]; [lia|]. cbn [skip_spaces].
    rewrite zget_app_r, Z.sub_diag by lia. change (zget ((32 :: sp) ++ rest) 0 =? 32) with true.
    cbv iota. replace (pre ++ (32 :: sp) ++ rest) with ((pre ++ [32]) ++ sp ++ rest)
      by (by rewrite <- (app_assoc pre [32])).
    replace (zlen pre + 1) with (zlen (pre ++ [32])) by (apply zlen_snoc).
    rewrite IH by (done || lia). rewrite zlen_snoc. lia.
Qed.

Lemma trim_end_exact pad : forall k pre rest,
  padding pad -> zlen pad <= Z.of_nat k -> 
  zget pre (zlen pre - 1) <> 32 /\ zget pre (zlen pre - 1) <> 13 ->
  pre <> [] ->
  trim_end k (pre ++ pad ++ rest) (zlen pre + zlen pad) = zlen pre.
Proof.
  induction pad as [|c pad IH] using rev_ind; intros k pre rest Hp Hk Hlast Hne.
  - rewrite zlen_nil, Z.add_0_r. destruct k as [|k]; [done|]. cbn [trim_end app].
    assert (0 < zlen pre).
    { destruct pre; [done|]. rewrite zlen_cons. pose proof (zlen_nonneg pre). lia. }
    rewrite zget_app_l by lia. destruct Hlast. case_if; [lia|done].
  - apply Forall_app in Hp as [Hp Hc]. apply Forall_cons in Hc as [Hc _].
    rewrite zlen_snoc in *.
    pose proof (zlen_nonneg pad). destruct k as [|k]; [lia|]. cbn [trim_end].
    replace (zlen pre + (zlen pad + 1) - 1) with (zlen pre + zlen pad) by lia.
    assert (Hz : zget (pre ++ (pad ++ [c]) ++ rest) (zlen pre + zlen pad) = c).
    { rewrite zget_app_r by lia. rewrite <- app_assoc, zget_app_r by lia.
      replace (zlen pre + zlen pad - zlen pre - zlen pad) with 0 by lia. done. }
    rewrite Hz. destruct (_ || _) eqn:E; [|lia].
    rewrite <- app_assoc. apply IH; auto. lia.
Qed.

(** The command texts the firmware sends: no record syntax in them. *)
Definition plain_command (cmd : list Z) : Prop :=
  lacks 36 cmd /\ lacks 42 cmd /\ ztake 9 (cmd ++ RESPONSE) <> NO_ECHO /\
  (forall j, 0 <= j < zlen cmd -> span (cmd ++ RESPONSE) j 10 <> RESPONSE).

(** A buffer with one success reply between bytes without "$". *)
Definition ok_buffer (pre cmd sp pad post : list Z) (h1 h2 : Z) : list Z :=
  pre ++ (PREFIX ++ cmd ++ RESPONSE ++ sp ++ OK_TEXT ++ pad) ++ STAR ++ h1 :: h2 :: post.

(** C31: soundness: on any buffer [gnss_ack_scan] returns, and a verdict comes
    from a complete record with a correct checksum that is addressed to exactly
    this command: OK only from an echo of the command whose whole verdict text
    is "OK", REJECTED only from an echo with "PARSING FAIL" or from the
    echo-less form that ends in the command. *)
Theorem gnss_ack_sound buf cmd :
  exists v, gnss_ack_scan buf cmd = Some v /\
    (v = GNSS_ACK_OK -> exists r, sealed_record buf r /\ ok_reply cmd r) /\
    (v = GNSS_ACK_REJECTED -> exists r, sealed_record buf r /\ reject_reply cmd r).
Proof.
  unfold gnss_ack_scan. destruct (zlen buf =? 0); [by exists GNSS_ACK_NONE|].
  pose proof (zlen_nonneg buf).
  destruct (scan_loop_sound (S (Z.to_nat (zlen buf))) buf cmd 0 GNSS_ACK_NONE)
    as (v & Hv & Hb); [lia|lia|done|].
  exists v. split; [done|]. split; intros ->; exact Hb.
Qed.

Section OkReply.
Context (pre cmd sp pad post : list Z) (h1 h2 : Z).
Context (Hcmd : plain_command cmd) (Hsp : spaces sp) (Hpad : padding pad)
        (Hpre : lacks 36 pre) (Hpost : lacks 36 post)
        (Hh1 : is_hex h1 = true) (Hh2 : is_hex h2 = true)
        (Hsum : xor_sum (PREFIX ++ cmd ++ RESPONSE ++ sp ++ OK_TEXT ++ pad) =
                Z.lor (Z.shiftl (hex_val h1) 4) (hex_val h2)).

Let mid : list Z := cmd ++ RESPONSE ++ sp ++ OK_TEXT ++ pad.
Let tail : list Z := STAR ++ h1 :: h2 :: post.
Let buf : list Z := ok_buffer pre cmd sp pad post h1 h2.
Let body : Z := zlen pre + 9.
Let fin : Z := body + zlen mid.

Lemma lacks_of (c : Z) (P : Z -> Prop) l : Forall P l -> (forall b, P b -> b <> c) -> lacks c l.
Proof. intros H Hp. eapply Forall_impl; [exact H|]. exact Hp. Qed.

Lemma ok_buf_split : buf = (pre ++ PREFIX) ++ mid ++ tail.
Proof. unfold buf, ok_buffer, mid, tail. by rewrite <- !app_assoc. Qed.

Lemma ok_mid_lacks c : lacks c cmd -> c = 36 \/ c = 42 -> lacks c mid.
Proof.
  intros Hc Hor. unfold mid. rewrite !lacks_app. split_and!.
  - done.
  - repeat (apply Forall_cons; split; [lia|]). by apply Forall_nil.
  - apply (lacks_of _ _ _ Hsp). lia.
  - repeat (apply Forall_cons; split; [lia|]). by apply Forall_nil.
  - apply (lacks_of _ _ _ Hpad). lia.
Qed.

Lemma ok_tail_lacks : lacks 36 tail.
Proof.
  unfold is_hex in *.
  repeat (apply Forall_cons; split; [lia|]). exact Hpost.
Qed.

Lemma ok_buf_len : zlen buf = fin + 3 + zlen post.
Proof.
  rewrite ok_buf_split. unfold fin, body, tail. rewrite !zlen_app, !zlen_cons.
  change (zlen PREFIX) with 9. change (zlen STAR) with 1. lia.
Qed.

Lemma ok_get j : body <= j -> zget buf j = zget (mid ++ tail) (j - body).
Proof.
  intros Hj. rewrite ok_buf_split, zget_app_r; rewrite zlen_app; change (zlen PREFIX) with 9; [|unfold body in *; lia].
  done.
Qed.

Lemma ok_get_mid j : body <= j < fin -> zget buf j = zget mid (j - body).
Proof. intros Hj. rewrite ok_get by lia. apply zget_app_l. unfold fin in *. lia. Qed.

Lemma ok_get_tail j : fin <= j -> zget buf j = zget tail (j - fin).
Proof.
  intros Hj. pose proof (zlen_nonneg mid). rewrite ok_get, zget_app_r by (unfold fin in *; lia).
  f_equal. unfold fin. lia.
Qed.

Lemma ok_no_dollar j : body <= j < zlen buf -> zget buf j <> 36.
Proof.
  intros Hj. destruct (decide (j < fin)).
  - rewrite ok_get_mid by lia. apply lacks_get; [apply ok_mid_lacks; [apply Hcmd|by left]|].
    unfold fin in *. lia.
  - rewrite ok_get_tail by lia. apply lacks_get; [apply ok_tail_lacks|].
    rewrite ok_buf_len in Hj. unfold tail. rewrite zlen_app, !zlen_cons. change (zlen STAR) with 1. lia.
Qed.

Lemma ok_body_pos : 9 <= body /\ body + 12 <= fin.
Proof.
  unfold fin, body, mid. rewrite !zlen_app. change (zlen RESPONSE) with 10.
  change (zlen OK_TEXT) with 2. pose proof (zlen_nonneg pre). pose proof (zlen_nonneg cmd).
  pose proof (zlen_nonneg sp). pose proof (zlen_nonneg pad). lia.
Qed.

Lemma ok_find_prefix : find_at buf (zlen buf) 0 PREFIX = zlen pre.
Proof.
  pose proof ok_body_pos. pose proof (zlen_nonneg pre). pose proof (zlen_nonneg post).
  assert (Hs : span buf (zlen pre) 9 = PREFIX).
  { rewrite ok_buf_split, <- app_assoc. apply (span_mid pre PREFIX). }
  apply find_at_first; change (zlen PREFIX) with 9; try done; [rewrite ok_buf_len; unfold body in *; lia| |].
  - pose proof (zget_span buf (zlen pre) 9 0 ltac:(lia) ltac:(lia)) as Hz.
    rewrite Hs, Z.add_0_r in Hz. by rewrite <- Hz.
  - intros j Hj Hg. exfalso. rewrite ok_buf_split, <- app_assoc, zget_app_l in Hg by lia.
    exact (lacks_get 36 pre j Hpre Hj Hg).
Qed.

Lemma ok_no_prefix from : body <= from -> find_at buf (zlen buf) from PREFIX = -1.
Proof.
  pose proof ok_body_pos. intros Hf. apply find_at_none; [lia|]. change (zlen PREFIX) with 9.
  intros j Hj Hg. apply (ok_no_dollar j); [lia|]. exact Hg.
Qed.

Lemma ok_fin_star : span buf fin 1 = STAR.
Proof.
  pose proof ok_body_pos. pose proof (zlen_nonneg post).
  rewrite span_app_1 by (rewrite ?ok_buf_len; lia). rewrite ok_get_tail, Z.sub_diag by lia. done.
Qed.

Lemma ok_find_star : find_star buf (zlen buf) (zlen pre) (-1) body = Some fin.
Proof.
  pose proof ok_body_pos. pose proof (zlen_nonneg post). pose proof (zlen_nonneg pre).
  unfold find_star.
  assert (Hst : find_at buf (zlen buf) body STAR = fin).
  { apply find_at_first; change (zlen STAR) with 1; try done; [lia|rewrite ok_buf_len; lia| |apply ok_fin_star|].
    - rewrite ok_get_tail, Z.sub_diag by lia. done.
    - intros j Hj Hg. exfalso. rewrite ok_get_mid in Hg by lia.
      assert (Hl : lacks 42 mid) by (apply ok_mid_lacks; [apply Hcmd|by right]).
      apply (lacks_get 42 mid (j - body) Hl); [unfold fin in *; lia|exact Hg]. }
  assert (Hv : record_valid_at buf (zlen buf) (zlen pre) fin = true).
  { unfold record_valid_at. rewrite ok_buf_len. destruct (_ <=? _) eqn:E; [lia|].
    rewrite !ok_get_tail by lia. replace (fin + 1 - fin) with 1 by lia.
    replace (fin + 2 - fin) with 2 by lia. change (zget tail 1) with h1. change (zget tail 2) with h2.
    rewrite Hh1, Hh2. cbn [negb orb]. rewrite <- Hsum.
    assert (Hr : span buf (zlen pre) (fin - zlen pre) = PREFIX ++ mid).
    { replace (fin - zlen pre) with (zlen (PREFIX ++ mid))
        by (rewrite zlen_app; change (zlen PREFIX) with 9; unfold fin, body; lia).
      rewrite ok_buf_split. replace ((pre ++ PREFIX) ++ mid ++ tail) with (pre ++ (PREFIX ++ mid) ++ tail)
        by (by rewrite <- !app_assoc). apply span_mid. }
    rewrite Hr. apply Z.eqb_refl. }
  rewrite Hst. cbn [star_loop]. destruct (fin <? 0) eqn:E; [lia|]. cbn [Z.leb Z.compare andb].
  by rewrite Hv.
Qed.

Lemma ok_find_response : find_at buf fin body RESPONSE = body + zlen cmd.
Proof.
  pose proof ok_body_pos. pose proof (zlen_nonneg cmd). pose proof (zlen_nonneg sp).
  pose proof (zlen_nonneg pad).
  assert (Hsplit : buf = ((pre ++ PREFIX) ++ cmd) ++ RESPONSE ++ sp ++ OK_TEXT ++ pad ++ tail)
    by (rewrite ok_buf_split; unfold mid; by rewrite <- !app_assoc).
  assert (Hlp : zlen ((pre ++ PREFIX) ++ cmd) = body + zlen cmd)
    by (rewrite !zlen_app; change (zlen PREFIX) with 9; done).
  assert (Hs : span buf (body + zlen cmd) 10 = RESPONSE).
  { rewrite <- Hlp, Hsplit. apply (span_mid _ RESPONSE). }
  assert (Hr : body + zlen cmd + 10 <= fin).
  { unfold fin, mid. rewrite !zlen_app. change (zlen RESPONSE) with 10. change (zlen OK_TEXT) with 2. lia. }
  apply find_at_first; change (zlen RESPONSE) with 10; try done; [lia| |].
  - pose proof (zget_span buf (body + zlen cmd) 10 0 ltac:(lia) ltac:(lia)) as Hz.
    rewrite Hs, Z.add_0_r in Hz. by rewrite <- Hz.
  - intros j Hj _ Habs. destruct Hcmd as (_ & _ & _ & Hno). apply (Hno (j - body)); [lia|].
    rewrite <- Habs at 2. unfold span. rewrite ok_buf_split. unfold mid.
    replace (zdrop j ((pre ++ PREFIX) ++ (cmd ++ RESPONSE ++ sp ++ OK_TEXT ++ pad) ++ tail))
      with (zdrop (j - body) (cmd ++ RESPONSE) ++ sp ++ OK_TEXT ++ pad ++ tail).
    2:{ replace j with (zlen (pre ++ PREFIX) + (j - body)) at 2
          by (rewrite zlen_app; change (zlen PREFIX) with 9; unfold body; lia).
        rewrite <- zdrop_zdrop, zdrop_app_exact by (pose proof (zlen_nonneg (pre ++ PREFIX)); lia).
        rewrite <- zdrop_app_le by (rewrite zlen_app; change (zlen RESPONSE) with 10; lia).
        by rewrite <- !app_assoc. }
    rewrite ztake_app_le; [done|]. rewrite zlen_zdrop, zlen_app; change (zlen RESPONSE) with 10; [lia|].
    rewrite zlen_app; change (zlen RESPONSE) with 10; lia.
Qed.

Lemma ok_not_no_echo : bytes_eqb (span buf body 9) NO_ECHO = false.
Proof.
  destruct (bytes_eqb _ _) eqn:E; [|done]. exfalso. apply bytes_eqb_eq in E.
  destruct Hcmd as (_ & _ & Hno & _). apply Hno. rewrite <- E. unfold span.
  rewrite ok_buf_split. unfold mid. rewrite <- !app_assoc, (app_assoc pre PREFIX), (app_assoc cmd RESPONSE).
  replace body with (zlen (pre ++ PREFIX)) by (by rewrite zlen_app).
  rewrite zdrop_app_exact, (ztake_app_le 9 (cmd ++ RESPONSE)); [done|].
  rewrite zlen_app. change (zlen RESPONSE) with 10. pose proof (zlen_nonneg cmd). lia.
Qed.

Lemma ok_judge v : judge_record buf cmd body fin v = GNSS_ACK_OK.
Proof.
  pose proof ok_body_pos. pose proof (zlen_nonneg cmd). pose proof (zlen_nonneg sp).
  pose proof (zlen_nonneg pad). pose proof (zlen_nonneg post).
  set (p2 := (pre ++ PREFIX) ++ cmd ++ RESPONSE).
  assert (Hp2 : zlen p2 = body + zlen cmd + 10)
    by (unfold p2; rewrite !zlen_app; change (zlen PREFIX) with 9; change (zlen RESPONSE) with 10; unfold body; lia).
  assert (Hfin : fin = zlen p2 + zlen sp + 2 + zlen pad).
  { rewrite Hp2. unfold fin, mid. rewrite !zlen_app. change (zlen RESPONSE) with 10.
    change (zlen OK_TEXT) with 2. lia. }
  assert (Hb1 : buf = p2 ++ sp ++ OK_TEXT ++ pad ++ tail)
    by (rewrite ok_buf_split; unfold p2, mid; by rewrite <- !app_assoc).
  unfold judge_record. rewrite ok_not_no_echo, andb_false_r, ok_find_response. cbv iota.
  destruct (0 <=? body + zlen cmd) eqn:E0; [|lia].
  assert (Hecho : span buf body (body + zlen cmd - body) = cmd).
  { replace (body + zlen cmd - body) with (zlen cmd) by lia.
    replace buf with ((pre ++ PREFIX) ++ cmd ++ RESPONSE ++ sp ++ OK_TEXT ++ pad ++ tail)
      by (rewrite Hb1; unfold p2; by rewrite <- !app_assoc).
    replace body with (zlen (pre ++ PREFIX)) by (by rewrite zlen_app). apply span_mid. }
  rewrite Hecho. unfold span_equals at 1. rewrite bytes_eqb_refl. rewrite <- Hp2.
  assert (Hv : skip_spaces (Z.to_nat (fin - zlen p2)) buf (zlen p2) = zlen p2 + zlen sp).
  { rewrite Hb1. apply skip_spaces_exact; [done|done|lia]. }
  rewrite Hv. set (p3 := p2 ++ sp ++ OK_TEXT).
  assert (Hp3 : zlen p3 = zlen p2 + zlen sp + 2)
    by (unfold p3; rewrite !zlen_app; change (zlen OK_TEXT) with 2; lia).
  assert (Hlast : zget p3 (zlen p3 - 1) = 75).
  { unfold p3 at 1. rewrite app_assoc, zget_app_r; rewrite zlen_app; [|lia].
    replace (zlen p3 - 1 - (zlen p2 + zlen sp)) with 1 by lia. done. }
  assert (Hend : trim_end (Z.to_nat (fin - (zlen p2 + zlen sp))) buf fin = zlen p3).
  { replace buf with (p3 ++ pad ++ tail) by (rewrite Hb1; unfold p3; by rewrite <- !app_assoc).
    replace fin with (zlen p3 + zlen pad) at 2 by lia.
    apply trim_end_exact; [done|lia|rewrite Hlast; lia|].
    intros Hnil. rewrite Hnil in Hp3. change (zlen []) with 0 in Hp3. pose proof (zlen_nonneg p2). lia. }
  rewrite Hend. destruct (zlen p2 + zlen sp + 12 <=? zlen p3) eqn:E12; [lia|]. cbn [andb].
  replace (zlen p3 - (zlen p2 + zlen sp)) with (zlen OK_TEXT) by (change (zlen OK_TEXT) with 2; lia).
  replace buf with ((p2 ++ sp) ++ OK_TEXT ++ pad ++ tail) by (rewrite Hb1; by rewrite <- !app_assoc).
  replace (zlen p2 + zlen sp) with (zlen (p2 ++ sp)) by (apply zlen_app).
  rewrite span_mid. reflexivity.
Qed.

Lemma ok_scan : gnss_ack_scan buf cmd = Some GNSS_ACK_OK.
Proof.
  pose proof ok_body_pos. pose proof ok_buf_len. pose proof (zlen_nonneg post).
  unfold gnss_ack_scan. destruct (zlen buf =? 0) eqn:E0; [lia|].
  destruct (Z.to_nat (zlen buf)) as [|k] eqn:Ek; [lia|].
  cbn [scan_loop]. rewrite ok_find_prefix. pose proof (zlen_nonneg pre).
  destruct (zlen pre <? 0) eqn:E1; [lia|]. unfold PREFIX_LEN. fold body.
  rewrite (ok_no_prefix body), ok_find_star by lia. cbn [Z.leb Z.compare andb].
  destruct (fin <? 0) eqn:E2; [lia|]. cbn [orb]. rewrite ok_judge, (ok_no_prefix fin) by lia. done.
Qed.
End OkReply.

(** Completeness: a success reply to a command, with any spaces and line
    end around its "OK" and a correct checksum, is recognised wherever it stands
    in a buffer whose other bytes contain no "$". *)
Theorem gnss_ack_recognises_ok pre cmd sp pad post h1 h2 :
  plain_command cmd -> spaces sp -> padding pad -> lacks 36 pre -> lacks 36 post ->
  is_hex h1 = true -> is_hex h2 = true ->
  xor_sum (PREFIX ++ cmd ++ RESPONSE ++ sp ++ OK_TEXT ++ pad) =
    Z.lor (Z.shiftl (hex_val h1) 4) (hex_val h2) ->
  gnss_ack_scan (ok_buffer pre cmd sp pad post h1 h2) cmd = Some GNSS_ACK_OK.
Proof. intros. by apply ok_scan. Qed.

Lemma gnss_ack_recognises_ok_witness :
  gnss_ack_scan (ok_buffer [0xD3; 0; 42] (of_str "VERSIONA") [32] [] [13; 10] 52 53) (of_str "VERSIONA")
    = Some GNSS_ACK_OK.
Proof.
  apply (gnss_ack_recognises_ok [0xD3; 0; 42] (of_str "VERSIONA") [32] [] [13; 10] 52 53).
  - unfold plain_command, lacks. split_and!.
    + repeat (apply Forall_cons; split; [done|]). by apply Forall_nil.
    + repeat (apply Forall_cons; split; [done|]). by apply Forall_nil.
    + vm_compute. discriminate.
    + intros j Hj. change (zlen (of_str "VERSIONA")) with 8 in Hj.
      assert (j = 0 \/ j = 1 \/ j = 2 \/ j = 3 \/ j = 4 \/ j = 5 \/ j = 6 \/ j = 7) as Hc by lia.
      destruct_or?; subst; vm_compute; discriminate.
  - by repeat constructor.
  - by apply Forall_nil.
  - by repeat constructor.
  - by repeat constructor.
  - reflexivity.
  - reflexivity.
  - vm_compute. reflexivity.
Defined.
