(* ===== verification/Nmea.v ===== *)
(** * Status sentences (src/main/protocol/nmea.c)

    The firmware's own "$PESP" sentences carry the NMEA checksum, which leaves
    out the "$" (the receiver's replies in [GnssAck] include it). The text the
    format string produces is an argument, [vasprintf] itself is not modelled. *)

From S2P Require Import Prelude Crc24q GnssAck.

(** [nmea_calculate_checksum]: characters 1 to strlen - 1. *)
Definition nmea_calculate_checksum (sentence : list Z) : Z :=
  fold_left (fun c b => u8 (Z.lxor c (u8 b))) (zdrop 1 sentence) 0.

(** One digit of [%02X]. *)
Definition hex_digit (d : Z) : Z := if d <? 10 then 48 + d else 55 + d.

Definition hex2 (v : Z) : list Z := [hex_digit (Z.shiftr v 4); hex_digit (Z.land v 15)].

(** [nmea_vasprintf]: the string it allocates and the length it returns. *)
Definition nmea_vasprintf (sentence : list Z) : list Z * Z :=
  let checksum := nmea_calculate_checksum sentence in
  let out := sentence ++ [42] ++ hex2 checksum ++ [13; 10] in
  (out, zlen out).

(** A listener: takes a line "$...*HH" CR LF apart and checks it. *)
Definition nmea_accept (line : list Z) : option (list Z) :=
  let n := zlen line in
  let s := ztake (n - 5) line in
  if (6 <=? n) && (zget line 0 =? 36) && (zget line (n - 5) =? 42)
     && is_hex (zget line (n - 4)) && is_hex (zget line (n - 3))
     && (zget line (n - 2) =? 13) && (zget line (n - 1) =? 10)
     && (xor_sum (zdrop 1 s) =? 16 * hex_val (zget line (n - 4)) + hex_val (zget line (n - 3)))
  then Some s else None.

Lemma nmea_fold_range l c : bytes l -> 0 <= c < 256 ->
  fold_left (fun c b => u8 (Z.lxor c (u8 b))) l c = fold_left Z.lxor l c /\
  0 <= fold_left Z.lxor l c < 256.
Proof.
  intros Hl. revert c. induction Hl as [|b l Hb Hl IH]; intros c Hc; [done|]. cbn.
  assert (Hx : 0 <= Z.lxor c b < 2 ^ 8) by (apply Crc24q.lxor_lt; unfold is_byte in *; lia).
  rewrite (u8_small b) by exact Hb. rewrite u8_small by lia. apply IH. lia.
Qed.

Lemma hex2_digits v : 0 <= v < 256 ->
  is_hex (hex_digit (Z.shiftr v 4)) = true /\ is_hex (hex_digit (Z.land v 15)) = true /\
  16 * hex_val (hex_digit (Z.shiftr v 4)) + hex_val (hex_digit (Z.land v 15)) = v.
Proof.
  intros Hv.
  assert (Hall : forallb (fun k => let v := Z.of_nat k in
    is_hex (hex_digit (Z.shiftr v 4)) && is_hex (hex_digit (Z.land v 15)) &&
    (16 * hex_val (hex_digit (Z.shiftr v 4)) + hex_val (hex_digit (Z.land v 15)) =? v))
    (seq 0 256) = true) by (vm_compute; reflexivity).
  rewrite forallb_forall in Hall. specialize (Hall (Z.to_nat v)).
  rewrite Z2Nat.id in Hall by lia. cbv zeta in Hall.
  assert (Hin : In (Z.to_nat v) (seq 0 256)) by (apply in_seq; lia).
  apply Hall in Hin. rewrite !andb_true_iff, Z.eqb_eq in Hin. tauto.
Qed.

(** Round trip: whatever text the firmware formats behind a "$", the
    sentence it sends is accepted by a listener that checks the NMEA checksum,
    which gets that text back. *)
Theorem nmea_roundtrip body :
  bytes body ->
  let '(line, len) := nmea_vasprintf (36 :: body) in
  nmea_accept line = Some (36 :: body) /\ len = zlen body + 6.
Proof.
  intros Hb. unfold nmea_vasprintf. set (c := nmea_calculate_checksum (36 :: body)).
  destruct (nmea_fold_range body 0 Hb ltac:(lia)) as [Hc1 Hc2].
  assert (Hc : c = xor_sum body) by exact Hc1.
  assert (Hr : 0 <= c < 256) by (rewrite Hc; exact Hc2).
  destruct (hex2_digits c Hr) as (D1 & D2 & D3). unfold hex2.
  set (h1 := hex_digit (Z.shiftr c 4)) in *. set (h2 := hex_digit (Z.land c 15)) in *.
  cbn [app]. set (line := (36 :: body ++ _)).
  assert (Hline : line = (36 :: body) ++ [42; h1; h2; 13; 10]) by done.
  assert (Hn : zlen line = zlen body + 6)
    by (rewrite Hline, zlen_app, zlen_cons; change (zlen [42; h1; h2; 13; 10]) with 5; lia).
  assert (Hg : forall k, 0 <= k < 5 -> zget line (zlen line - 5 + k) = zget [42; h1; h2; 13; 10] k).
  { intros k Hk. rewrite Hline at 1. rewrite zget_app_r by (rewrite zlen_cons; lia).
    f_equal. rewrite zlen_cons. lia. }
  split; [|done]. unfold nmea_accept.
  assert (Hs : ztake (zlen line - 5) line = 36 :: body).
  { replace (zlen line - 5) with (zlen (36 :: body)) by (rewrite zlen_cons; lia).
    rewrite Hline. apply ztake_app_exact. }
  rewrite Hs. pose proof (zlen_nonneg body).
  pose proof (Hg 0 ltac:(lia)) as G0. pose proof (Hg 1 ltac:(lia)) as G1.
  pose proof (Hg 2 ltac:(lia)) as G2. pose proof (Hg 3 ltac:(lia)) as G3.
  pose proof (Hg 4 ltac:(lia)) as G4.
  replace (zlen line - 5 + 0) with (zlen line - 5) in G0 by lia.
  replace (zlen line - 5 + 1) with (zlen line - 4) in G1 by lia.
  replace (zlen line - 5 + 2) with (zlen line - 3) in G2 by lia.
  replace (zlen line - 5 + 3) with (zlen line - 2) in G3 by lia.
  replace (zlen line - 5 + 4) with (zlen line - 1) in G4 by lia.
  rewrite G0, G1, G2, G3, G4. change (zget line 0) with 36.
  change (zget [42; h1; h2; 13; 10] 0) with 42. change (zget [42; h1; h2; 13; 10] 1) with h1.
  change (zget [42; h1; h2; 13; 10] 2) with h2. change (zget [42; h1; h2; 13; 10] 3) with 13.
  change (zget [42; h1; h2; 13; 10] 4) with 10.
  rewrite D1, D2, D3, zdrop_cons, zdrop_0, Hc by lia.
  replace (xor_sum body =? xor_sum body) with true by (symmetry; apply Z.eqb_refl).
  destruct (6 <=? zlen line) eqn:E; [reflexivity|lia].
Qed.

Lemma nmea_roundtrip_witness :
  let '(line, len) := nmea_vasprintf (of_str "$PESP,RTK,GNSS,CONFIG,13,14") in
  line = of_str "$PESP,RTK,GNSS,CONFIG,13,14*73" ++ [13; 10] /\
  nmea_accept line = Some (of_str "$PESP,RTK,GNSS,CONFIG,13,14") /\ len = 32.
Proof.
  split; [vm_compute; reflexivity|].
  exact (nmea_roundtrip (of_str "PESP,RTK,GNSS,CONFIG,13,14") (bytesb_bytes (of_str "PESP,RTK,GNSS,CONFIG,13,14") eq_refl)).
Defined.
