(* ===== verification/Retry.v ===== *)
(** * Retry delays (src/main/retry.c)

    A handle counts attempts and picks the next delay: at once, then a number of
    short delays, then the growing table.  [retry_delay] also says how long the
    task sleeps. *)

From S2P Require Import Prelude.

Definition delays : list Z :=
  [1000; 2000; 5000; 10000; 15000; 30000; 45000; 60000; 90000;
   120000; 300000; 600000; 900000; 1800000; 2700000; 3600000].
Definition delays_count : Z := 16.

Record retry_delay_t := mk_retry {
  rd_attempts : Z;  (* uint16_t *)
  rd_first_instant : bool;
  rd_short_count : Z;  (* uint8_t *)
  rd_short_delay : Z;  (* int *)
  rd_max_delay : Z;  (* int *)
  rd_delays_offset : Z  (* uint8_t *)
}.

Definition eta_retry_delay_t (x : retry_delay_t) : retry_delay_t := mk_retry (rd_attempts x) (rd_first_instant
  x) (rd_short_count x) (rd_short_delay x) (rd_max_delay x) (rd_delays_offset x).
#[export] Instance set_rd_attempts : Setter rd_attempts := ltac:(derive_setter eta_retry_delay_t).
#[export] Instance set_rd_first_instant : Setter rd_first_instant := ltac:(derive_setter eta_retry_delay_t).
#[export] Instance set_rd_short_count : Setter rd_short_count := ltac:(derive_setter eta_retry_delay_t).
#[export] Instance set_rd_short_delay : Setter rd_short_delay := ltac:(derive_setter eta_retry_delay_t).
#[export] Instance set_rd_max_delay : Setter rd_max_delay := ltac:(derive_setter eta_retry_delay_t).
#[export] Instance set_rd_delays_offset : Setter rd_delays_offset := ltac:(derive_setter eta_retry_delay_t).

(** The [while] of [retry_init], [n] table entries left. *)
Fixpoint offset_loop (n : nat) (off short_delay : Z) : Z :=
  match n with
  | O => off
  | S n' => if (off <? delays_count) && (zget delays off <? short_delay)
            then offset_loop n' (u8 (off + 1)) short_delay else off
  end.

(** [retry_init]; [alloc] says whether [malloc] succeeded. *)
Definition retry_init (alloc : bool) (first_instant : bool) (short_count short_delay max_delay : Z)
    : option retry_delay_t :=
  if alloc
  then Some (mk_retry 0 first_instant (u8 short_count) short_delay max_delay
                      (offset_loop 16 0 short_delay))
  else None.

(** The delay chosen, before the attempt is counted. *)
Definition next_delay (h : retry_delay_t) : Z :=
  let attempts := rd_attempts h in
  if (attempts =? 0) && rd_first_instant h then 0
  else if attempts <? rd_short_count h then rd_short_delay h
  else
    let attempts := attempts - rd_short_count h + rd_delays_offset h in
    let delay := if attempts <? delays_count then zget delays attempts
                 else zget delays (delays_count - 1) in
    if (0 <? rd_max_delay h) && (rd_max_delay h <? delay) then rd_max_delay h else delay.

(** [retry_delay]: the handle, the milliseconds slept, the return value. *)
Definition retry_delay (handle : option retry_delay_t) : option retry_delay_t * Z * Z :=
  match handle with
  | None => (None, 2000, 0)
  | Some h =>
    let delay := next_delay h in
    let h := h <| rd_attempts := u16 (rd_attempts h + 1) |> in
    (Some h, if 0 <? delay then delay else 0, rd_attempts h)
  end.

Definition retry_reset (handle : option retry_delay_t) : option retry_delay_t :=
  match handle with
  | None => None
  | Some h => Some (h <| rd_attempts := 0 |>)
  end.

(** The sleeps of [n] calls in a row. *)
Fixpoint sleeps (n : nat) (handle : option retry_delay_t) : list Z :=
  match n with
  | O => []
  | S n' => let '(h, ms, _) := retry_delay handle in ms :: sleeps n' h
  end.

(** What [retry_init] establishes. *)
Definition retry_ok (h : retry_delay_t) : Prop :=
  0 <= rd_attempts h < 2 ^ 16 /\ 0 <= rd_short_count h < 2 ^ 8 /\
  0 <= rd_delays_offset h <= delays_count /\
  (forall i, 0 <= i < rd_delays_offset h -> zget delays i < rd_short_delay h) /\
  (rd_delays_offset h < delays_count -> rd_short_delay h <= zget delays (rd_delays_offset h)).

(** ** Lemmas *)

Lemma below_16 i : 0 <= i < 16 -> i = 0 \/ i = 1 \/ i = 2 \/ i = 3 \/ i = 4 \/ i = 5 \/ i = 6 \/
  i = 7 \/ i = 8 \/ i = 9 \/ i = 10 \/ i = 11 \/ i = 12 \/ i = 13 \/ i = 14 \/ i = 15.
Proof. lia. Qed.

Lemma delays_step i : 0 <= i < 15 -> 1000 <= zget delays i <= zget delays (i + 1) /\ zget delays (i + 1) <= 3600000.
Proof.
  intros Hi. pose proof (below_16 i ltac:(lia)) as Hc.
  destruct_or?; subst; try lia; vm_compute; repeat split; discriminate.
Qed.

Lemma delays_range i : 0 <= i < 16 -> 1000 <= zget delays i <= 3600000.
Proof.
  intros Hi. pose proof (below_16 i Hi) as Hc.
  destruct_or?; subst; vm_compute; repeat split; discriminate.
Qed.

Lemma offset_loop_spec n : forall off sd,
  0 <= off <= 16 -> 16 - off <= Z.of_nat n ->
  (forall i, 0 <= i < off -> zget delays i < sd) ->
  let r := offset_loop n off sd in
  off <= r <= 16 /\ (forall i, 0 <= i < r -> zget delays i < sd) /\ (r < 16 -> sd <= zget delays r).
Proof.
  induction n as [|n IH]; intros off sd Ho Hn Hb; cbn.
  - assert (off = 16) as -> by lia. split_and!; [lia|lia|done|lia].
  - unfold delays_count. destruct ((off <? 16) && (zget delays off <? sd)) eqn:E.
    + rewrite u8_small by lia. destruct (IH (off + 1) sd) as (H1 & H2 & H3); [lia|lia| |].
      * intros i Hi. destruct (decide (i = off)) as [->|]; [lia|apply Hb; lia].
      * split_and!; [lia|lia|done|done].
    + split_and!; [lia|lia|done|lia].
Qed.

Lemma retry_init_ok fi sc sd md h : retry_init true fi sc sd md = Some h -> retry_ok h.
Proof.
  unfold retry_init. intros H.
  pose proof (offset_loop_spec 16 0 sd ltac:(lia) ltac:(lia) ltac:(lia)) as Hs. cbv zeta in Hs.
  set (r := offset_loop 16 0 sd) in *. clearbody r. injection H as <-.
  destruct Hs as (H1 & H2 & H3). unfold retry_ok, delays_count. cbn -[Z.pow].
  pose proof (u8_range sc). split_and!; try done; lia.
Qed.

(** With the next attempt the delay does not shrink. *)
Lemma next_delay_mono h :
  retry_ok h -> rd_attempts h + 1 < 2 ^ 16 -> 0 <= rd_short_delay h <= 3600000 ->
  (rd_max_delay h <= 0 \/ rd_short_delay h <= rd_max_delay h) ->
  next_delay h <= next_delay (h <| rd_attempts := rd_attempts h + 1 |>).
Proof.
  intros (Ha & Hs & Ho & Hlow & Hhigh) Hlt Hsd Hmax. unfold next_delay. cbn -[Z.pow zget].
  set (a := rd_attempts h) in *. set (sc := rd_short_count h) in *.
  set (off := rd_delays_offset h) in *. set (sd := rd_short_delay h) in *. unfold delays_count in *.
  assert (Hlast : zget delays 15 = 3600000) by reflexivity.
  change (16 - 1) with 15. rewrite Hlast.
  assert (H1 : (a + 1 =? 0) = false) by lia. rewrite H1. cbn [andb].
  assert (Hd0 : forall i, 0 <= i -> 0 <= (if i <? 16 then zget delays i else 3600000)).
  { intros i Hi. destruct (i <? 16) eqn:E; [pose proof (delays_range i); lia|lia]. }
  assert (Hstep : forall i, 0 <= i ->
    (if i <? 16 then zget delays i else 3600000) <= (if i + 1 <? 16 then zget delays (i + 1) else 3600000)).
  { intros i Hi. destruct (i <? 16) eqn:E1, (i + 1 <? 16) eqn:E2; try lia.
    - pose proof (delays_step i). lia.
    - pose proof (delays_range i). lia. }
  assert (Hsdx : off < 16 -> sd <= (if off <? 16 then zget delays off else 3600000))
    by (intros; destruct (off <? 16) eqn:E; [auto|lia]).
  destruct ((a =? 0) && rd_first_instant h).
  - destruct (a + 1 <? sc) eqn:E2; [lia|].
    specialize (Hd0 (a + 1 - sc + off) ltac:(lia)). destruct (_ && _) eqn:E; lia.
  - destruct (a <? sc) eqn:E1, (a + 1 <? sc) eqn:E2; try lia.
    + replace (a + 1 - sc + off) with off by lia.
      assert (off < 16).
      { destruct (decide (off < 16)); [done|]. specialize (Hlow 15 ltac:(lia)). lia. }
      specialize (Hsdx ltac:(lia)). destruct (_ && _) eqn:E; lia.
    + specialize (Hstep (a - sc + off) ltac:(lia)).
      replace (a + 1 - sc + off) with (a - sc + off + 1) by lia.
      repeat match goal with |- context [if ?c && ?d then _ else _] => destruct (c && d) eqn:? end; lia.
Qed.

Lemma next_delay_bound h :
  retry_ok h -> 0 <= rd_short_delay h ->
  0 <= next_delay h <= Z.max (rd_short_delay h)
                             (if 0 <? rd_max_delay h then Z.min 3600000 (rd_max_delay h) else 3600000).
Proof.
  intros (Ha & Hs & Ho & _ & _) Hsd. unfold next_delay, delays_count in *.
  change (zget delays (16 - 1)) with 3600000.
  destruct ((rd_attempts h =? 0) && rd_first_instant h); [case_if; lia|].
  destruct (rd_attempts h <? rd_short_count h) eqn:E1; [case_if; lia|].
  set (i := rd_attempts h - rd_short_count h + rd_delays_offset h).
  assert (Hd : 0 <= (if i <? 16 then zget delays i else 3600000) <= 3600000).
  { destruct (i <? 16) eqn:E; [pose proof (delays_range i ltac:(lia)); lia|lia]. }
  destruct (0 <? rd_max_delay h) eqn:E0; cbn [andb]; [case_if; lia|lia].
Qed.

Lemma sleeps_cons n h : sleeps (S n) (Some h) =
  next_delay h :: sleeps n (Some (h <| rd_attempts := u16 (rd_attempts h + 1) |>)) \/ next_delay h < 0.
Proof.
  cbn. destruct (0 <? next_delay h) eqn:E; [by left|].
  destruct (decide (next_delay h < 0)); [by right|left]. f_equal. lia.
Qed.

Lemma retry_ok_next h : retry_ok h -> retry_ok (h <| rd_attempts := u16 (rd_attempts h + 1) |>).
Proof.
  intros (Ha & Hs & Ho & Hlow & Hhigh). unfold retry_ok. cbn -[Z.pow].
  pose proof (u16_range (rd_attempts h + 1)). split_and!; try done; lia.
Qed.

Lemma sleeps_sorted n : forall h m,
  retry_ok h -> rd_attempts h + Z.of_nat n < 2 ^ 16 -> 0 <= rd_short_delay h <= 3600000 ->
  (rd_max_delay h <= 0 \/ rd_short_delay h <= rd_max_delay h) ->
  m <= next_delay h ->
  Forall (fun ms => m <= ms) (sleeps n (Some h)) /\
  forall i, (S i < n)%nat ->
    nth i (sleeps n (Some h)) 0 <= nth (S i) (sleeps n (Some h)) 0.
Proof.
  induction n as [|n IH]; intros h m Hok Hn Hsd Hmax Hm; [split; [by apply Forall_nil|lia]|].
  destruct (sleeps_cons n h) as [->|Hneg];
    [|pose proof (next_delay_bound h Hok ltac:(lia)); lia].
  pose proof Hok as (Ha & _). rewrite u16_small by lia.
  pose proof (next_delay_mono h Hok ltac:(lia) Hsd Hmax) as Hmono.
  pose proof (retry_ok_next h Hok) as Hok'. rewrite u16_small in Hok' by lia.
  set (h' := h <| rd_attempts := rd_attempts h + 1 |>) in *.
  destruct (IH h' m Hok') as [IH1 IH2]; [cbn in *; lia|done|done|lia|].
  split; [by apply Forall_cons|].
  intros [|i] Hi; cbn [nth].
  - destruct n as [|n]; [lia|]. destruct (sleeps_cons n h') as [->|Hneg]; [done|].
    pose proof (next_delay_bound h' Hok' ltac:(cbn; lia)). lia.
  - apply IH2. lia.
Qed.

(** ** Property *)

(** Back-off: from a fresh handle the sleeps of successive failures never
    shrink and never exceed the larger of the short delay and the cap (for up to
    65535 attempts, where the 16-bit counter wraps and the sequence starts
    again); without a handle every sleep is two seconds. *)
Theorem retry_backs_off fi sc sd md n h :
  retry_init true fi sc sd md = Some h -> 0 <= sd <= 3600000 -> (md <= 0 \/ sd <= md) ->
  Z.of_nat n < 2 ^ 16 ->
  (forall i, (S i < n)%nat -> nth i (sleeps n (Some h)) 0 <= nth (S i) (sleeps n (Some h)) 0) /\
  (forall k, retry_ok k -> rd_short_delay k = sd -> rd_max_delay k = md ->
     0 <= (retry_delay (Some k)).1.2 <=
       Z.max sd (if 0 <? md then Z.min 3600000 md else 3600000)) /\
  Forall (fun ms => ms = 2000) (sleeps n None).
Proof.
  intros Hi Hsd Hmd Hn. pose proof (retry_init_ok _ _ _ _ _ Hi) as Hok.
  assert (Hf : rd_short_delay h = sd /\ rd_max_delay h = md /\ rd_attempts h = 0)
    by (unfold retry_init in Hi; by injection Hi as <-).
  destruct Hf as (F1 & F2 & F3). split_and!.
  - apply (sleeps_sorted n h (next_delay h)); rewrite ?F1, ?F2, ?F3; try done; lia.
  - intros k Hk E1 E2. pose proof (next_delay_bound k Hk ltac:(lia)) as Hb.
    rewrite E1, E2 in Hb. cbn. destruct (0 <? next_delay k) eqn:E; lia.
  - clear. induction n as [|n IH]; [by apply Forall_nil|]. by apply Forall_cons.
Qed.

Lemma retry_backs_off_witness :
  exists h, retry_init true true 5 2000 60000 = Some h /\
  sleeps 10 (Some h) = [0; 2000; 2000; 2000; 2000; 2000; 5000; 10000; 15000; 30000] /\
  forall i, (S i < 10)%nat -> nth i (sleeps 10 (Some h)) 0 <= nth (S i) (sleeps 10 (Some h)) 0.
Proof.
  eexists. split; [reflexivity|]. split; [vm_compute; reflexivity|].
  apply (retry_backs_off true 5 2000 60000 10 _ eq_refl); lia.
Defined.
