(* ===== verification/Supervisor.v ===== *)
(** * Data-path supervisor (src/main/supervisor.c)

    Liveness notes from the hot paths, and the once-a-second turn of the task
    that walks the recovery ladder.  A turn gets the times its [now_us()] calls
    read: one for the evaluation and one per rung, since a recovery action takes
    time.  [esp_restart] ends the run, so a turn that reboots has no state
    behind it but the counter in RTC memory. *)

From S2P Require Import Prelude.

Definition GRACE_S : Z := 30.
Definition TH_GNSS_S : Z := 10.
Definition TH_CASTER_S : Z := 30.
Definition TH_LINK_S : Z := 60.
Definition TH_WEDGE_S : Z := 120.
Definition DEB_GNSS_S : Z := 20.
Definition DEB_CASTER_S : Z := 15.
Definition DEB_LINK_S : Z := 30.
Definition HEAP_FLOOR_B : Z := 12 * 1024.
Definition HEAP_LOW_S : Z := 15.

(** The static variables, the three locals of the task and the presence of the
    recovery callbacks. *)
Record sup_t := mk_sup {
  s_supervised_reboots : Z;  (* uint32_t, RTC memory *)
  s_t_gnss : Z;  (* int64_t, us *)
  s_t_caster : Z;  (* int64_t *)
  s_t_ip : Z;  (* int64_t *)
  s_gnss_seen : bool;
  s_caster_seen : bool;
  s_ip_seen : bool;
  s_link_up : bool;
  s_rec_gnss : Z;  (* uint32_t *)
  s_rec_caster : Z;  (* uint32_t *)
  s_rec_wifi : Z;  (* uint32_t *)
  s_recover_gnss : bool;  (* callback set *)
  s_recover_caster : bool;  (* callback set *)
  s_recover_wifi : bool;  (* callback set *)
  s_last_gnss_act : Z;  (* int64_t *)
  s_last_caster_act : Z;  (* int64_t *)
  s_last_link_act : Z;  (* int64_t *)
  s_heap_low_streak : Z  (* int *)
}.

Definition eta_sup_t (x : sup_t) : sup_t := mk_sup (s_supervised_reboots x) (s_t_gnss x) (s_t_caster x)
  (s_t_ip x) (s_gnss_seen x) (s_caster_seen x) (s_ip_seen x) (s_link_up x) (s_rec_gnss x) (s_rec_caster x)
  (s_rec_wifi x) (s_recover_gnss x) (s_recover_caster x) (s_recover_wifi x) (s_last_gnss_act x)
  (s_last_caster_act x) (s_last_link_act x) (s_heap_low_streak x).
#[export] Instance set_s_supervised_reboots : Setter s_supervised_reboots := ltac:(derive_setter eta_sup_t).
#[export] Instance set_s_t_gnss : Setter s_t_gnss := ltac:(derive_setter eta_sup_t).
#[export] Instance set_s_t_caster : Setter s_t_caster := ltac:(derive_setter eta_sup_t).
#[export] Instance set_s_t_ip : Setter s_t_ip := ltac:(derive_setter eta_sup_t).
#[export] Instance set_s_gnss_seen : Setter s_gnss_seen := ltac:(derive_setter eta_sup_t).
#[export] Instance set_s_caster_seen : Setter s_caster_seen := ltac:(derive_setter eta_sup_t).
#[export] Instance set_s_ip_seen : Setter s_ip_seen := ltac:(derive_setter eta_sup_t).
#[export] Instance set_s_link_up : Setter s_link_up := ltac:(derive_setter eta_sup_t).
#[export] Instance set_s_rec_gnss : Setter s_rec_gnss := ltac:(derive_setter eta_sup_t).
#[export] Instance set_s_rec_caster : Setter s_rec_caster := ltac:(derive_setter eta_sup_t).
#[export] Instance set_s_rec_wifi : Setter s_rec_wifi := ltac:(derive_setter eta_sup_t).
#[export] Instance set_s_recover_gnss : Setter s_recover_gnss := ltac:(derive_setter eta_sup_t).
#[export] Instance set_s_recover_caster : Setter s_recover_caster := ltac:(derive_setter eta_sup_t).
#[export] Instance set_s_recover_wifi : Setter s_recover_wifi := ltac:(derive_setter eta_sup_t).
#[export] Instance set_s_last_gnss_act : Setter s_last_gnss_act := ltac:(derive_setter eta_sup_t).
#[export] Instance set_s_last_caster_act : Setter s_last_caster_act := ltac:(derive_setter eta_sup_t).
#[export] Instance set_s_last_link_act : Setter s_last_link_act := ltac:(derive_setter eta_sup_t).
#[export] Instance set_s_heap_low_streak : Setter s_heap_low_streak := ltac:(derive_setter eta_sup_t).

(** After a boot; [n] reboots were counted before. *)
Definition sup_boot (n : Z) : sup_t :=
  mk_sup n 0 0 0 false false false false 0 0 0 false false false 0 0 0 0.

Definition age_s (now t : Z) : Z := u32 (Z.quot (now - t) 1000000).

Definition supervisor_note_gnss_rx (now : Z) (s : sup_t) : sup_t :=
  s <| s_t_gnss := now |> <| s_gnss_seen := true |>.

Definition supervisor_note_caster_tx (now bytes : Z) (s : sup_t) : sup_t :=
  if 0 <? bytes then s <| s_t_caster := now |> <| s_caster_seen := true |>
  else if negb (s_caster_seen s) then s <| s_t_caster := now |> <| s_caster_seen := true |>
  else s.

Definition supervisor_note_sta_ip (now : Z) (up : bool) (s : sup_t) : sup_t :=
  if up then s <| s_t_ip := now |> <| s_ip_seen := true |> <| s_link_up := true |>
  else s <| s_link_up := false |>.

Definition supervisor_set_recovery (gnss caster wifi : bool) (s : sup_t) : sup_t :=
  s <| s_recover_gnss := gnss |> <| s_recover_caster := caster |> <| s_recover_wifi := wifi |>.

Record supervisor_health_t := mk_health {
  h_uptime_s : Z; h_gnss_silent_s : Z; h_caster_silent_s : Z; h_ip_down_s : Z;
  h_gnss_ok : bool; h_caster_ok : bool; h_link_ok : bool;
  h_recoveries_gnss : Z; h_recoveries_caster : Z; h_recoveries_wifi : Z;
  h_reboots_supervised : Z
}.

Definition supervisor_health (now : Z) (s : sup_t) : supervisor_health_t :=
  let uptime := u32 (Z.quot now 1000000) in
  let gnss_silent := if s_gnss_seen s then age_s now (s_t_gnss s) else uptime in
  let caster_silent := if s_caster_seen s then age_s now (s_t_caster s) else 0 in
  let ip_down := if s_link_up s then 0 else if s_ip_seen s then age_s now (s_t_ip s) else 0 in
  mk_health uptime gnss_silent caster_silent ip_down
    (s_gnss_seen s && (gnss_silent <? TH_GNSS_S))
    (negb (s_caster_seen s) || (caster_silent <? TH_CASTER_S))
    (s_link_up s || negb (s_ip_seen s))
    (s_rec_gnss s) (s_rec_caster s) (s_rec_wifi s) (s_supervised_reboots s).

(** The times one turn reads. *)
Record turn_times := mk_times { tt_eval : Z; tt_link : Z; tt_caster : Z; tt_gnss : Z }.

Inductive sup_action := A_wifi_restart | A_caster_reconnect | A_gnss_reset.
Inductive sup_outcome := Running (s : sup_t) (acts : list sup_action) | Reboot (reboots : Z) (heap : bool).

(** What the turn concludes from the notes. *)
Definition gnss_silent (now : Z) (s : sup_t) : Z :=
  if s_gnss_seen s then age_s now (s_t_gnss s) else u32 (Z.quot now 1000000).
Definition gnss_fault (now : Z) (s : sup_t) : bool := TH_GNSS_S <=? gnss_silent now s.
Definition caster_silent (now : Z) (s : sup_t) : Z :=
  if s_caster_seen s then age_s now (s_t_caster s) else 0.
Definition caster_fault (now : Z) (s : sup_t) : bool :=
  s_caster_seen s && (TH_CASTER_S <=? caster_silent now s).
Definition ip_down (now : Z) (s : sup_t) : Z :=
  if negb (s_link_up s) && s_ip_seen s then age_s now (s_t_ip s) else 0.
Definition link_fault (now : Z) (s : sup_t) : bool :=
  s_ip_seen s && negb (s_link_up s) && (TH_LINK_S <=? ip_down now s).
Definition wedged (now : Z) (s : sup_t) : bool :=
  caster_fault now s && (TH_WEDGE_S <=? caster_silent now s) &&
  ((TH_WEDGE_S <=? gnss_silent now s) || (TH_WEDGE_S <=? ip_down now s)).

(** Rung 5 at the top of a turn: the counter and whether it reboots. *)
Definition heap_guard (free_heap : Z) (s : sup_t) : sup_t * bool :=
  if free_heap <? HEAP_FLOOR_B then
    let s := s <| s_heap_low_streak := s_heap_low_streak s + 1 |> in
    (s, HEAP_LOW_S <=? s_heap_low_streak s)
  else (s <| s_heap_low_streak := 0 |>, false).

Definition rung_link (now : turn_times) (s : sup_t) : sup_t * list sup_action :=
  if link_fault (tt_eval now) s && s_recover_wifi s &&
     (DEB_LINK_S <=? age_s (tt_link now) (s_last_link_act s))
  then (s <| s_last_link_act := tt_link now |> <| s_rec_wifi := u32 (s_rec_wifi s + 1) |>,
        [A_wifi_restart])
  else (s, []).

Definition rung_caster (now : turn_times) (s : sup_t) : sup_t * list sup_action :=
  if caster_fault (tt_eval now) s && s_recover_caster s &&
     (DEB_CASTER_S <=? age_s (tt_caster now) (s_last_caster_act s))
  then (s <| s_last_caster_act := tt_caster now |> <| s_rec_caster := u32 (s_rec_caster s + 1) |>,
        [A_caster_reconnect])
  else (s, []).

Definition rung_gnss (now : turn_times) (s : sup_t) : sup_t * list sup_action :=
  if gnss_fault (tt_eval now) s && s_recover_gnss s &&
     (DEB_GNSS_S <=? age_s (tt_gnss now) (s_last_gnss_act s))
  then (s <| s_last_gnss_act := tt_gnss now |> <| s_rec_gnss := u32 (s_rec_gnss s + 1) |>,
        [A_gnss_reset])
  else (s, []).

(** One turn of [supervisor_task]. *)
Definition supervisor_turn (now : turn_times) (free_heap : Z) (s : sup_t) : sup_outcome :=
  if u32 (Z.quot (tt_eval now) 1000000) <? GRACE_S then Running s []
  else
    let '(s, heap_reboot) := heap_guard free_heap s in
    if heap_reboot then Reboot (u32 (s_supervised_reboots s + 1)) true
    else if wedged (tt_eval now) s then Reboot (u32 (s_supervised_reboots s + 1)) false
    else
      let '(s, a1) := rung_link now s in
      let '(s, a2) := rung_caster now s in
      let '(s, a3) := rung_gnss now s in
      Running s (a1 ++ a2 ++ a3).

(** What happens between and in turns, in the order of the steps. *)
Inductive sup_event :=
  | E_gnss (now : Z) | E_caster (now bytes : Z) | E_ip (now : Z) (up : bool)
  | E_turn (now : turn_times) (free_heap : Z).

Definition event_time (e : sup_event) : Z :=
  match e with E_gnss t | E_caster t _ | E_ip t _ => t | E_turn now _ => tt_eval now end.

(** A run: the actions with their times, and the final outcome. *)
Fixpoint sup_run (es : list sup_event) (s : sup_t) : list (Z * sup_action) * sup_outcome :=
  match es with
  | [] => ([], Running s [])
  | e :: es =>
    match e with
    | E_gnss t => sup_run es (supervisor_note_gnss_rx t s)
    | E_caster t b => sup_run es (supervisor_note_caster_tx t b s)
    | E_ip t up => sup_run es (supervisor_note_sta_ip t up s)
    | E_turn now heap =>
      match supervisor_turn now heap s with
      | Reboot n h => ([], Reboot n h)
      | Running s acts =>
        let '(log, out) := sup_run es s in
        (map (fun a => (match a with
                        | A_wifi_restart => tt_link now
                        | A_caster_reconnect => tt_caster now
                        | A_gnss_reset => tt_gnss now end, a)) acts ++ log, out)
      end
    end
  end.

(** The times of a run do not go back: [t] is before everything that is read. *)
Definition times_of (e : sup_event) : list Z :=
  match e with
  | E_gnss t | E_caster t _ | E_ip t _ => [t]
  | E_turn now _ => [tt_eval now; tt_link now; tt_caster now; tt_gnss now]
  end.

(** The last action of each kind lies before [t]. *)
Definition acts_before (s : sup_t) (t : Z) : Prop :=
  0 <= s_last_gnss_act s <= t /\ 0 <= s_last_caster_act s <= t /\ 0 <= s_last_link_act s <= t.

Definition is_kind (k a : sup_action) : bool :=
  match k, a with
  | A_wifi_restart, A_wifi_restart | A_caster_reconnect, A_caster_reconnect
  | A_gnss_reset, A_gnss_reset => true
  | _, _ => false
  end.

Definition debounce_s (k : sup_action) : Z :=
  match k with
  | A_wifi_restart => DEB_LINK_S | A_caster_reconnect => DEB_CASTER_S | A_gnss_reset => DEB_GNSS_S
  end.

Definition last_act (k : sup_action) (s : sup_t) : Z :=
  match k with
  | A_wifi_restart => s_last_link_act s | A_caster_reconnect => s_last_caster_act s
  | A_gnss_reset => s_last_gnss_act s
  end.

(** The times of the actions of one kind, with the last one before the run. *)
Definition times_of_kind (k : sup_action) (log : list (Z * sup_action)) : list Z :=
  map fst (List.filter (fun ta => is_kind k ta.2) log).

(** Every element is at least [d] seconds after the one before it. *)
Fixpoint spaced (d : Z) (prev : Z) (l : list Z) : Prop :=
  match l with
  | [] => True
  | t :: l => prev + d * 1000000 <= t /\ spaced d t l
  end.

Fixpoint nondecreasing (prev : Z) (l : list Z) : Prop :=
  match l with
  | [] => True
  | t :: l => prev <= t /\ nondecreasing t l
  end.

(** ** Lemmas *)

Lemma age_s_le now t d : 0 <= t <= now -> now < 2 ^ 50 -> d <= age_s now t -> t + d * 1000000 <= now.
Proof.
  intros Ht Hn. unfold age_s. rewrite Z.quot_div_nonneg by lia.
  assert (0 <= (now - t) / 1000000 < 2 ^ 32) by (split; [apply Z.div_pos; lia|apply Z.div_lt_upper_bound; lia]).
  rewrite u32_small by lia. intros Hd. pose proof (Z.mul_div_le (now - t) 1000000 ltac:(lia)). lia.
Qed.

Lemma rung_keeps k now s :
  last_act k (rung_link now s).1 = (match k with A_wifi_restart => last_act k (rung_link now s).1 | _ => last_act k s end) /\
  last_act k (rung_caster now s).1 = (match k with A_caster_reconnect => last_act k (rung_caster now s).1 | _ => last_act k s end) /\
  last_act k (rung_gnss now s).1 = (match k with A_gnss_reset => last_act k (rung_gnss now s).1 | _ => last_act k s end).
Proof.
  unfold rung_link, rung_caster, rung_gnss. split_and!; destruct k; try done; case_if; done.
Qed.

(** What a rung of kind [k] does to its own clock. *)
Definition fires (k : sup_action) (t : Z) (s s' : sup_t) (acts : list sup_action) : Prop :=
  (acts = [] /\ last_act k s' = last_act k s) \/
  (acts = [k] /\ last_act k s' = t /\ debounce_s k <= age_s t (last_act k s)).

Lemma rungs_fire now s :
  fires A_wifi_restart (tt_link now) s (rung_link now s).1 (rung_link now s).2 /\
  fires A_caster_reconnect (tt_caster now) s (rung_caster now s).1 (rung_caster now s).2 /\
  fires A_gnss_reset (tt_gnss now) s (rung_gnss now s).1 (rung_gnss now s).2.
Proof.
  unfold fires, rung_link, rung_caster, rung_gnss. split_and!; case_if; cbn; (by left) || right;
    rewrite !andb_true_iff in *; split_and!; try done; cbn; lia.
Qed.

Definition turn_time (k : sup_action) (now : turn_times) : Z :=
  match k with
  | A_wifi_restart => tt_link now | A_caster_reconnect => tt_caster now | A_gnss_reset => tt_gnss now
  end.

(** Over a whole turn: at most one action of each kind, and only after the
    debounce time. *)
Lemma turn_fires k now heap s s' acts :
  supervisor_turn now heap s = Running s' acts ->
  (last_act k s' = last_act k s /\ List.filter (is_kind k) acts = []) \/
  (last_act k s' = turn_time k now /\ List.filter (is_kind k) acts = [k] /\
   debounce_s k <= age_s (turn_time k now) (last_act k s)).
Proof.
  unfold supervisor_turn. case_if; [intros [= <- <-]; by left|].
  destruct (heap_guard heap s) as [s1 hr] eqn:Eh.
  assert (H1 : last_act k s1 = last_act k s)
    by (unfold heap_guard in Eh; case_if_in Eh; injection Eh as <- _; by destruct k).
  destruct hr; [done|]. destruct (wedged _ _); [done|].
  pose proof (rungs_fire now s1) as [F1 _]. pose proof (rung_keeps k now s1) as (K1 & _ & _).
  destruct (rung_link now s1) as [s2 a1]. cbn in F1, K1.
  pose proof (rungs_fire now s2) as (_ & F2 & _). pose proof (rung_keeps k now s2) as (_ & K2 & _).
  destruct (rung_caster now s2) as [s3 a2]. cbn in F2, K2.
  pose proof (rungs_fire now s3) as (_ & _ & F3). pose proof (rung_keeps k now s3) as (_ & _ & K3).
  destruct (rung_gnss now s3) as [s4 a3]. cbn in F3, K3. intros [= <- <-].
  assert (Hf : forall j l s s', fires j (turn_time j now) s s' l -> k <> j -> List.filter (is_kind k) l = []).
  { intros j l x y [[-> _]|[-> _]] Hne; [done|]. by destruct k, j. }
  rewrite !List.filter_app.
  destruct k.
  - rewrite (Hf _ _ _ _ F2), (Hf _ _ _ _ F3), !app_nil_r by done. rewrite K3, K2, <- H1.
    destruct F1 as [[-> ->]|(-> & -> & ?)]; [by left|by right].
  - rewrite (Hf _ _ _ _ F1), (Hf _ _ _ _ F3), app_nil_r by done. rewrite K3, <- H1, <- K1.
    destruct F2 as [[-> ->]|(-> & -> & ?)]; [by left|by right].
  - rewrite (Hf _ _ _ _ F1), (Hf _ _ _ _ F2) by done. rewrite <- H1, <- K1, <- K2.
    destruct F3 as [[-> ->]|(-> & -> & ?)]; [by left|by right].
Qed.

Lemma note_keeps k s :
  (forall t, last_act k (supervisor_note_gnss_rx t s) = last_act k s) /\
  (forall t b, last_act k (supervisor_note_caster_tx t b s) = last_act k s) /\
  (forall t up, last_act k (supervisor_note_sta_ip t up s) = last_act k s).
Proof.
  unfold supervisor_note_caster_tx, supervisor_note_sta_ip.
  split_and!; intros; repeat case_if; by destruct k.
Qed.

Lemma sup_run_spaced k es : forall s prev,
  0 <= last_act k s <= prev -> nondecreasing prev (concat (map times_of es)) ->
  Forall (fun t => t < 2 ^ 50) (concat (map times_of es)) ->
  spaced (debounce_s k) (last_act k s) (times_of_kind k (sup_run es s).1).
Proof.
  induction es as [|e es IH]; intros s prev Hl Hn Hb; [done|].
  cbn [map concat] in Hn, Hb. apply Forall_app in Hb as [Hb1 Hb].
  destruct (note_keeps k s) as (N1 & N2 & N3).
  destruct e as [t|t b|t up|now heap]; cbn [sup_run times_of] in *.
  - destruct Hn as [Hp Hn]. rewrite <- (N1 t). apply (IH _ t); [rewrite N1; lia|done|done].
  - destruct Hn as [Hp Hn]. rewrite <- (N2 t b). apply (IH _ t); [rewrite N2; lia|done|done].
  - destruct Hn as [Hp Hn]. rewrite <- (N3 t up). apply (IH _ t); [rewrite N3; lia|done|done].
  - destruct Hn as (P1 & P2 & P3 & P4 & Hn).
    destruct (supervisor_turn now heap s) as [s' acts|n h] eqn:Et; [|done].
    pose proof (turn_fires k now heap s s' acts Et) as Hf.
    assert (Htt : prev <= turn_time k now <= tt_gnss now) by (destruct k; cbn; lia).
    assert (Hmax : tt_gnss now < 2 ^ 50).
    { do 3 apply Forall_cons in Hb1 as [_ Hb1]. by apply Forall_cons in Hb1 as [? _]. }
    specialize (IH s' (tt_gnss now)).
    destruct (sup_run es s') as [log out]. cbn [fst] in *. unfold times_of_kind in *.
    rewrite List.filter_app, map_app.
    set (mp := map _ acts).
    assert (Hmp : map fst (List.filter (fun ta => is_kind k ta.2) mp) =
                  map (fun _ => turn_time k now) (List.filter (is_kind k) acts)).
    { unfold mp. clear. induction acts as [|a acts IHa]; [done|]. cbn.
      destruct (is_kind k a) eqn:Ek; cbn; rewrite IHa; [|done]. by destruct k, a. }
    rewrite Hmp. destruct Hf as [[Hk ->]|(Hk & -> & Hd)]; cbn.
    + rewrite <- Hk. apply IH; [lia|done|done].
    + apply age_s_le in Hd; [|lia|lia]. split; [lia|].
      rewrite <- Hk. apply IH; [lia|done|done].
Qed.

Definition cond_link (now : turn_times) (s : sup_t) : bool :=
  link_fault (tt_eval now) s && s_recover_wifi s && (DEB_LINK_S <=? age_s (tt_link now) (s_last_link_act s)).
Definition cond_caster (now : turn_times) (s : sup_t) : bool :=
  caster_fault (tt_eval now) s && s_recover_caster s &&
  (DEB_CASTER_S <=? age_s (tt_caster now) (s_last_caster_act s)).
Definition cond_gnss (now : turn_times) (s : sup_t) : bool :=
  gnss_fault (tt_eval now) s && s_recover_gnss s && (DEB_GNSS_S <=? age_s (tt_gnss now) (s_last_gnss_act s)).

(** The three rungs one after the other run what their conditions say in the
    state the turn started from. *)
Lemma rungs_acts now s :
  let '(s2, a1) := rung_link now s in
  let '(s3, a2) := rung_caster now s2 in
  let '(s4, a3) := rung_gnss now s3 in
  s_supervised_reboots s4 = s_supervised_reboots s /\ s_heap_low_streak s4 = s_heap_low_streak s /\
  a1 ++ a2 ++ a3 = (if cond_link now s then [A_wifi_restart] else []) ++
    (if cond_caster now s then [A_caster_reconnect] else []) ++
    (if cond_gnss now s then [A_gnss_reset] else []).
Proof.
  unfold rung_link. fold (cond_link now s). destruct (cond_link now s).
  all: unfold rung_caster.
  all: match goal with |- context [if ?c then _ else _] => change c with (cond_caster now s) end.
  all: destruct (cond_caster now s).
  all: unfold rung_gnss.
  all: match goal with |- context [if ?c then _ else _] => change c with (cond_gnss now s) end.
  all: destruct (cond_gnss now s); done.
Qed.

Lemma rungs_iff (c1 c2 c3 : bool) :
  let acts := (if c1 then [A_wifi_restart] else []) ++ (if c2 then [A_caster_reconnect] else []) ++
              (if c3 then [A_gnss_reset] else []) in
  (A_wifi_restart ∈ acts <-> c1 = true) /\ (A_caster_reconnect ∈ acts <-> c2 = true) /\
  (A_gnss_reset ∈ acts <-> c3 = true).
Proof.
  assert (Hin : forall k l, k ∈ l <-> existsb (is_kind k) l = true).
  { intros k l. rewrite existsb_exists. split.
    - intros H. exists k. split; [by apply list_elem_of_In|by destruct k].
    - intros (a & Ha & Hk). apply list_elem_of_In. by destruct k, a. }
  cbv zeta. rewrite !Hin. destruct c1, c2, c3; cbn; done.
Qed.

(** ** Properties *)

(** C30: no recovery storm: over any run whose clock does not go back, resets of
    the receiver are at least 20 s apart, reconnects to the caster at least 15 s
    and restarts of the Wi-Fi driver at least 30 s, the first of each counted
    from boot. *)
Theorem supervisor_debounce k es reboots :
  nondecreasing 0 (concat (map times_of es)) ->
  Forall (fun t => t < 2 ^ 50) (concat (map times_of es)) ->
  forall s, s = supervisor_set_recovery true true true (sup_boot reboots) ->
  spaced (debounce_s k) 0 (times_of_kind k (sup_run es s).1).
Proof.
  intros Hn Hb s ->.
  replace 0 with (last_act k (supervisor_set_recovery true true true (sup_boot reboots))) at 1
    by (by destruct k).
  apply (sup_run_spaced k es _ 0); [by destruct k|done|done].
Qed.

Definition second (n : Z) : turn_times := mk_times (n * 1000000) (n * 1000000) (n * 1000000) (n * 1000000).
Definition silent_minute : list sup_event := map (fun k => E_turn (second (Z.of_nat k)) 70000) (seq 0 70).

Lemma supervisor_debounce_witness :
  let log := (sup_run silent_minute (supervisor_set_recovery true true true (sup_boot 0))).1 in
  times_of_kind A_gnss_reset log = [30000000; 50000000] /\
  spaced 20 0 (times_of_kind A_gnss_reset log).
Proof.
  split; [vm_compute; reflexivity|].
  apply (supervisor_debounce A_gnss_reset silent_minute 0); [| |reflexivity].
  - vm_compute. repeat split; discriminate.
  - apply Forall_forall. intros t Ht. apply list_elem_of_In in Ht.
    assert (Hall : forallb (fun t => t <? 2 ^ 50) (concat (map times_of silent_minute)) = true)
      by (vm_compute; reflexivity).
    rewrite forallb_forall in Hall. specialize (Hall t Ht). lia.
Defined.

(** A station that got its address at 100 s, keeps it for an hour and loses it one second
    before the turn; the receiver is alive and no caster was seen yet. *)
Definition lost_a_second_ago : sup_t :=
  supervisor_note_gnss_rx 3700500000
    (supervisor_note_sta_ip 3700000000 false
       (supervisor_note_sta_ip 100000000 true (supervisor_set_recovery true true true (sup_boot 0)))).

