(* ===== verification/SupRace.v ===== *)
(** * The supervisor's time stamps on a 32-bit processor (src/main/supervisor.c)

    The stamps [s_t_gnss], [s_t_caster] and [s_t_ip] are 64-bit variables that one task
    writes and another reads without a lock.  The processor moves 32 bits at a time, so
    a store is two stores, a load two loads, and the four may interleave.  [Supervisor]
    reads them whole; here is when that is right. *)

From S2P Require Import Prelude Supervisor.

(** One access to a half of a stamp; [true] is the high word. *)
Inductive access := St (high : bool) | Ld (high : bool).

Definition lo32 (x : Z) : Z := x mod 2 ^ 32.
Definition hi32 (x : Z) : Z := x / 2 ^ 32.
Definition join32 (hi lo : Z) : Z := hi * 2 ^ 32 + lo.

(** The variable's halves, and those the reader has got. *)
Record halves := mk_halves { hv_hi : Z; hv_lo : Z; rd_hi : Z; rd_lo : Z }.

Definition do_access (new : Z) (a : access) (h : halves) : halves :=
  match a with
  | St true => mk_halves (hi32 new) (hv_lo h) (rd_hi h) (rd_lo h)
  | St false => mk_halves (hv_hi h) (lo32 new) (rd_hi h) (rd_lo h)
  | Ld true => mk_halves (hv_hi h) (hv_lo h) (hv_hi h) (rd_lo h)
  | Ld false => mk_halves (hv_hi h) (hv_lo h) (rd_hi h) (hv_lo h)
  end.

(** What the reader gets of a variable that goes from [old] to [new] meanwhile. *)
Definition read_stamp (old new : Z) (l : list access) : Z :=
  let h := fold_left (fun h a => do_access new a h) l (mk_halves (hi32 old) (lo32 old) 0 0) in
  join32 (rd_hi h) (rd_lo h).

(** The writer's accesses and the reader's, in any order of the halves and in any interleaving. *)
Inductive shuffle {A} : list A -> list A -> list A -> Prop :=
  | sh_nil : shuffle [] [] []
  | sh_left a l1 l2 l : shuffle l1 l2 l -> shuffle (a :: l1) l2 (a :: l)
  | sh_right a l1 l2 l : shuffle l1 l2 l -> shuffle l1 (a :: l2) (a :: l).

Definition race_of (l : list access) : Prop :=
  exists b c, shuffle [St b; St (negb b)] [Ld c; Ld (negb c)] l.

(** The supervisor's turn on the stamp of the receiver it got. *)
Definition turn_on (stamp : Z) (now : turn_times) (heap : Z) (s : sup_t) : sup_outcome :=
  supervisor_turn now heap (s <| s_t_gnss := stamp |>).

Lemma join_split x : join32 (hi32 x) (lo32 x) = x.
Proof. unfold join32, hi32, lo32. pose proof (Z.div_mod x (2 ^ 32)). lia. Qed.

Lemma race_values old new l : race_of l ->
  In (read_stamp old new l) [old; new; join32 (hi32 old) (lo32 new); join32 (hi32 new) (lo32 old)].
Proof.
  intros (b & c & Hs). rewrite <- (join_split old) at 2. rewrite <- (join_split new) at 2.
  repeat match goal with H : shuffle _ _ _ |- _ => inversion H; subst; clear H end;
    destruct b, c; cbn; tauto.
Qed.

(** A stamp is read right as long as its high word does not change: the reader gets the old
    or the new one.  When it changes, which is every 71 minutes, the reader may get a time
    71 minutes in the past: a turn then resets a receiver whose last frame is not a second
    old. *)
Theorem stamps_torn_at_the_carry :
  (forall old new l, race_of l -> hi32 old = hi32 new -> read_stamp old new l = old \/ read_stamp old new l = new) /\
  (exists old new l now s, race_of l /\ old < new <= tt_eval now /\ tt_eval now - old < 1000000 /\
     s = supervisor_note_gnss_rx old (supervisor_set_recovery true true true (sup_boot 0)) /\
     turn_on (read_stamp old new l) now 70000 s =
       Running ((s <| s_t_gnss := read_stamp old new l |>) <| s_last_gnss_act := tt_gnss now |> <| s_rec_gnss := 1 |>) [A_gnss_reset] /\
     turn_on old now 70000 s = Running s [] /\ exists s', turn_on new now 70000 s = Running s' []).
Proof.
  split.
  - intros old new l Hl E. pose proof (race_values old new l Hl) as Hin. rewrite E, join_split, <- E, join_split in Hin.
    cbn in Hin. destruct Hin as [|[|[|[|[]]]]]; auto.
  - set (t := mk_times (2 ^ 32 + 500) (2 ^ 32 + 500) (2 ^ 32 + 500) (2 ^ 32 + 500)).
    exists (2 ^ 32 - 1000), (2 ^ 32 + 100), [Ld true; St false; Ld false; St true], t,
      (supervisor_note_gnss_rx (2 ^ 32 - 1000) (supervisor_set_recovery true true true (sup_boot 0))).
    split; [exists false, true; repeat constructor|].
    split; [cbn; lia|]. split; [cbn; lia|]. split; [reflexivity|].
    split; [vm_compute; reflexivity|]. split; [vm_compute; reflexivity|]. eexists. vm_compute. reflexivity.
Qed.
