(* ===== verification/SupLive.v ===== *)
(** * A silent station restarts (src/main/supervisor.c)

    The last rung over whole runs of [Supervisor]: whatever the other rungs do meanwhile,
    a data path that stays dead long enough ends in a restart. *)

From S2P Require Import Prelude Supervisor.

(** What is dead besides the caster: the receiver, or the station's address. *)
Inductive dead_cause := No_frames | No_address.

Definition cause_holds (c : dead_cause) (s : sup_t) : Prop :=
  match c with No_frames => True | No_address => s_ip_seen s = true /\ s_link_up s = false end.

(** Since when; a receiver never heard counts from boot. *)
Definition dead_since (c : dead_cause) (s : sup_t) : Z :=
  match c with No_frames => if s_gnss_seen s then s_t_gnss s else 0 | No_address => s_t_ip s end.

(** An event that leaves it dead: no byte accepted, and no frame or no address. *)
Definition stays_dead (c : dead_cause) (e : sup_event) : Prop :=
  match e with
  | E_caster _ b => b <= 0
  | E_gnss _ => c <> No_frames
  | E_ip _ up => c = No_address -> up = false
  | E_turn _ _ => True
  end.

(** The facts about the notes a dead run keeps. *)
Definition dead (c : dead_cause) (caster since : Z) (s : sup_t) : Prop :=
  s_caster_seen s = true /\ s_t_caster s = caster /\ cause_holds c s /\ dead_since c s = since.

Lemma rungs_keep_notes c caster since now s : dead c caster since s ->
  dead c caster since (rung_link now s).1 /\ dead c caster since (rung_caster now s).1 /\
  dead c caster since (rung_gnss now s).1.
Proof. unfold rung_link, rung_caster, rung_gnss. intros D. split_and!; case_if; exact D. Qed.

Lemma note_keeps_dead c caster since e s : stays_dead c e -> dead c caster since s ->
  match e with
  | E_gnss t => dead c caster since (supervisor_note_gnss_rx t s)
  | E_caster t b => dead c caster since (supervisor_note_caster_tx t b s)
  | E_ip t up => dead c caster since (supervisor_note_sta_ip t up s)
  | E_turn now heap => match supervisor_turn now heap s with
                       | Running s' _ => dead c caster since s'
                       | Reboot _ _ => True
                       end
  end.
Proof.
  intros He D. destruct e as [t|t b|t up|now heap]; cbn in He.
  - destruct c; [done|exact D].
  - unfold supervisor_note_caster_tx. replace (0 <? b) with false by lia. destruct D as (Hs & D). rewrite Hs. by split.
  - destruct c; [destruct up; exact D|]. rewrite (He eq_refl). destruct D as (? & ? & [Hi _] & ?). unfold dead. cbn. by split_and!.
  - unfold supervisor_turn. case_if; [exact D|].
    assert (D1 : dead c caster since (heap_guard heap s).1) by (unfold heap_guard; case_if; exact D).
    destruct (heap_guard heap s) as [s1 hr]. cbn [fst] in D1. destruct hr; [done|].
    destruct (wedged (tt_eval now) s1); [done|].
    destruct (rungs_keep_notes c caster since now s1 D1) as (D2 & _). destruct (rung_link now s1) as [s2 a1].
    destruct (rungs_keep_notes c caster since now s2 D2) as (_ & D3 & _). destruct (rung_caster now s2) as [s3 a2].
    destruct (rungs_keep_notes c caster since now s3 D3) as (_ & _ & D4). by destruct (rung_gnss now s3) as [s4 a3].
Qed.

Lemma age_s_ge now t d : 0 <= t -> t + d * 1000000 <= now -> now < 2 ^ 50 -> 0 <= d -> d <= age_s now t.
Proof.
  intros Ht Hn Hl Hd. unfold age_s. rewrite Z.quot_div_nonneg by lia.
  assert (d <= (now - t) / 1000000 < 2 ^ 32) by (split; [apply Z.div_le_lower_bound; lia|apply Z.div_lt_upper_bound; lia]).
  rewrite u32_small by lia. lia.
Qed.

(** A turn late enough restarts. *)
Lemma late_turn_reboots c caster since now heap s : dead c caster since s -> 0 <= caster -> 0 <= since ->
  caster + TH_WEDGE_S * 1000000 <= tt_eval now -> since + TH_WEDGE_S * 1000000 <= tt_eval now -> tt_eval now < 2 ^ 50 ->
  exists n h, supervisor_turn now heap s = Reboot n h.
Proof.
  intros (Hseen & Hcast & Hc & Hd) Hc0 Hs0 H1 H2 H3. unfold TH_WEDGE_S in *.
  assert (Hup : 120 <= u32 (Z.quot (tt_eval now) 1000000)).
  { pose proof (age_s_ge (tt_eval now) 0 120) as Ha. unfold age_s in Ha. rewrite Z.sub_0_r in Ha. lia. }
  unfold supervisor_turn. replace (_ <? GRACE_S) with false by (unfold GRACE_S; lia).
  assert (Hw : wedged (tt_eval now) s = true).
  { unfold wedged, caster_fault, caster_silent, TH_CASTER_S, TH_WEDGE_S. rewrite Hseen, Hcast.
    pose proof (age_s_ge (tt_eval now) caster 120 ltac:(lia) ltac:(lia) ltac:(lia) ltac:(lia)).
    replace (30 <=? _) with true by lia. replace (120 <=? age_s (tt_eval now) caster) with true by lia. cbn [andb].
    apply orb_true_iff. destruct c; cbn [cause_holds dead_since] in *.
    - left. unfold gnss_silent. destruct (s_gnss_seen s); [|lia]. subst since.
      pose proof (age_s_ge (tt_eval now) (s_t_gnss s) 120). lia.
    - right. destruct Hc as [Hi Hl]. unfold ip_down. rewrite Hi, Hl. cbn [negb andb]. subst since.
      pose proof (age_s_ge (tt_eval now) (s_t_ip s) 120). lia. }
  unfold heap_guard. case_if.
  - destruct (HEAP_LOW_S <=? _); [by eexists _, _|].
    match goal with |- context [wedged (tt_eval now) ?s'] => change (wedged (tt_eval now) s') with (wedged (tt_eval now) s) end.
    rewrite Hw. by eexists _, _.
  - match goal with |- context [wedged (tt_eval now) ?s'] => change (wedged (tt_eval now) s') with (wedged (tt_eval now) s) end.
    rewrite Hw. by eexists _, _.
Qed.

(** C11: no station stays dark.  Once the caster was reached, a run in which no byte is
    accepted and meanwhile no frame arrives, or no address, ends in a restart: at the latest
    in the first turn 120 seconds after both went silent, whatever the other rungs
    tried and whatever was noted besides. *)
Theorem silent_station_restarts c es : forall s,
  s_caster_seen s = true -> cause_holds c s -> 0 <= s_t_caster s -> 0 <= dead_since c s ->
  Forall (stays_dead c) es ->
  (exists now heap, E_turn now heap ∈ es /\ tt_eval now < 2 ^ 50 /\
     s_t_caster s + TH_WEDGE_S * 1000000 <= tt_eval now /\ dead_since c s + TH_WEDGE_S * 1000000 <= tt_eval now) ->
  exists n h, (sup_run es s).2 = Reboot n h.
Proof.
  intros s. intros Hseen Hc H1 H2 Hq Hlate.
  assert (D : dead c (s_t_caster s) (dead_since c s) s) by done.
  revert H1 H2 Hlate D. generalize (s_t_caster s), (dead_since c s). intros caster since H1 H2. clear Hseen Hc. revert s.
  induction es as [|e es IH]; intros s (now & heap & Hin & Hrest) D; [by apply elem_of_nil in Hin|].
  apply Forall_cons in Hq as [He Hq]. pose proof (note_keeps_dead c caster since e s He D) as D'.
  destruct e as [t|t b|t up|now' heap']; cbn [sup_run].
  1-3: apply (IH Hq); [|exact D']; exists now, heap; split; [|done]; by apply elem_of_cons in Hin as [|].
  destruct (supervisor_turn now' heap' s) as [s' acts|n h] eqn:E; [|by eexists _, _].
  destruct (sup_run es s') as [log out] eqn:Er. cbn [snd].
  apply elem_of_cons in Hin as [[= -> ->]|Hin].
  - destruct (late_turn_reboots c caster since now' heap' s D) as (n & h & E'); try lia. congruence.
  - specialize (IH Hq s'). rewrite Er in IH. apply IH; [by exists now, heap|exact D'].
Qed.

(** The caster took its last byte at 40 s, the address was lost at 45 s; frames keep coming. *)
Definition dark_state : sup_t :=
  supervisor_note_sta_ip 45000000 false (supervisor_note_sta_ip 20000000 true
    (supervisor_note_caster_tx 40000000 1 (supervisor_set_recovery true true true (sup_boot 0)))).
Definition dark_run : list sup_event :=
  concat (map (fun k => [E_gnss (Z.of_nat k * 1000000); E_caster (Z.of_nat k * 1000000) 0; E_turn (second (Z.of_nat k)) 70000])
              (seq 41 120)).

Lemma silent_station_restarts_witness : exists n h, (sup_run dark_run dark_state).2 = Reboot n h.
Proof.
  apply (silent_station_restarts No_address dark_run dark_state); [done|done|done|done| |].
  - unfold dark_run. apply Forall_concat, Forall_map, Forall_forall. intros k _. repeat constructor; done.
  - exists (second 160), 70000. split; [|split_and!; vm_compute; first [reflexivity|discriminate]]. apply list_elem_of_In, in_concat.
    eexists. split; [apply (in_map _ _ 160%nat), in_seq; lia|]. cbn. tauto.
Defined.
