(* ===== verification/Ingest.v ===== *)
(** * RTCM ingest (src/main/interface/ntrip_server.c, "UART")

    What happens to a chunk of receiver bytes: the parser cuts it into frames,
    every frame is noted for the freshness contract and the supervisor and goes
    into the ring.  A receiver reset starts a new epoch. *)

From S2P Require Import Prelude RtcmParser NtripRing Supervisor.

Definition NTRIP_REQUIRED_MSG_COUNT : nat := 4.
Definition ntrip_required_msgs : list Z := [1005; 1033; 1077; 1087].
Definition s_required_budget_ms : list Z := [30000; 30000; 5000; 5000].

(** The bookkeeping of the required message types. *)
Record msgs_t := mk_msgs {
  m_last_ms : list Z;  (* uint32_t[4] *)
  m_epoch_tag : list Z;  (* uint32_t[4], 0 = never seen *)
  m_epoch : Z;  (* uint32_t s_epoch *)
  m_epoch_started_ms : Z;  (* uint32_t *)
  m_ingest_reset_req : bool
}.

Definition eta_msgs_t (x : msgs_t) : msgs_t := mk_msgs (m_last_ms x) (m_epoch_tag x) (m_epoch x)
  (m_epoch_started_ms x) (m_ingest_reset_req x).
#[export] Instance set_m_last_ms : Setter m_last_ms := ltac:(derive_setter eta_msgs_t).
#[export] Instance set_m_epoch_tag : Setter m_epoch_tag := ltac:(derive_setter eta_msgs_t).
#[export] Instance set_m_epoch : Setter m_epoch := ltac:(derive_setter eta_msgs_t).
#[export] Instance set_m_epoch_started_ms : Setter m_epoch_started_ms := ltac:(derive_setter eta_msgs_t).
#[export] Instance set_m_ingest_reset_req : Setter m_ingest_reset_req := ltac:(derive_setter eta_msgs_t).

(** Everything the ingest path owns. *)
Record ingest_t := mk_ingest {
  in_ready : bool;  (* g_ring_mutex is set *)
  in_parser : rtcm_parser_t;
  in_ring : ntrip_ring_t;
  in_msgs : msgs_t;
  in_sup : sup_t
}.

Definition eta_ingest_t (x : ingest_t) : ingest_t := mk_ingest (in_ready x) (in_parser x) (in_ring x) (in_msgs
  x) (in_sup x).
#[export] Instance set_in_ready : Setter in_ready := ltac:(derive_setter eta_ingest_t).
#[export] Instance set_in_parser : Setter in_parser := ltac:(derive_setter eta_ingest_t).
#[export] Instance set_in_ring : Setter in_ring := ltac:(derive_setter eta_ingest_t).
#[export] Instance set_in_msgs : Setter in_msgs := ltac:(derive_setter eta_ingest_t).
#[export] Instance set_in_sup : Setter in_sup := ltac:(derive_setter eta_ingest_t).

Definition msgs_boot : msgs_t := mk_msgs [0; 0; 0; 0] [0; 0; 0; 0] 1 0 false.

(** [ntrip_now_ms] at the time [us] of the timer. *)
Definition ntrip_now_ms (us : Z) : Z := u32 (us / 1000).

Definition ntrip_server_msg_epoch_reset (us : Z) (m : msgs_t) : msgs_t :=
  let m := m <| m_epoch_started_ms := ntrip_now_ms us |>
             <| m_epoch := u32 (m_epoch m + 1) |> in
  let m := if m_epoch m =? 0 then m <| m_epoch := 1 |> else m in
  m <| m_ingest_reset_req := true |>.

(** The verdict on the required type number [i]. *)
Definition msg_in_epoch (m : msgs_t) (i : nat) : bool :=
  (nth i (m_epoch_tag m) 0 =? m_epoch m) &&
  (0 <? i32 (nth i (m_last_ms m) 0 - m_epoch_started_ms m)).

Definition msg_age (m : msgs_t) (now : Z) (i : nat) : Z :=
  if msg_in_epoch m i then u32 (now - nth i (m_last_ms m) 0) else UINT32_MAX.

Definition msg_fresh (m : msgs_t) (now : Z) (i : nat) : bool :=
  msg_in_epoch m i && (u32 (now - nth i (m_last_ms m) 0) <=? nth i s_required_budget_ms 0).

Record ntrip_msg_freshness_t := mk_freshness {
  f_type : list Z; f_age_ms : list Z; f_fresh : list bool; f_all_fresh : bool
}.

(** [ntrip_server_msg_freshness], reading one state of the tables; [epoch_after]
    is what the last line reads of [s_epoch]. *)
Definition ntrip_server_msg_freshness (us : Z) (m : msgs_t) (epoch_after : Z)
    : ntrip_msg_freshness_t :=
  let now := ntrip_now_ms us in
  let idx := seq 0 NTRIP_REQUIRED_MSG_COUNT in
  let all := forallb (msg_fresh m now) idx in
  mk_freshness ntrip_required_msgs (map (msg_age m now) idx) (map (msg_fresh m now) idx)
    (if negb (epoch_after =? m_epoch m) then false else all).

(** The message type of a frame. *)
Definition frame_type (frame : list Z) : Z :=
  u16 (Z.lor (u16 (Z.shiftl (zget frame 3) 4)) (Z.shiftr (zget frame 4) 4)).

(** The loop over the required types, with its [break]. *)
Fixpoint note_type (types : list Z) (i : nat) (mtype now : Z) (m : msgs_t) : msgs_t :=
  match types with
  | [] => m
  | t :: types =>
    if t =? mtype
    then m <| m_last_ms := <[i := now]> (m_last_ms m) |>
           <| m_epoch_tag := <[i := m_epoch m]> (m_epoch_tag m) |>
    else note_type types (S i) mtype now m
  end.

(** The state the frame callback works on. *)
Definition frame_ctx : Type := msgs_t * sup_t * ntrip_ring_t.

(** [ntrip_server_on_frame]; [us] is the time the supervisor note reads. *)
Definition ntrip_server_on_frame (us : Z) (c : frame_ctx) (frame : list Z) (len now : Z)
    : frame_ctx :=
  let '(m, s, r) := c in
  let m := if 6 <=? len then note_type ntrip_required_msgs 0 (frame_type frame) now m else m in
  (m, supervisor_note_gnss_rx us s, ntrip_ring_push r frame len now).

Definition ntrip_server_ingest_init (s : ingest_t) : ingest_t :=
  if in_ready s then s
  else s <| in_parser := rtcm_parser_init |> <| in_ring := ntrip_ring_init |> <| in_ready := true |>.

(** [ntrip_server_ingest_uart] up to the wake-ups: the new state and whether the
    ring has got new frames (the wake-ups follow in that case).  [None] stands
    for a parser that does not return. *)
Definition ntrip_server_ingest_uart (us : Z) (data : list Z) (s : ingest_t)
    : option (ingest_t * bool) :=
  if negb (in_ready s) || (zlen data =? 0) then Some (s, false)
  else
    let s := if m_ingest_reset_req (in_msgs s)
             then s <| in_msgs := (in_msgs s) <| m_ingest_reset_req := false |> |>
                    <| in_parser := rtcm_parser_init |>
             else s in
    let frames_before := r_next_seq (in_ring s) in
    match rtcm_parser_feed (Some (ntrip_server_on_frame us)) (in_parser s) data
            (ntrip_now_ms us) (in_msgs s, in_sup s, in_ring s) with
    | None => None
    | Some (p, (m, sp, r)) =>
      Some (s <| in_parser := p |> <| in_msgs := m |> <| in_sup := sp |> <| in_ring := r |>,
            negb (r_next_seq r =? frames_before))
    end.

(** ** Specification *)

(** What happened to the bookkeeping, the latest event first: a frame of a type
    with the time its chunk was stamped with (which may lie before a reset that
    was processed earlier), or a reset. *)
Inductive msg_event := Seen (mtype now : Z) | Reset (us : Z).

Fixpoint msgs_after (es : list msg_event) : msgs_t :=
  match es with
  | [] => msgs_boot
  | Seen t now :: es => note_type ntrip_required_msgs 0 t now (msgs_after es)
  | Reset us :: es => ntrip_server_msg_epoch_reset us (msgs_after es)
  end.

(** The stamp of the latest frame of type [t] that was processed since the
    latest reset. *)
Fixpoint latest (t : Z) (es : list msg_event) : option Z :=
  match es with
  | [] => None
  | Seen t' now :: es => if t' =? t then Some now else latest t es
  | Reset _ :: _ => None
  end.

(** When the epoch started. *)
Fixpoint epoch_start (es : list msg_event) : Z :=
  match es with
  | [] => 0
  | Seen _ _ :: es => epoch_start es
  | Reset us :: _ => ntrip_now_ms us
  end.

Fixpoint resets (es : list msg_event) : Z :=
  match es with
  | [] => 0
  | Seen _ _ :: es => resets es
  | Reset _ :: es => 1 + resets es
  end.

(** The notes of the frames of a chunk. *)
Definition note_frames (fs : list (list Z)) (now : Z) (m : msgs_t) : msgs_t :=
  fold_left (fun m f => note_type ntrip_required_msgs 0 (frame_type f) now m) fs m.

(** What is held between two chunks. *)
Definition ingest_inv (s : ingest_t) (hist : list entry) : Prop :=
  in_ready s = true /\ parser_inv (in_parser s) /\ counters_u64 (in_parser s) /\
  ring_ok (in_ring s) hist.

(** ** Freshness *)

Lemma nth_insert_eq (l : list Z) i v : (i < length l)%nat -> nth i (<[i:=v]> l) 0 = v.
Proof.
  intros Hi. rewrite nth_lookup, list_lookup_insert_eq by done. done.
Qed.
Lemma nth_insert_ne (l : list Z) i j v : i <> j -> nth j (<[i:=v]> l) 0 = nth j l 0.
Proof. intros. by rewrite !nth_lookup, list_lookup_insert_ne. Qed.

Lemma note_type_spec types : forall k t now m,
  NoDup types -> (k + length types <= length (m_last_ms m))%nat ->
  length (m_last_ms m) = length (m_epoch_tag m) ->
  let q := note_type types k t now m in
  m_epoch q = m_epoch m /\ m_epoch_started_ms q = m_epoch_started_ms m /\
  length (m_last_ms q) = length (m_last_ms m) /\ length (m_epoch_tag q) = length (m_epoch_tag m) /\
  m_ingest_reset_req q = m_ingest_reset_req m /\
  (forall i, (i < length types)%nat ->
    nth (k + i) (m_last_ms q) 0 = (if nth i types 0 =? t then now else nth (k + i) (m_last_ms m) 0) /\
    nth (k + i) (m_epoch_tag q) 0 =
      (if nth i types 0 =? t then m_epoch m else nth (k + i) (m_epoch_tag m) 0)) /\
  (forall i, (i < k)%nat -> nth i (m_last_ms q) 0 = nth i (m_last_ms m) 0 /\
                            nth i (m_epoch_tag q) 0 = nth i (m_epoch_tag m) 0).
Proof.
  induction types as [|t0 types IH]; intros k t now m Hnd Hl Hlen; cbn [note_type length] in *.
  { split_and!; try done; lia. }
  apply NoDup_cons in Hnd as [Hni Hnd]. destruct (t0 =? t) eqn:E.
  - cbn. rewrite !length_insert. split_and!; try done.
    + intros [|i] Hi; cbn [nth].
      * rewrite Nat.add_0_r, E, !nth_insert_eq by lia. done.
      * rewrite !nth_insert_ne by lia.
        destruct (nth i types 0 =? t) eqn:E2; [|done]. exfalso. apply Hni.
        replace t0 with (nth i types 0) by lia. apply list_elem_of_In, nth_In. lia.
    + intros i Hi. by rewrite !nth_insert_ne by lia.
  - destruct (IH (S k) t now m Hnd) as (H1 & H2 & H3 & H4 & H5 & H6 & H7); [lia|done|].
    split_and!; try done.
    + intros [|i] Hi; cbn [nth].
      * rewrite Nat.add_0_r, E. apply H7. lia.
      * specialize (H6 i ltac:(lia)). by replace (k + S i)%nat with (S k + i)%nat by lia.
    + intros i Hi. apply H7. lia.
Qed.

Lemma resets_nonneg es : 0 <= resets es.
Proof. induction es as [|[? ?|?] es IH]; cbn; lia. Qed.

Lemma required_nodup : NoDup ntrip_required_msgs.
Proof. refine (bool_decide_unpack _ _). vm_compute. exact I. Qed.

Lemma msgs_after_inv es :
  1 + resets es < 2 ^ 32 ->
  let m := msgs_after es in
  length (m_last_ms m) = 4%nat /\ length (m_epoch_tag m) = 4%nat /\
  m_epoch m = 1 + resets es /\ m_epoch_started_ms m = epoch_start es /\
  forall i, (i < 4)%nat ->
    match latest (nth i ntrip_required_msgs 0) es with
    | Some l => nth i (m_last_ms m) 0 = l /\ nth i (m_epoch_tag m) 0 = m_epoch m
    | None => nth i (m_epoch_tag m) 0 < m_epoch m
    end.
Proof.
  induction es as [|[t now|us] es IH]; intros Hr; cbv zeta; cbn [msgs_after latest epoch_start resets] in *.
  - split_and!; try done. intros i Hi. do 4 (destruct i as [|i]; [done|]). lia.
  - destruct (IH Hr) as (H1 & H2 & H3 & H4 & H5). set (m := msgs_after es) in *.
    destruct (note_type_spec ntrip_required_msgs 0 t now m required_nodup)
      as (N1 & N2 & N3 & N4 & _ & N6 & _); [cbn; lia|lia|].
    rewrite N1, N2, N3, N4. split_and!; try done. intros i Hi.
    specialize (N6 i Hi). cbn [Nat.add] in N6. destruct N6 as [-> ->]. rewrite (Z.eqb_sym t).
    destruct (nth i ntrip_required_msgs 0 =? t); [done|]. by apply H5.
  - pose proof (resets_nonneg es). destruct (IH ltac:(lia)) as (H1 & H2 & H3 & H4 & H5).
    set (m := msgs_after es) in *. unfold ntrip_server_msg_epoch_reset.
    cbn [m_epoch upd set_m_epoch set_m_epoch_started_ms]. rewrite H3, u32_small by lia.
    destruct (1 + resets es + 1 =? 0) eqn:E; [lia|]. cbn. split_and!; try done; [lia|].
    intros i Hi. specialize (H5 i Hi). rewrite H3 in H5. destruct (latest _ es); lia.
Qed.

Lemma scans_frame_lens l fs d e r :
  scans l fs d e r -> bytes l -> Forall (fun f => 6 <= zlen f <= RTCM_MAX_FRAME_B) fs.
Proof.
  induction 1 as [|l Hi|b l fs d e r Hb Hs IH|l fs d e r H0 Hl H1 Hs IH
                 |l fs d e r Hh Hn Hc Hs IH|l fs d e r Hh Hn Hc Hs IH];
    intros Hby; try (by apply Forall_nil); auto with fw.
  - apply Forall_cons in Hby as [_ Hby]. auto.
  - pose proof (stream_need_range l Hby). apply Forall_cons. split; [|auto with fw].
    rewrite zlen_ztake_le by lia. done.
Qed.

Lemma scans_few l fs d e r : scans l fs d e r -> bytes l -> zlen fs <= zlen l.
Proof.
  intros Hs Hb. pose proof (scans_frame_lens _ _ _ _ _ Hs Hb) as Hf.
  pose proof (scans_conserve _ _ _ _ _ Hs Hb) as Hc. pose proof (zlen_nonneg r).
  assert (0 <= d) by (clear -Hs; induction Hs; lia).
  enough (zlen fs <= zsum (map zlen fs)) by lia. clear -Hf.
  induction Hf as [|f fs Hf1 Hf IH]; [done|]. rewrite zlen_cons. cbn. lia.
Qed.

(** ** The chunk *)

Lemma on_frames us now fs : forall m s r hist,
  ring_ok r hist -> Forall (fun f => 6 <= zlen f <= RTCM_MAX_FRAME_B) fs -> 0 <= now < 2 ^ 32 ->
  zlen hist + zlen fs < 2 ^ 32 ->
  exists m' s' r', run_cbs (Some (ntrip_server_on_frame us)) (m, s, r) fs now = (m', s', r') /\
    ring_ok r' (hist ++ map (fun f => (f, now)) fs) /\
    r' = push_all r (map (fun f => (f, now)) fs) /\
    m' = note_frames fs now m /\
    s' = (if zlen fs =? 0 then s else supervisor_note_gnss_rx us s).
Proof.
  induction fs as [|f fs IH]; intros m s r hist Hok Hf Hnow Hlen.
  - exists m, s, r. rewrite app_nil_r. done.
  - apply Forall_cons in Hf as [Hf1 Hf]. rewrite zlen_cons in *. pose proof (zlen_nonneg fs).
    set (m1 := note_type ntrip_required_msgs 0 (frame_type f) now m).
    destruct (IH m1 (supervisor_note_gnss_rx us s) (ntrip_ring_push r f (zlen f) now)
                (hist ++ [(f, now)])) as (m' & s' & r' & He & Hr & Hp & Hm & Hs).
    { apply (ring_push_ok r hist (f, now) Hok); [done|lia]. }
    { done. } { done. } { rewrite zlen_snoc. lia. }
    exists m', s', r'. split_and!; [|by rewrite <- app_assoc in Hr|exact Hp|done|].
    + rewrite <- He. cbn. destruct (6 <=? zlen f) eqn:E; [done|lia].
    + rewrite Hs. destruct (zlen fs =? 0), (1 + zlen fs =? 0) eqn:E2; try done; lia.
Qed.

(** A chunk, with the pushes it makes. *)
Lemma chunk_spec us data s hist :
  ingest_inv s hist -> bytes data -> data <> [] -> zlen hist + zlen data + 1029 < 2 ^ 32 ->
  let m := (in_msgs s) <| m_ingest_reset_req := false |> in
  let held := if m_ingest_reset_req (in_msgs s) then [] else contents (in_parser s) in
  exists s' woken fs d e,
    ntrip_server_ingest_uart us data s = Some (s', woken) /\
    scans (held ++ data) fs d e (contents (in_parser s')) /\
    in_ring s' = push_all (in_ring s) (map (fun f => (f, ntrip_now_ms us)) fs) /\
    ingest_inv s' (hist ++ map (fun f => (f, ntrip_now_ms us)) fs) /\
    in_msgs s' = note_frames fs (ntrip_now_ms us) m /\
    in_sup s' = (if zlen fs =? 0 then in_sup s else supervisor_note_gnss_rx us (in_sup s)) /\
    (woken = true <-> fs <> []).
Proof.
  intros (Hrdy & Hp & Hu & Hring) Hb Hne Hlen m held. unfold ntrip_server_ingest_uart.
  rewrite Hrdy. cbn [negb orb]. destruct (zlen data =? 0) eqn:E0; [by apply Z.eqb_eq, zlen_0 in E0|].
  set (s1 := if m_ingest_reset_req (in_msgs s) then _ else s).
  assert (Hs1 : in_ready s1 = true /\ parser_inv (in_parser s1) /\ counters_u64 (in_parser s1) /\
    in_ring s1 = in_ring s /\ in_sup s1 = in_sup s /\ in_msgs s1 = m /\ contents (in_parser s1) = held).
  { unfold s1, m, held. destruct (m_ingest_reset_req (in_msgs s)) eqn:E.
    - split_and!; try done; [apply parser_init_inv|cbn; lia..].
    - split_and!; try done. destruct (in_msgs s). cbn in *. by rewrite E. }
  clearbody s1. destruct Hs1 as (R1 & R2 & R3 & R4 & R5 & R6 & R7).
  destruct (feed_spec (Some (ntrip_server_on_frame us)) (in_parser s1) data (ntrip_now_ms us)
              (in_msgs s1, in_sup s1, in_ring s1) R2 R3 Hb) as (p & c' & -> & fs & d & e & Hc & Hi & Hs & Hcnt).
  rewrite R4, R5, R6 in Hc. rewrite R7 in Hs.
  assert (Hbl : bytes (held ++ data)).
  { apply bytes_app. split; [|done]. rewrite <- R7. by apply parser_inv_bytes. }
  assert (Hheld : zlen held <= 1029).
  { rewrite <- R7. pose proof (parser_inv_buf_ok _ R2) as Hbo. rewrite (buf_ok_len _ Hbo).
    destruct Hbo as (_ & _ & ?). unfold RTCM_MAX_FRAME_B in *. lia. }
  pose proof (scans_frame_lens _ _ _ _ _ Hs Hbl) as Hfl.
  pose proof (scans_few _ _ _ _ _ Hs Hbl) as Hfew. rewrite zlen_app in Hfew.
  destruct (on_frames us (ntrip_now_ms us) fs m (in_sup s) (in_ring s) hist Hring Hfl)
    as (m' & s' & r' & He & Hr & Hpush & Hm & Hsup); [apply u32_range|lia|].
  rewrite He in Hc. subst c'. rewrite R4.
  assert (Hnext : r_next_seq r' = zlen hist + zlen fs /\ r_next_seq (in_ring s) = zlen hist).
  { destruct Hr as (_ & _ & _ & _ & -> & _), Hring as (_ & _ & _ & _ & -> & _).
    rewrite zlen_app. unfold zlen. by rewrite length_map. }
  destruct Hnext as [-> ->].
  eexists _, _, fs, d, e. split; [reflexivity|]. cbn [in_parser in_msgs in_sup upd set_in_parser
    set_in_msgs set_in_sup set_in_ring]. split_and!; try done.
  - pose proof (counted_u64 _ _ _ _ _ Hcnt). unfold ingest_inv. by split_and!.
  - destruct fs as [|f fs]; [rewrite zlen_nil; split; [lia|done]|].
    rewrite zlen_cons. pose proof (zlen_nonneg fs). split; [done|lia].
Qed.


(** ** Properties *)

Lemma fresh_nth es us epoch_after i : (i < 4)%nat ->
  nth i (f_fresh (ntrip_server_msg_freshness us (msgs_after es) epoch_after)) false =
  msg_fresh (msgs_after es) (ntrip_now_ms us) i.
Proof. intros Hi. do 4 (destruct i as [|i]; [done|]). lia. Qed.

Lemma fresh_iff es us epoch_after i : 1 + resets es < 2 ^ 32 -> (i < 4)%nat ->
  nth i (f_fresh (ntrip_server_msg_freshness us (msgs_after es) epoch_after)) false = true <->
  exists last, latest (nth i ntrip_required_msgs 0) es = Some last /\
    0 < i32 (last - epoch_start es) /\ u32 (ntrip_now_ms us - last) <= nth i s_required_budget_ms 0.
Proof.
  intros Hr Hi. destruct (msgs_after_inv es Hr) as (H1 & H2 & H3 & H4 & H5).
  rewrite fresh_nth by done. unfold msg_fresh, msg_in_epoch. rewrite H3, H4.
  specialize (H5 i Hi). rewrite !andb_true_iff.
  destruct (latest (nth i ntrip_required_msgs 0) es) as [l|].
  - destruct H5 as [-> ->]. rewrite H3. split.
    + intros [[_ ?] ?]. exists l. split_and!; [done|lia|lia].
    + intros (l' & [= <-] & ? & ?). split_and!; lia.
  - split; [lia|]. intros (l' & ? & _). done.
Qed.

(** The signed difference of two 32-bit stamps, by the times they were taken at. *)
Lemma i32_stamps t t0 : i32 (u32 t - u32 t0) = i32 (t - t0).
Proof.
  unfold i32, u32. f_equal. rewrite <- (Zplus_mod_idemp_l (t mod _ - t0 mod _)), <- Zminus_mod, Zplus_mod_idemp_l. done.
Qed.
Lemma u32_stamps t t0 : u32 (u32 t - u32 t0) = u32 (t - t0).
Proof. unfold u32. by rewrite <- Zminus_mod. Qed.
Lemma i32_late x : 2 ^ 31 <= x < 2 ^ 32 -> i32 x < 0.
Proof.
  intros Hx. unfold i32. replace ((x + 2 ^ 31) mod 2 ^ 32) with (x - 2 ^ 31); [lia|].
  symmetry. replace (x + 2 ^ 31) with (x - 2 ^ 31 + 1 * 2 ^ 32) by lia. rewrite Z_mod_plus_full, Z.mod_small; lia.
Qed.



(** C32: the ingest path end to end: a chunk of receiver bytes is always
    processed to its end; exactly the valid frames the scanner finds in the held
    bytes (none, after a reset) and the chunk enter the ring, in order and
    stamped with the chunk's time, each is noted for the freshness contract, and
    the supervisor is told of the receiver, and the senders are woken, only if
    there is at least one. *)
Theorem ingest_chunk us data s hist :
  ingest_inv s hist -> bytes data -> data <> [] -> zlen hist + zlen data + 1029 < 2 ^ 32 ->
  let m := (in_msgs s) <| m_ingest_reset_req := false |> in
  let held := if m_ingest_reset_req (in_msgs s) then [] else contents (in_parser s) in
  exists s' woken fs d e,
    ntrip_server_ingest_uart us data s = Some (s', woken) /\
    scans (held ++ data) fs d e (contents (in_parser s')) /\
    ingest_inv s' (hist ++ map (fun f => (f, ntrip_now_ms us)) fs) /\
    in_msgs s' = note_frames fs (ntrip_now_ms us) m /\
    in_sup s' = (if zlen fs =? 0 then in_sup s else supervisor_note_gnss_rx us (in_sup s)) /\
    (woken = true <-> fs <> []).
Proof.
  intros Hs Hb Hne Hl m held. destruct (chunk_spec us data s hist Hs Hb Hne Hl) as (s' & woken & fs & d & e & P).
  exists s', woken, fs, d, e. tauto.
Qed.

Definition demo_ingest : ingest_t :=
  ntrip_server_ingest_init (mk_ingest false rtcm_parser_init ntrip_ring_init
    (msgs_after [Reset 1000000]) (sup_boot 0)).

Lemma ingest_chunk_witness :
  exists s' woken fs d e,
    ntrip_server_ingest_uart 5000000 demo_stream demo_ingest = Some (s', woken) /\
    scans demo_stream fs d e (contents (in_parser s')) /\
    ingest_inv s' (map (fun f => (f, 5000)) fs) /\
    in_msgs s' = note_frames fs 5000 ((in_msgs demo_ingest) <| m_ingest_reset_req := false |>) /\
    in_sup s' = (if zlen fs =? 0 then sup_boot 0 else supervisor_note_gnss_rx 5000000 (sup_boot 0)) /\
    (woken = true <-> fs <> []).
Proof.
  apply (ingest_chunk 5000000 demo_stream demo_ingest []).
  - unfold ingest_inv. split_and!; [done|apply parser_init_inv|apply parser_init_u64..|apply ring_init_ok].
  - by apply bytesb_bytes.
  - done.
  - done.
Defined.
