(* ===== verification/MsgRace.v ===== *)
(** * The freshness tables without a lock (src/main/interface/ntrip_server.c, "UART")

    [Ingest] runs the UART task's notes, a receiver reset and the freshness verdict
    as one step each.  The code runs them in three tasks with no lock between them.
    Here every access to a shared variable is a step of its own; the three tasks'
    steps interleave freely.  The tables are those of [Ingest]; what is local to a task
    is its program counter.  A task that is left alone computes what [Ingest]
    says ([race_alone]). *)

From stdpp Require Import relations.
From S2P Require Import Prelude RtcmParser NtripRing Supervisor Ingest.

(** ** Program counters *)

(** The UART task: the test of the request at the top of a chunk, the chunk's time stamp,
    and for a frame of the required type number [i] the two stores. *)
Inductive uart_pc :=
  | U_idle
  | U_clear                       (* [s_ingest_reset_req] was set *)
  | U_stamp                       (* [ntrip_now_ms()] is next *)
  | U_chunk (now : Z)
  | U_epoch (now : Z) (i : nat)   (* [s_msg_last_ms[i]] is written *)
  | U_tag (now : Z) (i : nat) (epoch : Z).

(** [ntrip_server_msg_epoch_reset]; [s_epoch++] is a read and a write. *)
Inductive reset_pc :=
  | R_idle
  | R_start (now : Z)
  | R_read
  | R_bump (epoch : Z)
  | R_test
  | R_skip_zero
  | R_request.

(** [ntrip_server_msg_freshness]; [acc] holds the ages and verdicts so far. *)
Inductive fresh_pc :=
  | F_idle
  | F_epoch (now : Z)
  | F_since (now epoch : Z)
  | F_last (now epoch since : Z) (acc : list (Z * bool))
  | F_tag (now epoch since last : Z) (acc : list (Z * bool))
  | F_check (now epoch : Z) (acc : list (Z * bool))
  | F_done (out : ntrip_msg_freshness_t).

(** ** Steps *)

(** The number of the type in [ntrip_required_msgs]: the loop with its [break]. *)
Fixpoint required_index (types : list Z) (i : nat) (mtype : Z) : option nat :=
  match types with
  | [] => None
  | t :: types => if t =? mtype then Some i else required_index types (S i) mtype
  end.

(** A step of the UART task; [mtype] is the type of the next frame of the chunk, [None] at
    its end.  The last component is the note a step completes, for the history. *)
Definition uart_step (us : Z) (mtype : option Z) (m : msgs_t) (pc : uart_pc)
    : msgs_t * uart_pc * option (nat * Z) :=
  match pc with
  | U_idle => (m, if m_ingest_reset_req m then U_clear else U_stamp, None)
  | U_clear => (m <| m_ingest_reset_req := false |>, U_stamp, None)
  | U_stamp => (m, U_chunk (ntrip_now_ms us), None)
  | U_chunk now =>
    match mtype with
    | None => (m, U_idle, None)
    | Some t =>
      match required_index ntrip_required_msgs 0 t with
      | None => (m, U_chunk now, None)
      | Some i => (m <| m_last_ms := <[i := now]> (m_last_ms m) |>, U_epoch now i, Some (i, now))
      end
    end
  | U_epoch now i => (m, U_tag now i (m_epoch m), None)
  | U_tag now i epoch => (m <| m_epoch_tag := <[i := epoch]> (m_epoch_tag m) |>, U_chunk now, None)
  end.

(** A step of a reset; the last component is the start of an epoch that begins. *)
Definition reset_step (us : Z) (m : msgs_t) (pc : reset_pc) : msgs_t * reset_pc * bool :=
  match pc with
  | R_idle => (m, R_start (ntrip_now_ms us), false)
  | R_start now => (m <| m_epoch_started_ms := now |>, R_read, false)
  | R_read => (m, R_bump (m_epoch m), false)
  | R_bump epoch => (m <| m_epoch := u32 (epoch + 1) |>, R_test, true)
  | R_test => (m, if m_epoch m =? 0 then R_skip_zero else R_request, false)
  | R_skip_zero => (m <| m_epoch := 1 |>, R_request, false)
  | R_request => (m <| m_ingest_reset_req := true |>, R_idle, false)
  end.

(** What the loop body makes of [last] and [tag]. *)
Definition judge_type (now epoch since last tag : Z) (i : nat) : Z * bool :=
  if (tag =? epoch) && (0 <? i32 (last - since))
  then (u32 (now - last), u32 (now - last) <=? nth i s_required_budget_ms 0)
  else (UINT32_MAX, false).

(** The last line: [current] is what it reads of [s_epoch]. *)
Definition finish (epoch current : Z) (acc : list (Z * bool)) : ntrip_msg_freshness_t :=
  mk_freshness ntrip_required_msgs (map fst acc) (map snd acc)
    (if negb (current =? epoch) then false else forallb snd acc).

Definition next_type (now epoch since : Z) (acc : list (Z * bool)) : fresh_pc :=
  if (length acc <? NTRIP_REQUIRED_MSG_COUNT)%nat then F_last now epoch since acc else F_check now epoch acc.

Definition fresh_step (us : Z) (m : msgs_t) (pc : fresh_pc) : fresh_pc :=
  match pc with
  | F_idle => F_epoch (ntrip_now_ms us)
  | F_epoch now => F_since now (m_epoch m)
  | F_since now epoch => next_type now epoch (m_epoch_started_ms m) []
  | F_last now epoch since acc => F_tag now epoch since (nth (length acc) (m_last_ms m) 0) acc
  | F_tag now epoch since last acc =>
    next_type now epoch since
      (acc ++ [judge_type now epoch since last (nth (length acc) (m_epoch_tag m) 0) (length acc)])
  | F_check now epoch acc => F_done (finish epoch (m_epoch m) acc)
  | F_done out => F_done out
  end.

(** ** The three tasks *)

(** [rc_notes]: the types noted with the stamps of their chunks; [rc_starts]: when the
    epochs started, the latest first.  Both are history, no step reads them. *)
Record race := mk_race {
  rc_us : Z;
  rc_msgs : msgs_t;
  rc_uart : uart_pc;
  rc_reset : reset_pc;
  rc_fresh : fresh_pc;
  rc_notes : list (nat * Z);
  rc_starts : list Z
}.

Definition race_boot : race := mk_race 0 msgs_boot U_idle R_idle F_idle [] [].

(** 2^31 ms, 24.8 days: until then the 32-bit stamps order the times they stand for. *)
Definition CLOCK_END_US : Z := 2 ^ 31 * 1000.

Inductive race_step : race -> race -> Prop :=
  | rs_tick r us : rc_us r <= us ->
      race_step r (mk_race us (rc_msgs r) (rc_uart r) (rc_reset r) (rc_fresh r) (rc_notes r) (rc_starts r))
  | rs_uart r mtype m pc note : uart_step (rc_us r) mtype (rc_msgs r) (rc_uart r) = (m, pc, note) ->
      race_step r (mk_race (rc_us r) m pc (rc_reset r) (rc_fresh r)
                           (match note with Some n => n :: rc_notes r | None => rc_notes r end) (rc_starts r))
  | rs_reset r m pc begins : reset_step (rc_us r) (rc_msgs r) (rc_reset r) = (m, pc, begins) ->
      race_step r (mk_race (rc_us r) m (rc_uart r) pc (rc_fresh r) (rc_notes r)
                           (if begins : bool then m_epoch_started_ms (rc_msgs r) :: rc_starts r else rc_starts r))
  | rs_fresh r : 
      race_step r (mk_race (rc_us r) (rc_msgs r) (rc_uart r) (rc_reset r)
                           (fresh_step (rc_us r) (rc_msgs r) (rc_fresh r)) (rc_notes r) (rc_starts r))
  | rs_again r out : rc_fresh r = F_done out ->
      race_step r (mk_race (rc_us r) (rc_msgs r) (rc_uart r) (rc_reset r) F_idle (rc_notes r) (rc_starts r)).

Definition race_reachable (r : race) : Prop := rtc race_step race_boot r.

(** When the current epoch started. *)
Definition current_start (r : race) : Z := default 0 (head (rc_starts r)).

(** A schedule: whose access is next, or how late it is. *)
Inductive race_act := A_tick (us : Z) | A_uart (mtype : option Z) | A_reset | A_fresh.

Definition race_do (a : race_act) (r : race) : race :=
  match a with
  | A_tick us => mk_race us (rc_msgs r) (rc_uart r) (rc_reset r) (rc_fresh r) (rc_notes r) (rc_starts r)
  | A_uart mtype =>
    let '(m, pc, note) := uart_step (rc_us r) mtype (rc_msgs r) (rc_uart r) in
    mk_race (rc_us r) m pc (rc_reset r) (rc_fresh r)
            (match note with Some n => n :: rc_notes r | None => rc_notes r end) (rc_starts r)
  | A_reset =>
    let '(m, pc, begins) := reset_step (rc_us r) (rc_msgs r) (rc_reset r) in
    mk_race (rc_us r) m (rc_uart r) pc (rc_fresh r) (rc_notes r)
            (if begins then m_epoch_started_ms (rc_msgs r) :: rc_starts r else rc_starts r)
  | A_fresh => mk_race (rc_us r) (rc_msgs r) (rc_uart r) (rc_reset r)
                       (fresh_step (rc_us r) (rc_msgs r) (rc_fresh r)) (rc_notes r) (rc_starts r)
  end.

Fixpoint race_run (acts : list race_act) (r : race) : race :=
  match acts with
  | [] => r
  | a :: acts => race_run acts (race_do a r)
  end.

Fixpoint clock_runs (acts : list race_act) (us : Z) : bool :=
  match acts with
  | [] => true
  | A_tick us' :: acts => (us <=? us') && clock_runs acts us'
  | _ :: acts => clock_runs acts us
  end.

(** When epoch number [epoch] started; the first one started at boot. *)
Definition start_of (starts : list Z) (epoch : Z) : Z := default 0 (starts !! Z.to_nat (1 + zlen starts - epoch)).

(** ** Invariant *)

Definition noted (notes : list (nat * Z)) (i : nat) (last : Z) : Prop := last = 0 \/ (i, last) ∈ notes.

(** Every verdict so far that is good has a note behind it. *)
Definition judged (notes : list (nat * Z)) (now since : Z) (acc : list (Z * bool)) : Prop :=
  (length acc <= 4)%nat /\
  forall i age, acc !! i = Some (age, true) -> exists last, (i, last) ∈ notes /\
    since < last <= now /\ now - last <= nth i s_required_budget_ms 0.

Definition uart_ok (clock : Z) (pc : uart_pc) : Prop :=
  match pc with
  | U_idle | U_clear | U_stamp => True
  | U_chunk now => 0 <= now <= clock
  | U_epoch now i | U_tag now i _ => 0 <= now <= clock /\ (i < 4)%nat
  end.

Definition reset_ok (clock : Z) (m : msgs_t) (pc : reset_pc) : Prop :=
  match pc with
  | R_start now => m_epoch_started_ms m <= now <= clock
  | R_bump epoch => epoch = m_epoch m
  | R_skip_zero => False
  | _ => True
  end.

Definition fresh_ok (clock : Z) (m : msgs_t) (notes : list (nat * Z)) (starts : list Z) (pc : fresh_pc) : Prop :=
  let began now epoch since :=
    0 <= now <= clock /\ 1 <= epoch <= m_epoch m /\ 0 <= since <= clock /\ start_of starts epoch <= since in
  match pc with
  | F_idle | F_done _ => True
  | F_epoch now => 0 <= now <= clock
  | F_since now epoch => began now epoch (m_epoch_started_ms m)
  | F_last now epoch since acc => began now epoch since /\ judged notes now since acc /\ (length acc < 4)%nat
  | F_tag now epoch since last acc =>
    began now epoch since /\ judged notes now since acc /\ (length acc < 4)%nat /\ noted notes (length acc) last
  | F_check now epoch acc =>
    exists since, began now epoch since /\ judged notes now since acc /\ length acc = 4%nat
  end.

Record race_ok (r : race) : Prop := mk_race_ok {
  ro_clock : 0 <= rc_us r < CLOCK_END_US;
  ro_lens : length (m_last_ms (rc_msgs r)) = 4%nat /\ length (m_epoch_tag (rc_msgs r)) = 4%nat;
  ro_last : forall i, (i < 4)%nat -> noted (rc_notes r) i (nth i (m_last_ms (rc_msgs r)) 0);
  ro_notes : forall i last, (i, last) ∈ rc_notes r -> 0 <= last <= ntrip_now_ms (rc_us r);
  ro_epoch : m_epoch (rc_msgs r) = 1 + zlen (rc_starts r);
  ro_started : 0 <= m_epoch_started_ms (rc_msgs r) <= ntrip_now_ms (rc_us r) /\
    current_start r <= m_epoch_started_ms (rc_msgs r);
  ro_uart : uart_ok (ntrip_now_ms (rc_us r)) (rc_uart r);
  ro_reset : reset_ok (ntrip_now_ms (rc_us r)) (rc_msgs r) (rc_reset r);
  ro_fresh : fresh_ok (ntrip_now_ms (rc_us r)) (rc_msgs r) (rc_notes r) (rc_starts r) (rc_fresh r)
}.

Lemma clock_ms us : 0 <= us < CLOCK_END_US -> ntrip_now_ms us = us / 1000 /\ 0 <= ntrip_now_ms us < 2 ^ 31.
Proof.
  unfold CLOCK_END_US, ntrip_now_ms. intros Hu.
  assert (0 <= us / 1000 < 2 ^ 31) by (split; [apply Z.div_pos; lia|apply Z.div_lt_upper_bound; lia]).
  rewrite u32_small by lia. lia.
Qed.

Lemma clock_mono us us' : 0 <= us <= us' -> us' < CLOCK_END_US -> ntrip_now_ms us <= ntrip_now_ms us'.
Proof.
  intros H1 H2. destruct (clock_ms us) as [-> _]; [lia|]. destruct (clock_ms us') as [-> _]; [lia|].
  apply Z.div_le_mono; lia.
Qed.

Lemma required_index_lt t i : required_index ntrip_required_msgs 0 t = Some i -> (i < 4)%nat.
Proof. cbn. repeat case_if; intros [= <-]; lia. Qed.

Lemma judged_more notes notes' now since acc : (forall n, n ∈ notes -> n ∈ notes') ->
  judged notes now since acc -> judged notes' now since acc.
Proof. intros Hi [Hl Hj]. split; [done|]. intros i age E. destruct (Hj i age E) as (last & ? & ?). eauto. Qed.

Lemma noted_more notes notes' i last : (forall n, n ∈ notes -> n ∈ notes') -> noted notes i last -> noted notes' i last.
Proof. intros Hi [?|?]; [by left|right; auto]. Qed.

Lemma start_of_more starts s epoch : 1 <= epoch <= 1 + zlen starts -> start_of (s :: starts) epoch = start_of starts epoch.
Proof.
  intros He. unfold start_of. rewrite zlen_cons.
  by replace (Z.to_nat (1 + (1 + zlen starts) - epoch)) with (Datatypes.S (Z.to_nat (1 + zlen starts - epoch))) by lia.
Qed.

Lemma start_of_current starts : start_of starts (1 + zlen starts) = default 0 (head starts).
Proof. unfold start_of. replace (Z.to_nat _) with 0%nat by lia. by destruct starts. Qed.

(** The reader's facts survive what the other tasks do. *)
Lemma fresh_ok_more clock clock' m m' notes notes' starts pc :
  clock <= clock' -> m_epoch m = m_epoch m' ->
  m_epoch_started_ms m <= m_epoch_started_ms m' -> (m_epoch_started_ms m' <= clock') ->
  (forall n, n ∈ notes -> n ∈ notes') -> fresh_ok clock m notes starts pc -> fresh_ok clock' m' notes' starts pc.
Proof.
  intros Hc He Hs Hs' Hn. destruct pc; cbn; rewrite <- ?He; try done; [lia|lia|..].
  - intros (? & ? & ?). split_and!; try lia. by eapply judged_more.
  - intros (? & ? & ? & ?). split_and!; try lia; [by eapply judged_more|by eapply noted_more].
  - intros (since & ? & ? & ?). exists since. split_and!; try lia. by eapply judged_more.
Qed.

Lemma budget_range i : 0 <= nth i s_required_budget_ms 0 <= 30000.
Proof. destruct i as [|[|[|[|[|i]]]]]; cbn; lia. Qed.

Lemma judge_type_backed notes now epoch since last tag i age :
  0 <= now < 2 ^ 31 -> 0 <= since < 2 ^ 31 -> noted notes i last -> 0 <= last < 2 ^ 31 ->
  judge_type now epoch since last tag i = (age, true) ->
  (i, last) ∈ notes /\ since < last <= now /\ now - last <= nth i s_required_budget_ms 0.
Proof.
  intros Hn Hs Hl Hr. unfold judge_type. pose proof (budget_range i) as Hb.
  rewrite i32_small by lia. destruct (tag =? epoch); [|done]. destruct (Z.ltb_spec 0 (last - since)); [|done].
  cbn [andb]. revert Hb. generalize (nth i s_required_budget_ms 0). intros budget Hb [= _ Ha]. apply Z.leb_le in Ha.
  assert (last <= now).
  { destruct (Z.le_gt_cases last now); [done|]. exfalso.
    assert (u32 (now - last) = now - last + 2 ^ 32) as E; [|lia].
    unfold u32. symmetry. apply (Z.mod_unique_pos _ _ (-1)); lia. }
  rewrite u32_small in Ha by lia. split_and!; try lia. by destruct Hl as [->|]; [lia|].
Qed.

Lemma judged_next notes now epoch since last tag acc :
  0 <= now < 2 ^ 31 -> 0 <= since < 2 ^ 31 -> judged notes now since acc -> (length acc < 4)%nat ->
  noted notes (length acc) last -> 0 <= last < 2 ^ 31 ->
  judged notes now since (acc ++ [judge_type now epoch since last tag (length acc)]).
Proof.
  intros Hn Hs [Hl Hj] H4 Hno Hr. split; [rewrite length_app; cbn; lia|]. intros i age E.
  apply lookup_app_Some in E as [E|[Hi E]]; [by eapply Hj|].
  apply list_lookup_singleton_Some in E as [Hz E].
  assert (i = length acc) as -> by lia. exists last. by eapply judge_type_backed.
Qed.

Lemma next_type_ok clock m notes starts now epoch since acc :
  0 <= now <= clock /\ 1 <= epoch <= m_epoch m /\ 0 <= since <= clock /\ start_of starts epoch <= since ->
  judged notes now since acc -> fresh_ok clock m notes starts (next_type now epoch since acc).
Proof.
  intros (? & ? & ? & ?) Hj. unfold next_type, NTRIP_REQUIRED_MSG_COUNT. pose proof Hj as [Hl _].
  destruct (Nat.ltb_spec (length acc) 4); cbn; [|exists since]; (split_and!; done || lia).
Qed.

Lemma noted_range r i last : race_ok r -> noted (rc_notes r) i last -> 0 <= last < 2 ^ 31.
Proof.
  intros K [->|Hin]; [lia|]. pose proof (ro_notes r K _ _ Hin). pose proof (clock_ms _ (ro_clock r K)). lia.
Qed.

Lemma fresh_step_ok r : race_ok r ->
  fresh_ok (ntrip_now_ms (rc_us r)) (rc_msgs r) (rc_notes r) (rc_starts r) (fresh_step (rc_us r) (rc_msgs r) (rc_fresh r)).
Proof.
  intros K. pose proof (ro_fresh r K) as Hf. destruct (clock_ms _ (ro_clock r K)) as [_ Hc].
  pose proof (ro_epoch r K) as He. pose proof (zlen_nonneg (rc_starts r)) as Hz.
  destruct (ro_started r K) as [Hst Hcur]. destruct (rc_fresh r) as [|now|now epoch|now epoch since acc|now epoch since last acc|now epoch acc|out];
    cbn [fresh_step fresh_ok] in *; try done.
  - lia.
  - rewrite He. split_and!; try lia. rewrite start_of_current. exact Hcur.
  - apply next_type_ok; [lia|]. split; [cbn; lia|]. intros i age. by rewrite lookup_nil.
  - destruct Hf as (Hb & Hj & Hl). split_and!; try apply Hb; try done. by apply (ro_last r K).
  - destruct Hf as (Hb & Hj & Hl & Hno). apply next_type_ok; [done|].
    apply judged_next; try done; [lia|lia|]. by eapply noted_range.
Qed.

Lemma uart_step_ok r mtype m pc note : race_ok r ->
  uart_step (rc_us r) mtype (rc_msgs r) (rc_uart r) = (m, pc, note) ->
  race_ok (mk_race (rc_us r) m pc (rc_reset r) (rc_fresh r)
             (match note with Some n => n :: rc_notes r | None => rc_notes r end) (rc_starts r)).
Proof.
  intros K. pose proof K as [Hclk [Hl1 Hl2] Hlast Hnotes Hep Hst Hu Hr Hf]. destruct (clock_ms _ Hclk) as [_ Hc].
  assert (Hsame : forall (m' : msgs_t) (notes' : list (nat * Z)), m_epoch m' = m_epoch (rc_msgs r) ->
    m_epoch_started_ms m' = m_epoch_started_ms (rc_msgs r) -> (forall n, n ∈ rc_notes r -> n ∈ notes') ->
    reset_ok (ntrip_now_ms (rc_us r)) m' (rc_reset r) /\
    fresh_ok (ntrip_now_ms (rc_us r)) m' notes' (rc_starts r) (rc_fresh r)).
  { intros m' notes' E1 E2 Hi. split.
    - destruct (rc_reset r); cbn in *; rewrite ?E1, ?E2; done.
    - eapply (fresh_ok_more _ _ (rc_msgs r)); rewrite ?E1, ?E2; try done; lia. }
  destruct (rc_uart r) as [| | |now|now i|now i epoch]; cbn [uart_step uart_ok] in *.
  - intros [= <- <- <-]. destruct (Hsame (rc_msgs r) (rc_notes r)) as []; [done..|].
    constructor; cbn; auto. by case_match.
  - intros [= <- <- <-]. destruct (Hsame ((rc_msgs r) <| m_ingest_reset_req := false |>) (rc_notes r)) as []; [done..|].
    by constructor.
  - intros [= <- <- <-]. constructor; cbn; auto; lia.
  - destruct mtype as [t|]; [|intros [= <- <- <-]; by constructor].
    destruct (required_index ntrip_required_msgs 0 t) as [i|] eqn:Ei; [|intros [= <- <- <-]; by constructor].
    apply required_index_lt in Ei. intros [= <- <- <-]. set (m' := _ <| m_last_ms := _ |>).
    destruct (Hsame m' ((i, now) :: rc_notes r)) as []; [done|done|set_solver|].
    constructor; cbn [rc_us rc_msgs rc_uart rc_reset rc_fresh rc_notes rc_starts]; auto; try done.
    + cbn. by rewrite length_insert.
    + intros j Hj. cbn. destruct (decide (i = j)) as [->|].
      * rewrite nth_insert_eq by lia. right. set_solver.
      * rewrite nth_insert_ne by done. eapply noted_more; [|by apply Hlast]. set_solver.
    + intros j last [[= -> ->]|Hin]%elem_of_cons; [lia|by eapply Hnotes].
  - intros [= <- <- <-]. by constructor.
  - intros [= <- <- <-]. set (m' := _ <| m_epoch_tag := _ |>).
    destruct (Hsame m' (rc_notes r)) as []; [done..|].
    constructor; cbn [rc_us rc_msgs rc_uart rc_reset rc_fresh rc_notes rc_starts]; auto; try done.
    + cbn. by rewrite length_insert.
    + cbn. lia.
Qed.

Lemma reset_step_ok r m pc begins : race_ok r -> zlen (rc_starts r) + 2 < 2 ^ 32 ->
  reset_step (rc_us r) (rc_msgs r) (rc_reset r) = (m, pc, begins) ->
  race_ok (mk_race (rc_us r) m (rc_uart r) pc (rc_fresh r) (rc_notes r)
             (if begins then m_epoch_started_ms (rc_msgs r) :: rc_starts r else rc_starts r)).
Proof.
  intros K Hb. pose proof K as [Hclk [Hl1 Hl2] Hlast Hnotes Hep [Hst Hcur] Hu Hr Hf]. destruct (clock_ms _ Hclk) as [_ Hc].
  pose proof (zlen_nonneg (rc_starts r)) as Hz.
  destruct (rc_reset r) as [|now| |epoch| | |]; cbn [reset_step reset_ok] in *; try done; intros [= <- <- <-].
  - constructor; cbn; auto; lia.
  - constructor; cbn [rc_us rc_msgs rc_uart rc_reset rc_fresh rc_notes rc_starts]; auto; try done.
    + cbn. unfold current_start in *. cbn. lia.
    + eapply (fresh_ok_more _ _ (rc_msgs r)); cbn; done || lia.
  - constructor; cbn; auto.
  - subst epoch. assert (Eu : u32 (m_epoch (rc_msgs r) + 1) = m_epoch (rc_msgs r) + 1) by (apply u32_small; lia).
    constructor; cbn [rc_us rc_msgs rc_uart rc_reset rc_fresh rc_notes rc_starts]; auto; try done.
    + cbn. rewrite Eu, zlen_cons. lia.
    + assert (Hm : forall now e since, (0 <= now <= ntrip_now_ms (rc_us r) /\ 1 <= e <= m_epoch (rc_msgs r) /\
        0 <= since <= ntrip_now_ms (rc_us r) /\ start_of (rc_starts r) e <= since) ->
        0 <= now <= ntrip_now_ms (rc_us r) /\ 1 <= e <= u32 (m_epoch (rc_msgs r) + 1) /\
        0 <= since <= ntrip_now_ms (rc_us r) /\ start_of (m_epoch_started_ms (rc_msgs r) :: rc_starts r) e <= since).
      { intros now e since (? & ? & ? & ?). rewrite Eu, start_of_more by lia. lia. }
      destruct (rc_fresh r); cbn in *; auto.
      * destruct Hf as (? & ? & ?). auto.
      * destruct Hf as (? & ? & ? & ?). auto 6.
      * destruct Hf as (since & ? & ? & ?). exists since. auto.
  - constructor; cbn; auto. rewrite Hep. by destruct (Z.eqb_spec (1 + zlen (rc_starts r)) 0); [lia|].
  - by constructor.
Qed.

Lemma tick_ok r us : race_ok r -> rc_us r <= us < CLOCK_END_US ->
  race_ok (mk_race us (rc_msgs r) (rc_uart r) (rc_reset r) (rc_fresh r) (rc_notes r) (rc_starts r)).
Proof.
  intros K Hus. pose proof K as [Hclk Hl Hlast Hnotes Hep [Hst Hcur] Hu Hr Hf].
  pose proof (clock_mono (rc_us r) us ltac:(lia) ltac:(lia)) as Hm.
  constructor; cbn [rc_us rc_msgs rc_uart rc_reset rc_fresh rc_notes rc_starts]; auto; try lia.
  - intros i last Hin. specialize (Hnotes i last Hin). lia.
  - split; [lia|done].
  - destruct (rc_uart r); cbn in *; lia.
  - destruct (rc_reset r); cbn in *; done || lia.
  - eapply (fresh_ok_more _ _ (rc_msgs r)); done || lia.
Qed.

Lemma race_step_ok r r' : race_ok r -> zlen (rc_starts r) + 2 < 2 ^ 32 -> rc_us r' < CLOCK_END_US ->
  race_step r r' -> race_ok r'.
Proof.
  intros K Hb Hc. destruct 1 as [r us Hus|r mtype m pc note E|r m pc begins E|r|r out E].
  - apply tick_ok; [done|]. cbn in Hc. lia.
  - by eapply uart_step_ok.
  - by apply reset_step_ok.
  - pose proof (fresh_step_ok r K). by destruct K; constructor.
  - destruct K; by constructor.
Qed.

Lemma race_step_mono r r' : race_step r r' -> zlen (rc_starts r) <= zlen (rc_starts r') /\ rc_us r <= rc_us r'.
Proof. destruct 1; cbn; try lia. case_match; [rewrite zlen_cons|]; lia. Qed.

Lemma race_reachable_ok r : race_reachable r -> zlen (rc_starts r) + 2 < 2 ^ 32 -> rc_us r < CLOCK_END_US -> race_ok r.
Proof.
  revert r. apply (rtc_ind_r (fun r => zlen (rc_starts r) + 2 < 2 ^ 32 -> rc_us r < CLOCK_END_US -> race_ok r) race_boot).
  - intros _ _. constructor; cbn; try done; try lia; [|intros i last; by rewrite elem_of_nil].
    intros [|[|[|[|i]]]]; cbn; try lia; by left.
  - intros r r' R Hs IH Hb Hc. pose proof (race_step_mono _ _ Hs). apply (race_step_ok r); [apply IH; lia|lia|done|done].
Qed.

(** ** A task left alone does what [Ingest] says *)

Lemma race_run_steps acts : forall r, clock_runs acts (rc_us r) = true -> rtc race_step r (race_run acts r).
Proof.
  induction acts as [|a acts IH]; intros r Hc; [apply rtc_refl|]. cbn [race_run].
  assert (race_step r (race_do a r) /\ clock_runs acts (rc_us (race_do a r)) = true) as [Hs Hc'].
  { destruct a as [us|mtype| |]; cbn [clock_runs race_do] in *.
    - apply andb_true_iff in Hc as [Hu Hc]. split; [|done]. apply rs_tick. lia.
    - destruct (uart_step _ _ _ _) as [[m pc] note] eqn:E. split; [by eapply rs_uart|done].
    - destruct (reset_step _ _ _) as [[m pc] begins] eqn:E. split; [by eapply rs_reset|done].
    - split; [apply rs_fresh|done]. }
  eapply rtc_l; [exact Hs|by apply IH].
Qed.

Lemma note_type_index types : forall i t now m, note_type types i t now m =
  match required_index types i t with
  | None => m
  | Some k => m <| m_last_ms := <[k := now]> (m_last_ms m) |> <| m_epoch_tag := <[k := m_epoch m]> (m_epoch_tag m) |>
  end.
Proof. induction types as [|t0 types IH]; intros; cbn [note_type required_index]; [done|]. case_if; [done|apply IH]. Qed.

(** The accesses of a frame's note, of a reset and of a verdict, each without another
    task's access between them, do what the one step of [Ingest] does. *)
Theorem race_alone r :
  (forall now t, rc_uart r = U_chunk now ->
     let acts := match required_index ntrip_required_msgs 0 t with
                 | Some _ => [A_uart (Some t); A_uart None; A_uart None]
                 | None => [A_uart (Some t)]
                 end in
     rc_uart (race_run acts r) = U_chunk now /\
     rc_msgs (race_run acts r) = note_type ntrip_required_msgs 0 t now (rc_msgs r)) /\
  (rc_reset r = R_idle ->
     let acts := repeat A_reset (if u32 (m_epoch (rc_msgs r) + 1) =? 0 then 7 else 6) in
     rc_reset (race_run acts r) = R_idle /\
     rc_msgs (race_run acts r) = ntrip_server_msg_epoch_reset (rc_us r) (rc_msgs r)) /\
  (rc_fresh r = F_idle ->
     rc_fresh (race_run (repeat A_fresh 12) r) =
     F_done (ntrip_server_msg_freshness (rc_us r) (rc_msgs r) (m_epoch (rc_msgs r)))).
Proof.
  destruct r as [us m u rs f notes starts]. cbn [rc_us rc_msgs rc_uart rc_reset rc_fresh]. split_and!.
  - intros now t ->. cbv zeta. rewrite note_type_index.
    destruct (required_index ntrip_required_msgs 0 t) as [i|] eqn:E;
      cbn [race_run race_do rc_us rc_msgs rc_uart rc_reset rc_fresh rc_notes rc_starts uart_step]; rewrite E; done.
  - intros ->. unfold ntrip_server_msg_epoch_reset. cbn [m_epoch upd set_m_epoch set_m_epoch_started_ms].
    destruct (u32 (m_epoch m + 1) =? 0) eqn:E; cbn; rewrite E; done.
  - intros ->. cbn -[u32 i32 ntrip_now_ms]. unfold ntrip_server_msg_freshness, finish, judge_type, msg_age, msg_fresh, msg_in_epoch.
    cbn -[u32 i32 ntrip_now_ms]. rewrite Z.eqb_refl. cbn [negb]. do 2 f_equal; repeat f_equal; repeat case_match; done.
Qed.

(** A good verdict, with what backs it. *)
Lemma fresh_verdict_backed r now epoch acc :
  race_reachable r -> rc_us r < CLOCK_END_US -> zlen (rc_starts r) + 2 < 2 ^ 32 -> rc_fresh r = F_check now epoch acc ->
  f_all_fresh (finish epoch (m_epoch (rc_msgs r)) acc) = true ->
  forall i, (i < 4)%nat -> exists last, (i, last) ∈ rc_notes r /\
    current_start r < last <= now /\ now <= ntrip_now_ms (rc_us r) /\
    now - last <= nth i s_required_budget_ms 0.
Proof.
  intros R Hc Hb Ef. pose proof (race_reachable_ok r R Hb Hc) as [_ _ _ _ Hep _ _ _ Hf]. rewrite Ef in Hf. cbn in Hf.
  destruct Hf as (since & (Hn & He & Hs & Hst) & [_ Hj] & Hl). unfold finish. cbn [f_all_fresh].
  destruct (Z.eqb_spec (m_epoch (rc_msgs r)) epoch) as [E|]; [|done]. cbn [negb]. rewrite forallb_forall.
  intros Hall i Hi. destruct (lookup_lt_is_Some_2 acc i ltac:(lia)) as [[age ok] Ei].
  assert (ok = true) as -> by (apply (Hall (age, ok)), list_elem_of_In, list_elem_of_lookup; eauto).
  destruct (Hj i age Ei) as (last & Hin & Hr & Hbud). rewrite <- E, Hep, start_of_current in Hst.
  unfold current_start. exists last. split_and!; try done; lia.
Qed.

(** A chunk is stamped at 5 ms; a reset begins at 10 ms and its bump falls between the two
    stores of that chunk's 1005, so the old frame carries the new epoch's tag. *)
Definition note_all (types : list Z) : list race_act :=
  concat (map (fun t => [A_uart (Some t); A_uart None; A_uart None]) types).
Definition late_frame : list race_act :=
  [A_tick 5000; A_uart None; A_uart None; A_uart (Some 1005); A_tick 10000] ++ repeat A_reset 6 ++
  [A_uart None; A_uart None] ++ note_all [1033; 1077; 1087] ++ [A_tick 20000] ++ repeat A_fresh 11.

(** The next chunk, stamped at 15 ms, has all four types; its notes and a verdict interleave. *)
Definition new_frames : list race_act :=
  [A_tick 5000; A_uart None; A_uart None; A_uart (Some 1005); A_tick 10000] ++ repeat A_reset 6 ++
  [A_uart None; A_uart None; A_uart None; A_tick 15000] ++ repeat (A_uart None) 3 ++
  note_all [1005; 1033] ++ [A_tick 20000] ++ repeat A_fresh 5 ++ note_all [1077; 1087] ++ repeat A_fresh 6.

Definition verdict_of (r : race) : option bool :=
  match rc_fresh r with F_check _ epoch acc => Some (f_all_fresh (finish epoch (m_epoch (rc_msgs r)) acc)) | _ => None end.

Lemma late_frame_rejected : verdict_of (race_run late_frame race_boot) = Some false /\
  m_epoch_tag (rc_msgs (race_run late_frame race_boot)) = [2; 2; 2; 2].
Proof. split; vm_compute; reflexivity. Qed.

Lemma new_frames_reachable : race_reachable (race_run new_frames race_boot).
Proof. apply race_run_steps. vm_compute. reflexivity. Qed.

(** All four types are noted 5 ms after boot and never again; 2^32 ms later their stamps look
    a millisecond old. *)
Definition silent_notes : list race_act :=
  [A_tick 5000; A_uart None; A_uart None] ++ note_all [1005; 1033; 1077; 1087].
Definition silent_since : list race_act := A_tick ((2 ^ 32 + 6) * 1000) :: repeat A_fresh 11.

(** C12: a good freshness verdict is never the work of a race.  However the three tasks'
    memory accesses interleave, up to 24.8 days after the boot and with fewer than 2^32 - 2
    resets: when the reader's last check passes and every type is judged fresh, a frame
    of each required type was noted whose chunk was read after the epoch current at that
    check began, and not longer ago than the type's budget when the reader took its time.
    So no frame from before a receiver reset, no half-done note and no mixture of two
    epochs makes the stream look healthy.  The bound is needed: the stamps are 32 bits wide,
    and 49.7 days after the last frame of any type a verdict is good. *)
Theorem fresh_verdict_race_free :
  (forall r now epoch acc, race_reachable r -> rc_us r < CLOCK_END_US -> zlen (rc_starts r) + 2 < 2 ^ 32 ->
     rc_fresh r = F_check now epoch acc -> f_all_fresh (finish epoch (m_epoch (rc_msgs r)) acc) = true ->
     forall i, (i < 4)%nat -> exists last, (i, last) ∈ rc_notes r /\
       current_start r < last <= now /\ now <= ntrip_now_ms (rc_us r) /\
       now - last <= nth i s_required_budget_ms 0) /\
  (exists r0 r now epoch acc, race_reachable r0 /\ rtc race_step r0 r /\ rc_notes r = rc_notes r0 /\
     rc_us r = rc_us r0 + (2 ^ 32 + 1) * 1000 /\ rc_fresh r = F_check now epoch acc /\
     f_all_fresh (finish epoch (m_epoch (rc_msgs r)) acc) = true).
Proof.
  split; [exact fresh_verdict_backed|].
  exists (race_run silent_notes race_boot), (race_run silent_since (race_run silent_notes race_boot)).
  exists 6, 1, [(1, true); (1, true); (1, true); (1, true)].
  split_and!; try (apply race_run_steps); vm_compute; reflexivity.
Qed.

Lemma fresh_verdict_race_free_witness :
  exists last, (3%nat, last) ∈ rc_notes (race_run new_frames race_boot) /\ 10 < last <= 20.
Proof.
  destruct (proj1 fresh_verdict_race_free (race_run new_frames race_boot) 20 2 [(5, true); (5, true); (5, true); (5, true)]
    new_frames_reachable ltac:(vm_compute; reflexivity) ltac:(vm_compute; reflexivity) ltac:(vm_compute; reflexivity)
    ltac:(vm_compute; reflexivity) 3%nat ltac:(lia))
    as (last & Hin & Hr & _).
  exists last. split; [exact Hin|]. change (current_start (race_run new_frames race_boot)) with 10 in Hr. exact Hr.
Defined.
