(* ===== verification/NetUtil.v ===== *)
(** * Sockets and HTTP headers (src/main/util.c, src/main/interface/ntrip_util.c)

    C strings are the bytes before the terminator.  The socket calls are the
    environment: [connect_socket] gets the answers of [getaddrinfo], [socket],
    [connect] and [setsockopt] and says which descriptors it opened and closed. *)

From S2P Require Import Prelude.

(** ** Response status *)

Definition str_starts_with (a b : list Z) : bool := bytes_eqb (ztake (zlen b) a) b.

Definition RESP_OK : list Z := Eval compute in of_str "OK".
Definition RESP_ICY : list Z := Eval compute in of_str "ICY 200 OK".
Definition RESP_HTTP : list Z := Eval compute in of_str "HTTP/1.1 200 OK".
Definition RESP_TABLE : list Z := Eval compute in of_str "SOURCETABLE 200 OK".

Definition ntrip_response_ok (response : list Z) : bool :=
  str_starts_with response RESP_OK || str_starts_with response RESP_ICY ||
  str_starts_with response RESP_HTTP.

Definition ntrip_response_sourcetable_ok (response : list Z) : bool :=
  str_starts_with response RESP_HTTP || str_starts_with response RESP_TABLE.

(** ** Header fields *)

Definition isspace (c : Z) : bool := ((9 <=? c) && (c <=? 13)) || (c =? 32).
Definition tolower (c : Z) : Z := if (65 <=? c) && (c <=? 90) then c + 32 else c.

(** [strstr] / [strcasestr]: what stands behind the first occurrence. *)
Fixpoint str_find (norm : Z -> Z) (hay needle : list Z) : option (list Z * list Z) :=
  if bytes_eqb (map norm (ztake (zlen needle) hay)) (map norm needle)
  then Some ([], zdrop (zlen needle) hay)
  else match hay with
       | [] => None
       | c :: hay' => match str_find norm hay' needle with
                      | Some (before, after) => Some (c :: before, after)
                      | None => None
                      end
       end.

Definition CRLF : list Z := [13; 10].

Fixpoint trim_left (l : list Z) : list Z :=
  match l with
  | c :: l' => if isspace c then trim_left l' else l
  | [] => []
  end.
Definition trim_right (l : list Z) : list Z := rev (trim_left (rev l)).

(** [extract_http_header]; [alloc]: [malloc] succeeds. *)
Definition extract_http_header (alloc : bool) (buffer key : list Z) : option (list Z) :=
  if zlen buffer <? zlen key + 2 then None
  else
    match str_find tolower buffer key with
    | None => None
    | Some (_, after) =>
      match str_find (fun c => c) after CRLF with
      | None => None
      | Some (value, _) =>
        let value := trim_right (trim_left value) in
        if zlen value =? 0 then None else if alloc then Some value else None
      end
    end.

(** ** Sockets *)

Definition CONNECT_SOCKET_ERROR_OPTS : Z := -3.
Definition CONNECT_SOCKET_ERROR_RESOLVE : Z := -2.
Definition CONNECT_SOCKET_ERROR_CONNECT : Z := -1.

(** [destroy_socket]: the new value of the variable and the descriptor closed. *)
Definition destroy_socket (sock : Z) : Z * option Z :=
  if sock <? 0 then (sock, None) else (-1, Some sock).

(** One resolved address: what [socket] and [connect] answer. *)
Record addr_answer := mk_answer { aa_socket : Z; aa_connect : Z }.

(** The loop over the addresses: the socket, and the descriptors opened and
    closed on the way. *)
Fixpoint try_addresses (answers : list addr_answer) : Z * list Z * list Z :=
  match answers with
  | [] => (-1, [], [])
  | a :: rest =>
    if aa_socket a <? 0 then try_addresses rest
    else if aa_connect a =? 0 then (aa_socket a, [aa_socket a], [])
    else
      let '(sock, opened, closed) := try_addresses rest in
      (sock, aa_socket a :: opened, aa_socket a :: closed)
  end.

(** The [setsockopt] calls in order, up to the first failure. *)
Definition set_options (opts : list Z) : bool := forallb (fun err => err =? 0) opts.

Record dial_answers := mk_dial {
  da_getaddrinfo : Z; da_addresses : list addr_answer; da_options : list Z
}.

(** [connect_socket]: its result and the descriptors opened and closed. *)
Definition connect_socket (d : dial_answers) : Z * list Z * list Z :=
  if da_getaddrinfo d <? 0 then (CONNECT_SOCKET_ERROR_RESOLVE, [], [])
  else
    let '(sock, opened, closed) := try_addresses (da_addresses d) in
    if sock <? 0 then (CONNECT_SOCKET_ERROR_CONNECT, opened, closed)
    else if set_options (da_options d) then (sock, opened, closed)
    else (CONNECT_SOCKET_ERROR_OPTS, opened, closed ++ [sock]).

(** ** Lemmas *)

Lemma try_addresses_spec answers : forall sock opened closed,
  try_addresses answers = (sock, opened, closed) ->
  (0 <= sock -> opened = closed ++ [sock]) /\ (sock < 0 -> sock = -1 /\ opened = closed).
Proof.
  induction answers as [|[s c] answers IH]; intros sock opened closed; cbn.
  - intros [= <- <- <-]. split; [lia|done].
  - destruct (s <? 0) eqn:Es; [apply IH|]. destruct (c =? 0).
    + intros [= <- <- <-]. split; [done|lia].
    + destruct (try_addresses answers) as [[s' o'] c'] eqn:E. intros [= <- <- <-].
      destruct (IH _ _ _ eq_refl) as [H1 H2]. split; intros H.
      * by rewrite (H1 H).
      * destruct (H2 H) as [-> ->]. done.
Qed.

Lemma str_find_spec norm hay needle : forall before after,
  str_find norm hay needle = Some (before, after) ->
  exists m, hay = before ++ m ++ after /\ map norm m = map norm needle.
Proof.
  induction hay as [|c hay IH]; intros before after; cbn [str_find].
  - destruct (bytes_eqb _ _) eqn:E; [|done]. intros [= <- <-]. apply bytes_eqb_eq in E.
    exists (ztake (zlen needle) []). split; [|done]. by rewrite ztake_zdrop.
  - destruct (bytes_eqb _ _) eqn:E.
    + intros [= <- <-]. apply bytes_eqb_eq in E. exists (ztake (zlen needle) (c :: hay)).
      split; [|done]. by rewrite ztake_zdrop.
    + destruct (str_find norm hay needle) as [[b a]|]; [|done]. intros [= <- <-].
      destruct (IH b a eq_refl) as (m & Hm & Hn). exists m. split; [by rewrite Hm|done].
Qed.

Lemma trim_left_spec l : exists ws, l = ws ++ trim_left l /\ forallb isspace ws = true /\
  (forall c l', trim_left l = c :: l' -> isspace c = false).
Proof.
  induction l as [|c l (ws & Hl & Hw & Hc)]; cbn; [by exists []|].
  destruct (isspace c) eqn:E.
  - exists (c :: ws). cbn. rewrite E, <- Hl. done.
  - exists []. split_and!; try done. by intros ? ? [= <- <-].
Qed.

(** ** Properties *)

(** No descriptor leaks: whatever the resolver and the socket layer answer,
    [connect_socket] closes every descriptor it opened except the one it
    returns, which is then connected and has all its options set; the error
    codes are the three documented ones. *)
Theorem connect_socket_no_leak d :
  let '(sock, opened, closed) := connect_socket d in
  (0 <= sock -> opened = closed ++ [sock] /\ set_options (da_options d) = true) /\
  (sock < 0 -> opened = closed /\
     (sock = CONNECT_SOCKET_ERROR_OPTS \/ sock = CONNECT_SOCKET_ERROR_RESOLVE \/
      sock = CONNECT_SOCKET_ERROR_CONNECT)).
Proof.
  unfold connect_socket, CONNECT_SOCKET_ERROR_OPTS, CONNECT_SOCKET_ERROR_RESOLVE,
    CONNECT_SOCKET_ERROR_CONNECT.
  destruct (da_getaddrinfo d <? 0); [split; [lia|auto]|].
  destruct (try_addresses (da_addresses d)) as [[sock opened] closed] eqn:E.
  destruct (try_addresses_spec _ _ _ _ E) as [H1 H2].
  destruct (sock <? 0) eqn:Es.
  - destruct (H2 ltac:(lia)) as [-> ->]. split; [lia|auto].
  - rewrite (H1 ltac:(lia)). destruct (set_options (da_options d)) eqn:Eo.
    + split; [done|lia].
    + split; [lia|auto].
Qed.

(** A header value is a piece of the message: what [extract_http_header]
    returns is non-empty, starts and ends with a non-space, and stands between
    an occurrence of the key (letters of either case) and the next line end,
    with nothing but white space around it. *)
Theorem extract_http_header_sound alloc buffer key value :
  extract_http_header alloc buffer key = Some value ->
  value <> [] /\ isspace (zget value 0) = false /\
  exists before k ws1 ws2 rest,
    buffer = before ++ k ++ ws1 ++ value ++ ws2 ++ CRLF ++ rest /\
    map tolower k = map tolower key /\
    forallb isspace ws1 = true /\ forallb isspace ws2 = true.
Proof.
  unfold extract_http_header. destruct (_ <? _); [done|].
  destruct (str_find tolower buffer key) as [[before after]|] eqn:E1; [|done].
  destruct (str_find (fun c => c) after CRLF) as [[line rest]|] eqn:E2; [|done].
  destruct (zlen _ =? 0) eqn:E3; [done|]. destruct alloc; [|done]. intros [= Hv].
  apply str_find_spec in E1 as (k & Hb & Hk). apply str_find_spec in E2 as (m & Ha & Hm).
  rewrite !map_id in Hm. subst m.
  destruct (trim_left_spec line) as (ws1 & Hl1 & Hw1 & Hc1).
  destruct (trim_left_spec (rev (trim_left line))) as (ws2 & Hl2 & Hw2 & Hc2).
  assert (Htl : trim_left line = value ++ rev ws2).
  { unfold trim_right in Hv. rewrite <- Hv, <- rev_app_distr, <- Hl2. by rewrite rev_involutive. }
  assert (Hne : value <> []).
  { intros ->. rewrite Hv in E3. done. }
  split_and!; [done| |].
  - destruct value as [|c value]; [done|]. rewrite zget_cons_0. exact (Hc1 c _ Htl).
  - exists before, k, ws1, (rev ws2), rest. split_and!; try done.
    + rewrite Hb, Ha, Hl1, Htl. by rewrite <- !app_assoc.
    + rewrite forallb_forall in *. intros c Hc. apply Hw2. by apply in_rev.
Qed.

Lemma extract_http_header_sound_witness :
  let buffer := of_str "HTTP/1.1 200 OK" ++ CRLF ++ of_str "etag:  abc " ++ CRLF in
  extract_http_header true buffer (of_str "ETag:") = Some (of_str "abc") /\
  of_str "abc" <> [] /\ isspace (zget (of_str "abc") 0) = false.
Proof.
  cbv zeta. assert (H : extract_http_header true
    (of_str "HTTP/1.1 200 OK" ++ CRLF ++ of_str "etag:  abc " ++ CRLF) (of_str "ETag:") = Some (of_str "abc"))
    by (vm_compute; reflexivity).
  split; [exact H|].
  destruct (extract_http_header_sound true _ _ _ H) as (H1 & H2 & _). exact (conj H1 H2).
Defined.
