(* ===== verification/NtripServer.v ===== *)
(** * NTRIP instances (src/main/interface/ntrip_server.c, "NTRIP")

    The registry of instances and the life of one server task: set-up, waiting,
    dialling and handshake, the drain loop, disconnect.  The parts of a turn that
    talk to the network get the answers of the socket calls as arguments. *)

From Stdlib Require Import Sorting.Sorted.
From S2P Require Import Prelude RtcmParser NtripRing NtripTx Retry NetUtil Supervisor Ingest.

Definition MAX_NTRIP_SERVERS : Z := 10.
Definition BUFFER_SIZE : Z := 512.
Definition NTRIP_KEEP_ALIVE_THRESHOLD : Z := 10000.
Definition NTRIP_PROBE_INTERVAL_MS : Z := 2000.
Definition NTRIP_DRAIN_MAX_SPINS : nat := 64.
Definition NTRIP_TX_MAX_SENDS_PER_POLL : Z := 2.
Definition NTRIP_TX_STALE_DROP_MS : Z := 2000.
Definition NTRIP_TX_PROGRESS_TIMEOUT_MS : Z := 5000.
Definition NTRIP_TX_FRAME_DEADLINE_MS : Z := 10000.

(** The three bits of the event group. *)
Record ev_bits := mk_bits {
  eb_caster_ready : bool;
  eb_data_ready : bool;
  eb_data_sent : bool
}.

Definition eta_ev_bits (x : ev_bits) : ev_bits := mk_bits (eb_caster_ready x) (eb_data_ready x) (eb_data_sent
  x).
#[export] Instance set_eb_caster_ready : Setter eb_caster_ready := ltac:(derive_setter eta_ev_bits).
#[export] Instance set_eb_data_ready : Setter eb_data_ready := ltac:(derive_setter eta_ev_bits).
#[export] Instance set_eb_data_sent : Setter eb_data_sent := ltac:(derive_setter eta_ev_bits).

(** [ntrip_instance_t]; handles are present or not, the LED is its [active] flag. *)
Record ntrip_instance_t := mk_inst {
  ni_suffix : list Z;  (* char[4] *)
  ni_index : Z;
  ni_ev : option ev_bits;
  ni_task_server : bool;
  ni_task_sleep : bool;
  ni_sleep_running : bool;  (* resumed *)
  ni_notified : bool;  (* pending task notification *)
  ni_led : option bool;
  ni_stats : bool;
  ni_retry : option retry_delay_t;
  ni_sock : Z;
  ni_keep_alive : Z;  (* int *)
  ni_tx : ntrip_tx_t;
  ni_reconnect_gen : Z  (* uint32_t *)
}.

Definition eta_ntrip_instance_t (x : ntrip_instance_t) : ntrip_instance_t := mk_inst (ni_suffix x) (ni_index
  x) (ni_ev x) (ni_task_server x) (ni_task_sleep x) (ni_sleep_running x) (ni_notified x) (ni_led x) (ni_stats
  x) (ni_retry x) (ni_sock x) (ni_keep_alive x) (ni_tx x) (ni_reconnect_gen x).
#[export] Instance set_ni_suffix : Setter ni_suffix := ltac:(derive_setter eta_ntrip_instance_t).
#[export] Instance set_ni_index : Setter ni_index := ltac:(derive_setter eta_ntrip_instance_t).
#[export] Instance set_ni_ev : Setter ni_ev := ltac:(derive_setter eta_ntrip_instance_t).
#[export] Instance set_ni_task_server : Setter ni_task_server := ltac:(derive_setter eta_ntrip_instance_t).
#[export] Instance set_ni_task_sleep : Setter ni_task_sleep := ltac:(derive_setter eta_ntrip_instance_t).
#[export] Instance set_ni_sleep_running : Setter ni_sleep_running := ltac:(derive_setter eta_ntrip_instance_t).
#[export] Instance set_ni_notified : Setter ni_notified := ltac:(derive_setter eta_ntrip_instance_t).
#[export] Instance set_ni_led : Setter ni_led := ltac:(derive_setter eta_ntrip_instance_t).
#[export] Instance set_ni_stats : Setter ni_stats := ltac:(derive_setter eta_ntrip_instance_t).
#[export] Instance set_ni_retry : Setter ni_retry := ltac:(derive_setter eta_ntrip_instance_t).
#[export] Instance set_ni_sock : Setter ni_sock := ltac:(derive_setter eta_ntrip_instance_t).
#[export] Instance set_ni_keep_alive : Setter ni_keep_alive := ltac:(derive_setter eta_ntrip_instance_t).
#[export] Instance set_ni_tx : Setter ni_tx := ltac:(derive_setter eta_ntrip_instance_t).
#[export] Instance set_ni_reconnect_gen : Setter ni_reconnect_gen := ltac:(derive_setter eta_ntrip_instance_t).

(** [xEventGroupSetBits] and friends on a group that may be missing. *)
Definition set_ev (f : ev_bits -> ev_bits) (inst : ntrip_instance_t) : ntrip_instance_t :=
  match ni_ev inst with
  | Some b => inst <| ni_ev := Some (f b) |>
  | None => inst
  end.

Definition caster_ready (inst : ntrip_instance_t) : bool :=
  match ni_ev inst with Some b => eb_caster_ready b | None => false end.

(** [ntrip_server_update_data_state(inst, bits)] *)
Definition ntrip_server_update_data_state (inst : ntrip_instance_t) (bits : ev_bits)
    : ntrip_instance_t * bool :=
  match ni_ev inst with
  | None => (inst, false)
  | Some _ =>
    let inst := if eb_data_ready bits then inst
                else set_ev (fun b => b <| eb_data_ready := true |>) inst in
    let inst := inst <| ni_keep_alive := 0 |> in
    if negb (eb_caster_ready bits) then (inst, false)
    else
      let inst := if eb_data_sent bits then inst
                  else set_ev (fun b => b <| eb_data_sent := true |>) inst in
      (inst, true)
  end.

Definition ntrip_server_update_keep_alive_counter (inst : ntrip_instance_t) : ntrip_instance_t :=
  if ni_keep_alive inst <? NTRIP_KEEP_ALIVE_THRESHOLD then
    let k := ni_keep_alive inst + NTRIP_KEEP_ALIVE_THRESHOLD / 10 in
    inst <| ni_keep_alive :=
      if NTRIP_KEEP_ALIVE_THRESHOLD <? k then NTRIP_KEEP_ALIVE_THRESHOLD else k |>
  else inst.

Definition ntrip_server_handle_keep_alive_timeout (inst : ntrip_instance_t) : ntrip_instance_t :=
  if NTRIP_KEEP_ALIVE_THRESHOLD <=? ni_keep_alive inst
  then set_ev (fun b => if eb_data_ready b then b <| eb_data_ready := false |> else b) inst
  else inst.

(** [ntrip_server_periodic_monitor]: the new elapsed time and whether it logs. *)
Definition ntrip_server_periodic_monitor (elapsed interval : Z) : Z * bool :=
  let elapsed := elapsed + NTRIP_KEEP_ALIVE_THRESHOLD / 10 in
  if interval <=? elapsed then (0, true) else (elapsed, false).

(** One turn of [ntrip_server_sleep_task]: the instance, the monitor's elapsed
    time, whether the monitor logged. *)
Definition sleep_task_turn (inst : ntrip_instance_t) (elapsed : Z) : ntrip_instance_t * Z * bool :=
  let inst := ntrip_server_update_keep_alive_counter inst in
  let inst := ntrip_server_handle_keep_alive_timeout inst in
  let '(elapsed, logged) := ntrip_server_periodic_monitor elapsed 3600 in
  (inst, elapsed, logged).

(** ** The registry: [g_instances\[0 .. g_instance_count)] *)

(** Remove the first entry that is [inst] (an instance is its index). *)
Fixpoint ntrip_server_deregister_instance (insts : list ntrip_instance_t) (index : Z)
    : list ntrip_instance_t :=
  match insts with
  | [] => []
  | x :: rest => if ni_index x =? index then rest
                 else x :: ntrip_server_deregister_instance rest index
  end.

Definition decimal_digit (n : Z) : Z := 48 + n.

(** "" for the first instance, "_1" to "_9" for the others. *)
Definition inst_suffix (i : Z) : list Z := if 0 <? i then [95; decimal_digit i] else [].

Definition build_key (base suffix : list Z) : list Z := base ++ suffix.

Definition new_instance (i : Z) : ntrip_instance_t :=
  mk_inst (inst_suffix i) i None false false false false None false None (-1) 0 ntrip_tx_init 0.

(** What the environment answers for index [i]: the "active" setting,
    [calloc] and the creation of the task. *)
Record init_answers := mk_init { ia_active : list Z -> bool; ia_calloc : Z -> bool; ia_task : Z -> bool }.

(** One turn of the loop of [ntrip_server_init]. *)
Definition init_instance (a : init_answers) (insts : list ntrip_instance_t) (i : Z)
    : list ntrip_instance_t :=
  if ia_active a (build_key (of_str "ntr_srv_actv") (inst_suffix i)) then
    if ia_calloc a i then
      if zlen insts <? MAX_NTRIP_SERVERS then
        let insts := insts ++ [(new_instance i) <| ni_task_server := ia_task a i |>] in
        if ia_task a i then insts else ntrip_server_deregister_instance insts i
      else insts
    else insts
  else insts.

(** [ntrip_server_init]; [mutexes]: both mutexes exist. *)
Definition ntrip_server_init (mutexes : bool) (a : init_answers) (insts : list ntrip_instance_t)
    : list ntrip_instance_t :=
  if mutexes
  then fold_left (init_instance a) [0; 1; 2; 3; 4; 5; 6; 7; 8; 9] insts
  else insts.

Definition ntrip_server_reconnect_all (insts : list ntrip_instance_t) : list ntrip_instance_t :=
  map (fun inst => inst <| ni_reconnect_gen := u32 (ni_reconnect_gen inst + 1) |>) insts.

(** The wake-up loop of [ntrip_server_ingest_uart], run when frames arrived. *)
Definition wake_instance (inst : ntrip_instance_t) : ntrip_instance_t :=
  match ni_ev inst with
  | None => inst
  | Some bits =>
    let '(inst, connected) := ntrip_server_update_data_state inst bits in
    if connected && ni_task_server inst then inst <| ni_notified := true |> else inst
  end.
Definition wake_all (insts : list ntrip_instance_t) : list ntrip_instance_t := map wake_instance insts.

(** ** The task: set-up and waiting *)

(** What the environment answers during the set-up. *)
Record setup_answers := mk_setup {
  sa_event_group : bool; sa_sleep_task : bool; sa_color_set : bool; sa_led : bool;
  sa_stats : bool; sa_retry : bool
}.

(** [ntrip_server_init_task_context]: [None] when the task ends itself (its
    instance is deregistered in that case). *)
Definition ntrip_server_init_task_context (a : setup_answers) (inst : ntrip_instance_t)
    : option ntrip_instance_t :=
  if negb (sa_event_group a) then None
  else if negb (sa_sleep_task a) then None
  else Some (inst <| ni_ev := Some (mk_bits false false false) |>
                  <| ni_task_sleep := true |>
                  <| ni_led := if sa_color_set a && sa_led a then Some false else None |>
                  <| ni_stats := sa_stats a |>
                  <| ni_retry := retry_init (sa_retry a) true 5 2000 0 |>).

(** [ntrip_server_wait_for_start]: the instance, the back-off slept and whether
    the task had to wait for a frame.  Waiting consumes the bit. *)
Definition ntrip_server_wait_for_start (inst : ntrip_instance_t) : ntrip_instance_t * Z * bool :=
  let '(retry, slept, _) := retry_delay (ni_retry inst) in
  let inst := inst <| ni_retry := retry |> in
  let waits := match ni_ev inst with Some b => negb (eb_data_ready b) | None => false end in
  let inst := if waits then set_ev (fun b => b <| eb_data_ready := false |>) inst else inst in
  let inst := if ni_task_sleep inst then inst <| ni_sleep_running := true |> else inst in
  (inst, slept, waits).

(** ** Dialling and handshake *)

(** The SOURCE request, cut to the buffer as [snprintf] does. *)
Definition source_request (pwd mp version : list Z) : list Z :=
  ztake (BUFFER_SIZE - 1)
    (of_str "SOURCE " ++ pwd ++ of_str " /" ++ mp ++ CRLF ++
     of_str "Source-Agent: NTRIP RTKdata_Server/" ++ version ++ CRLF ++ CRLF).

(** The loop around [write]: the answers of the calls until one is not positive
    or the request is out; the result is what went out. *)
Fixpoint write_request (req_len off : Z) (answers : list Z) : Z :=
  match answers with
  | [] => off
  | w :: rest => if off <? req_len
                 then if w <=? 0 then off else write_request req_len (off + w) rest
                 else off
  end.

(** What the network answers to one dialling attempt. *)
Record handshake_answers := mk_hs {
  hs_dial : dial_answers; hs_malloc : bool; hs_writes : list Z; hs_read : option (list Z);
  hs_header_alloc : bool; hs_nonblocking : bool
}.

(** The bytes up to the first NUL. *)
Fixpoint c_str (l : list Z) : list Z :=
  match l with
  | [] => []
  | c :: l' => if c =? 0 then [] else c :: c_str l'
  end.

(** From [connect_socket] to [ntrip_server_make_nonblocking]: the socket, and
    whether the instance may go on to the drain loop. *)
Definition handshake (h : handshake_answers) (request : list Z) : Z * bool :=
  let '(sock, _, _) := connect_socket (hs_dial h) in
  if sock =? CONNECT_SOCKET_ERROR_RESOLVE then (sock, false)
  else if sock =? CONNECT_SOCKET_ERROR_CONNECT then (sock, false)
  else if negb (hs_malloc h) then (sock, false)
  else if negb (write_request (zlen request) 0 (hs_writes h) =? zlen request) then (sock, false)
  else
    match hs_read h with
    | None => (sock, false)
    | Some [] => (sock, false)
    | Some resp =>
      match extract_http_header (hs_header_alloc h) (c_str resp) [] with
      | None => (sock, false)
      | Some status => (sock, ntrip_response_ok status && hs_nonblocking h)
      end
    end.

(** Connected: accounting first, then the bit becomes visible. *)
Definition enter_connection (inst : ntrip_instance_t) (ring : ntrip_ring_t) (now : Z)
    : ntrip_instance_t :=
  let inst := inst <| ni_tx := ntrip_tx_reset_conn (ni_tx inst) ring now |>
                   <| ni_notified := false |> in
  let inst := set_ev (fun b => b <| eb_caster_ready := true |>) inst in
  match ni_led inst with
  | Some _ => inst <| ni_led := Some true |>
  | None => inst
  end.

(** [ntrip_server_handle_disconnect] *)
Definition ntrip_server_handle_disconnect (inst : ntrip_instance_t) : ntrip_instance_t :=
  let inst := set_ev (fun b => b <| eb_caster_ready := false |> <| eb_data_sent := false |>) inst in
  match ni_led inst with
  | Some _ => inst <| ni_led := Some false |>
  | None => inst
  end.

(** [ntrip_server_cleanup_iteration]: the instance and the descriptor closed. *)
Definition ntrip_server_cleanup_iteration (inst : ntrip_instance_t) : ntrip_instance_t * option Z :=
  let inst := if ni_task_sleep inst then inst <| ni_sleep_running := false |> else inst in
  let '(sock, closed) := destroy_socket (ni_sock inst) in
  (inst <| ni_sock := sock |>, closed).

(** Behind the drain loop. *)
Definition leave_connection (inst : ntrip_instance_t) : ntrip_instance_t * option Z :=
  let tx := ntrip_tx_abort (ni_tx inst) in
  let inst := inst <| ni_tx := tx <| tx_reconnects := u32 (tx_reconnects tx + 1) |> |> in
  ntrip_server_cleanup_iteration (ntrip_server_handle_disconnect inst).

(** ** The drain loop *)

(** [ntrip_server_probe_socket] on the answer of [recv]: the number of bytes, or
    the error number. *)
Inductive recv_answer := Got (n : Z) | Failed (err : Z).

Definition ntrip_server_probe_socket `{Errno} (r : recv_answer) : bool :=
  match r with
  | Got n => negb (n =? 0)
  | Failed err => (err =? EWOULDBLOCK) || (err =? EAGAIN)
  end.

Section Drain.
Context `{Errno} {S : Type} `{Sender S}.

(** The state of the loop: the instance, its socket, [made_progress] and
    [last_probe_ms]. *)
Record drain_state := mk_drain {
  ds_inst : ntrip_instance_t; ds_sock : S; ds_made_progress : bool; ds_last_probe_ms : Z
}.

(** One poll with the back-off reset behind it. *)
Definition drain_poll (ring : ntrip_ring_t) (now : Z) (d : drain_state)
    : drain_state * ntrip_tx_poll_result_t :=
  let before := tx_accepted_to_lwip (ni_tx (ds_inst d)) in
  let '(tx, s, pr) := ntrip_tx_poll (ni_tx (ds_inst d)) ring now NTRIP_TX_MAX_SENDS_PER_POLL
                        NTRIP_TX_STALE_DROP_MS (ds_sock d) in
  let inst := (ds_inst d) <| ni_tx := tx |> in
  if (before <? tx_accepted_to_lwip tx) && negb (ds_made_progress d)
  then (mk_drain (inst <| ni_retry := retry_reset (ni_retry inst) |>) s true (ds_last_probe_ms d), pr)
  else (mk_drain inst s (ds_made_progress d) (ds_last_probe_ms d), pr).

(** The [do ... while]: [spins] more turns are allowed; [rings] is the ring as
    each turn finds it (the UART path pushes in between). *)
Fixpoint drain_spins (spins : nat) (rings : nat -> ntrip_ring_t) (now : Z) (d : drain_state)
    : drain_state * ntrip_tx_poll_result_t :=
  let '(d, pr) := drain_poll (rings spins) now d in
  match spins with
  | O => (d, pr)
  | Datatypes.S spins' =>
    match pr with
    | NTRIP_TX_POLL_PROGRESS => drain_spins spins' rings now d
    | _ => (d, pr)
    end
  end.

(** What one turn of the drain loop meets: the ring at each poll, the two
    readings of the clock and the answer of the probe, if it is made. *)
Record turn_env := mk_turn {
  te_rings : nat -> ntrip_ring_t; te_now : Z; te_now2 : Z; te_probe : recv_answer
}.

(** One turn of the loop body: the state and whether the loop goes on. *)
Definition drain_turn (e : turn_env) (d : drain_state) : drain_state * bool :=
  let d := mk_drain ((ds_inst d) <| ni_notified := false |>) (ds_sock d) (ds_made_progress d)
             (ds_last_probe_ms d) in
  let '(d, pr) := drain_spins (NTRIP_DRAIN_MAX_SPINS - 1) (te_rings e) (te_now e) d in
  let tx := ni_tx (ds_inst d) in
  match pr with
  | NTRIP_TX_POLL_ERROR => (d, false)
  | _ =>
    if ntrip_tx_stalled tx (te_now e) NTRIP_TX_PROGRESS_TIMEOUT_MS then (d, false)
    else if ntrip_tx_frame_overdue tx (te_now e) NTRIP_TX_FRAME_DEADLINE_MS then (d, false)
    else if NTRIP_PROBE_INTERVAL_MS <=? u32 (te_now2 e - ds_last_probe_ms d)
    then (mk_drain (ds_inst d) (ds_sock d) (ds_made_progress d) (te_now2 e),
          ntrip_server_probe_socket (te_probe e))
    else (d, true)
  end.

(** [while (inst->reconnect_gen == conn_gen)]: before each turn, [reqs] requests
    of other tasks arrive. *)
Fixpoint drain_loop (turns : list (turn_env * Z)) (conn_gen : Z) (d : drain_state)
    : drain_state * bool :=
  match turns with
  | [] => (d, true)
  | (e, reqs) :: rest =>
    let inst := (ds_inst d) <| ni_reconnect_gen := u32 (ni_reconnect_gen (ds_inst d) + reqs) |> in
    let d := mk_drain inst (ds_sock d) (ds_made_progress d) (ds_last_probe_ms d) in
    if ni_reconnect_gen inst =? conn_gen then
      let '(d, go_on) := drain_turn e d in
      if go_on then drain_loop rest conn_gen d else (d, false)
    else (d, false)
  end.

(** One whole iteration of [ntrip_server_task] behind the waiting phase: dial,
    drain until the connection ends, clean up.  [gen_reqs] requests arrive
    during DNS and handshake.  [None]: the connection outlives [turns]. *)
Definition task_iteration (h : handshake_answers) (request : list Z) (s : S) (ring : ntrip_ring_t)
    (now probe_now gen_reqs : Z) (turns : list (turn_env * Z)) (inst : ntrip_instance_t)
    : option (ntrip_instance_t * option Z * S) :=
  let conn_gen := ni_reconnect_gen inst in
  let '(sock, ok) := handshake h request in
  let inst := inst <| ni_sock := sock |>
                   <| ni_reconnect_gen := u32 (ni_reconnect_gen inst + gen_reqs) |> in
  if negb ok then
    let '(inst, closed) := ntrip_server_cleanup_iteration inst in Some (inst, closed, s)
  else
    let inst := enter_connection inst ring now in
    match drain_loop turns conn_gen (mk_drain inst s false probe_now) with
    | (_, true) => None
    | (d, false) =>
      let '(inst, closed) := leave_connection (ds_inst d) in Some (inst, closed, ds_sock d)
    end.
End Drain.

(** ** Diagnostics *)

Record ntrip_ingest_stats_t := mk_ingest_stats {
  is_frames_ok : Z; is_bytes_ok : Z; is_bytes_discarded : Z; is_crc_errors : Z;
  is_ring_pushed_frames : Z; is_ring_cum_bytes : Z
}.

Definition ntrip_server_ingest_stats (g : ingest_t) : ntrip_ingest_stats_t :=
  mk_ingest_stats (p_frames_ok (in_parser g)) (p_bytes_ok (in_parser g))
    (p_bytes_discarded (in_parser g)) (p_crc_errors (in_parser g))
    (r_pushed_frames (in_ring g)) (r_cum_bytes (in_ring g)).

Record ntrip_tx_totals_t := mk_totals {
  to_frames_ok : Z; to_bytes_ok : Z; to_bytes_discarded : Z; to_crc_errors : Z;
  to_accepted_to_lwip : Z; to_sent_frames : Z; to_dropped_bytes : Z; to_skipped_bytes : Z;
  to_dropped_stale_bytes : Z; to_eagain_count : Z; to_reconnects : Z; to_max_queue_age_ms : Z;
  to_instances : Z; to_connected : Z; to_req_fresh : bool; to_req_missing : Z
}.

(** The part [ntrip_server_tx_totals] fills in before it takes the registry. *)
Definition totals_ingest (ing : ntrip_ingest_stats_t) (fresh : ntrip_msg_freshness_t)
    : ntrip_tx_totals_t :=
  mk_totals (is_frames_ok ing) (is_bytes_ok ing) (is_bytes_discarded ing) (is_crc_errors ing)
    0 0 0 0 0 0 0 0 0 0 (f_all_fresh fresh) (zlen (List.filter negb (f_fresh fresh))).

(** The loop body of [ntrip_server_tx_totals]. *)
Definition add_totals (o : ntrip_tx_totals_t) (inst : ntrip_instance_t) : ntrip_tx_totals_t :=
  let tx := ni_tx inst in
  mk_totals (to_frames_ok o) (to_bytes_ok o) (to_bytes_discarded o) (to_crc_errors o)
    (u64 (to_accepted_to_lwip o + tx_accepted_to_lwip tx))
    (u64 (to_sent_frames o + tx_sent_frames tx))
    (u64 (to_dropped_bytes o + tx_dropped_bytes tx))
    (u64 (to_skipped_bytes o + tx_skipped_bytes tx))
    (u64 (to_dropped_stale_bytes o + tx_dropped_stale_bytes tx))
    (u64 (to_eagain_count o + tx_eagain_count tx))
    (u32 (to_reconnects o + tx_reconnects tx))
    (if to_max_queue_age_ms o <? tx_max_queue_age_ms tx then tx_max_queue_age_ms tx
     else to_max_queue_age_ms o)
    (u32 (to_instances o + 1))
    (if caster_ready inst then u32 (to_connected o + 1) else to_connected o)
    (to_req_fresh o) (to_req_missing o).

(** [registry] is the list of instances once [g_instances_mutex] exists. *)
Definition ntrip_server_tx_totals (g : ingest_t) (fresh : ntrip_msg_freshness_t)
    (registry : option (list ntrip_instance_t)) : ntrip_tx_totals_t :=
  let o := totals_ingest (ntrip_server_ingest_stats g) fresh in
  match registry with
  | None => o
  | Some insts => fold_left add_totals insts o
  end.

(** One entry of [ntrip_server_tx_stats]: index, connected, counters. *)
Record ntrip_tx_stats_t := mk_stats {
  st_index : Z; st_connected : bool; st_tx : ntrip_tx_t; st_pending : Z
}.
Definition ntrip_server_tx_stats (insts : list ntrip_instance_t) (max : Z) : list ntrip_tx_stats_t :=
  map (fun inst => mk_stats (ni_index inst) (caster_ready inst) (ni_tx inst)
                            (ntrip_tx_pending (ni_tx inst))) (ztake max insts).

(** ** Specification *)

(** An instance between two connections. *)
Definition idle (inst : ntrip_instance_t) : Prop :=
  ni_sock inst < 0 /\ caster_ready inst = false /\
  tx_current_len (ni_tx inst) <= tx_current_off (ni_tx inst) /\
  (ni_task_sleep inst = true -> ni_sleep_running inst = false) /\ ni_led inst <> Some true.

(** Sleep-task turns without data in between. *)
Fixpoint sleep_turns (n : nat) (inst : ntrip_instance_t) (elapsed : Z) : ntrip_instance_t * list bool :=
  match n with
  | O => (inst, [])
  | Datatypes.S n' =>
    let '(inst, elapsed, logged) := sleep_task_turn inst elapsed in
    let '(inst, logs) := sleep_turns n' inst elapsed in (inst, logged :: logs)
  end.

(** ** Lemmas: what a poll accepts is on the wire *)

Lemma abort_empty tx :
  tx_current_len (ntrip_tx_abort tx) = 0 /\ tx_current_off (ntrip_tx_abort tx) = 0 /\
  tx_accepted_to_lwip (ntrip_tx_abort tx) = tx_accepted_to_lwip tx.
Proof. unfold ntrip_tx_abort. case_if; done. Qed.

Lemma take_keeps_accepted fuel : forall tx ring now stale,
  tx_accepted_to_lwip (tx_take fuel tx ring now stale).1 = tx_accepted_to_lwip tx.
Proof.
  induction fuel as [|fuel IH]; intros; cbn; [done|].
  repeat case_if; try done. rewrite IH. done.
Qed.

Lemma copy_keeps_accepted tx ring now stale :
  tx_accepted_to_lwip (tx_copy_next tx ring now stale).1 = tx_accepted_to_lwip tx.
Proof. unfold tx_copy_next. rewrite take_keeps_accepted. unfold tx_jump. case_if; done. Qed.

Section DrainSpec.
Context `{Errno} {S : Type} `{SenderOk S}.

(** What a piece of the drain loop does to the wire and to the accepted count. *)
Definition wire_step (tx q : ntrip_tx_t) (s s' : S) : Prop :=
  exists sent, wire s' = wire s ++ sent /\
    (sent = [] -> tx_accepted_to_lwip q = tx_accepted_to_lwip tx).

Lemma wire_step_refl tx q s : tx_accepted_to_lwip q = tx_accepted_to_lwip tx -> wire_step tx q s s.
Proof. exists []. rewrite app_nil_r. done. Qed.

Lemma wire_step_trans tx q r s s' s'' :
  wire_step tx q s s' -> wire_step q r s' s'' -> wire_step tx r s s''.
Proof.
  intros (a & Ha & Ea) (b & Hb & Eb). exists (a ++ b). rewrite Hb, Ha, app_assoc. split; [done|].
  intros [-> ->]%app_eq_nil. by rewrite Eb, Ea.
Qed.

Lemma send_once_wire tx now s :
  let '(q, s', _) := tx_send_once tx now s in wire_step tx q s s'.
Proof.
  unfold tx_send_once. set (buf := ztake _ _). destruct (send s buf) as [[s' n] err] eqn:E.
  pose proof (send_le s buf s' n err E) as Hle. pose proof (send_wire s buf s' n err E) as Hw.
  unfold wire_step. destruct (0 <? n) eqn:En.
  - exists (ztake n buf). split; [exact Hw|]. intros Hnil. exfalso.
    pose proof (zlen_ztake_le n buf ltac:(lia)) as Hl. rewrite Hnil, zlen_nil in Hl. lia.
  - assert (Hw0 : wire s' = wire s).
    { rewrite Hw. unfold ztake. replace (Z.to_nat n) with 0%nat by lia. apply app_nil_r. }
    destruct (_ && _); exists []; rewrite app_nil_r; split; try done. intros _.
    by destruct (abort_empty (tx <| tx_last_sock_errno := if n <? 0 then err else ECONNRESET |>))
      as (_ & _ & ->).
Qed.

Lemma round_wire tx ring now stale s :
  let '(q, s', _) := tx_round tx ring now stale s in wire_step tx q s s'.
Proof.
  unfold tx_round. case_if; [|apply send_once_wire].
  pose proof (copy_keeps_accepted tx ring now stale) as Hc.
  destruct (tx_copy_next tx ring now stale) as [q b]. cbn in Hc. destruct b.
  - pose proof (send_once_wire q now s) as Hs. destruct (tx_send_once q now s) as [[q2 s'] r].
    eapply wire_step_trans; [by apply (wire_step_refl tx q)|exact Hs].
  - by apply wire_step_refl.
Qed.

Lemma rounds_wire n : forall tx ring now stale s res,
  let '(q, s', _) := tx_rounds n tx ring now stale s res in wire_step tx q s s'.
Proof.
  induction n as [|n IH]; intros; cbn [tx_rounds]; [by apply wire_step_refl|].
  pose proof (round_wire tx ring now stale s) as Hr.
  destruct (tx_round tx ring now stale s) as [[q s'] [| | |]]; try exact Hr.
  specialize (IH q ring now stale s' NTRIP_TX_POLL_PROGRESS).
  destruct (tx_rounds n q ring now stale s' NTRIP_TX_POLL_PROGRESS) as [[q2 s2] r2].
  by eapply wire_step_trans.
Qed.

(** The back-off handle is touched only together with the progress flag, and
    that only when something went out. *)
Definition progress_ok (d d' : @drain_state S) : Prop :=
  (exists sent, wire (ds_sock d') = wire (ds_sock d) ++ sent /\
     (ds_made_progress d = false -> ds_made_progress d' = true -> sent <> [])) /\
  (ds_made_progress d = true -> ds_made_progress d' = true) /\
  ni_retry (ds_inst d') =
    (if ds_made_progress d' && negb (ds_made_progress d)
     then retry_reset (ni_retry (ds_inst d)) else ni_retry (ds_inst d)).

Lemma progress_trans a b c : progress_ok a b -> progress_ok b c -> progress_ok a c.
Proof.
  intros ((x & Hx & Ex) & Mx & Rx) ((y & Hy & Ey) & My & Ry). split_and!.
  - exists (x ++ y). rewrite Hy, Hx, app_assoc. split; [done|]. intros Ha Hc [-> ->]%app_eq_nil.
    destruct (ds_made_progress b) eqn:Eb; [by apply Ex|by apply Ey].
  - auto.
  - rewrite Ry, Rx. destruct (ds_made_progress a), (ds_made_progress b), (ds_made_progress c); cbn; try done;
      by (specialize (Mx eq_refl) || specialize (My eq_refl)).
Qed.

Lemma progress_same d d' :
  ds_sock d' = ds_sock d -> ds_made_progress d' = ds_made_progress d ->
  ni_retry (ds_inst d') = ni_retry (ds_inst d) -> progress_ok d d'.
Proof.
  intros E1 E2 E3. split_and!.
  - exists []. rewrite E1, E2, app_nil_r. split; [done|]. congruence.
  - congruence.
  - rewrite E2, E3. by destruct (ds_made_progress d).
Qed.

Lemma drain_poll_ok ring now d : progress_ok d (drain_poll ring now d).1.
Proof.
  unfold drain_poll, ntrip_tx_poll.
  pose proof (rounds_wire (Z.to_nat NTRIP_TX_MAX_SENDS_PER_POLL) (ni_tx (ds_inst d)) ring now
    NTRIP_TX_STALE_DROP_MS (ds_sock d) NTRIP_TX_POLL_IDLE) as Hw.
  destruct (tx_rounds _ _ _ _ _ _ _) as [[q s'] pr]. destruct Hw as (sent & Hw & Hs).
  destruct (tx_accepted_to_lwip (ni_tx (ds_inst d)) <? tx_accepted_to_lwip q) eqn:E1,
    (ds_made_progress d) eqn:E2; unfold progress_ok; cbn; rewrite ?E2; split_and!; try done;
    exists sent; split; try done.
  intros _ _ Hn. specialize (Hs Hn). lia.
Qed.

Lemma drain_spins_ok spins rings now : forall d, progress_ok d (drain_spins spins rings now d).1.
Proof.
  induction spins as [|spins IH]; intros d; cbn [drain_spins];
    pose proof (drain_poll_ok (rings 0%nat) now d) as H0p.
  - destruct (drain_poll (rings 0%nat) now d). exact H0p.
  - pose proof (drain_poll_ok (rings (Datatypes.S spins)) now d) as Hp.
    destruct (drain_poll (rings (Datatypes.S spins)) now d) as [d1 pr]. cbn [fst] in Hp.
    destruct pr; try exact Hp. eapply progress_trans; [exact Hp|]. apply IH.
Qed.

Lemma drain_turn_ok e d : progress_ok d (drain_turn e d).1.
Proof.
  unfold drain_turn. set (d1 := mk_drain _ _ _ _).
  pose proof (drain_spins_ok (NTRIP_DRAIN_MAX_SPINS - 1) (te_rings e) (te_now e) d1) as Hp.
  assert (H1s : progress_ok d d1) by (by apply progress_same).
  destruct (drain_spins _ _ _ d1) as [d2 pr]. cbn [fst] in Hp.
  pose proof (progress_trans _ _ _ H1s Hp) as Hq.
  destruct pr; repeat case_if; try exact Hq;
    (eapply progress_trans; [exact Hq|by apply progress_same]).
Qed.

Lemma drain_loop_ok turns conn_gen : forall d, progress_ok d (drain_loop turns conn_gen d).1.
Proof.
  induction turns as [|[e reqs] turns IH]; intros d; cbn [drain_loop]; [by apply progress_same|].
  set (d1 := mk_drain _ _ _ _). assert (H1s : progress_ok d d1) by (by apply progress_same).
  case_if; [|exact H1s]. pose proof (drain_turn_ok e d1) as Ht.
  destruct (drain_turn e d1) as [d2 go]. cbn [fst] in Ht.
  pose proof (progress_trans _ _ _ H1s Ht). destruct go; [|done].
  eapply progress_trans; [done|]. apply IH.
Qed.
End DrainSpec.

(** ** Lemmas: what the drain loop leaves alone *)

Section DrainFrame.
Context `{Errno} {S : Type} `{Sender S}.

Lemma drain_poll_sock ring now (d : @drain_state S) :
  ni_sock (ds_inst (drain_poll ring now d).1) = ni_sock (ds_inst d).
Proof. unfold drain_poll. destruct (ntrip_tx_poll _ _ _ _ _ _) as [[q s] r]. case_if; done. Qed.

Lemma drain_spins_sock spins rings now : forall d : @drain_state S,
  ni_sock (ds_inst (drain_spins spins rings now d).1) = ni_sock (ds_inst d).
Proof.
  induction spins as [|spins IH]; intros d; cbn [drain_spins].
  - pose proof (drain_poll_sock (rings 0%nat) now d) as Hp. by destruct (drain_poll _ _ d).
  - pose proof (drain_poll_sock (rings (Datatypes.S spins)) now d) as Hp.
    destruct (drain_poll _ _ d) as [d1 pr]. cbn [fst] in Hp. destruct pr; try done. by rewrite IH.
Qed.

Lemma drain_turn_sock e (d : @drain_state S) :
  ni_sock (ds_inst (drain_turn e d).1) = ni_sock (ds_inst d).
Proof.
  unfold drain_turn. set (d1 := mk_drain _ _ _ _).
  pose proof (drain_spins_sock (NTRIP_DRAIN_MAX_SPINS - 1) (te_rings e) (te_now e) d1) as Hp.
  destruct (drain_spins _ _ _ d1) as [d2 pr]. cbn [fst] in Hp.
  destruct pr; repeat case_if; exact Hp.
Qed.

Lemma drain_loop_sock turns gen : forall d : @drain_state S,
  ni_sock (ds_inst (drain_loop turns gen d).1) = ni_sock (ds_inst d).
Proof.
  induction turns as [|[e reqs] turns IH]; intros d; cbn [drain_loop]; [done|].
  set (d1 := mk_drain _ _ _ _). case_if; [|done].
  pose proof (drain_turn_sock e d1) as Ht. destruct (drain_turn e d1) as [d2 go]. cbn [fst] in Ht.
  destruct go; [by rewrite IH|done].
Qed.
End DrainFrame.

Lemma cleanup_idle inst :
  caster_ready inst = false -> tx_current_len (ni_tx inst) <= tx_current_off (ni_tx inst) ->
  ni_led inst <> Some true ->
  let '(q, closed) := ntrip_server_cleanup_iteration inst in
  idle q /\ closed = (if ni_sock inst <? 0 then None else Some (ni_sock inst)) /\
  ni_retry q = ni_retry inst /\ ni_tx q = ni_tx inst.
Proof.
  intros Hc Ht Hl. unfold ntrip_server_cleanup_iteration, destroy_socket, idle.
  destruct (ni_task_sleep inst) eqn:Es; cbn; destruct (ni_sock inst <? 0) eqn:E; cbn;
    split_and!; try done; try lia; congruence.
Qed.

Lemma disconnect_ready inst :
  caster_ready (ntrip_server_handle_disconnect inst) = false /\
  ni_led (ntrip_server_handle_disconnect inst) <> Some true /\
  ni_tx (ntrip_server_handle_disconnect inst) = ni_tx inst /\
  ni_sock (ntrip_server_handle_disconnect inst) = ni_sock inst /\
  ni_retry (ntrip_server_handle_disconnect inst) = ni_retry inst.
Proof.
  unfold ntrip_server_handle_disconnect, set_ev, caster_ready.
  destruct (ni_ev inst) eqn:E1; cbn; destruct (ni_led inst) eqn:E2; cbn; rewrite ?E1, ?E2;
    split_and!; try done; congruence.
Qed.

Lemma leave_idle inst :
  let '(q, closed) := leave_connection inst in
  idle q /\ closed = (if ni_sock inst <? 0 then None else Some (ni_sock inst)) /\
  ni_retry q = ni_retry inst /\
  tx_accepted_to_lwip (ni_tx q) = tx_accepted_to_lwip (ni_tx inst).
Proof.
  unfold leave_connection. set (i1 := inst <| ni_tx := _ |>).
  destruct (disconnect_ready i1) as (D1 & D2 & D3 & D4 & D5).
  destruct (abort_empty (ni_tx inst)) as (A1 & A2 & A3).
  pose proof (cleanup_idle (ntrip_server_handle_disconnect i1) D1) as Hc.
  destruct (ntrip_server_cleanup_iteration _) as [q closed].
  destruct Hc as (Hi & -> & -> & ->); [rewrite D3; cbn; lia|done|].
  rewrite D3, D4, D5. split_and!; try done.
Qed.

Lemma enter_keeps inst ring now :
  let q := enter_connection inst ring now in
  ni_sock q = ni_sock inst /\ ni_retry q = ni_retry inst /\
  ni_reconnect_gen q = ni_reconnect_gen inst.
Proof.
  unfold enter_connection, set_ev. cbn. destruct (ni_ev inst); cbn; destruct (ni_led inst); done.
Qed.

(** ** Properties *)

Section TaskSpec.
Context `{Errno} {S : Type} `{SenderOk S}.

(** Every iteration of a server task cleans up after itself, whatever the
    network answers: the socket is closed (exactly once, and only if there is
    one), the instance no longer counts as connected, its LED and its sleep task
    are off and no partial frame is left to be resumed. *)
Theorem iteration_restores_idle h request (s : S) ring now probe_now gen_reqs turns inst inst' closed s' :
  caster_ready inst = false -> ni_led inst <> Some true ->
  tx_current_len (ni_tx inst) <= tx_current_off (ni_tx inst) ->
  task_iteration h request s ring now probe_now gen_reqs turns inst = Some (inst', closed, s') ->
  idle inst' /\
  closed = (if (handshake h request).1 <? 0 then None else Some (handshake h request).1).
Proof.
  intros Hc Hl Ht. unfold task_iteration. destruct (handshake h request) as [sock ok]. cbn [fst].
  set (i1 := inst <| ni_sock := sock |> <| ni_reconnect_gen := _ |>).
  destruct ok; cbn [negb].
  - set (i2 := enter_connection i1 ring now).
    pose proof (drain_loop_sock turns (ni_reconnect_gen inst) (mk_drain i2 s false probe_now)) as Hs.
    destruct (drain_loop turns _ _) as [d go]. cbn [fst ds_inst] in Hs. destruct go; [done|].
    pose proof (leave_idle (ds_inst d)) as Hi. destruct (leave_connection (ds_inst d)) as [q cl].
    destruct Hi as (Hi & -> & _). intros [= <- <- <-]. split; [done|].
    destruct (enter_keeps i1 ring now) as [E _]. fold i2 in E. rewrite Hs, E. done.
  - pose proof (cleanup_idle i1 Hc Ht Hl) as Hi.
    destruct (ntrip_server_cleanup_iteration i1) as [q cl]. destruct Hi as (Hi & -> & _).
    intros [= <- <- <-]. done.
Qed.

(** Back-off discipline: an iteration leaves the retry handle as it was,
    except that it is reset when, and only when, the caster's connection has
    accepted at least one byte; a handshake alone never resets it. *)
Theorem backoff_resets_on_bytes_only h request (s : S) ring now probe_now gen_reqs turns inst inst' closed s' :
  caster_ready inst = false -> ni_led inst <> Some true ->
  tx_current_len (ni_tx inst) <= tx_current_off (ni_tx inst) ->
  task_iteration h request s ring now probe_now gen_reqs turns inst = Some (inst', closed, s') ->
  ni_retry inst' = ni_retry inst \/
  (ni_retry inst' = retry_reset (ni_retry inst) /\ (handshake h request).2 = true /\
   exists sent, sent <> [] /\ wire s' = wire s ++ sent).
Proof.
  intros Hc Hl Ht. unfold task_iteration. destruct (handshake h request) as [sock ok]. cbn [snd].
  set (i1 := inst <| ni_sock := sock |> <| ni_reconnect_gen := _ |>).
  destruct ok; cbn [negb].
  - set (i2 := enter_connection i1 ring now).
    pose proof (drain_loop_ok turns (ni_reconnect_gen inst) (mk_drain i2 s false probe_now)) as Hp.
    destruct (drain_loop turns _ _) as [d go]. cbn [fst] in Hp. destruct go; [done|].
    pose proof (leave_idle (ds_inst d)) as Hi. destruct (leave_connection (ds_inst d)) as [q cl].
    destruct Hi as (_ & _ & Hr & _). intros [= <- <- <-]. rewrite Hr.
    destruct Hp as ((sent & Hw & Hs) & _ & ->). cbn [ds_made_progress ds_inst ds_sock] in *.
    destruct (enter_keeps i1 ring now) as (_ & E2 & _). fold i2 in E2. rewrite E2.
    destruct (ds_made_progress d); cbn [andb negb]; [right|by left].
    split_and!; [done|done|]. exists sent. split; [by apply Hs|done].
  - pose proof (cleanup_idle i1 Hc Ht Hl) as Hi.
    destruct (ntrip_server_cleanup_iteration i1) as [q cl]. destruct Hi as (_ & _ & Hr & _).
    intros [= <- <- <-]. by left.
Qed.

(** C35: a reconnect request is never lost: requests that arrive while the task
    resolves, dials or shakes hands (fewer than 2^32 of them) end the new
    connection before it sends anything. *)
Theorem reconnect_request_survives h request (s : S) ring now probe_now gen_reqs turn turns inst :
  (handshake h request).2 = true -> 0 <= ni_reconnect_gen inst < 2 ^ 32 ->
  0 < gen_reqs < 2 ^ 32 -> snd turn = 0 ->
  exists inst' closed,
    task_iteration h request s ring now probe_now gen_reqs (turn :: turns) inst =
      Some (inst', closed, s) /\ idle inst' /\ ni_retry inst' = ni_retry inst.
Proof.
  intros Hok Hgen Hreq Hturn. unfold task_iteration. destruct (handshake h request) as [sock ok].
  cbn in Hok. subst ok. cbn [negb]. destruct turn as [e reqs]. cbn in Hturn. subst reqs.
  set (i1 := inst <| ni_sock := sock |> <| ni_reconnect_gen := _ |>).
  destruct (enter_keeps i1 ring now) as (E1 & E2 & E3).
  set (i2 := enter_connection i1 ring now) in *. cbn [drain_loop ds_inst].
  set (i3 := i2 <| ni_reconnect_gen := u32 (ni_reconnect_gen i2 + 0) |>).
  assert (Hne : (ni_reconnect_gen i3 =? ni_reconnect_gen inst) = false).
  { change (ni_reconnect_gen i3) with (u32 (ni_reconnect_gen i2 + 0)). rewrite E3, Z.add_0_r.
    change (ni_reconnect_gen i1) with (u32 (ni_reconnect_gen inst + gen_reqs)).
    rewrite u32_idem. apply Z.eqb_neq. intros Heq.
    assert (Hm : (ni_reconnect_gen inst + gen_reqs) mod 2 ^ 32 = ni_reconnect_gen inst) by exact Heq.
    pose proof (Z.div_mod (ni_reconnect_gen inst + gen_reqs) (2 ^ 32) ltac:(lia)). nia. }
  rewrite Hne. cbn [ds_inst ds_sock].
  pose proof (leave_idle i3) as Hi. destruct (leave_connection i3) as [q cl].
  destruct Hi as (Hi & _ & Hr & _). exists q, cl. split_and!; [done|done|]. rewrite Hr. exact E2.
Qed.
End TaskSpec.

(** A handshake that succeeds, and one turn after which the caster has closed. *)
Definition demo_request : list Z := source_request (of_str "pw") (of_str "mp") (of_str "1.1.3").
Definition demo_handshake : handshake_answers :=
  mk_hs (mk_dial 0 [mk_answer 5 0] [0; 0; 0]) true [20; zlen demo_request - 20]
        (Some (of_str "ICY 200 OK" ++ CRLF)) true true.
Definition demo_inst : ntrip_instance_t :=
  (new_instance 0) <| ni_ev := Some (mk_bits false true false) |> <| ni_led := Some false |>
                   <| ni_retry := Some (mk_retry 3 true 5 2000 0 2) |>.
Definition demo_env : turn_env := mk_turn (fun _ => demo_ring) 7 5000 (Got 0).
Definition demo_env2 : turn_env :=
  mk_turn (fun _ => push_all demo_ring [(demo_frame 3, 8)]) 9 5000 (Got 0).

Lemma iteration_restores_idle_witness :
  exists inst' closed s',
    task_iteration demo_handshake demo_request demo_sock demo_ring 7 0 0 [(demo_env, 0)] demo_inst =
      Some (inst', closed, s') /\ idle inst' /\ closed = Some 5.
Proof.
  destruct (task_iteration demo_handshake demo_request demo_sock demo_ring 7 0 0 [(demo_env, 0)]
              demo_inst) as [[[inst' closed] s']|] eqn:E; [|vm_compute in E; discriminate].
  exists inst', closed, s'. split; [reflexivity|].
  destruct (iteration_restores_idle _ _ _ _ _ _ _ _ _ _ _ _ (eq_refl : caster_ready demo_inst = false)
    ltac:(done) ltac:(done) E) as [Hi Hc]. split; [exact Hi|].
  rewrite Hc. vm_compute. reflexivity.
Defined.

Lemma backoff_resets_on_bytes_only_witness :
  exists inst' closed s',
    task_iteration demo_handshake demo_request ([], []) demo_ring 7 0 0 [(demo_env2, 0)] demo_inst =
      Some (inst', closed, s') /\ ni_retry inst' = Some (mk_retry 0 true 5 2000 0 2) /\
    (ni_retry inst' = ni_retry demo_inst \/
     (ni_retry inst' = retry_reset (ni_retry demo_inst) /\ (handshake demo_handshake demo_request).2 = true /\
      exists sent, sent <> [] /\ wire s' = sent)).
Proof.
  destruct (task_iteration demo_handshake demo_request ([], []) demo_ring 7 0 0 [(demo_env2, 0)]
              demo_inst) as [[[inst' closed] s']|] eqn:E; [|vm_compute in E; discriminate].
  exists inst', closed, s'. split; [reflexivity|].
  split; [vm_compute in E; injection E as <- _ _; reflexivity|].
  exact (backoff_resets_on_bytes_only _ _ _ _ _ _ _ _ _ _ _ _
    (eq_refl : caster_ready demo_inst = false) ltac:(done) ltac:(done) E).
Defined.

Lemma reconnect_request_survives_witness :
  exists inst' closed,
    task_iteration demo_handshake demo_request demo_sock demo_ring 7 0 1 [(demo_env, 0)] demo_inst =
      Some (inst', closed, demo_sock) /\ idle inst' /\ ni_retry inst' = ni_retry demo_inst.
Proof.
  apply (reconnect_request_survives demo_handshake demo_request demo_sock demo_ring 7 0 1
           (demo_env, 0) [] demo_inst); [vm_compute; reflexivity|cbn; lia|lia|reflexivity].
Defined.

Lemma deregister_last insts x i :
  ni_index x = i -> Forall (fun y => ni_index y < i) insts ->
  ntrip_server_deregister_instance (insts ++ [x]) i = insts.
Proof.
  intros Hx. induction 1 as [|y insts Hy Hi IH]; cbn; [by rewrite Hx, Z.eqb_refl|].
  destruct (ni_index y =? i) eqn:E; [lia|]. by rewrite IH.
Qed.

Lemma init_loop_spec a idxs : forall insts,
  StronglySorted Z.lt idxs -> Forall (fun i => Forall (fun y => ni_index y < i) insts) idxs ->
  zlen insts + zlen idxs <= MAX_NTRIP_SERVERS ->
  map ni_index (fold_left (init_instance a) idxs insts) =
  map ni_index insts ++
  List.filter (fun i => ia_active a (build_key (of_str "ntr_srv_actv") (inst_suffix i)) &&
                        ia_calloc a i && ia_task a i) idxs.
Proof.
  induction idxs as [|i idxs IH]; intros insts Hs Hlt Hlen; cbn [fold_left List.filter].
  { by rewrite app_nil_r. }
  rewrite zlen_cons in Hlen. pose proof (zlen_nonneg idxs).
  apply StronglySorted_inv in Hs as [Hs Hi]. apply Forall_cons in Hlt as [Hlt1 Hlt].
  unfold init_instance at 2. set (act := ia_active a _).
  destruct act; cbn [andb]; [|apply IH; [done|done|lia]].
  destruct (ia_calloc a i); cbn [andb]; [|apply IH; [done|done|lia]].
  unfold MAX_NTRIP_SERVERS in *. destruct (zlen insts <? 10) eqn:E; [|lia].
  destruct (ia_task a i) eqn:Et; cbn [andb].
  - rewrite IH; [by rewrite map_app, <- app_assoc|done| |rewrite zlen_snoc; lia].
    rewrite Forall_forall in *. intros j Hj. apply Forall_app. split; [by apply Hlt|].
    apply Forall_cons. split; [by apply Hi|by apply Forall_nil].
  - rewrite deregister_last by done. apply IH; [done|done|lia].
Qed.

(** The registry after start-up holds, in ascending order and once each,
    exactly the configured instances whose memory and task could be had; an
    instance whose task could not be created is not left in it. *)
Theorem init_registers_exactly a :
  map ni_index (ntrip_server_init true a []) =
  List.filter (fun i => ia_active a (build_key (of_str "ntr_srv_actv") (inst_suffix i)) &&
                        ia_calloc a i && ia_task a i) [0; 1; 2; 3; 4; 5; 6; 7; 8; 9].
Proof.
  unfold ntrip_server_init. rewrite (init_loop_spec a); [done| | |done].
  - repeat (constructor; [|repeat (apply Forall_cons; split; [lia|]); by apply Forall_nil]). constructor.
  - repeat (apply Forall_cons; split; [by apply Forall_nil|]). by apply Forall_nil.
Qed.

Lemma sleep_turns_from n : forall inst b j elapsed,
  eb_data_ready b = true -> 0 <= j -> elapsed = 1000 * (j mod 4) ->
  ni_keep_alive inst = Z.min 10000 (1000 * j) ->
  ni_ev inst = Some (if j <? 10 then b else b <| eb_data_ready := false |>) ->
  (ni_ev (sleep_turns n inst elapsed).1 =
     Some (if j + Z.of_nat n <? 10 then b else b <| eb_data_ready := false |>)) /\
  (forall i, (i < n)%nat -> nth i (sleep_turns n inst elapsed).2 false = ((j + Z.of_nat i + 1) mod 4 =? 0)).
Proof.
  induction n as [|n IH]; intros inst b j elapsed Hb Hj He Hk Hev.
  { cbn. rewrite Z.add_0_r. split; [done|lia]. }
  cbn [sleep_turns]. unfold sleep_task_turn.
  set (i1 := ntrip_server_update_keep_alive_counter inst).
  assert (K1 : ni_keep_alive i1 = Z.min 10000 (1000 * (j + 1)) /\ ni_ev i1 = ni_ev inst).
  { unfold i1, ntrip_server_update_keep_alive_counter, NTRIP_KEEP_ALIVE_THRESHOLD.
    rewrite Hk. change (10000 / 10) with 1000. destruct (_ <? 10000) eqn:E; cbn; [|split; [lia|done]].
    split; [case_if; lia|done]. }
  destruct K1 as [K1 K2]. set (i2 := ntrip_server_handle_keep_alive_timeout i1).
  assert (K3 : ni_keep_alive i2 = ni_keep_alive i1 /\
    ni_ev i2 = Some (if j + 1 <? 10 then b else b <| eb_data_ready := false |>)).
  { unfold i2, ntrip_server_handle_keep_alive_timeout, NTRIP_KEEP_ALIVE_THRESHOLD, set_ev.
    rewrite K2, K1. destruct (j <? 10) eqn:E3; rewrite Hev;
      destruct (10000 <=? _) eqn:E, (j + 1 <? 10) eqn:E2; try lia; cbn; rewrite ?Hb;
      split; try done; by rewrite K2, Hev. }
  destruct K3 as [K3 K4].
  unfold ntrip_server_periodic_monitor, NTRIP_KEEP_ALIVE_THRESHOLD. change (10000 / 10) with 1000.
  assert (Hm : (3600 <=? elapsed + 1000) = ((j + 1) mod 4 =? 0) /\
    (if 3600 <=? elapsed + 1000 then 0 else elapsed + 1000) = 1000 * ((j + 1) mod 4)).
  { rewrite He. pose proof (Z.mod_pos_bound j 4). pose proof (Z.mod_pos_bound (j + 1) 4).
    assert (Hj4 : (j + 1) mod 4 = if j mod 4 =? 3 then 0 else j mod 4 + 1)
      by (destruct (j mod 4 =? 3) eqn:E; Z.to_euclidean_division_equations; lia).
    rewrite Hj4. destruct (j mod 4 =? 3) eqn:E, (3600 <=? 1000 * (j mod 4) + 1000) eqn:E1; lia. }
  destruct Hm as [Hm1 Hm2].
  assert (Hpair : (if 3600 <=? elapsed + 1000 then (0, true) else (elapsed + 1000, false)) =
    (1000 * ((j + 1) mod 4), (j + 1) mod 4 =? 0)).
  { rewrite <- Hm1, <- Hm2. destruct (3600 <=? elapsed + 1000); done. }
  rewrite Hpair. specialize (IH i2 b (j + 1) _ Hb ltac:(lia) eq_refl ltac:(lia) K4).
  destruct (sleep_turns n i2 (1000 * ((j + 1) mod 4))) as [i3 logs]. cbn [fst snd] in *.
  destruct IH as [IH1 IH2]. replace (j + 1 + Z.of_nat n) with (j + Z.of_nat (S n)) in IH1 by lia.
  split; [exact IH1|]. intros [|i] Hi; cbn [nth].
  - by rewrite Z.add_0_r.
  - rewrite IH2 by lia. f_equal. f_equal. lia.
Qed.

(** The sleep task: an instance that got data and then none stays marked
    "data ready" for nine of its turns and loses the mark in the tenth (turns are
    [NTRIP_KEEP_ALIVE_THRESHOLD / 10] ms apart); its hourly status line comes
    every fourth turn, because the elapsed "seconds" count milliseconds. *)
Theorem sleep_task_timing inst b n :
  ni_ev inst = Some b -> eb_data_ready b = true -> ni_keep_alive inst = 0 ->
  (ni_ev (sleep_turns n inst 0).1 =
     Some (if Z.of_nat n <? 10 then b else b <| eb_data_ready := false |>)) /\
  (forall i, (i < n)%nat -> nth i (sleep_turns n inst 0).2 false = ((Z.of_nat i + 1) mod 4 =? 0)).
Proof.
  intros He Hd Hk. exact (sleep_turns_from n inst b 0 0 Hd (Z.le_refl 0) eq_refl Hk He).
Qed.

Lemma sleep_task_timing_witness :
  let inst := (new_instance 0) <| ni_ev := Some (mk_bits true true false) |> in
  ni_ev (sleep_turns 12 inst 0).1 = Some (mk_bits true false false) /\
  (forall i, (i < 12)%nat -> nth i (sleep_turns 12 inst 0).2 false = ((Z.of_nat i + 1) mod 4 =? 0)).
Proof.
  exact (sleep_task_timing ((new_instance 0) <| ni_ev := Some (mk_bits true true false) |>)
           (mk_bits true true false) 12 eq_refl eq_refl eq_refl).
Defined.

(** The heartbeat's totals are the sums over the registered instances (in
    64 and 32 bits), the number of instances and of connected ones and the
    largest queue age, next to the parser's own counters and the number of
    required message types that are not fresh. *)
Theorem tx_totals_are_sums g fresh insts :
  let o := ntrip_server_tx_totals g fresh (Some insts) in
  let sum f := zsum (map (fun inst => f (ni_tx inst)) insts) in
  to_frames_ok o = p_frames_ok (in_parser g) /\ to_bytes_ok o = p_bytes_ok (in_parser g) /\
  to_req_missing o = zlen (List.filter negb (f_fresh fresh)) /\
  to_accepted_to_lwip o = u64 (sum tx_accepted_to_lwip) /\
  to_sent_frames o = u64 (sum tx_sent_frames) /\
  to_dropped_bytes o = u64 (sum tx_dropped_bytes) /\
  to_skipped_bytes o = u64 (sum tx_skipped_bytes) /\
  to_dropped_stale_bytes o = u64 (sum tx_dropped_stale_bytes) /\
  to_eagain_count o = u64 (sum tx_eagain_count) /\
  to_reconnects o = u32 (sum tx_reconnects) /\
  to_instances o = u32 (zlen insts) /\
  to_connected o = u32 (zlen (List.filter caster_ready insts)) /\
  Forall (fun inst => tx_max_queue_age_ms (ni_tx inst) <= to_max_queue_age_ms o) insts.
Proof.
  cbv zeta. unfold ntrip_server_tx_totals. induction insts as [|x insts IH] using rev_ind.
  { split_and!; try done. }
  rewrite fold_left_app. cbn [fold_left]. 
  destruct IH as (G1 & G2 & G3 & H1 & H2 & H3 & H4 & H5 & H6 & H7 & H8 & H9 & H10).
  set (o := fold_left add_totals insts _) in *. unfold add_totals. cbn -[Z.pow].
  rewrite H1, H2, H3, H4, H5, H6, H7, H8, H9, !map_app, !zsum_app, List.filter_app. cbn [map zsum List.filter].
  rewrite !Z.add_0_r, zlen_snoc, !u64_add_l, !u32_add_l. split_and!; try done.
  - destruct (caster_ready x); [by rewrite zlen_snoc|by rewrite app_nil_r].
  - apply Forall_app. split.
    + eapply Forall_impl; [exact H10|]. cbn. intros y Hy. case_if; lia.
    + apply Forall_cons. split; [case_if; lia|by apply Forall_nil].
Qed.
