(* ===== verification/NtripDrain.v ===== *)
(** * How a connection ends by itself (src/main/interface/ntrip_server.c, drain loop)

    The drain loop of [NtripServer] gives a connection up when its socket takes nothing
    for five seconds with a frame in hand, and when the probe finds the peer gone.  Its
    turns are at most 200 ms and the work of a turn apart, so either happens within a
    turn of its time.  The last theorem is about the clock of a turn, which is read once
    before frames are taken from the ring. *)

From S2P Require Import Prelude RtcmParser NtripRing NtripTx Retry NetUtil NtripServer.

Section Ends.
Context `{Errno} {S : Type} `{Sender S}.

(** The frame in hand, and its clocks. *)
Definition same_frame (tx q : ntrip_tx_t) : Prop :=
  tx_current_len q = tx_current_len tx /\ tx_current_off q = tx_current_off tx /\
  tx_last_progress_ms q = tx_last_progress_ms tx /\ tx_current_received_ms q = tx_current_received_ms tx.

Definition pending (tx : ntrip_tx_t) : Prop := tx_current_off tx < tx_current_len tx.

(** The probe says that the peer is gone. *)
Definition peer_gone (r : recv_answer) : Prop := ntrip_server_probe_socket r = false.

Lemma drain_poll_last_probe ring now (d : @drain_state S) :
  ds_last_probe_ms (drain_poll ring now d).1 = ds_last_probe_ms d.
Proof. unfold drain_poll. destruct (ntrip_tx_poll _ _ _ _ _ _) as [[q s] r]. case_if; done. Qed.

Lemma drain_spins_last_probe spins rings now : forall d : @drain_state S,
  ds_last_probe_ms (drain_spins spins rings now d).1 = ds_last_probe_ms d.
Proof.
  induction spins as [|spins IH]; intros d; cbn [drain_spins].
  - pose proof (drain_poll_last_probe (rings 0%nat) now d) as Hp. by destruct (drain_poll _ _ d).
  - pose proof (drain_poll_last_probe (rings (Datatypes.S spins)) now d) as Hp.
    destruct (drain_poll _ _ d) as [d1 pr]. cbn [fst] in Hp. destruct pr; try done. by rewrite IH.
Qed.

(** A turn that goes on without a good probe did not probe. *)
Lemma turn_without_probe e (d d' : @drain_state S) : peer_gone (te_probe e) -> drain_turn e d = (d', true) ->
  u32 (te_now2 e - ds_last_probe_ms d) < NTRIP_PROBE_INTERVAL_MS /\ ds_last_probe_ms d' = ds_last_probe_ms d.
Proof.
  unfold peer_gone, drain_turn. intros Hp. set (d1 := mk_drain _ _ _ _).
  pose proof (drain_spins_last_probe (NTRIP_DRAIN_MAX_SPINS - 1) (te_rings e) (te_now e) d1) as Hl.
  destruct (drain_spins _ _ _ d1) as [d2 pr]. cbn [fst] in Hl. change (ds_last_probe_ms d1) with (ds_last_probe_ms d) in Hl.
  rewrite Hp, Hl. destruct pr; try done; repeat (case_if; try done); intros [= <-]; (split; [lia|done]).
Qed.

Section Stuck.
Context (stuck : S -> Prop).
Hypothesis stuck_blocks : forall s b, stuck s -> exists s' n err,
  send s b = (s', n, err) /\ n < 0 /\ (err = EAGAIN \/ err = EWOULDBLOCK) /\ stuck s'.

Lemma stuck_poll tx ring now max stale s : 0 < max -> pending tx -> stuck s ->
  exists q s', ntrip_tx_poll tx ring now max stale s = (q, s', NTRIP_TX_POLL_WOULDBLOCK) /\
    same_frame tx q /\ tx_accepted_to_lwip q = tx_accepted_to_lwip tx /\ stuck s'.
Proof.
  intros Hm Hp Hs. unfold ntrip_tx_poll, pending in *. destruct (Z.to_nat max) as [|n] eqn:En; [lia|].
  cbn [tx_rounds]. unfold tx_round. rewrite (proj2 (Z.leb_gt _ _) Hp). unfold tx_send_once.
  destruct (stuck_blocks s (ztake (tx_current_len tx - tx_current_off tx) (zdrop (tx_current_off tx) (tx_current tx))) Hs)
    as (s' & k & err & -> & Hk & Herr & Hs').
  rewrite (proj2 (Z.ltb_ge 0 k)), (proj2 (Z.ltb_lt k 0)) by lia.
  replace ((err =? EAGAIN) || (err =? EWOULDBLOCK)) with true by (destruct Herr; lia).
  cbn [andb]. eexists _, s'. by split_and!.
Qed.

Lemma stuck_spins spins rings now (d : @drain_state S) : pending (ni_tx (ds_inst d)) -> stuck (ds_sock d) ->
  exists d', drain_spins spins rings now d = (d', NTRIP_TX_POLL_WOULDBLOCK) /\
    same_frame (ni_tx (ds_inst d)) (ni_tx (ds_inst d')) /\ stuck (ds_sock d').
Proof.
  intros Hp Hs. destruct spins; cbn [drain_spins]; unfold drain_poll;
    (match goal with |- context [ntrip_tx_poll _ ?r ?t ?m ?st _] =>
       destruct (stuck_poll (ni_tx (ds_inst d)) r t m st (ds_sock d)) as (q & s' & -> & Hf & Ha & Hs') end; [done..|]);
    rewrite Ha, Z.ltb_irrefl; cbn [andb]; eexists; by split_and!.
Qed.

Lemma stuck_turn e (d d' : @drain_state S) : pending (ni_tx (ds_inst d)) -> stuck (ds_sock d) ->
  drain_turn e d = (d', true) ->
  u32 (te_now e - tx_last_progress_ms (ni_tx (ds_inst d))) <= NTRIP_TX_PROGRESS_TIMEOUT_MS /\
  same_frame (ni_tx (ds_inst d)) (ni_tx (ds_inst d')) /\ stuck (ds_sock d').
Proof.
  intros Hp Hs. unfold drain_turn. set (d1 := mk_drain _ _ _ _).
  destruct (stuck_spins (NTRIP_DRAIN_MAX_SPINS - 1) (te_rings e) (te_now e) d1 Hp Hs) as (d2 & -> & Hf & Hs').
  change (ni_tx (ds_inst d1)) with (ni_tx (ds_inst d)) in Hf. destruct Hf as (F1 & F2 & F3 & F4).
  unfold ntrip_tx_stalled at 1. rewrite F1, F2, F3. unfold pending in Hp. rewrite (proj2 (Z.leb_gt _ _) Hp).
  destruct (Z.ltb_spec NTRIP_TX_PROGRESS_TIMEOUT_MS (u32 (te_now e - tx_last_progress_ms (ni_tx (ds_inst d))))); [done|].
  repeat (case_if; try done); intros [= <-]; cbn [ds_inst ds_sock]; by split_and!.
Qed.
End Stuck.

(** C10: a dead connection ends by itself.  Whatever the ring gets meanwhile: with a frame in
    hand and a socket that takes nothing any more, the loop is over at the latest in the first
    turn more than five seconds after the last progress; and when nothing but signs of a
    closed peer is read from the socket, at the latest in the first turn two seconds after
    the last probe. *)
Theorem dead_connection_ends turns gen : forall d : @drain_state S,
  (forall stuck : S -> Prop,
     (forall s b, stuck s -> exists s' n err,
        send s b = (s', n, err) /\ n < 0 /\ (err = EAGAIN \/ err = EWOULDBLOCK) /\ stuck s') ->
     stuck (ds_sock d) -> pending (ni_tx (ds_inst d)) ->
     (exists turn, turn ∈ turns /\
        NTRIP_TX_PROGRESS_TIMEOUT_MS < u32 (te_now turn.1 - tx_last_progress_ms (ni_tx (ds_inst d)))) ->
     (drain_loop turns gen d).2 = false) /\
  (Forall (fun turn => peer_gone (te_probe turn.1)) turns ->
     (exists turn, turn ∈ turns /\ NTRIP_PROBE_INTERVAL_MS <= u32 (te_now2 turn.1 - ds_last_probe_ms d)) ->
     (drain_loop turns gen d).2 = false).
Proof.
  induction turns as [|[e reqs] turns IH]; intros d.
  { split; [intros stuck _ _ _ (t & Ht & _)|intros _ (t & Ht & _)]; by apply elem_of_nil in Ht. }
  cbn [drain_loop]. set (d1 := mk_drain _ _ _ _). split.
  - intros stuck Hst Hs Hp (turn & Ht & Hlate). destruct (_ =? gen); [|done].
    destruct (drain_turn e d1) as [d2 [|]] eqn:E; [|done].
    destruct (stuck_turn stuck Hst e d1 d2 Hp Hs E) as (Hnow & (F1 & F2 & F3 & F4) & Hs2).
    change (ni_tx (ds_inst d1)) with (ni_tx (ds_inst d)) in *.
    apply elem_of_cons in Ht as [->|Ht]; [cbn [fst] in Hlate; lia|].
    destruct (IH d2) as [IH1 _]. apply (IH1 stuck Hst Hs2); [unfold pending in *; lia|].
    exists turn. by rewrite F3.
  - intros Hg (turn & Ht & Hlate). apply Forall_cons in Hg as [Hg Hgs]. destruct (_ =? gen); [|done].
    destruct (drain_turn e d1) as [d2 [|]] eqn:E; [|done].
    destruct (turn_without_probe e d1 d2 Hg E) as [Hnow Hl].
    apply elem_of_cons in Ht as [->|Ht]; [cbn [fst] in Hlate; change (ds_last_probe_ms d1) with (ds_last_probe_ms d) in *; lia|].
    destruct (IH d2) as [_ IH2]. apply (IH2 Hgs). exists turn. by rewrite Hl.
Qed.

(** The clock of a turn is read once.  A frame that the UART task pushes after that, with
    a stamp one or more milliseconds later, has the age [now - received_ms] as an unsigned
    number: it counts as more than two seconds old and is dropped, unsent. *)
Lemma newer_is_stale hist now k :
  0 < (entry_at hist k).2 - now < 2 ^ 32 - NTRIP_TX_STALE_DROP_MS -> is_stale hist now NTRIP_TX_STALE_DROP_MS k = true.
Proof.
  unfold is_stale, NTRIP_TX_STALE_DROP_MS. intros Hk.
  assert (E : u32 (now - (entry_at hist k).2) = now - (entry_at hist k).2 + 2 ^ 32).
  { unfold u32. symmetry. apply (Z.mod_unique_pos _ _ (-1)); lia. }
  rewrite E. replace (2000 <? _) with true by lia. done.
Qed.

Theorem newer_frames_dropped tx r hist now max (s : S) :
  ring_ok r hist -> tx_ok tx hist -> tx_current_len tx <= tx_current_off tx -> 0 < max ->
  ring_oldest_seq r <= tx_cursor_seq tx ->
  (forall k, tx_cursor_seq tx <= k < zlen hist ->
     0 < (entry_at hist k).2 - now < 2 ^ 32 - NTRIP_TX_STALE_DROP_MS) ->
  exists q, ntrip_tx_poll tx r now max NTRIP_TX_STALE_DROP_MS s = (q, s, NTRIP_TX_POLL_IDLE) /\
    tx_cursor_seq q = zlen hist /\
    tx_dropped_frames_stale q = u32 (tx_dropped_frames_stale tx + (zlen hist - tx_cursor_seq tx)).
Proof.
  intros Hok Htx Hidle Hm Hold Hnew. unfold ntrip_tx_poll. destruct (Z.to_nat max) as [|n] eqn:En; [lia|].
  cbn [tx_rounds]. unfold tx_round. rewrite (proj2 (Z.leb_le _ _) Hidle).
  pose proof (tx_copy_next_ok tx r hist now NTRIP_TX_STALE_DROP_MS Hok Htx Hidle) as Hc.
  rewrite Z.max_l in Hc by lia. destruct (tx_copy_next _ _ _ _) as [q b].
  destruct Hc as (_ & (k & Hk & _ & _ & Hcount & Hb) & _).
  destruct b.
  - destruct Hb as (Hlt & Hfresh & _). rewrite newer_is_stale in Hfresh by (apply Hnew; lia). done.
  - destruct Hb as (-> & Hcur & _). exists q. by split_and!.
Qed.
End Ends.

(** The demonstration's socket blocks; the frame in hand made its last progress at 100 ms. *)
Definition blocked_sock : Type := list Z.
#[export] Instance blocked_sender : Sender blocked_sock := fun w _ => (w, -1, EAGAIN).

Definition stuck_inst : ntrip_instance_t :=
  demo_inst <| ni_tx := ntrip_tx_init <| tx_current_len := 25 |> <| tx_current_off := 7 |> <| tx_last_progress_ms := 100 |> |>.
Definition stuck_turn_at (now : Z) : turn_env * Z := (mk_turn (fun _ => ntrip_ring_init) now now (Failed EAGAIN), 0).

Lemma dead_connection_ends_witness :
  (drain_loop (map stuck_turn_at [300; 2500; 5000; 5300; 5500]) 0 (mk_drain stuck_inst ([] : blocked_sock) false 100)).2 = false.
Proof.
  apply (proj1 (dead_connection_ends (map stuck_turn_at [300; 2500; 5000; 5300; 5500]) 0
    (mk_drain stuck_inst ([] : blocked_sock) false 100)) (fun _ => True)).
  - intros s b _. exists s, (-1), EAGAIN. split_and!; [reflexivity|lia|by left|done].
  - done.
  - unfold pending. cbn. lia.
  - exists (stuck_turn_at 5300). split; [apply list_elem_of_In; cbn; tauto|]. vm_compute. reflexivity.
Defined.

(** A frame stamped at 1001 ms, taken in a turn whose clock said 1000. *)
Definition newer_ring : ntrip_ring_t := push_all demo_ring [(demo_frame 3, 1001)].
Lemma newer_frame_example :
  let '(q, s, r) := ntrip_tx_poll (ntrip_tx_reset_conn ntrip_tx_init demo_ring 900) newer_ring 1000 2 NTRIP_TX_STALE_DROP_MS demo_sock in
  s = demo_sock /\ tx_dropped_frames_stale q = 1 /\ tx_cursor_seq q = r_next_seq newer_ring.
Proof. vm_compute. done. Qed.
