(* ===== verification/Nvs.v ===== *)
(** * The key-value flash store as an interface

    ESP-IDF's NVS library is not part of the repository.  What the firmware calls
    of it is the class [Nvs]: the operations over an abstract store.  What it
    relies on is the class [NvsLaws]: a working store whose write calls succeed,
    reads give back what was written under the same namespace and key, and a call
    changes nothing else.  [flash] is a concrete store with these laws, for
    evaluating the clients.  [NvsLaws] idealises: a real store can be full, and a key
    has at most 15 characters.  The clients' definitions handle the errors, and
    theorems about all stores ([Nvs] alone) cover them; those with [NvsLaws] are about
    a store with room.  [NvsFallible] is what is left when any write may fail, and
    [full_flash] a store whose writes all do. *)

From S2P Require Import Prelude.
From stdpp Require Import gmap.
#[local] Open Scope Z_scope.

(** ** Error codes (esp_err.h, nvs.h) *)

Definition ESP_OK : Z := 0.
Definition ESP_FAIL : Z := -1.
Definition ESP_ERR_INVALID_ARG : Z := 258.
Definition ESP_ERR_NVS_NOT_FOUND : Z := 4354.
Definition ESP_ERR_NVS_TYPE_MISMATCH : Z := 4355.
Definition ESP_ERR_NVS_NOT_ENOUGH_SPACE : Z := 4357.
Definition ESP_ERR_NVS_INVALID_LENGTH : Z := 4364.
Definition ESP_ERR_NVS_NO_FREE_PAGES : Z := 4365.
Definition ESP_ERR_NVS_NEW_VERSION_FOUND : Z := 4368.

Definition is_ok (err : Z) : bool := err =? ESP_OK.

(** ** The store *)

(** The integer accessors: [nvs_get_u8], [nvs_get_i8], ... *)
Inductive nvs_int := I8 | I16 | I32 | I64 | U8 | U16 | U32 | U64.
#[export] Instance nvs_int_dec : EqDecision nvs_int.
Proof. solve_decision. Defined.

Definition nvs_in_range (ty : nvs_int) (v : Z) : Prop :=
  match ty with
  | I8 => - 2 ^ 7 <= v < 2 ^ 7 | I16 => - 2 ^ 15 <= v < 2 ^ 15
  | I32 => - 2 ^ 31 <= v < 2 ^ 31 | I64 => - 2 ^ 63 <= v < 2 ^ 63
  | U8 => 0 <= v < 2 ^ 8 | U16 => 0 <= v < 2 ^ 16
  | U32 => 0 <= v < 2 ^ 32 | U64 => 0 <= v < 2 ^ 64
  end.

(** A getter answers an error code and, when it is [ESP_OK], the value.  For a
    string or a blob, [cap] is the size of the caller's buffer and [None] a NULL
    buffer, when the call only reports the length. *)
Class Nvs (St : Type) := {
  nvs_open : string -> bool -> St -> Z * St;
  nvs_get_int : nvs_int -> string -> string -> St -> Z * Z;
  nvs_set_int : nvs_int -> string -> string -> Z -> St -> Z * St;
  nvs_get_str : string -> string -> option Z -> St -> Z * list Z;
  nvs_set_str : string -> string -> list Z -> St -> Z * St;
  nvs_get_blob : string -> string -> option Z -> St -> Z * list Z;
  nvs_set_blob : string -> string -> list Z -> St -> Z * St;
  nvs_erase_key : string -> string -> St -> Z * St;
  nvs_commit : string -> St -> Z * St
}.

Abbreviation nvs_get_u8 := (nvs_get_int U8).
Abbreviation nvs_set_u8 := (nvs_set_int U8).

(** Two stores a reader of [key] in [ns] cannot tell apart. *)
Definition nvs_agree `{Nvs St} (ns key : string) (n n' : St) : Prop :=
  (forall ty, nvs_get_int ty ns key n' = nvs_get_int ty ns key n) /\
  (forall cap, nvs_get_str ns key cap n' = nvs_get_str ns key cap n) /\
  (forall cap, nvs_get_blob ns key cap n' = nvs_get_blob ns key cap n).

(** Whether a buffer of [cap] bytes holds [need]. *)
Definition fits (cap : option Z) (need : Z) : Prop :=
  match cap with None => True | Some c => need <= c end.

(** A key nothing is stored under. *)
Definition nvs_absent `{Nvs St} (ns key : string) (n : St) : Prop :=
  (forall ty, (nvs_get_int ty ns key n).1 = ESP_ERR_NVS_NOT_FOUND) /\
  (forall cap, (nvs_get_str ns key cap n).1 = ESP_ERR_NVS_NOT_FOUND) /\
  (forall cap, (nvs_get_blob ns key cap n).1 = ESP_ERR_NVS_NOT_FOUND).

Class NvsLaws (St : Type) `{Nvs St} := {
  open_rw_ok : forall ns (n : St), (nvs_open ns true n).1 = ESP_OK;
  open_agree : forall ns rw (n : St) ns' key, nvs_agree ns' key n (nvs_open ns rw n).2;
  open_ro_absent : forall ns (n : St) key, (nvs_open ns false n).1 <> ESP_OK -> nvs_absent ns key n;
  get_set_int : forall ty ns key v (n : St), nvs_in_range ty v ->
    (nvs_set_int ty ns key v n).1 = ESP_OK /\
    nvs_get_int ty ns key (nvs_set_int ty ns key v n).2 = (ESP_OK, v);
  set_int_other : forall ty ns key v (n : St) ns' key', (ns, key) <> (ns', key') ->
    nvs_agree ns' key' n (nvs_set_int ty ns key v n).2;
  get_set_str : forall ns key s cap (n : St),
    (nvs_set_str ns key s n).1 = ESP_OK /\
    (fits cap (zlen s + 1) -> nvs_get_str ns key cap (nvs_set_str ns key s n).2 = (ESP_OK, s)) /\
    (~ fits cap (zlen s + 1) ->
     (nvs_get_str ns key cap (nvs_set_str ns key s n).2).1 = ESP_ERR_NVS_INVALID_LENGTH);
  set_str_other : forall ns key s (n : St) ns' key', (ns, key) <> (ns', key') ->
    nvs_agree ns' key' n (nvs_set_str ns key s n).2;
  get_set_blob : forall ns key s cap (n : St),
    (nvs_set_blob ns key s n).1 = ESP_OK /\
    (fits cap (zlen s) -> nvs_get_blob ns key cap (nvs_set_blob ns key s n).2 = (ESP_OK, s));
  set_blob_other : forall ns key s (n : St) ns' key', (ns, key) <> (ns', key') ->
    nvs_agree ns' key' n (nvs_set_blob ns key s n).2;
  get_erase : forall ns key (n : St), nvs_absent ns key (nvs_erase_key ns key n).2;
  erase_other : forall ns key (n : St) ns' key', (ns, key) <> (ns', key') ->
    nvs_agree ns' key' n (nvs_erase_key ns key n).2;
  commit_ok : forall ns (n : St), (nvs_commit ns n).1 = ESP_OK;
  commit_agree : forall ns (n : St) ns' key, nvs_agree ns' key n (nvs_commit ns n).2
}.

#[export] Instance nvs_agree_equiv `{Nvs St} ns key : Equivalence (nvs_agree (St:=St) ns key).
Proof.
  split.
  - by intros n.
  - intros a b (H1 & H2 & H3). split_and!; intros; symmetry; auto.
  - intros a b c (H1 & H2 & H3) (G1 & G2 & G3). split_and!; intros; etrans; eauto.
Qed.

Lemma agree_int `{Nvs St} ns key (n n' : St) ty :
  nvs_agree ns key n n' -> nvs_get_int ty ns key n' = nvs_get_int ty ns key n.
Proof. intros (? & ? & ?). auto. Qed.
Lemma agree_str `{Nvs St} ns key (n n' : St) cap :
  nvs_agree ns key n n' -> nvs_get_str ns key cap n' = nvs_get_str ns key cap n.
Proof. intros (? & ? & ?). auto. Qed.

(** ** A concrete store *)

Inductive flash_val := FInt (ty : nvs_int) (v : Z) | FStr (s : list Z) | FBlob (s : list Z).

Record flash := mk_flash {
  fl_spaces : list string;
  fl_vals : gmap (string * string) flash_val
}.

Definition flash_empty : flash := mk_flash [] ∅.

Definition flash_put ns key v (n : flash) : Z * flash :=
  (ESP_OK, mk_flash (fl_spaces n) (<[(ns, key) := v]> (fl_vals n))).

Definition flash_sized (cap : option Z) (need : Z) (s : list Z) : Z * list Z :=
  match cap with
  | Some c => if need <=? c then (ESP_OK, s) else (ESP_ERR_NVS_INVALID_LENGTH, [])
  | None => (ESP_OK, s)
  end.

#[export] Instance flash_nvs : Nvs flash := {|
  nvs_open ns rw n :=
    if rw then (ESP_OK, mk_flash (ns :: fl_spaces n) (fl_vals n))
    else if decide (map_Forall (fun k _ => k.1 <> ns) (fl_vals n)) then (ESP_ERR_NVS_NOT_FOUND, n)
    else (ESP_OK, n);
  nvs_get_int ty ns key n :=
    match fl_vals n !! (ns, key) with
    | Some (FInt ty' v) => if decide (ty = ty') then (ESP_OK, v) else (ESP_ERR_NVS_NOT_FOUND, 0)
    | _ => (ESP_ERR_NVS_NOT_FOUND, 0)
    end;
  nvs_set_int ty ns key v n := flash_put ns key (FInt ty v) n;
  nvs_get_str ns key cap n :=
    match fl_vals n !! (ns, key) with
    | Some (FStr s) => flash_sized cap (zlen s + 1) s
    | _ => (ESP_ERR_NVS_NOT_FOUND, [])
    end;
  nvs_set_str ns key s n := flash_put ns key (FStr s) n;
  nvs_get_blob ns key cap n :=
    match fl_vals n !! (ns, key) with
    | Some (FBlob s) => flash_sized cap (zlen s) s
    | _ => (ESP_ERR_NVS_NOT_FOUND, [])
    end;
  nvs_set_blob ns key s n := flash_put ns key (FBlob s) n;
  nvs_erase_key ns key n :=
    (match fl_vals n !! (ns, key) with Some _ => ESP_OK | None => ESP_ERR_NVS_NOT_FOUND end,
     mk_flash (fl_spaces n) (delete (ns, key) (fl_vals n)));
  nvs_commit ns n := (ESP_OK, n)
|}.

Lemma flash_lookup_agree ns key (n n' : flash) :
  fl_vals n' !! (ns, key) = fl_vals n !! (ns, key) -> nvs_agree ns key n n'.
Proof. intros E. split_and!; intros; simpl; by rewrite E. Qed.

Lemma flash_put_other ns key v n ns' key' :
  (ns, key) <> (ns', key') -> nvs_agree ns' key' n (flash_put ns key v n).2.
Proof. intros. apply flash_lookup_agree. simpl. by rewrite lookup_insert_ne. Qed.

Lemma flash_absent ns key (n : flash) : fl_vals n !! (ns, key) = None -> nvs_absent ns key n.
Proof. intros E. split_and!; intros; simpl; by rewrite E. Qed.

#[export] Instance flash_laws : NvsLaws flash.
Proof.
  split; try done.
  - intros ns [] n ns' key; [by apply flash_lookup_agree|].
    simpl. by destruct (decide _).
  - intros ns n key. simpl. destruct (decide _) as [F|]; [|done]. intros _.
    apply flash_absent. destruct (fl_vals n !! (ns, key)) eqn:E; [|done].
    by specialize (F _ _ E).
  - intros ty ns key v n _. simpl. rewrite lookup_insert_eq, decide_True by done. done.
  - intros. by apply flash_put_other.
  - intros ns key s cap n. simpl. rewrite lookup_insert_eq. split_and!; [done|..]; unfold flash_sized, fits;
      destruct cap; try done; intros; case_if; try done; lia.
  - intros. by apply flash_put_other.
  - intros ns key s cap n. simpl. rewrite lookup_insert_eq. split; [done|]. unfold flash_sized, fits.
    destruct cap; try done; intros; case_if; try done; lia.
  - intros. by apply flash_put_other.
  - intros. apply flash_absent. simpl. by rewrite lookup_delete_eq.
  - intros. apply flash_lookup_agree. simpl. by rewrite lookup_delete_ne.
Qed.

(** ** Stores that may refuse a write *)

Class NvsFallible (St : Type) `{Nvs St} := {
  fb_open_agree : forall ns rw (n : St) ns' key, nvs_agree ns' key n (nvs_open ns rw n).2;
  fb_open_ro_absent : forall ns (n : St) key, (nvs_open ns false n).1 <> ESP_OK -> nvs_absent ns key n;
  fb_get_set_blob : forall ns key s cap (n : St), (nvs_set_blob ns key s n).1 = ESP_OK ->
    fits cap (zlen s) -> nvs_get_blob ns key cap (nvs_set_blob ns key s n).2 = (ESP_OK, s);
  fb_commit_agree : forall ns (n : St) ns' key, nvs_agree ns' key n (nvs_commit ns n).2
}.

#[export] Instance laws_fallible `{NvsLaws St} : NvsFallible St.
Proof.
  split.
  - apply open_agree.
  - apply open_ro_absent.
  - intros ns key s cap n _. apply get_set_blob.
  - apply commit_agree.
Qed.

(** A store with no room left: it opens and reads, and refuses every write. *)
Record full_flash := mk_full { full_of : flash }.

#[export] Instance full_nvs : Nvs full_flash := {|
  nvs_open ns rw n := let '(e, f) := nvs_open ns rw (full_of n) in (e, mk_full f);
  nvs_get_int ty ns key n := nvs_get_int ty ns key (full_of n);
  nvs_set_int ty ns key v n := (ESP_ERR_NVS_NOT_ENOUGH_SPACE, n);
  nvs_get_str ns key cap n := nvs_get_str ns key cap (full_of n);
  nvs_set_str ns key s n := (ESP_ERR_NVS_NOT_ENOUGH_SPACE, n);
  nvs_get_blob ns key cap n := nvs_get_blob ns key cap (full_of n);
  nvs_set_blob ns key s n := (ESP_ERR_NVS_NOT_ENOUGH_SPACE, n);
  nvs_erase_key ns key n := let '(e, f) := nvs_erase_key ns key (full_of n) in (e, mk_full f);
  nvs_commit ns n := (ESP_OK, n)
|}.

#[export] Instance full_fallible : NvsFallible full_flash.
Proof.
  split; try done.
  - intros ns rw [n] ns' key. pose proof (open_agree ns rw n ns' key) as A. cbn [nvs_open full_nvs full_of].
    by destruct (nvs_open ns rw n).
  - intros ns [n] key. cbn [nvs_open full_nvs full_of]. destruct (nvs_open ns false n) as [e f] eqn:E. cbn [fst].
    intros Hne. apply (open_ro_absent ns n key). by rewrite E.
Qed.
