(* ===== verification/OtaState.v ===== *)
(** * Update state that survives a reboot (src/main/update.c)

    The version order, the download-attempt budget and the boot-loop counter the
    OTA namespace of the flash store holds, and the two tasks that clear them:
    [ota_boot_loop_guard] at boot, [ota_mark_valid_task] and
    [ota_bootloop_clear_task] while running.  The store is the interface [Nvs];
    partition calls are answers. *)

From S2P Require Import Prelude NetUtil Supervisor Ingest NtripServer Nvs.

Definition MIN_OTA_HEAP : Z := 110 * 1024.
Definition OTA_NVS_NS : string := "ota".
Definition OTA_KEY_FAILVER : string := "fail_ver".
Definition OTA_KEY_FAILCNT : string := "fail_cnt".
Definition OTA_KEY_BOOTLOOP : string := "bootloop".
Definition OTA_KEY_PLANNED : string := "planned_rb".
Definition MAX_OTA_ATTEMPTS : Z := 3.
Definition MAX_BOOT_LOOPS : Z := 5.
Definition OTA_CONFIRM_STABLE_N : Z := 3.
Definition OTA_CONFIRM_DEADLINE_MS : Z := 30 * 60 * 1000.
Definition OTA_CONFIRM_MIN_FRAME_DELTA : Z := 10.
Definition OTA_CONFIRM_MIN_BYTE_DELTA : Z := 2048.
Definition OTA_CONFIRM_UNPROV_MS : Z := 10 * 60 * 1000.
Definition OTA_CONFIRM_MIN_HEAP_B : Z := 20480.
Definition FW_VERSION : list Z := Eval compute in of_str "1.1.8".

(** ** Versions *)

Definition is_digit (c : Z) : bool := (48 <=? c) && (c <=? 57).

(** The longest prefix of digits and what follows it. *)
Fixpoint span_digits (s : list Z) : list Z * list Z :=
  match s with
  | c :: s' => if is_digit c then let '(d, r) := span_digits s' in (c :: d, r) else ([], s)
  | [] => ([], [])
  end.

Definition digits_value (d : list Z) : Z := fold_left (fun acc c => acc * 10 + (c - 48)) d 0.

Definition clamp_int (v : Z) : Z := Z.max (- 2 ^ 31) (Z.min (2 ^ 31 - 1) v).

(** One [%d] of [sscanf]: white space, a sign, digits.  A number that does not fit
    saturates (the standard leaves it open). *)
Definition scan_d (s : list Z) : option (Z * list Z) :=
  let s := trim_left s in
  let '(neg, s) := match s with
                   | c :: s' => if c =? 45 then (true, s') else if c =? 43 then (false, s') else (false, s)
                   | [] => (false, [])
                   end in
  match span_digits s with
  | ([], _) => None
  | (d, rest) => Some (clamp_int (if neg then - digits_value d else digits_value d), rest)
  end.

(** [sscanf s "%d.%d. ..."] with [n] conversions: the values it assigns. *)
Fixpoint sscanf_dots (n : nat) (s : list Z) : list Z :=
  match n with
  | O => []
  | Datatypes.S n' =>
    match scan_d s with
    | None => []
    | Some (v, rest) =>
      v :: match rest with
           | c :: rest' => if c =? 46 then sscanf_dots n' rest' else []
           | [] => []
           end
    end
  end.

(** The comparing loop over the components [i]. *)
Fixpoint version_cmp (is_ : list Z) (ca cu : list Z) : bool :=
  match is_ with
  | [] => false
  | i :: is_' =>
    if zget cu i <? zget ca i then true
    else if zget ca i <? zget cu i then false
    else version_cmp is_' ca cu
  end.

Definition ota_version_is_newer (cand cur : list Z) : bool :=
  let ca := sscanf_dots 3 cand in
  let cu := sscanf_dots 3 cur in
  if (zlen ca <? 1) || (zlen cu <? 1) then negb (bytes_eqb cand cur)
  else version_cmp [0; 1; 2] ca cu.

(** ** Attempt budget *)

Section Store.
Context `{Nvs St}.

(** The count recorded for [version]; a getter that fails leaves 0. *)
Definition stored_attempts (version : list Z) (n : St) : Z :=
  let '(e, stored) := nvs_get_str OTA_NVS_NS OTA_KEY_FAILVER (Some 24) n in
  if is_ok e && bytes_eqb stored version then
    let '(e, cnt) := nvs_get_u8 OTA_NVS_NS OTA_KEY_FAILCNT n in if is_ok e then u8 cnt else 0
  else 0.

Definition ota_attempt_allowed (version : list Z) (n : St) : bool * St :=
  let '(e, n) := nvs_open OTA_NVS_NS true n in
  if negb (is_ok e) then (true, n)
  else
    let cnt := stored_attempts version n in
    if MAX_OTA_ATTEMPTS <=? cnt then (false, n)
    else
      let n := (nvs_set_str OTA_NVS_NS OTA_KEY_FAILVER version n).2 in
      let n := (nvs_set_u8 OTA_NVS_NS OTA_KEY_FAILCNT (u8 (cnt + 1)) n).2 in
      let n := (nvs_commit OTA_NVS_NS n).2 in
      (true, n).

Definition ota_attempts_exhausted (version : list Z) (n : St) : bool * St :=
  let '(e, n) := nvs_open OTA_NVS_NS false n in
  if negb (is_ok e) then (false, n)
  else (MAX_OTA_ATTEMPTS <=? stored_attempts version n, n).

(** ** Planned reboots and the boot-loop guard *)

Definition ota_note_planned_reboot (n : St) : St :=
  let '(e, n) := nvs_open OTA_NVS_NS true n in
  if negb (is_ok e) then n
  else
    let n := (nvs_set_u8 OTA_NVS_NS OTA_KEY_PLANNED 1 n).2 in
    (nvs_commit OTA_NVS_NS n).2.

Definition get_u8_or_0 (key : string) (n : St) : Z :=
  let '(e, v) := nvs_get_u8 OTA_NVS_NS key n in if is_ok e then u8 v else 0.
End Store.

(** [esp_reset_reason_t], the values the guard tells apart. *)
Inductive reset_reason :=
  | RST_UNKNOWN | RST_POWERON | RST_EXT | RST_SW | RST_PANIC | RST_INT_WDT | RST_TASK_WDT
  | RST_WDT | RST_DEEPSLEEP | RST_BROWNOUT | RST_SDIO.

(** [esp_ota_img_states_t]. *)
Inductive img_state :=
  | IMG_NEW | IMG_PENDING_VERIFY | IMG_VALID | IMG_INVALID | IMG_ABORTED | IMG_UNDEFINED.

Definition is_pending_verify (s : img_state) : bool :=
  match s with IMG_PENDING_VERIFY => true | _ => false end.

(** The running partition: whether it is the factory app, and its image state
    when [esp_ota_get_state_partition] succeeds. *)
Record running_t := mk_running { run_factory : bool; run_state : option img_state }.

Definition pending_verify (run : option running_t) : bool :=
  match run with
  | Some r => match run_state r with Some s => is_pending_verify s | None => false end
  | None => false
  end.

Definition crash_like (rr : reset_reason) (planned just_installed : bool) : bool :=
  match rr with
  | RST_PANIC | RST_INT_WDT | RST_TASK_WDT | RST_WDT | RST_BROWNOUT | RST_UNKNOWN => true
  | RST_SW => negb planned && negb just_installed
  | _ => false
  end.

(** What a boot finds: the reset reason, the running partition and the otadata
    partition with the answer to erasing it. *)
Record boot_t := mk_boot {
  bt_reason : reset_reason;
  bt_running : option running_t;
  bt_otadata : option Z
}.

Inductive guard_outcome := G_continue | G_restart.

Section Guard.
Context `{Nvs St}.

(** The fallback, once [MAX_BOOT_LOOPS] is reached. *)
Definition factory_fallback (b : boot_t) (n : St) : guard_outcome * St :=
  if match bt_running b with Some r => run_factory r | None => false end then (G_continue, n)
  else
    match bt_otadata b with
    | None => (G_continue, n)
    | Some er =>
      if negb (is_ok er) then (G_continue, n)
      else
        let '(e, n) := nvs_open OTA_NVS_NS true n in
        let n := if is_ok e then
                   let n := (nvs_set_u8 OTA_NVS_NS OTA_KEY_BOOTLOOP 0 n).2 in
                   (nvs_commit OTA_NVS_NS n).2
                 else n in
        (G_restart, ota_note_planned_reboot n)
    end.

Definition ota_boot_loop_guard (b : boot_t) (n : St) : guard_outcome * St :=
  let '(e, n) := nvs_open OTA_NVS_NS true n in
  if negb (is_ok e) then (G_continue, n)
  else
    let planned := negb (get_u8_or_0 OTA_KEY_PLANNED n =? 0) in
    let n := if planned then
               let n := (nvs_set_u8 OTA_NVS_NS OTA_KEY_PLANNED 0 n).2 in
               (nvs_commit OTA_NVS_NS n).2
             else n in
    let just_installed := pending_verify (bt_running b) in
    let boots := get_u8_or_0 OTA_KEY_BOOTLOOP n in
    if negb (crash_like (bt_reason b) planned just_installed) then (G_continue, n)
    else
      let boots := u8 (boots + 1) in
      let n := (nvs_set_u8 OTA_NVS_NS OTA_KEY_BOOTLOOP boots n).2 in
      let n := (nvs_commit OTA_NVS_NS n).2 in
      if boots <? MAX_BOOT_LOOPS then (G_continue, n) else factory_fallback b n.

(** After [OTA_BOOTLOOP_CLEAR_MS]: the error it reports, and the store. *)
Definition ota_bootloop_clear_task (n : St) : Z * St :=
  let '(e, n) := nvs_open OTA_NVS_NS true n in
  if is_ok e then
    let '(e, n) := nvs_set_u8 OTA_NVS_NS OTA_KEY_BOOTLOOP 0 n in
    if is_ok e then nvs_commit OTA_NVS_NS n else (e, n)
  else (e, n).
End Guard.

(** ** Health confirmation *)

(** What one check reads. *)
Record check_in := mk_check {
  ck_elapsed_ms : Z;
  ck_totals : ntrip_tx_totals_t;
  ck_health : supervisor_health_t;
  ck_fresh : ntrip_msg_freshness_t;
  ck_free_heap : Z;
  ck_fresh_final : ntrip_msg_freshness_t
}.

(** The locals of the task. *)
Record mark_t := mk_mark {
  mv_have_prev : bool;
  mv_outage_logged : bool;
  mv_prev_rec_gnss : Z;
  mv_prev_frames : Z;
  mv_prev_bytes : Z;
  mv_stable : Z
}.

Definition mark_start : mark_t := mk_mark false false 0 0 0 0.

Definition delta (now prev : Z) : Z := if prev <? now then u64 (now - prev) else 0.

(** One check passes: required set fresh, frames and bytes moving, no recovery. *)
Definition check_good (c : check_in) (m : mark_t) : bool :=
  let t := ck_totals c in
  let d_frames := delta (to_frames_ok t) (mv_prev_frames m) in
  let d_bytes := delta (to_accepted_to_lwip t) (mv_prev_bytes m) in
  let no_new_rec := mv_have_prev m && (h_recoveries_gnss (ck_health c) =? mv_prev_rec_gnss m) in
  let gnss_ok := (OTA_CONFIRM_MIN_FRAME_DELTA <=? d_frames) && f_all_fresh (ck_fresh c) in
  let caster_good := (0 <? to_instances t) && (OTA_CONFIRM_MIN_BYTE_DELTA <=? d_bytes) in
  gnss_ok && no_new_rec && caster_good.

Inductive mark_verdict := M_continue (m : mark_t) | M_semantic | M_unprovisioned | M_local_fault.

(** One iteration of the checking loop. *)
Definition mark_check (c : check_in) (m : mark_t) : mark_verdict :=
  let stable := if check_good c m then mv_stable m + 1 else 0 in
  let t := ck_totals c in
  let m' := mk_mark true (mv_outage_logged m) (h_recoveries_gnss (ck_health c))
                    (to_frames_ok t) (to_accepted_to_lwip t) stable in
  if OTA_CONFIRM_STABLE_N <=? stable then M_semantic
  else if (to_instances t =? 0) && (OTA_CONFIRM_UNPROV_MS <=? ck_elapsed_ms c) &&
          (OTA_CONFIRM_MIN_HEAP_B <? ck_free_heap c) then M_unprovisioned
  else if OTA_CONFIRM_DEADLINE_MS <=? ck_elapsed_ms c then
    if f_all_fresh (ck_fresh_final c)
    then M_continue (mk_mark true true (mv_prev_rec_gnss m') (mv_prev_frames m')
                             (mv_prev_bytes m') stable)
    else M_local_fault
  else M_continue m'.

(** The loop over the checks made so far. *)
Fixpoint mark_loop (cs : list check_in) (m : mark_t) : mark_verdict :=
  match cs with
  | [] => M_continue m
  | c :: cs' =>
    match mark_check c m with
    | M_continue m' => mark_loop cs' m'
    | v => v
    end
  end.

(** How the task ends: still looping, or done with or without a confirmation, or
    after asking for the rollback. *)
Inductive mark_end := E_looping | E_confirmed | E_not_confirmed | E_rollback.

Section Mark.
Context `{Nvs St}.

(** [ota_mark_valid_task] over its checks; [running] is what the partition calls
    say of the running image, [mark_valid] the answer of
    [esp_ota_mark_app_valid_cancel_rollback]. *)
Definition ota_mark_valid_task (cs : list check_in) (running : option running_t) (mark_valid : Z)
    (n : St) : mark_end * St :=
  match mark_loop cs mark_start with
  | M_continue _ => (E_looping, n)
  | M_local_fault => (if pending_verify running then E_rollback else E_not_confirmed, n)
  | M_semantic | M_unprovisioned =>
    if pending_verify running && is_ok mark_valid then
      let '(e, n) := nvs_open OTA_NVS_NS true n in
      let n := if is_ok e then
                 let n := (nvs_erase_key OTA_NVS_NS OTA_KEY_FAILVER n).2 in
                 let n := (nvs_erase_key OTA_NVS_NS OTA_KEY_FAILCNT n).2 in
                 (nvs_commit OTA_NVS_NS n).2
               else n in
      (E_confirmed, n)
    else (E_not_confirmed, n)
  end.
End Mark.

(** ** Specification *)

(** A decimal number that an [int] holds. *)
Definition numeral (d : list Z) (v : Z) : Prop :=
  d <> [] /\ forallb is_digit d = true /\ digits_value d = v /\ v < 2 ^ 31.

Definition no_digit_first (s : list Z) : Prop :=
  match s with c :: _ => is_digit c = false | [] => True end.

(** [a.b.c] with anything behind it that does not go on with a digit. *)
Definition dotted (a b c tail : list Z) : list Z := a ++ 46 :: b ++ 46 :: c ++ tail.

(** [k] install attempts of one version, booted one after the other. *)
Fixpoint attempts `{Nvs St} (k : nat) (version : list Z) (n : St) : list bool * St :=
  match k with
  | O => ([], n)
  | Datatypes.S k' =>
    let '(a, n) := ota_attempt_allowed version n in
    let '(l, n) := attempts k' version n in (a :: l, n)
  end.

(** What happens to the guard's state from boot to boot. *)
Inductive guard_event := V_boot (b : boot_t) | V_planned | V_survived.

Fixpoint guard_trace `{Nvs St} (es : list guard_event) (n : St) : list guard_outcome :=
  match es with
  | [] => []
  | V_boot b :: es => let '(o, n) := ota_boot_loop_guard b n in o :: guard_trace es n
  | V_planned :: es => guard_trace es (ota_note_planned_reboot n)
  | V_survived :: es => guard_trace es (ota_bootloop_clear_task n).2
  end.

Definition can_fall_back (b : boot_t) : bool :=
  negb (match bt_running b with Some r => run_factory r | None => false end) &&
  match bt_otadata b with Some er => is_ok er | None => false end.

#[export] Instance reset_reason_eq_dec : EqDecision reset_reason.
Proof. solve_decision. Defined.
#[export] Instance img_state_eq_dec : EqDecision img_state.
Proof. solve_decision. Defined.

(** The resets that are a fault whatever was announced. *)
Definition fault_reasons : list reset_reason :=
  [RST_PANIC; RST_INT_WDT; RST_TASK_WDT; RST_WDT; RST_BROWNOUT; RST_UNKNOWN].

(** A boot is evidence against the image: a crash, or a software reset that was
    not announced and did not come from an installation, whose image the
    bootloader would have marked as waiting for its confirmation. *)
Definition is_fault (b : boot_t) (announced : bool) : Prop :=
  bt_reason b ∈ fault_reasons \/
  bt_reason b = RST_SW /\ announced = false /\
  (bt_running b ≫= run_state) <> Some IMG_PENDING_VERIFY.

#[export] Instance is_fault_dec b announced : Decision (is_fault b announced).
Proof. unfold is_fault. apply _. Defined.

(** The guard as it is meant: [faults] counts the faults since the last survived
    run or fallback, without a bound; the code sees it modulo 256. *)
Fixpoint spec_trace (es : list guard_event) (faults : Z) (announced : bool) : list guard_outcome :=
  match es with
  | [] => []
  | V_planned :: es => spec_trace es faults true
  | V_survived :: es => spec_trace es 0 announced
  | V_boot b :: es =>
    if decide (is_fault b announced) then
      if (5 <=? (faults + 1) mod 256) && can_fall_back b
      then G_restart :: spec_trace es 0 true
      else G_continue :: spec_trace es (faults + 1) false
    else G_continue :: spec_trace es faults false
  end.

(** The evidence one check [c] adds to the check [p] before it. *)
Definition evidence (p c : check_in) : Prop :=
  f_all_fresh (ck_fresh c) = true /\ 0 < to_instances (ck_totals c) /\
  to_frames_ok (ck_totals p) + OTA_CONFIRM_MIN_FRAME_DELTA <= to_frames_ok (ck_totals c) /\
  to_accepted_to_lwip (ck_totals p) + OTA_CONFIRM_MIN_BYTE_DELTA <= to_accepted_to_lwip (ck_totals c) /\
  h_recoveries_gnss (ck_health c) = h_recoveries_gnss (ck_health p).

Definition counters_ok (c : check_in) : Prop :=
  0 <= to_frames_ok (ck_totals c) < 2 ^ 64 /\ 0 <= to_accepted_to_lwip (ck_totals c) < 2 ^ 64.

(** ** Lemmas on versions *)

Lemma span_digits_app d s :
  forallb is_digit d = true -> no_digit_first s -> span_digits (d ++ s) = (d, s).
Proof.
  intros Hd Hs. induction d as [|c d IH].
  - destruct s as [|c s]; [done|]. simpl in *. by rewrite Hs.
  - simpl in *. apply andb_true_iff in Hd as [Hc Hd]. by rewrite Hc, IH.
Qed.

Lemma digits_value_nonneg d : forallb is_digit d = true -> forall acc, 0 <= acc ->
  0 <= fold_left (fun acc c => acc * 10 + (c - 48)) d acc.
Proof.
  induction d as [|c d IH]; intros Hd acc Ha; [done|]. simpl in *.
  apply andb_true_iff in Hd as [Hc Hd]. apply IH; [done|]. unfold is_digit in Hc. lia.
Qed.

Lemma scan_d_numeral d v s :
  numeral d v -> no_digit_first s -> scan_d (d ++ s) = Some (v, s).
Proof.
  intros (Hne & Hd & Hv & Hb) Hs. unfold scan_d.
  pose proof (digits_value_nonneg d Hd 0 ltac:(lia)) as H0. fold (digits_value d) in H0.
  pose proof (span_digits_app d s Hd Hs) as Hsp.
  destruct d as [|c d]; [done|]. cbn [app] in *.
  assert (Hc : is_digit c = true) by (simpl in Hd; apply andb_true_iff in Hd; tauto).
  unfold is_digit in Hc.
  assert (Hws : trim_left (c :: d ++ s) = c :: d ++ s).
  { cbn [trim_left]. unfold isspace. case_if; [lia|done]. }
  rewrite Hws. replace (c =? 45) with false by lia. replace (c =? 43) with false by lia.
  rewrite Hsp, Hv. unfold clamp_int. do 2 f_equal. lia.
Qed.

Lemma sscanf_dotted a b c tail va vb vc :
  numeral a va -> numeral b vb -> numeral c vc -> no_digit_first tail ->
  sscanf_dots 3 (dotted a b c tail) = [va; vb; vc].
Proof.
  intros Ha Hb Hc Ht. unfold dotted. cbn [sscanf_dots].
  rewrite (scan_d_numeral a va) by done. cbn [Z.eqb Pos.eqb].
  rewrite (scan_d_numeral b vb) by done. cbn [Z.eqb Pos.eqb].
  rewrite (scan_d_numeral c vc) by done.
  do 3 f_equal. destruct tail as [|x tail]; [done|]. by destruct (x =? 46).
Qed.

(** ** Lemmas on the store *)

Section StoreLemmas.
Context `{NvsLaws St}.

Lemma is_ok_true e : is_ok e = true <-> e = ESP_OK.
Proof. apply Z.eqb_eq. Qed.

Lemma open_rw ns (n : St) :
  exists n', nvs_open ns true n = (ESP_OK, n') /\ forall ns' key, nvs_agree ns' key n n'.
Proof.
  pose proof (open_rw_ok ns n) as E. pose proof (open_agree ns true n) as A.
  destruct (nvs_open ns true n) as [e n']. simpl in *. subst e. eauto.
Qed.

Lemma stored_attempts_agree version (n n' : St) :
  (forall key, nvs_agree OTA_NVS_NS key n n') ->
  stored_attempts version n' = stored_attempts version n.
Proof.
  intros A. unfold stored_attempts. rewrite (agree_str _ _ _ _ _ (A OTA_KEY_FAILVER)).
  destruct (nvs_get_str _ _ _ n) as [e s]. case_if; [|done].
  by rewrite (agree_int _ _ _ _ _ (A OTA_KEY_FAILCNT)).
Qed.

Lemma get_u8_agree key (n n' : St) :
  nvs_agree OTA_NVS_NS key n n' -> get_u8_or_0 key n' = get_u8_or_0 key n.
Proof. intros A. unfold get_u8_or_0. by rewrite (agree_int _ _ _ _ _ A). Qed.

Lemma get_u8_range key (n : St) : 0 <= get_u8_or_0 key n < 256.
Proof.
  unfold get_u8_or_0. destruct (nvs_get_u8 _ _ n) as [e v]. case_if; [apply u8_range|lia].
Qed.

Lemma stored_attempts_range version (n : St) : 0 <= stored_attempts version n < 256.
Proof.
  unfold stored_attempts. destruct (nvs_get_str _ _ _ n) as [e s]. case_if; [|lia].
  destruct (nvs_get_u8 _ _ n) as [e' v]. case_if; [apply u8_range|lia].
Qed.

Lemma absent_agree ns key (n n' : St) :
  nvs_agree ns key n n' -> nvs_absent ns key n -> nvs_absent ns key n'.
Proof.
  intros (A1 & A2 & A3) (B1 & B2 & B3). split_and!; intros; rewrite ?A1, ?A2, ?A3; auto.
Qed.

(** Writing a byte of the OTA state and committing. *)
Lemma put_u8 key v (n : St) : 0 <= v < 256 ->
  let n' := (nvs_commit OTA_NVS_NS (nvs_set_u8 OTA_NVS_NS key v n).2).2 in
  get_u8_or_0 key n' = v /\
  forall key', key <> key' -> nvs_agree OTA_NVS_NS key' n n'.
Proof.
  intros Hv. cbv zeta. split.
  - rewrite (get_u8_agree key _ _ (commit_agree _ _ _ _)). unfold get_u8_or_0.
    destruct (get_set_int U8 OTA_NVS_NS key v n) as [_ ->]; [simpl; lia|].
    simpl. by apply u8_small.
  - intros key' Hk. etrans; [|apply commit_agree]. apply set_int_other. congruence.
Qed.
End StoreLemmas.

(** ** Theorems: versions and the attempt budget *)

(** The candidate of a dotted version is newer exactly when it is larger in
    the first component that differs; what follows the third number (a suffix
    such as [-rc1]) plays no part.  An equal or older release is never newer, so
    a stale channel cannot downgrade the device. *)
Theorem ota_version_order a b c t a' b' c' t' va vb vc va' vb' vc' :
  numeral a va -> numeral b vb -> numeral c vc -> no_digit_first t ->
  numeral a' va' -> numeral b' vb' -> numeral c' vc' -> no_digit_first t' ->
  ota_version_is_newer (dotted a b c t) (dotted a' b' c' t') = true <->
  va' < va \/ (va' = va /\ (vb' < vb \/ (vb' = vb /\ vc' < vc))).
Proof.
  intros. unfold ota_version_is_newer.
  rewrite (sscanf_dotted a b c t va vb vc), (sscanf_dotted a' b' c' t' va' vb' vc') by done.
  change (zlen [va; vb; vc]) with 3. change (zlen [va'; vb'; vc']) with 3.
  cbn -[Z.ltb]. change (zget [va; vb; vc] 0) with va. change (zget [va; vb; vc] 1) with vb.
  change (zget [va; vb; vc] 2) with vc. change (zget [va'; vb'; vc'] 0) with va'.
  change (zget [va'; vb'; vc'] 1) with vb'. change (zget [va'; vb'; vc'] 2) with vc'.
  change (3 <? 1) with false. cbn [orb]. repeat case_if; lia.
Qed.

Lemma ota_version_order_witness :
  ota_version_is_newer (of_str "1.2.10-rc1") FW_VERSION = true.
Proof.
  apply (ota_version_order (of_str "1") (of_str "2") (of_str "10") (of_str "-rc1")
           (of_str "1") (of_str "1") (of_str "8") [] 1 2 10 1 1 8);
    try (split_and!; by vm_compute); try done. right. split; [done|]. left. lia.
Defined.

Section Budget.
Context `{NvsLaws St}.

Lemma allowed_step version (n : St) : zlen version + 1 <= 24 ->
  let r := ota_attempt_allowed version n in
  r.1 = (stored_attempts version n <? MAX_OTA_ATTEMPTS) /\
  stored_attempts version r.2 = stored_attempts version n + (if r.1 then 1 else 0).
Proof.
  intros Hl. cbv zeta. unfold ota_attempt_allowed.
  destruct (open_rw OTA_NVS_NS n) as (n1 & -> & A1). cbn [is_ok negb].
  change (is_ok ESP_OK) with true. cbn [negb].
  pose proof (stored_attempts_agree version n n1 (fun key => A1 _ key)) as E1.
  pose proof (stored_attempts_range version n) as R. rewrite E1. unfold MAX_OTA_ATTEMPTS.
  case_if; cbn [fst snd]; [split; [lia|by rewrite E1, Z.add_0_r]|]. split; [lia|].
  set (n2 := (nvs_set_str OTA_NVS_NS OTA_KEY_FAILVER version n1).2).
  destruct (put_u8 OTA_KEY_FAILCNT (u8 (stored_attempts version n + 1)) n2) as [G A3];
    [apply u8_range|].
  unfold stored_attempts at 1.
  rewrite (agree_str _ _ _ _ _ (A3 OTA_KEY_FAILVER ltac:(done))).
  destruct (get_set_str OTA_NVS_NS OTA_KEY_FAILVER version (Some 24) n1) as (_ & Hg & _).
  unfold n2. rewrite Hg by (simpl; lia). change (is_ok ESP_OK) with true.
  rewrite bytes_eqb_refl. cbn [andb]. unfold get_u8_or_0 in G. fold n2. rewrite G.
  apply u8_small. lia.
Qed.

Lemma exhausted_step version (n : St) :
  (ota_attempts_exhausted version n).1 = (MAX_OTA_ATTEMPTS <=? stored_attempts version n).
Proof.
  unfold ota_attempts_exhausted.
  pose proof (open_agree OTA_NVS_NS false n) as A. pose proof (open_ro_absent OTA_NVS_NS n) as B.
  destruct (nvs_open OTA_NVS_NS false n) as [e n1]. cbn [fst snd] in *. unfold is_ok.
  destruct (Z.eqb_spec e ESP_OK); cbn [negb fst].
  - by rewrite (stored_attempts_agree version n n1 (fun key => A _ key)).
  - destruct (B OTA_KEY_FAILVER ltac:(done)) as (_ & Hs & _). specialize (Hs (Some 24)).
    unfold stored_attempts. destruct (nvs_get_str _ _ _ n) as [e' s]. cbn in Hs. by subst e'.
Qed.

(** A version of 24 characters or more does not fit the buffer it is read back
    into: its attempts are never counted. *)
Lemma long_version_never_exhausted version k (n : St) : 24 <= zlen version ->
  stored_attempts version n = 0 ->
  (attempts k version n).1 = repeat true k.
Proof.
  intros Hl. revert n. induction k as [|k IH]; intros n Hz; [done|]. cbn [attempts].
  unfold ota_attempt_allowed. destruct (open_rw OTA_NVS_NS n) as (n1 & -> & A1).
  change (is_ok ESP_OK) with true. cbn [negb].
  rewrite (stored_attempts_agree version n n1 (fun key => A1 _ key)), Hz.
  change (MAX_OTA_ATTEMPTS <=? 0) with false. cbn iota.
  set (n3 := (nvs_commit _ _).2).
  assert (H3 : stored_attempts version n3 = 0).
  { unfold n3, stored_attempts. rewrite (agree_str _ _ _ _ _ (commit_agree _ _ _ _)).
    rewrite (agree_str _ _ _ _ _ (set_int_other U8 OTA_NVS_NS OTA_KEY_FAILCNT _ _
              OTA_NVS_NS OTA_KEY_FAILVER ltac:(done))).
    destruct (get_set_str OTA_NVS_NS OTA_KEY_FAILVER version (Some 24) n1) as (_ & _ & Hg).
    specialize (Hg ltac:(simpl; lia)). destruct (nvs_get_str _ _ _ _) as [e s]. cbn in Hg. by subst e. }
  specialize (IH n3 H3). destruct (attempts k version n3) as [l m]. cbn in *. by rewrite IH.
Qed.
(** Of any number of attempts to install one version (one of fewer than 24
    characters), exactly those within the budget of three are let through, the
    earlier ones counted; afterwards the daily check, which only reads, says
    "exhausted" exactly when the next attempt would be refused.  A release that
    can never be installed is tried three times and then left alone.  A longer
    version string has no budget: it does not fit the buffer it is read back into,
    and every attempt is let through. *)
Theorem ota_attempt_budget version k (n : St) :
  (zlen version + 1 <= 24 ->
   let c := Z.min MAX_OTA_ATTEMPTS (stored_attempts version n) in
   let j := Nat.min k (Z.to_nat (MAX_OTA_ATTEMPTS - c)) in
   let r := attempts k version n in
   r.1 = repeat true j ++ repeat false (k - j)%nat /\
   (ota_attempts_exhausted version r.2).1 = negb (ota_attempt_allowed version r.2).1 /\
   ((3 <= k)%nat -> (ota_attempts_exhausted version r.2).1 = true)) /\
  (24 <= zlen version -> stored_attempts version n = 0 ->
   (attempts k version n).1 = repeat true k).
Proof.
  split; [|apply long_version_never_exhausted]. intros Hl. cbv zeta.
  assert (Hk : forall n, (attempts k version n).1 =
     repeat true (Nat.min k (Z.to_nat (3 - Z.min 3 (stored_attempts version n)))) ++
     repeat false (k - Nat.min k (Z.to_nat (3 - Z.min 3 (stored_attempts version n)))) /\
     Z.min 3 (stored_attempts version n + Z.of_nat k) <= stored_attempts version (attempts k version n).2).
  { induction k as [|k IH]; intros m; [split; [done|cbn [attempts snd]; lia]|].
    cbn [attempts]. destruct (allowed_step version m Hl) as [Ha Hs].
    destruct (ota_attempt_allowed version m) as [a m1]. cbn [fst snd] in Ha, Hs.
    destruct (IH m1) as [IH1 IH2]. destruct (attempts k version m1) as [l m2]. cbn [fst snd] in *.
    pose proof (stored_attempts_range version m). unfold MAX_OTA_ATTEMPTS in Ha.
    rewrite IH1, Hs. destruct a; (split; [|lia]).
    - replace (Nat.min (Datatypes.S k) (Z.to_nat (3 - Z.min 3 (stored_attempts version m))))
        with (Datatypes.S (Nat.min k (Z.to_nat (3 - Z.min 3 (stored_attempts version m + 1))))) by lia.
      done.
    - replace (Z.to_nat (3 - Z.min 3 (stored_attempts version m + 0))) with 0%nat by lia.
      replace (Z.to_nat (3 - Z.min 3 (stored_attempts version m))) with 0%nat by lia.
      rewrite !Nat.min_0_r, !Nat.sub_0_r. done. }
  destruct (Hk n) as [H1 H2]. unfold MAX_OTA_ATTEMPTS. split_and!; [done| |].
  - rewrite exhausted_step, (proj1 (allowed_step version _ Hl)). unfold MAX_OTA_ATTEMPTS. lia.
  - intros. rewrite exhausted_step. pose proof (stored_attempts_range version n).
    unfold MAX_OTA_ATTEMPTS. lia.
Qed.

End Budget.

Lemma ota_attempt_budget_witness :
  (attempts 5 (of_str "1.2.0") flash_empty).1 = [true; true; true; false; false].
Proof. exact (proj1 (proj1 (ota_attempt_budget (of_str "1.2.0") 5 flash_empty) ltac:(by vm_compute))). Defined.

(** ** Theorems: the boot-loop guard *)

Section GuardLemmas.
Context `{NvsLaws St}.

Definition streak (n : St) : Z := get_u8_or_0 OTA_KEY_BOOTLOOP n.
Definition planned (n : St) : bool := negb (get_u8_or_0 OTA_KEY_PLANNED n =? 0).

Lemma agree_state (n n' : St) :
  (forall key, nvs_agree OTA_NVS_NS key n n') -> streak n' = streak n /\ planned n' = planned n.
Proof. intros A. unfold streak, planned. by rewrite !(get_u8_agree _ _ _ (A _)). Qed.

Lemma put_streak v (n : St) : 0 <= v < 256 ->
  let n' := (nvs_commit OTA_NVS_NS (nvs_set_u8 OTA_NVS_NS OTA_KEY_BOOTLOOP v n).2).2 in
  streak n' = v /\ planned n' = planned n.
Proof.
  intros Hv. destruct (put_u8 OTA_KEY_BOOTLOOP v n Hv) as [E A]. split; [done|].
  unfold planned. by rewrite (get_u8_agree _ _ _ (A OTA_KEY_PLANNED ltac:(done))).
Qed.

Lemma put_planned (b : bool) (n : St) :
  let n' := (nvs_commit OTA_NVS_NS (nvs_set_u8 OTA_NVS_NS OTA_KEY_PLANNED (if b then 1 else 0) n).2).2 in
  planned n' = b /\ streak n' = streak n.
Proof.
  destruct (put_u8 OTA_KEY_PLANNED (if b then 1 else 0) n ltac:(destruct b; lia)) as [E A]. split.
  - unfold planned. rewrite E. by destruct b.
  - unfold streak. by rewrite (get_u8_agree _ _ _ (A OTA_KEY_BOOTLOOP ltac:(done))).
Qed.

Lemma note_planned (n : St) :
  planned (ota_note_planned_reboot n) = true /\ streak (ota_note_planned_reboot n) = streak n.
Proof.
  unfold ota_note_planned_reboot. destruct (open_rw OTA_NVS_NS n) as (n1 & -> & A1).
  change (is_ok ESP_OK) with true. cbn [negb].
  destruct (put_planned true n1) as [Hp Hs]. destruct (agree_state n n1 (fun key => A1 _ key)).
  cbn iota in Hp, Hs. by rewrite Hp, Hs.
Qed.

Lemma clear_streak (n : St) :
  let n' := (ota_bootloop_clear_task n).2 in streak n' = 0 /\ planned n' = planned n.
Proof.
  cbv zeta. unfold ota_bootloop_clear_task. destruct (open_rw OTA_NVS_NS n) as (n1 & -> & A1).
  change (is_ok ESP_OK) with true. cbn iota.
  destruct (put_streak 0 n1 ltac:(lia)) as [Hp Hs]. destruct (agree_state n n1 (fun key => A1 _ key)).
  destruct (get_set_int U8 OTA_NVS_NS OTA_KEY_BOOTLOOP 0 n1 ltac:(simpl; lia)) as [Hok _].
  destruct (nvs_set_u8 OTA_NVS_NS OTA_KEY_BOOTLOOP 0 n1) as [e n2]. cbn [fst snd] in *. subst e.
  change (is_ok ESP_OK) with true. cbn iota. split; [done|]. congruence.
Qed.

Lemma fallback_step b (n : St) :
  let r := factory_fallback b n in
  if can_fall_back b then r.1 = G_restart /\ streak r.2 = 0 /\ planned r.2 = true
  else r = (G_continue, n).
Proof.
  cbv zeta. unfold factory_fallback, can_fall_back.
  destruct (match bt_running b with Some r => run_factory r | None => false end); [done|].
  destruct (bt_otadata b) as [er|]; [|done]. cbn [negb andb].
  destruct (is_ok er); [|done]. cbn [negb]. destruct (open_rw OTA_NVS_NS n) as (n1 & -> & A1).
  change (is_ok ESP_OK) with true. cbn [fst snd].
  destruct (put_streak 0 n1 ltac:(lia)) as [Hp Hs].
  destruct (note_planned (nvs_commit OTA_NVS_NS (nvs_set_u8 OTA_NVS_NS OTA_KEY_BOOTLOOP 0 n1).2).2) as [-> ->].
  done.
Qed.

Lemma guard_step b (n : St) :
  let r := ota_boot_loop_guard b n in
  if crash_like (bt_reason b) (planned n) (pending_verify (bt_running b)) then
    let s := u8 (streak n + 1) in
    if (MAX_BOOT_LOOPS <=? s) && can_fall_back b
    then r.1 = G_restart /\ streak r.2 = 0 /\ planned r.2 = true
    else r.1 = G_continue /\ streak r.2 = s /\ planned r.2 = false
  else r.1 = G_continue /\ streak r.2 = streak n /\ planned r.2 = false.
Proof.
  cbv zeta. unfold ota_boot_loop_guard. destruct (open_rw OTA_NVS_NS n) as (n1 & -> & A1).
  change (is_ok ESP_OK) with true. cbn [negb].
  destruct (agree_state n n1 (fun key => A1 _ key)) as [Es Ep]. fold (planned n1). rewrite Ep.
  set (n2 := if planned n then _ else n1).
  assert (H2 : planned n2 = false /\ streak n2 = streak n).
  { unfold n2. destruct (planned n) eqn:E; [|by rewrite Ep, Es].
    destruct (put_planned false n1) as [Hp Hs]. cbn iota in Hp, Hs. by rewrite Hp, Hs. }
  destruct H2 as [Hp2 Hs2]. clearbody n2. fold (streak n2). rewrite Hs2.
  destruct (crash_like _ _ _); cbn [negb]; [|done].
  set (s := u8 (streak n + 1)). destruct (put_streak s n2 ltac:(apply u8_range)) as [Hs3 Hp3].
  set (n3 := (nvs_commit _ _).2) in *. clearbody n3. unfold MAX_BOOT_LOOPS.
  destruct (Z.ltb_spec s 5); [replace (5 <=? s) with false by lia; cbn [andb fst snd]; by rewrite Hp3|].
  replace (5 <=? s) with true by lia. cbn [andb].
  pose proof (fallback_step b n3) as F. cbv zeta in F. destruct (can_fall_back b); [done|].
  rewrite F. cbn [fst snd]. by rewrite Hp3.
Qed.

Lemma crash_like_fault b announced :
  crash_like (bt_reason b) announced (pending_verify (bt_running b)) =
  bool_decide (is_fault b announced).
Proof.
  destruct b as [rr run od].
  by destruct rr, announced, run as [[f [[]|]]|].
Qed.

Lemma guard_trace_spec es (n : St) faults :
  streak n = faults mod 256 -> guard_trace es n = spec_trace es faults (planned n).
Proof.
  revert n faults. induction es as [|[b| |] es IH]; intros n faults Hf; cbn [guard_trace spec_trace]; [done|..].
  - pose proof (guard_step b n) as G. cbv zeta in G. destruct (ota_boot_loop_guard b n) as [o n'].
    cbn [fst snd] in G. rewrite crash_like_fault in G.
    assert (Hu : u8 (streak n + 1) = (faults + 1) mod 256)
      by (rewrite Hf; apply Zplus_mod_idemp_l).
    rewrite Hu in G. change MAX_BOOT_LOOPS with 5 in G.
    destruct (decide (is_fault b (planned n))) as [F|F].
    + rewrite bool_decide_eq_true_2 in G by done.
      destruct (_ && _); destruct G as (-> & Hs & Hp); rewrite <- Hp; f_equal; by apply IH.
    + rewrite bool_decide_eq_false_2 in G by done. destruct G as (-> & Hs & Hp).
      rewrite <- Hp. f_equal. apply IH. by rewrite Hs.
  - destruct (note_planned n) as [Hp Hs]. rewrite <- Hp. apply IH. by rewrite Hs.
  - destruct (clear_streak n) as [Hs Hp]. rewrite <- Hp. apply IH. by rewrite Hs.
Qed.

(** A crash of an image that runs from an OTA slot, the answer to erasing the
    boot selection given. *)
Definition crash_boot (erase : option Z) : boot_t :=
  mk_boot RST_PANIC (Some (mk_running false (Some IMG_VALID))) erase.

(** C14: through any history of boots, announced reboots and survived runs the
    guard on the flash store behaves as a plain counter of faults: a boot counts
    when its reset was a panic, one of the three watchdogs, a brownout or of
    unknown reason, or a software reset neither announced nor followed by an
    image that waits for its confirmation; only a survived run or the fallback
    starts the count again, as long as it is below 256; and the device is sent
    to the factory app exactly at a counted boot that makes it five or more and
    finds a way there (an erase that fails keeps the count, so the next fault
    tries again).  The counter has eight bits: what is compared with five is the
    count modulo 256, and after 255 faults without a way back the next one,
    which would have it, is let through. *)
Theorem boot_guard_counts_faults es (n : St) :
  (forall faults, streak n = faults mod 256 -> guard_trace es n = spec_trace es faults (planned n)) /\
  (streak n = 0 ->
   guard_trace (repeat (V_boot (crash_boot None)) 255 ++ [V_boot (crash_boot (Some ESP_OK))]) n =
   repeat G_continue 256).
Proof.
  split; [intros; by apply guard_trace_spec|]. intros Hs.
  rewrite (guard_trace_spec _ n 0) by done. by destruct (planned n); vm_compute.
Qed.
End GuardLemmas.

(** Five panics in a row, a reboot the user asked for between them. *)
Lemma boot_guard_counts_faults_witness :
  let crash := V_boot (mk_boot RST_PANIC (Some (mk_running false (Some IMG_VALID))) (Some ESP_OK)) in
  let reset := V_boot (mk_boot RST_SW (Some (mk_running false (Some IMG_VALID))) (Some ESP_OK)) in
  guard_trace [crash; crash; V_planned; reset; crash; reset; crash; crash] flash_empty =
  [G_continue; G_continue; G_continue; G_continue; G_continue; G_restart; G_continue].
Proof.
  cbv zeta. etrans; [exact (proj1 (boot_guard_counts_faults _ flash_empty) 0 eq_refl)|]. vm_compute. reflexivity.
Defined.

(** ** Theorems: health confirmation *)

Section MarkLemmas.

(** The task's locals after a check: what the next check is compared with. *)
Definition mark_prev (c : check_in) (m : mark_t) : Prop :=
  mv_have_prev m = true /\ mv_prev_rec_gnss m = h_recoveries_gnss (ck_health c) /\
  mv_prev_frames m = to_frames_ok (ck_totals c) /\
  mv_prev_bytes m = to_accepted_to_lwip (ck_totals c).

(** [k] good checks in a row end the list of checks [cs], [p] before them. *)
Fixpoint good_run (k : nat) (cs : list check_in) : Prop :=
  match k with
  | O => True
  | Datatypes.S k' => exists pre p c, cs = pre ++ [p; c] /\ evidence p c /\ good_run k' (pre ++ [p])
  end.

Lemma u64_le x : 0 <= x -> u64 x <= x.
Proof. intros. apply Z.mod_le; lia. Qed.

Lemma check_good_evidence p c m :
  mark_prev p m -> check_good c m = true -> evidence p c.
Proof.
  intros (Hh & Hr & Hf & Hb). unfold check_good, evidence, delta. rewrite Hh, Hr, Hf, Hb.
  unfold OTA_CONFIRM_MIN_FRAME_DELTA, OTA_CONFIRM_MIN_BYTE_DELTA.
  intros [[[G1 G2]%andb_true_iff G3]%andb_true_iff [G4 G5]%andb_true_iff]%andb_true_iff.
  pose proof (u64_le (to_frames_ok (ck_totals c) - to_frames_ok (ck_totals p))).
  pose proof (u64_le (to_accepted_to_lwip (ck_totals c) - to_accepted_to_lwip (ck_totals p))).
  split_and!; try done; try lia.
  - destruct (_ <? to_frames_ok _) eqn:E; lia.
  - destruct (_ <? to_accepted_to_lwip _) eqn:E; lia.
Qed.

Lemma evidence_check_good p c m :
  mark_prev p m -> counters_ok p -> counters_ok c -> evidence p c -> check_good c m = true.
Proof.
  intros (Hh & Hr & Hf & Hb) [P1 P2] [C1 C2] (E1 & E2 & E3 & E4 & E5).
  unfold check_good, delta. rewrite Hh, Hr, Hf, Hb, E1, E5.
  unfold OTA_CONFIRM_MIN_FRAME_DELTA, OTA_CONFIRM_MIN_BYTE_DELTA in *.
  replace (_ <? to_frames_ok _) with true by lia.
  replace (_ <? to_accepted_to_lwip _) with true by lia.
  rewrite !u64_small by lia. lia.
Qed.

(** After the checks [seen]: the stability count stands for good checks. *)
Definition mark_inv (seen : list check_in) (m : mark_t) : Prop :=
  0 <= mv_stable m /\ good_run (Z.to_nat (mv_stable m)) seen /\
  match last seen with Some p => mark_prev p m | None => m = mark_start end.

Lemma mark_check_spec seen c m : mark_inv seen m ->
  match mark_check c m with
  | M_continue m' => mark_inv (seen ++ [c]) m'
  | M_semantic => good_run 3 (seen ++ [c])
  | M_unprovisioned => to_instances (ck_totals c) = 0 /\ OTA_CONFIRM_UNPROV_MS <= ck_elapsed_ms c /\
                       OTA_CONFIRM_MIN_HEAP_B < ck_free_heap c
  | M_local_fault => f_all_fresh (ck_fresh_final c) = false /\ OTA_CONFIRM_DEADLINE_MS <= ck_elapsed_ms c
  end.
Proof.
  intros (H0 & Hrun & Hlast). unfold mark_check.
  set (st := if check_good c m then _ else 0).
  assert (Hst : 0 <= st /\ good_run (Z.to_nat st) (seen ++ [c])).
  { unfold st. destruct (check_good c m) eqn:G; [|done]. split; [lia|].
    replace (Z.to_nat (mv_stable m + 1)) with (Datatypes.S (Z.to_nat (mv_stable m))) by lia.
    destruct (last seen) as [p|] eqn:L.
    - apply last_Some in L as [pre ->]. exists pre, p, c. rewrite <- app_assoc. split_and!; [done| |done].
      by eapply check_good_evidence.
    - subst m. unfold check_good in G. cbn in G. by rewrite !andb_false_r in G. }
  destruct Hst as [Hs0 Hsr]. clearbody st.
  assert (Hinv : forall b, mark_inv (seen ++ [c]) (mk_mark true b (h_recoveries_gnss (ck_health c))
            (to_frames_ok (ck_totals c)) (to_accepted_to_lwip (ck_totals c)) st)).
  { intros b. split_and!; [done|done|]. by rewrite last_snoc. }
  case_if.
  - replace (Z.to_nat st) with (3 + (Z.to_nat st - 3))%nat in Hsr
      by (unfold OTA_CONFIRM_STABLE_N in *; lia).
    clear -Hsr. cbn [good_run Nat.add] in *.
    destruct Hsr as (p1 & a1 & b1 & E1 & V1 & p2 & a2 & b2 & E2 & V2 & p3 & a3 & b3 & E3 & V3 & _).
    eauto 20.
  - case_if; [lia|]. case_if; [|done]. destruct (f_all_fresh (ck_fresh_final c)) eqn:F; [done|]. lia.
Qed.
End MarkLemmas.

Lemma good_run_3 cs : good_run 3 cs ->
  exists seen p c1 c2 c3, cs = seen ++ [p; c1; c2; c3] /\
    evidence p c1 /\ evidence c1 c2 /\ evidence c2 c3.
Proof.
  cbn [good_run]. intros (p1 & a1 & b1 & -> & V1 & p2 & a2 & b2 & E2 & V2 & p3 & a3 & b3 & E3 & V3 & _).
  assert (p1 ++ [a1] = (p2 ++ [a2]) ++ [b2]) as Q2 by (by rewrite E2, <- app_assoc).
  apply app_inj_tail in Q2 as [-> ->].
  assert (p2 ++ [a2] = (p3 ++ [a3]) ++ [b3]) as Q3 by (by rewrite E3, <- app_assoc).
  apply app_inj_tail in Q3 as [-> ->].
  exists p3, a3, b3, b2, b1. rewrite <- !app_assoc. done.
Qed.

Lemma mark_loop_spec cs : forall seen m, mark_inv seen m ->
  match mark_loop cs m with
  | M_continue m' => mark_inv (seen ++ cs) m'
  | M_semantic => exists now later, cs = now ++ later /\ good_run 3 (seen ++ now)
  | M_unprovisioned => exists c, c ∈ cs /\ to_instances (ck_totals c) = 0 /\
      OTA_CONFIRM_UNPROV_MS <= ck_elapsed_ms c /\ OTA_CONFIRM_MIN_HEAP_B < ck_free_heap c
  | M_local_fault => exists c, c ∈ cs /\ f_all_fresh (ck_fresh_final c) = false /\
      OTA_CONFIRM_DEADLINE_MS <= ck_elapsed_ms c
  end.
Proof.
  induction cs as [|c cs IH]; intros seen m I; cbn [mark_loop]; [by rewrite app_nil_r|].
  pose proof (mark_check_spec seen c m I) as S. destruct (mark_check c m) as [m'| | |].
  - specialize (IH _ _ S). rewrite <- app_assoc in IH. cbn [app] in IH.
    destruct (mark_loop cs m') as [m''| | |]; [done|..].
    + destruct IH as (now & later & -> & G). exists (c :: now), later.
      split; [done|]. by rewrite <- app_assoc in G.
    + destruct IH as (x & ? & ?). exists x. split; [by right|done].
    + destruct IH as (x & ? & ?). exists x. split; [by right|done].
  - by exists [c], cs.
  - exists c. split; [by left|done].
  - exists c. split; [by left|done].
Qed.

Lemma mark_loop_app cs cs' m m' :
  mark_loop cs m = M_continue m' -> mark_loop (cs ++ cs') m = mark_loop cs' m'.
Proof.
  revert m. induction cs as [|c cs IH]; intros m; cbn [mark_loop app]; [by intros [= ->]|].
  destruct (mark_check c m); try done. apply IH.
Qed.

(** A good check before the deadline: done, or one more in the count. *)
Lemma mark_good p c m :
  mark_prev p m -> counters_ok p -> counters_ok c -> evidence p c ->
  ck_elapsed_ms c < OTA_CONFIRM_DEADLINE_MS -> 0 <= mv_stable m ->
  mark_check c m = M_semantic \/
  exists m', mark_check c m = M_continue m' /\ mark_prev c m' /\ mv_stable m' = mv_stable m + 1.
Proof.
  intros I Cp Cc V D S0. unfold mark_check. rewrite (evidence_check_good p c m) by done.
  destruct V as (_ & Hi & _). case_if; [by left|right].
  replace (to_instances (ck_totals c) =? 0) with false by lia. cbn [andb].
  replace (OTA_CONFIRM_DEADLINE_MS <=? ck_elapsed_ms c) with false by lia.
  eexists. split; [done|]. split; [done|]. done.
Qed.

Lemma mark_inv_start : mark_inv [] mark_start.
Proof. done. Qed.

(** C15: an image is confirmed only when it is pending verification, the platform
    accepts the confirmation, and the checks show either four in a row, each of
    the last three adding to the one before it: the required messages fresh, an
    uploader present, ten new frames, 2048 new bytes accepted and no receiver
    recovery; or a moment after ten minutes without any uploader and with sane
    heap.  Then, and only then, the attempt counter of the version is cleared.  A
    rollback is asked for only after the deadline, when not all required messages
    are fresh. *)
Theorem ota_confirm_needs_evidence `{NvsLaws St} cs running mark_valid (n : St) :
  let r := ota_mark_valid_task cs running mark_valid n in
  match r.1 with
  | E_confirmed =>
    pending_verify running = true /\ mark_valid = ESP_OK /\
    ((exists seen p c1 c2 c3 later, cs = seen ++ [p; c1; c2; c3] ++ later /\
        evidence p c1 /\ evidence c1 c2 /\ evidence c2 c3) \/
     (exists c, c ∈ cs /\ to_instances (ck_totals c) = 0 /\
        OTA_CONFIRM_UNPROV_MS <= ck_elapsed_ms c /\ OTA_CONFIRM_MIN_HEAP_B < ck_free_heap c)) /\
    nvs_absent OTA_NVS_NS OTA_KEY_FAILVER r.2 /\ nvs_absent OTA_NVS_NS OTA_KEY_FAILCNT r.2
  | E_rollback =>
    pending_verify running = true /\ r.2 = n /\
    exists c, c ∈ cs /\ f_all_fresh (ck_fresh_final c) = false /\
      OTA_CONFIRM_DEADLINE_MS <= ck_elapsed_ms c
  | _ => r.2 = n
  end.
Proof.
  cbv zeta. unfold ota_mark_valid_task. pose proof (mark_loop_spec cs [] _ mark_inv_start) as L.
  destruct (mark_loop cs mark_start); cbn [fst snd]; try done.
  3: { destruct (pending_verify running); done. }
  all: destruct (pending_verify running); cbn [andb]; [|done].
  all: destruct (is_ok mark_valid) eqn:V; [|done]; apply Z.eqb_eq in V.
  all: destruct (open_rw OTA_NVS_NS n) as (n1 & -> & A1); cbn [fst snd]; split_and!; try done.
  2, 5: apply (absent_agree _ _ _ _ (commit_agree _ _ _ _));
        apply (absent_agree _ _ _ _ (erase_other _ OTA_KEY_FAILCNT _ _ OTA_KEY_FAILVER ltac:(done)));
        apply get_erase.
  2, 4: apply (absent_agree _ _ _ _ (commit_agree _ _ _ _)); apply get_erase.
  - left. destruct L as (now & later & -> & G).
    apply good_run_3 in G as (seen & p & c1 & c2 & c3 & E & V1 & V2 & V3). cbn [app] in E. subst now.
    exists seen, p, c1, c2, c3, later. by rewrite <- app_assoc.
  - by right.
Qed.

(** And the evidence is enough: when the task is still checking after [p] and
    the next three checks, before the deadline, each add to the one before, the
    image pending verification is confirmed by then. *)
Theorem ota_confirm_reached `{NvsLaws St} seen p c1 c2 c3 running m (n : St) :
  mark_loop (seen ++ [p]) mark_start = M_continue m ->
  evidence p c1 -> evidence c1 c2 -> evidence c2 c3 ->
  Forall counters_ok [p; c1; c2; c3] ->
  Forall (fun c => ck_elapsed_ms c < OTA_CONFIRM_DEADLINE_MS) [c1; c2] ->
  pending_verify running = true ->
  (ota_mark_valid_task (seen ++ [p; c1; c2; c3]) running ESP_OK n).1 = E_confirmed.
Proof.
  intros Hm V1 V2 V3 Hc Hd Hp.
  assert (L : mark_loop (seen ++ [p; c1; c2; c3]) mark_start = M_semantic).
  { change [p; c1; c2; c3] with ([p] ++ [c1; c2; c3]). rewrite app_assoc, (mark_loop_app _ _ _ m Hm).
    pose proof (mark_loop_spec (seen ++ [p]) [] _ mark_inv_start) as I. rewrite Hm in I. cbn [app] in I.
    apply Forall_cons in Hc as [Cp Hc]. apply Forall_cons in Hc as [C1 Hc].
    apply Forall_cons in Hc as [C2 Hc]. apply Forall_cons in Hc as [C3 _].
    apply Forall_cons in Hd as [D1 Hd]. apply Forall_cons in Hd as [D2 _].
    destruct I as (S0 & _ & I). rewrite last_snoc in I.
    destruct (mark_good p c1 m) as [E1|(m1 & E1 & I1 & S1)]; [done..|by cbn [mark_loop]; rewrite E1|].
    destruct (mark_good c1 c2 m1) as [E2|(m2 & E2 & I2 & S2)];
      [done..|lia|by cbn [mark_loop]; rewrite E1, E2|].
    cbn [mark_loop]. rewrite E1, E2. unfold mark_check.
    rewrite (evidence_check_good c2 c3) by done.
    replace (OTA_CONFIRM_STABLE_N <=? mv_stable m2 + 1) with true
      by (unfold OTA_CONFIRM_STABLE_N; lia). done. }
  unfold ota_mark_valid_task. rewrite L, Hp. change (is_ok ESP_OK) with true. cbn [andb].
  by destruct (nvs_open OTA_NVS_NS true n).
Qed.

(** A station that streams: 20 frames and 4000 bytes per check. *)
Definition sample_check (i : Z) : check_in :=
  let fresh := mk_freshness [] [] [] true in
  mk_check (10000 * i)
    (mk_totals (20 * i) 0 0 0 (4000 * i) 0 0 0 0 0 0 0 1 1 true 0)
    (mk_health 0 0 0 0 true true true 0 0 0 0) fresh 60000 fresh.

Lemma ota_confirm_reached_witness :
  (ota_mark_valid_task (map sample_check [1; 2; 3; 4])
     (Some (mk_running false (Some IMG_PENDING_VERIFY))) ESP_OK flash_empty).1 = E_confirmed.
Proof.
  apply (ota_confirm_reached [] (sample_check 1) (sample_check 2) (sample_check 3) (sample_check 4)
           (Some (mk_running false (Some IMG_PENDING_VERIFY)))
           (mk_mark true false 0 20 4000 0) flash_empty); try done.
  all: repeat (apply Forall_cons; split; [vm_compute; intuition congruence|]); by apply Forall_nil.
Defined.

Lemma ota_confirm_needs_evidence_witness :
  exists seen p c1 c2 c3 later, map sample_check [1; 2; 3; 4] = seen ++ [p; c1; c2; c3] ++ later /\
    evidence p c1 /\ evidence c1 c2 /\ evidence c2 c3.
Proof.
  destruct (ota_confirm_needs_evidence (map sample_check [1; 2; 3; 4])
     (Some (mk_running false (Some IMG_PENDING_VERIFY))) ESP_OK flash_empty)
    as (_ & _ & [E|(c & Hin & Hi & _)] & _); [exact E|].
  exfalso. apply list_elem_of_In in Hin. cbn in Hin. intuition (subst; discriminate).
Defined.
