(* ===== verification/OtaInstall.v ===== *)
(** * Downloading and applying an update (src/main/update.c)

    The HTTP client, the OTA slot and the partitions are libraries: each function
    takes their answers and says which calls it makes, with the data that goes
    into flash.  The two progress counters are the program's own state. *)

From S2P Require Import Prelude NetUtil Nvs OtaState.

(** ** Calls and answers *)

Inductive part := P_ota | P_spiffs | P_www.

Inductive ota_call :=
  | O_http_init (url : list Z) | O_http_open | O_http_fetch | O_http_close | O_http_cleanup
  | O_ota_begin (size : Z) | O_ota_write (data : list Z) | O_ota_end | O_ota_abort | O_set_boot
  | O_erase (p : part) | O_write (p : part) (off : Z) (data : list Z) | O_read (p : part) (off n : Z)
  | O_started | O_progress (percent : Z) | O_completed | O_restart.

(** [ota_update_init]: whether [ota_event_loop] exists; the staging file system that
    cannot be mounted ([spiffs]) is only logged. *)
Definition ota_update_init (spiffs loop : Z) : bool := is_ok loop.

(** One [esp_http_client_read] that delivers data, and the answer of the write
    that follows it. *)
Record chunk := mk_chunk { ch_data : list Z; ch_write : Z }.

(** What one download meets. *)
Record dl_env := mk_dl {
  d_heap : Z;
  d_init : bool;               (* the client could be created *)
  d_open : Z;
  d_headers : Z;               (* content length *)
  d_status : Z;
  d_part : option Z;           (* the target partition: its size *)
  d_begin : Z;                 (* esp_ota_begin, or the erase of the staging partition *)
  d_chunks : list chunk;
  d_last : Z;                  (* what the read after the last chunk returns: <= 0 *)
  d_end : Z;
  d_boot : Z;
  d_transport : bool           (* transport known: the connection is closed *)
}.

(** [total_file_size], [total_file_write]. *)
Record totals_t := mk_ft { ft_size : Z; ft_write : Z }.

(** Accounts for [n] bytes and posts the progress. *)
Definition note_progress (n : Z) (t : totals_t) : totals_t * ota_call :=
  let w := i32 (ft_write t + n) in
  let progress := if 0 <? ft_size t then Z.quot (i32 (w * 100)) (ft_size t) else 0 in
  (mk_ft (ft_size t) w, O_progress progress).

(** Close and free, at the end of each function. *)
Definition http_done (transport : bool) : list ota_call :=
  (if transport then [O_http_close] else []) ++ [O_http_cleanup].

(** ** The application image *)

(** The download loop: the write error if one broke it. *)
Fixpoint ota_download (chunks : list chunk) (t : totals_t) : list ota_call * totals_t * option Z :=
  match chunks with
  | [] => ([], t, None)
  | c :: cs =>
    if negb (is_ok (ch_write c)) then ([O_ota_write (ch_data c)], t, Some (ch_write c))
    else
      let '(t, p) := note_progress (zlen (ch_data c)) t in
      let '(tr, t, brk) := ota_download cs t in
      (O_ota_write (ch_data c) :: p :: tr, t, brk)
  end.

(** From [esp_ota_begin] on. *)
Definition ota_apply (e : dl_env) (t : totals_t) : Z * list ota_call * totals_t :=
  if negb (is_ok (d_begin e)) then (d_begin e, [O_ota_begin (d_headers e)], t)
  else
    let '(tr, t, brk) := ota_download (d_chunks e) t in
    let tr := O_ota_begin (d_headers e) :: tr in
    if (match brk with Some _ => false | None => d_last e <? 0 end) ||
       (match brk with Some _ => true | None => false end)
    then (ESP_FAIL, tr ++ [O_ota_abort], t)
    else if negb (ft_write t =? d_headers e) then (ESP_FAIL, tr ++ [O_ota_abort], t)
    else if negb (is_ok (d_end e)) then (d_end e, tr ++ [O_ota_end], t)
    else (d_boot e, tr ++ [O_ota_end; O_set_boot], t).

Definition ota_update_firmware (url : list Z) (e : dl_env) (t : totals_t)
    : Z * list ota_call * totals_t :=
  if d_heap e <? MIN_OTA_HEAP then (ESP_FAIL, [], t)
  else if negb (d_init e) then (ESP_FAIL, [O_http_init url], t)
  else
    let '(err, tr, t) :=
      if negb (is_ok (d_open e)) then (d_open e, [], t)
      else
        match d_part e with
        | None => (ESP_FAIL, [], t)
        | Some _ =>
          let '(err, tr, t) :=
            if negb (d_status e =? 200) then (ESP_FAIL, [], t)
            else if d_headers e <=? 0 then (ESP_FAIL, [], t)
            else ota_apply e t in
          (err, O_http_fetch :: tr, t)
        end in
    (err, O_http_init url :: O_http_open :: tr ++ http_done (d_transport e), t).

(** ** The web partition *)

(** The two partitions' sizes and the answers of copying: the data and the error
    of a read, and the error of a write, at an offset. *)
Record copy_env := mk_copy {
  c_www : option Z;
  c_spiffs : option Z;
  c_erase : Z;
  c_read : Z -> Z -> Z * list Z;
  c_write : Z -> Z
}.

(** The copying loop from [offset]; [fuel] is a number of 1024-byte blocks. *)
Fixpoint copy_loop (fuel : nat) (e : copy_env) (size offset err : Z) : Z * list ota_call :=
  match fuel with
  | O => (err, [])
  | Datatypes.S fuel' =>
    if offset <? size then
      let read_size := if size <? offset + 1024 then size - offset else 1024 in
      let '(err, buffer) := c_read e offset read_size in
      if negb (is_ok err) then (err, [O_read P_spiffs offset read_size])
      else
        let err := c_write e offset in
        let tr := [O_read P_spiffs offset read_size; O_write P_www offset buffer] in
        if negb (is_ok err) then (err, tr)
        else let '(err, tr') := copy_loop fuel' e size (offset + read_size) err in (err, tr ++ tr')
    else (err, [])
  end.

Definition copy_fuel (size : Z) : nat := Z.to_nat ((size + 1023) / 1024).

Definition copy_file_to_www_partition (e : copy_env) : Z * list ota_call :=
  match c_www e, c_spiffs e with
  | Some _, Some size =>
    if negb (is_ok (c_erase e)) then (c_erase e, [O_erase P_www])
    else
      let '(err, tr) := copy_loop (copy_fuel size) e size 0 (c_erase e) in
      (err, O_erase P_www :: tr)
  | _, _ => (ESP_FAIL, [])
  end.

(** The staging loop: the offset reached and whether a write broke it. *)
Fixpoint spiffs_download (chunks : list chunk) (offset : Z) (t : totals_t)
    : list ota_call * Z * totals_t * bool :=
  match chunks with
  | [] => ([], offset, t, false)
  | c :: cs =>
    if negb (is_ok (ch_write c)) then ([O_write P_spiffs offset (ch_data c)], offset, t, true)
    else
      let '(t, p) := note_progress (zlen (ch_data c)) t in
      let '(tr, offset', t, brk) := spiffs_download cs (i32 (offset + zlen (ch_data c))) t in
      (O_write P_spiffs offset (ch_data c) :: p :: tr, offset', t, brk)
  end.

(** From the erase of the staging partition on. *)
Definition spiffs_apply (e : dl_env) (c : copy_env) (t : totals_t) : Z * list ota_call * totals_t :=
  if negb (is_ok (d_begin e)) then (ESP_FAIL, [O_erase P_spiffs], t)
  else
    let '(tr, offset, t, brk) := spiffs_download (d_chunks e) 0 t in
    let data_read := if brk then -1 else d_last e in
    if data_read <? 0 then (ESP_FAIL, O_erase P_spiffs :: tr, t)
    else if negb (offset =? d_headers e) then (ESP_FAIL, O_erase P_spiffs :: tr, t)
    else
      let '(err, ctr) := copy_file_to_www_partition c in
      (err, O_erase P_spiffs :: tr ++ ctr, t).

Definition update_SPIFFS (url : list Z) (e : dl_env) (c : copy_env) (t : totals_t)
    : Z * list ota_call * totals_t :=
  if d_heap e <? MIN_OTA_HEAP then (ESP_FAIL, [], t)
  else if negb (d_init e) then (ESP_FAIL, [O_http_init url], t)
  else
    let '(err, tr, t) :=
      if negb (is_ok (d_open e)) then (d_open e, [], t)
      else
        let '(err, tr, t) :=
          if negb (d_status e =? 200) then (ESP_FAIL, [], t)
          else if d_headers e <=? 0 then (ESP_FAIL, [], t)
          else match d_part e with
               | None => (ESP_FAIL, [], t)
               | Some _ => spiffs_apply e c t
               end in
        (err, O_http_fetch :: tr, t) in
    (err, O_http_init url :: O_http_open :: tr ++ http_done (d_transport e), t).

(** ** All files of a manifest *)

Definition WWW_BIN : list Z := Eval compute in of_str "www.bin".
Definition isWWWBinFile (url : list Z) : bool :=
  match str_find (fun c => c) url WWW_BIN with Some _ => true | None => false end.

(** One element of the array: its string, if it is one, what the size request
    meets, and what the download meets. *)
Record file_t := mk_file {
  fi_url : option (list Z);
  fi_size : bool * Z * Z * bool;   (* init, open, content length, transport *)
  fi_dl : dl_env;
  fi_copy : copy_env
}.

Fixpoint size_loop (fs : list file_t) (size : Z) : Z * list ota_call :=
  match fs with
  | [] => (size, [])
  | f :: fs =>
    match fi_url f with
    | None => size_loop fs size
    | Some url =>
      let '(init, open, len, transport) := fi_size f in
      if negb init then
        let '(s, tr) := size_loop fs size in (s, O_http_init url :: tr)
      else
        let '(size, tr0) := if negb (is_ok open) then (size, []) else (i32 (size + len), [O_http_fetch]) in
        let '(s, tr) := size_loop fs size in
        (s, O_http_init url :: O_http_open :: tr0 ++ http_done transport ++ tr)
    end
  end.

(** The counters are global; [files] is [None] when the JSON is not an array. *)
Definition calculate_total_file_size (files : option (list file_t)) : totals_t * list ota_call :=
  match files with
  | None => (mk_ft 0 0, [])
  | Some fs => let '(s, tr) := size_loop fs 0 in (mk_ft s 0, tr)
  end.

(** The loop of [updateFirmware]: whether every file was applied. *)
Fixpoint update_files (fs : list file_t) (t : totals_t) : bool * list ota_call * totals_t :=
  match fs with
  | [] => (true, [], t)
  | f :: fs =>
    match fi_url f with
    | None => update_files fs t
    | Some url =>
      let '(err, tr, t) := if negb (isWWWBinFile url) then ota_update_firmware url (fi_dl f) t
                           else update_SPIFFS url (fi_dl f) (fi_copy f) t in
      if is_ok err then let '(ok, tr', t) := update_files fs t in (ok, tr ++ tr', t)
      else (false, tr, t)
    end
  end.

Section Install.
Context `{Nvs St}.

(** [updateFirmware]: whether it restarts (it does not return then), its calls
    and the store. *)
Definition updateFirmware (fs : list file_t) (n : St) : bool * list ota_call * St :=
  let '(t, tr0) := calculate_total_file_size (Some fs) in
  let '(ok, tr, _) := update_files fs t in
  let tr := O_started :: tr0 ++ tr ++ [O_completed] in
  if ok then (true, tr ++ [O_restart], ota_note_planned_reboot n) else (false, tr, n).

(** ** The manifest and the checks *)

(** What [ota_fetch_json_from_url] meets. *)
Record fetch_env (J : Type) := mk_fetch {
  fe_init : bool;
  fe_open : Z;
  fe_headers : Z;
  fe_malloc : bool;
  fe_read : option (list Z);   (* None: a negative length *)
  fe_parse : list Z -> option J
}.

Definition ota_fetch_json_from_url {J} (e : fetch_env J) : option J :=
  if negb (fe_init _ e) then None
  else if is_ok (fe_open _ e) then
    if fe_headers _ e <? 0 then None
    else if negb (fe_malloc _ e) then None
    else match fe_read _ e with
         | None => None
         | Some response => fe_parse _ e response
         end
  else None.

(** The fields of a parsed manifest, when they have the right type. *)
Record manifest_t := mk_manifest { ma_version : option (list Z); ma_files : option (list file_t) }.

(** What the boot check meets after it has the manifest: the heap before, the
    readings of the polling loop, whether the station has an address, and the
    heap at the budget check. *)
Record room_t := mk_room { rm_heap : Z; rm_poll : list Z; rm_ip : bool; rm_heap_now : Z }.

(** The polling loop: how often it sleeps. *)
Fixpoint poll_heap (i : nat) (readings : list Z) : nat :=
  match i with
  | O => O
  | Datatypes.S i' =>
    match readings with
    | h :: readings => if h <? MIN_OTA_HEAP then Datatypes.S (poll_heap i' readings) else O
    | [] => O
    end
  end.

Inductive boot_result :=
  | B_no_manifest | B_invalid | B_not_newer | B_no_ip | B_no_heap | B_given_up
  | B_failed (calls : list ota_call) | B_restarts (calls : list ota_call).

(** The result, the number of polling sleeps when the set-up network was asked to
    close, and the store. *)
Definition ota_boot_check (manifest : option manifest_t) (rm : room_t) (n : St)
    : boot_result * option nat * St :=
  match manifest with
  | None => (B_no_manifest, None, n)
  | Some m =>
    match ma_version m, ma_files m with
    | Some new_version, Some files =>
      if ota_version_is_newer new_version FW_VERSION then
        let tight := rm_heap rm <? MIN_OTA_HEAP in
        let asked := if tight then Some (poll_heap 30 (rm_poll rm)) else None in
        if tight && negb (rm_ip rm) then (B_no_ip, asked, n)
        else if rm_heap_now rm <? MIN_OTA_HEAP then (B_no_heap, asked, n)
        else
          let '(allowed, n) := ota_attempt_allowed new_version n in
          if negb allowed then (B_given_up, asked, n)
          else
            let '(restarts, calls, n) := updateFirmware files n in
            (if restarts then B_restarts calls else B_failed calls, asked, n)
      else (B_not_newer, None, n)
    | _, _ => (B_invalid, None, n)
    end
  end.

(** [ota_boot_check_blocking]: the check runs on its own task, when the semaphore
    and the task can be created; the caller goes on after it otherwise. *)
Definition ota_boot_check_blocking (semaphore task : bool) (manifest : option manifest_t)
    (rm : room_t) (n : St) : option boot_result * St :=
  if semaphore && task then
    let '(r, _, n) := ota_boot_check manifest rm n in (Some r, n)
  else (None, n).

(** One turn of [ota_check_newupdate]: [checkUpdates], and what it did. *)
Definition ota_check_newupdate_turn (checkUpdates : bool) (manifest : option manifest_t) (n : St)
    : bool * option (bool * list ota_call) * St :=
  if checkUpdates then
    match manifest with
    | Some m =>
      match ma_version m, ma_files m with
      | Some v, Some files =>
        if bytes_eqb v FW_VERSION then (false, None, n)
        else let '(restarts, calls, n) := updateFirmware files n in (false, Some (restarts, calls), n)
      | _, _ => (false, None, n)
      end
    | None => (false, None, n)
    end
  else (false, None, n).

(** One turn of [ota_schedule_check_newupdate] at [hour]:[min]: the flag of the
    loop, and whether it restarts. *)
Definition daily_check_turn (hour min : Z) (checked_this_minute : bool) (manifest : option manifest_t)
    (n : St) : bool * bool * St :=
  if (hour =? 0) && (min =? 0) then
    if checked_this_minute then (true, false, n)
    else
      match manifest with
      | None => (true, false, n)
      | Some m =>
        match ma_version m with
        | None => (true, false, n)
        | Some v =>
          if ota_version_is_newer v FW_VERSION then
            let '(exhausted, n) := ota_attempts_exhausted v n in
            if exhausted then (true, false, n) else (true, true, ota_note_planned_reboot n)
          else (true, false, n)
        end
      end
  else (false, false, n).
End Install.

(** ** Reading a trace *)

Definition count_calls (f : ota_call -> bool) (tr : list ota_call) : Z := zlen (List.filter f tr).
Definition is_handle_end (c : ota_call) : bool :=
  match c with O_ota_end | O_ota_abort => true | _ => false end.
Definition is_cleanup (c : ota_call) : bool := match c with O_http_cleanup => true | _ => false end.
Definition is_set_boot (c : ota_call) : bool := match c with O_set_boot => true | _ => false end.

(** The image the trace writes. *)
Definition image_of (tr : list ota_call) : list Z :=
  concat (map (fun c => match c with O_ota_write d => d | _ => [] end) tr).

(** What it writes to a partition, with the offsets. *)
Definition writes_to (p : part) (tr : list ota_call) : list (Z * list Z) :=
  concat (map (fun c => match c, p with
                        | O_write P_spiffs off d, P_spiffs => [(off, d)]
                        | O_write P_www off d, P_www => [(off, d)]
                        | _, _ => []
                        end) tr).

(** The writes lie end to end from [off] on. *)
Fixpoint end_to_end (off : Z) (ws : list (Z * list Z)) : Prop :=
  match ws with
  | [] => True
  | (o, d) :: ws => o = off /\ end_to_end (off + zlen d) ws
  end.

Definition erases_www (c : ota_call) : bool := match c with O_erase P_www => true | _ => false end.

Definition body (cs : list chunk) : list Z := concat (map ch_data cs).

(** The download gets as far as an open update handle. *)
Definition begun (e : dl_env) : bool :=
  (MIN_OTA_HEAP <=? d_heap e) && d_init e && is_ok (d_open e) &&
  match d_part e with Some _ => true | None => false end &&
  (d_status e =? 200) && (0 <? d_headers e) && is_ok (d_begin e).

Lemma count_app f a b : count_calls f (a ++ b) = count_calls f a + count_calls f b.
Proof. unfold count_calls. by rewrite List.filter_app, zlen_app. Qed.
Lemma image_app a b : image_of (a ++ b) = image_of a ++ image_of b.
Proof. unfold image_of. by rewrite map_app, concat_app. Qed.
Lemma writes_app p a b : writes_to p (a ++ b) = writes_to p a ++ writes_to p b.
Proof. unfold writes_to. by rewrite map_app, concat_app. Qed.

Lemma end_to_end_app off a b :
  end_to_end off (a ++ b) <-> end_to_end off a /\ end_to_end (off + zlen (concat (map snd a))) b.
Proof.
  revert off. induction a as [|[o d] a IH]; intros off; cbn [app end_to_end map concat snd].
  - rewrite zlen_nil, Z.add_0_r. tauto.
  - rewrite IH, zlen_app, Z.add_assoc. tauto.
Qed.

Lemma http_done_counts b :
  count_calls is_handle_end (http_done b) = 0 /\ count_calls is_cleanup (http_done b) = 1 /\
  count_calls is_set_boot (http_done b) = 0 /\ image_of (http_done b) = [] /\
  count_calls erases_www (http_done b) = 0.
Proof. by destruct b. Qed.

(** ** The application image *)

Lemma ota_download_spec cs : forall t,
  0 <= ft_write t -> ft_write t + zlen (body cs) < 2 ^ 31 ->
  let '(tr, t', brk) := ota_download cs t in
  count_calls is_handle_end tr = 0 /\ count_calls is_cleanup tr = 0 /\
  count_calls is_set_boot tr = 0 /\
  (brk = None -> image_of tr = body cs /\ ft_write t' = ft_write t + zlen (body cs)).
Proof.
  induction cs as [|c cs IH]; intros t H0 Hb; cbn [ota_download].
  { split_and!; try done. intros _. change (zlen (body [])) with 0. split; [done|lia]. }
  change (body (c :: cs)) with (ch_data c ++ body cs) in Hb |- *. rewrite zlen_app in Hb |- *.
  pose proof (zlen_nonneg (ch_data c)). pose proof (zlen_nonneg (body cs)).
  destruct (is_ok (ch_write c)); cbn [negb]; [|done].
  unfold note_progress. rewrite i32_small by lia.
  specialize (IH (mk_ft (ft_size t) (ft_write t + zlen (ch_data c))) ltac:(cbn; lia) ltac:(cbn; lia)).
  destruct (ota_download cs _) as [[tr t'] brk]. destruct IH as (I1 & I2 & I3 & I4).
  split_and!; try done. intros E. destruct (I4 E) as [Ei Et]. cbn [ft_write] in Et.
  change (image_of (O_ota_write (ch_data c) :: ?x :: tr)) with (ch_data c ++ image_of tr).
  rewrite Et. split; [|lia].
  unfold image_of in *. cbn [map concat]. by rewrite <- Ei.
Qed.

Lemma ota_apply_spec e t :
  0 <= ft_write t -> ft_write t + zlen (body (d_chunks e)) < 2 ^ 31 ->
  let '(err, tr, t') := ota_apply e t in
  count_calls is_handle_end tr = (if is_ok (d_begin e) then 1 else 0) /\
  count_calls is_cleanup tr = 0 /\
  (count_calls is_set_boot tr = 1 /\ is_ok (d_begin e) = true /\ err = d_boot e /\
   image_of tr = body (d_chunks e) /\ ft_write t + zlen (image_of tr) = d_headers e /\
   0 <= d_last e \/
   count_calls is_set_boot tr = 0 /\ err <> ESP_OK).
Proof.
  intros H0 Hb. unfold ota_apply.
  destruct (is_ok (d_begin e)) eqn:B; cbn [negb].
  2: { split_and!; try done. right. split; [done|]. intros E. by rewrite E in B. }
  pose proof (ota_download_spec (d_chunks e) t H0 Hb) as D.
  destruct (ota_download (d_chunks e) t) as [[tr t'] brk]. destruct D as (D1 & D2 & D3 & D4).
  change (O_ota_begin (d_headers e) :: tr) with ([O_ota_begin (d_headers e)] ++ tr).
  assert (Hp : forall x, image_of (([O_ota_begin (d_headers e)] ++ tr) ++ x) = image_of tr ++ image_of x)
    by (intros; by rewrite !image_app).
  destruct brk as [w|]; cbn [orb].
  { rewrite !count_app, D1, D2, D3. split_and!; try done. by right. }
  destruct D4 as [Di Dt]; [done|]. rewrite Dt, orb_false_r.
  destruct (Z.ltb_spec (d_last e) 0).
  { rewrite !count_app, D1, D2, D3. split_and!; try done. by right. }
  destruct (Z.eqb_spec (ft_write t + zlen (body (d_chunks e))) (d_headers e)); cbn [negb].
  2: { rewrite !count_app, D1, D2, D3. split_and!; try done. by right. }
  destruct (is_ok (d_end e)) eqn:E; cbn [negb]; rewrite !count_app, D1, D2, D3; split_and!; try done.
  - left. rewrite Hp, app_nil_r, Di. done.
  - right. split; [done|]. intros E'. by rewrite E' in E.
Qed.

Lemma ota_update_firmware_spec url e t :
  0 <= ft_write t -> ft_write t + zlen (body (d_chunks e)) < 2 ^ 31 ->
  let '(err, tr, t') := ota_update_firmware url e t in
  count_calls is_handle_end tr = (if begun e then 1 else 0) /\
  count_calls is_cleanup tr = (if (MIN_OTA_HEAP <=? d_heap e) && d_init e then 1 else 0) /\
  (count_calls is_set_boot tr = 1 /\ err = d_boot e /\ d_status e = 200 /\
   image_of tr = body (d_chunks e) /\ ft_write t + zlen (image_of tr) = d_headers e \/
   count_calls is_set_boot tr = 0 /\ err <> ESP_OK).
Proof.
  intros H0 Hb. unfold ota_update_firmware, begun.
  destruct (Z.ltb_spec (d_heap e) MIN_OTA_HEAP); [replace (MIN_OTA_HEAP <=? d_heap e) with false by lia|
    replace (MIN_OTA_HEAP <=? d_heap e) with true by lia].
  { split_and!; try done. by right. }
  destruct (d_init e); cbn [negb andb]; [|split_and!; try done; by right].
  destruct (http_done_counts (d_transport e)) as (C1 & C2 & C3 & C4 & _).
  assert (Hc : forall f tr, f (O_http_init url) = false -> f O_http_open = false ->
     count_calls f (O_http_init url :: O_http_open :: tr ++ http_done (d_transport e)) =
     count_calls f tr + count_calls f (http_done (d_transport e))).
  { intros f tr F1 F2. rewrite <- count_app. unfold count_calls. cbn [List.filter]. by rewrite F1, F2. }
  assert (Hi : forall tr, image_of (O_http_init url :: O_http_open :: tr ++ http_done (d_transport e)) = image_of tr).
  { intros tr. change (image_of (tr ++ http_done (d_transport e)) = image_of tr).
    by rewrite image_app, C4, app_nil_r. }
  destruct (is_ok (d_open e)) eqn:O; cbn [negb andb].
  2: { rewrite !Hc, C1, C2, C3 by done. split_and!; try done. right. split; [done|].
       intros E. by rewrite E in O. }
  destruct (d_part e); [|rewrite !Hc, C1, C2, C3 by done; split_and!; try done; by right].
  destruct (Z.eqb_spec (d_status e) 200); cbn [negb andb];
    [|rewrite !Hc, C1, C2, C3 by done; split_and!; try done; by right].
  destruct (Z.leb_spec (d_headers e) 0);
    [replace (0 <? d_headers e) with false by lia; rewrite !Hc, C1, C2, C3 by done; split_and!; try done; by right|
     replace (0 <? d_headers e) with true by lia].
  pose proof (ota_apply_spec e t H0 Hb) as A. destruct (ota_apply e t) as [[err tr] t'].
  destruct A as (A1 & A2 & A3). rewrite !Hc, C1, C2, C3, Hi by done.
  change (O_http_fetch :: tr) with ([O_http_fetch] ++ tr).
  rewrite !count_app, image_app, A1, A2. cbn [andb].
  split; [by destruct (is_ok (d_begin e))|]. split; [done|]. destruct A3 as [(B1 & _ & B3 & B4 & B5 & _)|[B1 B2]]; [left|right].
  - rewrite B1. change (image_of [O_http_fetch] ++ image_of tr) with (image_of tr). done.
  - by rewrite B1.
Qed.

(** C13: when the boot partition is switched.  Whatever fails on the way, an update handle
    that was opened is ended or aborted exactly once and the client is freed exactly
    once; and the boot partition is switched only after a 200 answer, the bytes in flash
    being the bytes received, in order, if the bytes of this image and of all files of
    the manifest before it are together as many as this image's announced length.  The
    call reports success only then.  So the first file of a manifest is switched to only if
    it is as long as announced; but a later image is switched to only if it is
    too short by exactly the bytes of the files before it, and never if it is whole. *)
Theorem ota_boot_switch url e t :
  0 <= ft_write t -> ft_write t + zlen (body (d_chunks e)) < 2 ^ 31 ->
  let '(err, tr, t') := ota_update_firmware url e t in
  count_calls is_handle_end tr = (if begun e then 1 else 0) /\
  count_calls is_cleanup tr = (if (MIN_OTA_HEAP <=? d_heap e) && d_init e then 1 else 0) /\
  (count_calls is_set_boot tr = 1 /\ err = d_boot e /\ d_status e = 200 /\
   image_of tr = body (d_chunks e) /\ ft_write t + zlen (image_of tr) = d_headers e \/
   count_calls is_set_boot tr = 0 /\ err <> ESP_OK) /\
  (ft_write t = 0 -> count_calls is_set_boot tr = 1 -> zlen (image_of tr) = d_headers e) /\
  (0 < ft_write t -> zlen (body (d_chunks e)) = d_headers e -> count_calls is_set_boot tr = 0 /\ err <> ESP_OK).
Proof.
  intros H0 Hb. pose proof (ota_update_firmware_spec url e t H0 Hb) as S.
  destruct (ota_update_firmware url e t) as [[err tr] t']. destruct S as (S1 & S2 & S3).
  split_and!; [done..|intros Et E|intros Ht Hl]; destruct S3 as [(G1 & G2 & G3 & G4 & G5)|[G1 G2]]; try lia; try done.
  rewrite G4 in G5. lia.
Qed.

(** After a file of five bytes: an image of three bytes where eight were announced is
    switched to. *)
Example short_image_switched :
  let e := mk_dl 120000 true ESP_OK 8 200 (Some 1000) ESP_OK [mk_chunk [1; 2; 3] ESP_OK] 0 ESP_OK ESP_OK true in
  let '(err, tr, _) := ota_update_firmware (of_str "https://x/fw.bin") e (mk_ft 13 5) in
  err = ESP_OK /\ count_calls is_set_boot tr = 1 /\ image_of tr = [1; 2; 3].
Proof. by vm_compute. Qed.

Lemma ota_boot_switch_witness :
  let e := mk_dl 120000 true ESP_OK 5 200 (Some 1000) ESP_OK
             [mk_chunk [1; 2; 3] ESP_OK; mk_chunk [4; 5] ESP_OK] 0 ESP_OK ESP_OK true in
  let '(err, tr, _) := ota_update_firmware (of_str "https://x/fw.bin") e (mk_ft 5 0) in
  err = ESP_OK /\ count_calls is_handle_end tr = 1 /\ image_of tr = [1; 2; 3; 4; 5].
Proof.
  cbv zeta.
  pose proof (ota_boot_switch (of_str "https://x/fw.bin")
    (mk_dl 120000 true ESP_OK 5 200 (Some 1000) ESP_OK
       [mk_chunk [1; 2; 3] ESP_OK; mk_chunk [4; 5] ESP_OK] 0 ESP_OK ESP_OK true) (mk_ft 5 0)
    ltac:(by vm_compute) ltac:(by vm_compute)) as G.
  destruct (ota_update_firmware _ _ _) as [[err tr] t'] eqn:E. vm_compute in E.
  injection E as <- <- <-. destruct G as (G1 & _ & [(_ & G2 & _ & G3 & _)|[G _]] & _); [|discriminate G].
  split; [exact G2|]. split; [exact G1|exact G3].
Defined.

(** ** The web partition *)

Definition written (p : part) (tr : list ota_call) : list Z := concat (map snd (writes_to p tr)).

Lemma written_app p a b : written p (a ++ b) = written p a ++ written p b.
Proof. unfold written. by rewrite writes_app, map_app, concat_app. Qed.

Section Copy.
Variables (e : copy_env) (content : list Z).
(** The staging partition holds [content]: a read that succeeds delivers it. *)
Hypothesis Hread : forall off n, (c_read e off n).1 = ESP_OK ->
  (c_read e off n).2 = ztake n (zdrop off content).

Lemma copy_loop_spec fuel : forall offset,
  0 <= offset <= zlen content -> zlen content - offset <= 1024 * Z.of_nat fuel ->
  let '(err, tr) := copy_loop fuel e (zlen content) offset ESP_OK in
  writes_to P_spiffs tr = [] /\ count_calls erases_www tr = 0 /\
  (err = ESP_OK -> end_to_end offset (writes_to P_www tr) /\ written P_www tr = zdrop offset content).
Proof.
  induction fuel as [|fuel IH]; intros offset Ho Hf; cbn [copy_loop].
  { split_and!; try done. intros _. split; [done|]. by rewrite zdrop_ge by lia. }
  destruct (Z.ltb_spec offset (zlen content)).
  2: { split_and!; try done. intros _. split; [done|]. by rewrite zdrop_ge by lia. }
  set (n := if zlen content <? offset + 1024 then zlen content - offset else 1024).
  assert (Hn : 0 < n <= zlen content - offset /\ (n = 1024 \/ n = zlen content - offset)).
  { unfold n. case_if; lia. }
  clearbody n. pose proof (Hread offset n) as R. destruct (c_read e offset n) as [err buf].
  cbn [fst snd] in R. unfold is_ok. destruct (Z.eqb_spec err ESP_OK) as [->|]; cbn [negb]; [|done].
  specialize (R eq_refl). subst buf.
  destruct (Z.eqb_spec (c_write e offset) ESP_OK) as [->|]; cbn [negb]; [|done].
  specialize (IH (offset + n) ltac:(lia) ltac:(lia)).
  destruct (copy_loop fuel e (zlen content) (offset + n) ESP_OK) as [err tr].
  destruct IH as (I1 & I2 & I3). rewrite !writes_app, count_app, written_app, I1, I2.
  split_and!; try done. intros E. destruct (I3 E) as [I4 I5]. rewrite I5.
  change (writes_to P_www [O_read P_spiffs offset n; O_write P_www offset (ztake n (zdrop offset content))])
    with [(offset, ztake n (zdrop offset content))].
  assert (Hl : zlen (ztake n (zdrop offset content)) = n) by (apply zlen_ztake_le; rewrite zlen_zdrop; lia).
  split; [cbn [app end_to_end]; by rewrite Hl|].
  change (written P_www [O_read P_spiffs offset n; O_write P_www offset (ztake n (zdrop offset content))])
    with (ztake n (zdrop offset content) ++ []).
  rewrite app_nil_r, <- zdrop_zdrop by lia. apply ztake_zdrop.
Qed.

Lemma copy_spec : c_spiffs e = Some (zlen content) ->
  let '(err, tr) := copy_file_to_www_partition e in
  writes_to P_spiffs tr = [] /\
  (err = ESP_OK -> end_to_end 0 (writes_to P_www tr) /\ written P_www tr = content /\
                   count_calls erases_www tr = 1).
Proof.
  intros Hs. unfold copy_file_to_www_partition. rewrite Hs. destruct (c_www e); [|done].
  unfold is_ok. destruct (Z.eqb_spec (c_erase e) ESP_OK) as [->|]; cbn [negb]; [|done].
  pose proof (zlen_nonneg content).
  pose proof (copy_loop_spec (copy_fuel (zlen content)) 0 ltac:(lia)) as L.
  assert (Hf : zlen content - 0 <= 1024 * Z.of_nat (copy_fuel (zlen content))).
  { unfold copy_fuel. pose proof (Z.mod_pos_bound (zlen content + 1023) 1024 ltac:(lia)).
    pose proof (Z.div_mod (zlen content + 1023) 1024 ltac:(lia)). lia. }
  specialize (L Hf). destruct (copy_loop _ _ _ _ _) as [err tr]. destruct L as (L1 & L2 & L3).
  change (O_erase P_www :: tr) with ([O_erase P_www] ++ tr).
  rewrite !writes_app, written_app, count_app, L1, L2. split; [done|]. intros E.
  destruct (L3 E) as [L4 L5]. rewrite L5. done.
Qed.
End Copy.

Lemma spiffs_download_spec cs : forall off t,
  0 <= off -> off + zlen (body cs) < 2 ^ 31 ->
  let '(tr, off', t', brk) := spiffs_download cs off t in
  writes_to P_www tr = [] /\ count_calls erases_www tr = 0 /\
  (brk = false -> end_to_end off (writes_to P_spiffs tr) /\ written P_spiffs tr = body cs /\
                  off' = off + zlen (body cs)).
Proof.
  induction cs as [|c cs IH]; intros off t H0 Hb; cbn [spiffs_download].
  { split_and!; try done. intros _. change (zlen (body [])) with 0. split_and!; try done. lia. }
  change (body (c :: cs)) with (ch_data c ++ body cs) in Hb |- *. rewrite zlen_app in Hb |- *.
  pose proof (zlen_nonneg (ch_data c)). pose proof (zlen_nonneg (body cs)).
  destruct (is_ok (ch_write c)); cbn [negb]; [|done].
  unfold note_progress. rewrite (i32_small (off + _)) by lia. set (t2 := mk_ft _ _).
  specialize (IH (off + zlen (ch_data c)) t2 ltac:(lia) ltac:(lia)).
  destruct (spiffs_download cs _ _) as [[[tr off'] t'] brk]. destruct IH as (I1 & I2 & I3).
  match goal with |- context [writes_to P_www (?x :: ?y :: tr)] =>
    change (x :: y :: tr) with ([x; y] ++ tr) end.
  rewrite !writes_app, count_app, written_app, I1, I2. split_and!; try done.
  intros E. destruct (I3 E) as (J1 & J2 & J3). rewrite J2.
  match goal with |- context [written P_spiffs ?x] =>
    change (written P_spiffs x) with (ch_data c ++ []); change (writes_to P_spiffs x) with [(off, ch_data c)] end.
  rewrite app_nil_r. cbn [app end_to_end]. split_and!; try done. lia.
Qed.

(** The calls around a download write to no partition and erase none. *)
Lemma framed_writes p url b tr : writes_to p (O_http_init url :: O_http_open :: tr ++ http_done b) = writes_to p tr.
Proof.
  change (writes_to p (tr ++ http_done b) = writes_to p tr). rewrite writes_app. destruct p, b; apply app_nil_r.
Qed.

Lemma framed_erases url b tr :
  count_calls erases_www (O_http_init url :: O_http_open :: tr ++ http_done b) = count_calls erases_www tr.
Proof.
  change (count_calls erases_www (tr ++ http_done b) = count_calls erases_www tr). rewrite count_app.
  destruct b; apply Z.add_0_r.
Qed.

Lemma staging_writes p tr : writes_to p (O_erase P_spiffs :: tr) = writes_to p tr.
Proof. by destruct p. Qed.

Lemma spiffs_apply_spec e c content t :
  (forall off n, (c_read c off n).1 = ESP_OK -> (c_read c off n).2 = ztake n (zdrop off content)) ->
  c_spiffs c = Some (zlen content) -> zlen (body (d_chunks e)) < 2 ^ 31 ->
  let '(err, tr, t') := spiffs_apply e c t in
  (0 < count_calls erases_www tr ->
   end_to_end 0 (writes_to P_spiffs tr) /\ concat (map snd (writes_to P_spiffs tr)) = body (d_chunks e) /\
   zlen (body (d_chunks e)) = d_headers e) /\
  (err = ESP_OK ->
   count_calls erases_www tr = 1 /\ end_to_end 0 (writes_to P_www tr) /\
   concat (map snd (writes_to P_www tr)) = content).
Proof.
  intros Hread Hs Hb. unfold spiffs_apply. destruct (is_ok (d_begin e)); cbn [negb]; [|done].
  pose proof (spiffs_download_spec (d_chunks e) 0 t ltac:(lia) Hb) as D.
  destruct (spiffs_download _ _ _) as [[[tr off] t'] brk]. destruct D as (D1 & D2 & D3). unfold written in D3.
  assert (N : forall tr', count_calls erases_www (O_erase P_spiffs :: tr') = count_calls erases_www tr') by done.
  destruct (_ <? 0) eqn:Eb; [rewrite N, D2; split; [lia|done]|]. destruct brk; [done|].
  destruct (D3 eq_refl) as (D4 & D5 & ->).
  destruct (Z.eqb_spec (0 + zlen (body (d_chunks e))) (d_headers e)); cbn [negb]; [|rewrite N, D2; split; [lia|done]].
  pose proof (copy_spec c content Hread Hs) as C. destruct (copy_file_to_www_partition c) as [err ctr].
  destruct C as [C1 C2]. unfold written in C2. rewrite !staging_writes, N, !writes_app, count_app, D1, D2, C1, app_nil_r.
  cbn [app]. split; [intros _; split_and!; try done; lia|]. intros E. destruct (C2 E) as (G1 & G2 & G3). by rewrite G3.
Qed.

(** C16: the live web partition is erased only after the new image was staged in
    full: a 200 answer, the received bytes end to end from offset 0, as many as
    announced.  When the call reports success the live partition was erased once
    and then written end to end with the staging partition's content. *)
Theorem www_replaced_only_when_staged url e c content t :
  (forall off n, (c_read c off n).1 = ESP_OK -> (c_read c off n).2 = ztake n (zdrop off content)) ->
  c_spiffs c = Some (zlen content) -> zlen (body (d_chunks e)) < 2 ^ 31 ->
  let '(err, tr, t') := update_SPIFFS url e c t in
  (0 < count_calls erases_www tr ->
   d_status e = 200 /\ end_to_end 0 (writes_to P_spiffs tr) /\
   written P_spiffs tr = body (d_chunks e) /\ zlen (body (d_chunks e)) = d_headers e) /\
  (err = ESP_OK ->
   count_calls erases_www tr = 1 /\ end_to_end 0 (writes_to P_www tr) /\ written P_www tr = content).
Proof.
  intros Hread Hs Hb. unfold update_SPIFFS, written.
  destruct (d_heap e <? MIN_OTA_HEAP); [done|]. destruct (d_init e); cbn [negb]; [|done].
  pose proof (spiffs_apply_spec e c content t Hread Hs Hb) as A.
  destruct (is_ok (d_open e)) eqn:O; cbn [negb];
    [|rewrite !framed_writes, framed_erases; split; [done|intros E; by rewrite E in O]].
  destruct (Z.eqb_spec (d_status e) 200); cbn [negb]; [|by rewrite !framed_writes, framed_erases].
  destruct (d_headers e <=? 0); [by rewrite !framed_writes, framed_erases|].
  destruct (d_part e); [|by rewrite !framed_writes, framed_erases].
  destruct (spiffs_apply e c t) as [[err tr] t']. rewrite !framed_writes, framed_erases. destruct A as [A1 A2].
  split; [|exact A2]. intros Hc. by destruct (A1 Hc).
Qed.

Lemma www_replaced_only_when_staged_witness :
  let content := repeat 7 1500 in
  let c := mk_copy (Some 1500) (Some 1500) ESP_OK
             (fun off n => (ESP_OK, ztake n (zdrop off content))) (fun _ => ESP_OK) in
  let e := mk_dl 120000 true ESP_OK 1500 200 (Some 1500) ESP_OK
             [mk_chunk (repeat 7 1024) ESP_OK; mk_chunk (repeat 7 476) ESP_OK] 0 ESP_OK ESP_OK true in
  let '(err, tr, _) := update_SPIFFS (of_str "https://x/www.bin") e c (mk_ft 1500 0) in
  err = ESP_OK /\ written P_www tr = content.
Proof.
  cbv zeta.
  set (e := mk_dl 120000 true ESP_OK 1500 200 (Some 1500) ESP_OK
             [mk_chunk (repeat 7 1024) ESP_OK; mk_chunk (repeat 7 476) ESP_OK] 0 ESP_OK ESP_OK true).
  set (c := mk_copy (Some 1500) (Some 1500) ESP_OK
             (fun off n => (ESP_OK, ztake n (zdrop off (repeat 7 1500)))) (fun _ => ESP_OK)).
  pose proof (www_replaced_only_when_staged (of_str "https://x/www.bin") e c (repeat 7 1500)
    (mk_ft 1500 0) ltac:(done) ltac:(by vm_compute) ltac:(by vm_compute)) as G.
  assert (E : (update_SPIFFS (of_str "https://x/www.bin") e c (mk_ft 1500 0)).1.1 = ESP_OK) by (by vm_compute).
  destruct (update_SPIFFS (of_str "https://x/www.bin") e c (mk_ft 1500 0)) as [[err tr] t'].
  cbn in E. split; [exact E|]. apply (proj2 G E).
Defined.

(** ** Boot check and daily check *)

(** The room for a download: enough heap at the budget check, and an address if
    the set-up network had to close first. *)
Definition has_room (rm : room_t) : Prop :=
  MIN_OTA_HEAP <= rm_heap_now rm /\ (rm_heap rm < MIN_OTA_HEAP -> rm_ip rm = true).

(** One night: the daily check at midnight and, if it restarts the device, the
    boot check that follows, under the same manifest. *)
Definition night `{Nvs St} (m : manifest_t) (rm : room_t) (n : St) : bool * St :=
  let '(_, restarts, n) := daily_check_turn 0 0 false (Some m) n in
  if restarts then (true, (ota_boot_check (Some m) rm n).2) else (false, n).

Fixpoint nights `{Nvs St} (m : manifest_t) (rms : list room_t) (n : St) : list bool :=
  match rms with
  | [] => []
  | rm :: rms => let '(r, n) := night m rm n in r :: nights m rms n
  end.

Section Checks.
Context `{NvsLaws St}.

Lemma note_planned_attempts version (n : St) :
  stored_attempts version (ota_note_planned_reboot n) = stored_attempts version n.
Proof.
  unfold ota_note_planned_reboot. destruct (open_rw OTA_NVS_NS n) as (n1 & -> & A1).
  change (is_ok ESP_OK) with true. cbn [negb].
  destruct (put_u8 OTA_KEY_PLANNED 1 n1 ltac:(lia)) as [_ A]. unfold stored_attempts.
  rewrite (agree_str _ _ _ _ _ (A OTA_KEY_FAILVER ltac:(done))), (agree_str _ _ _ _ _ (A1 _ OTA_KEY_FAILVER)).
  rewrite (agree_int _ _ _ _ _ (A OTA_KEY_FAILCNT ltac:(done))), (agree_int _ _ _ _ _ (A1 _ OTA_KEY_FAILCNT)).
  done.
Qed.

Lemma refused_step version (n : St) : (ota_attempt_allowed version n).1 = false ->
  MAX_OTA_ATTEMPTS <= stored_attempts version n /\
  forall v, stored_attempts v (ota_attempt_allowed version n).2 = stored_attempts v n.
Proof.
  unfold ota_attempt_allowed. destruct (open_rw OTA_NVS_NS n) as (n1 & -> & A1).
  change (is_ok ESP_OK) with true. cbn [negb].
  rewrite (stored_attempts_agree version n n1 (fun key => A1 _ key)).
  destruct (Z.leb_spec MAX_OTA_ATTEMPTS (stored_attempts version n)); [|done]. intros _. split; [done|].
  intros v. apply (stored_attempts_agree v n n1 (fun key => A1 _ key)).
Qed.

Lemma exhausted_attempts version (n : St) v :
  stored_attempts v (ota_attempts_exhausted version n).2 = stored_attempts v n.
Proof.
  unfold ota_attempts_exhausted. pose proof (open_agree OTA_NVS_NS false n) as A.
  destruct (nvs_open OTA_NVS_NS false n) as [e n1]. cbn [snd] in A.
  destruct (is_ok e); apply (stored_attempts_agree v n n1 (fun key => A _ key)).
Qed.

Lemma updateFirmware_spec fs (n : St) :
  let '(restarts, calls, n') := updateFirmware fs n in
  restarts = (update_files fs (calculate_total_file_size (Some fs)).1).1.1 /\
  (forall version, stored_attempts version n' = stored_attempts version n) /\
  (restarts = true -> planned n' = true) /\ (restarts = false -> n' = n).
Proof.
  unfold updateFirmware. destruct (calculate_total_file_size (Some fs)) as [t tr0]. cbn [fst].
  destruct (update_files fs t) as [[ok tr] t']. destruct ok; split_and!; try done.
  - intros. apply note_planned_attempts.
  - intros _. apply note_planned.
Qed.

(** The boot check counts an attempt for a version exactly when it goes on to
    download it: only for a strictly newer version, with enough heap and the
    budget not used up.  A missing or malformed manifest, an older version, no
    address and a low heap leave every count as it was.  It restarts exactly when
    every file of the manifest was applied, and announces that restart. *)
Theorem ota_boot_check_books_downloads manifest rm (n : St) :
  let '(r, asked, n') := ota_boot_check manifest rm n in
  match r with
  | B_failed _ | B_restarts _ =>
    exists m v fs, manifest = Some m /\ ma_version m = Some v /\ ma_files m = Some fs /\
      ota_version_is_newer v FW_VERSION = true /\ has_room rm /\
      (zlen v + 1 <= 24 -> stored_attempts v n < MAX_OTA_ATTEMPTS /\
                           stored_attempts v n' = stored_attempts v n + 1) /\
      let all_applied := (update_files fs (calculate_total_file_size (Some fs)).1).1.1 in
      match r with
      | B_restarts _ => all_applied = true /\ planned n' = true
      | _ => all_applied = false
      end
  | B_given_up =>
    (exists m v, manifest = Some m /\ ma_version m = Some v /\ MAX_OTA_ATTEMPTS <= stored_attempts v n) /\
    forall version, stored_attempts version n' = stored_attempts version n
  | _ => n' = n
  end.
Proof.
  unfold ota_boot_check. destruct manifest as [m|]; [|done].
  destruct (ma_version m) as [v|] eqn:Ev; [|done]. destruct (ma_files m) as [fs|] eqn:Ef; [|done].
  destruct (ota_version_is_newer v FW_VERSION) eqn:En; [|done].
  destruct ((rm_heap rm <? MIN_OTA_HEAP) && negb (rm_ip rm)) eqn:Ei; [done|].
  destruct (Z.ltb_spec (rm_heap_now rm) MIN_OTA_HEAP); [done|].
  assert (Hroom : has_room rm) by (split; [done|]; intros; destruct (rm_ip rm); [done|cbn in Ei; lia]).
  pose proof (allowed_step v n) as A.
  pose proof (refused_step v n) as R. destruct (ota_attempt_allowed v n) as [a n1]. cbn [fst snd] in A, R.
  destruct a; cbn [negb].
  2: { destruct (R eq_refl) as [R1 R2]. split; [|done]. by exists m, v. }
  pose proof (updateFirmware_spec fs n1) as U. destruct (updateFirmware fs n1) as [[restarts calls] n2].
  destruct U as (U1 & U2 & U3 & U4).
  assert (Hs : zlen v + 1 <= 24 -> stored_attempts v n < MAX_OTA_ATTEMPTS /\
                                   stored_attempts v n2 = stored_attempts v n + 1).
  { intros Hl. destruct (A Hl) as [A1 A2]. rewrite U2. split; [lia|done]. }
  destruct restarts; exists m, v, fs; split_and!; try done; auto.
Qed.

Lemma night_spec m v fs rm (n : St) :
  ma_version m = Some v -> ma_files m = Some fs -> zlen v + 1 <= 24 -> has_room rm ->
  let r := night m rm n in
  (r.1 = true -> stored_attempts v n < MAX_OTA_ATTEMPTS) /\
  stored_attempts v r.2 = stored_attempts v n + (if r.1 then 1 else 0).
Proof.
  intros Ev Ef Hl [Hh Hi]. cbv zeta. unfold night, daily_check_turn. rewrite Ev. cbn [Z.eqb andb].
  destruct (ota_version_is_newer v FW_VERSION) eqn:En; cbn [fst snd]; [|split; [done|lia]].
  pose proof (exhausted_step v n) as X. pose proof (exhausted_attempts v n v) as Xa.
  destruct (ota_attempts_exhausted v n) as [ex n1]. cbn [fst snd] in X, Xa.
  destruct ex; cbn [fst snd]; [split; [done|lia]|]. split; [intros _; unfold MAX_OTA_ATTEMPTS in *; lia|].
  set (n2 := ota_note_planned_reboot n1).
  assert (E2 : stored_attempts v n2 = stored_attempts v n) by (unfold n2; rewrite note_planned_attempts; done).
  unfold ota_boot_check. rewrite Ev, Ef, En.
  replace ((rm_heap rm <? MIN_OTA_HEAP) && negb (rm_ip rm)) with false
    by (destruct (Z.ltb_spec (rm_heap rm) MIN_OTA_HEAP); [by rewrite Hi|done]).
  replace (rm_heap_now rm <? MIN_OTA_HEAP) with false by lia.
  destruct (allowed_step v n2 Hl) as [A1 A2]. destruct (ota_attempt_allowed v n2) as [a n3].
  cbn [fst snd] in A1, A2. rewrite E2 in A1, A2.
  assert (a = true) as -> by (rewrite A1; unfold MAX_OTA_ATTEMPTS in *; lia). cbn [negb].
  pose proof (updateFirmware_spec fs n3) as U. destruct (updateFirmware fs n3) as [[restarts calls] n4].
  destruct U as (_ & U2 & _). cbn [snd]. by rewrite U2.
Qed.

(** Without room the restarts go on every night: a deferral is not counted, and
    the daily check does not ask whether there was room. *)
Lemma nightly_restarts_without_room m v fs rms (n : St) :
  ma_version m = Some v -> ma_files m = Some fs -> ota_version_is_newer v FW_VERSION = true ->
  stored_attempts v n < MAX_OTA_ATTEMPTS -> Forall (fun rm => rm_heap_now rm < MIN_OTA_HEAP) rms ->
  nights m rms n = map (fun _ => true) rms.
Proof.
  intros Ev Ef En Hs Hr. revert n Hs. induction Hr as [|rm rms Hrm Hr IH]; intros n Hs; [done|].
  cbn [nights map]. unfold night, daily_check_turn. rewrite Ev, En. cbn [Z.eqb andb].
  pose proof (exhausted_step v n) as X. pose proof (exhausted_attempts v n v) as Xa.
  destruct (ota_attempts_exhausted v n) as [ex n1]. cbn [fst snd] in X, Xa.
  assert (ex = false) as -> by (rewrite X; unfold MAX_OTA_ATTEMPTS in *; lia).
  unfold ota_boot_check. rewrite Ev, Ef, En. replace (rm_heap_now rm <? MIN_OTA_HEAP) with true by lia.
  destruct (_ && _); cbn [snd]; f_equal; apply IH; rewrite note_planned_attempts; lia.
Qed.
(** C34: a release that cannot be installed costs at most three restarts: night
    after night with the same manifest (a version of fewer than 24 characters) and
    room for the download, the daily check restarts the device no more than three
    times, however many nights pass.  Without that room it restarts every night:
    a deferral is not counted. *)
Theorem nightly_restarts_bounded m v fs rms (n : St) :
  ma_version m = Some v -> ma_files m = Some fs ->
  (zlen v + 1 <= 24 -> Forall has_room rms ->
   zlen (List.filter (fun r => r) (nights m rms n)) <= MAX_OTA_ATTEMPTS) /\
  (ota_version_is_newer v FW_VERSION = true -> stored_attempts v n < MAX_OTA_ATTEMPTS ->
   Forall (fun rm => rm_heap_now rm < MIN_OTA_HEAP) rms -> nights m rms n = map (fun _ => true) rms).
Proof.
  intros Ev Ef. split; [intros Hl Hr|by apply nightly_restarts_without_room with fs].
  assert (G : forall n, zlen (List.filter (fun r => r) (nights m rms n)) <=
                        Z.max 0 (MAX_OTA_ATTEMPTS - stored_attempts v n)).
  { induction Hr as [|rm rms Hrm Hr IH]; intros k; cbn [nights]; [cbn [List.filter]; rewrite zlen_nil; lia|].
    destruct (night_spec m v fs rm k Ev Ef Hl Hrm) as [N1 N2].
    destruct (night m rm k) as [r k']. cbn [fst snd] in N1, N2. specialize (IH k'). rewrite N2 in IH.
    destruct r; cbn [List.filter]; [rewrite zlen_cons; specialize (N1 eq_refl)|]; lia. }
  pose proof (G n). pose proof (stored_attempts_range v n). unfold MAX_OTA_ATTEMPTS in *. lia.
Qed.

End Checks.

(** A manifest with one file whose server answers 404. *)
Definition sample_manifest : manifest_t :=
  mk_manifest (Some (of_str "1.2.0"))
    (Some [mk_file (Some (of_str "https://x/fw.bin")) (true, ESP_OK, 9, true)
             (mk_dl 120000 true ESP_OK 9 404 (Some 1000) ESP_OK [] 0 ESP_OK ESP_OK true)
             (mk_copy None None ESP_OK (fun _ _ => (ESP_FAIL, [])) (fun _ => ESP_FAIL))]).

Lemma nightly_restarts_bounded_witness :
  zlen (List.filter (fun r => r) (nights sample_manifest (repeat (mk_room 120000 [] true 120000) 10) flash_empty))
  <= MAX_OTA_ATTEMPTS.
Proof.
  refine (proj1 (nightly_restarts_bounded sample_manifest _ _ (repeat (mk_room 120000 [] true 120000) 10)
                   flash_empty eq_refl eq_refl) ltac:(by vm_compute) _).
  cbn [repeat]. repeat (apply Forall_cons; split; [split; [vm_compute; congruence|done]|]). by apply Forall_nil.
Defined.

Example three_restarts :
  nights sample_manifest (repeat (mk_room 120000 [] true 120000) 5) flash_empty =
  [true; true; true; false; false].
Proof. vm_compute. reflexivity. Qed.

Lemma ota_boot_check_books_downloads_witness :
  exists calls, (ota_boot_check (Some sample_manifest) (mk_room 120000 [] true 120000) flash_empty).1.1
                = B_failed calls /\
  stored_attempts (of_str "1.2.0")
    (ota_boot_check (Some sample_manifest) (mk_room 120000 [] true 120000) flash_empty).2 = 1.
Proof.
  eexists. split; [vm_compute; reflexivity|].
  pose proof (ota_boot_check_books_downloads (Some sample_manifest) (mk_room 120000 [] true 120000) flash_empty) as G.
  vm_compute (ota_boot_check _ _ _) in G |- *.
  destruct G as (m & v & fs & [= <-] & [= <-] & _ & _ & _ & G & _).
  destruct (G ltac:(by vm_compute)) as [_ G2]. exact G2.
Defined.
