(* ===== verification/OtaRelease.v ===== *)
(** * A whole release (src/main/update.c)

    [OtaInstall] says what each download may and may not do.  Here is what happens when
    nothing goes wrong: every file of the manifest arrives whole and every call succeeds.
    What a trace leaves behind is its [effect]; effects of traces add up. *)

From S2P Require Import Prelude Nvs OtaState OtaInstall.

(** ** Effects *)

(** The bytes written to the update slot, the bytes written to the web partition, how
    often the boot partition was set. *)
Definition effect (tr : list ota_call) : list Z * list Z * Z :=
  (image_of tr, written P_www tr, count_calls is_set_boot tr).
Definition join (a b : list Z * list Z * Z) : list Z * list Z * Z :=
  let '(i1, w1, n1) := a in let '(i2, w2, n2) := b in (i1 ++ i2, w1 ++ w2, n1 + n2).
Definition no_effect : list Z * list Z * Z := ([], [], 0).

Lemma effect_app a b : effect (a ++ b) = join (effect a) (effect b).
Proof. unfold effect, join. by rewrite image_app, written_app, count_app. Qed.
Lemma effect_cons c tr : effect (c :: tr) = join (effect [c]) (effect tr).
Proof. apply (effect_app [c] tr). Qed.
Lemma join_none a : join a no_effect = a.
Proof. destruct a as [[i w] n]. unfold join, no_effect. by rewrite !app_nil_r, Z.add_0_r. Qed.
Lemma join_none_l a : join no_effect a = a.
Proof. by destruct a as [[i w] n]. Qed.
Lemma effect_done b : effect (http_done b) = no_effect.
Proof. by destruct b. Qed.

Create HintDb effects.
#[local] Hint Rewrite effect_app join_none join_none_l effect_done : effects.

Lemma effect_framed url b tr : effect (O_http_init url :: O_http_open :: tr ++ http_done b) = effect tr.
Proof.
  change (effect ([O_http_init url; O_http_open] ++ tr ++ http_done b) = effect tr).
  rewrite effect_app. change (effect [O_http_init url; O_http_open]) with no_effect. by autorewrite with effects.
Qed.

Lemma effect_within x y tr z : effect [x] = no_effect -> effect [y] = no_effect ->
  effect (x :: (y :: tr) ++ z) = join (effect tr) (effect z).
Proof.
  intros Hx Hy. change (x :: (y :: tr) ++ z) with ([x] ++ [y] ++ tr ++ z). rewrite !effect_app, Hx, Hy.
  by rewrite !join_none_l.
Qed.

(** ** When nothing goes wrong *)

(** Of a download: every call succeeds and as many bytes arrive as were announced. *)
Record good_dl (e : dl_env) : Prop := {
  gd_heap : MIN_OTA_HEAP <= d_heap e;
  gd_init : d_init e = true;
  gd_open : d_open e = ESP_OK;
  gd_status : d_status e = 200;
  gd_part : d_part e <> None;
  gd_begin : d_begin e = ESP_OK;
  gd_chunks : Forall (fun c => ch_write c = ESP_OK) (d_chunks e);
  gd_last : d_last e = 0;
  gd_len : d_headers e = zlen (body (d_chunks e));
  gd_some : 0 < d_headers e;
  gd_end : d_end e = ESP_OK;
  gd_boot : d_boot e = ESP_OK
}.

(** Of the copy of the staging partition, which holds [content]. *)
Record good_copy (c : copy_env) (content : list Z) : Prop := {
  gc_www : c_www c <> None;
  gc_size : c_spiffs c = Some (zlen content);
  gc_erase : c_erase c = ESP_OK;
  gc_read : forall off n, c_read c off n = (ESP_OK, ztake n (zdrop off content));
  gc_write : forall off, c_write c off = ESP_OK
}.

Lemma ota_download_good cs : forall t, Forall (fun c => ch_write c = ESP_OK) cs ->
  0 <= ft_write t -> ft_write t + zlen (body cs) < 2 ^ 31 ->
  exists tr t', ota_download cs t = (tr, t', None) /\ ft_write t' = ft_write t + zlen (body cs) /\
    effect tr = (body cs, [], 0).
Proof.
  induction cs as [|c cs IH]; intros t Hok H0 Hb; cbn [ota_download].
  { eexists _, _. split; [reflexivity|]. change (zlen (body [])) with 0. split; [lia|done]. }
  apply Forall_cons in Hok as [Hc Hok]. change (body (c :: cs)) with (ch_data c ++ body cs) in Hb |- *.
  rewrite zlen_app in Hb |- *. pose proof (zlen_nonneg (ch_data c)). pose proof (zlen_nonneg (body cs)).
  rewrite Hc. change (negb (is_ok ESP_OK)) with false. unfold note_progress. rewrite (i32_small (_ + _)) by lia.
  destruct (IH (mk_ft (ft_size t) (ft_write t + zlen (ch_data c)))) as (tr & t' & -> & Et & Ee); [done|cbn; lia..|].
  cbn [ft_write] in Et. eexists _, _. split; [reflexivity|]. split; [lia|].
  rewrite effect_cons, (effect_cons (O_progress _)), Ee.
  change (effect [O_ota_write (ch_data c)]) with (ch_data c ++ [], [] : list Z, 0). by rewrite app_nil_r.
Qed.

Lemma spiffs_download_good cs : forall off t, Forall (fun c => ch_write c = ESP_OK) cs ->
  0 <= off -> off + zlen (body cs) < 2 ^ 31 -> 0 <= ft_write t -> ft_write t + zlen (body cs) < 2 ^ 31 ->
  exists tr t', spiffs_download cs off t = (tr, off + zlen (body cs), t', false) /\
    ft_write t' = ft_write t + zlen (body cs) /\ effect tr = no_effect.
Proof.
  induction cs as [|c cs IH]; intros off t Hok H0 Hb H1 Hb1; cbn [spiffs_download].
  { change (zlen (body [])) with 0. rewrite !Z.add_0_r. by eexists _, _. }
  apply Forall_cons in Hok as [Hc Hok]. change (body (c :: cs)) with (ch_data c ++ body cs) in *.
  rewrite zlen_app in *. pose proof (zlen_nonneg (ch_data c)). pose proof (zlen_nonneg (body cs)).
  rewrite Hc. change (negb (is_ok ESP_OK)) with false. unfold note_progress. rewrite !(i32_small (_ + _)) by lia.
  destruct (IH (off + zlen (ch_data c)) (mk_ft (ft_size t) (ft_write t + zlen (ch_data c))))
    as (tr & t' & -> & Et & Ee); [done|cbn; lia..|].
  cbn [ft_write] in Et. eexists _, _. rewrite Z.add_assoc. split; [reflexivity|]. split; [lia|].
  rewrite effect_cons, (effect_cons (O_progress _)), Ee. done.
Qed.

Lemma copy_loop_good c content : good_copy c content -> forall fuel offset,
  (copy_loop fuel c (zlen content) offset ESP_OK).1 = ESP_OK /\
  image_of (copy_loop fuel c (zlen content) offset ESP_OK).2 = [] /\
  count_calls is_set_boot (copy_loop fuel c (zlen content) offset ESP_OK).2 = 0.
Proof.
  intros G fuel. induction fuel as [|fuel IH]; intros offset; cbn [copy_loop]; [done|].
  destruct (offset <? zlen content); [|done]. set (n := if zlen content <? offset + 1024 then _ else _).
  rewrite (gc_read _ _ G), (gc_write _ _ G). change (negb (is_ok ESP_OK)) with false.
  specialize (IH (offset + n)). destruct (copy_loop fuel _ _ _ _) as [err tr].
  cbn [fst snd] in *. by rewrite image_app, count_app.
Qed.

Lemma copy_good c content : good_copy c content ->
  exists tr, copy_file_to_www_partition c = (ESP_OK, tr) /\ effect tr = ([], content, 0).
Proof.
  intros G. pose proof (copy_spec c content) as S. rewrite (gc_size _ _ G) in S.
  specialize (S ltac:(intros off n _; by rewrite (gc_read _ _ G)) eq_refl).
  unfold copy_file_to_www_partition in *. rewrite (gc_size _ _ G), (gc_erase _ _ G) in *.
  pose proof (gc_www _ _ G). destruct (c_www c); [|done]. change (negb (is_ok ESP_OK)) with false in *.
  destruct (copy_loop_good c content G (copy_fuel (zlen content)) 0) as (L1 & L2 & L3).
  destruct (copy_loop _ _ _ _ _) as [err tr]. cbn [fst snd] in *. subst err. destruct S as [_ S].
  eexists. split; [reflexivity|]. destruct (S eq_refl) as (_ & W & _). unfold effect. rewrite W.
  change (O_erase P_www :: tr) with ([O_erase P_www] ++ tr). by rewrite image_app, count_app, L2, L3.
Qed.

(** What the checks before a download let through. *)
Lemma good_passes e : good_dl e ->
  (d_heap e <? MIN_OTA_HEAP) = false /\ d_init e = true /\ d_open e = ESP_OK /\ (d_status e =? 200) = true /\
  (d_headers e <=? 0) = false /\ (exists size, d_part e = Some size).
Proof.
  intros []. rewrite gd_status0. split_and!; [lia|done|done|done|lia|]. destruct (d_part e) as [size|]; [by exists size|done].
Qed.

(** An application image that arrives whole is installed by the first download of a
    manifest, and refused as too short by any later one. *)
Lemma firmware_good url e t : good_dl e -> 0 <= ft_write t -> ft_write t + zlen (body (d_chunks e)) < 2 ^ 31 ->
  let '(err, tr, t') := ota_update_firmware url e t in
  if ft_write t =? 0
  then err = ESP_OK /\ ft_write t' = zlen (body (d_chunks e)) /\ effect tr = (body (d_chunks e), [], 1)
  else err = ESP_FAIL /\ (effect tr).1.2 = [] /\ (effect tr).2 = 0.
Proof.
  intros G H0 Hb. destruct (good_passes e G) as (P1 & P2 & P3 & P4 & P5 & size & P6).
  unfold ota_update_firmware. rewrite P1, P2, P3, P6, P4, P5. change (is_ok ESP_OK) with true. cbn [negb].
  destruct (ota_download_good (d_chunks e) t (gd_chunks _ G) H0 Hb) as (tr & t' & D & Et & Ee).
  unfold ota_apply. rewrite (gd_begin _ G), D, (gd_last _ G), (gd_end _ G), (gd_boot _ G), Et, (gd_len _ G).
  change (is_ok ESP_OK) with true. cbn [negb orb Z.ltb Z.compare].
  destruct (Z.eqb_spec (ft_write t) 0) as [E|E].
  - rewrite E, Z.add_0_l, Z.eqb_refl. cbn [negb]. rewrite effect_framed.
    split_and!; [done|lia|]. rewrite effect_within, Ee by done. cbn. by rewrite !app_nil_r.
  - replace (ft_write t + zlen (body (d_chunks e)) =? zlen (body (d_chunks e))) with false by lia. cbn [negb].
    rewrite effect_framed, effect_within, Ee by done. done.
Qed.

(** A web image that arrives whole replaces the web partition, whatever came before. *)
Lemma web_good url e c content t : good_dl e -> good_copy c content ->
  0 <= ft_write t -> ft_write t + zlen (body (d_chunks e)) < 2 ^ 31 ->
  exists tr t', update_SPIFFS url e c t = (ESP_OK, tr, t') /\
    ft_write t' = ft_write t + zlen (body (d_chunks e)) /\ effect tr = ([], content, 0).
Proof.
  intros G C H0 Hb. destruct (good_passes e G) as (P1 & P2 & P3 & P4 & P5 & size & P6).
  unfold update_SPIFFS. rewrite P1, P2, P3, P6, P4, P5. change (is_ok ESP_OK) with true. cbn [negb].
  destruct (spiffs_download_good (d_chunks e) 0 t (gd_chunks _ G)) as (tr & t' & D & Et & Ee); [lia..|].
  destruct (copy_good c content C) as (ctr & Ec & Eec).
  unfold spiffs_apply. rewrite (gd_begin _ G), D, (gd_last _ G), (gd_len _ G), Z.add_0_l, Z.eqb_refl, Ec.
  change (is_ok ESP_OK) with true. cbn [negb Z.ltb Z.compare]. eexists _, _. split; [reflexivity|]. split; [done|].
  change (O_erase P_spiffs :: tr ++ ctr) with ((O_erase P_spiffs :: tr) ++ ctr).
  rewrite effect_framed, effect_within, Ee, Eec by done. done.
Qed.

(** ** The files of a manifest *)

Section Release.
(** What the staging partition holds once a web image was written to it. *)
Variable content : file_t -> list Z.

Definition is_app (f : file_t) : bool := match fi_url f with Some url => negb (isWWWBinFile url) | None => false end.
Definition is_web (f : file_t) : bool := match fi_url f with Some url => isWWWBinFile url | None => false end.

Definition good_file (f : file_t) : Prop :=
  fi_url f <> None -> good_dl (fi_dl f) /\ (is_web f = true -> good_copy (fi_copy f) (content f)).

Definition file_len (f : file_t) : Z := match fi_url f with Some _ => zlen (body (d_chunks (fi_dl f))) | None => 0 end.

(** The files up to the first application image that is not the first file; whether
    there is none. *)
Fixpoint applied (first : bool) (fs : list file_t) : list file_t * bool :=
  match fs with
  | [] => ([], true)
  | f :: fs =>
    match fi_url f with
    | None => applied first fs
    | Some _ => if is_app f && negb first then ([], false) else let '(l, all) := applied false fs in (f :: l, all)
    end
  end.

(** What installing these files leaves behind. *)
Definition apps_of (fs : list file_t) : list file_t := List.filter is_app fs.
Definition pages_of (fs : list file_t) : list Z := concat (map content (List.filter is_web fs)).

Lemma file_len_nonneg fs : 0 <= zsum (map file_len fs).
Proof.
  induction fs as [|f fs IH]; cbn [map zsum]; [done|]. unfold file_len at 1.
  pose proof (zlen_nonneg (body (d_chunks (fi_dl f)))). destruct (fi_url f); lia.
Qed.

Lemma update_files_good fs : forall t, Forall good_file fs -> 0 <= ft_write t ->
  ft_write t + zsum (map file_len fs) < 2 ^ 31 ->
  let '(ok, tr, t') := update_files fs t in
  let '(done, all) := applied (ft_write t =? 0) fs in
  ok = all /\ (effect tr).1.2 = pages_of done /\ (effect tr).2 = zlen (apps_of done) /\
  (all = true -> (effect tr).1.1 = concat (map (fun f => body (d_chunks (fi_dl f))) (apps_of done))).
Proof.
  induction fs as [|f fs IH]; intros t Hg H0 Hb; cbn [update_files applied]; [done|].
  apply Forall_cons in Hg as [Hf Hg]. cbn [map zsum] in Hb. pose proof (file_len_nonneg fs).
  unfold good_file, is_web in Hf. unfold file_len at 1 in Hb. unfold is_app at 1.
  destruct (fi_url f) as [url|] eqn:Eu; [|by apply IH]. destruct Hf as [G C]; [done|].
  pose proof (gd_some _ G) as Hpos. rewrite (gd_len _ G) in Hpos.
  destruct (isWWWBinFile url) eqn:Ew; cbn [negb andb].
  - destruct (web_good url (fi_dl f) (fi_copy f) (content f) t G (C eq_refl) H0) as (tr & t' & -> & Et & Ee); [lia|].
    change (is_ok ESP_OK) with true. cbn iota. specialize (IH t' Hg ltac:(lia) ltac:(lia)).
    destruct (update_files fs t') as [[ok tr'] t'']. replace (ft_write t' =? 0) with false in IH by lia.
    destruct (applied false fs) as [l all]. destruct IH as (I1 & I2 & I3 & I4).
    rewrite effect_app, Ee. destruct (effect tr') as [[i w] n]. cbn [join fst snd app] in *.
    unfold pages_of, apps_of, is_web, is_app. cbn [List.filter]. rewrite !Eu, !Ew. cbn [negb map concat].
    split_and!; [done|by rewrite I2|done|done].
  - pose proof (firmware_good url (fi_dl f) t G H0 ltac:(lia)) as F.
    destruct (ota_update_firmware url (fi_dl f) t) as [[err tr] t'].
    destruct (Z.eqb_spec (ft_write t) 0) as [E|E]; cbn [negb].
    2: { destruct F as (-> & F2 & F3). change (is_ok ESP_FAIL) with false. cbn iota. by rewrite F2, F3. }
    destruct F as (-> & Et & Ee). change (is_ok ESP_OK) with true. cbn iota.
    specialize (IH t' Hg ltac:(lia) ltac:(lia)).
    destruct (update_files fs t') as [[ok tr'] t'']. replace (ft_write t' =? 0) with false in IH by lia.
    destruct (applied false fs) as [l all]. destruct IH as (I1 & I2 & I3 & I4).
    rewrite effect_app, Ee. destruct (effect tr') as [[i w] n]. cbn [join fst snd app] in *.
    unfold pages_of, apps_of, is_web, is_app in *. cbn [List.filter]. rewrite !Eu, !Ew. cbn [negb map concat].
    rewrite zlen_cons. split_and!; [done|done|lia|]. intros Ha. by rewrite I4.
Qed.

Lemma size_loop_effect fs : forall size, effect (size_loop fs size).2 = no_effect.
Proof.
  induction fs as [|f fs IH]; intros size; cbn [size_loop]; [done|].
  destruct (fi_url f) as [url|]; [|done]. destruct (fi_size f) as [[[init open] len] transport].
  destruct init; cbn [negb].
  - destruct (is_ok open); cbn [negb].
    + specialize (IH (i32 (size + len))). destruct (size_loop fs _) as [s tr]. cbn [snd] in *.
      change (O_http_init url :: O_http_open :: [O_http_fetch] ++ http_done transport ++ tr)
        with ([O_http_init url; O_http_open; O_http_fetch] ++ http_done transport ++ tr).
      by rewrite !effect_app, effect_done, IH.
    + specialize (IH size). destruct (size_loop fs _) as [s tr]. cbn [snd] in *.
      change (O_http_init url :: O_http_open :: [] ++ http_done transport ++ tr)
        with ([O_http_init url; O_http_open] ++ http_done transport ++ tr).
      by rewrite !effect_app, effect_done, IH.
  - specialize (IH size). destruct (size_loop fs _) as [s tr]. cbn [snd] in *. by rewrite effect_cons, IH.
Qed.

Section Installs.
Context `{NvsLaws St}.

(** Booking an attempt does not touch the guard's count. *)
Lemma allowed_streak v (n : St) : streak (ota_attempt_allowed v n).2 = streak n.
Proof.
  unfold ota_attempt_allowed. destruct (open_rw OTA_NVS_NS n) as (n1 & -> & A1). change (is_ok ESP_OK) with true.
  cbn [negb]. unfold streak. rewrite <- (get_u8_agree _ _ _ (A1 OTA_NVS_NS OTA_KEY_BOOTLOOP)).
  case_if; [done|]. apply get_u8_agree. cbn [snd].
  etrans; [apply (set_str_other OTA_NVS_NS OTA_KEY_FAILVER v); unfold OTA_KEY_FAILVER, OTA_KEY_BOOTLOOP; congruence|].
  by apply put_u8; [apply u8_range|].
Qed.

Lemma updateFirmware_good fs (n : St) : Forall good_file fs -> zsum (map file_len fs) < 2 ^ 31 ->
  let '(restarts, calls, n') := updateFirmware fs n in
  let '(done, all) := applied true fs in
  restarts = all /\ written P_www calls = pages_of done /\ count_calls is_set_boot calls = zlen (apps_of done) /\
  (all = true -> image_of calls = concat (map (fun f => body (d_chunks (fi_dl f))) (apps_of done)) /\
                planned n' = true /\ streak n' = streak n).
Proof.
  intros Hg Hb. unfold updateFirmware, calculate_total_file_size. pose proof (size_loop_effect fs 0) as S.
  destruct (size_loop fs 0) as [s tr0]. cbn [snd] in S.
  pose proof (update_files_good fs (mk_ft s 0) Hg ltac:(done) ltac:(cbn; lia)) as U. cbn [ft_write] in U.
  destruct (update_files fs (mk_ft s 0)) as [[ok tr] t']. change (0 =? 0) with true in U.
  destruct (applied true fs) as [l all]. destruct U as (-> & U2 & U3 & U4).
  assert (E : forall z, effect z = no_effect -> effect (O_started :: tr0 ++ tr ++ z) = effect tr).
  { intros z Hz. rewrite effect_cons. change (effect [O_started]) with no_effect.
    rewrite !effect_app, S, Hz. by autorewrite with effects. }
  destruct all.
  - replace ((O_started :: tr0 ++ tr ++ [O_completed]) ++ [O_restart])
      with (O_started :: tr0 ++ tr ++ [O_completed; O_restart]) by (cbn; by rewrite <- !app_assoc).
    specialize (E [O_completed; O_restart] eq_refl). unfold effect in *. injection E as E1 E2 E3.
    rewrite E1, E2, E3. cbn [fst snd] in *. split_and!; try done. intros _. split; [by apply U4|apply note_planned].
  - specialize (E [O_completed] eq_refl). unfold effect in *. injection E as E1 E2 E3. by rewrite E2, E3.
Qed.

(** C17: a release that arrives whole is installed, if its application image comes first.
    With a newer version, room for the download and attempts left, the boot check copies
    each web image's staging partition to the web partition, writes the application image
    whole, sets the boot partition once and restarts the device; and the guard does not count that
    restart.  But an application image behind any other file is refused as too short,
    although it arrived whole: then the pages before it are replaced, the application is
    not, and the device goes on with the old one. *)
Theorem release_installs m v fs rm (n : St) :
  ma_version m = Some v -> ma_files m = Some fs -> ota_version_is_newer v FW_VERSION = true ->
  has_room rm -> stored_attempts v n < MAX_OTA_ATTEMPTS ->
  Forall good_file fs -> zsum (map file_len fs) < 2 ^ 31 ->
  let '(r, _, n') := ota_boot_check (Some m) rm n in
  let '(done, all) := applied true fs in
  exists calls, r = (if all then B_restarts calls else B_failed calls) /\
    written P_www calls = pages_of done /\ count_calls is_set_boot calls = zlen (apps_of done) /\
    (all = true -> image_of calls = concat (map (fun f => body (d_chunks (fi_dl f))) (apps_of done)) /\
       forall b, bt_reason b = RST_SW ->
         (ota_boot_loop_guard b n').1 = G_continue /\ streak (ota_boot_loop_guard b n').2 = streak n).
Proof.
  intros Ev Ef En [Hr Hi] Hs Hg Hb. unfold ota_boot_check. rewrite Ev, Ef, En.
  replace ((rm_heap rm <? MIN_OTA_HEAP) && negb (rm_ip rm)) with false
    by (destruct (Z.ltb_spec (rm_heap rm) MIN_OTA_HEAP); [by rewrite Hi|done]).
  replace (rm_heap_now rm <? MIN_OTA_HEAP) with false by lia.
  pose proof (refused_step v n) as R. pose proof (allowed_streak v n) as Es.
  destruct (ota_attempt_allowed v n) as [a n1]. cbn [fst snd] in R, Es.
  destruct a; cbn [negb]; [|destruct (R eq_refl); lia].
  pose proof (updateFirmware_good fs n1 Hg Hb) as U. destruct (updateFirmware fs n1) as [[restarts calls] n2].
  destruct (applied true fs) as [l all]. destruct U as (-> & U2 & U3 & U4).
  exists calls. split_and!; [done..|]. intros Ha. destruct (U4 Ha) as (U5 & U6 & U7). split; [done|]. intros b Hb'.
  pose proof (guard_step b n2) as S. cbv zeta in S. rewrite Hb', U6, U7, Es in S. cbn [crash_like negb andb] in S. tauto.
Qed.
End Installs.
End Release.

(** An application image of three bytes and a web image of two, on a partition of four. *)
Definition demo_dl (data : list Z) : dl_env :=
  mk_dl 120000 true ESP_OK (zlen data) 200 (Some 1000) ESP_OK [mk_chunk data ESP_OK] 0 ESP_OK ESP_OK true.
Definition demo_pages : list Z := [4; 5; 255; 255].
Definition demo_copy : copy_env :=
  mk_copy (Some 4) (Some 4) ESP_OK (fun off n => (ESP_OK, ztake n (zdrop off demo_pages))) (fun _ => ESP_OK).
Definition demo_app : file_t :=
  mk_file (Some (of_str "https://x/fw.bin")) (true, ESP_OK, 3, true) (demo_dl [1; 2; 3]) demo_copy.
Definition demo_web : file_t :=
  mk_file (Some (of_str "https://x/www.bin")) (true, ESP_OK, 2, true) (demo_dl [4; 5]) demo_copy.
Definition demo_release (fs : list file_t) : manifest_t := mk_manifest (Some (of_str "1.2.0")) (Some fs).
Definition demo_room : room_t := mk_room 120000 [] true 120000.

Lemma demo_good f : f = demo_app \/ f = demo_web -> good_file (fun _ => demo_pages) f.
Proof.
  intros [-> | ->] _; (split; [|intros _; by split]).
  all: split; try reflexivity; try done; vm_compute; try congruence; by repeat constructor.
Qed.

Lemma release_installs_witness :
  exists calls, (ota_boot_check (Some (demo_release [demo_app; demo_web])) demo_room flash_empty).1.1 = B_restarts calls /\
    written P_www calls = demo_pages /\ count_calls is_set_boot calls = 1 /\ image_of calls = [1; 2; 3].
Proof.
  pose proof (release_installs (fun _ => demo_pages) (demo_release [demo_app; demo_web]) (of_str "1.2.0") [demo_app; demo_web]
    demo_room flash_empty eq_refl eq_refl ltac:(by vm_compute) ltac:(split; [vm_compute; congruence|done])
    ltac:(vm_compute; congruence) ltac:(repeat constructor; apply demo_good; auto) ltac:(by vm_compute)) as G.
  destruct (ota_boot_check _ _ _) as [[r asked] n']. destruct G as (calls & -> & G2 & G3 & G4).
  exists calls. split_and!; [done|exact G2|exact G3|]. apply (G4 eq_refl).
Defined.

(** The other order: the pages are new, the application is not. *)
Example wrong_order : exists calls,
  (ota_boot_check (Some (demo_release [demo_web; demo_app])) demo_room flash_empty).1.1 = B_failed calls /\
  written P_www calls = demo_pages /\ count_calls is_set_boot calls = 0.
Proof. eexists. split; [vm_compute; reflexivity|]. by vm_compute. Qed.
