(* ===== verification/Config.v ===== *)
(** * Stored configuration (src/main/config.c, src/main/include/config.h)

    The table of configuration items and the typed accessors over the flash store
    (the interface [Nvs]).  An item's default is a C union: the bits of its
    integer members, or a string. *)

From S2P Require Import Prelude NtripServer Nvs OtaState.

Definition STORAGE : string := "config".

Inductive config_item_type_t :=
  | T_BOOL | T_INT8 | T_INT16 | T_INT32 | T_INT64 | T_UINT8 | T_UINT16 | T_UINT32 | T_UINT64
  | T_STRING | T_BLOB | T_COLOR | T_IP.

(** [config_item_value_t]: [.bool1], [.uint8], ... read the low bits of [DV_bits];
    [.str] and [.blob] are [DV_str]. *)
Inductive config_item_value_t := DV_bits (bits : Z) | DV_str (s : list Z).

Definition val_bits (v : config_item_value_t) : Z := match v with DV_bits b => b | DV_str _ => 0 end.
Definition val_str (v : config_item_value_t) : list Z := match v with DV_bits _ => [] | DV_str s => s end.
Definition val_bool (v : config_item_value_t) : Z := if u8 (val_bits v) =? 0 then 0 else 1.

Record config_item_t := mk_item {
  ci_key : string;
  ci_type : config_item_type_t;
  ci_secret : bool;
  ci_def : config_item_value_t
}.

(** Enumerators of the UART, GPIO and Wi-Fi drivers. *)
Definition UART_NUM_0 : Z := 0.
Definition GPIO_NUM_1 : Z := 1.
Definition GPIO_NUM_3 : Z := 3.
Definition GPIO_NUM_14 : Z := 14.
Definition GPIO_NUM_33 : Z := 33.
Definition UART_DATA_8_BITS : Z := 3.
Definition UART_STOP_BITS_1 : Z := 1.
Definition UART_PARITY_DISABLE : Z := 0.
Definition WIFI_AUTH_OPEN : Z := 0.

(** [esp_netif_htonl (esp_netif_ip4_makeu32 a b c d)]: network byte order. *)
Definition ip4 (a b c d : Z) : Z := a + 2 ^ 8 * b + 2 ^ 16 * c + 2 ^ 24 * d.

(** ** The items *)

Definition items_admin : list config_item_t := [
  mk_item "adm_auth" T_INT8 false (DV_bits 0);
  mk_item "adm_user" T_STRING false (DV_str []);
  mk_item "adm_pass" T_STRING true (DV_str []);
  mk_item "bt_active" T_BOOL false (DV_bits 0);
  mk_item "bt_dev_name" T_STRING false (DV_str []);
  mk_item "bt_dev_vis" T_BOOL false (DV_bits 1);
  mk_item "bt_pin_code" T_UINT16 true (DV_bits 1234)
].

(** The seven items of one caster connection; only the first is active by default. *)
Definition ntrip_server_items (suffix : string) (active : Z) : list config_item_t := [
  mk_item ("ntr_srv_actv" +:+ suffix) T_BOOL false (DV_bits active);
  mk_item ("ntr_srv_color" +:+ suffix) T_COLOR false (DV_bits 85);
  mk_item ("ntr_srv_host" +:+ suffix) T_STRING false (DV_str []);
  mk_item ("ntr_srv_port" +:+ suffix) T_UINT16 false (DV_bits 2101);
  mk_item ("ntr_srv_mp" +:+ suffix) T_STRING false (DV_str []);
  mk_item ("ntr_srv_user" +:+ suffix) T_STRING false (DV_str []);
  mk_item ("ntr_srv_pass" +:+ suffix) T_STRING true (DV_str [])
].

Definition items_ntrip_0_3 : list config_item_t :=
  ntrip_server_items "" 1 ++ ntrip_server_items "_1" 0 ++ ntrip_server_items "_2" 0 ++
  ntrip_server_items "_3" 0.
Definition items_ntrip_4_7 : list config_item_t :=
  ntrip_server_items "_4" 0 ++ ntrip_server_items "_5" 0 ++ ntrip_server_items "_6" 0 ++
  ntrip_server_items "_7" 0.
Definition items_ntrip_8_9 : list config_item_t :=
  ntrip_server_items "_8" 0 ++ ntrip_server_items "_9" 0.

Definition items_socket : list config_item_t := [
  mk_item "sck_srv_active" T_BOOL false (DV_bits 0);
  mk_item "sck_srv_color" T_COLOR false (DV_bits 85);
  mk_item "sck_srv_t_port" T_UINT16 false (DV_bits 23);
  mk_item "sck_srv_u_port" T_UINT16 false (DV_bits 23);
  mk_item "sck_cli_active" T_BOOL false (DV_bits 0);
  mk_item "sck_cli_color" T_COLOR false (DV_bits 85);
  mk_item "sck_cli_host" T_STRING false (DV_str []);
  mk_item "sck_cli_port" T_UINT16 false (DV_bits 23);
  mk_item "sck_cli_type" T_BOOL false (DV_bits 1);
  mk_item "sck_cli_msg" T_STRING false (DV_str [10])
].

Definition items_uart : list config_item_t := [
  mk_item "uart_num" T_UINT8 false (DV_bits UART_NUM_0);
  mk_item "uart_tx_pin" T_UINT8 false (DV_bits GPIO_NUM_1);
  mk_item "uart_rx_pin" T_UINT8 false (DV_bits GPIO_NUM_3);
  mk_item "uart_rts_pin" T_UINT8 false (DV_bits GPIO_NUM_14);
  mk_item "uart_cts_pin" T_UINT8 false (DV_bits GPIO_NUM_33);
  mk_item "uart_baud_rate" T_UINT32 false (DV_bits 115200);
  mk_item "uart_data_bits" T_INT8 false (DV_bits UART_DATA_8_BITS);
  mk_item "uart_stop_bits" T_INT8 false (DV_bits UART_STOP_BITS_1);
  mk_item "uart_parity" T_INT8 false (DV_bits UART_PARITY_DISABLE);
  mk_item "uart_fc_rts" T_BOOL false (DV_bits 0);
  mk_item "uart_fc_cts" T_BOOL false (DV_bits 0);
  mk_item "uart_log_fwd" T_BOOL false (DV_bits 0)
].

Definition items_wifi : list config_item_t := [
  mk_item "w_ap_active" T_BOOL false (DV_bits 1);
  mk_item "w_ap_color" T_COLOR false (DV_bits 85);
  mk_item "w_ap_ssid" T_STRING false (DV_str []);
  mk_item "w_ap_ssid_hid" T_BOOL false (DV_bits 0);
  mk_item "w_ap_auth_mode" T_UINT8 false (DV_bits WIFI_AUTH_OPEN);
  mk_item "w_ap_pass" T_STRING true (DV_str []);
  mk_item "w_ap_gw" T_IP false (DV_bits (ip4 192 168 4 1));
  mk_item "w_ap_subnet" T_UINT8 false (DV_bits 24);
  mk_item "w_sta_active" T_BOOL false (DV_bits 1);
  mk_item "w_sta_color" T_COLOR false (DV_bits 4521813);
  mk_item "w_sta_ssid" T_STRING false (DV_str []);
  mk_item "w_sta_pass" T_STRING true (DV_str []);
  mk_item "w_sta_scan_mode" T_BOOL false (DV_bits 0);
  mk_item "w_sta_ap_fwd" T_BOOL false (DV_bits 0);
  mk_item "w_sta_static" T_BOOL false (DV_bits 0);
  mk_item "w_sta_ip" T_IP false (DV_bits (ip4 192 168 0 100));
  mk_item "w_sta_gw" T_IP false (DV_bits (ip4 192 168 0 1));
  mk_item "w_sta_subnet" T_UINT8 false (DV_bits 24);
  mk_item "w_sta_dns_a" T_IP false (DV_bits (ip4 1 1 1 1));
  mk_item "w_sta_dns_b" T_IP false (DV_bits (ip4 1 0 0 1))
].

Definition items_mode : list config_item_t := [
  mk_item "mode_active" T_UINT16 false (DV_bits 0);
  mk_item "mode_color" T_COLOR false (DV_bits 4521813)
].

Definition items_rtk : list config_item_t := [
  mk_item "rtk_ie_host" T_STRING false (DV_str (of_str "integrity-engine.onrender.com"));
  mk_item "rtk_dev_id" T_STRING false (DV_str []);
  mk_item "rtk_sta_tok" T_STRING true (DV_str []);
  mk_item "rtk_state" T_UINT8 false (DV_bits 0);
  mk_item "rtk_ota_base" T_STRING false (DV_str []);
  mk_item "rtk_enr_key" T_STRING true (DV_str []);
  mk_item "rtk_key_ver" T_UINT8 false (DV_bits 1)
].

Definition CONFIG_ITEMS : list config_item_t :=
  items_admin ++ items_ntrip_0_3 ++ items_ntrip_4_7 ++ items_ntrip_8_9 ++ items_socket ++
  items_uart ++ items_wifi ++ items_mode ++ items_rtk.

(** [config_get_item]; [None]: the fatal error, which does not return. *)
Fixpoint find_item (items : list config_item_t) (key : string) : option config_item_t :=
  match items with
  | [] => None
  | item :: items => if String.eqb (ci_key item) key then Some item else find_item items key
  end.
Definition config_get_item (key : string) : option config_item_t := find_item CONFIG_ITEMS key.

(** ** Accessors *)

(** [CONF_ITEM(key)]; every key here is in the table. *)
Definition conf (key : string) : config_item_t :=
  match config_get_item key with Some i => i | None => mk_item key T_BLOB false (DV_str []) end.

Section Access.
Context `{Nvs St}.

Definition config_set_bool1 (key : string) (value : Z) (n : St) : Z * St :=
  nvs_set_int I8 STORAGE key value n.
Definition config_set_str (key : string) (value : list Z) (n : St) : Z * St :=
  nvs_set_str STORAGE key value n.
Definition config_set_blob (key : string) (value : list Z) (n : St) : Z * St :=
  nvs_set_blob STORAGE key value n.
Definition config_set_color (key : string) (rgba : Z) (n : St) : Z * St :=
  nvs_set_int U32 STORAGE key rgba n.

Definition config_set (item : config_item_t) (value : config_item_value_t) (n : St) : Z * St :=
  let key := ci_key item in
  let b := val_bits value in
  match ci_type item with
  | T_BOOL => config_set_bool1 key (val_bool value) n
  | T_INT8 => nvs_set_int I8 STORAGE key (i8 b) n
  | T_INT16 => nvs_set_int I16 STORAGE key (i16 b) n
  | T_INT32 => nvs_set_int I32 STORAGE key (i32 b) n
  | T_INT64 => nvs_set_int I64 STORAGE key (i64 b) n
  | T_UINT8 => nvs_set_int U8 STORAGE key (u8 b) n
  | T_UINT16 => nvs_set_int U16 STORAGE key (u16 b) n
  | T_UINT32 => nvs_set_int U32 STORAGE key (u32 b) n
  | T_UINT64 => nvs_set_int U64 STORAGE key (u64 b) n
  | T_STRING => config_set_str key (val_str value) n
  | _ => (ESP_ERR_INVALID_ARG, n)
  end.

(** A variable that holds the default until a getter succeeds. *)
Definition get_or (ty : nvs_int) (key : string) (def : Z) (n : St) : Z :=
  let '(e, v) := nvs_get_int ty STORAGE key n in if is_ok e then v else def.

Definition config_get_i8 (item : config_item_t) (n : St) : Z :=
  get_or I8 (ci_key item) (i8 (val_bits (ci_def item))) n.
Definition config_get_i16 (item : config_item_t) (n : St) : Z :=
  get_or I16 (ci_key item) (i16 (val_bits (ci_def item))) n.
Definition config_get_i32 (item : config_item_t) (n : St) : Z :=
  get_or I32 (ci_key item) (i32 (val_bits (ci_def item))) n.
Definition config_get_i64 (item : config_item_t) (n : St) : Z :=
  get_or I64 (ci_key item) (i64 (val_bits (ci_def item))) n.
Definition config_get_u8 (item : config_item_t) (n : St) : Z :=
  get_or U8 (ci_key item) (u8 (val_bits (ci_def item))) n.
Definition config_get_u16 (item : config_item_t) (n : St) : Z :=
  get_or U16 (ci_key item) (u16 (val_bits (ci_def item))) n.
Definition config_get_u32 (item : config_item_t) (n : St) : Z :=
  get_or U32 (ci_key item) (u32 (val_bits (ci_def item))) n.
Definition config_get_u64 (item : config_item_t) (n : St) : Z :=
  get_or U64 (ci_key item) (u64 (val_bits (ci_def item))) n.
Definition config_get_color (item : config_item_t) (n : St) : Z :=
  get_or U32 (ci_key item) (u32 (val_bits (ci_def item))) n.
Definition config_get_bool1 (item : config_item_t) (n : St) : bool :=
  0 <? get_or I8 (ci_key item) (val_bool (ci_def item)) n.

(** The error and what [out_value] holds afterwards. *)
Definition read_primitive (ty : nvs_int) (key : string) (def : Z) (n : St) : Z * Z :=
  let '(ret, v) := nvs_get_int ty STORAGE key n in
  let out := if is_ok ret then v else def in
  (if is_ok ret || (ret =? ESP_ERR_NVS_NOT_FOUND) then ESP_OK else ret, out).

(** [None]: [out_value] is left alone. *)
Definition config_get_primitive (item : config_item_t) (n : St) : Z * option Z :=
  let key := ci_key item in
  let b := val_bits (ci_def item) in
  let read ty def := let '(e, v) := read_primitive ty key def n in (e, Some v) in
  match ci_type item with
  | T_BOOL => read I8 (val_bool (ci_def item))
  | T_INT8 => read I8 (i8 b)
  | T_INT16 => read I16 (i16 b)
  | T_INT32 => read I32 (i32 b)
  | T_INT64 => read I64 (i64 b)
  | T_UINT8 => read U8 (u8 b)
  | T_UINT16 => read U16 (u16 b)
  | T_UINT32 | T_IP => read U32 (u32 b)
  | T_UINT64 => read U64 (u64 b)
  | T_COLOR => read U32 (u32 b)
  | T_STRING | T_BLOB => (ESP_ERR_INVALID_ARG, None)
  end.

(** [config_get_str_blob] with a buffer of [cap] bytes ([None]: NULL): the error,
    [*length], and the bytes copied to the buffer (for a string, before its
    terminator).  The default is copied whatever the size of the buffer. *)
Definition config_get_str_blob (item : config_item_t) (cap : option Z) (n : St) : Z * Z * list Z :=
  let def := val_str (ci_def item) in
  let finish ret := if is_ok ret || (ret =? ESP_ERR_NVS_NOT_FOUND) then ESP_OK else ret in
  match ci_type item with
  | T_STRING =>
    let '(ret, s) := nvs_get_str STORAGE (ci_key item) cap n in
    let s := if ret =? ESP_ERR_NVS_NOT_FOUND then def else s in
    (finish ret, zlen s + 1, s)
  | T_BLOB =>
    let '(ret, s) := nvs_get_blob STORAGE (ci_key item) cap n in
    let s := if ret =? ESP_ERR_NVS_NOT_FOUND then def else s in
    (finish ret, zlen s, s)
  | _ => (ESP_ERR_INVALID_ARG, 0, [])
  end.

(** [config_get_str_blob_alloc]: the error and, when [malloc] succeeds ([alloc]),
    what the new buffer holds. *)
Definition config_get_str_blob_alloc (alloc : bool) (item : config_item_t) (n : St)
    : Z * option (list Z) :=
  let '(ret, length, _) := config_get_str_blob item None n in
  if negb (is_ok ret) then (ret, None)
  else
    let '(ret, _, s) := config_get_str_blob item (if alloc then Some length else None) n in
    (ret, if alloc then Some s else None).

Definition config_commit (n : St) : Z * St := nvs_commit STORAGE n.

Definition config_reset (n : St) : Z * St :=
  let n := (nvs_erase_key STORAGE "w_sta_ssid" n).2 in
  let n := (nvs_erase_key STORAGE "w_sta_pass" n).2 in
  let n := (nvs_erase_key STORAGE "w_sta_active" n).2 in
  config_commit n.

(** [config_init]: [None] when a failed check aborts; [init1], [erase] and
    [init2] are the answers of [nvs_flash_init] and [nvs_flash_erase]. *)
Definition config_init (init1 erase init2 : Z) (n : St) : option (Z * St) :=
  let retry := (init1 =? ESP_ERR_NVS_NO_FREE_PAGES) || (init1 =? ESP_ERR_NVS_NEW_VERSION_FOUND) in
  if retry && negb (is_ok erase) then None
  else
    let err := if retry then init2 else init1 in
    if is_ok err then Some (nvs_open STORAGE true n) else None.

(** [config_restart_task], up to the restart. *)
Definition config_restart_task (n : St) : St := ota_note_planned_reboot n.
End Access.

(** ** Specification *)

(** The values of a type [config_set] stores and a getter reads back. *)
Definition storable (item : config_item_t) (v : Z) : Prop :=
  match ci_type item with
  | T_BOOL => v = 0 \/ v = 1
  | T_INT8 => nvs_in_range I8 v | T_INT16 => nvs_in_range I16 v
  | T_INT32 => nvs_in_range I32 v | T_INT64 => nvs_in_range I64 v
  | T_UINT8 => nvs_in_range U8 v | T_UINT16 => nvs_in_range U16 v
  | T_UINT32 => nvs_in_range U32 v | T_UINT64 => nvs_in_range U64 v
  | _ => False
  end.

Definition stores_as_other (item : config_item_t) : bool :=
  match ci_type item with T_BLOB | T_COLOR | T_IP => true | _ => false end.

(** Two stores with the same value of [item], by every accessor of its type. *)
Definition same_value `{Nvs St} (item : config_item_t) (n n' : St) : Prop :=
  config_get_primitive item n' = config_get_primitive item n /\
  (forall cap, config_get_str_blob item cap n' = config_get_str_blob item cap n) /\
  (forall alloc, config_get_str_blob_alloc alloc item n' = config_get_str_blob_alloc alloc item n).

(** The item reads as its default. *)
Definition reads_default `{Nvs St} (item : config_item_t) (n : St) : Prop :=
  match ci_type item with
  | T_STRING => config_get_str_blob_alloc true item n = (ESP_OK, Some (val_str (ci_def item)))
  | T_BLOB => True
  | _ => exists v, config_get_primitive item n = (ESP_OK, Some v) /\
                   (v = val_bits (ci_def item) \/ ci_type item = T_BOOL /\ v = val_bool (ci_def item))
  end.

Definition STA_KEYS : list string := ["w_sta_ssid"; "w_sta_pass"; "w_sta_active"]%string.

(** The caster settings of instance [i], as [ntrip_server.c] builds their keys. *)
Definition caster_bases : list string :=
  ["ntr_srv_actv"; "ntr_srv_color"; "ntr_srv_host"; "ntr_srv_port"; "ntr_srv_mp";
   "ntr_srv_user"; "ntr_srv_pass"]%string.

(** The properties of the table, computed. *)
Definition table_ok : bool :=
  forallb (fun item => (1 <=? zlen (of_str (ci_key item))) && (zlen (of_str (ci_key item)) <=? 15)) CONFIG_ITEMS &&
  forallb (fun i => forallb (fun base =>
      existsb (fun item => bytes_eqb (of_str (ci_key item)) (build_key (of_str base) (inst_suffix i)))
        CONFIG_ITEMS) caster_bases)
    [0; 1; 2; 3; 4; 5; 6; 7; 8; 9].

Definition def_in_range (item : config_item_t) : bool :=
  let b := val_bits (ci_def item) in
  match ci_type item with
  | T_BOOL => (b =? 0) || (b =? 1)
  | T_INT8 => i8 b =? b | T_INT16 => i16 b =? b | T_INT32 => i32 b =? b | T_INT64 => i64 b =? b
  | T_UINT8 => u8 b =? b | T_UINT16 => u16 b =? b | T_UINT32 | T_IP | T_COLOR => u32 b =? b
  | T_UINT64 => u64 b =? b
  | T_STRING | T_BLOB => match ci_def item with DV_str _ => true | DV_bits _ => false end
  end.

(** ** The table *)

Lemma find_item_spec items key :
  match find_item items key with
  | Some item => item ∈ items /\ ci_key item = key
  | None => Forall (fun item => ci_key item <> key) items
  end.
Proof.
  induction items as [|x items IH]; cbn [find_item]; [by apply Forall_nil|].
  destruct (String.eqb_spec (ci_key x) key); [split; [by left|done]|].
  destruct (find_item items key); [destruct IH; split; [by right|done]|]. by apply Forall_cons.
Qed.

Lemma keys_nodup : NoDup (map ci_key CONFIG_ITEMS).
Proof. apply (bool_decide_unpack _). vm_compute. exact I. Qed.

Lemma find_item_in items item :
  NoDup (map ci_key items) -> item ∈ items -> find_item items (ci_key item) = Some item.
Proof.
  induction items as [|x items IH]; intros Hn Hin; [by apply not_elem_of_nil in Hin|].
  cbn [map] in Hn. apply NoDup_cons in Hn as [Hx Hn]. cbn [find_item].
  apply elem_of_cons in Hin as [->|Hin]; [by rewrite String.eqb_refl|].
  destruct (String.eqb_spec (ci_key x) (ci_key item)) as [E|]; [|by apply IH].
  destruct Hx. rewrite E. apply list_elem_of_In, in_map, list_elem_of_In, Hin.
Qed.

Lemma table_ok_true : table_ok = true.
Proof. vm_compute. reflexivity. Qed.

Lemma defaults_ok : forallb def_in_range CONFIG_ITEMS = true.
Proof. vm_compute. reflexivity. Qed.

Lemma of_str_inj a b : of_str a = of_str b -> a = b.
Proof.
  revert b. induction a as [|c a IH]; intros [|c' b]; cbn [of_str]; try done.
  intros [= E1 E2]. f_equal; [|by apply IH].
  apply Nat2Z.inj in E1. rewrite <- (Ascii.ascii_nat_embedding c), E1. apply Ascii.ascii_nat_embedding.
Qed.

(** Every item is found under its own key, and a key is found only when it is
    that of the item; keys fit the fifteen characters NVS allows.  All seven keys
    [ntrip_server.c] builds for each of its ten instances are in the table, so
    looking them up never ends in the fatal error. *)
Theorem config_table_lookup :
  (forall item, item ∈ CONFIG_ITEMS ->
     config_get_item (ci_key item) = Some item /\ 1 <= zlen (of_str (ci_key item)) <= 15) /\
  (forall key item, config_get_item key = Some item -> item ∈ CONFIG_ITEMS /\ ci_key item = key) /\
  (forall i base key, 0 <= i < 10 -> base ∈ caster_bases ->
     of_str key = build_key (of_str base) (inst_suffix i) -> exists item, config_get_item key = Some item).
Proof.
  pose proof table_ok_true as T. unfold table_ok in T. apply andb_true_iff in T as [T1 T2].
  rewrite forallb_forall in T1. rewrite forallb_forall in T2. split_and!.
  - intros item Hin. split; [by apply find_item_in; [apply keys_nodup|]|].
    specialize (T1 item ltac:(by apply list_elem_of_In)). lia.
  - intros key item E. pose proof (find_item_spec CONFIG_ITEMS key) as F.
    unfold config_get_item in E. by rewrite E in F.
  - intros i base key Hi Hb Hk.
    assert (Hin : In i [0; 1; 2; 3; 4; 5; 6; 7; 8; 9]) by (cbn; lia).
    specialize (T2 i Hin). rewrite forallb_forall in T2.
    specialize (T2 base ltac:(by apply list_elem_of_In)). apply existsb_exists in T2 as (item & Hitem & E).
    apply bytes_eqb_eq in E. rewrite <- Hk in E. apply of_str_inj in E. subst key.
    exists item. apply find_item_in; [apply keys_nodup|by apply list_elem_of_In].
Qed.

Lemma config_table_lookup_witness :
  (exists item, config_get_item "ntr_srv_pass_9" = Some item) /\
  mk_item "rtk_state" T_UINT8 false (DV_bits 0) ∈ CONFIG_ITEMS.
Proof.
  destruct config_table_lookup as (_ & L2 & L3). split.
  - apply (L3 9 "ntr_srv_pass"%string); [lia| |reflexivity].
    do 6 (apply elem_of_cons; right). by apply elem_of_cons; left.
  - apply (L2 "rtk_state"%string). vm_compute. reflexivity.
Defined.

(** ** Writing and reading back *)

Section Roundtrip.
Context `{NvsLaws St}.

Lemma read_primitive_agree ty key def (n n' : St) :
  nvs_agree STORAGE key n n' -> read_primitive ty key def n' = read_primitive ty key def n.
Proof. intros A. unfold read_primitive. by rewrite (agree_int _ _ _ _ _ A). Qed.

Lemma str_blob_agree item cap (n n' : St) :
  nvs_agree STORAGE (ci_key item) n n' -> config_get_str_blob item cap n' = config_get_str_blob item cap n.
Proof. intros (_ & A2 & A3). unfold config_get_str_blob. by rewrite A2, A3. Qed.

Lemma agree_same_value item (n n' : St) :
  nvs_agree STORAGE (ci_key item) n n' -> same_value item n n'.
Proof.
  intros A. split_and!.
  - unfold config_get_primitive. destruct (ci_type item); by rewrite ?(read_primitive_agree _ _ _ _ _ A).
  - intros cap. by apply str_blob_agree.
  - intros alloc. unfold config_get_str_blob_alloc. rewrite (str_blob_agree item None _ _ A).
    destruct (config_get_str_blob item None n) as [[ret len] s]. destruct (negb (is_ok ret)); [done|].
    by rewrite (str_blob_agree item _ _ _ A).
Qed.

Lemma read_after_set ty key v def (n : St) : nvs_in_range ty v ->
  read_primitive ty key def (nvs_set_int ty STORAGE key v n).2 = (ESP_OK, v).
Proof. intros R. unfold read_primitive. destruct (get_set_int ty STORAGE key v n R) as [_ ->]. done. Qed.

Lemma set_ok ty key v (n : St) : nvs_in_range ty v -> (nvs_set_int ty STORAGE key v n).1 = ESP_OK.
Proof. intros R. apply (get_set_int ty STORAGE key v n R). Qed.

Lemma str_read_back item s (n : St) : ci_type item = T_STRING ->
  config_get_str_blob_alloc true item (config_set_str (ci_key item) s n).2 = (ESP_OK, Some s).
Proof.
  intros Ht. unfold config_set_str, config_get_str_blob_alloc, config_get_str_blob. rewrite Ht.
  destruct (get_set_str STORAGE (ci_key item) s None n) as (G1 & G2 & _). rewrite G2 by done.
  destruct (get_set_str STORAGE (ci_key item) s (Some (zlen s + 1)) n) as (_ & G4 & _).
  cbn [fst snd]. change (is_ok ESP_OK) with true. change (ESP_OK =? ESP_ERR_NVS_NOT_FOUND) with false.
  cbn [orb negb]. change (is_ok ESP_OK) with true. cbn [negb]. rewrite G4 by (simpl; lia). done.
Qed.

Lemma set_reads_back item s (n : St) : ci_type item = T_STRING ->
  config_get_str_blob_alloc true item (config_set item (DV_str s) n).2 = (ESP_OK, Some s).
Proof. intros Ht. rewrite <- (str_read_back item s n Ht). unfold config_set. by rewrite Ht. Qed.


(** A value of an item's type that [config_set] accepts is what the getters
    return afterwards, and no other item changes; the colour, address and blob
    items, for which [config_set] has no case, are refused and nothing changes. *)
Theorem config_set_get item (n : St) :
  (forall v, storable item v ->
     let r := config_set item (DV_bits v) n in
     r.1 = ESP_OK /\ config_get_primitive item r.2 = (ESP_OK, Some v)) /\
  (forall s, ci_type item = T_STRING ->
     let r := config_set item (DV_str s) n in
     r.1 = ESP_OK /\ config_get_str_blob_alloc true item r.2 = (ESP_OK, Some s)) /\
  (forall value, stores_as_other item = true -> config_set item value n = (ESP_ERR_INVALID_ARG, n)) /\
  (forall value other, ci_key other <> ci_key item -> same_value other n (config_set item value n).2).
Proof.
  split_and!.
  - intros v. unfold storable, config_set, config_get_primitive, config_set_bool1. cbn [val_bits val_bool].
    destruct (ci_type item); intros Hv; try done; cbn [nvs_in_range] in Hv;
      rewrite ?u8_small, ?u16_small, ?u32_small, ?u64_small, ?i8_small, ?i16_small, ?i32_small, ?i64_small by lia.
    1: assert (Hb : (if u8 v =? 0 then 0 else 1) = v) by (destruct Hv as [-> | ->]; done);
       unfold val_bool; cbn [val_bits]; rewrite Hb.
    all: rewrite set_ok, read_after_set by (cbn [nvs_in_range]; lia); done.
  - intros s Ht. split; [|by apply set_reads_back].
    unfold config_set. rewrite Ht. apply (get_set_str STORAGE (ci_key item) s None n).
  - intros value. unfold stores_as_other, config_set. by destruct (ci_type item).
  - intros value other Hk. apply agree_same_value. unfold config_set, config_set_bool1, config_set_str.
    assert (Hn : (STORAGE, ci_key item) <> (STORAGE, ci_key other)) by congruence.
    destruct (ci_type item); try done; by (apply set_int_other || apply set_str_other).
Qed.

Lemma absent_reads_default item (n : St) :
  item ∈ CONFIG_ITEMS -> nvs_absent STORAGE (ci_key item) n -> reads_default item n.
Proof.
  intros Hin (A1 & A2 & _). pose proof defaults_ok as D. rewrite forallb_forall in D.
  specialize (D item ltac:(by apply list_elem_of_In)). unfold def_in_range in D.
  assert (R : forall ty def, read_primitive ty (ci_key item) def n = (ESP_OK, def)).
  { intros ty def. unfold read_primitive. specialize (A1 ty).
    destruct (nvs_get_int ty STORAGE (ci_key item) n) as [e v]. cbn in A1. by subst e. }
  unfold reads_default, config_get_primitive.
  destruct (ci_type item) eqn:Ht; try done; rewrite ?R; try (eexists; split; [done|]; lia).
  - eexists. split; [done|]. by right.
  - unfold config_get_str_blob_alloc, config_get_str_blob. rewrite Ht.
    pose proof (A2 None) as B. destruct (nvs_get_str STORAGE (ci_key item) None n) as [e s] eqn:E.
    cbn in B. subst e. cbn [fst snd]. set (c := Some _). pose proof (A2 c) as B'.
    destruct (nvs_get_str STORAGE (ci_key item) c n) as [e' s'] eqn:E'. cbn in B'. subst e'. done.
Qed.

(** The reset button forgets the station's network and nothing else: the
    three keys read as their defaults again, and every other item (the enrolment
    key, its version, the station token, the device identity and state, the caster
    settings) reads as before. *)
Theorem config_reset_keeps_identity (n : St) item : item ∈ CONFIG_ITEMS ->
  let r := config_reset n in
  r.1 = ESP_OK /\
  (ci_key item ∈ STA_KEYS -> reads_default item r.2) /\
  (ci_key item ∉ STA_KEYS -> same_value item n r.2).
Proof.
  intros Hin. cbv zeta. unfold config_reset, config_commit.
  set (n1 := (nvs_erase_key STORAGE "w_sta_ssid" n).2).
  set (n2 := (nvs_erase_key STORAGE "w_sta_pass" n1).2).
  set (n3 := (nvs_erase_key STORAGE "w_sta_active" n2).2).
  split; [apply commit_ok|].
  assert (Hk : forall k key (m : St), k <> key -> nvs_agree STORAGE key m (nvs_erase_key STORAGE k m).2)
    by (intros; apply erase_other; congruence).
  split.
  - intros Hs. apply absent_reads_default; [done|]. apply (absent_agree _ _ _ _ (commit_agree _ _ _ _)).
    unfold STA_KEYS in Hs.
    repeat (apply elem_of_cons in Hs as [-> | Hs]); [| | |by apply not_elem_of_nil in Hs].
    + eapply absent_agree; [by apply Hk|]. eapply absent_agree; [by apply Hk|]. apply get_erase.
    + eapply absent_agree; [by apply Hk|]. apply get_erase.
    + apply get_erase.
  - intros Hs. unfold STA_KEYS in Hs. rewrite !not_elem_of_cons in Hs. destruct Hs as (S1 & S2 & S3 & _).
    apply agree_same_value. etrans; [|apply commit_agree].
    etrans; [|by apply Hk]. etrans; [|by apply Hk]. by apply Hk.
Qed.
End Roundtrip.

Definition enroll_item : config_item_t := mk_item "rtk_enr_key" T_STRING true (DV_str []).
Definition ssid_item : config_item_t := mk_item "w_sta_ssid" T_STRING false (DV_str []).

Lemma config_set_get_witness :
  let r := config_set enroll_item (DV_str (of_str "00ff")) flash_empty in
  r.1 = ESP_OK /\ config_get_str_blob_alloc true enroll_item r.2 = (ESP_OK, Some (of_str "00ff")).
Proof. apply (config_set_get enroll_item flash_empty). reflexivity. Defined.

Lemma config_reset_keeps_identity_witness :
  let n := (config_set ssid_item (DV_str (of_str "home"))
             (config_set enroll_item (DV_str (of_str "00ff")) flash_empty).2).2 in
  same_value enroll_item n (config_reset n).2 /\ reads_default ssid_item (config_reset n).2.
Proof.
  cbv zeta. split.
  - apply (config_reset_keeps_identity _ enroll_item).
    + apply list_elem_of_In. vm_compute. repeat (first [left; reflexivity | right]).
    + intros E. apply list_elem_of_In in E. cbn in E. intuition discriminate.
  - apply (config_reset_keeps_identity _ ssid_item).
    + apply list_elem_of_In. vm_compute. repeat (first [left; reflexivity | right]).
    + by apply elem_of_cons; left.
Defined.
