(* ===== verification/Doubles.v ===== *)
(** * IEEE doubles

    What the C sources do with [double]: comparison, subtraction, [fabs], the
    bytes of the object in memory, and [printf]'s fixed notation.  The values are
    the Standard Library's [spec_float] at precision 53 and exponent bound 1024. *)

From S2P Require Import Prelude.
From Stdlib Require Import Floats.SpecFloat.

Definition double := spec_float.
Definition dsub (x y : double) : double := SFsub 53 1024 x y.
Definition dadd (x y : double) : double := SFadd 53 1024 x y.
Definition dmul (x y : double) : double := SFmul 53 1024 x y.
Definition dabs (x : double) : double := SFabs x.
Definition dlt (x y : double) : bool := SFltb x y.
Definition dle (x y : double) : bool := SFleb x y.
Definition deq (x y : double) : bool := SFeqb x y.
Definition dvalid (x : double) : bool := valid_binary 53 1024 x.

(** The double of an integer constant, and of [m * 2 ^ e]. *)
Definition dscale (m e : Z) : double := binary_normalize 53 1024 m e false.
Definition dZ (z : Z) : double := dscale z 0.

(** The integer part, towards zero; 0 for what has none. *)
Definition truncated (x : double) : Z :=
  match x with
  | S754_finite neg m e =>
    let v := if 0 <=? e then Z.pos m * 2 ^ e else Z.pos m / 2 ^ (- e) in if neg then - v else v
  | _ => 0
  end.

Definition isfinite (x : double) : bool :=
  match x with S754_zero _ | S754_finite _ _ _ => true | _ => false end.

(** ** The object representation: eight bytes, least significant first *)

Fixpoint le_bytes (n : nat) (z : Z) : list Z :=
  match n with
  | O => []
  | S n' => z mod 256 :: le_bytes n' (z / 256)
  end.

Fixpoint le_value (l : list Z) : Z :=
  match l with
  | [] => 0
  | b :: l' => b + 256 * le_value l'
  end.

Definition sign_bit (s : bool) : Z := if s then 2 ^ 63 else 0.

Definition double_bits (x : double) : Z :=
  match x with
  | S754_zero s => sign_bit s
  | S754_infinity s => sign_bit s + 2047 * 2 ^ 52
  | S754_nan => 2047 * 2 ^ 52 + 2 ^ 51
  | S754_finite s m e =>
    if Z.pos m <? 2 ^ 52 then sign_bit s + Z.pos m
    else sign_bit s + (e + 1075) * 2 ^ 52 + (Z.pos m - 2 ^ 52)
  end.

Definition bits_double (b : Z) : double :=
  let s := 2 ^ 63 <=? b in
  let ex := (b / 2 ^ 52) mod 2048 in
  let fr := b mod 2 ^ 52 in
  if ex =? 0 then
    if fr =? 0 then S754_zero s else S754_finite s (Z.to_pos fr) (-1074)
  else if ex =? 2047 then
    if fr =? 0 then S754_infinity s else S754_nan
  else S754_finite s (Z.to_pos (fr + 2 ^ 52)) (ex - 1075).

Definition double_bytes (x : double) : list Z := le_bytes 8 (double_bits x).
Definition bytes_double (l : list Z) : double := bits_double (le_value l).

(** ** [printf "%.<k>f"], for [k > 0] *)

(** Decimal digits of [n >= 0], at least [k] of them; [fuel] bounds their number. *)
Fixpoint dec_digits (fuel : nat) (n : Z) (acc : list Z) : list Z :=
  match fuel with
  | O => acc
  | S fuel' =>
    let acc := (48 + n mod 10) :: acc in
    if n / 10 =? 0 then acc else dec_digits fuel' (n / 10) acc
  end.
Definition decimal (n : Z) : list Z := dec_digits (S (Z.to_nat (Z.log2 n))) n [].
Definition pad_left (k : Z) (l : list Z) : list Z := repeat 48 (Z.to_nat (k - zlen l)) ++ l.

(** [n / d] rounded to the nearest integer, ties to even. *)
Definition div_round (n d : Z) : Z :=
  let q := n / d in
  let r := n mod d in
  if 2 * r <? d then q else if d <? 2 * r then q + 1 else if Z.even q then q else q + 1.

(** The magnitude scaled by [10 ^ k], correctly rounded. *)
Definition scaled (k : Z) (m : positive) (e : Z) : Z :=
  if 0 <=? e then Z.pos m * 2 ^ e * 10 ^ k else div_round (Z.pos m * 10 ^ k) (2 ^ (- e)).

Definition fixed_text (neg : bool) (k n : Z) : list Z :=
  (if neg then [45] else []) ++ decimal (n / 10 ^ k) ++ [46] ++ pad_left k (decimal (n mod 10 ^ k)).

Definition fmt_fixed (k : Z) (x : double) : list Z :=
  match x with
  | S754_zero s => fixed_text s k 0
  | S754_finite s m e => fixed_text s k (scaled k m e)
  | S754_infinity s => (if s then [45] else []) ++ of_str "inf"
  | S754_nan => of_str "nan"
  end.

(** ** Lemmas *)

Lemma zlen_le_bytes n z : zlen (le_bytes n z) = Z.of_nat n.
Proof. revert z. induction n as [|n IH]; intros z; cbn [le_bytes]; [done|]. rewrite zlen_cons, IH. lia. Qed.

Lemma le_value_bytes n : forall z, 0 <= z < 256 ^ Z.of_nat n -> le_value (le_bytes n z) = z.
Proof.
  induction n as [|n IH]; intros z Hz; cbn [le_bytes le_value].
  - change (256 ^ Z.of_nat 0) with 1 in Hz. lia.
  - rewrite Nat2Z.inj_succ, Z.pow_succ_r in Hz by lia. rewrite IH.
    + pose proof (Z.div_mod z 256 ltac:(lia)). lia.
    + split; [apply Z.div_pos; lia|]. apply Z.div_lt_upper_bound; lia.
Qed.

Lemma digits2_pos_bounds p :
  2 ^ (Z.pos (digits2_pos p) - 1) <= Z.pos p < 2 ^ Z.pos (digits2_pos p).
Proof.
  induction p as [p IH|p IH|]; cbn [digits2_pos]; [| |done].
  all: rewrite Pos2Z.inj_succ; replace (Z.succ (Z.pos (digits2_pos p)) - 1)
         with (Z.succ (Z.pos (digits2_pos p) - 1)) by lia.
  all: rewrite !Z.pow_succ_r by lia; lia.
Qed.

(** A canonical mantissa has 53 bits, or fewer at the smallest exponent. *)
Lemma valid_finite s m e : dvalid (S754_finite s m e) = true ->
  Z.pos m < 2 ^ 53 /\ -1074 <= e <= 971 /\ (Z.pos m < 2 ^ 52 -> e = -1074).
Proof.
  unfold dvalid, valid_binary, bounded, canonical_mantissa, fexp, emin.
  intros [H1%Z.eqb_eq H2%Z.leb_le]%andb_true_iff.
  pose proof (digits2_pos_bounds m) as [D1 D2]. set (d := Z.pos (digits2_pos m)) in *.
  assert (d <= 53) by lia. split_and!; [|lia|lia|].
  - eapply Z.lt_le_trans; [exact D2|]. apply Z.pow_le_mono_r; lia.
  - intros Hm. assert (d - 1 < 52).
    { apply (Z.pow_lt_mono_r_iff 2); [lia|lia|]. eapply Z.le_lt_trans; [exact D1|exact Hm]. }
    lia.
Qed.

Lemma split_bits s ex fr : 0 <= ex < 2048 -> 0 <= fr < 2 ^ 52 ->
  let b := sign_bit s + ex * 2 ^ 52 + fr in
  0 <= b < 2 ^ 64 /\ (2 ^ 63 <=? b) = s /\ (b / 2 ^ 52) mod 2048 = ex /\ b mod 2 ^ 52 = fr.
Proof.
  intros Hex Hfr. cbv zeta.
  assert (E : sign_bit s + ex * 2 ^ 52 + fr = ((if s then 2048 else 0) + ex) * 2 ^ 52 + fr)
    by (unfold sign_bit; destruct s; lia).
  rewrite E. split_and!; try (destruct s; lia).
  - rewrite Z.div_add_l, (Z.div_small fr) by lia. rewrite Z.add_0_r.
    destruct s; [|by rewrite Z.mod_small by lia].
    symmetry. apply Z.mod_unique_pos with 1; lia.
  - rewrite Z.add_comm, Z.mod_add by lia. by apply Z.mod_small.
Qed.

Lemma bits_double_bits x : dvalid x = true ->
  0 <= double_bits x < 2 ^ 64 /\ bits_double (double_bits x) = x.
Proof.
  intros Hv. destruct x as [s|s| |s m e].
  - by destruct s.
  - by destruct s.
  - done.
  - destruct (valid_finite s m e Hv) as (V1 & V2 & V3). unfold double_bits, bits_double.
    destruct (Z.ltb_spec (Z.pos m) (2 ^ 52)) as [Hm|Hm].
    + rewrite (V3 Hm). destruct (split_bits s 0 (Z.pos m)) as (B1 & B2 & B3 & B4); [lia|lia|].
      rewrite Z.mul_0_l, Z.add_0_r in B1, B2, B3, B4. split; [done|]. by rewrite B2, B3, B4.
    + destruct (split_bits s (e + 1075) (Z.pos m - 2 ^ 52)) as (B1 & B2 & B3 & B4); [lia|lia|].
      split; [done|]. rewrite B2, B3, B4.
      replace (e + 1075 =? 0) with false by lia. replace (e + 1075 =? 2047) with false by lia.
      f_equal; [|lia]. replace (Z.pos m - 2 ^ 52 + 2 ^ 52) with (Z.pos m) by lia. done.
Qed.

Lemma double_bytes_roundtrip x : dvalid x = true -> bytes_double (double_bytes x) = x.
Proof.
  intros Hv. destruct (bits_double_bits x Hv) as [B E]. unfold bytes_double, double_bytes.
  by rewrite le_value_bytes.
Qed.

Lemma zlen_double_bytes x : zlen (double_bytes x) = 8.
Proof. apply zlen_le_bytes. Qed.

Example fmt_examples :
  fmt_fixed 9 (dscale 0x112e0be826d695 (-82)) = of_str "0.000000001" /\
  fmt_fixed 4 (dZ (-90)) = of_str "-90.0000" /\
  fmt_fixed 4 (dscale 1 (-4)) = of_str "0.0625".
Proof. by vm_compute. Qed.

(** ** How long a number is in print *)

Lemma dec_digits_len fuel : forall n acc k, 0 <= n < 10 ^ k -> 1 <= k ->
  zlen (dec_digits fuel n acc) <= zlen acc + k.
Proof.
  induction fuel as [|fuel IH]; intros n acc k Hn Hk; cbn [dec_digits]; [lia|].
  destruct (Z.eqb_spec (n / 10) 0); [rewrite zlen_cons; lia|].
  assert (k <> 1).
  { intros ->. change (10 ^ 1) with 10 in Hn. rewrite Z.div_small in n0 by lia. done. }
  assert (0 <= n / 10 < 10 ^ (k - 1)).
  { split; [apply Z.div_pos; lia|]. apply Z.div_lt_upper_bound; [lia|].
    rewrite <- Z.pow_succ_r by lia. replace (Z.succ (k - 1)) with k by lia. lia. }
  specialize (IH (n / 10) ((48 + n mod 10) :: acc) (k - 1) ltac:(done) ltac:(lia)).
  rewrite zlen_cons in IH. lia.
Qed.

Lemma decimal_len n k : 0 <= n < 10 ^ k -> 1 <= k -> zlen (decimal n) <= k.
Proof. intros Hn Hk. pose proof (dec_digits_len (S (Z.to_nat (Z.log2 n))) n [] k Hn Hk) as L. exact L. Qed.

Lemma decimal_u64 n : 0 <= n < 2 ^ 64 -> zlen (decimal n) <= 20.
Proof. intros. apply decimal_len; lia. Qed.
Lemma decimal_u32 n : 0 <= n < 2 ^ 32 -> zlen (decimal n) <= 10.
Proof. intros. apply decimal_len; lia. Qed.
