(* ===== verification/Address.v ===== *)
(** * Addresses and credentials as text (src/main/util.c)

    [sockaddrtostr] and [http_auth_basic_header].  The texts of addresses alone
    ([inet_ntop]), the test for a mapped IPv4 address and base64 are library code. *)

From S2P Require Import Prelude Doubles.

Definition PF_INET : Z := 2.
Definition PF_INET6 : Z := 10.

(** A [sockaddr_in6], with the address of the [sockaddr_in] it may hold; addresses and
    ports in network order. *)
Record sockaddr_t := mk_addr {
  sa_family : Z;
  sa_addr4 : Z;
  sa_addr6 : list Z;
  sa_port : Z
}.

(** [ntohs] of a port as it lies in memory. *)
Definition ntohs (port : Z) : Z := Z.lor (Z.shiftl (Z.land port 0xFF) 8) (Z.land (Z.shiftr port 8) 0xFF).

Section Text.
Variable ntop4 : Z -> list Z.
Variable ntop6 : list Z -> list Z.
Variable mapped : list Z -> bool.

(** The address inside a mapped one: [addr6->addr[3]]. *)
Definition inner4 (addr6 : list Z) : Z := le_value (zdrop 12 addr6).

Definition sockaddrtostr (a : sockaddr_t) : list Z :=
  let port := [58] ++ decimal (ntohs (sa_port a)) in
  if sa_family a =? PF_INET then ntop4 (sa_addr4 a) ++ port
  else if sa_family a =? PF_INET6 then
    if mapped (sa_addr6 a) then ntop4 (inner4 (sa_addr6 a)) ++ port
    else [91] ++ ntop6 (sa_addr6 a) ++ [93] ++ port
  else of_str "UNKNOWN".

(** The static buffer has room for every text, when [inet_ntop] keeps to the sizes it is
    given: fifteen characters of an IPv4 address, [INET6_ADDRSTRLEN - 1] of an IPv6 one. *)
Lemma sockaddrtostr_fits INET6_ADDRSTRLEN a : 46 <= INET6_ADDRSTRLEN ->
  (forall v, zlen (ntop4 v) <= 15) -> (forall l, zlen (ntop6 l) <= INET6_ADDRSTRLEN - 1) -> 0 <= sa_port a < 2 ^ 16 ->
  zlen (sockaddrtostr a) + 1 <= INET6_ADDRSTRLEN + 2 + 6 + 1.
Proof.
  intros Hs H4 H6 Hp.
  assert (Hn : 0 <= ntohs (sa_port a) < 10 ^ 5).
  { unfold ntohs. split.
    - apply Z.lor_nonneg. split; [apply Z.shiftl_nonneg|]; apply Z.land_nonneg; lia.
    - assert (L : forall x, 0 <= Z.land x 255 < 256).
      { intros x. change 255 with (Z.ones 8). rewrite Z.land_ones by lia. apply Z.mod_pos_bound. lia. }
      pose proof (L (sa_port a)) as L1. pose proof (L (Z.shiftr (sa_port a) 8)) as L2.
      rewrite Z.shiftl_mul_pow2 by lia.
      assert (Z.lor (Z.land (sa_port a) 255 * 2 ^ 8) (Z.land (Z.shiftr (sa_port a) 8) 255) < 2 ^ 16); [|lia].
      apply Z.log2_lt_cancel. change (Z.log2 (2 ^ 16)) with 16. rewrite Z.log2_lor by lia. apply Z.max_lub_lt.
      + destruct (Z.eq_dec (Z.land (sa_port a) 255) 0) as [->|]; [done|]. apply Z.log2_lt_pow2; lia.
      + destruct (Z.eq_dec (Z.land (Z.shiftr (sa_port a) 8) 255) 0) as [->|]; [done|]. apply Z.log2_lt_pow2; lia. }
  pose proof (decimal_len _ 5 Hn ltac:(lia)) as Hd. pose proof (H4 (sa_addr4 a)). pose proof (H4 (inner4 (sa_addr6 a))).
  pose proof (H6 (sa_addr6 a)). unfold sockaddrtostr.
  repeat case_if; autorewrite with zlen; change (zlen (of_str "UNKNOWN")) with 7; try lia.
Qed.
End Text.

(** The value of an [Authorization] header for a user and a password; [base64] encodes. *)
Definition http_auth_basic_header (base64 : list Z -> list Z) (username password : list Z) : list Z :=
  of_str "Basic " ++ base64 (username ++ [58] ++ password).
