(* ===== verification/StreamStats.v ===== *)
(** * Stream counters (src/main/stream_stats.c)

    Totals and running averages of the bytes of a stream.  [stats_period] is one
    turn of the task that averages them every second. *)

From S2P Require Import Prelude Doubles.

Record stream_stats := mk_stream {
  sm_name : list Z;
  sm_total_in : Z;                (* uint32_t *)
  sm_total_out : Z;               (* uint32_t *)
  sm_rate_in : double;
  sm_rate_out : double;
  sm_rate_in_period_count : Z;    (* uint32_t *)
  sm_rate_out_period_count : Z    (* uint32_t *)
}.

(** [0.8], [1.0 - 0.8] and [1000.0 / 1000]. *)
Definition RUNNING_AVERAGE_PERIOD : Z := 1000.
Definition RUNNING_AVERAGE_ALPHA : double := dscale 0x1999999999999a (-53).
Definition ALPHA_REST : double := dsub (dZ 1) RUNNING_AVERAGE_ALPHA.
Definition RUNNING_AVERAGE_PERIOD_CORRECTION : double := dZ 1.

Definition average (rate : double) (count : Z) : double :=
  dadd (dmul rate RUNNING_AVERAGE_ALPHA)
       (dmul (dmul (dZ count) ALPHA_REST) RUNNING_AVERAGE_PERIOD_CORRECTION).

Definition stats_period (s : stream_stats) : stream_stats :=
  mk_stream (sm_name s) (sm_total_in s) (sm_total_out s)
    (average (sm_rate_in s) (sm_rate_in_period_count s))
    (average (sm_rate_out s) (sm_rate_out_period_count s)) 0 0.

(** One turn of [stream_stats_task] over the list of streams. *)
Definition stream_stats_turn (l : list stream_stats) : list stream_stats := map stats_period l.

Definition stats_zero (name : list Z) : stream_stats := mk_stream name 0 0 (dZ 0) (dZ 0) 0 0.
Definition stream_stats_new (name : list Z) (l : list stream_stats) : list stream_stats := stats_zero name :: l.

Definition stream_stats_increment (s : stream_stats) (in_ out : Z) : stream_stats :=
  mk_stream (sm_name s) (u32 (sm_total_in s + in_)) (u32 (sm_total_out s + out))
    (sm_rate_in s) (sm_rate_out s)
    (u32 (sm_rate_in_period_count s + in_)) (u32 (sm_rate_out_period_count s + out)).

(** [stream_stats_values]: the rates as [uint32_t]. *)
Record stream_stats_values_t := mk_values {
  vl_name : list Z; vl_total_in : Z; vl_total_out : Z; vl_rate_in : Z; vl_rate_out : Z
}.
Definition stream_stats_values (s : stream_stats) : stream_stats_values_t :=
  mk_values (sm_name s) (sm_total_in s) (sm_total_out s) (u32 (truncated (sm_rate_in s))) (u32 (truncated (sm_rate_out s))).

(** ** Properties *)

Inductive stats_op := SO_add (in_ out : Z) | SO_period.
Definition stats_do (s : stream_stats) (op : stats_op) : stream_stats :=
  match op with SO_add i o => stream_stats_increment s i o | SO_period => stats_period s end.

Definition sum_in (ops : list stats_op) : Z :=
  fold_right (fun op n => match op with SO_add i _ => i + n | SO_period => n end) 0 ops.
Definition sum_out (ops : list stats_op) : Z :=
  fold_right (fun op n => match op with SO_add _ o => o + n | SO_period => n end) 0 ops.

(** The totals are the sums of what was counted, modulo 2^32, whenever the averages
    are taken. *)
Lemma totals_are_sums ops : forall s, 0 <= sm_total_in s < 2 ^ 32 -> 0 <= sm_total_out s < 2 ^ 32 ->
  let s' := fold_left stats_do ops s in
  sm_total_in s' = u32 (sm_total_in s + sum_in ops) /\ sm_total_out s' = u32 (sm_total_out s + sum_out ops).
Proof.
  induction ops as [|op ops IH]; intros s Hi Ho; cbn [fold_left sum_in sum_out fold_right].
  { by rewrite !Z.add_0_r, !u32_small. }
  destruct op as [i o|]; [|by apply (IH (stats_period s))].
  change (stats_do s (SO_add i o)) with (stream_stats_increment s i o).
  destruct (IH (stream_stats_increment s i o)) as [-> ->]; cbn [stream_stats_increment sm_total_in sm_total_out];
    [apply u32_range..|].
  unfold u32. rewrite !Zplus_mod_idemp_l. split; f_equal; unfold sum_in, sum_out; lia.
Qed.

(** A stream that carries the same bytes every second settles on its rate. *)
Example average_settles :
  fmt_fixed 3 (Nat.iter 100 (fun r => average r 1200) (dZ 0)) = of_str "1200.000".
Proof. vm_compute. reflexivity. Qed.
