(* ===== verification/Gnss.v ===== *)
(** * Receiver configuration (src/main/gnss.c)

    The UM980 is driven by text commands whose replies arrive on the same UART as
    its corrections.  The receiver and the UART are the interface [Receiver]: bytes
    go out, time passes and chunks come in.  The module's static variables are
    [gnss_t]; the transaction lock makes each operation one step.  [g_trace] notes
    every transaction, reset and save, for the theorems. *)

From Stdlib Require Import Floats.SpecFloat.
From S2P Require Import Prelude GnssAck Nmea Supervisor Ingest NetUtil Nvs Doubles.

Definition GNSS_RESET_MS : Z := 500.
Definition ACK_TIMEOUT_MS : Z := 900.
Definition ACK_POLL_MS : Z := 20.
Definition ACK_RETRIES : nat := 3.
Definition CAP_SZ : Z := 1024.
Definition GNSS_NVS_NS : string := "gnss".
Definition GNSS_KEY_BASE : string := "base".
Definition GNSS_BASE_RETRY_COOLDOWN_US : Z := 60 * 1000 * 1000.

Record gnss_base_fix_t := mk_fix { fx_lat : double; fx_lon : double; fx_h : double }.

Inductive gnss_event :=
  | GE_reset
  | GE_cmd (cmd : list Z) (acked : bool)
  | GE_save (c : gnss_base_fix_t) (ok : bool).

Record gnss_t := mk_gnss {
  g_cap : list Z;  (* s_cap[0 .. s_cap_len) *)
  g_capturing : bool;
  g_acked_valid : bool;  (* s_base_acked_valid *)
  g_acked_coord : gnss_base_fix_t;
  g_fail_us : Z;  (* int64_t s_base_fail_us *)
  g_fail_coord : gnss_base_fix_t;
  g_msgs : msgs_t;  (* the freshness epoch (ntrip_server.c) *)
  g_sup : sup_t;  (* the supervisor notes *)
  g_trace : list gnss_event  (* not a variable: what was done, latest first *)
}.

Definition eta_gnss_t (x : gnss_t) : gnss_t := mk_gnss (g_cap x) (g_capturing x) (g_acked_valid x) (g_acked_coord x)
  (g_fail_us x) (g_fail_coord x) (g_msgs x) (g_sup x) (g_trace x).
#[export] Instance set_g_cap : Setter g_cap := ltac:(derive_setter eta_gnss_t).
#[export] Instance set_g_capturing : Setter g_capturing := ltac:(derive_setter eta_gnss_t).
#[export] Instance set_g_acked_valid : Setter g_acked_valid := ltac:(derive_setter eta_gnss_t).
#[export] Instance set_g_acked_coord : Setter g_acked_coord := ltac:(derive_setter eta_gnss_t).
#[export] Instance set_g_fail_us : Setter g_fail_us := ltac:(derive_setter eta_gnss_t).
#[export] Instance set_g_fail_coord : Setter g_fail_coord := ltac:(derive_setter eta_gnss_t).
#[export] Instance set_g_msgs : Setter g_msgs := ltac:(derive_setter eta_gnss_t).
#[export] Instance set_g_sup : Setter g_sup := ltac:(derive_setter eta_gnss_t).
#[export] Instance set_g_trace : Setter g_trace := ltac:(derive_setter eta_gnss_t).

Definition fix_zero : gnss_base_fix_t := mk_fix (dZ 0) (dZ 0) (dZ 0).
Definition gnss_boot (m : msgs_t) (s : sup_t) : gnss_t :=
  mk_gnss [] false false fix_zero 0 fix_zero m s [].

(** The UART and the receiver behind it. *)
Class Receiver (W : Type) := {
  rx_send : list Z -> W -> W;              (* drv_uart_gnss_send *)
  rx_delay : Z -> W -> W * list (list Z);  (* milliseconds; the chunks read meanwhile *)
  rx_pin : bool -> W -> W;                 (* level of the reset pin *)
  rx_flush : W -> W;                       (* drv_uart_gnss_flush *)
  rx_time : W -> Z                         (* esp_timer_get_time *)
}.

(** ** Text and coordinates *)

Fixpoint drop_crlf (l : list Z) : list Z :=
  match l with
  | c :: l' => if (c =? 13) || (c =? 10) then drop_crlf l' else l
  | [] => []
  end.
(** The command without its line end, as the receiver echoes it: at most 95 bytes. *)
Definition echo_of (cmd : list Z) : list Z := ztake 95 (rev (drop_crlf (rev cmd))).

Definition CRLF_TEXT : list Z := [13; 10].
Definition CMD_UNDULATION : list Z := Eval compute in of_str "CONFIG UNDULATION 0.0" ++ [13; 10].
Definition CMD_SAVECONFIG : list Z := Eval compute in of_str "saveconfig" ++ [13; 10].
Definition CMD_SURVEY : list Z := Eval compute in of_str "mode base time 300 1.5" ++ [13; 10].
Definition MODE_BASE : list Z := Eval compute in of_str "mode base ".

(** [snprintf(cmd, 96, "mode base %.9f %.9f %.4f\r\n", ...)] *)
Definition mode_base_cmd (c : gnss_base_fix_t) : list Z :=
  ztake 95 (MODE_BASE ++ fmt_fixed 9 (fx_lat c) ++ [32] ++ fmt_fixed 9 (fx_lon c) ++ [32] ++
            fmt_fixed 4 (fx_h c) ++ CRLF_TEXT).

Definition gnss_coord_valid (lat lon : double) : bool :=
  if deq lat (dZ 0) && deq lon (dZ 0) then false
  else dle (dZ (-90)) lat && dle lat (dZ 90) && dle (dZ (-180)) lon && dle lon (dZ 180).

Definition gnss_height_valid (h : double) : bool :=
  isfinite h && dle (dZ (-500)) h && dle h (dZ 9000).

Definition fix_valid (c : gnss_base_fix_t) : bool :=
  gnss_coord_valid (fx_lat c) (fx_lon c) && gnss_height_valid (fx_h c).

(** [1e-9] and [5e-4], as the compiler rounds them. *)
Definition D1e_9 : double := dscale 0x112e0be826d695 (-82).
Definition D5e_4 : double := dscale 0x10624dd2f1a9fc (-63).

(** The comparison of two coordinates, used four times. *)
Definition fix_close (a b : gnss_base_fix_t) : bool :=
  dlt (dabs (dsub (fx_lat a) (fx_lat b))) D1e_9 &&
  dlt (dabs (dsub (fx_lon a) (fx_lon b))) D1e_9 &&
  dlt (dabs (dsub (fx_h a) (fx_h b))) D5e_4.

(** Its negated form: some difference is at least the bound. *)
Definition fix_apart (a b : gnss_base_fix_t) : bool :=
  dle D1e_9 (dabs (dsub (fx_lat a) (fx_lat b))) ||
  dle D1e_9 (dabs (dsub (fx_lon a) (fx_lon b))) ||
  dle D5e_4 (dabs (dsub (fx_h a) (fx_h b))).

(** The structure in memory. *)
Definition fix_bytes (c : gnss_base_fix_t) : list Z :=
  double_bytes (fx_lat c) ++ double_bytes (fx_lon c) ++ double_bytes (fx_h c).
Definition bytes_fix (l : list Z) : gnss_base_fix_t :=
  mk_fix (bytes_double (ztake 8 l)) (bytes_double (ztake 8 (zdrop 8 l))) (bytes_double (ztake 8 (zdrop 16 l))).

(** ** Capturing replies *)

Definition gnss_ingest_uart (data : list Z) (g : gnss_t) : gnss_t :=
  if negb (g_capturing g) || (zlen data =? 0) then g
  else
    let cap := if CAP_SZ <=? zlen (g_cap g) + zlen data then [] else g_cap g in
    g <| g_cap := ztake (CAP_SZ - 1) (cap ++ data) |>.

Definition cap_reset (g : gnss_t) : gnss_t := g <| g_cap := [] |>.

Definition cap_find_from (hay : list Z) (from : Z) (needle : list Z) : Z :=
  if (zlen needle =? 0) || (zlen hay <? zlen needle) then -1
  else let i := find_at hay (zlen hay) from needle in if i <? 0 then -1 else i + zlen needle.

Definition cap_contains (needle : list Z) (g : gnss_t) : bool := 0 <=? cap_find_from (g_cap g) 0 needle.

(** The verdict on [cmd] in what was captured; the scan always has one. *)
Definition cap_verdict_for (cmd : list Z) (g : gnss_t) : gnss_ack_verdict_t :=
  default GNSS_ACK_NONE (gnss_ack_scan (g_cap g) cmd).

(** ** The system: the module, the store, the receiver *)

Record gnss_sys (St W : Type) := mk_sys { y_g : gnss_t; y_nvs : St; y_rx : W }.
Arguments mk_sys {St W}.
Arguments y_g {St W}.
Arguments y_nvs {St W}.
Arguments y_rx {St W}.

Section Gnss.
Context `{Nvs St} `{Receiver W}.

Definition on_g (f : gnss_t -> gnss_t) (y : gnss_sys St W) : gnss_sys St W :=
  mk_sys (f (y_g y)) (y_nvs y) (y_rx y).
Definition on_rx (f : W -> W) (y : gnss_sys St W) : gnss_sys St W :=
  mk_sys (y_g y) (y_nvs y) (f (y_rx y)).

Definition note (e : gnss_event) (y : gnss_sys St W) : gnss_sys St W :=
  on_g (fun g => g <| g_trace := e :: g_trace g |>) y.

(** [vTaskDelay]: the UART task hands over what arrives. *)
Definition gnss_delay (ms : Z) (y : gnss_sys St W) : gnss_sys St W :=
  let '(w, chunks) := rx_delay ms (y_rx y) in
  mk_sys (fold_left (fun g d => gnss_ingest_uart d g) chunks (y_g y)) (y_nvs y) w.

(** ** Commands *)

(** The polls of one attempt: [None] without a verdict before the timeout. *)
Fixpoint ack_polls (polls : nat) (echo : list Z) (y : gnss_sys St W) : gnss_sys St W * option bool :=
  match polls with
  | O => (y, None)
  | S polls' =>
    let y := gnss_delay ACK_POLL_MS y in
    match cap_verdict_for echo (y_g y) with
    | GNSS_ACK_NONE => ack_polls polls' echo y
    | v =>
      let y := on_g (fun g => g <| g_sup := supervisor_note_gnss_rx (rx_time (y_rx y)) (g_sup g) |>) y in
      (y, Some (match v with GNSS_ACK_OK => true | _ => false end))
    end
  end.

Definition ACK_POLLS : nat := Z.to_nat (ACK_TIMEOUT_MS / ACK_POLL_MS).

(** [n] attempts. *)
Fixpoint ack_attempts (n : nat) (cmd : list Z) (y : gnss_sys St W) : gnss_sys St W * bool :=
  match n with
  | O => (y, false)
  | S n' =>
    let y := on_rx (rx_send cmd) (on_g cap_reset y) in
    let '(y, r) := ack_polls ACK_POLLS (echo_of cmd) y in
    match r with
    | Some b => (y, b)
    | None => ack_attempts n' cmd y
    end
  end.

Definition send_cmd_acked (cmd : list Z) (retries : nat) (y : gnss_sys St W) : gnss_sys St W * bool :=
  let '(y, b) := ack_attempts (S retries) cmd y in (note (GE_cmd cmd b) y, b).

(** ** Epoch and reset *)

Definition gnss_receiver_epoch_invalidate (y : gnss_sys St W) : gnss_sys St W :=
  on_g (fun g => g <| g_acked_valid := false |> <| g_fail_us := 0 |>
                   <| g_msgs := ntrip_server_msg_epoch_reset (rx_time (y_rx y)) (g_msgs g) |>) y.

Definition gnss_reset_pulse (y : gnss_sys St W) : gnss_sys St W :=
  let y := gnss_delay GNSS_RESET_MS (on_rx (rx_pin false) y) in
  let y := gnss_delay GNSS_RESET_MS (on_rx (rx_pin true) y) in
  gnss_receiver_epoch_invalidate (note GE_reset (on_rx rx_flush y)).

(** ** The persisted coordinate *)

Definition gnss_load_fixed_base (n : St) : option gnss_base_fix_t * St :=
  let '(e, n) := nvs_open GNSS_NVS_NS false n in
  if negb (is_ok e) then (None, n)
  else
    let '(e, b) := nvs_get_blob GNSS_NVS_NS GNSS_KEY_BASE (Some 24) n in
    if negb (is_ok e) || negb (zlen b =? 24) || negb (fix_valid (bytes_fix b)) then (None, n)
    else (Some (bytes_fix b), n).

Definition gnss_save_fixed_base (c : gnss_base_fix_t) (n : St) : bool * St :=
  let '(e, n) := nvs_open GNSS_NVS_NS true n in
  if negb (is_ok e) then (false, n)
  else
    let '(e, n) := nvs_set_blob GNSS_NVS_NS GNSS_KEY_BASE (fix_bytes c) n in
    let '(e, n) := if is_ok e then nvs_commit GNSS_NVS_NS n else (e, n) in
    (is_ok e, n).

(** The two on the system; a save is noted with its result, which the callers ignore. *)
Definition load_base (y : gnss_sys St W) : gnss_sys St W * option gnss_base_fix_t :=
  let '(c, n) := gnss_load_fixed_base (y_nvs y) in (mk_sys (y_g y) n (y_rx y), c).
Definition save_base (c : gnss_base_fix_t) (y : gnss_sys St W) : gnss_sys St W :=
  let '(ok, n) := gnss_save_fixed_base c (y_nvs y) in note (GE_save c ok) (mk_sys (y_g y) n (y_rx y)).

(** ** Configuring the base *)

Definition base_seq : list (list Z) := map (fun s => of_str s ++ CRLF_TEXT)
  ["unlog com1"; "CONFIG SIGNALGROUP 2"; "CONFIG UNDULATION 0.0"; "MASK 10.0";
   "rtcm1077,com1,1"; "rtcm1087,com1,1"; "rtcm1097,com1,1"; "rtcm1117,com1,1";
   "rtcm1127,com1,1"; "rtcm1137,com1,1"; "rtcm1005,com1,10"; "rtcm1033,com1,10";
   "rtcm1230,com1,10"]%string.

Fixpoint send_all (cmds : list (list Z)) (y : gnss_sys St W) (ok : Z) : gnss_sys St W * Z :=
  match cmds with
  | [] => (y, ok)
  | cmd :: cmds =>
    let '(y, b) := send_cmd_acked cmd ACK_RETRIES y in send_all cmds y (if b then ok + 1 else ok)
  end.

Definition set_latch (c : option gnss_base_fix_t) (g : gnss_t) : gnss_t :=
  match c with
  | Some c => g <| g_acked_valid := true |> <| g_acked_coord := c |>
  | None => g <| g_acked_valid := false |>
  end.

(** The base mode: the persisted coordinate, or a survey. *)
Definition send_base_mode (y : gnss_sys St W) : gnss_sys St W * bool :=
  let '(y, base) := load_base y in
  match base with
  | Some c =>
    let '(y, b) := send_cmd_acked (mode_base_cmd c) ACK_RETRIES y in
    (on_g (set_latch (if b then Some c else None)) y, b)
  | None => send_cmd_acked CMD_SURVEY ACK_RETRIES (on_g (set_latch None) y)
  end.

(** [config_gnss_base]: with the numbers it reports, acknowledged of all. *)
Definition config_gnss_base (y : gnss_sys St W) : gnss_sys St W * Z * Z :=
  let y := on_g (fun g => g <| g_capturing := true |>) y in
  let '(y, ok) := send_all base_seq y 0 in
  let '(y, b) := send_base_mode y in
  let ok := if b then ok + 1 else ok in
  let '(y, b) := send_cmd_acked CMD_SAVECONFIG ACK_RETRIES y in
  let ok := if b then ok + 1 else ok in
  (on_g (fun g => g <| g_capturing := false |>) y, ok, zlen base_seq + 2).

(** ** A coordinate from the server *)

(** The idempotence gate: refresh the store when it holds something else. *)
Definition refresh_base (c : gnss_base_fix_t) (y : gnss_sys St W) : gnss_sys St W :=
  let '(y, nv) := load_base y in
  match nv with
  | Some b => if fix_apart b c then save_base c y else y
  | None => save_base c y
  end.

(** The commands of an attempt, and what is concluded from them. *)
Definition apply_base (c : gnss_base_fix_t) (y : gnss_sys St W) : gnss_sys St W * bool :=
  let y := on_g (fun g => g <| g_capturing := true |>) y in
  let '(y, _) := send_cmd_acked CMD_UNDULATION ACK_RETRIES y in
  let '(y, acked) := send_cmd_acked (mode_base_cmd c) ACK_RETRIES y in
  let '(y, ok) := if acked then send_cmd_acked CMD_SAVECONFIG ACK_RETRIES y else (y, false) in
  let y := on_g (fun g => g <| g_capturing := false |>) y in
  let y := on_g (set_latch (if acked then Some c else None)) y in
  let y := if ok then on_g (fun g => g <| g_fail_us := 0 |>) y
           else on_g (fun g => g <| g_fail_us := rx_time (y_rx y) |> <| g_fail_coord := c |>) y in
  ((if ok then save_base c y else y), ok).

Definition cooling_down (c : gnss_base_fix_t) (y : gnss_sys St W) : bool :=
  let g := y_g y in
  negb (g_fail_us g =? 0) && fix_close (g_fail_coord g) c &&
  (rx_time (y_rx y) - g_fail_us g <? GNSS_BASE_RETRY_COOLDOWN_US).

Definition gnss_set_fixed_base (c : gnss_base_fix_t) (y : gnss_sys St W) : gnss_sys St W * bool :=
  if negb (fix_valid c) then (y, false)
  else if g_acked_valid (y_g y) && fix_close (g_acked_coord (y_g y)) c then (refresh_base c y, true)
  else if cooling_down c y then (y, false)
  else apply_base c y.

Definition gnss_recover (y : gnss_sys St W) : gnss_sys St W :=
  (config_gnss_base (gnss_reset_pulse y)).1.1.

(** ** The version query *)

Definition VERSIONA : list Z := Eval compute in of_str "VERSIONA" ++ [13; 10].
Definition VERSION_TEXT : list Z := Eval compute in of_str "VERSION".

Fixpoint version_polls (n : nat) (y : gnss_sys St W) : gnss_sys St W :=
  match n with
  | O => y
  | S n' =>
    let y := gnss_delay ACK_POLL_MS y in
    if cap_contains VERSION_TEXT (y_g y) then y else version_polls n' y
  end.

(** The reply it logs, with the line ends made spaces. *)
Definition gnss_log_version (y : gnss_sys St W) : gnss_sys St W * list Z :=
  let y := on_g (fun g => cap_reset (g <| g_capturing := true |>)) y in
  let y := version_polls (Z.to_nat (2000 / ACK_POLL_MS)) (on_rx (rx_send VERSIONA) y) in
  let text := map (fun c => if (c =? 13) || (c =? 10) then 32 else c) (g_cap (y_g y)) in
  (on_g (fun g => g <| g_capturing := false |>) y, text).

Definition gnss_init (y : gnss_sys St W) : gnss_sys St W :=
  (gnss_log_version (config_gnss_base (gnss_reset_pulse y)).1.1).1.
End Gnss.

(** ** Specification *)

Definition is_mode_base (cmd : list Z) : bool := str_starts_with cmd MODE_BASE.

(** The base mode the receiver is known to be in: the last mode command since the
    last reset, if it was acknowledged. *)
Fixpoint receiver_mode (tr : list gnss_event) : option (list Z) :=
  match tr with
  | [] | GE_reset :: _ => None
  | GE_cmd cmd acked :: tr =>
    if is_mode_base cmd then (if acked then Some cmd else None) else receiver_mode tr
  | GE_save _ _ :: tr => receiver_mode tr
  end.

(** The command that zeroes the undulation was sent since the last reset; nobody looks at
    the answer. *)
Fixpoint zero_sent (tr : list gnss_event) : bool :=
  match tr with
  | [] | GE_reset :: _ => false
  | GE_cmd cmd _ :: tr => bytes_eqb cmd CMD_UNDULATION || zero_sent tr
  | GE_save _ _ :: tr => zero_sent tr
  end.

(** The same coordinate, or one that counts as unchanged. *)
Definition same_base (a b : gnss_base_fix_t) : Prop := a = b \/ fix_close a b = true.

(** What every step of the history respects: a mode command for a fixed
    coordinate comes after the one that zeroes the undulation, and a saved coordinate is
    valid and the one the receiver acknowledged. *)
Fixpoint trace_ok (tr : list gnss_event) : Prop :=
  match tr with
  | [] => True
  | GE_reset :: tr => trace_ok tr
  | GE_cmd cmd _ :: tr =>
    (is_mode_base cmd = true -> cmd = CMD_SURVEY \/
       (exists c, fix_valid c = true /\ cmd = mode_base_cmd c) /\ zero_sent tr = true) /\ trace_ok tr
  | GE_save c _ :: tr =>
    (fix_valid c = true /\ exists a, receiver_mode tr = Some (mode_base_cmd a) /\ same_base a c) /\
    trace_ok tr
  end.

(** The latch tells the truth. *)
Definition latch_true (g : gnss_t) : Prop :=
  g_acked_valid g = true ->
  receiver_mode (g_trace g) = Some (mode_base_cmd (g_acked_coord g)).

Inductive gnss_op := Op_init | Op_set (c : gnss_base_fix_t) | Op_recover | Op_version.

Definition gnss_do `{Nvs St} `{Receiver W} (op : gnss_op) (y : gnss_sys St W) : gnss_sys St W :=
  match op with
  | Op_init => gnss_init y
  | Op_set c => (gnss_set_fixed_base c y).1
  | Op_recover => gnss_recover y
  | Op_version => (gnss_log_version y).1
  end.

Definition is_cmd (e : gnss_event) : bool := match e with GE_cmd _ _ => true | _ => false end.
Definition sent (tr : list gnss_event) : Z := zlen (List.filter is_cmd tr).

(** ** Lemmas on commands *)

Section GnssLemmas.
Context `{Nvs St} `{Receiver W}.
Implicit Types y : gnss_sys St W.

(** Nothing but the capture, the supervisor's note and the receiver changed. *)
Definition kept (y y' : gnss_sys St W) : Prop :=
  y_nvs y' = y_nvs y /\ g_trace (y_g y') = g_trace (y_g y) /\
  g_acked_valid (y_g y') = g_acked_valid (y_g y) /\ g_acked_coord (y_g y') = g_acked_coord (y_g y) /\
  g_fail_us (y_g y') = g_fail_us (y_g y) /\ g_fail_coord (y_g y') = g_fail_coord (y_g y).

Lemma kept_refl y : kept y y.
Proof. by split_and!. Qed.
Lemma kept_trans y1 y2 y3 : kept y1 y2 -> kept y2 y3 -> kept y1 y3.
Proof.
  intros (A1 & A2 & A3 & A4 & A5 & A6) (B1 & B2 & B3 & B4 & B5 & B6). split_and!; congruence.
Qed.

Lemma ingest_kept chunks : forall g,
  let g' := fold_left (fun g d => gnss_ingest_uart d g) chunks g in
  g_trace g' = g_trace g /\ g_acked_valid g' = g_acked_valid g /\ g_acked_coord g' = g_acked_coord g /\
  g_fail_us g' = g_fail_us g /\ g_fail_coord g' = g_fail_coord g.
Proof.
  induction chunks as [|d chunks IH]; intros g; cbn [fold_left]; [done|].
  destruct (IH (gnss_ingest_uart d g)) as (I1 & I2 & I3 & I4 & I5).
  cbv zeta in *. rewrite I1, I2, I3, I4, I5. unfold gnss_ingest_uart. by case_if.
Qed.

Lemma delay_kept ms y : kept y (gnss_delay ms y).
Proof.
  unfold gnss_delay. destruct (rx_delay ms (y_rx y)) as [w chunks].
  destruct (ingest_kept chunks (y_g y)) as (I1 & I2 & I3 & I4 & I5). by split_and!.
Qed.

Lemma polls_kept n echo : forall y, kept y (ack_polls n echo y).1.
Proof.
  induction n as [|n IH]; intros y; cbn [ack_polls]; [apply kept_refl|].
  pose proof (delay_kept ACK_POLL_MS y) as D. set (y1 := gnss_delay ACK_POLL_MS y) in *. clearbody y1.
  destruct (cap_verdict_for echo (y_g y1)); cbn [fst].
  - by eapply kept_trans.
  - eapply kept_trans; [exact D|]. by split_and!.
  - eapply kept_trans; [exact D|]. by split_and!.
Qed.

Lemma attempts_kept n cmd : forall y, kept y (ack_attempts n cmd y).1.
Proof.
  induction n as [|n IH]; intros y; cbn [ack_attempts]; [apply kept_refl|].
  set (y0 := on_rx _ _). assert (K0 : kept y y0) by (by split_and!).
  pose proof (polls_kept ACK_POLLS (echo_of cmd) y0) as P.
  destruct (ack_polls ACK_POLLS (echo_of cmd) y0) as [y1 r]. cbn [fst] in P.
  destruct r; cbn [fst]; repeat (eapply kept_trans; [eassumption|]); [apply kept_refl|apply IH].
Qed.

(** [kept], with one transaction more in the history. *)
Definition kept_cmd (cmd : list Z) (b : bool) (y y' : gnss_sys St W) : Prop :=
  y_nvs y' = y_nvs y /\ g_trace (y_g y') = GE_cmd cmd b :: g_trace (y_g y) /\
  g_acked_valid (y_g y') = g_acked_valid (y_g y) /\ g_acked_coord (y_g y') = g_acked_coord (y_g y) /\
  g_fail_us (y_g y') = g_fail_us (y_g y) /\ g_fail_coord (y_g y') = g_fail_coord (y_g y).

Lemma send_spec cmd n y :
  let r := send_cmd_acked cmd n y in kept_cmd cmd r.2 y r.1.
Proof.
  cbv zeta. unfold send_cmd_acked. pose proof (attempts_kept (S n) cmd y) as A.
  destruct (ack_attempts (S n) cmd y) as [y1 b]. destruct A as (A1 & A2 & A3 & A4 & A5 & A6).
  unfold note, on_g. split_and!; cbn; try done. cbn in A2. by rewrite A2.
Qed.

Definition good (y : gnss_sys St W) : Prop := trace_ok (g_trace (y_g y)) /\ latch_true (y_g y).

(** A command that is no mode command. *)
Lemma send_other cmd n y : is_mode_base cmd = false -> good y ->
  let r := send_cmd_acked cmd n y in
  good r.1 /\ y_nvs r.1 = y_nvs y /\ receiver_mode (g_trace (y_g r.1)) = receiver_mode (g_trace (y_g y)) /\
  zero_sent (g_trace (y_g r.1)) = bytes_eqb cmd CMD_UNDULATION || zero_sent (g_trace (y_g y)) /\
  g_trace (y_g r.1) = GE_cmd cmd r.2 :: g_trace (y_g y).
Proof.
  intros Hm [G1 G2]. cbv zeta. destruct (send_spec cmd n y) as (S1 & S2 & S3 & S4 & _).
  destruct (send_cmd_acked cmd n y) as [y1 b]. cbn [fst snd] in *.
  split_and!; try done; rewrite ?S2; cbn [receiver_mode zero_sent]; rewrite ?Hm; try done.
  split; [rewrite S2; cbn [trace_ok]; rewrite Hm; done|].
  unfold latch_true. rewrite S2, S3, S4. cbn [receiver_mode]. by rewrite Hm.
Qed.

Lemma mode_base_cmd_mode c : is_mode_base (mode_base_cmd c) = true.
Proof.
  unfold is_mode_base, str_starts_with, mode_base_cmd. change (zlen MODE_BASE) with 10.
  rewrite ztake_ztake by lia. change 10 with (zlen MODE_BASE) at 1. rewrite ztake_app_exact. apply bytes_eqb_refl.
Qed.

Lemma send_all_good cmds : forall y ok,
  Forall (fun cmd => is_mode_base cmd = false) cmds -> good y ->
  let r := send_all cmds y ok in
  good r.1 /\ y_nvs r.1 = y_nvs y /\
  zero_sent (g_trace (y_g r.1)) = existsb (fun cmd => bytes_eqb cmd CMD_UNDULATION) cmds || zero_sent (g_trace (y_g y)).
Proof.
  induction cmds as [|cmd cmds IH]; intros y ok Hc Hg; cbn [send_all existsb]; [done|].
  apply Forall_cons in Hc as [Hm Hc]. destruct (send_other cmd ACK_RETRIES y Hm Hg) as (S1 & S2 & S3 & S4 & _).
  destruct (send_cmd_acked cmd ACK_RETRIES y) as [y1 b]. cbn [fst snd] in *.
  destruct (IH y1 (if b then ok + 1 else ok) Hc S1) as (I1 & I2 & I3). cbv zeta.
  split_and!; [done|congruence|]. rewrite I3, S4.
  destruct (bytes_eqb cmd CMD_UNDULATION); cbn [orb]; [by rewrite orb_true_r|done].
Qed.

Lemma base_seq_plain : Forall (fun cmd => is_mode_base cmd = false) base_seq.
Proof. apply (Forall_forall _ _). intros cmd Hin. apply list_elem_of_In in Hin. cbn in Hin. intuition (subst; reflexivity). Qed.

Lemma load_base_spec y :
  let r := load_base y in
  y_g r.1 = y_g y /\ match r.2 with Some c => fix_valid c = true | None => True end.
Proof.
  cbv zeta. unfold load_base, gnss_load_fixed_base. destruct (nvs_open _ _ _) as [e n].
  destruct (is_ok e); cbn [negb]; [|done]. destruct (nvs_get_blob _ _ _ n) as [e' b].
  destruct (is_ok e'); cbn [negb orb]; [|done]. destruct (zlen b =? 24); cbn [negb orb]; [|done].
  by destruct (fix_valid (bytes_fix b)) eqn:V.
Qed.

Lemma save_base_spec c y :
  let y' := save_base c y in
  g_trace (y_g y') = GE_save c (gnss_save_fixed_base c (y_nvs y)).1 :: g_trace (y_g y) /\
  g_acked_valid (y_g y') = g_acked_valid (y_g y) /\ g_acked_coord (y_g y') = g_acked_coord (y_g y).
Proof. cbv zeta. unfold save_base. by destruct (gnss_save_fixed_base _ _). Qed.

(** A mode command for a fixed coordinate, and the latch set by its answer. *)
Lemma send_fixed_good c y : fix_valid c = true -> zero_sent (g_trace (y_g y)) = true -> good y ->
  let r := send_cmd_acked (mode_base_cmd c) ACK_RETRIES y in
  good (on_g (set_latch (if r.2 then Some c else None)) r.1) /\
  trace_ok (g_trace (y_g r.1)) /\
  g_trace (y_g r.1) = GE_cmd (mode_base_cmd c) r.2 :: g_trace (y_g y).
Proof.
  intros Hc Hz [G1 G2]. cbv zeta. destruct (send_spec (mode_base_cmd c) ACK_RETRIES y) as (_ & S2 & _).
  destruct (send_cmd_acked (mode_base_cmd c) ACK_RETRIES y) as [y1 b]. cbn [fst snd] in *.
  assert (Ht : trace_ok (g_trace (y_g y1))).
  { rewrite S2. cbn [trace_ok]. split; [|done]. intros _. right. split; [by exists c|done]. }
  split_and!; [|done|done]. split; [by destruct b|]. destruct b; unfold latch_true; cbn; [|done].
  intros _. rewrite S2. cbn [receiver_mode]. by rewrite mode_base_cmd_mode.
Qed.

Lemma unlatched_good y : good y -> good (on_g (set_latch None) y).
Proof. intros [G1 G2]. split; [done|]. by unfold latch_true. Qed.

Lemma send_survey_good y : good (on_g (set_latch None) y) ->
  good (send_cmd_acked CMD_SURVEY ACK_RETRIES (on_g (set_latch None) y)).1.
Proof.
  intros [G1 G2]. destruct (send_spec CMD_SURVEY ACK_RETRIES (on_g (set_latch None) y)) as (_ & S2 & S3 & _).
  destruct (send_cmd_acked _ _ _) as [y1 b]. cbn [fst snd] in *. split.
  - rewrite S2. cbn [trace_ok]. split; [by left|done].
  - unfold latch_true. by rewrite S3.
Qed.

(** Capturing on or off, and the cooldown, do not matter. *)
Lemma good_ext y y' :
  g_trace (y_g y') = g_trace (y_g y) -> g_acked_valid (y_g y') = g_acked_valid (y_g y) ->
  g_acked_coord (y_g y') = g_acked_coord (y_g y) -> good y -> good y'.
Proof. intros E1 E2 E3 [G1 G2]. unfold good, latch_true in *. by rewrite E1, E2, E3. Qed.

Lemma send_base_mode_good y : good y -> zero_sent (g_trace (y_g y)) = true -> good (send_base_mode y).1.
Proof.
  intros Hg Hz. unfold send_base_mode. destruct (load_base_spec y) as [L1 L2].
  destruct (load_base y) as [y1 base]. cbn [fst snd] in L1, L2.
  assert (Hg1 : good y1) by (unfold good in *; by rewrite L1). rewrite <- L1 in Hz.
  destruct base as [c|].
  - destruct (send_fixed_good c y1 L2 Hz Hg1) as (F1 & _).
    by destruct (send_cmd_acked (mode_base_cmd c) ACK_RETRIES y1) as [y2 b].
  - by apply send_survey_good, unlatched_good.
Qed.

Lemma config_good y : good y -> good (config_gnss_base y).1.1.
Proof.
  intros Hg. unfold config_gnss_base. set (y0 := on_g _ y).
  assert (Hg0 : good y0) by (by eapply good_ext; [..|exact Hg]).
  destruct (send_all_good base_seq y0 0 base_seq_plain Hg0) as (A1 & _ & A3).
  destruct (send_all base_seq y0 0) as [y1 ok]. cbn [fst] in A1, A3.
  pose proof (send_base_mode_good y1 A1 A3) as B. destruct (send_base_mode y1) as [y2 b]. cbn [fst] in B.
  destruct (send_other CMD_SAVECONFIG ACK_RETRIES y2 eq_refl B) as (C1 & _).
  destruct (send_cmd_acked CMD_SAVECONFIG ACK_RETRIES y2) as [y3 b3]. cbn [fst snd] in *.
  by eapply good_ext; [..|exact C1].
Qed.

Lemma reset_good y : good y -> good (gnss_reset_pulse y).
Proof.
  intros [G1 _]. unfold gnss_reset_pulse. set (y1 := gnss_delay GNSS_RESET_MS (on_rx (rx_pin false) y)).
  set (y2 := gnss_delay GNSS_RESET_MS (on_rx (rx_pin true) y1)).
  destruct (delay_kept GNSS_RESET_MS (on_rx (rx_pin false) y)) as (_ & D1 & _).
  destruct (delay_kept GNSS_RESET_MS (on_rx (rx_pin true) y1)) as (_ & D2 & _).
  fold y1 in D1. fold y2 in D2. split; [|by unfold latch_true].
  cbn. rewrite D2. cbn in D1 |- *. rewrite D1. exact G1.
Qed.

Lemma version_good y : good y -> good (gnss_log_version y).1.
Proof.
  intros Hg. unfold gnss_log_version. cbn [fst].
  assert (V : forall n y, kept y (version_polls n y)).
  { induction n as [|n IH]; intros z; cbn [version_polls]; [apply kept_refl|].
    case_if; [apply delay_kept|]. eapply kept_trans; [apply delay_kept|apply IH]. }
  set (y1 := on_rx _ _). destruct (V (Z.to_nat (2000 / ACK_POLL_MS)) y1) as (_ & V2 & V3 & V4 & _).
  by eapply good_ext; [..|exact Hg].
Qed.

(** What [apply_base] does to history, latch and result. *)
Lemma apply_good c y : fix_valid c = true -> good y ->
  let r := apply_base c y in
  good r.1 /\ (r.2 = true -> receiver_mode (g_trace (y_g r.1)) = Some (mode_base_cmd c)).
Proof.
  intros Hc Hg. cbv zeta. unfold apply_base. set (y0 := on_g _ y).
  assert (Hg0 : good y0) by (by eapply good_ext; [..|exact Hg]).
  destruct (send_other CMD_UNDULATION ACK_RETRIES y0 eq_refl Hg0) as (A1 & _ & _ & A4 & _).
  destruct (send_cmd_acked CMD_UNDULATION ACK_RETRIES y0) as [y1 b1]. cbn [fst snd] in *.
  destruct (send_fixed_good c y1 Hc A4 A1) as (F1 & F2 & F3).
  destruct (send_cmd_acked (mode_base_cmd c) ACK_RETRIES y1) as [y2 acked]. cbn [fst snd] in *.
  destruct acked.
  - assert (Hm : receiver_mode (g_trace (y_g y2)) = Some (mode_base_cmd c)).
    { rewrite F3. cbn [receiver_mode]. by rewrite mode_base_cmd_mode. }
    destruct (send_spec CMD_SAVECONFIG ACK_RETRIES y2) as (_ & S2 & _).
    destruct (send_cmd_acked CMD_SAVECONFIG ACK_RETRIES y2) as [y3 ok]. cbn [fst snd] in S2.
    assert (Ht : trace_ok (g_trace (y_g y3)) /\ receiver_mode (g_trace (y_g y3)) = Some (mode_base_cmd c)).
    { rewrite S2. cbn [trace_ok receiver_mode]. change (is_mode_base CMD_SAVECONFIG) with false. done. }
    destruct Ht as [Ht Hr]. destruct ok; cbn [fst snd].
    + set (z := on_g _ _). destruct (save_base_spec c z) as (V1 & V2 & V3).
      unfold good, latch_true. rewrite V1, V2, V3. cbn [trace_ok receiver_mode].
      change (g_trace (y_g z)) with (g_trace (y_g y3)). rewrite Hr. split_and!; try done.
      exists c. split; [done|by left].
    + split; [|done]. split; [exact Ht|]. unfold latch_true. cbn. by rewrite Hr.
  - cbn [fst snd]. split; [|done]. split; [exact F2|]. by unfold latch_true.
Qed.

Lemma send_sent cmd n y :
  sent (g_trace (y_g (send_cmd_acked cmd n y).1)) = sent (g_trace (y_g y)) + 1.
Proof.
  destruct (send_spec cmd n y) as (_ & -> & _). unfold sent. cbn [List.filter is_cmd]. rewrite zlen_cons. lia.
Qed.

Lemma apply_sent c y : sent (g_trace (y_g (apply_base c y).1)) <= sent (g_trace (y_g y)) + 3.
Proof.
  unfold apply_base. set (y0 := on_g _ y). pose proof (send_sent CMD_UNDULATION ACK_RETRIES y0) as E1.
  change (g_trace (y_g y0)) with (g_trace (y_g y)) in E1.
  destruct (send_cmd_acked CMD_UNDULATION ACK_RETRIES y0) as [y1 b1]. cbn [fst] in E1.
  pose proof (send_sent (mode_base_cmd c) ACK_RETRIES y1) as E2.
  destruct (send_cmd_acked (mode_base_cmd c) ACK_RETRIES y1) as [y2 acked]. cbn [fst] in E2.
  destruct acked; [|cbn; lia]. pose proof (send_sent CMD_SAVECONFIG ACK_RETRIES y2) as E3.
  destruct (send_cmd_acked CMD_SAVECONFIG ACK_RETRIES y2) as [y3 ok]. cbn [fst] in E3.
  destruct ok; cbn [fst snd]; [|cbn; lia]. set (z := on_g _ _).
  destruct (save_base_spec c z) as (-> & _). unfold sent in *. cbn [List.filter is_cmd].
  change (g_trace (y_g z)) with (g_trace (y_g y3)). lia.
Qed.

Lemma refresh_good c y : fix_valid c = true -> good y ->
  g_acked_valid (y_g y) = true -> fix_close (g_acked_coord (y_g y)) c = true ->
  let y' := refresh_base c y in
  good y' /\ receiver_mode (g_trace (y_g y')) = Some (mode_base_cmd (g_acked_coord (y_g y))) /\
  sent (g_trace (y_g y')) = sent (g_trace (y_g y)).
Proof.
  intros Hc Hg Hv Hd. cbv zeta. unfold refresh_base. destruct (load_base_spec y) as [L1 _].
  destruct (load_base y) as [y1 nv]. cbn [fst] in L1.
  pose proof (proj2 Hg Hv) as Hm.
  assert (Hs : good (save_base c y1) /\ receiver_mode (g_trace (y_g (save_base c y1))) =
               Some (mode_base_cmd (g_acked_coord (y_g y))) /\
               sent (g_trace (y_g (save_base c y1))) = sent (g_trace (y_g y))).
  { destruct (save_base_spec c y1) as (V1 & V2 & V3). rewrite L1 in V1, V2, V3.
    unfold good, latch_true. rewrite V1, V2, V3. cbn [trace_ok receiver_mode]. split_and!; try done.
    - exists (g_acked_coord (y_g y)). split; [done|by right].
    - apply Hg. }
  assert (Hk : good y1 /\ receiver_mode (g_trace (y_g y1)) = Some (mode_base_cmd (g_acked_coord (y_g y))) /\
               sent (g_trace (y_g y1)) = sent (g_trace (y_g y))) by (unfold good in *; by rewrite L1).
  destruct nv; [|done]. by case_if.
Qed.

Lemma set_good c y : good y ->
  let r := gnss_set_fixed_base c y in
  good r.1 /\
  (r.2 = true -> exists a, receiver_mode (g_trace (y_g r.1)) = Some (mode_base_cmd a) /\ same_base a c).
Proof.
  intros Hg. cbv zeta. unfold gnss_set_fixed_base. destruct (fix_valid c) eqn:Hc; cbn [negb]; [|done].
  destruct (g_acked_valid (y_g y) && fix_close (g_acked_coord (y_g y)) c) eqn:E.
  - apply andb_true_iff in E as [E1 E2]. destruct (refresh_good c y Hc Hg E1 E2) as (R1 & R2 & _).
    cbn [fst snd]. split; [done|]. intros _. eexists. split; [exact R2|by right].
  - case_if; [done|]. destruct (apply_good c y Hc Hg) as [A1 A2]. split; [done|].
    intros Hr. exists c. split; [by apply A2|by left].
Qed.

Lemma do_good op y : good y -> good (gnss_do op y).
Proof.
  intros Hg. destruct op; cbn [gnss_do].
  - by apply version_good, config_good, reset_good.
  - by apply set_good.
  - by apply config_good, reset_good.
  - by apply version_good.
Qed.

Lemma run_good ops : forall y, good y -> good (fold_left (fun y op => gnss_do op y) ops y).
Proof. induction ops as [|op ops IH]; intros y Hg; cbn [fold_left]; [done|]. by apply IH, do_good. Qed.
End GnssLemmas.

(** ** A receiver for evaluation: it acknowledges every command when asked to *)

Record sim_rx := mk_sim { sim_now : Z; sim_ok : bool; sim_pending : option (list Z) }.

Definition sim_reply (cmd : list Z) : list Z :=
  let r := of_str "$command," ++ echo_of cmd ++ of_str ",response: OK" in
  r ++ of_str "*" ++ hex2 (xor_sum r) ++ [13; 10].

#[export] Instance sim_receiver : Receiver sim_rx := {|
  rx_send cmd w := mk_sim (sim_now w) (sim_ok w) (Some cmd);
  rx_delay ms w := (mk_sim (sim_now w + 1000 * ms) (sim_ok w) None,
    match sim_pending w with Some cmd => if sim_ok w then [sim_reply cmd] else [] | None => [] end);
  rx_pin _ w := w;
  rx_flush w := w;
  rx_time w := sim_now w
|}.

Definition sample_fix : gnss_base_fix_t := mk_fix (dscale 3 4) (dscale 1 3) (dZ 100).
Definition sim_boot (ok : bool) : gnss_sys flash sim_rx :=
  mk_sys (gnss_boot msgs_boot (sup_boot 0)) flash_empty (mk_sim 1000000 ok None).

(** The same, but it leaves the command that zeroes the undulation unanswered. *)
Record deaf_rx := mk_deaf { deaf_sim : sim_rx }.
#[export] Instance deaf_receiver : Receiver deaf_rx := {|
  rx_send cmd w :=
    if bytes_eqb cmd CMD_UNDULATION then w else mk_deaf (rx_send cmd (deaf_sim w));
  rx_delay ms w := let '(w, chunks) := rx_delay ms (deaf_sim w) in (mk_deaf w, chunks);
  rx_pin _ w := w;
  rx_flush w := w;
  rx_time w := rx_time (deaf_sim w)
|}.
Definition deaf_boot : gnss_sys flash deaf_rx :=
  mk_sys (gnss_boot msgs_boot (sup_boot 0)) flash_empty (mk_deaf (mk_sim 1000000 true None)).

(** C23: whatever sequence of boots, recoveries and coordinates from the server the
    module goes through, its latch is the receiver's truth: the latched coordinate
    is the one the last mode command since the last reset was acknowledged for.
    So "done" is reported only for a coordinate the receiver is on (or one that
    differs by less than the tolerance), and only an acknowledged, valid coordinate is
    saved.  A fixed coordinate is only ever sent after the command that zeroes the
    undulation in that epoch, but whether or not the receiver acknowledged that one: a
    receiver that never answers it is put on the coordinate and reported as done. *)
Theorem gnss_latch_is_truth `{Nvs St} `{Receiver W} ops m s (n : St) (w : W) c :
  let y := fold_left (fun y op => gnss_do op y) ops (mk_sys (gnss_boot m s) n w) in
  let r := gnss_set_fixed_base c y in
  (trace_ok (g_trace (y_g r.1)) /\ latch_true (y_g y) /\
   (r.2 = true ->
    exists a, receiver_mode (g_trace (y_g r.1)) = Some (mode_base_cmd a) /\ same_base a c)) /\
  (let r := gnss_set_fixed_base sample_fix deaf_boot in
   r.2 = true /\
   g_trace (y_g r.1) =
     [GE_save sample_fix true; GE_cmd CMD_SAVECONFIG true; GE_cmd (mode_base_cmd sample_fix) true;
      GE_cmd CMD_UNDULATION false]).
Proof.
  cbv zeta. assert (G0 : good (mk_sys (gnss_boot m s) n w)) by done.
  pose proof (run_good ops _ G0) as G. destruct (set_good c _ G) as [[S1 _] S2].
  split; [split_and!; [exact S1|apply G|exact S2]|]. split; vm_compute; reflexivity.
Qed.

(** The receiver is left alone whenever nothing is to be gained: an invalid
    coordinate and one that just failed change nothing at all, and an unchanged
    one that the receiver acknowledged is reported as done without a command; any
    other costs at most three commands. *)
Theorem gnss_no_needless_commands `{Nvs St} `{Receiver W} c (y : gnss_sys St W) :
  let r := gnss_set_fixed_base c y in
  let unchanged := g_acked_valid (y_g y) && fix_close (g_acked_coord (y_g y)) c in
  if negb (fix_valid c) || negb unchanged && cooling_down c y then r = (y, false)
  else if unchanged then r.2 = true /\ sent (g_trace (y_g r.1)) = sent (g_trace (y_g y))
  else sent (g_trace (y_g r.1)) <= sent (g_trace (y_g y)) + 3.
Proof.
  cbv zeta. unfold gnss_set_fixed_base. destruct (fix_valid c) eqn:Hc; cbn [negb orb]; [|done].
  destruct (g_acked_valid (y_g y) && fix_close (g_acked_coord (y_g y)) c) eqn:E; cbn [negb andb].
  - cbn [fst snd]. split; [done|]. unfold refresh_base. destruct (load_base_spec y) as [L1 _].
    destruct (load_base y) as [y1 nv]. cbn [fst] in L1. destruct (save_base_spec c y1) as (V1 & _).
    assert (Hs : sent (g_trace (y_g (save_base c y1))) = sent (g_trace (y_g y))) by (by rewrite V1, L1).
    destruct nv; [|done]. case_if; [done|by rewrite L1].
  - destruct (cooling_down c y); [done|]. apply apply_sent.
Qed.

Section Persist.
Context `{NvsFallible St} `{Receiver W}.

Definition fix_doubles (c : gnss_base_fix_t) : bool := dvalid (fx_lat c) && dvalid (fx_lon c) && dvalid (fx_h c).

Lemma three_parts (a b c : list Z) : zlen a = 8 -> zlen b = 8 -> zlen c = 8 ->
  ztake 8 (a ++ b ++ c) = a /\ ztake 8 (zdrop 8 (a ++ b ++ c)) = b /\ ztake 8 (zdrop 16 (a ++ b ++ c)) = c.
Proof.
  intros L1 L2 L3. split_and!.
  - rewrite <- L1. apply ztake_app_exact.
  - rewrite <- L1 at 2. rewrite zdrop_app_exact, <- L2. apply ztake_app_exact.
  - replace 16 with (zlen (a ++ b)) by (rewrite zlen_app; lia).
    rewrite app_assoc, zdrop_app_exact. apply ztake_ge. lia.
Qed.

Lemma bytes_fix_roundtrip c : fix_doubles c = true -> bytes_fix (fix_bytes c) = c /\ zlen (fix_bytes c) = 24.
Proof.
  unfold fix_doubles. intros [[D1 D2]%andb_true_iff D3]%andb_true_iff. unfold bytes_fix, fix_bytes.
  pose proof (zlen_double_bytes (fx_lat c)) as L1. pose proof (zlen_double_bytes (fx_lon c)) as L2.
  pose proof (zlen_double_bytes (fx_h c)) as L3.
  split; [|rewrite !zlen_app; lia].
  destruct (three_parts _ _ _ L1 L2 L3) as (-> & -> & ->).
  rewrite !double_bytes_roundtrip by done. by destruct c.
Qed.

(** What [gnss_load_fixed_base] finds: it depends on the stored blob alone. *)
Lemma load_char (n : St) :
  (gnss_load_fixed_base n).1 =
  let '(e, b) := nvs_get_blob GNSS_NVS_NS GNSS_KEY_BASE (Some 24) n in
  if is_ok e && (zlen b =? 24) && fix_valid (bytes_fix b) then Some (bytes_fix b) else None.
Proof.
  unfold gnss_load_fixed_base.
  pose proof (fb_open_agree GNSS_NVS_NS false n GNSS_NVS_NS GNSS_KEY_BASE) as (_ & _ & A).
  pose proof (fb_open_ro_absent GNSS_NVS_NS n GNSS_KEY_BASE) as B.
  destruct (nvs_open GNSS_NVS_NS false n) as [e n1]. cbn [fst snd] in *. unfold is_ok.
  destruct (Z.eqb_spec e ESP_OK); cbn [negb].
  - rewrite A. destruct (nvs_get_blob _ _ _ n) as [e' b].
    destruct (e' =? ESP_OK), (zlen b =? 24), (fix_valid (bytes_fix b)); done.
  - destruct (B ltac:(done)) as (_ & _ & B3). specialize (B3 (Some 24)).
    destruct (nvs_get_blob _ _ _ n) as [e' b]. cbn in B3. by subst e'.
Qed.

Lemma load_agree (n n' : St) : nvs_agree GNSS_NVS_NS GNSS_KEY_BASE n n' ->
  (gnss_load_fixed_base n').1 = (gnss_load_fixed_base n).1.
Proof. intros (_ & _ & A). by rewrite !load_char, A. Qed.

Lemma load_keeps (n : St) : nvs_agree GNSS_NVS_NS GNSS_KEY_BASE n (gnss_load_fixed_base n).2.
Proof.
  unfold gnss_load_fixed_base. pose proof (fb_open_agree GNSS_NVS_NS false n GNSS_NVS_NS GNSS_KEY_BASE) as A.
  destruct (nvs_open GNSS_NVS_NS false n) as [e n1]. cbn [snd] in A. destruct (negb (is_ok e)); [done|].
  destruct (nvs_get_blob _ _ _ n1) as [e' b]. by case_if.
Qed.

Lemma load_stored c (n : St) : fix_valid c = true -> fix_doubles c = true ->
  nvs_get_blob GNSS_NVS_NS GNSS_KEY_BASE (Some 24) n = (ESP_OK, fix_bytes c) ->
  (gnss_load_fixed_base n).1 = Some c.
Proof.
  intros Hv Hd E. destruct (bytes_fix_roundtrip c Hd) as [R L]. rewrite load_char, E, R, Hv, L. done.
Qed.

Lemma save_stored c (y : gnss_sys St W) : fix_doubles c = true -> (gnss_save_fixed_base c (y_nvs y)).1 = true ->
  nvs_get_blob GNSS_NVS_NS GNSS_KEY_BASE (Some 24) (y_nvs (save_base c y)) = (ESP_OK, fix_bytes c).
Proof.
  intros Hd Hs. destruct (bytes_fix_roundtrip c Hd) as [_ L]. revert Hs.
  unfold save_base, gnss_save_fixed_base. destruct (nvs_open GNSS_NVS_NS true (y_nvs y)) as [e n1].
  destruct (is_ok e); cbn [negb fst]; [|done].
  pose proof (fb_get_set_blob GNSS_NVS_NS GNSS_KEY_BASE (fix_bytes c) (Some 24) n1) as G.
  destruct (nvs_set_blob _ _ _ n1) as [e1 n2]. cbn [fst snd] in *. unfold is_ok at 1 3.
  destruct (Z.eqb_spec e1 ESP_OK) as [->|Hne]; cbn [fst]; [|unfold is_ok; by destruct (Z.eqb_spec e1 ESP_OK)].
  pose proof (fb_commit_agree GNSS_NVS_NS n2 GNSS_NVS_NS GNSS_KEY_BASE) as (_ & _ & C).
  destruct (nvs_commit GNSS_NVS_NS n2) as [e2 n3]. cbn in *. intros _. rewrite C. apply G; [done|simpl; lia].
Qed.

(** After a call that reports done, its save failed or the store holds the coordinate. *)
Lemma set_stored c (y : gnss_sys St W) : fix_doubles c = true ->
  let r := gnss_set_fixed_base c y in
  r.2 = true ->
  (exists new, g_trace (y_g r.1) = GE_save c false :: new ++ g_trace (y_g y)) \/
  exists b, (gnss_load_fixed_base (y_nvs r.1)).1 = Some b /\ (b = c \/ fix_apart b c = false).
Proof.
  intros Hd. cbv zeta. unfold gnss_set_fixed_base. destruct (fix_valid c) eqn:Hc; cbn [negb]; [|done].
  assert (Hs : forall (z : gnss_sys St W) new, g_trace (y_g z) = new ++ g_trace (y_g y) ->
    (exists new, g_trace (y_g (save_base c z)) = GE_save c false :: new ++ g_trace (y_g y)) \/
    exists b, (gnss_load_fixed_base (y_nvs (save_base c z))).1 = Some b /\ (b = c \/ fix_apart b c = false)).
  { intros z new Et. destruct (save_base_spec c z) as (S1 & _).
    destruct (gnss_save_fixed_base c (y_nvs z)).1 eqn:Ok; [right|left].
    - exists c. split; [|by left]. by apply load_stored, save_stored.
    - exists new. by rewrite S1, Et. }
  case_if.
  - intros _. cbn [fst]. unfold refresh_base, load_base. pose proof (load_keeps (y_nvs y)) as K.
    destruct (gnss_load_fixed_base (y_nvs y)) as [nv n1] eqn:E. cbn [snd] in K.
    destruct nv as [b|]; [|by apply (Hs _ [])]. destruct (fix_apart b c) eqn:F; [by apply (Hs _ [])|].
    right. exists b. split; [|by right]. cbn [y_nvs]. by rewrite (load_agree _ _ K), E.
  - case_if; [done|]. unfold apply_base. set (y0 := on_g _ y).
    destruct (send_spec CMD_UNDULATION ACK_RETRIES y0) as (_ & T1 & _).
    destruct (send_cmd_acked CMD_UNDULATION ACK_RETRIES y0) as [y1 b1]. cbn [fst] in T1.
    destruct (send_spec (mode_base_cmd c) ACK_RETRIES y1) as (_ & T2 & _).
    destruct (send_cmd_acked (mode_base_cmd c) ACK_RETRIES y1) as [y2 acked]. cbn [fst] in T2.
    destruct acked; [|done]. destruct (send_spec CMD_SAVECONFIG ACK_RETRIES y2) as (_ & T3 & _).
    destruct (send_cmd_acked CMD_SAVECONFIG ACK_RETRIES y2) as [y3 ok]. cbn [fst] in T3.
    destruct ok; [|done]. cbn [fst snd]. intros _.
    apply (Hs _ [GE_cmd CMD_SAVECONFIG true; GE_cmd (mode_base_cmd c) true; GE_cmd CMD_UNDULATION b1]).
    change (g_trace (y_g y3) = [GE_cmd CMD_SAVECONFIG true; GE_cmd (mode_base_cmd c) true; GE_cmd CMD_UNDULATION b1] ++
      g_trace (y_g y0)). by rewrite T3, T2, T1.
Qed.

(** ** The next boot *)

Definition is_mode_cmd (e : gnss_event) : bool := match e with GE_cmd cmd _ => is_mode_base cmd | _ => false end.
(** The commands that set the receiver's base mode, a survey or a coordinate. *)
Definition mode_cmds (tr : list gnss_event) : list gnss_event := List.filter is_mode_cmd tr.

Lemma send_all_modes cmds : forall (z : gnss_sys St W) ok, Forall (fun cmd => is_mode_base cmd = false) cmds ->
  y_nvs (send_all cmds z ok).1 = y_nvs z /\
  mode_cmds (g_trace (y_g (send_all cmds z ok).1)) = mode_cmds (g_trace (y_g z)).
Proof.
  induction cmds as [|cmd cmds IH]; intros z ok F; cbn [send_all]; [done|]. apply Forall_cons_1 in F as [Hc F].
  destruct (send_spec cmd ACK_RETRIES z) as (S1 & S2 & _).
  destruct (send_cmd_acked cmd ACK_RETRIES z) as [z1 b]. cbn [fst snd] in *.
  destruct (IH z1 (if b then ok + 1 else ok) F) as [-> ->]. split; [done|].
  rewrite S2. cbn [mode_cmds List.filter is_mode_cmd]. by rewrite Hc.
Qed.

(** The configuration's only mode command is the one for the stored coordinate. *)
Lemma config_modes c (y : gnss_sys St W) : (gnss_load_fixed_base (y_nvs y)).1 = Some c ->
  exists acked, mode_cmds (g_trace (y_g (config_gnss_base y).1.1)) =
    GE_cmd (mode_base_cmd c) acked :: mode_cmds (g_trace (y_g y)).
Proof.
  intros E. unfold config_gnss_base. set (y0 := on_g _ y).
  destruct (send_all_modes base_seq y0 0 base_seq_plain) as [N1 M1].
  destruct (send_all base_seq y0 0) as [y1 ok]. cbn [fst] in N1, M1.
  unfold send_base_mode, load_base. rewrite N1. change (y_nvs y0) with (y_nvs y).
  destruct (gnss_load_fixed_base (y_nvs y)) as [base n1]. cbn [fst] in E. subst base.
  destruct (send_spec (mode_base_cmd c) ACK_RETRIES (mk_sys (y_g y1) n1 (y_rx y1))) as (_ & S2 & _).
  destruct (send_cmd_acked (mode_base_cmd c) ACK_RETRIES _) as [y2 b]. cbn [fst snd] in S2.
  set (y2' := on_g _ y2). destruct (send_spec CMD_SAVECONFIG ACK_RETRIES y2') as (_ & S3 & _).
  destruct (send_cmd_acked CMD_SAVECONFIG ACK_RETRIES y2') as [y3 b3]. cbn [fst snd] in S3.
  exists b. cbn [fst]. change (g_trace (y_g (on_g ?f y3))) with (g_trace (y_g y3)). rewrite S3.
  assert (Ht : g_trace (y_g y2') = g_trace (y_g y2)) by (unfold y2'; by destruct b).
  rewrite Ht, S2. cbn [mode_cmds List.filter is_mode_cmd].
  rewrite mode_base_cmd_mode. change (is_mode_base CMD_SAVECONFIG) with false. cbn iota. f_equal. exact M1.
Qed.

Lemma reset_trace (y : gnss_sys St W) :
  y_nvs (gnss_reset_pulse y) = y_nvs y /\ g_trace (y_g (gnss_reset_pulse y)) = GE_reset :: g_trace (y_g y).
Proof.
  unfold gnss_reset_pulse. set (y1 := gnss_delay GNSS_RESET_MS (on_rx (rx_pin false) y)).
  set (y2 := gnss_delay GNSS_RESET_MS (on_rx (rx_pin true) y1)).
  destruct (delay_kept GNSS_RESET_MS (on_rx (rx_pin false) y)) as (N1 & D1 & _).
  destruct (delay_kept GNSS_RESET_MS (on_rx (rx_pin true) y1)) as (N2 & D2 & _).
  fold y1 in N1, D1. fold y2 in N2, D2. cbn in N1, D1, N2, D2 |- *. by rewrite N2, N1, D2, D1.
Qed.

Lemma version_trace (y : gnss_sys St W) : g_trace (y_g (gnss_log_version y).1) = g_trace (y_g y).
Proof.
  unfold gnss_log_version. cbn [fst].
  assert (V : forall n (y : gnss_sys St W), kept y (version_polls n y)).
  { induction n as [|n IH]; intros z; cbn [version_polls]; [apply kept_refl|].
    case_if; [apply delay_kept|]. eapply kept_trans; [apply delay_kept|apply IH]. }
  set (y1 := on_rx _ _). by destruct (V (Z.to_nat (2000 / ACK_POLL_MS)) y1) as (_ & V2 & _).
Qed.

Lemma init_modes c (y : gnss_sys St W) : (gnss_load_fixed_base (y_nvs y)).1 = Some c ->
  exists acked, mode_cmds (g_trace (y_g (gnss_init y))) = GE_cmd (mode_base_cmd c) acked :: mode_cmds (g_trace (y_g y)).
Proof.
  intros E. unfold gnss_init. rewrite version_trace. destruct (reset_trace y) as [N T].
  destruct (config_modes c (gnss_reset_pulse y)) as [acked ->]; [by rewrite N|]. exists acked. by rewrite T.
Qed.

(** C24: a coordinate that was reported as done survives, if the save that goes with it
    succeeded: with the store as the call left it, the only mode command the next boot
    sends is the one for that coordinate (or one that differs by less than the tolerance),
    and no survey.  Nobody looks at the result of the save: on a store that has no room
    the call reports done all the same, and the next boot starts a survey. *)
Theorem fixed_base_survives_reboot c (y : gnss_sys St W) m s (w : W) : fix_doubles c = true ->
  let boot n := gnss_init (mk_sys (gnss_boot m s) n w) in
  let r := gnss_set_fixed_base c y in
  (r.2 = true ->
   (exists new, g_trace (y_g r.1) = GE_save c false :: new ++ g_trace (y_g y)) \/
   exists b acked, (b = c \/ fix_apart b c = false) /\
     mode_cmds (g_trace (y_g (boot (y_nvs r.1)))) = [GE_cmd (mode_base_cmd b) acked]) /\
  (let z := mk_sys (gnss_boot m s) (mk_full flash_empty) (mk_sim 1000000 true None) in
   let r := gnss_set_fixed_base sample_fix z in
   r.2 = true /\
   mode_cmds (g_trace (y_g (gnss_init (mk_sys (gnss_boot m s) (y_nvs r.1) (mk_sim 0 true None))))) =
     [GE_cmd CMD_SURVEY true]).
Proof.
  intros Hd boot r. split.
  - intros Hr. destruct (set_stored c y Hd Hr) as [?|(b & Hb & Hc)]; [by left|right].
    destruct (init_modes b (mk_sys (gnss_boot m s) (y_nvs r.1) w) Hb) as [acked E]. exists b, acked.
    split; [done|]. exact E.
  - split; vm_compute; reflexivity.
Qed.
End Persist.

Example sample_cmd : mode_base_cmd sample_fix = of_str "mode base 48.000000000 8.000000000 100.0000" ++ [13; 10].
Proof. by vm_compute. Qed.

Lemma gnss_latch_is_truth_witness :
  let y := gnss_do (W:=sim_rx) Op_init (sim_boot true) in
  exists a, receiver_mode (g_trace (y_g (gnss_set_fixed_base sample_fix y).1)) = Some (mode_base_cmd a) /\
            same_base a sample_fix.
Proof.
  cbv zeta.
  destruct (gnss_latch_is_truth [Op_init] msgs_boot (sup_boot 0) flash_empty (mk_sim 1000000 true None) sample_fix)
    as [(_ & _ & P) _].
  apply P. vm_compute. reflexivity.
Defined.

Lemma fixed_base_survives_reboot_witness :
  exists b acked, (b = sample_fix \/ fix_apart b sample_fix = false) /\
    mode_cmds (g_trace (y_g (gnss_init (mk_sys (gnss_boot msgs_boot (sup_boot 0))
      (y_nvs (gnss_set_fixed_base sample_fix (sim_boot true)).1) (mk_sim 5 false None))))) =
    [GE_cmd (mode_base_cmd b) acked].
Proof.
  destruct (fixed_base_survives_reboot sample_fix (sim_boot true) msgs_boot (sup_boot 0) (mk_sim 5 false None) eq_refl)
    as [P _].
  destruct P as [[new E]|P]; [vm_compute; reflexivity| |exact P].
  assert (E1 : head (g_trace (y_g (gnss_set_fixed_base sample_fix (sim_boot true)).1)) = Some (GE_save sample_fix true))
    by (vm_compute; reflexivity).
  rewrite E in E1. discriminate E1.
Defined.

(** A receiver that does not answer: the attempt fails, and the next push of the
    same coordinate within the minute is ignored. *)
Example cooldown :
  let r := gnss_set_fixed_base sample_fix (sim_boot false) in
  r.2 = false /\ sent (g_trace (y_g r.1)) = 2 /\ sent (g_trace (y_g (gnss_set_fixed_base sample_fix r.1).1)) = 2.
Proof. vm_compute. done. Qed.
