(* ===== verification/Telemetry.v ===== *)
(** * Send-path telemetry (src/main/telemetry_json.c)

    The JSON member the heartbeat carries.  [%llu] and [%lu] print the decimal
    digits of an unsigned integer. *)

From S2P Require Import Prelude Ingest NtripServer Doubles.

Definition TELEMETRY_TX_JSON_MAX : Z := 640.

Definition json_bool (b : bool) : list Z := if b then of_str "true" else of_str "false".

(** One member, as the format string writes it: the name in quotes and a colon. *)
Definition member (name : string) (value : list Z) : list Z := [34] ++ of_str name ++ [34; 58] ++ value.

(** The members in the order of the format, with commas between them. *)
Fixpoint members (l : list (list Z)) : list Z :=
  match l with
  | [] => []
  | [m] => m
  | m :: l => m ++ [44] ++ members l
  end.

Definition telemetry_text (t : ntrip_tx_totals_t) (uart_event_post_drops : Z) : list Z :=
  member "tx" ([123] ++ members [
    member "frames_ok" (decimal (to_frames_ok t));
    member "bytes_ok" (decimal (to_bytes_ok t));
    member "bytes_discarded" (decimal (to_bytes_discarded t));
    member "crc_errors" (decimal (to_crc_errors t));
    member "accepted_to_lwip" (decimal (to_accepted_to_lwip t));
    member "sent_frames" (decimal (to_sent_frames t));
    member "dropped_bytes" (decimal (to_dropped_bytes t));
    member "skipped_bytes" (decimal (to_skipped_bytes t));
    member "dropped_stale_bytes" (decimal (to_dropped_stale_bytes t));
    member "eagain" (decimal (to_eagain_count t));
    member "reconnects" (decimal (to_reconnects t));
    member "max_queue_age_ms" (decimal (to_max_queue_age_ms t));
    member "instances" (decimal (to_instances t));
    member "connected" (decimal (to_connected t));
    member "uart_event_post_drops" (decimal uart_event_post_drops);
    member "req_fresh" (json_bool (to_req_fresh t));
    member "req_missing" (decimal (to_req_missing t))
  ] ++ [125]).

(** [telemetry_tx_json] for non-NULL pointers: what is written to [dst], or
    nothing and -1. *)
Definition telemetry_tx_json (cap : Z) (t : ntrip_tx_totals_t) (uart_event_post_drops : Z)
    : option (list Z) :=
  let local := telemetry_text t uart_event_post_drops in
  let n := zlen local in
  if (n <=? 0) || (TELEMETRY_TX_JSON_MAX <=? n) then None
  else if cap <=? n then None
  else Some local.

(** The counters are in the range of their types. *)
Definition totals_in_range (t : ntrip_tx_totals_t) : Prop :=
  Forall (fun v => 0 <= v < 2 ^ 64)
    [to_frames_ok t; to_bytes_ok t; to_bytes_discarded t; to_crc_errors t; to_accepted_to_lwip t;
     to_sent_frames t; to_dropped_bytes t; to_skipped_bytes t; to_dropped_stale_bytes t; to_eagain_count t] /\
  Forall (fun v => 0 <= v < 2 ^ 32)
    [to_reconnects t; to_max_queue_age_ms t; to_instances t; to_connected t; to_req_missing t].

(** ** Lengths *)

Lemma json_bool_len b : zlen (json_bool b) <= 5.
Proof. by destruct b. Qed.

Lemma member_len name v : zlen (member name v) = zlen (of_str name) + 3 + zlen v.
Proof. unfold member. rewrite !zlen_app. change (zlen [34]) with 1. change (zlen [34; 58]) with 2. lia. Qed.

Lemma member_pos name v : 0 < zlen (member name v).
Proof. rewrite member_len. pose proof (zlen_nonneg (of_str name)). pose proof (zlen_nonneg v). lia. Qed.

Lemma telemetry_len t drops : totals_in_range t -> 0 <= drops < 2 ^ 32 ->
  zlen (telemetry_text t drops) < TELEMETRY_TX_JSON_MAX.
Proof.
  intros [H64 H32] Hd. unfold telemetry_text. cbn [members]. rewrite !member_len, !zlen_app, !member_len.
  repeat match goal with
         | H : Forall _ (_ :: _) |- _ => apply Forall_cons in H as [?%decimal_u64 H]
         | H : Forall _ (_ :: _) |- _ => apply Forall_cons in H as [?%decimal_u32 H]
         end.
  apply decimal_u32 in Hd. pose proof (json_bool_len (to_req_fresh t)).
  repeat match goal with |- context [zlen (of_str ?s)] =>
    let v := eval vm_compute in (zlen (of_str s)) in change (zlen (of_str s)) with v end.
  change (zlen [123]) with 1. change (zlen [125]) with 1. change (zlen [44]) with 1.
  unfold TELEMETRY_TX_JSON_MAX. lia.
Qed.

(** Whatever the counters are, the block fits [TELEMETRY_TX_JSON_MAX], so a buffer of
    that size always receives it in full and a smaller one receives it in full or not
    at all. *)
Lemma telemetry_fits t drops cap : totals_in_range t -> 0 <= drops < 2 ^ 32 ->
  telemetry_tx_json cap t drops =
    if cap <=? zlen (telemetry_text t drops) then None else Some (telemetry_text t drops).
Proof.
  intros Ht Hd. pose proof (telemetry_len t drops Ht Hd) as L. unfold telemetry_tx_json.
  replace (zlen (telemetry_text t drops) <=? 0) with false.
  - by replace (TELEMETRY_TX_JSON_MAX <=? zlen (telemetry_text t drops)) with false by lia.
  - symmetry. apply Z.leb_gt, member_pos.
Qed.

Lemma telemetry_whole t drops : totals_in_range t -> 0 <= drops < 2 ^ 32 ->
  telemetry_tx_json TELEMETRY_TX_JSON_MAX t drops = Some (telemetry_text t drops).
Proof.
  intros Ht Hd. rewrite telemetry_fits by done. pose proof (telemetry_len t drops Ht Hd).
  by replace (TELEMETRY_TX_JSON_MAX <=? zlen (telemetry_text t drops)) with false by lia.
Qed.

Example telemetry_largest :
  let t := mk_totals (2 ^ 64 - 1) (2 ^ 64 - 1) (2 ^ 64 - 1) (2 ^ 64 - 1) (2 ^ 64 - 1) (2 ^ 64 - 1)
             (2 ^ 64 - 1) (2 ^ 64 - 1) (2 ^ 64 - 1) (2 ^ 64 - 1) (2 ^ 32 - 1) (2 ^ 32 - 1) (2 ^ 32 - 1)
             (2 ^ 32 - 1) false 4 in
  telemetry_tx_json TELEMETRY_TX_JSON_MAX t (2 ^ 32 - 1) = Some (telemetry_text t (2 ^ 32 - 1)).
Proof.
  cbv zeta. etrans; [apply telemetry_fits|]; [|lia|vm_compute; reflexivity].
  split; repeat (apply Forall_cons; split; [cbn; lia|]); by apply Forall_nil.
Defined.
