(* ===== verification/Uart.v ===== *)
(** * UART: the byte queue and the reader task (src/main/uart.c)

    [DATA_QUEUE_TYPE] is a ring of bytes between two pointers, offsets here; one
    slot stays free.  The specification is a bounded list.  [uart_turn] is one turn
    of the task that reads the receiver's UART and hands every chunk on. *)

From S2P Require Import Prelude Supervisor Ingest Nmea Nvs Gnss StreamStats.

(** ** The queue *)

Record DATA_QUEUE_TYPE := mk_queue {
  q_buffSize : Z;            (* uint16_t *)
  q_pBuff : option (list Z);
  q_pHead : Z;
  q_pTail : Z
}.

Definition queue_zero : DATA_QUEUE_TYPE := mk_queue 0 None 0 0.

(** [alloc]: [malloc] succeeds. *)
Definition data_que_create (alloc : bool) (size : Z) (q : DATA_QUEUE_TYPE) : DATA_QUEUE_TYPE :=
  if 0 <? q_buffSize q then q
  else mk_queue size (if alloc then Some (repeat 0 (Z.to_nat size)) else None) 0 0.

Definition data_que_cleanup (q : DATA_QUEUE_TYPE) : Z * DATA_QUEUE_TYPE :=
  match q_pBuff q with
  | Some buf => (0, mk_queue (q_buffSize q) (Some (repeat 0 (Z.to_nat (q_buffSize q)))) 0 0)
  | None => (-1, q)
  end.

Definition data_que_destroy (q : DATA_QUEUE_TYPE) : DATA_QUEUE_TYPE := mk_queue 0 None 0 0.

Definition data_que_size (q : DATA_QUEUE_TYPE) : Z :=
  if 0 <=? q_pTail q - q_pHead q then u16 (q_pTail q - q_pHead q)
  else u16 (q_pTail q - q_pHead q + q_buffSize q).

(** A pointer moved on by one. *)
Definition q_next (q : DATA_QUEUE_TYPE) (p : Z) : Z := if q_buffSize q <=? p + 1 then 0 else p + 1.

(** [*(q->pTail) = byte; q->pTail = pTail]; a NULL buffer is not written here. *)
Definition q_store (byte : Z) (q : DATA_QUEUE_TYPE) : DATA_QUEUE_TYPE :=
  mk_queue (q_buffSize q) (option_map (fun buf => splice buf (q_pTail q) [byte]) (q_pBuff q))
    (q_pHead q) (q_next q (q_pTail q)).

Definition data_que_push (byte : Z) (q : DATA_QUEUE_TYPE) : Z * DATA_QUEUE_TYPE :=
  if q_next q (q_pTail q) =? q_pHead q then (0, q) else (1, q_store byte q).

Definition q_first (q : DATA_QUEUE_TYPE) : Z :=
  match q_pBuff q with Some buf => zget buf (q_pHead q) | None => 0 end.
Definition q_advance (q : DATA_QUEUE_TYPE) : DATA_QUEUE_TYPE :=
  mk_queue (q_buffSize q) (q_pBuff q) (q_next q (q_pHead q)) (q_pTail q).

Definition data_que_pop (q : DATA_QUEUE_TYPE) : Z * DATA_QUEUE_TYPE :=
  if q_pHead q =? q_pTail q then (0, q) else (q_first q, q_advance q).

Fixpoint data_que_packet_in (buff : list Z) (q : DATA_QUEUE_TYPE) : Z * DATA_QUEUE_TYPE :=
  match buff with
  | [] => (0, q)
  | byte :: buff =>
    if q_next q (q_pTail q) =? q_pHead q then (0, q)
    else let '(idx, q) := data_que_packet_in buff (q_store byte q) in (idx + 1, q)
  end.

(** The loop with [n] turns left of those [len] and [buffSize] allow. *)
Fixpoint packet_out_loop (n : nat) (q : DATA_QUEUE_TYPE) : list Z * DATA_QUEUE_TYPE :=
  match n with
  | O => ([], q)
  | S n' =>
    if q_pHead q =? q_pTail q then ([], q)
    else let '(l, q') := packet_out_loop n' (q_advance q) in (q_first q :: l, q')
  end.
Definition data_que_packet_out (len : Z) (q : DATA_QUEUE_TYPE) : list Z * DATA_QUEUE_TYPE :=
  packet_out_loop (Z.to_nat (Z.min len (q_buffSize q))) q.

(** ** The reader task *)

Record uart_t := mk_uart {
  ua_read_errors : Z;   (* uint32_t s_read_errors *)
  ua_post_drops : Z;    (* uint32_t s_event_post_drops *)
  ua_stats : stream_stats;
  ua_gnss : gnss_t;     (* the capture of gnss.c *)
  ua_ingest : ingest_t
}.

(** One turn at the time [us]: [uart_read_bytes] answers [inl err] (negative) or
    [inr data], [post] is the answer of [esp_event_post].  The second result says
    whether the ring got frames, the third what is posted to the other consumers. *)
Definition uart_turn (us : Z) (read : Z + list Z) (post : Z) (u : uart_t)
    : option (uart_t * bool * option (list Z)) :=
  match read with
  | inl _ => Some (mk_uart (u32 (ua_read_errors u + 1)) (ua_post_drops u) (ua_stats u) (ua_gnss u)
                           (ua_ingest u), false, None)
  | inr data =>
    if zlen data =? 0 then Some (u, false, None)
    else
      let stats := stream_stats_increment (ua_stats u) (u32 (zlen data)) 0 in
      let g := gnss_ingest_uart data (ua_gnss u) in
      match ntrip_server_ingest_uart us data (ua_ingest u) with
      | None => None
      | Some (ing, frames) =>
        let drops := if is_ok post then ua_post_drops u else u32 (ua_post_drops u + 1) in
        Some (mk_uart (ua_read_errors u) drops stats g ing, frames, if is_ok post then Some data else None)
      end
  end.

(** [uart_write]: what it returns, the counters, and the event it posts; [port] is
    negative before [uart_init], [written] the driver's answer. *)
Definition uart_write (port : Z) (buf : list Z) (written : Z) (stats : stream_stats)
    : Z * stream_stats * option (list Z) :=
  if port <? 0 then (0, stats, None)
  else if zlen buf =? 0 then (0, stats, None)
  else if written <? 0 then (written, stats, None)
  else (written, stream_stats_increment stats 0 (u32 (zlen buf)), Some buf).

(** [drv_uart_usbc_send], with the console port up or not yet; [uart_nmea] sends
    its sentence this way. *)
Definition drv_uart_usbc_send (up : bool) (data : list Z) (tx : Z) : Z * option (list Z) :=
  if negb up then (0, None) else (tx, Some (ztake (u16 (zlen data)) data)).

Definition uart_log (up : bool) (buf : list Z) (tx : Z) : Z * option (list Z) := drv_uart_usbc_send up buf tx.
Definition uart_nmea (up : bool) (sentence : list Z) (tx : Z) : Z * option (list Z) :=
  drv_uart_usbc_send up (nmea_vasprintf sentence).1 tx.

(** ** Specification: a list of at most [buffSize - 1] bytes *)

Inductive queue_op :=
  | Q_push (byte : Z) | Q_pop | Q_in (buff : list Z) | Q_out (len : Z) | Q_size | Q_cleanup.

Definition queue_do (op : queue_op) (q : DATA_QUEUE_TYPE) : list Z * DATA_QUEUE_TYPE :=
  match op with
  | Q_push b => let '(r, q) := data_que_push b q in ([r], q)
  | Q_pop => let '(r, q) := data_que_pop q in ([r], q)
  | Q_in l => let '(r, q) := data_que_packet_in l q in ([r], q)
  | Q_out n => data_que_packet_out n q
  | Q_size => ([data_que_size q], q)
  | Q_cleanup => let '(r, q) := data_que_cleanup q in ([r], q)
  end.

Definition list_do (cap : Z) (op : queue_op) (l : list Z) : list Z * list Z :=
  match op with
  | Q_push b => if zlen l <? cap then ([1], l ++ [b]) else ([0], l)
  | Q_pop => match l with b :: l => ([b], l) | [] => ([0], []) end
  | Q_in buff => let k := Z.min (zlen buff) (cap - zlen l) in ([k], l ++ ztake k buff)
  | Q_out n => (ztake n l, zdrop n l)
  | Q_size => ([zlen l], l)
  | Q_cleanup => ([0], [])
  end.

Fixpoint queue_run (ops : list queue_op) (q : DATA_QUEUE_TYPE) : list (list Z) :=
  match ops with
  | [] => []
  | op :: ops => let '(r, q) := queue_do op q in r :: queue_run ops q
  end.

Fixpoint list_run (cap : Z) (ops : list queue_op) (l : list Z) : list (list Z) :=
  match ops with
  | [] => []
  | op :: ops => let '(r, l) := list_do cap op l in r :: list_run cap ops l
  end.

(** Offset [i] from the head, around the end of the buffer. *)
Definition at_off (size head i : Z) : Z := if head + i <? size then head + i else head + i - size.

(** The ring [q] holds the list [l]. *)
Record holds (q : DATA_QUEUE_TYPE) (l : list Z) : Prop := {
  ho_size : 1 <= q_buffSize q < 2 ^ 16;
  ho_head : 0 <= q_pHead q < q_buffSize q;
  ho_room : zlen l < q_buffSize q;
  ho_tail : q_pTail q = at_off (q_buffSize q) (q_pHead q) (zlen l);
  ho_bytes : exists buf, q_pBuff q = Some buf /\ zlen buf = q_buffSize q /\
    forall i, 0 <= i < zlen l -> zget buf (at_off (q_buffSize q) (q_pHead q) i) = zget l i
}.

(** ** Lemmas *)

(** Splits on the innermost conditions of offsets. *)
Ltac off_cases :=
  unfold q_next, at_off;
  repeat match goal with
         | |- context [if ?c then _ else _] =>
           lazymatch c with context [if _ then _ else _] => fail | _ => destruct c eqn:? end
         end; lia.

Lemma zget_splice_one buf off b i :
  0 <= off < zlen buf -> 0 <= i ->
  zget (splice buf off [b]) i = if i =? off then b else zget buf i.
Proof.
  intros Ho Hi. unfold splice. change (zlen [b]) with 1.
  assert (L : zlen (ztake off buf) = off) by (apply zlen_ztake_le; lia).
  destruct (Z.lt_ge_cases i off).
  - rewrite zget_app_l by lia. rewrite zget_ztake by lia. by replace (i =? off) with false by lia.
  - unfold zget. rewrite lookup_app_r by (unfold zlen in L; lia).
    replace (Z.to_nat i - length (ztake off buf))%nat with (Z.to_nat (i - off)) by (unfold zlen in L; lia).
    destruct (Z.eqb_spec i off); [by replace (Z.to_nat (i - off)) with 0%nat by lia|].
    replace (Z.to_nat (i - off)) with (S (Z.to_nat (i - off - 1))) by lia. cbn [app lookup list_lookup].
    change (zget (zdrop (off + 1) buf) (i - off - 1) = zget buf i).
    rewrite zget_zdrop by lia. f_equal. lia.
Qed.

Lemma q_full q l : holds q l ->
  (q_next q (q_pTail q) =? q_pHead q) = negb (zlen l <? q_buffSize q - 1).
Proof.
  intros [H1 H2 H3 H4 _]. pose proof (zlen_nonneg l). rewrite H4.
  destruct (Z.ltb_spec (zlen l) (q_buffSize q - 1)); cbn [negb]; off_cases.
Qed.

Lemma q_empty q l : holds q l -> (q_pHead q =? q_pTail q) = (zlen l =? 0).
Proof.
  intros [H1 H2 H3 H4 _]. pose proof (zlen_nonneg l). rewrite H4. unfold at_off. case_if; lia.
Qed.

Lemma q_store_holds q l b : holds q l -> zlen l < q_buffSize q - 1 -> holds (q_store b q) (l ++ [b]).
Proof.
  intros [H1 H2 H3 H4 (buf & H5 & H6 & H7)] Hr. pose proof (zlen_nonneg l).
  assert (Ht : 0 <= q_pTail q < q_buffSize q) by (rewrite H4; unfold at_off; case_if; lia).
  unfold q_store. rewrite H5. split; cbn [q_buffSize q_pHead q_pTail q_pBuff option_map];
    rewrite ?zlen_snoc; try done; try lia.
  - rewrite H4. off_cases.
  - eexists. split; [done|]. rewrite zlen_splice by (change (zlen [b]) with 1; lia). split; [done|].
    intros i Hi. rewrite zget_splice_one by off_cases.
    destruct (Z.eqb_spec i (zlen l)) as [->|].
    + rewrite <- H4, Z.eqb_refl. unfold zget. rewrite lookup_app_r by (unfold zlen; lia).
      replace (Z.to_nat (zlen l) - length l)%nat with 0%nat by (unfold zlen; lia). done.
    + rewrite zget_app_l by lia. rewrite <- H7 by lia.
      replace (at_off (q_buffSize q) (q_pHead q) i =? q_pTail q) with false; [done|].
      rewrite H4. off_cases.
Qed.

Lemma q_advance_holds q b l : holds q (b :: l) -> holds (q_advance q) l /\ q_first q = b.
Proof.
  intros [H1 H2 H3 H4 (buf & H5 & H6 & H7)]. pose proof (zlen_nonneg l). rewrite zlen_cons in *.
  assert (Ho : forall i, at_off (q_buffSize q) (q_next q (q_pHead q)) i = at_off (q_buffSize q) (q_pHead q) (1 + i)
                         \/ i < 0 \/ q_buffSize q - 1 <= i).
  { intros i. off_cases. }
  split.
  - split; cbn [q_advance q_buffSize q_pHead q_pTail q_pBuff]; try done; try lia.
    + unfold q_next. case_if; lia.
    + rewrite H4. destruct (Ho (zlen l)) as [->|[?|?]]; lia.
    + exists buf. split; [done|]. split; [done|]. intros i Hi. destruct (Ho i) as [->|[?|?]]; [|lia|lia].
      rewrite H7 by lia. rewrite zget_cons_S by lia. f_equal. lia.
  - unfold q_first. rewrite H5. specialize (H7 0 ltac:(lia)).
    replace (at_off (q_buffSize q) (q_pHead q) 0) with (q_pHead q) in H7 by (unfold at_off; case_if; lia).
    by rewrite H7.
Qed.

Lemma packet_in_holds buff : forall q l, holds q l ->
  let r := data_que_packet_in buff q in
  let k := Z.min (zlen buff) (q_buffSize q - 1 - zlen l) in
  r.1 = k /\ holds r.2 (l ++ ztake k buff) /\ q_buffSize r.2 = q_buffSize q.
Proof.
  induction buff as [|b buff IH]; intros q l Hq; cbn [data_que_packet_in].
  - pose proof (ho_room _ _ Hq). rewrite (@zlen_nil Z). cbn [fst snd]. rewrite Z.min_l by lia.
    split_and!; [done| |done]. by rewrite ztake_0, app_nil_r.
  - pose proof (ho_room _ _ Hq). pose proof (zlen_nonneg buff). rewrite (q_full q l Hq), zlen_cons.
    destruct (Z.ltb_spec (zlen l) (q_buffSize q - 1)); cbn [negb].
    + destruct (IH (q_store b q) (l ++ [b]) (q_store_holds q l b Hq ltac:(lia))) as (I1 & I2 & I3).
      destruct (data_que_packet_in buff (q_store b q)) as [idx q']. cbn [fst snd] in *.
      change (q_buffSize (q_store b q)) with (q_buffSize q) in *. rewrite zlen_snoc in *.
      split_and!; [lia| |done]. rewrite <- app_assoc in I2. cbn [app] in I2.
      rewrite ztake_cons by lia.
      replace (Z.min (1 + zlen buff) (q_buffSize q - 1 - zlen l) - 1)
        with (Z.min (zlen buff) (q_buffSize q - 1 - (zlen l + 1))) by lia. done.
    + cbn [fst snd]. rewrite Z.min_r by lia. split_and!; [lia| |done].
      replace (q_buffSize q - 1 - zlen l) with 0 by lia. by rewrite ztake_0, app_nil_r.
Qed.

Lemma packet_out_holds n : forall q l, holds q l ->
  let r := packet_out_loop n q in
  r.1 = take n l /\ holds r.2 (drop n l) /\ q_buffSize r.2 = q_buffSize q.
Proof.
  induction n as [|n IH]; intros q l Hq; cbn [packet_out_loop]; [done|].
  rewrite (q_empty q l Hq). destruct l as [|b l]; [done|].
  rewrite zlen_cons. pose proof (zlen_nonneg l). replace (1 + zlen l =? 0) with false by lia.
  destruct (q_advance_holds q b l Hq) as [A1 A2]. destruct (IH _ _ A1) as (I1 & I2 & I3).
  destruct (packet_out_loop n (q_advance q)) as [r q']. cbn [fst snd take drop] in *. by rewrite A2, I1.
Qed.

Lemma cleanup_holds q l : holds q l -> holds (data_que_cleanup q).2 [] /\ (data_que_cleanup q).1 = 0.
Proof.
  intros [H1 H2 H3 H4 (buf & H5 & H6 & H7)]. unfold data_que_cleanup. rewrite H5. split; [|done].
  split; cbn [snd q_buffSize q_pHead q_pTail q_pBuff]; rewrite ?(@zlen_nil Z); try done; try lia.
  - off_cases.
  - eexists. split; [done|]. split; [unfold zlen; rewrite repeat_length; lia|lia].
Qed.

Lemma data_que_size_holds q l : holds q l -> data_que_size q = zlen l.
Proof.
  intros [H1 H2 H3 H4 _]. pose proof (zlen_nonneg l). unfold data_que_size. rewrite H4. unfold at_off.
  repeat case_if; rewrite u16_small by lia; lia.
Qed.

Lemma queue_do_holds op q l : holds q l ->
  (forall n, op = Q_out n -> 0 <= n) ->
  let r := queue_do op q in let s := list_do (q_buffSize q - 1) op l in
  r.1 = s.1 /\ holds r.2 s.2 /\ q_buffSize r.2 = q_buffSize q.
Proof.
  intros Hq Hn. pose proof (ho_room _ _ Hq). destruct op as [b| |buff|n| |]; cbn [queue_do list_do].
  - unfold data_que_push. rewrite (q_full q l Hq). destruct (Z.ltb_spec (zlen l) (q_buffSize q - 1)); [|done].
    cbn [negb fst snd]. split_and!; [done|by apply q_store_holds|done].
  - unfold data_que_pop. rewrite (q_empty q l Hq). destruct l as [|b l]; [done|].
    rewrite zlen_cons. pose proof (zlen_nonneg l). replace (1 + zlen l =? 0) with false by lia.
    destruct (q_advance_holds q b l Hq) as [A1 A2]. cbn [fst snd]. by rewrite A2.
  - destruct (packet_in_holds buff q l Hq) as (P1 & P2 & P3).
    destruct (data_que_packet_in buff q) as [idx q']. cbn [fst snd] in *. by rewrite P1.
  - unfold data_que_packet_out. specialize (Hn n eq_refl).
    destruct (packet_out_holds (Z.to_nat (Z.min n (q_buffSize q))) q l Hq) as (P1 & P2 & P3).
    assert (E : take (Z.to_nat (Z.min n (q_buffSize q))) l = ztake n l /\
                drop (Z.to_nat (Z.min n (q_buffSize q))) l = zdrop n l).
    { destruct (Z.le_ge_cases n (q_buffSize q)); [by rewrite Z.min_l by lia|]. rewrite Z.min_r by lia.
      rewrite ztake_ge, zdrop_ge by lia. unfold zlen in *. by rewrite take_ge, drop_ge by lia. }
    destruct E as [E1 E2]. cbn [fst snd]. by rewrite P1, E1, <- E2.
  - cbn [fst snd]. by rewrite (data_que_size_holds q l Hq).
  - destruct (cleanup_holds q l Hq) as [C1 C2]. unfold data_que_cleanup in *.
    destruct (q_pBuff q); [done|]. cbn in C2. discriminate.
Qed.

Lemma queue_run_holds ops : forall q l, holds q l ->
  Forall (fun op => forall n, op = Q_out n -> 0 <= n) ops ->
  queue_run ops q = list_run (q_buffSize q - 1) ops l.
Proof.
  induction ops as [|op ops IH]; intros q l Hq Hn; cbn [queue_run list_run]; [done|].
  apply Forall_cons in Hn as [Ho Hn]. destruct (queue_do_holds op q l Hq Ho) as (D1 & D2 & D3).
  destruct (queue_do op q) as [r q']. destruct (list_do (q_buffSize q - 1) op l) as [s l'].
  cbn [fst snd] in *. subst r. f_equal. rewrite (IH q' l' D2 Hn). by rewrite D3.
Qed.

(** A created queue answers every sequence of calls as a list of at most
    [size - 1] bytes would: bytes come out in the order they went in, none is lost
    or doubled, a full queue refuses what does not fit and says how much it took,
    and the reported size is the number of bytes held. *)
Theorem data_queue_is_fifo size ops : 1 <= size < 2 ^ 16 ->
  Forall (fun op => forall n, op = Q_out n -> 0 <= n) ops ->
  queue_run ops (data_que_create true size queue_zero) = list_run (size - 1) ops [].
Proof.
  intros Hs Hn. apply (queue_run_holds ops (data_que_create true size queue_zero) []); [|done].
  split; cbn [data_que_create queue_zero q_buffSize q_pHead q_pTail q_pBuff Z.ltb Z.compare];
    rewrite ?(@zlen_nil Z); try lia; [off_cases|].
  eexists. split; [done|]. split; [unfold zlen; rewrite repeat_length; lia|lia].
Qed.

Lemma data_queue_is_fifo_witness :
  queue_run [Q_in [1; 2; 3; 4; 5]; Q_pop; Q_push 6; Q_size; Q_out 9] (data_que_create true 5 queue_zero)
  = [[4]; [1]; [1]; [4]; [2; 3; 4; 6]].
Proof.
  etrans; [apply (data_queue_is_fifo 5)|]; [lia| |reflexivity].
  repeat (apply Forall_cons; split; [intros n E; try discriminate E; injection E as <-; lia|]). by apply Forall_nil.
Defined.

(** An event bus that takes nothing costs the other consumers their copy and
    nothing else; a driver error changes only its counter. *)
Lemma uart_turn_delivers us read post post' u :
  match uart_turn us read post u, uart_turn us read post' u with
  | Some (v, frames, _), Some (v', frames', _) =>
    ua_stats v = ua_stats v' /\ ua_gnss v = ua_gnss v' /\ ua_ingest v = ua_ingest v' /\ frames = frames' /\
    match read with inl _ => ua_stats v = ua_stats u /\ ua_gnss v = ua_gnss u /\ ua_ingest v = ua_ingest u | inr _ => True end
  | None, None => True
  | _, _ => False
  end.
Proof.
  unfold uart_turn. destruct read as [err|data]; [done|]. destruct (zlen data =? 0); [done|].
  by destruct (ntrip_server_ingest_uart us data (ua_ingest u)) as [[ing frames]|].
Qed.
