(* ===== verification/Station.v ===== *)
(** * From the receiver to the casters

    The composition of the parts on the data path: turns of the UART task ([Uart],
    which runs the parser and the notes of [Ingest]), the pushes their frames make
    into the shared ring one at a time, and the rounds, aborts and connects of the
    sender tasks between them ([NtripTx]).  What the receiver sent is a ghost. *)

From Stdlib Require Import Sorted.
From S2P Require Import Prelude Crc24q RtcmParser NtripRing NtripTx Supervisor Ingest Nvs Gnss StreamStats Uart NtripServer.

Section Station.
Context `{Errno} {S : Type} `{Sender S} `{!SenderOk S}.

(** [st_pending]: the frames of the chunk in hand that are not pushed yet. *)
Record station := mk_station {
  st_uart : uart_t;
  st_pending : list entry;
  st_sys : @sys S;
  st_rx : list Z
}.

(** The frames [rtcm_parser_feed] hands to its callback for a chunk. *)
Definition turn_frames (u : uart_t) (data : list Z) : list (list Z) :=
  let i := ua_ingest u in
  let p := if m_ingest_reset_req (in_msgs i) then rtcm_parser_init else in_parser i in
  match rtcm_parser_feed (Some log_frame) p data 0 [] with Some (_, fs) => fs | None => [] end.

Definition stamped (us : Z) (fs : list (list Z)) : list entry := map (fun f => (f, ntrip_now_ms us)) fs.
Definition read_bytes (read : Z + list Z) : list Z := match read with inl _ => [] | inr data => data end.

Definition put_msgs (m : msgs_t) (u : uart_t) : uart_t :=
  mk_uart (ua_read_errors u) (ua_post_drops u) (ua_stats u) (ua_gnss u) ((ua_ingest u) <| in_msgs := m |>).
Definition put_gnss (g : gnss_t) (u : uart_t) : uart_t :=
  mk_uart (ua_read_errors u) (ua_post_drops u) (ua_stats u) g (ua_ingest u).

(** A turn of the UART task reads at most a buffer; its frames then enter the shared
    ring one by one, and any sender step may come between.  [gnss.c] works on its own
    capture and may start a new receiver epoch at any time. *)
Inductive station_step : station -> station -> Prop :=
  | st_turn st us read post u frames posted :
      st_pending st = [] -> bytes (read_bytes read) -> zlen (read_bytes read) < 4096 ->
      zlen (sy_hist (st_sys st)) + 8192 < 2 ^ 32 ->
      uart_turn us read post (st_uart st) = Some (u, frames, posted) ->
      station_step st (mk_station u (stamped us (turn_frames (st_uart st) (read_bytes read))) (st_sys st)
                                  (st_rx st ++ read_bytes read))
  | st_push st frame now es :
      st_pending st = (frame, now) :: es ->
      station_step st (mk_station (st_uart st) es
        (NtripTx.mk_sys (ntrip_ring_push (sy_ring (st_sys st)) frame (zlen frame) now)
                        (sy_hist (st_sys st) ++ [(frame, now)]) (sy_conns (st_sys st))) (st_rx st))
  | st_sender st y :
      sys_step (st_sys st) y -> sy_hist y = sy_hist (st_sys st) ->
      station_step st (mk_station (st_uart st) (st_pending st) y (st_rx st))
  | st_epoch st us :
      station_step st (mk_station (put_msgs (ntrip_server_msg_epoch_reset us (in_msgs (ua_ingest (st_uart st)))) (st_uart st))
                                  (st_pending st) (st_sys st) (st_rx st))
  | st_gnss st g : station_step st (mk_station (put_gnss g (st_uart st)) (st_pending st) (st_sys st) (st_rx st)).

(** After [ntrip_server_ingest_init], before the UART task runs. *)
Definition station_boot (u : uart_t) (s0 : S) (n : nat) : station :=
  mk_station (mk_uart (ua_read_errors u) (ua_post_drops u) (ua_stats u) (ua_gnss u)
                      (ntrip_server_ingest_init ((ua_ingest u) <| in_ready := false |>))) [] (sys_init s0 n) [].

Inductive station_reachable (u : uart_t) (s0 : S) (n : nat) : station -> Prop :=
  | station_start : station_reachable u s0 n (station_boot u s0 n)
  | station_next st st' : station_reachable u s0 n st -> station_step st st' -> station_reachable u s0 n st'.

(** ** Specification *)

(** The stream [rx] contains the frames [fs], each valid, in that order and without
    overlap. *)
Definition found_in (fs : list (list Z)) (rx held : list Z) : Prop :=
  Forall valid_frame fs /\ exists gaps last, length gaps = length fs /\ rx = weave gaps fs ++ last ++ held.

(** What a caster got: some of the frames [fs] in their order, whole, then the
    beginning of a later one or nothing.  It can be decoded as the firmware decodes the
    receiver: exactly those frames, no byte to discard, no checksum error. *)
Definition relayed (fs : list (list Z)) (w : list Z) : Prop :=
  exists sent cut, w = concat sent ++ cut /\ scans w sent 0 0 cut /\ sent `sublist_of` fs /\
    (cut = [] \/ exists f, sent ++ [f] `sublist_of` fs /\ cut `prefix_of` f).

(** ** Streams of frames *)

Lemma scans_frames fs l gs d e r : Forall valid_frame fs -> scans l gs d e r -> scans (concat fs ++ l) (fs ++ gs) d e r.
Proof.
  induction 1 as [|f fs Hf Hfs IH]; intros Hs; [done|]. cbn [concat app]. rewrite <- app_assoc. specialize (IH Hs).
  set (k := concat fs ++ l) in *. destruct (valid_frame_at f k Hf) as [Ha Hn].
  destruct Hf as (_ & Hl6 & _ & _ & Hcrc). pose proof (zlen_nonneg k).
  rewrite <- (ztake_app_exact f k) at 2. rewrite <- Hn. apply scans_frame; [done| | |].
  - rewrite Hn, zlen_app. lia.
  - by rewrite Hn, ztake_app_le, crc_field_app by lia.
  - by rewrite Hn, zdrop_app_exact.
Qed.

Lemma scans_cut f off : valid_frame f -> 0 < off < zlen f -> scans (ztake off f) [] 0 0 (ztake off f).
Proof.
  intros (A0 & Hl & A1 & Hn & _) Ho. apply scans_wait. unfold incomplete, at_header.
  assert (L : zlen (ztake off f) = off) by (apply zlen_ztake_le; lia). rewrite L, !zget_ztake by lia.
  split; [done|]. split; [lia|]. destruct (Z.lt_ge_cases off 3); [by left|]. right.
  unfold stream_need in *. rewrite !zget_ztake by lia. split_and!; [done|lia|done|lia].
Qed.

Lemma weave_app g1 g2 f1 f2 : length g1 = length f1 -> weave (g1 ++ g2) (f1 ++ f2) = weave g1 f1 ++ weave g2 f2.
Proof. intros Hl. unfold weave. by rewrite zip_with_app, concat_app. Qed.

Lemma found_more fs rx held fs' held' data : found_in fs rx held -> found_in fs' (held ++ data) held' ->
  found_in (fs ++ fs') (rx ++ data) held'.
Proof.
  intros [V (g & l & Hg & ->)] [V' (g' & l' & Hg' & E)]. split; [by apply Forall_app|].
  rewrite <- !app_assoc, E. destruct g' as [|x g'], fs' as [|f' fs']; try done.
  - exists g, (l ++ l'). rewrite app_nil_r. split; [done|]. cbn. by rewrite <- app_assoc.
  - exists (g ++ (l ++ x) :: g'), l'. rewrite !length_app. cbn [length] in *. split; [lia|].
    rewrite weave_app by done. unfold weave. cbn [zip_with concat]. by rewrite <- !app_assoc.
Qed.

Lemma found_drop fs rx held : found_in fs rx held -> found_in fs rx [].
Proof. intros [V (g & l & Hg & ->)]. split; [done|]. exists g, (l ++ held). split; [done|]. by rewrite app_nil_r. Qed.

(** ** Numbers of frames as sublists *)

Lemma nths_sublist {A} (l : list A) d ks : StronglySorted Z.lt ks -> forall k0, Forall (fun k => k0 <= k < zlen l) ks -> 0 <= k0 ->
  map (fun k => default d (l !! Z.to_nat k)) ks `sublist_of` zdrop k0 l.
Proof.
  induction 1 as [|k ks Hs IH Hk]; intros k0 Hin Hz; cbn [map]; [apply sublist_nil_l|].
  apply Forall_cons in Hin as [Hk0 Hin].
  assert (E : zdrop k l = default d (l !! Z.to_nat k) :: zdrop (k + 1) l).
  { unfold zdrop, zlen in *. destruct (lookup_lt_is_Some_2 l (Z.to_nat k) ltac:(lia)) as [x Ex].
    rewrite Ex, (drop_S l x) by done. cbn [default]. by replace (Z.to_nat (k + 1)) with (1 + Z.to_nat k)%nat by lia. }
  trans (zdrop k l).
  - rewrite E. apply sublist_skip, IH; [|lia]. apply Forall_forall. intros j Hj.
    rewrite Forall_forall in Hk, Hin. specialize (Hk j Hj). specialize (Hin j Hj). lia.
  - unfold zdrop. replace (Z.to_nat k) with (Z.to_nat k0 + Z.to_nat (k - k0))%nat by lia.
    rewrite <- drop_drop. apply sublist_drop.
Qed.

Lemma sublist_map {A B} (f : A -> B) l k : l `sublist_of` k -> map f l `sublist_of` map f k.
Proof. induction 1; cbn [map]; by constructor. Qed.

Lemma frames_sublist hist ks : StronglySorted Z.lt ks -> Forall (fun k => 0 <= k < zlen hist) ks ->
  map (fun k => (entry_at hist k).1) ks `sublist_of` map fst hist.
Proof.
  intros Hs Hk. pose proof (nths_sublist hist ([], 0) ks Hs 0 Hk ltac:(lia)) as P. rewrite zdrop_0 in P.
  apply (sublist_map fst) in P. by rewrite map_map in P.
Qed.
Lemma sublist_keeps {A} (P : A -> Prop) l k : l `sublist_of` k -> Forall P k -> Forall P l.
Proof. induction 1; rewrite ?Forall_cons; intuition. Qed.

Lemma relayed_whole fs sent : Forall valid_frame sent -> sent `sublist_of` fs -> relayed fs (concat sent).
Proof.
  intros Hv Hs. pose proof (scans_frames sent [] [] 0 0 [] Hv scans_empty) as P. rewrite !app_nil_r in P.
  exists sent, []. rewrite app_nil_r. split_and!; [done|done|done|by left].
Qed.

(** Some frames of the history, whole, then the first [off] bytes of a later one. *)
Lemma cut_relayed fs sent f off : Forall valid_frame fs -> sent ++ [f] `sublist_of` fs ->
  relayed fs (concat sent ++ ztake off f).
Proof.
  intros Hv Hs. pose proof (sublist_keeps valid_frame _ _ Hs Hv) as [Hv1 [Hf _]%Forall_cons]%Forall_app.
  assert (Hs1 : sent `sublist_of` fs) by (trans (sent ++ [f]); [by apply sublist_inserts_r|done]).
  destruct (Z.le_gt_cases off 0) as [Ho|Ho]; [|destruct (Z.le_gt_cases (zlen f) off) as [Hl|Hl]].
  - replace (ztake off f) with (@nil Z) by (unfold ztake; by replace (Z.to_nat off) with 0%nat by lia).
    rewrite app_nil_r. by apply relayed_whole.
  - rewrite ztake_ge by lia. replace (concat sent ++ f) with (concat (sent ++ [f])) by (rewrite concat_app; cbn; by rewrite app_nil_r).
    apply relayed_whole; [|done]. apply Forall_app. split; [done|]. by apply Forall_singleton.
  - exists sent, (ztake off f). split; [done|]. split.
    + pose proof (scans_frames sent (ztake off f) [] 0 0 (ztake off f) Hv1 (scans_cut f off Hf ltac:(lia))) as P.
      by rewrite app_nil_r in P.
    + split; [done|]. right. exists f. split; [done|]. exists (zdrop off f). by rewrite ztake_zdrop.
Qed.

Lemma whole_relayed hist start w : Forall valid_frame (map fst hist) -> 0 <= start ->
  whole_then_prefix hist start w -> relayed (map fst hist) w.
Proof.
  intros Hv H1 (ks & tail & Hs & Hk & -> & Ht). unfold frames_of.
  set (sent := map (fun k => (entry_at hist k).1) ks).
  assert (Hk0 : Forall (fun k => 0 <= k < zlen hist) ks) by (eapply Forall_impl; [exact Hk|]; intros; cbn in *; lia).
  assert (Hsent : sent `sublist_of` map fst hist) by (by apply frames_sublist).
  destruct Ht as [-> | (k & off & Hkk & Hlt & ->)].
  - rewrite app_nil_r. apply relayed_whole; [|done]. by apply (sublist_keeps valid_frame _ _ Hsent).
  - apply cut_relayed; [done|]. pose proof (frames_sublist hist (ks ++ [k])) as P. rewrite map_app in P.
    apply P; [by apply sorted_snoc|]. apply Forall_app. split; [done|]. constructor; [lia|constructor].
Qed.
(** ** The invariant *)

Record station_ok (s0 : S) (n : nat) (st : station) : Prop := {
  sk_reach : reachable s0 n (st_sys st);
  sk_ready : in_ready (ua_ingest (st_uart st)) = true;
  sk_parser : parser_inv (in_parser (ua_ingest (st_uart st)));
  sk_counters : counters_u64 (in_parser (ua_ingest (st_uart st)));
  sk_ring : in_ring (ua_ingest (st_uart st)) = push_all (sy_ring (st_sys st)) (st_pending st);
  sk_pending : Forall entry_ok (st_pending st);
  sk_few : zlen (sy_hist (st_sys st)) + zlen (st_pending st) < 2 ^ 32;
  sk_found : found_in (map fst (sy_hist (st_sys st) ++ st_pending st)) (st_rx st)
               (contents (in_parser (ua_ingest (st_uart st))))
}.

Lemma turn_frames_det u data fs d e r : parser_inv (in_parser (ua_ingest u)) ->
  counters_u64 (in_parser (ua_ingest u)) -> bytes data ->
  scans ((if m_ingest_reset_req (in_msgs (ua_ingest u)) then [] else contents (in_parser (ua_ingest u))) ++ data) fs d e r ->
  turn_frames u data = fs.
Proof.
  intros Hi Hu Hb Hs. unfold turn_frames.
  set (p := if m_ingest_reset_req (in_msgs (ua_ingest u)) then rtcm_parser_init else in_parser (ua_ingest u)).
  assert (P : parser_inv p /\ counters_u64 p /\
    contents p = if m_ingest_reset_req (in_msgs (ua_ingest u)) then [] else contents (in_parser (ua_ingest u))).
  { unfold p. case_if; [|done]. split; [apply parser_init_inv|]. split; [apply parser_init_u64|apply contents_init]. }
  destruct P as (P1 & P2 & P3). rewrite <- P3 in Hs.
  destruct (feed_spec (Some log_frame) p data 0 [] P1 P2 Hb) as (q & c' & -> & fs' & d' & e' & -> & _ & Hs' & _).
  destruct (scans_det _ _ _ _ _ Hs' _ _ _ _ Hs) as (-> & _). rewrite run_cbs_timed, run_timed_log.
  cbn [app]. rewrite map_map. cbn [fst]. apply map_id.
Qed.

Lemma turn_frames_nil u : parser_inv (in_parser (ua_ingest u)) -> counters_u64 (in_parser (ua_ingest u)) ->
  turn_frames u [] = [].
Proof.
  intros Hi Hu. destruct (m_ingest_reset_req (in_msgs (ua_ingest u))) eqn:E.
  - apply (turn_frames_det u [] [] 0 0 []); [done|done|by apply Forall_nil|]. rewrite E. constructor.
  - apply (turn_frames_det u [] [] 0 0 (contents (in_parser (ua_ingest u)))); [done|done|by apply Forall_nil|].
    rewrite E, app_nil_r. by apply parser_inv_waits.
Qed.

Lemma stamped_fst us fs : map fst (stamped us fs) = fs.
Proof. unfold stamped. rewrite map_map. apply map_id. Qed.

(** A chunk that is not empty. *)
Lemma read_turn_ok s0 n st us data post u frames posted : wire s0 = [] -> station_ok s0 n st -> st_pending st = [] ->
  bytes data -> data <> [] -> zlen data < 4096 -> zlen (sy_hist (st_sys st)) + 8192 < 2 ^ 32 ->
  uart_turn us (inr data) post (st_uart st) = Some (u, frames, posted) ->
  station_ok s0 n (mk_station u (stamped us (turn_frames (st_uart st) data)) (st_sys st) (st_rx st ++ data)).
Proof.
  intros Hw [Hr Hrdy Hp Hu Hring Hpend Hfew Hfound] Hnil Hb Hne Hl Hh E. rewrite Hnil in *. cbn [push_all fold_left] in Hring.
  pose proof (reachable_inv s0 n _ Hw Hr) as [Hok _]. unfold uart_turn in E.
  destruct (Z.eqb_spec (zlen data) 0) as [Ez|_]; [by apply zlen_0 in Ez|].
  destruct (chunk_spec us data (ua_ingest (st_uart st)) (sy_hist (st_sys st)))
    as (s' & woken & fs & d & e & Ei & Hs & Hring' & Hi & _ & _ & _); [|done|done|lia|].
  { unfold ingest_inv. rewrite Hring. by split_and!. }
  rewrite Ei in E. injection E as <- <- <-.
  set (held := if m_ingest_reset_req (in_msgs (ua_ingest (st_uart st))) then [] else contents (in_parser (ua_ingest (st_uart st)))) in *.
  assert (Hfound' : found_in (map fst (sy_hist (st_sys st))) (st_rx st) held).
  { rewrite app_nil_r in Hfound. unfold held. case_if; [by eapply found_drop|done]. }
  assert (Hbl : bytes (held ++ data)).
  { apply bytes_app. split; [|done]. unfold held. case_if; [by apply Forall_nil|by apply parser_inv_bytes]. }
  assert (Hheld : zlen held <= 1029).
  { unfold held. case_if; [rewrite zlen_nil; lia|]. pose proof (parser_inv_buf_ok _ Hp) as Hbo.
    rewrite (buf_ok_len _ Hbo). destruct Hbo as (_ & _ & ?). unfold RTCM_MAX_FRAME_B in *. lia. }
  rewrite (turn_frames_det (st_uart st) data fs d e _ Hp Hu Hb Hs).
  pose proof (scans_few _ _ _ _ _ Hs Hbl) as Hn. rewrite zlen_app in Hn.
  destruct Hi as (I1 & I2 & I3 & _). rewrite Hring in Hring'.
  split; cbn [st_uart st_pending st_sys st_rx ua_ingest]; try done.
  - apply Forall_map. pose proof (scans_frame_lens _ _ _ _ _ Hs Hbl) as Hf. eapply Forall_impl; [exact Hf|].
    intros f Hf1. split; [done|]. apply u32_range.
  - unfold stamped. assert (zlen (map (fun f => (f, ntrip_now_ms us)) fs) = zlen fs) as -> by (unfold zlen; by rewrite length_map).
    lia.
  - rewrite map_app, stamped_fst. eapply found_more; [exact Hfound'|].
    destruct (scans_layout _ _ _ _ _ Hs Hbl) as [V (g & l & G1 & G2 & _)]. split; [done|]. by exists g, l.
Qed.
(** A turn that changes only counters. *)
Lemma turn_idle s0 n st us read post u frames posted : station_ok s0 n st -> st_pending st = [] ->
  read_bytes read = [] -> uart_turn us read post (st_uart st) = Some (u, frames, posted) ->
  station_ok s0 n (mk_station u (stamped us (turn_frames (st_uart st) [])) (st_sys st) (st_rx st ++ [])).
Proof.
  intros [Hr Hrdy Hp Hu Hring Hpend Hfew Hfound] Hnil Hd E. rewrite turn_frames_nil, app_nil_r by done. cbn [stamped map].
  assert (Ei : ua_ingest u = ua_ingest (st_uart st)).
  { unfold uart_turn in E. destruct read as [err|data]; [by injection E as <- <- <-|]. cbn in Hd. subst data.
    by injection E as <- <- <-. }
  rewrite Hnil in *. split; cbn [st_uart st_pending st_sys st_rx]; by rewrite ?Ei.
Qed.

(** A sender step leaves the ring alone. *)
Lemma sender_ring y z : sys_step y z -> sy_hist z = sy_hist y -> sy_ring z = sy_ring y.
Proof.
  intros St E. destruct St as [y frame now He Hlt| | |]; try done. cbn in E.
  apply (f_equal zlen) in E. rewrite zlen_snoc in E. lia.
Qed.

Lemma station_step_ok s0 n st st' : wire s0 = [] -> station_ok s0 n st -> station_step st st' -> station_ok s0 n st'.
Proof.
  intros Hw K St. destruct St as [st us read post u frames posted Hnil Hb Hl Hh E|st frame now es E|st y Y Hy|st us|st g].
  - destruct (decide (read_bytes read = [])) as [Hd|Hne].
    + rewrite Hd. by apply (turn_idle s0 n st us read post u frames posted).
    + destruct read as [err|data]; [done|]. by apply (read_turn_ok s0 n st us data post u frames posted).
  - destruct K as [Hr Hrdy Hp Hu Hring Hpend Hfew Hfound]. rewrite E in *. apply Forall_cons in Hpend as [He Hpend].
    rewrite zlen_cons in Hfew. pose proof (zlen_nonneg es).
    split; cbn [st_uart st_pending st_sys st_rx sy_hist sy_ring]; try done.
    + eapply reach_step; [exact Hr|]. apply step_push; [done|]. lia.
    + rewrite zlen_snoc. lia.
    + by rewrite <- app_assoc.
  - destruct K as [Hr Hrdy Hp Hu Hring Hpend Hfew Hfound]. pose proof (sender_ring _ _ Y Hy) as Er.
    split; cbn [st_uart st_pending st_sys st_rx]; rewrite ?Er, ?Hy; try done. by eapply reach_step.
  - destruct K as [Hr Hrdy Hp Hu Hring Hpend Hfew Hfound]. by split.
  - destruct K as [Hr Hrdy Hp Hu Hring Hpend Hfew Hfound]. by split.
Qed.

Lemma station_reachable_ok u s0 n st : wire s0 = [] -> station_reachable u s0 n st -> station_ok s0 n st.
Proof.
  intros Hw. induction 1 as [|st st' _ IH St]; [|by apply (station_step_ok s0 n st)].
  split; cbn [station_boot st_uart st_pending st_sys st_rx ua_ingest ntrip_server_ingest_init]; try done.
  - constructor.
  - apply parser_init_inv.
  - split; [by apply Forall_nil|]. exists [], []. split; [done|]. symmetry. apply contents_init.
Qed.

(** ** Delivery to a socket that takes everything *)

Section Delivery.
Variable taking : S -> Prop.
Hypothesis taking_all : forall s b, taking s -> exists s' err, send s b = (s', zlen b, err) /\ taking s'.

(** At the start of frame number [c], nothing pending. *)
Definition caught_up (tx : ntrip_tx_t) (hist : list entry) (c : Z) : Prop :=
  tx_ok tx hist /\ tx_cursor_seq tx = c /\ tx_current_len tx <= tx_current_off tx.

(** Frames [c] and later are in the ring and young enough. *)
Definition deliverable (r : ntrip_ring_t) (hist : list entry) (now stale c : Z) : Prop :=
  ring_ok r hist /\ ring_oldest_seq r <= c <= zlen hist /\
  forall k, c <= k < zlen hist -> is_stale hist now stale k = false.

Lemma send_full tx now (s : S) hist k : tx_ok tx hist -> holds_frame tx hist k -> tx_current_off tx = 0 ->
  0 < zlen (entry_at hist k).1 -> taking s ->
  exists q s', tx_send_once tx now s = (q, s', R_sent) /\ caught_up q hist (tx_cursor_seq tx) /\
    wire s' = wire s ++ (entry_at hist k).1 /\ taking s'.
Proof.
  intros Htx (Hl & Hf & _) Ho Hpos Hs. pose proof (tx_send_once_ok tx now s hist Htx ltac:(lia)) as P.
  assert (Hmax : tx_current_len tx <= RTCM_MAX_FRAME_B) by (destruct Htx as (_ & _ & _ & [?|?] & _); lia).
  unfold RTCM_MAX_FRAME_B in Hmax. unfold tx_send_once in *. rewrite Ho, Z.sub_0_r, zdrop_0, Hf in *.
  destruct (taking_all s (entry_at hist k).1 Hs) as (s' & err & Es & Hs'). rewrite Es in *.
  pose proof (send_wire _ _ _ _ _ Es) as Hw. rewrite ztake_ge in Hw by lia.
  replace (0 <? zlen (entry_at hist k).1) with true in * by lia.
  cbn [tx_current_off tx_current_len upd set_tx_last_progress_ms set_tx_accepted_to_lwip set_tx_current_off] in *.
  rewrite (u16_small (zlen _)), Z.add_0_l, u16_small, <- Hl, Z.eqb_refl in * by lia.
  destruct P as [P _]. eexists _, s'. split; [reflexivity|]. split; [|done]. split; [exact P|]. by cbn.
Qed.

Lemma round_full tx r hist now stale (s : S) c : caught_up tx hist c -> deliverable r hist now stale c -> taking s ->
  exists q s', tx_round tx r now stale s = (q, s', if c <? zlen hist then R_sent else R_caught_up) /\ taking s' /\
    if c <? zlen hist then caught_up q hist (c + 1) /\ wire s' = wire s ++ (entry_at hist c).1
    else caught_up q hist c /\ wire s' = wire s.
Proof.
  intros (Htx & Hc & Hoff) (Hok & Hr & Hst) Hs. unfold tx_round.
  replace (tx_current_len tx <=? tx_current_off tx) with true by lia.
  pose proof (tx_copy_next_ok tx r hist now stale Hok Htx Hoff) as P. rewrite Hc, Z.max_l in P by lia.
  destruct (tx_copy_next tx r now stale) as [q b]. destruct P as (Hq & (k & Hk & Hall & _ & _ & Hb) & _).
  assert (Hkc : k = c).
  { destruct (Z.eq_dec k c); [done|]. specialize (Hall c ltac:(lia)). rewrite Hst in Hall by lia. done. }
  subst k. destruct b.
  - destruct Hb as (Hlt & _ & Hcur & Hf & Ho & _). rewrite (proj2 (Z.ltb_lt _ _) Hlt).
    pose proof Hok as (_ & He & _). destruct Hk as [_ Hk].
    assert (0 <= c) by (destruct Htx as ((? & ?) & _); lia).
    pose proof (entry_at_ok hist c He ltac:(lia)) as [? _].
    destruct (send_full q now s hist c Hq Hf Ho ltac:(lia) Hs) as (q' & s' & -> & Hc' & Hw & Hs').
    exists q', s'. by rewrite <- Hcur.
  - destruct Hb as (-> & Hcur & _ & El & Eo & _). rewrite Z.ltb_irrefl. exists q, s.
    split_and!; try done. split_and!; [done|done|lia].
Qed.

Definition frames_from (hist : list entry) (c n : Z) : list Z := concat (map fst (ztake n (zdrop c hist))).

Lemma frames_from_S hist c n : 0 <= c < zlen hist -> 0 <= n ->
  (entry_at hist c).1 ++ frames_from hist (c + 1) n = frames_from hist c (n + 1).
Proof.
  intros Hc Hn. unfold frames_from, entry_at, zdrop, ztake, zlen in *.
  destruct (lookup_lt_is_Some_2 hist (Z.to_nat c) ltac:(lia)) as [x Ex]. rewrite (drop_S hist x (Z.to_nat c)) by done. rewrite Ex.
  replace (Z.to_nat (n + 1)) with (1 + Z.to_nat n)%nat by lia. by replace (Z.to_nat (c + 1)) with (1 + Z.to_nat c)%nat by lia.
Qed.

Lemma deliverable_later r hist now stale c c' : deliverable r hist now stale c -> c <= c' <= zlen hist ->
  deliverable r hist now stale c'.
Proof. intros (D1 & D2 & D3) Hc. split; [done|]. split; [lia|]. intros k Hk. apply D3. lia. Qed.

Lemma rounds_full r hist now stale rounds : forall tx (s : S) c res0, caught_up tx hist c -> deliverable r hist now stale c ->
  taking s -> 0 <= c -> let m := Z.min (Z.of_nat rounds) (zlen hist - c) in
  exists q s', tx_rounds rounds tx r now stale s res0 = (q, s', if m =? 0 then res0 else NTRIP_TX_POLL_PROGRESS) /\
    taking s' /\ caught_up q hist (c + m) /\ wire s' = wire s ++ frames_from hist c m.
Proof.
  induction rounds as [|rounds IH]; intros tx s c res0 Hc Hd Hs H1 m; cbn [tx_rounds].
  - destruct Hd as (_ & Hr & _). replace m with 0 by lia. exists tx, s. rewrite Z.add_0_r.
    split_and!; try done. unfold frames_from. by rewrite ztake_0, app_nil_r.
  - destruct (round_full tx r hist now stale s c Hc Hd Hs) as (q & s1 & -> & Hs1 & P).
    pose proof Hd as (_ & Hr & _). destruct (Z.ltb_spec c (zlen hist)).
    + destruct P as [Hc1 Hw1].
      destruct (IH q s1 (c + 1) NTRIP_TX_POLL_PROGRESS Hc1 (deliverable_later _ _ _ _ _ (c + 1) Hd ltac:(lia)) Hs1 ltac:(lia))
        as (q' & s' & -> & Hs' & Hc' & Hw').
      exists q', s'. replace (m =? 0) with false by lia.
      set (m1 := Z.min (Z.of_nat rounds) (zlen hist - (c + 1))) in *. replace m with (m1 + 1) by lia.
      split; [by case_if|]. split; [done|]. split; [by replace (c + (m1 + 1)) with (c + 1 + m1) by lia|].
      rewrite Hw', Hw1, <- app_assoc. by rewrite frames_from_S by lia.
    + destruct P as [Hc1 Hw1]. replace m with 0 by lia. exists q, s1. rewrite Z.add_0_r. split_and!; try done.
      unfold frames_from. by rewrite ztake_0, app_nil_r.
Qed.

Lemma frames_from_app hist c m n : 0 <= c -> 0 <= m -> 0 <= n ->
  frames_from hist c m ++ frames_from hist (c + m) n = frames_from hist c (m + n).
Proof.
  intros. unfold frames_from, ztake, zdrop. rewrite <- concat_app, <- map_app. do 2 f_equal.
  replace (Z.to_nat (m + n)) with (Z.to_nat m + Z.to_nat n)%nat by lia.
  replace (Z.to_nat (c + m)) with (Z.to_nat c + Z.to_nat m)%nat by lia.
  rewrite <- drop_drop. generalize (drop (Z.to_nat c) hist) as l. intros l.
  rewrite <- (take_drop (Z.to_nat m) (take (Z.to_nat m + Z.to_nat n) l)) at 1. 
  rewrite take_take, Nat.min_l, skipn_firstn_comm by lia. do 2 f_equal. lia.
Qed.

(** The drain loop's polls bring everything out and then find nothing. *)
Lemma spins_full r hist now spins : forall d c, caught_up (ni_tx (ds_inst d)) hist c ->
  deliverable r hist now NTRIP_TX_STALE_DROP_MS c -> taking (ds_sock d) -> 0 <= c ->
  zlen hist - c <= 2 * Z.of_nat spins ->
  exists d', drain_spins spins (fun _ => r) now d = (d', NTRIP_TX_POLL_IDLE) /\
    caught_up (ni_tx (ds_inst d')) hist (zlen hist) /\ ds_last_probe_ms d' = ds_last_probe_ms d /\ taking (ds_sock d') /\
    wire (ds_sock d') = wire (ds_sock d) ++ frames_from hist c (zlen hist - c).
Proof.
  induction spins as [|spins IH]; intros d c Hc Hd Hs H1 Hm; cbn [drain_spins]; unfold drain_poll, ntrip_tx_poll;
    change (Z.to_nat NTRIP_TX_MAX_SENDS_PER_POLL) with 2%nat;
    destruct (rounds_full r hist now NTRIP_TX_STALE_DROP_MS 2 _ _ c NTRIP_TX_POLL_IDLE Hc Hd Hs H1) as (q & s' & -> & Hs' & Hc' & Hw');
    set (m := Z.min (Z.of_nat 2) (zlen hist - c)) in *; pose proof Hd as (_ & Hr & _).
  - replace m with 0 in * by lia. rewrite Z.add_0_r in Hc'. replace c with (zlen hist) in * by lia. rewrite Z.sub_diag.
    destruct (_ && _); eexists; (split; [reflexivity|]); by split_and!.
  - destruct (Z.eqb_spec m 0) as [Em|Em].
    + rewrite Em, Z.add_0_r in *. replace c with (zlen hist) in * by lia. rewrite Z.sub_diag.
      destruct (_ && _); eexists; (split; [reflexivity|]); by split_and!.
    + assert (G : forall d1, ni_tx (ds_inst d1) = q -> ds_sock d1 = s' -> ds_last_probe_ms d1 = ds_last_probe_ms d ->
        exists d', drain_spins spins (fun _ => r) now d1 = (d', NTRIP_TX_POLL_IDLE) /\
          caught_up (ni_tx (ds_inst d')) hist (zlen hist) /\ ds_last_probe_ms d' = ds_last_probe_ms d /\ taking (ds_sock d') /\
          wire (ds_sock d') = wire (ds_sock d) ++ frames_from hist c (zlen hist - c)).
      { intros d1 E1 E2 E3. destruct (IH d1 (c + m)) as (d' & I1 & I2 & I3 & I4 & I5); try (by rewrite ?E1, ?E2); try lia.
        - apply (deliverable_later _ _ _ _ c); [done|lia].
        - exists d'. split_and!; try done; [by rewrite I3|]. rewrite I5, E2, Hw', <- app_assoc, frames_from_app by lia.
          do 2 f_equal. lia. }
      destruct (_ && _); by apply G.
Qed.
End Delivery.

(** ** Properties *)

(** C6: what a caster gets is what the receiver said.  However the receiver's bytes are
    cut into reads, whatever noise, driver errors and restarts of the parser there
    are, and however the pushes and the sender tasks interleave, the history of the ring
    is a list of valid frames found in the received bytes in that order without overlap,
    and each connection's wire is a selection of them in order, whole, followed by at most
    the beginning of one more: a caster that decodes its stream finds exactly
    these frames, nothing to discard and no checksum error.  (The ring counts frames in 32
    bits: the runs push fewer than 2^32 of them.) *)
Theorem casters_get_receiver_frames u s0 n st : wire s0 = [] -> station_reachable u s0 n st ->
  let fs := map fst (sy_hist (st_sys st)) in
  found_in fs (st_rx st) [] /\ Forall (fun c => relayed fs (wire (cn_sock c))) (sy_conns (st_sys st)).
Proof.
  intros Hw R fs. destruct (station_reachable_ok u s0 n st Hw R) as [Hr _ _ _ _ _ _ Hfound].
  destruct (reachable_inv s0 n _ Hw Hr) as [_ Hc]. destruct Hfound as [V (g & l & Hg & Ex)].
  rewrite map_app in *. fold fs in Hg, Ex, V. set (ps := map fst (st_pending st)) in *.
  apply Forall_app in V as [V1 _]. split.
  - split; [done|]. rewrite length_app in Hg. rewrite <- (take_drop (length fs) g) in Ex.
    rewrite weave_app, <- app_assoc in Ex by (rewrite length_take; lia). eexists (take (length fs) g), _.
    split; [rewrite length_take; lia|]. rewrite app_nil_r. exact Ex.
  - eapply Forall_impl; [exact Hc|]. intros c (_ & C2 & C3 & _). by apply (whole_relayed _ (cn_start c)).
Qed.

Lemma turn_answers s0 n st us data post : wire s0 = [] -> station_ok s0 n st -> st_pending st = [] ->
  bytes data -> data <> [] -> zlen data < 4096 -> zlen (sy_hist (st_sys st)) + 8192 < 2 ^ 32 ->
  exists u frames posted, uart_turn us (inr data) post (st_uart st) = Some (u, frames, posted).
Proof.
  intros Hw [Hr Hrdy Hp Hu Hring Hpend Hfew Hfound] Hnil Hb Hne Hl Hh. rewrite Hnil in *. cbn [push_all fold_left] in Hring.
  pose proof (reachable_inv s0 n _ Hw Hr) as [Hok _]. unfold uart_turn.
  destruct (Z.eqb_spec (zlen data) 0) as [Ez|_]; [by apply zlen_0 in Ez|].
  destruct (chunk_spec us data (ua_ingest (st_uart st)) (sy_hist (st_sys st)))
    as (s' & woken & fs & d & e & -> & _); [|done|done|lia|by eexists _, _, _].
  unfold ingest_inv. rewrite Hring. by split_and!.
Qed.

Lemma stamped_deliverable r hist us now fs : ring_ok r hist -> Forall entry_ok (stamped us fs) ->
  zlen hist + zlen fs < 2 ^ 32 -> zlen fs <= RTCM_RING_SLOTS ->
  u32 (now - ntrip_now_ms us) <= NTRIP_TX_STALE_DROP_MS ->
  deliverable (push_all r (stamped us fs)) (hist ++ stamped us fs) now NTRIP_TX_STALE_DROP_MS (zlen hist).
Proof.
  intros Hok He Hl H16 Hage. assert (Hz : zlen (stamped us fs) = zlen fs) by (unfold stamped, zlen; by rewrite length_map).
  assert (Hok' : ring_ok (push_all r (stamped us fs)) (hist ++ stamped us fs)) by (apply push_all_ok; [done|done|lia]).
  pose proof (zlen_nonneg hist). pose proof (zlen_nonneg fs). split; [done|]. split.
  - destruct Hok' as (_ & _ & _ & _ & Hn & _). unfold ring_oldest_seq, RTCM_RING_SLOTS in *. rewrite Hn, zlen_app, Hz.
    case_if; lia.
  - intros k Hk. unfold is_stale, entry_at. rewrite lookup_app_r by (unfold zlen in *; lia).
    rewrite zlen_app, Hz in Hk.
    destruct (lookup_lt_is_Some_2 (stamped us fs) (Z.to_nat k - length hist)%nat) as [x Ex]; [unfold zlen in *; lia|].
    rewrite Ex. cbn [default]. unfold stamped in Ex. rewrite list_lookup_fmap in Ex.
    apply fmap_Some in Ex as (f & _ & ->). cbn [id snd]. rewrite (proj2 (Z.ltb_ge _ _) Hage). apply andb_false_r.
Qed.

(** C7: a chunk gets through.  When the receiver's bytes of a turn complete at most
    sixteen frames, a connection that had nothing left to send and whose socket takes
    what it is offered sends exactly these frames, in order and whole, in its next turn of
    the drain loop if that comes within two seconds, and stays connected. *)
Theorem frame_reaches_caster (taking : S -> Prop) u s0 n st us data post i c d now now2 :
  (forall s b, taking s -> exists s' err, send s b = (s', zlen b, err) /\ taking s') ->
  wire s0 = [] -> station_reachable u s0 n st -> st_pending st = [] ->
  bytes data -> data <> [] -> zlen data < 4096 -> zlen (sy_hist (st_sys st)) + 8192 < 2 ^ 32 ->
  sy_conns (st_sys st) !! i = Some c ->
  tx_cursor_seq (cn_tx c) = zlen (sy_hist (st_sys st)) -> tx_current_len (cn_tx c) <= tx_current_off (cn_tx c) ->
  ni_tx (ds_inst d) = cn_tx c -> ds_sock d = cn_sock c -> taking (ds_sock d) ->
  u32 (now - ntrip_now_ms us) <= NTRIP_TX_STALE_DROP_MS ->
  let fs := turn_frames (st_uart st) data in zlen fs <= RTCM_RING_SLOTS ->
  exists u' frames posted d',
    uart_turn us (inr data) post (st_uart st) = Some (u', frames, posted) /\
    drain_turn (mk_turn (fun _ => in_ring (ua_ingest u')) now now2 (Failed EAGAIN)) d = (d', true) /\
    wire (ds_sock d') = wire (ds_sock d) ++ concat fs.
Proof.
  intros Htake Hw R Hnil Hb Hne Hl Hh Hi Hcur Hoff Etx Es Hs Hage fs H16.
  pose proof (station_reachable_ok u s0 n st Hw R) as K.
  destruct (turn_answers s0 n st us data post Hw K Hnil Hb Hne Hl Hh) as (u' & frames & posted & E).
  pose proof (read_turn_ok s0 n st us data post u' frames posted Hw K Hnil Hb Hne Hl Hh E) as [_ _ _ _ Hring Hpend Hfew _].
  cbn [st_uart st_pending st_sys] in *. fold fs in Hring, Hpend, Hfew.
  destruct (reachable_inv s0 n _ Hw (sk_reach _ _ _ K)) as [Hok Hc].
  destruct (Forall_lookup_1 _ _ _ _ Hc Hi) as (Htx & _).
  set (hist := sy_hist (st_sys st)) in *. set (es := stamped us fs) in *.
  assert (Hz : zlen es = zlen fs) by (unfold es, stamped, zlen; by rewrite length_map).
  pose proof (stamped_deliverable _ hist us now fs Hok Hpend ltac:(lia) H16 Hage) as Hd. fold es in Hd.
  exists u', frames, posted. unfold drain_turn. cbn [te_rings te_now te_now2 te_probe]. rewrite Hring.
  set (d0 := mk_drain _ (ds_sock d) _ _).
  destruct (spins_full taking Htake (push_all (sy_ring (st_sys st)) es) (hist ++ es) now (NTRIP_DRAIN_MAX_SPINS - 1) d0 (zlen hist))
    as (d' & -> & (_ & Hcu & Hoff') & Hp & _ & Hwire); try done.
  { split_and!; cbn [d0 ds_inst ni_tx upd set_ni_notified]; rewrite Etx; [by apply tx_ok_app|done|done]. }
  { apply zlen_nonneg. }
  { rewrite zlen_app, Hz. unfold RTCM_RING_SLOTS in H16. change (Z.of_nat (NTRIP_DRAIN_MAX_SPINS - 1)) with 63. lia. }
  unfold ntrip_tx_stalled, ntrip_tx_frame_overdue. replace (tx_current_len _ <=? tx_current_off _) with true by lia.
  assert (Hfr : frames_from (hist ++ es) (zlen hist) (zlen (hist ++ es) - zlen hist) = concat fs).
  { unfold frames_from. rewrite zdrop_app_exact, zlen_app, ztake_ge by lia. unfold es. by rewrite stamped_fst. }
  rewrite Hfr in Hwire. cbn [ntrip_server_probe_socket]. rewrite Z.eqb_refl, orb_true_r.
  case_if; eexists; split_and!; done.
Qed.
End Station.

(** ** A station with one caster *)

Definition demo_uart : uart_t := mk_uart 0 0 (stats_zero []) (gnss_boot msgs_boot (sup_boot 0)) demo_ingest.
Definition demo_sink : script_sock := ([], []).
Definition demo_idle : @station script_sock := station_boot demo_uart demo_sink 1.
Definition demo_connected : @station script_sock :=
  let y := st_sys demo_idle in
  mk_station (st_uart demo_idle) []
    (NtripTx.mk_sys (sy_ring y) (sy_hist y)
       [mk_conn (ntrip_tx_reset_conn ntrip_tx_init (sy_ring y) 4000) demo_sink (r_next_seq (sy_ring y)) true]) [].

Definition demo_read : list Z := [1; 2] ++ frame_1005 ++ ztake 4 frame_1005.
Definition demo_after : uart_t :=
  match uart_turn 5000000 (inr demo_read) ESP_OK (st_uart demo_connected) with
  | Some (u, _, _) => u
  | None => demo_uart
  end.
Lemma demo_connected_reachable : station_reachable demo_uart demo_sink 1 demo_connected.
Proof.
  eapply station_next; [apply station_start|].
  apply (st_sender demo_idle (st_sys demo_connected)); [|reflexivity].
  by apply (step_connect (st_sys demo_idle) 0 (mk_conn ntrip_tx_init demo_sink 0 false) demo_sink 4000).
Qed.

Definition demo_taken : @station script_sock :=
  mk_station demo_after [(frame_1005, 5000)] (st_sys demo_connected) demo_read.

Lemma demo_frames : turn_frames (st_uart demo_connected) demo_read = [frame_1005].
Proof. vm_compute. reflexivity. Qed.

Lemma demo_turn : uart_turn 5000000 (inr demo_read) ESP_OK (st_uart demo_connected) = Some (demo_after, true, Some demo_read).
Proof. vm_compute. reflexivity. Qed.

Lemma demo_taken_reachable : station_reachable demo_uart demo_sink 1 demo_taken.
Proof.
  eapply station_next; [exact demo_connected_reachable|].
  pose proof (st_turn demo_connected 5000000 (inr demo_read) ESP_OK demo_after true (Some demo_read)
    eq_refl ltac:(by apply bytesb_bytes) eq_refl eq_refl demo_turn) as P.
  cbn [read_bytes] in P. rewrite demo_frames in P. exact P.
Qed.

Definition demo_pushed : @station script_sock :=
  let y := st_sys demo_taken in
  mk_station (st_uart demo_taken) []
    (NtripTx.mk_sys (ntrip_ring_push (sy_ring y) frame_1005 (zlen frame_1005) 5000) (sy_hist y ++ [(frame_1005, 5000)]) (sy_conns y))
    (st_rx demo_taken).

Lemma demo_pushed_reachable : station_reachable demo_uart demo_sink 1 demo_pushed.
Proof. eapply station_next; [exact demo_taken_reachable|]. exact (st_push demo_taken frame_1005 5000 [] eq_refl). Qed.

Definition demo_caster : @conn script_sock :=
  mk_conn (ntrip_tx_reset_conn ntrip_tx_init (sy_ring (st_sys demo_idle)) 4000) demo_sink (r_next_seq (sy_ring (st_sys demo_idle))) true.
Definition demo_round : ntrip_tx_t * script_sock * round_result :=
  tx_round (cn_tx demo_caster) (sy_ring (st_sys demo_pushed)) 5010 2000 (cn_sock demo_caster).
Definition demo_sent : @station script_sock :=
  let y := st_sys demo_pushed in
  mk_station (st_uart demo_pushed) (st_pending demo_pushed)
    (NtripTx.mk_sys (sy_ring y) (sy_hist y) (<[0%nat := mk_conn demo_round.1.1 demo_round.1.2 (cn_start demo_caster)
       (match demo_round.2 with R_error => false | _ => true end)]> (sy_conns y))) (st_rx demo_pushed).

Lemma demo_sent_reachable : station_reachable demo_uart demo_sink 1 demo_sent.
Proof.
  eapply station_next; [exact demo_pushed_reachable|].
  refine (st_sender demo_pushed (st_sys demo_sent) (step_round (st_sys demo_pushed) 0 demo_caster 5010 2000
    demo_round.1.1 demo_round.1.2 demo_round.2 eq_refl eq_refl _) eq_refl).
  unfold demo_round. by destruct (tx_round _ _ _ _ _) as [[tx s] res].
Qed.

Lemma casters_get_receiver_frames_witness :
  found_in [frame_1005] demo_read [] /\ relayed [frame_1005] frame_1005.
Proof.
  destruct (casters_get_receiver_frames (SenderOk0 := script_sender_ok) demo_uart demo_sink 1 demo_sent eq_refl demo_sent_reachable) as [F W].
  split; [exact F|]. apply (Forall_lookup_1 _ _ 0 (mk_conn demo_round.1.1 demo_round.1.2 0 true)) in W; [|vm_compute; reflexivity].
  replace (wire (SenderOk := script_sender_ok) (cn_sock (mk_conn demo_round.1.1 demo_round.1.2 0 true))) with frame_1005 in W
    by (vm_compute; reflexivity).
  exact W.
Defined.

Lemma frame_reaches_caster_witness :
  exists u' frames posted d',
    uart_turn 5000000 (inr demo_read) ESP_OK (st_uart demo_connected) = Some (u', frames, posted) /\
    drain_turn (mk_turn (fun _ => in_ring (ua_ingest u')) 5010 5020 (Failed EAGAIN))
      (mk_drain (demo_inst <| ni_tx := cn_tx demo_caster |>) demo_sink false 5000) = (d', true) /\
    wire (ds_sock d') = frame_1005.
Proof.
  destruct (frame_reaches_caster (SenderOk0 := script_sender_ok) (fun s : script_sock => s.2 = []) demo_uart demo_sink 1 demo_connected 5000000 demo_read ESP_OK
    0 demo_caster (mk_drain (demo_inst <| ni_tx := cn_tx demo_caster |>) demo_sink false 5000) 5010 5020)
    as (u' & frames & posted & d' & E & D & W); try reflexivity.
  - intros [w l] b Hs. cbn in Hs. subst l. eexists _, _. split; reflexivity.
  - exact demo_connected_reachable.
  - by apply bytesb_bytes.
  - discriminate.
  - vm_compute. discriminate.
  - vm_compute. discriminate.
  - rewrite demo_frames in W. exists u', frames, posted, d'. split; [exact E|]. split; [exact D|exact W].
Defined.
