(* ===== verification/Json.v ===== *)
(** * JSON documents

    cJSON is a library.  What the handlers ask of a parsed document is the class
    [Json]; [js] are the documents they build, and, with [js_json], the instance the
    handlers are evaluated with. *)

From S2P Require Import Prelude NetUtil Doubles.

(** A field of an object; the value of a string, a number ([valueint],
    [valuedouble]), a boolean, an array; whether it is an object; the parser. *)
Class Json (J : Type) := {
  js_item : J -> string -> option J;
  js_string : J -> option (list Z);
  js_number : J -> option (Z * double);
  js_bool : J -> option bool;
  js_array : J -> option (list J);
  js_object : J -> bool;
  js_parse : list Z -> option J
}.

Definition fld {J A} `{Json J} (get : J -> option A) (j : J) (key : string) : option A :=
  match js_item j key with Some x => get x | None => None end.
Definition obj {J} `{Json J} (j : J) (key : string) : option J :=
  match js_item j key with Some x => if js_object x then Some x else None | None => None end.

Inductive js :=
  | JNull
  | JBool (b : bool)
  | JReal (x : double)
  | JNum (v : Z)
  | JStr (s : list Z)
  | JArr (l : list js)
  | JObj (l : list (string * js)).

(** Keys are compared without case, the first match counts. *)
Definition key_eqb (a b : string) : bool := bytes_eqb (map tolower (of_str a)) (map tolower (of_str b)).
Fixpoint assoc {A} (key : string) (l : list (string * A)) : option A :=
  match l with
  | [] => None
  | (k, v) :: l => if key_eqb k key then Some v else assoc key l
  end.

Definition js_json (parse : list Z -> option js) : Json js := {|
  js_item j key := match j with JObj l => assoc key l | _ => None end;
  js_string j := match j with JStr s => Some s | _ => None end;
  js_number j := match j with JNum v => Some (v, dZ v) | JReal x => Some (truncated x, x) | _ => None end;
  js_bool j := match j with JBool b => Some b | _ => None end;
  js_array j := match j with JArr l => Some l | _ => None end;
  js_object j := match j with JObj _ => true | _ => false end;
  js_parse := parse
|}.

(** A document whose keys differ by more than case holds every pair it was built
    from. *)
Lemma assoc_in {A} (l : list (string * A)) k v :
  NoDup (map (fun kv => map tolower (of_str kv.1)) l) -> In (k, v) l -> assoc k l = Some v.
Proof.
  induction l as [|[k' v'] l IH]; [done|]. cbn [map fst assoc]. intros [Hn Hd]%NoDup_cons [[= -> ->]|Hin].
  - unfold key_eqb. by rewrite bytes_eqb_refl.
  - unfold key_eqb. destruct (bytes_eqb _ _) eqn:E; [|by apply IH].
    exfalso. apply Hn. apply bytes_eqb_eq in E. rewrite E. apply list_elem_of_In.
    apply (in_map (fun kv : string * A => map tolower (of_str kv.1)) l (k, v) Hin).
Qed.
