(* ===== verification/StrNum.v ===== *)
(** * Numbers in C strings

    [strtol] and [strtoul] of the C library on the ESP32, where [long] has 32 bits:
    the value and whether [errno] is set.  A string is the bytes before its
    terminator. *)

From S2P Require Import Prelude NetUtil Doubles Telemetry.

Definition LONG_MAX : Z := 2 ^ 31 - 1.
Definition LONG_MIN : Z := - 2 ^ 31.
Definition ULONG_MAX : Z := 2 ^ 32 - 1.

Definition digit_value (c : Z) : Z :=
  if (48 <=? c) && (c <=? 57) then c - 48
  else if (97 <=? c) && (c <=? 122) then c - 87
  else if (65 <=? c) && (c <=? 90) then c - 55 else 99.

(** The digits at the front, added to [acc]. *)
Fixpoint str_digits (base : Z) (s : list Z) (acc : Z) : Z :=
  match s with
  | c :: s' => if digit_value c <? base then str_digits base s' (acc * base + digit_value c) else acc
  | [] => acc
  end.

(** The optional [0x], when a digit follows. *)
Definition skip_0x (base : Z) (s : list Z) : list Z :=
  match s with
  | 48 :: x :: d :: s' =>
    if (base =? 16) && (tolower x =? 120) && (digit_value d <? 16) then d :: s' else s
  | _ => s
  end.

(** Sign and magnitude. *)
Definition str_magnitude (base : Z) (s : list Z) : bool * Z :=
  match trim_left s with
  | 45 :: s => (true, str_digits base (skip_0x base s) 0)
  | 43 :: s => (false, str_digits base (skip_0x base s) 0)
  | s => (false, str_digits base (skip_0x base s) 0)
  end.

Definition strtol (s : list Z) (base : Z) : Z * bool :=
  let '(neg, m) := str_magnitude base s in
  let v := if neg then - m else m in
  if v <? LONG_MIN then (LONG_MIN, true)
  else if LONG_MAX <? v then (LONG_MAX, true)
  else (v, false).

Definition strtoul (s : list Z) (base : Z) : Z * bool :=
  let '(neg, m) := str_magnitude base s in
  if ULONG_MAX <? m then (ULONG_MAX, true)
  else (if neg then u32 (- m) else m, false).

(** [printf]'s [%lld]. *)
Definition decimal_signed (v : Z) : list Z := if v <? 0 then 45 :: decimal (- v) else decimal v.

(** ** Printing and reading back *)

Lemma str_digits_app base a b acc :
  Forall (fun c => digit_value c < base) a -> str_digits base (a ++ b) acc = str_digits base b (str_digits base a acc).
Proof.
  revert acc. induction a as [|c a IH]; intros acc Ha; [done|]. apply Forall_cons in Ha as [Hc Ha].
  cbn [app str_digits]. replace (digit_value c <? base) with true by lia. by apply IH.
Qed.

Lemma digit_char d : 0 <= d < 10 -> digit_value (48 + d) = d.
Proof. intros. unfold digit_value. replace (48 <=? 48 + d) with true by lia. replace (48 + d <=? 57) with true by lia. cbn. lia. Qed.

Lemma dec_digits_app fuel : forall n acc, dec_digits fuel n acc = dec_digits fuel n [] ++ acc.
Proof.
  induction fuel as [|fuel IH]; intros n acc; [done|]. cbn [dec_digits].
  destruct (n / 10 =? 0); [done|]. rewrite IH, (IH _ [_]). by rewrite <- app_assoc.
Qed.

Lemma dec_digits_spec fuel : forall n, 0 <= n < 2 ^ Z.of_nat fuel ->
  Forall (fun c => 48 <= c <= 57) (dec_digits fuel n []) /\ str_digits 10 (dec_digits fuel n []) 0 = n.
Proof.
  induction fuel as [|fuel IH]; intros n Hn.
  { cbn in *. split; [by apply Forall_nil|lia]. }
  cbn [dec_digits]. pose proof (Z.mod_pos_bound n 10 ltac:(lia)).
  pose proof (Z.div_mod n 10 ltac:(lia)) as D.
  destruct (Z.eqb_spec (n / 10) 0) as [E|E].
  - split; [apply Forall_cons; split; [lia|by apply Forall_nil]|]. cbn [str_digits].
    rewrite digit_char by lia. replace (n mod 10 <? 10) with true by lia. lia.
  - rewrite dec_digits_app.
    assert (Hq : 0 <= n / 10 < 2 ^ Z.of_nat fuel).
    { rewrite Nat2Z.inj_succ, Z.pow_succ_r in Hn by lia. split; [apply Z.div_pos; lia|].
      apply Z.div_lt_upper_bound; lia. }
    destruct (IH (n / 10) Hq) as [I1 I2]. split.
    + apply Forall_app. split; [done|]. apply Forall_cons. split; [lia|by apply Forall_nil].
    + rewrite str_digits_app.
      * rewrite I2. cbn [str_digits]. rewrite digit_char by lia. replace (n mod 10 <? 10) with true by lia. lia.
      * eapply Forall_impl; [exact I1|]. cbn. intros c Hc. replace c with (48 + (c - 48)) by lia. rewrite digit_char; lia.
Qed.

Lemma decimal_spec n : 0 <= n ->
  Forall (fun c => 48 <= c <= 57) (decimal n) /\ str_digits 10 (decimal n) 0 = n /\ decimal n <> [].
Proof.
  intros Hn. unfold decimal.
  assert (B : 0 <= n < 2 ^ Z.of_nat (S (Z.to_nat (Z.log2 n)))).
  { split; [done|]. pose proof (Z.log2_nonneg n). rewrite Nat2Z.inj_succ, Z2Nat.id by done.
    destruct (decide (n = 0)) as [->|]; [done|]. apply Z.log2_spec. lia. }
  destruct (dec_digits_spec _ n B) as [D1 D2]. split_and!; [done..|].
  cbn [dec_digits]. destruct (n / 10 =? 0); [done|]. rewrite dec_digits_app. intros [_ E]%app_eq_nil. done.
Qed.

Lemma magnitude_digits base s : (exists c s', s = c :: s' /\ 48 <= c <= 57) -> base = 10 ->
  str_magnitude base s = (false, str_digits base s 0).
Proof.
  intros (c & s' & -> & Hc) ->. unfold str_magnitude. cbn [trim_left]. unfold isspace.
  replace ((9 <=? c) && (c <=? 13) || (c =? 32)) with false by lia.
  assert (skip_0x 10 (c :: s') = c :: s') as E.
  { unfold skip_0x. repeat case_match; done. }
  destruct (decide (c = 45)); [lia|]. destruct (decide (c = 43)); [lia|].
  repeat case_match; try lia; by rewrite E.
Qed.

Lemma decimal_cons n : 0 <= n -> exists c s', decimal n = c :: s' /\ 48 <= c <= 57.
Proof.
  intros (D1 & _ & D3)%decimal_spec. destruct (decimal n) as [|c s']; [done|].
  exists c, s'. apply Forall_cons in D1 as [? _]. done.
Qed.

(** A number beyond the width of [unsigned long] reads as the largest. *)
Lemma strtoul_decimal_sat n : 0 <= n -> fst (strtoul (decimal n) 10) = Z.min n ULONG_MAX.
Proof.
  intros Hn. unfold strtoul. rewrite magnitude_digits; [|by apply decimal_cons|done].
  destruct (decimal_spec n Hn) as (_ & -> & _). unfold ULONG_MAX.
  destruct (Z.ltb_spec (2 ^ 32 - 1) n); cbn [fst]; lia.
Qed.

Lemma strtoul_decimal n : 0 <= n < 2 ^ 32 -> strtoul (decimal n) 10 = (n, false).
Proof.
  intros Hn. unfold strtoul. rewrite magnitude_digits; [|apply decimal_cons; lia|done].
  destruct (decimal_spec n ltac:(lia)) as (_ & -> & _). unfold ULONG_MAX. by replace (2 ^ 32 - 1 <? n) with false by lia.
Qed.

Lemma strtol_decimal n : - 2 ^ 31 <= n < 2 ^ 31 -> strtol (decimal_signed n) 10 = (n, false).
Proof.
  intros Hn. unfold strtol, decimal_signed, LONG_MIN, LONG_MAX. destruct (Z.ltb_spec n 0).
  - unfold str_magnitude. cbn [trim_left]. change (isspace 45) with false. cbn iota.
    assert (E : skip_0x 10 (decimal (- n)) = decimal (- n)) by (unfold skip_0x; repeat case_match; done).
    rewrite E. destruct (decimal_spec (- n) ltac:(lia)) as (_ & -> & _).
    replace (- - n <? - 2 ^ 31) with false by lia. replace (2 ^ 31 - 1 <? - - n) with false by lia. f_equal. lia.
  - rewrite magnitude_digits; [|apply decimal_cons; lia|done].
    destruct (decimal_spec n ltac:(lia)) as (_ & -> & _).
    replace (n <? - 2 ^ 31) with false by lia. by replace (2 ^ 31 - 1 <? n) with false by lia.
Qed.

(** Zero is the only number printed as ["0"]. *)
Lemma decimal_zero n : 0 <= n -> decimal n = [48] -> n = 0.
Proof. intros Hn E. destruct (decimal_spec n Hn) as (_ & D & _). rewrite E in D. by vm_compute in D. Qed.
