(* ===== verification/Provisioning.v ===== *)
(** * Provisioning client (src/main/provisioning.c)

    Enrolment, heartbeats and what their replies change: the stored caster
    settings, token and state, the receiver's fixed base, and the connections that
    are told to reconnect.  JSON documents are the interface [Json] (cJSON), HMAC
    is an argument, the HTTP client is its answers.  [alloc] says whether the
    buffers for stored strings can be allocated.  The console line of an enrolment
    is left out. *)

From S2P Require Import Prelude Supervisor Ingest NtripServer Nvs Config Doubles Gnss Telemetry Json.

Definition DEFAULT_POLL_S : Z := 30.
Definition MIN_POLL_S : Z := 10.
Definition RTK_UNCLAIMED : Z := 0.
Definition RTK_PROVISIONING : Z := 1.
Definition RTK_MATURING : Z := 2.
Definition RTK_ACTIVE : Z := 3.

(** ** State *)

Record status_t := mk_status {
  st_state : list Z;         (* char[16] *)
  st_progress_pct : Z;
  st_matures_in_s : Z;
  st_station_id : list Z;    (* char[40] *)
  st_q_sats : Z;
  st_q_fix : Z;
  st_pos : option gnss_base_fix_t;   (* pos_valid, pos_lat, pos_lon, pos_h *)
  st_enrolled : bool
}.

Record prov_t := mk_prov {
  pv_device_id : list Z;     (* char[40] *)
  pv_mac : list Z;           (* char[18] *)
  pv_ie_host : list Z;       (* char[96] *)
  pv_token : list Z;         (* char[96] *)
  pv_enroll_key : list Z;    (* char[80] *)
  pv_key_ver : Z;            (* uint8_t *)
  pv_poll_s : Z;
  pv_fixed_base_set : bool;
  pv_st : status_t
}.

Definition status_zero : status_t := mk_status [] 0 0 [] 0 0 None false.
Definition prov_static : prov_t := mk_prov [] [] [] [] [] 1 DEFAULT_POLL_S false status_zero.

(** [strlcpy] and [snprintf] into [char dst[size]]. *)
Definition cut (size : Z) (s : list Z) : list Z := ztake (size - 1) s.

(** The task started at the end is [provisioning_task]. *)
Definition provisioning_init (p : prov_t) : prov_t :=
  mk_prov (pv_device_id p) (pv_mac p) (pv_ie_host p) (pv_token p) (pv_enroll_key p) (pv_key_ver p) (pv_poll_s p)
    (pv_fixed_base_set p) (mk_status (cut 16 (of_str "provisioning")) 0 0 [] 0 0 None false).
Definition prov_boot : prov_t := provisioning_init prov_static.

(** ** HTTP *)

Record http_env := mk_http {
  hp_init : bool;
  hp_open : Z;
  hp_write : Z;
  hp_clen : Z;
  hp_status : Z;
  hp_malloc : bool;
  hp_body : list Z;          (* what the server sends *)
  hp_sizes : list Z;         (* how much each read delivers at most, until it ends *)
  hp_realloc : Z -> bool     (* growing to this size succeeds *)
}.

(** The reading loop with a buffer of [cap] bytes that holds [resp]. *)
Fixpoint http_read_loop (sizes body resp : list Z) (cap : Z) (realloc : Z -> bool) : option (list Z) :=
  let grow := cap <=? zlen resp + 1 in
  if grow && negb (realloc (cap * 2)) then None
  else
    let cap := if grow then cap * 2 else cap in
    match sizes with
    | [] => Some resp
    | s :: sizes =>
      let data := ztake (Z.min s (cap - zlen resp - 1)) body in
      if zlen data =? 0 then Some resp
      else http_read_loop sizes (zdrop (zlen data) body) (resp ++ data) cap realloc
    end.

(** [http_post_json]: the response and [*out_status] (0 before the call). *)
Definition http_post_json (h : http_env) : option (list Z) * Z :=
  if negb (hp_init h) then (None, 0)
  else if is_ok (hp_open h) && (0 <=? hp_write h) then
    let cap := if 0 <? hp_clen h then hp_clen h + 1 else 512 in
    (if hp_malloc h then http_read_loop (hp_sizes h) (hp_body h) [] cap (hp_realloc h) else None,
     hp_status h)
  else (None, 0).

(** ** Texts *)

Definition lower_digit (v : Z) : Z := if v <? 10 then 48 + v else 87 + v.
Definition upper_digit (v : Z) : Z := if v <? 10 then 48 + v else 55 + v.
Definition hex2_of (digit : Z -> Z) (b : Z) : list Z := [digit (b / 16); digit (b mod 16)].

Definition quote (s : list Z) : list Z := [34] ++ s ++ [34].
Definition PIPE : list Z := [124].

(** [hmac_sha256_hex]; [hmac] is mbedtls's digest, [None] when it fails. *)
Definition hmac_sha256_hex (hmac : list Z -> list Z -> option (list Z)) (key msg : list Z) : list Z :=
  match hmac key msg with
  | Some mac => concat (map (hex2_of lower_digit) mac)
  | None => []
  end.

Definition https (host path : list Z) : list Z := cut 160 (of_str "https://" ++ host ++ path).

Definition enroll_canon (p : prov_t) (nonce : Z) : list Z :=
  cut 256 (pv_device_id p ++ PIPE ++ pv_mac p ++ PIPE ++ OtaState.FW_VERSION ++ PIPE ++
           of_str "um980" ++ PIPE ++ decimal nonce).

Definition enroll_body (p : prov_t) (nonce : Z) (hmac : list Z) : list Z :=
  cut 512 ([123] ++ members [
    member "device_id" (quote (pv_device_id p));
    member "mac" (quote (pv_mac p));
    member "fw_version" (quote OtaState.FW_VERSION);
    member "hw" (quote (of_str "um980"));
    member "nonce" (decimal nonce);
    member "key_version" (decimal (pv_key_ver p));
    member "hmac" (quote hmac)
  ] ++ [125]).

Definition beat_canon (p : prov_t) (h : supervisor_health_t) (nonce : Z) : list Z :=
  cut 160 (pv_device_id p ++ PIPE ++ decimal (h_uptime_s h) ++ PIPE ++ decimal nonce).

(** The heartbeat before the check of its length. *)
Definition beat_body (p : prov_t) (h : supervisor_health_t) (tx : option (list Z)) (nonce : Z)
    (hmac : list Z) : list Z :=
  [123] ++ members [
    member "device_id" (quote (pv_device_id p));
    member "station_token" (quote (pv_token p));
    member "uptime" (decimal (h_uptime_s h));
    member "health" ([123] ++ members ([
      member "fw" (quote OtaState.FW_VERSION);
      member "gnss_silent_s" (decimal (h_gnss_silent_s h));
      member "caster_silent_s" (decimal (h_caster_silent_s h));
      member "ip_down_s" (decimal (h_ip_down_s h));
      member "gnss_ok" (json_bool (h_gnss_ok h));
      member "caster_ok" (json_bool (h_caster_ok h));
      member "link_ok" (json_bool (h_link_ok h));
      member "rec_gnss" (decimal (h_recoveries_gnss h));
      member "rec_caster" (decimal (h_recoveries_caster h));
      member "rec_wifi" (decimal (h_recoveries_wifi h));
      member "reboots" (decimal (h_reboots_supervised h))
    ] ++ match tx with Some t => [t] | None => [] end) ++ [125]);
    member "nonce" (decimal nonce);
    member "hmac" (quote hmac)
  ] ++ [125].

Definition BODY_MAX : Z := 1536.

(** ** Stored settings *)

Section Store.
Context `{Nvs St} {J : Type} `{Json J}.

(** The string of an item, when it could be read into a new buffer. *)
Definition get_str (alloc : bool) (key : string) (n : St) : option (list Z) :=
  (config_get_str_blob_alloc alloc (conf key) n).2.

Definition set_str (key : string) (val : option (list Z)) (n : St) : St :=
  match val with Some v => (config_set_str key v n).2 | None => n end.

Definition write_caster_creds (caster : J) (n : St) : St :=
  let n := set_str "ntr_srv_host" (fld js_string caster "host") n in
  let n := match fld js_number caster "port" with
           | Some (v, _) => (nvs_set_int U16 STORAGE "ntr_srv_port" (u16 v) n).2
           | None => n
           end in
  let n := set_str "ntr_srv_mp" (fld js_string caster "mountpoint") n in
  let n := set_str "ntr_srv_user" (fld js_string caster "username") n in
  let n := set_str "ntr_srv_pass" (fld js_string caster "password") n in
  let n := (config_set_bool1 "ntr_srv_actv" 1 n).2 in
  (config_commit n).2.

(** One comparison of [caster_creds_differ]: the field is a string other than the
    stored one. *)
Definition str_differs (alloc : bool) (key : string) (val : option (list Z)) (n : St) : bool :=
  match val with
  | Some v => match get_str alloc key n with Some cur => negb (bytes_eqb cur v) | None => true end
  | None => false
  end.

Definition caster_creds_differ (alloc : bool) (caster : J) (n : St) : bool :=
  str_differs alloc "ntr_srv_host" (fld js_string caster "host") n ||
  str_differs alloc "ntr_srv_mp" (fld js_string caster "mountpoint") n ||
  str_differs alloc "ntr_srv_user" (fld js_string caster "username") n ||
  str_differs alloc "ntr_srv_pass" (fld js_string caster "password") n ||
  match fld js_number caster "port" with
  | Some (v, _) => negb (config_get_u16 (conf "ntr_srv_port") n =? u16 v)
  | None => false
  end.

Definition DEFAULT_HOST : list Z := Eval compute in of_str "integrity-engine.onrender.com".

(** The value, when there is one and it is not empty. *)
Definition non_empty (s : option (list Z)) : option (list Z) :=
  match s with Some [] => None | _ => s end.

Definition load_identity (alloc : bool) (mac : list Z) (p : prov_t) (n : St) : prov_t * St :=
  let s_mac := cut 18 (match map (hex2_of upper_digit) mac with
                       | x :: l => x ++ concat (map (fun h => [58] ++ h) l)
                       | [] => []
                       end) in
  let '(device_id, n) :=
    match non_empty (get_str alloc "rtk_dev_id" n) with
    | Some dev => (cut 40 dev, n)
    | None =>
      let d := cut 40 (of_str "rtk-" ++ concat (map (hex2_of lower_digit) mac)) in
      let n := (config_set_str "rtk_dev_id" d n).2 in
      (d, (config_commit n).2)
    end in
  let host := cut 96 (default DEFAULT_HOST (non_empty (get_str alloc "rtk_ie_host" n))) in
  let token := match get_str alloc "rtk_sta_tok" n with Some t => cut 96 t | None => pv_token p end in
  let key := match get_str alloc "rtk_enr_key" n with Some k => cut 80 k | None => pv_enroll_key p end in
  let ver := config_get_u8 (conf "rtk_key_ver") n in
  (mk_prov device_id s_mac host token key (if ver =? 0 then 1 else ver) (pv_poll_s p)
           (pv_fixed_base_set p) (pv_st p), n).
End Store.

(** ** The system the client works on *)

Record prov_sys (St W : Type) := mk_ps {
  ps_p : prov_t;
  ps_gnss : gnss_sys St W;                 (* with the store *)
  ps_insts : list ntrip_instance_t
}.
Arguments mk_ps {St W}.
Arguments ps_p {St W}.
Arguments ps_gnss {St W}.
Arguments ps_insts {St W}.

Section Client.
Context `{Nvs St} `{Receiver W} {J : Type} `{Json J}.
Implicit Types s : prov_sys St W.

Definition ps_nvs s : St := y_nvs (ps_gnss s).
Definition on_nvs (f : St -> St) s : prov_sys St W :=
  mk_ps (ps_p s) (mk_sys (y_g (ps_gnss s)) (f (ps_nvs s)) (y_rx (ps_gnss s))) (ps_insts s).
Definition on_p (f : prov_t -> prov_t) s : prov_sys St W := mk_ps (f (ps_p s)) (ps_gnss s) (ps_insts s).
Definition reconnect_all s : prov_sys St W :=
  mk_ps (ps_p s) (ps_gnss s) (ntrip_server_reconnect_all (ps_insts s)).

Definition set_status (f : status_t -> status_t) (p : prov_t) : prov_t :=
  mk_prov (pv_device_id p) (pv_mac p) (pv_ie_host p) (pv_token p) (pv_enroll_key p) (pv_key_ver p)
    (pv_poll_s p) (pv_fixed_base_set p) (f (pv_st p)).

(** *** Enrolment *)

(** What an accepted reply changes. *)
Definition enroll_accept (root caster : J) (token : list Z) s : prov_sys St W :=
  let s := on_nvs (write_caster_creds caster) s in
  let token := cut 96 token in
  let s := on_nvs (fun n => (config_set_str "rtk_sta_tok" token n).2) s in
  let s := on_p (fun p =>
    let poll := match fld js_number root "ie_poll_s" with
                | Some (v, _) => if MIN_POLL_S <=? v then v else pv_poll_s p
                | None => pv_poll_s p
                end in
    mk_prov (pv_device_id p) (pv_mac p) (pv_ie_host p) token (pv_enroll_key p) (pv_key_ver p) poll
      (pv_fixed_base_set p) (pv_st p)) s in
  let s := on_nvs (fun n => (config_commit (nvs_set_int U8 STORAGE "rtk_state" RTK_PROVISIONING n).2).2) s in
  reconnect_all s.

(** [enroll]: the result, the request it made (address and body), the system. *)
Definition enroll (hmac : list Z -> list Z -> option (list Z)) (nonce : Z) (http : http_env) s
    : bool * option (list Z * list Z) * prov_sys St W :=
  let p := ps_p s in
  if zlen (pv_enroll_key p) =? 0 then (false, None, s)
  else
    let mac := hmac_sha256_hex hmac (pv_enroll_key p) (enroll_canon p nonce) in
    let req := Some (https (pv_ie_host p) (of_str "/api/edge/enroll"), enroll_body p nonce mac) in
    match http_post_json http with
    | (Some resp, status) =>
      if negb (status =? 200) then (false, req, s)
      else
        match js_parse resp with
        | None => (false, req, s)
        | Some root =>
          match obj root "caster", fld js_string root "station_token" with
          | Some caster, Some token => (true, req, enroll_accept root caster token s)
          | _, _ => (false, req, s)
          end
        end
    | (None, _) => (false, req, s)
    end.

(** *** Replies to the heartbeat *)

Definition ifsome {A} (o : option A) (d : A) : A := default d o.

Definition status_update (root : J) (st : status_t) : status_t :=
  let q := obj root "quality" in
  let qf key := match q with Some q => fld js_number q key | None => None end in
  mk_status
    (match fld js_string root "state" with Some v => cut 16 v | None => st_state st end)
    (match fld js_number root "progress_pct" with Some (v, _) => v | None => st_progress_pct st end)
    (match fld js_number root "matures_in_s" with Some (v, _) => v | None => st_matures_in_s st end)
    (match fld js_string root "station_id" with Some v => cut 40 v | None => st_station_id st end)
    (match qf "sats"%string with Some (v, _) => v | None => st_q_sats st end)
    (match qf "fix"%string with Some (v, _) => v | None => st_q_fix st end)
    (st_pos st) (st_enrolled st).

(** The position of a reply that is to be applied. *)
Definition reply_position (root : J) : option gnss_base_fix_t :=
  match obj root "position" with
  | None => None
  | Some pos =>
    match fld js_bool pos "valid", fld js_number pos "lat", fld js_number pos "lon", fld js_number pos "h" with
    | Some true, Some (_, la), Some (_, lo), Some (_, he) => Some (mk_fix la lo he)
    | _, _, _, _ => None
    end
  end.

Definition set_pos (c : gnss_base_fix_t) (st : status_t) : status_t :=
  mk_status (st_state st) (st_progress_pct st) (st_matures_in_s st) (st_station_id st) (st_q_sats st)
    (st_q_fix st) (Some c) (st_enrolled st).

Definition set_base_flag (b : bool) (p : prov_t) : prov_t :=
  mk_prov (pv_device_id p) (pv_mac p) (pv_ie_host p) (pv_token p) (pv_enroll_key p) (pv_key_ver p)
    (pv_poll_s p) b (pv_st p).

Definition reply_base (root : J) s : prov_sys St W :=
  match reply_position root with
  | None => s
  | Some c =>
    let s := on_p (set_status (set_pos c)) s in
    let '(y, ok) := gnss_set_fixed_base c (ps_gnss s) in
    mk_ps (set_base_flag ok (ps_p s)) y (ps_insts s)
  end.

Definition reply_caster (alloc : bool) (root : J) s : prov_sys St W :=
  match obj root "config_delta" with
  | None => s
  | Some delta =>
    match obj delta "caster" with
    | None => s
    | Some caster =>
      if caster_creds_differ alloc caster (ps_nvs s)
      then reconnect_all (on_nvs (write_caster_creds caster) s) else s
    end
  end.

Definition MATURING : list Z := Eval compute in of_str "maturing".
Definition ACTIVE : list Z := Eval compute in of_str "active".

Definition reply_state (root : J) s : prov_sys St W :=
  match fld js_string root "state" with
  | None => s
  | Some v =>
    let st := if bytes_eqb v MATURING then RTK_MATURING
              else if bytes_eqb v ACTIVE then RTK_ACTIVE else RTK_PROVISIONING in
    on_nvs (fun n => (config_commit (nvs_set_int U8 STORAGE "rtk_state" st n).2).2) s
  end.

Definition apply_reply (alloc : bool) (root : J) s : prov_sys St W :=
  let s := on_p (set_status (status_update root)) s in
  let s := reply_base root s in
  let s := reply_caster alloc root s in
  reply_state root s.

(** [heartbeat]: the request, or none when the body does not fit, and the system. *)
Definition heartbeat (hmac : list Z -> list Z -> option (list Z)) (alloc : bool) (nonce : Z)
    (h : supervisor_health_t) (totals : ntrip_tx_totals_t) (drops : Z) (http : http_env) s
    : option (list Z * list Z) * prov_sys St W :=
  let p := ps_p s in
  let mac := hmac_sha256_hex hmac (pv_token p) (beat_canon p h nonce) in
  let tx := telemetry_tx_json TELEMETRY_TX_JSON_MAX totals drops in
  let body := beat_body p h tx nonce mac in
  if (zlen body <=? 0) || (BODY_MAX <=? zlen body) then (None, s)
  else
    let req := Some (https (pv_ie_host p) (of_str "/api/edge/heartbeat"), body) in
    match http_post_json http with
    | (Some resp, status) =>
      if status =? 200 then
        match js_parse resp with
        | Some root => (req, apply_reply alloc root s)
        | None => (req, s)
        end
      else (req, s)
    | (None, _) => (req, s)
    end.

(** *** The task *)

(** After the address is there: identity and status. *)
Definition prov_start (alloc : bool) (mac : list Z) s : Z * prov_sys St W :=
  let '(p, n) := load_identity alloc mac (ps_p s) (ps_nvs s) in
  let s := on_nvs (fun _ => n) (on_p (fun _ => p) s) in
  let state := config_get_u8 (conf "rtk_state") n in
  (state, on_p (set_status (fun st =>
     mk_status (if RTK_MATURING <=? state then MATURING else of_str "provisioning")
       (st_progress_pct st) (st_matures_in_s st) (st_station_id st) (st_q_sats st) (st_q_fix st)
       (st_pos st) (RTK_PROVISIONING <=? state))) s).

(** [s_poll_s * 1000], in [int]; [None] when it does not fit, which the language leaves
    undefined. *)
Definition poll_ms (p : prov_t) : option Z :=
  if pv_poll_s p * 1000 <? 2 ^ 31 then Some (pv_poll_s p * 1000) else None.

(** One turn of the loop: the state, the milliseconds it hands to [pdMS_TO_TICKS], the
    system. *)
Definition prov_turn (hmac : list Z -> list Z -> option (list Z)) (alloc : bool) (nonce : Z)
    (h : supervisor_health_t) (totals : ntrip_tx_totals_t) (drops : Z) (http : http_env)
    (state : Z) s : Z * option Z * prov_sys St W :=
  if state <? RTK_PROVISIONING then
    let '(ok, _, s) := enroll hmac nonce http s in
    if ok then
      (RTK_PROVISIONING, poll_ms (ps_p s),
       on_p (set_status (fun st => mk_status (st_state st) (st_progress_pct st) (st_matures_in_s st)
              (st_station_id st) (st_q_sats st) (st_q_fix st) (st_pos st) true)) s)
    else (state, Some 15000, s)
  else
    let '(_, s) := heartbeat hmac alloc nonce h totals drops http s in
    (config_get_u8 (conf "rtk_state") (ps_nvs s), poll_ms (ps_p s), s).
End Client.

(** ** Specification *)

(** The store holds what the reply says of the caster. *)
Definition STR_FIELDS : list (string * string) :=
  [("ntr_srv_host", "host"); ("ntr_srv_mp", "mountpoint"); ("ntr_srv_user", "username");
   ("ntr_srv_pass", "password")]%string.

Definition caster_stored `{Nvs St} `{Json J} (caster : J) (n : St) : Prop :=
  (forall key field v, In (key, field) STR_FIELDS -> fld js_string caster field = Some v ->
     get_str true key n = Some v) /\
  (forall v d, fld js_number caster "port" = Some (v, d) ->
     config_get_u16 (conf "ntr_srv_port") n = u16 v).

Definition CASTER_KEYS : list string :=
  ["ntr_srv_host"; "ntr_srv_port"; "ntr_srv_mp"; "ntr_srv_user"; "ntr_srv_pass"; "ntr_srv_actv"]%string.

Section StoreLaws.
Context `{NvsLaws St} `{Json J}.
Implicit Types n : St.

Lemma get_str_agree alloc key n n' : nvs_agree STORAGE (ci_key (conf key)) n n' ->
  get_str alloc key n' = get_str alloc key n.
Proof. intros A. unfold get_str. destruct (agree_same_value _ _ _ A) as (_ & _ & S3). by rewrite S3. Qed.

Lemma get_or_agree ty key def n n' : nvs_agree STORAGE key n n' -> get_or ty key def n' = get_or ty key def n.
Proof. intros A. unfold get_or. by rewrite (agree_int _ _ _ _ _ A). Qed.

Lemma set_str_agree key val key' n : key <> key' -> nvs_agree STORAGE key' n (set_str key val n).
Proof. intros Hk. destruct val; [|done]. apply set_str_other. congruence. Qed.

Lemma set_str_reads key v n : ci_key (conf key) = key -> ci_type (conf key) = T_STRING ->
  get_str true key (set_str key (Some v) n) = Some v.
Proof.
  intros Hk Ht. unfold get_str, set_str. pose proof (str_read_back (conf key) v n Ht) as R.
  rewrite Hk in R. by rewrite R.
Qed.

Lemma set_int_agree ty key v key' n : key <> key' ->
  nvs_agree STORAGE key' n (nvs_set_int ty STORAGE key v n).2.
Proof. intros Hk. apply set_int_other. congruence. Qed.

Lemma get_or_set ty key v def n : nvs_in_range ty v -> get_or ty key def (nvs_set_int ty STORAGE key v n).2 = v.
Proof. intros R. unfold get_or. destruct (get_set_int ty STORAGE key v n R) as [_ ->]. done. Qed.

Lemma port_agree (val : option (Z * double)) key' n : "ntr_srv_port"%string <> key' ->
  nvs_agree STORAGE key' n (match val with
    | Some (v, _) => (nvs_set_int U16 STORAGE "ntr_srv_port" (u16 v) n).2
    | None => n
    end).
Proof. intros Hk. destruct val as [[v ?]|]; [|done]. by apply set_int_agree. Qed.

Lemma conf_key key : In key CASTER_KEYS -> ci_key (conf key) = key.
Proof. intros Hk. repeat (destruct Hk as [<- | Hk]; [reflexivity|]). done. Qed.

Lemma field_key key field : In (key, field) STR_FIELDS ->
  ci_key (conf key) = key /\ ci_type (conf key) = T_STRING /\ In key CASTER_KEYS.
Proof.
  intros Hk. repeat (destruct Hk as [[= <- <-] | Hk]; [split_and!; try done; cbn; tauto|]). done.
Qed.
End StoreLaws.

(** One write under a read of another key. *)
Ltac agree_tac := first [apply commit_agree | apply set_int_agree; done | apply set_str_agree; done | apply port_agree; done].
Ltac peel_str :=
  match goal with |- get_str true ?key ?m = _ =>
    match m with
    | (nvs_commit _ ?n).2 => rewrite (get_str_agree true key n m) by agree_tac
    | (nvs_set_int _ _ _ _ ?n).2 => rewrite (get_str_agree true key n m) by agree_tac
    | set_str _ _ ?n => rewrite (get_str_agree true key n m) by agree_tac
    | match fld js_number _ _ with Some _ => _ | None => ?n end =>
      rewrite (get_str_agree true key n m) by agree_tac
    end
  end.
Ltac peel_int :=
  match goal with |- get_or ?ty ?key ?d ?m = _ =>
    match m with
    | (nvs_commit _ ?n).2 => rewrite (get_or_agree ty key d n m) by agree_tac
    | set_str _ _ ?n => rewrite (get_or_agree ty key d n m) by agree_tac
    | (nvs_set_int _ _ _ _ ?n).2 => rewrite (get_or_agree ty key d n m) by agree_tac
    end
  end.

Section CasterStore.
Context `{NvsLaws St} `{Json J}.
Implicit Types n : St.

Lemma write_stores caster n : caster_stored caster (write_caster_creds caster n).
Proof.
  unfold write_caster_creds, config_commit, config_set_bool1. cbv zeta. split.
  - intros key field v Hk Hf.
    repeat (destruct Hk as [[= <- <-] | Hk]; [rewrite ?Hf|]); [| | | |done].
    all: repeat peel_str; by apply set_str_reads.
  - intros v d Hp. rewrite Hp. unfold config_get_u16. cbn [ci_key conf].
    change (ci_key (conf "ntr_srv_port")) with "ntr_srv_port"%string.
    repeat peel_int.
    apply get_or_set. cbn [nvs_in_range]. apply u16_range.
Qed.

Lemma write_activates caster n : config_get_bool1 (conf "ntr_srv_actv") (write_caster_creds caster n) = true.
Proof.
  unfold write_caster_creds, config_commit, config_set_bool1, config_get_bool1. cbv zeta.
  change (ci_key (conf "ntr_srv_actv")) with "ntr_srv_actv"%string.
  rewrite (get_or_agree _ _ _ _ _ (commit_agree STORAGE _ STORAGE _)), get_or_set; [done|cbn; lia].
Qed.

(** Writing touches the caster's keys only. *)
Lemma write_agree caster ns key n : ~ (ns = STORAGE /\ In key CASTER_KEYS) ->
  nvs_agree ns key n (write_caster_creds caster n).
Proof.
  intros Hk. unfold write_caster_creds, config_commit, config_set_bool1. cbv zeta.
  assert (Hn : forall k, In k CASTER_KEYS -> (STORAGE, k) <> (ns, key)).
  { intros k Hin E. apply Hk. by inversion E; subst. }
  assert (Hs : forall k o (m : St), In k CASTER_KEYS -> nvs_agree ns key m (set_str k o m)).
  { intros k [v|] m Hin; [|done]. by apply set_str_other, Hn. }
  etrans; [|apply commit_agree]. etrans; [|apply set_int_other, Hn; cbn; tauto].
  etrans; [|apply Hs; cbn; tauto]. etrans; [|apply Hs; cbn; tauto]. etrans; [|apply Hs; cbn; tauto].
  etrans; [apply (Hs "ntr_srv_host"%string (fld js_string caster "host")); cbn; tauto|].
  destruct (fld js_number caster "port") as [[v ?]|]; [|done]. apply set_int_other, Hn. cbn. tauto.
Qed.

Lemma stored_agree caster n n' : (forall key, In key CASTER_KEYS -> nvs_agree STORAGE key n n') ->
  caster_stored caster n -> caster_stored caster n'.
Proof.
  intros A [S1 S2]. split.
  - intros key field v Hk Hf. destruct (field_key _ _ Hk) as (Hc & _ & Hin).
    rewrite (get_str_agree true key n n'); [by eapply S1|]. rewrite Hc. by apply A.
  - intros v d Hp. rewrite <- (S2 v d Hp). apply get_or_agree, A. cbn. tauto.
Qed.

Lemma str_differs_spec key val n :
  str_differs true key val n = false <-> (forall v, val = Some v -> get_str true key n = Some v).
Proof.
  unfold str_differs. destruct val as [v|]; [|by split].
  destruct (get_str true key n) as [cur|]; [|by split; [|intros E; specialize (E v eq_refl)]].
  rewrite negb_false_iff, bytes_eqb_eq. split; [by intros -> ? [= ->]|]. intros E. by specialize (E v eq_refl) as [= ->].
Qed.

Lemma differ_spec caster n : caster_creds_differ true caster n = false <-> caster_stored caster n.
Proof.
  unfold caster_creds_differ, caster_stored. rewrite !orb_false_iff, !str_differs_spec.
  assert (P : match fld js_number caster "port" with
              | Some (v, _) => negb (config_get_u16 (conf "ntr_srv_port") n =? u16 v)
              | None => false
              end = false <->
              (forall v d, fld js_number caster "port" = Some (v, d) ->
                 config_get_u16 (conf "ntr_srv_port") n = u16 v)).
  { destruct (fld js_number caster "port") as [[v d]|]; [|by split].
    rewrite negb_false_iff, Z.eqb_eq. split; [by intros E ? ? [= <- <-]|]. intros E. by eapply E. }
  rewrite P. unfold STR_FIELDS. split.
  - intros [[[[A B] C] D] E]. split; [|done]. intros key field v Hk Hf.
    repeat (destruct Hk as [[= <- <-] | Hk]; [auto|]). done.
  - intros [A B]. split_and!; [| | | |done]; intros v Hv; eapply A; try done; cbn; tauto.
Qed.

Definition has_text caster : Prop := exists key field v, In (key, field) STR_FIELDS /\ fld js_string caster field = Some v.

Lemma str_differs_no_memory key field caster n : str_differs false key (fld js_string caster field) n = false ->
  fld js_string caster field = None.
Proof.
  destruct (fld js_string caster field); [|done]. unfold str_differs, get_str, config_get_str_blob_alloc.
  destruct (config_get_str_blob (conf key) None n) as [[ret len] x]. by destruct (negb (is_ok ret)).
Qed.

Lemma differ_no_memory caster n : caster_creds_differ false caster n = false -> caster_stored caster n /\ ~ has_text caster.
Proof.
  unfold caster_creds_differ. rewrite !orb_false_iff. intros [[[[A B] C] D] E].
  apply str_differs_no_memory in A, B, C, D.
  assert (N : ~ has_text caster).
  { intros (key & field & v & Hk & Hf). repeat (destruct Hk as [[= <- <-] | Hk]; [congruence|]). done. }
  split; [|done]. split; [intros key field v Hk Hf; destruct N; by exists key, field, v|].
  intros v d Hp. rewrite Hp in E. by apply negb_false_iff, Z.eqb_eq in E.
Qed.
End CasterStore.

(** ** What the receiver's side leaves alone *)

Section BaseFrame.
Context `{NvsLaws St} `{Receiver W}.
Implicit Types y : gnss_sys St W.

Lemma load_base_agree y ns key : nvs_agree ns key (y_nvs y) (y_nvs (load_base y).1).
Proof.
  unfold load_base, gnss_load_fixed_base. pose proof (open_agree GNSS_NVS_NS false (y_nvs y) ns key) as A.
  destruct (nvs_open _ _ _) as [e n1]. cbn [snd] in A. case_if; [done|]. destruct (nvs_get_blob _ _ _ _) as [e2 b]. by case_if.
Qed.

Lemma save_base_agree c y ns key : (ns, key) <> (GNSS_NVS_NS, GNSS_KEY_BASE) ->
  nvs_agree ns key (y_nvs y) (y_nvs (save_base c y)).
Proof.
  intros Hk. unfold save_base, gnss_save_fixed_base.
  pose proof (open_agree GNSS_NVS_NS true (y_nvs y) ns key) as A.
  destruct (nvs_open _ _ _) as [e n1]. cbn [snd] in A. case_if; [done|].
  pose proof (set_blob_other GNSS_NVS_NS GNSS_KEY_BASE (fix_bytes c) n1 ns key (not_eq_sym Hk)) as B.
  destruct (nvs_set_blob _ _ _ _) as [e2 n2]. cbn [snd] in B.
  pose proof (commit_agree GNSS_NVS_NS n2 ns key) as C. destruct (nvs_commit _ n2) as [e3 n3]. cbn [snd] in C.
  destruct (is_ok e2); cbn; etrans; try exact A; [by etrans|done].
Qed.

(** The commands of the receiver never touch the store. *)
Lemma send_nvs cmd k y y1 b : send_cmd_acked cmd k y = (y1, b) -> y_nvs y1 = y_nvs y.
Proof. intros E. pose proof (send_spec cmd k y) as (Hn & _). by rewrite E in Hn. Qed.

Lemma set_base_agree c y ns key : (ns, key) <> (GNSS_NVS_NS, GNSS_KEY_BASE) ->
  nvs_agree ns key (y_nvs y) (y_nvs (gnss_set_fixed_base c y).1).
Proof.
  intros Hk. unfold gnss_set_fixed_base. case_if; [done|]. case_if; [|case_if; [done|]]; cbn [fst].
  - unfold refresh_base. pose proof (load_base_agree y ns key) as A. destruct (load_base y) as [y1 nv]. cbn [fst] in A.
    etrans; [exact A|]. destruct nv; [case_if|]; try done; by apply save_base_agree.
  - unfold apply_base. destruct (send_cmd_acked CMD_UNDULATION _ _) as [y1 b1] eqn:E1.
    destruct (send_cmd_acked (mode_base_cmd c) _ y1) as [y2 acked] eqn:E2.
    apply send_nvs in E1, E2. destruct acked; [|cbn; by rewrite E2, E1].
    destruct (send_cmd_acked CMD_SAVECONFIG _ y2) as [y3 ok] eqn:E3. apply send_nvs in E3.
    destruct ok; cbn; [|by rewrite E3, E2, E1].
    etrans; [|by apply save_base_agree]. cbn. by rewrite E3, E2, E1.
Qed.
End BaseFrame.

(** ** Replies to the heartbeat *)

Section Replies.
Context `{NvsLaws St} `{Receiver W} {J : Type} `{Json J}.
Implicit Types s : prov_sys St W.

Lemma reply_base_agree root s ns key : (ns, key) <> (GNSS_NVS_NS, GNSS_KEY_BASE) ->
  nvs_agree ns key (ps_nvs s) (ps_nvs (reply_base root s)).
Proof.
  intros Hk. unfold reply_base. destruct (reply_position root) as [c|]; [|done].
  pose proof (set_base_agree c (ps_gnss s) ns key Hk) as A.
  change (ps_gnss (on_p _ s)) with (ps_gnss s) in *.
  destruct (gnss_set_fixed_base c _) as [y ok]. exact A.
Qed.

Lemma reply_base_insts root s : ps_insts (reply_base root s) = ps_insts s.
Proof.
  unfold reply_base. destruct (reply_position root) as [c|]; [|done].
  by destruct (gnss_set_fixed_base c _).
Qed.

Lemma reply_state_agree root s ns key : (ns, key) <> (STORAGE, "rtk_state"%string) ->
  nvs_agree ns key (ps_nvs s) (ps_nvs (reply_state root s)).
Proof.
  intros Hk. unfold reply_state. destruct (fld js_string root "state"); [|done].
  unfold on_nvs, ps_nvs, config_commit. cbn. etrans; [|apply commit_agree].
  apply set_int_other. congruence.
Qed.

Lemma reply_state_insts root s : ps_insts (reply_state root s) = ps_insts s.
Proof. unfold reply_state. by destruct (fld js_string root "state"). Qed.

(** The caster of a reply's [config_delta]. *)
Definition delta_caster (root : J) : option J :=
  match obj root "config_delta" with Some delta => obj delta "caster" | None => None end.

Lemma reply_caster_alt alloc root s : reply_caster alloc root s =
  match delta_caster root with
  | Some caster => if caster_creds_differ alloc caster (ps_nvs s)
                   then reconnect_all (on_nvs (write_caster_creds caster) s) else s
  | None => s
  end.
Proof. unfold reply_caster, delta_caster. by destruct (obj root "config_delta") as [d|]; [destruct (obj d "caster")|]. Qed.

Lemma gnss_key_other key : (STORAGE, key) <> (GNSS_NVS_NS, GNSS_KEY_BASE).
Proof. by intros [=]. Qed.

Lemma caster_key_state key : In key CASTER_KEYS -> (STORAGE, key) <> (STORAGE, "rtk_state"%string).
Proof. intros Hk [= ->]. repeat (destruct Hk as [[=] | Hk]); done. Qed.

(** Before the caster is looked at, and after. *)
Lemma pre_caster_stored root caster s :
  caster_stored caster (ps_nvs s) <->
  caster_stored caster (ps_nvs (reply_base root (on_p (set_status (status_update root)) s))).
Proof.
  assert (A : forall key, nvs_agree STORAGE key (ps_nvs s)
                (ps_nvs (reply_base root (on_p (set_status (status_update root)) s)))).
  { intros key. etrans; [|apply reply_base_agree, gnss_key_other]. done. }
  split; apply stored_agree; intros; [|symmetry]; apply A.
Qed.

Lemma apply_settles root caster s : delta_caster root = Some caster ->
  let s' := apply_reply true root s in
  caster_stored caster (ps_nvs s') /\
  (caster_stored caster (ps_nvs s) -> ps_insts s' = ps_insts s) /\
  (~ caster_stored caster (ps_nvs s) -> ps_insts s' = ntrip_server_reconnect_all (ps_insts s)).
Proof.
  intros Hc. cbv zeta. unfold apply_reply. rewrite reply_caster_alt, Hc. rewrite reply_state_insts.
  rewrite (pre_caster_stored root caster s). set (s0 := reply_base root _).
  assert (I0 : ps_insts s0 = ps_insts s) by (unfold s0; by rewrite reply_base_insts).
  pose proof (differ_spec caster (ps_nvs s0)) as D. split.
  - eapply stored_agree; [intros key Hk; apply reply_state_agree, (caster_key_state _ Hk)|].
    destruct (caster_creds_differ true caster (ps_nvs s0)); [apply write_stores|by apply D].
  - destruct (caster_creds_differ true caster (ps_nvs s0)).
    + split; [intros Hs; by apply D in Hs|]. intros _. cbn. by rewrite I0.
    + split; [done|]. intros Hn. exfalso. by apply Hn, D.
Qed.

(** The same when no buffer can be allocated: any text in the settings counts as different. *)
Lemma apply_settles_no_memory root caster s : delta_caster root = Some caster ->
  let s' := apply_reply false root s in
  caster_stored caster (ps_nvs s') /\
  (has_text caster -> ps_insts s' = ntrip_server_reconnect_all (ps_insts s)).
Proof.
  intros Hc. cbv zeta. unfold apply_reply. rewrite reply_caster_alt, Hc. rewrite reply_state_insts.
  set (s0 := reply_base root _).
  assert (I0 : ps_insts s0 = ps_insts s) by (unfold s0; by rewrite reply_base_insts). split.
  - eapply stored_agree; [intros key Hk; apply reply_state_agree, (caster_key_state _ Hk)|].
    destruct (caster_creds_differ false caster (ps_nvs s0)) eqn:D; [apply write_stores|by apply differ_no_memory in D as [D _]].
  - intros Ht. destruct (caster_creds_differ false caster (ps_nvs s0)) eqn:D; [cbn; by rewrite I0|].
    by apply differ_no_memory in D as [_ []].
Qed.

(** The keys a reply may write. *)
Definition reply_key (ns key : string) : Prop :=
  (ns = STORAGE /\ (In key CASTER_KEYS \/ key = "rtk_state"%string)) \/
  (ns = GNSS_NVS_NS /\ key = GNSS_KEY_BASE).

Lemma reply_caster_agree alloc root s ns key : ~ (ns = STORAGE /\ In key CASTER_KEYS) ->
  nvs_agree ns key (ps_nvs s) (ps_nvs (reply_caster alloc root s)).
Proof.
  intros Hk. rewrite reply_caster_alt. destruct (delta_caster root) as [caster|]; [|done].
  case_if; [|done]. by apply write_agree.
Qed.

Lemma apply_agree alloc root s ns key : ~ reply_key ns key ->
  nvs_agree ns key (ps_nvs s) (ps_nvs (apply_reply alloc root s)).
Proof.
  intros Hk. unfold reply_key in Hk. unfold apply_reply.
  etrans; [|apply reply_state_agree; intros E; inversion E; subst; tauto].
  etrans; [|apply reply_caster_agree; tauto].
  etrans; [|apply reply_base_agree; intros E; inversion E; subst; tauto]. done.
Qed.
End Replies.

(** C25: a reply that carries the caster's settings leaves them stored, whatever was
    stored before, and, as long as the buffers for the stored ones can be allocated, makes
    the connections reconnect exactly when they were not stored already: the same settings
    in every later heartbeat, whatever else those replies say, reconnect nothing and leave
    them stored.  Without memory for the comparison the settings are stored all the same,
    but any text among them makes every connection reconnect, stored already or not.
    Nothing but the caster settings, the state and the receiver's base is ever written by a
    reply, so not the identity, the enrolment key or the token. *)
Theorem reply_settles_caster `{NvsLaws St} `{Receiver W} `{Json J} root caster (s : prov_sys St W) :
  delta_caster root = Some caster ->
  (let s1 := apply_reply true root s in
   caster_stored caster (ps_nvs s1) /\
   (caster_stored caster (ps_nvs s) -> ps_insts s1 = ps_insts s) /\
   (~ caster_stored caster (ps_nvs s) -> ps_insts s1 = ntrip_server_reconnect_all (ps_insts s)) /\
   (forall roots, Forall (fun root => delta_caster root = Some caster) roots ->
     let s2 := fold_left (fun s root => apply_reply true root s) roots s1 in
     ps_insts s2 = ps_insts s1 /\ caster_stored caster (ps_nvs s2))) /\
  (let s1 := apply_reply false root s in
   caster_stored caster (ps_nvs s1) /\
   (has_text caster -> ps_insts s1 = ntrip_server_reconnect_all (ps_insts s))) /\
  (forall alloc ns key, ~ reply_key ns key -> nvs_agree ns key (ps_nvs s) (ps_nvs (apply_reply alloc root s))).
Proof.
  intros Hc. destruct (apply_settles root caster s Hc) as (A & B & C). split; [|split].
  - split_and!; [done..|].
    intros roots Hr. cbv zeta in *. set (s1 := apply_reply true root s) in *. clearbody s1. clear B C.
    revert s1 A. induction Hr as [|r roots Hr _ IH]; intros s1 A; cbn [fold_left]; [done|].
    destruct (apply_settles r caster s1 Hr) as (A' & B' & _). destruct (IH _ A') as [I1 I2].
    split; [|done]. rewrite I1. by apply B'.
  - by apply apply_settles_no_memory.
  - intros alloc ns key Hk. by apply apply_agree.
Qed.

(** ** Reading a reply *)

Lemma take_split {A} n (l : list A) : l = ztake n l ++ zdrop (zlen (ztake n l)) l.
Proof.
  pose proof (ztake_zdrop n l) as E. set (d := ztake n l) in *. rewrite <- E at 2.
  by rewrite zdrop_app_exact.
Qed.

Lemma http_read_prefix sizes realloc : forall body resp cap r,
  http_read_loop sizes body resp cap realloc = Some r -> exists l m, r = resp ++ l /\ body = l ++ m.
Proof.
  induction sizes as [|k sizes IH]; intros body resp cap r; cbn [http_read_loop]; case_if; try done.
  - intros [= <-]. exists [], body. by rewrite app_nil_r.
  - set (data := ztake _ body). case_if; [intros [= <-]; exists [], body; by rewrite app_nil_r|].
    intros (l & m & -> & E)%IH. exists (data ++ l), m. rewrite <- !app_assoc, <- E.
    split; [done|apply take_split].
Qed.

Lemma http_read_whole realloc : (forall n, realloc n = true) -> forall sizes body resp cap,
  Forall (fun k => 0 < k) sizes -> zlen body <= zlen sizes -> zlen resp + 1 <= cap ->
  http_read_loop sizes body resp cap realloc = Some (resp ++ body).
Proof.
  intros Hr. induction sizes as [|k sizes IH]; intros body resp cap Hs Hl Hc; cbn [http_read_loop];
    rewrite Hr, andb_false_r.
  - rewrite (zlen_0 body); [by rewrite app_nil_r|]. pose proof (zlen_nonneg body). rewrite zlen_nil in Hl. lia.
  - apply Forall_cons in Hs as [Hk Hs]. rewrite zlen_cons in Hl. pose proof (zlen_nonneg resp).
    set (cap' := if cap <=? zlen resp + 1 then cap * 2 else cap).
    assert (Hc' : zlen resp + 1 < cap') by (unfold cap'; case_if; lia).
    set (room := Z.min k (cap' - zlen resp - 1)). assert (0 < room) by lia.
    pose proof (zlen_ztake room body ltac:(lia)) as L. pose proof (zlen_nonneg body).
    case_if.
    + rewrite (zlen_0 body) by lia. by rewrite app_nil_r.
    + pose proof (take_split room body) as E. set (data := ztake room body) in *.
      rewrite E at 2. rewrite app_assoc. apply IH; [done| |rewrite zlen_app; lia].
      rewrite zlen_zdrop; lia.
Qed.

(** A reply is never mixed up: what the client hands to the JSON parser is a
    prefix of what the server sent, and when the connection delivers all of it, in
    pieces of any size and with or without a content length, and memory can grow, it
    is the whole. *)
Theorem http_reply_whole (h : http_env) :
  (forall r, (http_post_json h).1 = Some r -> exists rest, hp_body h = r ++ rest) /\
  (hp_init h = true -> hp_open h = ESP_OK -> 0 <= hp_write h -> hp_malloc h = true ->
   (forall n, hp_realloc h n = true) -> Forall (fun k => 0 < k) (hp_sizes h) ->
   zlen (hp_body h) <= zlen (hp_sizes h) ->
   http_post_json h = (Some (hp_body h), hp_status h)).
Proof.
  unfold http_post_json. split.
  - intros r. destruct (negb (hp_init h)), (is_ok (hp_open h) && (0 <=? hp_write h)), (hp_malloc h); try done.
    by intros (l & m & -> & E)%http_read_prefix; exists m.
  - intros Hi Ho Hw Hm Hr Hs Hl. rewrite Hi, Ho, Hm. cbn [negb].
    replace (0 <=? hp_write h) with true by lia. cbn. rewrite http_read_whole; [done..|].
    rewrite zlen_nil. case_if; lia.
Qed.

Definition chunked_reply : http_env :=
  mk_http true ESP_OK 10 0 200 true (repeat 65 900) (repeat 300 900) (fun _ => true).
Lemma http_reply_whole_witness : http_post_json chunked_reply = (Some (repeat 65 900), 200).
Proof.
  apply (http_reply_whole chunked_reply); try reflexivity; [done|].
  apply Forall_forall. intros x Hx. apply list_elem_of_In, repeat_spec in Hx. lia.
Defined.

(** ** Bounds of the texts *)

(** What the arrays of the client hold, and its pace. *)
Record prov_ok (p : prov_t) : Prop := {
  ok_device : zlen (pv_device_id p) <= 39;
  ok_mac : zlen (pv_mac p) <= 17;
  ok_host : zlen (pv_ie_host p) <= 95;
  ok_token : zlen (pv_token p) <= 95;
  ok_key : zlen (pv_enroll_key p) <= 79;
  ok_poll : MIN_POLL_S <= pv_poll_s p;
  ok_state : zlen (st_state (pv_st p)) <= 15;
  ok_station : zlen (st_station_id (pv_st p)) <= 39
}.

Definition health_in_range (h : supervisor_health_t) : Prop :=
  Forall (fun v => 0 <= v < 2 ^ 32)
    [h_uptime_s h; h_gnss_silent_s h; h_caster_silent_s h; h_ip_down_s h; h_recoveries_gnss h;
     h_recoveries_caster h; h_recoveries_wifi h; h_reboots_supervised h].

Lemma cut_len k s : 1 <= k -> zlen (cut k s) <= k - 1.
Proof. intros Hk. unfold cut. rewrite zlen_ztake by lia. lia. Qed.
Lemma cut_whole k s : zlen s < k -> cut k s = s.
Proof. intros Hk. unfold cut. apply ztake_ge. lia. Qed.

Lemma hex_len digit mac : zlen (concat (map (hex2_of digit) mac)) = 2 * zlen mac.
Proof.
  induction mac as [|b mac IH]; [done|]. cbn [map concat]. rewrite zlen_app, IH, zlen_cons.
  unfold hex2_of. change (zlen [_; _]) with 2. lia.
Qed.

Definition digest32 (hmac : list Z -> list Z -> option (list Z)) : Prop :=
  forall key msg mac, hmac key msg = Some mac -> zlen mac = 32.

Lemma hmac_hex_len hmac key msg : digest32 hmac -> zlen (hmac_sha256_hex hmac key msg) <= 64.
Proof.
  intros D. unfold hmac_sha256_hex. destruct (hmac key msg) as [mac|] eqn:E; [|done].
  apply D in E. rewrite hex_len. lia.
Qed.

Lemma quote_len s : zlen (quote s) = 2 + zlen s.
Proof. unfold quote. rewrite !zlen_app. change (zlen [34]) with 1. lia. Qed.

Ltac text_len :=
  cbn [members app]; repeat (rewrite ?member_len, ?zlen_app, ?quote_len, ?zlen_cons); rewrite ?(@zlen_nil Z);
  repeat match goal with
         | |- context [zlen (of_str ?s)] => let v := eval vm_compute in (zlen (of_str s)) in change (zlen (of_str s)) with v
         end;
  change (zlen PIPE) with 1; change (zlen OtaState.FW_VERSION) with 5.

Ltac ranges :=
  repeat match goal with
         | H : Forall _ (_ :: _) |- _ => apply Forall_cons in H as [?%decimal_u32 H]
         end.

Lemma beat_body_len p h t drops nonce mac : prov_ok p -> health_in_range h ->
  totals_in_range t -> 0 <= drops < 2 ^ 32 -> 0 <= nonce < 2 ^ 32 -> zlen mac <= 64 ->
  0 < zlen (beat_body p h (Some (telemetry_text t drops)) nonce mac) < BODY_MAX.
Proof.
  intros P R Ht Hd Hn%decimal_u32 Hm. pose proof (telemetry_len t drops Ht Hd) as T.
  unfold TELEMETRY_TX_JSON_MAX in T. pose proof (zlen_nonneg (telemetry_text t drops)).
  unfold health_in_range in R. ranges. destruct P.
  pose proof (json_bool_len (h_gnss_ok h)). pose proof (json_bool_len (h_caster_ok h)).
  pose proof (json_bool_len (h_link_ok h)).
  unfold beat_body. text_len. unfold BODY_MAX.
  split; [|lia]. pose proof (@zlen_nonneg Z).
  repeat match goal with |- context [zlen ?x] => lazymatch goal with H : 0 <= zlen x |- _ => fail | _ => pose proof (zlen_nonneg x) end end.
  lia.
Qed.

Lemma load_identity_ok `{Nvs St} alloc mac p (n : St) : prov_ok p -> prov_ok (load_identity alloc mac p n).1.
Proof.
  intros P. destruct P. unfold load_identity.
  set (mac' := cut 18 _). assert (Hm : zlen mac' <= 17) by (unfold mac'; apply cut_len; lia). clearbody mac'.
  destruct (non_empty (get_str alloc "rtk_dev_id" n)) as [dev|]; cbv beta iota zeta; split; cbn;
    try done; try (apply cut_len; lia); case_match; try done; apply cut_len; lia.
Qed.

Section Bounded.
Context `{Nvs St} `{Receiver W} {J : Type} `{Json J}.
Implicit Types s : prov_sys St W.

Lemma set_status_ok f p : prov_ok p -> zlen (st_state (f (pv_st p))) <= 15 ->
  zlen (st_station_id (f (pv_st p))) <= 39 -> prov_ok (set_status f p).
Proof. intros [] A B. by split. Qed.

Lemma enroll_ok hmac nonce http s : prov_ok (ps_p s) -> prov_ok (ps_p (enroll hmac nonce http s).2).
Proof.
  intros P. unfold enroll. case_if; [done|]. destruct (http_post_json http) as [[resp|] status]; [|done].
  case_if; [done|]. destruct (js_parse resp) as [root|]; [|done].
  destruct (obj root "caster") as [caster|]; [|done].
  destruct (fld js_string root "station_token") as [token|]; [|done].
  destruct P. unfold enroll_accept. split; cbn; try done; [apply cut_len; lia|].
  destruct (fld js_number root "ie_poll_s") as [[v ?]|]; [|done]. case_if; [|done]. unfold MIN_POLL_S in *. lia.
Qed.

Lemma apply_ok alloc root s : prov_ok (ps_p s) -> prov_ok (ps_p (apply_reply alloc root s)).
Proof.
  intros P. unfold apply_reply.
  assert (P1 : prov_ok (ps_p (on_p (set_status (status_update root)) s))).
  { cbn. apply set_status_ok; [done|..]; cbn; case_match; try apply P; apply cut_len; lia. }
  set (s1 := on_p _ s) in *. clearbody s1. clear P s.
  assert (P2 : prov_ok (ps_p (reply_base root s1))).
  { unfold reply_base. destruct (reply_position root) as [c|]; [|done].
    destruct (gnss_set_fixed_base c _) as [y ok]. cbn. by destruct P1. }
  set (s2 := reply_base root s1) in *. clearbody s2.
  assert (P3 : prov_ok (ps_p (reply_caster alloc root s2))).
  { unfold reply_caster. case_match; [|done]. case_match; [|done]. by case_if. }
  unfold reply_state. by case_match.
Qed.

Lemma heartbeat_ok hmac alloc nonce h totals drops http s : prov_ok (ps_p s) ->
  prov_ok (ps_p (heartbeat hmac alloc nonce h totals drops http s).2).
Proof.
  intros P. unfold heartbeat. case_if; [done|]. destruct (http_post_json http) as [[resp|] status]; [|done].
  case_if; [|done]. destruct (js_parse resp); [|done]. by apply apply_ok.
Qed.

(** What the surroundings answer during one turn of the task. *)
Record turn_answers := mk_ta {
  ta_hmac : list Z -> list Z -> option (list Z);
  ta_alloc : bool;
  ta_nonce : Z;
  ta_health : supervisor_health_t;
  ta_totals : ntrip_tx_totals_t;
  ta_drops : Z;
  ta_http : http_env
}.

Definition task_turn (e : turn_answers) (x : Z * prov_sys St W) : Z * prov_sys St W :=
  let '(state, _, s) := prov_turn (ta_hmac e) (ta_alloc e) (ta_nonce e) (ta_health e) (ta_totals e) (ta_drops e)
                          (ta_http e) x.1 x.2 in (state, s).

(** [provisioning_task] from its start, after the given turns. *)
Definition provisioning_task (alloc : bool) (mac : list Z) (es : list turn_answers) s : Z * prov_sys St W :=
  fold_left (fun x e => task_turn e x) es (prov_start alloc mac s).

Lemma start_ok alloc mac s : prov_ok (ps_p s) -> prov_ok (ps_p (prov_start alloc mac s).2).
Proof.
  intros P. unfold prov_start. pose proof (load_identity_ok alloc mac (ps_p s) (ps_nvs s) P) as L.
  destruct (load_identity alloc mac (ps_p s) (ps_nvs s)) as [p n]. cbn [fst snd] in *.
  cbn. apply set_status_ok; [done|..]; cbn; [by case_if|]. apply L.
Qed.

Lemma turn_ok e x : prov_ok (ps_p x.2) -> prov_ok (ps_p (task_turn e x).2).
Proof.
  intros P. unfold task_turn, prov_turn. case_if.
  - pose proof (enroll_ok (ta_hmac e) (ta_nonce e) (ta_http e) x.2 P) as E.
    destruct (enroll _ _ _ _) as [[ok req] s]. cbn [snd] in E. destruct ok; [|done].
    cbn. apply set_status_ok; [done|..]; apply E.
  - pose proof (heartbeat_ok (ta_hmac e) (ta_alloc e) (ta_nonce e) (ta_health e) (ta_totals e) (ta_drops e) (ta_http e) x.2 P) as E.
    by destruct (heartbeat _ _ _ _ _ _ _ _) as [req s].
Qed.

Lemma task_ok alloc mac es s : prov_ok (ps_p s) -> prov_ok (ps_p (provisioning_task alloc mac es s).2).
Proof.
  intros P%(start_ok alloc mac). unfold provisioning_task. revert P. generalize (prov_start alloc mac s).
  induction es as [|e es IH]; intros x P; [done|]. cbn [fold_left]. by apply IH, turn_ok.
Qed.

Lemma boot_ok : prov_ok prov_boot.
Proof. by split. Qed.

(** The heartbeat's request when nothing is cut off. *)
Definition beat_request (hmac : list Z -> list Z -> option (list Z)) (p : prov_t) (h : supervisor_health_t)
    (totals : ntrip_tx_totals_t) (drops nonce : Z) : list Z * list Z :=
  (of_str "https://" ++ pv_ie_host p ++ of_str "/api/edge/heartbeat",
   beat_body p h (Some (telemetry_text totals drops)) nonce
     (hmac_sha256_hex hmac (pv_token p)
        (pv_device_id p ++ PIPE ++ decimal (h_uptime_s h) ++ PIPE ++ decimal nonce))).

Lemma heartbeat_sends hmac alloc nonce h totals drops http s : prov_ok (ps_p s) ->
  digest32 hmac -> health_in_range h -> totals_in_range totals -> 0 <= drops < 2 ^ 32 -> 0 <= nonce < 2 ^ 32 ->
  (heartbeat hmac alloc nonce h totals drops http s).1 =
    Some (beat_request hmac (ps_p s) h totals drops nonce).
Proof.
  intros P D R T Hd Hn. unfold heartbeat.
  assert (C : beat_canon (ps_p s) h nonce =
              pv_device_id (ps_p s) ++ PIPE ++ decimal (h_uptime_s h) ++ PIPE ++ decimal nonce).
  { unfold beat_canon. apply cut_whole. rewrite !zlen_app. change (zlen PIPE) with 1.
    pose proof (decimal_u32 nonce Hn). unfold health_in_range in R. ranges. destruct P. lia. }
  assert (U : https (pv_ie_host (ps_p s)) (of_str "/api/edge/heartbeat") =
              of_str "https://" ++ pv_ie_host (ps_p s) ++ of_str "/api/edge/heartbeat").
  { unfold https. apply cut_whole. rewrite !zlen_app. destruct P.
    change (zlen (of_str "https://")) with 8. change (zlen (of_str "/api/edge/heartbeat")) with 19. lia. }
  rewrite C, U, telemetry_whole by done.
  pose proof (hmac_hex_len hmac (pv_token (ps_p s))
                (pv_device_id (ps_p s) ++ PIPE ++ decimal (h_uptime_s h) ++ PIPE ++ decimal nonce) D) as L.
  pose proof (beat_body_len (ps_p s) h totals drops nonce _ P R T Hd Hn L) as B.
  case_if; [lia|]. unfold beat_request.
  destruct (http_post_json http) as [[resp|] status]; [|done].
  case_if; [|done]. by destruct (js_parse resp).
Qed.
End Bounded.

(** The system's ticks in a second (sdkconfig.defaults). *)
Definition CONFIG_FREERTOS_HZ : Z := 100.

(** What FreeRTOS documents of [pdMS_TO_TICKS], as long as its 32-bit product does not wrap. *)
Definition ticks_documented (pdMS_TO_TICKS : Z -> Z) : Prop :=
  forall ms, 0 <= ms -> ms * CONFIG_FREERTOS_HZ < 2 ^ 32 -> pdMS_TO_TICKS ms = ms * CONFIG_FREERTOS_HZ / 1000.

Lemma poll_ticks pdMS_TO_TICKS p : prov_ok p -> ticks_documented pdMS_TO_TICKS ->
  match poll_ms p with
  | Some ms => pv_poll_s p <= 42949 -> 10 * CONFIG_FREERTOS_HZ <= pdMS_TO_TICKS ms
  | None => 2147484 <= pv_poll_s p
  end.
Proof.
  intros P T. pose proof (ok_poll p P) as Hp. unfold MIN_POLL_S, poll_ms in *.
  destruct (Z.ltb_spec (pv_poll_s p * 1000) (2 ^ 31)); [|lia]. intros Hm. unfold ticks_documented, CONFIG_FREERTOS_HZ in *.
  rewrite T by lia. apply Z.div_le_lower_bound; lia.
Qed.


(** ** Enrolment *)

Section Enrol.
Context `{NvsLaws St} `{Receiver W} {J : Type} `{Json J}.
Implicit Types s : prov_sys St W.

(** The request when nothing is cut off. *)
Definition enroll_request (hmac : list Z -> list Z -> option (list Z)) (p : prov_t) (nonce : Z)
    : list Z * list Z :=
  let canon := pv_device_id p ++ PIPE ++ pv_mac p ++ PIPE ++ OtaState.FW_VERSION ++ PIPE ++
               of_str "um980" ++ PIPE ++ decimal nonce in
  (of_str "https://" ++ pv_ie_host p ++ of_str "/api/edge/enroll",
   [123] ++ members [
     member "device_id" (quote (pv_device_id p));
     member "mac" (quote (pv_mac p));
     member "fw_version" (quote OtaState.FW_VERSION);
     member "hw" (quote (of_str "um980"));
     member "nonce" (decimal nonce);
     member "key_version" (decimal (pv_key_ver p));
     member "hmac" (quote (hmac_sha256_hex hmac (pv_enroll_key p) canon))
   ] ++ [125]).

Lemma enroll_texts hmac p nonce : prov_ok p -> digest32 hmac -> 0 <= nonce < 2 ^ 32 -> 0 <= pv_key_ver p < 2 ^ 8 ->
  (https (pv_ie_host p) (of_str "/api/edge/enroll"),
   enroll_body p nonce (hmac_sha256_hex hmac (pv_enroll_key p) (enroll_canon p nonce))) =
  enroll_request hmac p nonce.
Proof.
  intros P D Hn%decimal_u32 Hv. assert (Hv' : zlen (decimal (pv_key_ver p)) <= 3) by (apply decimal_len; lia).
  destruct P. unfold enroll_request. cbv zeta. f_equal.
  - unfold https. apply cut_whole. text_len. lia.
  - replace (enroll_canon p nonce) with
      (pv_device_id p ++ PIPE ++ pv_mac p ++ PIPE ++ OtaState.FW_VERSION ++ PIPE ++ of_str "um980" ++ PIPE ++ decimal nonce).
    + set (canon := _ ++ PIPE ++ _). pose proof (hmac_hex_len hmac (pv_enroll_key p) canon D).
      unfold enroll_body. apply cut_whole. clearbody canon. text_len. lia.
    + symmetry. unfold enroll_canon. apply cut_whole. text_len. lia.
Qed.

Lemma sta_tok_key key : In key CASTER_KEYS -> key <> "rtk_sta_tok"%string.
Proof. intros Hk ->. repeat (destruct Hk as [[=] | Hk]); done. Qed.

Lemma accept_stores root caster token s :
  let s' := enroll_accept root caster token s in
  caster_stored caster (ps_nvs s') /\
  config_get_bool1 (conf "ntr_srv_actv") (ps_nvs s') = true /\
  get_str true "rtk_sta_tok" (ps_nvs s') = Some (cut 96 token) /\
  config_get_u8 (conf "rtk_state") (ps_nvs s') = RTK_PROVISIONING.
Proof.
  unfold enroll_accept. cbv zeta. unfold reconnect_all, on_p, on_nvs, ps_nvs, config_commit. cbn.
  set (n1 := write_caster_creds caster _). set (n2 := (config_set_str "rtk_sta_tok" _ n1).2).
  assert (A : forall key, key <> "rtk_sta_tok"%string -> key <> "rtk_state"%string ->
    nvs_agree STORAGE key n1 (nvs_commit STORAGE (nvs_set_int U8 STORAGE "rtk_state" RTK_PROVISIONING n2).2).2).
  { intros key H1' H2'. etrans; [|apply commit_agree]. etrans; [|apply set_int_other; congruence].
    apply set_str_other. congruence. }
  split_and!.
  - eapply stored_agree; [|apply (write_stores caster)]. intros key Hk. apply A; [by apply sta_tok_key|].
    intros ->. by apply (caster_key_state _ Hk).
  - unfold config_get_bool1. rewrite (get_or_agree _ _ _ n1) by (by apply A). apply write_activates.
  - peel_str. peel_str. by apply (set_str_reads "rtk_sta_tok").
  - unfold config_get_u8. change (ci_key (conf "rtk_state")) with "rtk_state"%string. peel_int.
    apply get_or_set. cbn. unfold RTK_PROVISIONING. lia.
Qed.

Lemma identity_reads_token mac p n token : get_str true "rtk_sta_tok" n = Some (cut 96 token) ->
  pv_token (load_identity true mac p n).1 = cut 96 token.
Proof.
  intros E. assert (C : cut 96 (cut 96 token) = cut 96 token).
  { apply cut_whole. pose proof (cut_len 96 token). lia. }
  unfold load_identity. destruct (non_empty (get_str true "rtk_dev_id" n)) as [dev|]; cbv beta iota zeta; cbn [fst pv_token].
  - by rewrite E.
  - set (d := cut 40 _). change (config_set_str "rtk_dev_id" d n).2 with (set_str "rtk_dev_id" (Some d) n).
    replace (get_str true "rtk_sta_tok" _) with (Some (cut 96 token)); [done|].
    symmetry. unfold config_commit. by repeat peel_str.
Qed.
End Enrol.

(** C27: enrolment is all or nothing.  A device without its key asks nothing and
    changes nothing; a refused, unreadable or incomplete reply changes nothing; the
    request is signed over the untruncated identity.  An accepted reply leaves the
    caster settings stored and the connection enabled, the token stored so that the
    next boot reads the one now in use, the state advanced, and every connection told
    to reconnect. *)
Theorem enroll_all_or_nothing `{NvsLaws St} `{Receiver W} `{Json J} hmac nonce http (s : prov_sys St W) :
  let '(ok, req, s') := enroll hmac nonce http s in
  (pv_enroll_key (ps_p s) = [] -> ok = false /\ req = None) /\
  (ok = false -> s' = s) /\
  (pv_enroll_key (ps_p s) <> [] -> prov_ok (ps_p s) -> digest32 hmac -> 0 <= nonce < 2 ^ 32 ->
   0 <= pv_key_ver (ps_p s) < 2 ^ 8 -> req = Some (enroll_request hmac (ps_p s) nonce)) /\
  (ok = true -> exists resp root caster token,
     http_post_json http = (Some resp, 200) /\ js_parse resp = Some root /\
     obj root "caster" = Some caster /\ fld js_string root "station_token" = Some token /\
     caster_stored caster (ps_nvs s') /\
     config_get_bool1 (conf "ntr_srv_actv") (ps_nvs s') = true /\
     pv_token (ps_p s') = cut 96 token /\
     (forall mac p, pv_token (load_identity true mac p (ps_nvs s')).1 = pv_token (ps_p s')) /\
     config_get_u8 (conf "rtk_state") (ps_nvs s') = RTK_PROVISIONING /\
     ps_insts s' = ntrip_server_reconnect_all (ps_insts s)).
Proof.
  unfold enroll. destruct (Z.eqb_spec (zlen (pv_enroll_key (ps_p s))) 0) as [E|E].
  { split_and!; try done. intros Hk. apply zlen_0 in E. done. }
  assert (Hk : pv_enroll_key (ps_p s) <> []) by (by intros Hk; rewrite Hk in E).
  set (req := Some _).
  assert (Hreq : prov_ok (ps_p s) -> digest32 hmac -> 0 <= nonce < 2 ^ 32 -> 0 <= pv_key_ver (ps_p s) < 2 ^ 8 ->
                 req = Some (enroll_request hmac (ps_p s) nonce)).
  { intros. unfold req. f_equal. by apply enroll_texts. }
  clearbody req.
  destruct (http_post_json http) as [[resp|] status]; [|by split_and!].
  destruct (Z.eqb_spec status 200) as [->|]; cbn [negb]; [|by split_and!].
  destruct (js_parse resp) as [root|] eqn:Hp; [|by split_and!].
  destruct (obj root "caster") as [caster|] eqn:Hc; [|by split_and!].
  destruct (fld js_string root "station_token") as [token|] eqn:Ht; [|by split_and!].
  split_and!; try done. intros _. exists resp, root, caster, token.
  destruct (accept_stores root caster token s) as (A & B & C & D). split_and!; try done.
  intros mac p. by rewrite (identity_reads_token mac p _ token C).
Qed.

(** ** Instances *)

Definition demo_caster : js :=
  JObj [("host", JStr (of_str "caster.example")); ("port", JNum 2101); ("mountpoint", JStr (of_str "MP1"));
        ("username", JStr (of_str "u")); ("password", JStr (of_str "p"))]%string.
Definition demo_root : js :=
  JObj [("state", JStr (of_str "maturing")); ("caster", demo_caster); ("station_token", JStr (of_str "tok"));
        ("position", JObj [("valid", JBool true); ("lat", JNum 48); ("lon", JNum 9); ("h", JNum 300)]);
        ("config_delta", JObj [("caster", demo_caster)])]%string.

#[export] Instance demo_json : Json js :=
  js_json (fun text => if bytes_eqb text (of_str "reply") then Some demo_root else None).

Definition demo_insts : list ntrip_instance_t := [new_instance 0; new_instance 1].
Definition demo_prov : prov_sys flash sim_rx :=
  mk_ps (mk_prov (of_str "rtk-001122334455") (of_str "00:11:22:33:44:55") DEFAULT_HOST [] (of_str "00ff") 1
           DEFAULT_POLL_S false status_zero) (sim_boot true) demo_insts.
Definition demo_hmac (key msg : list Z) : option (list Z) := Some (repeat 171 32).
Definition demo_http : http_env := mk_http true ESP_OK 10 0 200 true (of_str "reply") (repeat 3 9) (fun _ => true).
Definition demo_health : supervisor_health_t :=
  mk_health (2 ^ 32 - 1) (2 ^ 32 - 1) (2 ^ 32 - 1) (2 ^ 32 - 1) false false false (2 ^ 32 - 1) (2 ^ 32 - 1)
    (2 ^ 32 - 1) (2 ^ 32 - 1).
Definition demo_totals : ntrip_tx_totals_t :=
  mk_totals (2 ^ 64 - 1) (2 ^ 64 - 1) (2 ^ 64 - 1) (2 ^ 64 - 1) (2 ^ 64 - 1) (2 ^ 64 - 1)
    (2 ^ 64 - 1) (2 ^ 64 - 1) (2 ^ 64 - 1) (2 ^ 64 - 1) (2 ^ 32 - 1) (2 ^ 32 - 1) (2 ^ 32 - 1)
    (2 ^ 32 - 1) false 4.
Definition demo_turn : turn_answers := mk_ta demo_hmac true 7 demo_health demo_totals 0 demo_http.


(** A device with its key in flash, from boot: it enrols, beats, and stays put. *)
Definition demo_boot : prov_sys flash sim_rx :=
  let y := sim_boot true in
  mk_ps prov_boot (mk_sys (y_g y) (config_set_str "rtk_enr_key" (of_str "00ff") (y_nvs y)).2 (y_rx y)) demo_insts.

Example demo_run :
  let run n := provisioning_task true [0; 17; 34; 51; 68; 85] (repeat demo_turn n) demo_boot in
  map (fun n => ((run n).1, map ni_reconnect_gen (ps_insts (run n).2), pv_fixed_base_set (ps_p (run n).2)))
    [0%nat; 1%nat; 2%nat; 3%nat] =
  [(RTK_UNCLAIMED, [0; 0], false); (RTK_PROVISIONING, [1; 1], false); (RTK_MATURING, [1; 1], true);
   (RTK_MATURING, [1; 1], true)].
Proof. vm_compute. reflexivity. Qed.

Lemma reply_settles_caster_witness :
  caster_stored demo_caster (ps_nvs (apply_reply true demo_root demo_prov)) /\
  ps_insts (apply_reply true demo_root (apply_reply true demo_root demo_prov)) =
  ps_insts (apply_reply true demo_root demo_prov).
Proof.
  assert (Hc : delta_caster demo_root = Some demo_caster) by (vm_compute; reflexivity).
  destruct (reply_settles_caster demo_root demo_caster demo_prov Hc) as ((A & _ & _ & B) & _).
  split; [exact A|]. apply (B [demo_root]). repeat constructor.
Defined.

Definition demo_ticks (ms : Z) : Z := u32 (ms * CONFIG_FREERTOS_HZ) / 1000.

(** A server that asks for three million seconds, and one that asks for a minute. *)
Definition slow_root (poll : Z) : js :=
  JObj [("caster", demo_caster); ("station_token", JStr (of_str "tok")); ("ie_poll_s", JNum poll)]%string.
Example slow_poll :
  map (fun poll => (prov_turn (H1 := js_json (fun _ => Some (slow_root poll))) demo_hmac true 7 demo_health demo_totals 0
         demo_http RTK_UNCLAIMED demo_prov).1.2) [60; 3000000] = [Some 60000; None].
Proof. vm_compute. reflexivity. Qed.


Lemma enroll_all_or_nothing_witness :
  let r := enroll demo_hmac 7 demo_http demo_prov in
  r.1.2 = Some (enroll_request demo_hmac (ps_p demo_prov) 7) /\
  caster_stored demo_caster (ps_nvs r.2) /\ ps_insts r.2 = ntrip_server_reconnect_all demo_insts.
Proof.
  pose proof (enroll_all_or_nothing demo_hmac 7 demo_http demo_prov) as T. cbv zeta.
  destruct (enroll demo_hmac 7 demo_http demo_prov) as [[ok req] s'] eqn:E.
  assert (Hok : ok = true).
  { change ok with (ok, req, s').1.1. rewrite <- E. vm_compute. reflexivity. }
  destruct T as (_ & _ & T3 & T4). cbn [fst snd]. split.
  - apply T3; [done|by split|by intros key msg mac [= <-]|lia|cbn; lia].
  - destruct (T4 Hok) as (resp & root & caster & token & A1 & A2 & A3 & _ & B & _ & _ & _ & _ & C).
    split; [|exact C]. assert (Hr : resp = of_str "reply") by (vm_compute in A1; by injection A1).
    subst resp. assert (root = demo_root) as -> by (vm_compute in A2; by injection A2).
    by injection A3 as <-.
Defined.
