(* ===== verification/NtripDial.v ===== *)
(** * An instance's task around its connections (src/main/interface/ntrip_server.c)

    What [NtripServer] leaves open: the settings a dialling attempt reads from the
    store, the options of its socket, the send callback with its notes for the supervisor and
    the statistics, and an iteration of the task from its back-off to the end of its
    connection.  With [Provisioning], where the settings come from. *)

From S2P Require Import Prelude NtripRing NtripTx Supervisor Retry NetUtil NtripServer Nvs Config StreamStats Json Provisioning.

(** ** Settings *)

Record caster_conf := mk_caster_conf {
  cf_host : option (list Z);
  cf_port : Z;                  (* uint16_t *)
  cf_pwd : option (list Z);
  cf_mp : option (list Z)
}.

(** [build_key] and [CONF_ITEM]. *)
Definition inst_key (base : string) (suffix : list Z) : config_item_t := conf (str_key (build_key (of_str base) suffix)).

Definition ntrip_server_load_config_from_storage `{Nvs St} (suffix : list Z) (n : St) : caster_conf :=
  mk_caster_conf
    (config_get_str_blob_alloc true (inst_key "ntr_srv_host" suffix) n).2
    (default 2101 (config_get_primitive (inst_key "ntr_srv_port" suffix) n).2)
    (config_get_str_blob_alloc true (inst_key "ntr_srv_pass" suffix) n).2
    (config_get_str_blob_alloc true (inst_key "ntr_srv_mp" suffix) n).2.

(** ** The socket *)

Definition NTRIP_SEND_TIMEOUT_MS : Z := 500.
Definition NTRIP_RECV_TIMEOUT_MS : Z := 10000.

Inductive sock_option := SO_SNDTIMEO | SO_RCVTIMEO.

(** The options set, with [tv_sec] and [tv_usec]; a failure is only logged. *)
Definition ntrip_server_set_handshake_timeouts : list (sock_option * Z * Z) :=
  [(SO_SNDTIMEO, NTRIP_SEND_TIMEOUT_MS / 1000, NTRIP_SEND_TIMEOUT_MS mod 1000 * 1000);
   (SO_RCVTIMEO, NTRIP_RECV_TIMEOUT_MS / 1000, NTRIP_RECV_TIMEOUT_MS mod 1000 * 1000)].

(** [fl]: what [fcntl] gets; [set]: what it answers to the new flags. *)
Definition ntrip_server_make_nonblocking (O_NONBLOCK fl : Z) (set : Z -> Z) : bool :=
  negb ((fl <? 0) || (set (Z.lor fl O_NONBLOCK) <? 0)).

(** ** The send callback *)

(** What the callback works on: the instance's socket and statistics, the supervisor, and
    the clock it reads for its note. *)
Record inst_ctx (S : Type) := mk_ictx {
  ic_sock : S;
  ic_sup : sup_t;
  ic_stats : option stream_stats;
  ic_us : Z
}.
Arguments mk_ictx {S}.
Arguments ic_sock {S}.
Arguments ic_sup {S}.
Arguments ic_stats {S}.
Arguments ic_us {S}.

Definition ntrip_server_sock_send {S : Type} `{Sender S} (c : inst_ctx S) (buf : list Z) : inst_ctx S * Z * Z :=
  let '(s, n, errno) := send (ic_sock c) buf in
  if 0 <? n then
    (mk_ictx s (supervisor_note_caster_tx (ic_us c) n (ic_sup c))
       (option_map (fun st => stream_stats_increment st 0 n) (ic_stats c)) (ic_us c), n, 0)
  else (mk_ictx s (ic_sup c) (ic_stats c) (ic_us c), n, if n <? 0 then errno else 0).

#[export] Instance inst_sender {S : Type} `{Sender S} : Sender (inst_ctx S) := ntrip_server_sock_send.

#[export] Instance inst_sender_ok {S : Type} `{SenderOk S} : SenderOk (inst_ctx S).
Proof.
  refine {| wire c := wire (ic_sock c) |}; intros c b c' n err; unfold send, inst_sender, ntrip_server_sock_send;
    destruct (NtripTx.send (ic_sock c) b) as [[s m] e] eqn:E.
  - pose proof (send_le _ _ _ _ _ E). destruct (0 <? m); intros [= <- <- <-]; done.
  - pose proof (send_wire _ _ _ _ _ E). destruct (0 <? m); intros [= <- <- <-]; done.
Defined.

(** ** An iteration of the task *)

Section Iteration.
Context `{Nvs St} `{Errno} {S : Type} `{Sender S}.

(** The part of the request that [write] took before the answer was read. *)
Definition request_sent (h : handshake_answers) (request : list Z) : list Z :=
  let '(sock, _, _) := connect_socket (hs_dial h) in
  if (sock =? CONNECT_SOCKET_ERROR_RESOLVE) || (sock =? CONNECT_SOCKET_ERROR_CONNECT) || negb (hs_malloc h) then []
  else ztake (write_request (zlen request) 0 (hs_writes h)) request.

(** What an iteration does before its connection: the back-off it slept, the host and port
    it hands to [connect_socket], and what it sends there. *)
Record dial_t := mk_dialled {
  dl_slept : Z;
  dl_host : option (list Z);
  dl_port : Z;
  dl_sent : list Z
}.

(** The dialling, and the end of the iteration. *)
Definition ntrip_server_task_iteration (version : list Z) (n : St) (h : handshake_answers) (s : S) (ring : ntrip_ring_t)
    (now probe_now gen_reqs : Z) (turns : list (turn_env * Z)) (inst : ntrip_instance_t)
    : dial_t * option (ntrip_instance_t * option Z * S) :=
  let '(inst, slept, _) := ntrip_server_wait_for_start inst in
  let c := ntrip_server_load_config_from_storage (ni_suffix inst) n in
  let request := source_request (default [] (cf_pwd c)) (default [] (cf_mp c)) version in
  (mk_dialled slept (cf_host c) (cf_port c) (request_sent h request),
   task_iteration h request s ring now probe_now gen_reqs turns inst).
End Iteration.

(** ** What a poll does to the context of its sends *)

Section Relations.
Context `{Errno} {C : Type} `{Sender C}.
Variable R : C -> C -> Prop.
Hypothesis R_refl : forall c, R c c.
Hypothesis R_trans : forall a b c, R a b -> R b c -> R a c.
Hypothesis R_send : forall c b, R c (send c b).1.1.

Lemma send_once_related tx now s : R s (tx_send_once tx now s).1.2.
Proof.
  unfold tx_send_once. pose proof (R_send s (ztake (tx_current_len tx - tx_current_off tx) (zdrop (tx_current_off tx) (tx_current tx)))) as P.
  destruct (send s _) as [[s' n] err]. cbn [fst snd] in P. destruct (0 <? n); [done|]. by destruct (_ && _).
Qed.

Lemma round_related tx ring now stale s : R s (tx_round tx ring now stale s).1.2.
Proof.
  unfold tx_round. destruct (_ <=? _); [|apply send_once_related].
  destruct (tx_copy_next tx ring now stale) as [q b]. destruct b; [apply send_once_related|apply R_refl].
Qed.

Lemma rounds_related rounds : forall tx ring now stale s res, R s (tx_rounds rounds tx ring now stale s res).1.2.
Proof.
  induction rounds as [|rounds IH]; intros tx ring now stale s res; cbn [tx_rounds]; [apply R_refl|].
  pose proof (round_related tx ring now stale s) as P. destruct (tx_round tx ring now stale s) as [[q s'] r]. cbn [fst snd] in P.
  destruct r; try done. eapply R_trans; [exact P|]. apply IH.
Qed.
End Relations.

(** What went out between [c] and [c'], and that the statistics and the supervisor know. *)
Definition noted {S : Type} `{SenderOk S} (c c' : inst_ctx S) : Prop :=
  exists sent, wire (ic_sock c') = wire (ic_sock c) ++ sent /\ ic_us c' = ic_us c /\
    match ic_stats c, ic_stats c' with
    | Some st, Some st' => u32 (sm_total_out st') = u32 (sm_total_out st + zlen sent) /\ sm_name st' = sm_name st
    | None, None => True
    | _, _ => False
    end /\
    ic_sup c' = if zlen sent =? 0 then ic_sup c else supervisor_note_caster_tx (ic_us c) (zlen sent) (ic_sup c).

Section Noted.
Context {S : Type} `{SenderOk S}.
Implicit Types c : inst_ctx S.

Lemma noted_refl c : noted c c.
Proof. exists []. rewrite app_nil_r. split_and!; try done. by destruct (ic_stats c); rewrite ?Z.add_0_r. Qed.

Lemma note_twice us a b s : 0 < b -> 0 < a ->
  supervisor_note_caster_tx us b (supervisor_note_caster_tx us a s) = supervisor_note_caster_tx us (a + b) s.
Proof.
  intros. unfold supervisor_note_caster_tx. rewrite !(proj2 (Z.ltb_lt _ _)) by lia. by destruct s.
Qed.

Lemma noted_trans a b c : noted a b -> noted b c -> noted a c.
Proof.
  intros (x & X1 & X2 & X3 & X4) (y & Y1 & Y2 & Y3 & Y4). exists (x ++ y). pose proof (zlen_nonneg x). pose proof (zlen_nonneg y).
  rewrite Y1, X1, app_assoc, Y2, X2, Y4, X4, zlen_app, X2. split_and!; [done|done| |].
  - destruct (ic_stats a), (ic_stats b), (ic_stats c); try done. destruct X3 as [X3 Xn], Y3 as [Y3 Yn]. split; [|by rewrite Yn].
    rewrite Y3. unfold u32 in *. rewrite Z.add_mod, X3, <- Z.add_mod by done. f_equal. lia.
  - destruct (Z.eqb_spec (zlen x) 0), (Z.eqb_spec (zlen y) 0), (Z.eqb_spec (zlen x + zlen y) 0); try lia; try done.
    + by replace (zlen x + zlen y) with (zlen y) by lia.
    + by replace (zlen x + zlen y) with (zlen x) by lia.
    + by apply note_twice; lia.
Qed.

Lemma noted_send c b : noted c (send c b).1.1.
Proof.
  unfold send, inst_sender, ntrip_server_sock_send. destruct (NtripTx.send (ic_sock c) b) as [[s n] err] eqn:E.
  pose proof (send_le _ _ _ _ _ E). pose proof (send_wire _ _ _ _ _ E) as W.
  destruct (Z.ltb_spec 0 n); cbn [fst].
  - assert (L : zlen (ztake n b) = n) by (apply zlen_ztake_le; lia).
    exists (ztake n b). cbn [ic_sock ic_us ic_stats ic_sup]. rewrite L. split_and!; [done|done| |].
    + destruct (ic_stats c) as [st|]; [|done]. cbn [option_map stream_stats_increment sm_total_out sm_name]. split; [|done].
      unfold u32. by rewrite Zmod_mod.
    + by replace (n =? 0) with false by lia.
  - exists []. cbn [ic_sock ic_us ic_stats ic_sup]. unfold ztake in W. replace (Z.to_nat n) with 0%nat in W by lia.
    split_and!; [done|done| |done]. by destruct (ic_stats c); rewrite ?Z.add_0_r.
Qed.
End Noted.

(** ** Properties *)

(** A poll of an instance tells the truth about itself: what the wire took is what the
    statistics count as sent, the supervisor hears of the caster exactly when something
    went out, and the sender core's own count is the same. *)
Theorem sends_are_noted `{Errno} {S : Type} `{SenderOk S} tx ring now max_sends stale (c : inst_ctx S) :
  noted c (ntrip_tx_poll tx ring now max_sends stale c).1.2.
Proof.
  apply (rounds_related noted noted_refl noted_trans noted_send).
Qed.

Section Dial.
Context `{NvsLaws St} `{Json J}.
Implicit Types n : St.

Lemma inst_key_first base : In base ["ntr_srv_host"; "ntr_srv_port"; "ntr_srv_pass"; "ntr_srv_mp"]%string ->
  inst_key base (inst_suffix 0) = conf base.
Proof. intros [<-|[<-|[<-|[<-|[]]]]]; reflexivity. Qed.

Lemma inst_key_other base i : 0 < i < 10 -> In base ["ntr_srv_host"; "ntr_srv_port"; "ntr_srv_pass"; "ntr_srv_mp"]%string ->
  ~ In (ci_key (inst_key base (inst_suffix i))) CASTER_KEYS.
Proof.
  intros Hi Hb. assert (i = 1 \/ i = 2 \/ i = 3 \/ i = 4 \/ i = 5 \/ i = 6 \/ i = 7 \/ i = 8 \/ i = 9) as C by lia.
  assert (F : forallb (fun i => forallb (fun base => negb (bool_decide (ci_key (inst_key base (inst_suffix i)) ∈ CASTER_KEYS)))
    ["ntr_srv_host"; "ntr_srv_port"; "ntr_srv_pass"; "ntr_srv_mp"]%string) [1; 2; 3; 4; 5; 6; 7; 8; 9] = true) by (vm_compute; reflexivity).
  rewrite forallb_forall in F. specialize (F i). rewrite forallb_forall in F.
  intros Hin%list_elem_of_In. specialize (F ltac:(cbn; intuition) base Hb). by rewrite bool_decide_true in F.
Qed.

Lemma load_first n :
  let c := ntrip_server_load_config_from_storage (inst_suffix 0) n in
  cf_host c = get_str true "ntr_srv_host" n /\ cf_pwd c = get_str true "ntr_srv_pass" n /\
  cf_mp c = get_str true "ntr_srv_mp" n /\ cf_port c = config_get_u16 (conf "ntr_srv_port") n.
Proof.
  unfold ntrip_server_load_config_from_storage. rewrite !inst_key_first by (cbn; tauto).
  split_and!; try done. cbn [cf_port]. unfold config_get_primitive, config_get_u16, read_primitive, get_or.
  change (ci_type (conf "ntr_srv_port")) with T_UINT16. cbv beta match. by destruct (nvs_get_int _ _ _ _) as [e v].
Qed.

Lemma dial_agree suffix n n' :
  (forall base, In base ["ntr_srv_host"; "ntr_srv_port"; "ntr_srv_pass"; "ntr_srv_mp"]%string ->
     nvs_agree STORAGE (ci_key (inst_key base suffix)) n n') ->
  ntrip_server_load_config_from_storage suffix n' = ntrip_server_load_config_from_storage suffix n.
Proof.
  intros A. unfold ntrip_server_load_config_from_storage.
  destruct (agree_same_value _ _ _ (A "ntr_srv_host"%string ltac:(cbn; tauto))) as (_ & _ & S1).
  destruct (agree_same_value _ _ _ (A "ntr_srv_port"%string ltac:(cbn; tauto))) as (S2 & _).
  destruct (agree_same_value _ _ _ (A "ntr_srv_pass"%string ltac:(cbn; tauto))) as (_ & _ & S3).
  destruct (agree_same_value _ _ _ (A "ntr_srv_mp"%string ltac:(cbn; tauto))) as (_ & _ & S4).
  by rewrite S1, S2, S3, S4.
Qed.

(** Read past the writes of [write_caster_creds], one of which did not take place by [E]. *)
Local Ltac skip_writes E :=
  unfold write_caster_creds, config_commit, config_set_bool1; cbv zeta; rewrite E; repeat peel_str; cbn [set_str]; by repeat peel_str.

Lemma request_sent_prefix h request : exists rest, request = request_sent h request ++ rest.
Proof.
  unfold request_sent. destruct (connect_socket (hs_dial h)) as [[sock ?] ?]. case_if; [by exists request|].
  exists (zdrop (write_request (zlen request) 0 (hs_writes h)) request). by rewrite ztake_zdrop.
Qed.

Lemma handshake_sent h request : (handshake h request).2 = true -> request_sent h request = request.
Proof.
  unfold handshake, request_sent. destruct (connect_socket (hs_dial h)) as [[sock ?] ?].
  destruct (sock =? CONNECT_SOCKET_ERROR_RESOLVE); [done|]. destruct (sock =? CONNECT_SOCKET_ERROR_CONNECT); [done|].
  destruct (hs_malloc h); [|done]. cbn [negb orb].
  destruct (Z.eqb_spec (write_request (zlen request) 0 (hs_writes h)) (zlen request)) as [->|]; [|done].
  intros _. apply ztake_ge. lia.
Qed.

Lemma wait_suffix inst : ni_suffix (ntrip_server_wait_for_start inst).1.1 = ni_suffix inst.
Proof.
  unfold ntrip_server_wait_for_start. destruct (retry_delay (ni_retry inst)) as [[r slept] x]. cbn [fst].
  unfold set_ev. cbn. destruct (ni_ev inst) as [b|] eqn:E; cbn; [destruct (negb (eb_data_ready b))|]; cbn;
    rewrite ?E; cbn; by case_if.
Qed.

(** The request for the mountpoint [mp] with the password [pwd], in a buffer of 512 bytes. *)
Definition asks (pwd mp version : list Z) : list Z :=
  ztake 511 (of_str "SOURCE " ++ pwd ++ of_str " /" ++ mp ++ CRLF ++
             of_str "Source-Agent: NTRIP RTKdata_Server/" ++ version ++ CRLF ++ CRLF).

(** The value of a field, or what was there before. *)
Definition field_or {A} (new old : option A) : option A := match new with Some v => Some v | None => old end.

Lemma load_written (caster : J) n :
  let c := ntrip_server_load_config_from_storage (inst_suffix 0) n in
  let c' := ntrip_server_load_config_from_storage (inst_suffix 0) (write_caster_creds caster n) in
  cf_host c' = field_or (fld js_string caster "host") (cf_host c) /\
  cf_mp c' = field_or (fld js_string caster "mountpoint") (cf_mp c) /\
  cf_pwd c' = field_or (fld js_string caster "password") (cf_pwd c) /\
  cf_port c' = match fld js_number caster "port" with Some (v, _) => u16 v | None => cf_port c end.
Proof.
  intros c c'. set (n' := write_caster_creds caster n) in *.
  destruct (load_first n) as (A1 & A2 & A3 & A4), (load_first n') as (B1 & B2 & B3 & B4).
  fold c in A1, A2, A3, A4. fold c' in B1, B2, B3, B4. rewrite A1, A2, A3, A4, B1, B2, B3, B4.
  destruct (write_stores caster n) as [W1 W2]. fold n' in W1, W2. split_and!.
  - destruct (fld js_string caster "host") as [v|] eqn:E; cbn [field_or]; [apply (W1 _ "host"%string); [cbn; tauto|done]|].
    unfold n'. skip_writes E.
  - destruct (fld js_string caster "mountpoint") as [v|] eqn:E; cbn [field_or]; [apply (W1 _ "mountpoint"%string); [cbn; tauto|done]|].
    unfold n'. skip_writes E.
  - destruct (fld js_string caster "password") as [v|] eqn:E; cbn [field_or]; [apply (W1 _ "password"%string); [cbn; tauto|done]|].
    unfold n'. skip_writes E.
  - destruct (fld js_number caster "port") as [[v d]|] eqn:E; [by apply (W2 v d)|].
    unfold n', write_caster_creds, config_commit, config_set_bool1. cbv zeta. rewrite E. unfold config_get_u16.
    change (ci_key (conf "ntr_srv_port")) with "ntr_srv_port"%string. by repeat peel_int.
Qed.

End Dial.

(** A reply that moves the mountpoint and the port on a fresh store. *)
Definition demo_caster : js :=
  JObj [("port"%string, JNum 2102); ("mountpoint"%string, JStr (of_str "BERN1")); ("password"%string, JStr (of_str "s3cret"))].


Lemma sends_are_noted_example :
  let c := mk_ictx ([], []) (sup_boot 0) (Some (stats_zero [])) 7000 in
  let c' := (ntrip_tx_poll ntrip_tx_init demo_ring 7 2 2000 c).1.2 in
  wire (ic_sock c') = demo_frame 1 ++ demo_frame 2 /\ option_map sm_total_out (ic_stats c') = Some 14 /\
  s_t_caster (ic_sup c') = 7000.
Proof. vm_compute. split_and!; reflexivity. Qed.
