(* ===== verification/Console.v ===== *)
(** * UART: set-up, the console's task and the receiver's buffered port (src/main/uart.c)

    [uart_init] and what it starts, the task that handles the events of the console port,
    and the entry points that buffer the receiver's bytes in a queue of [Uart].  The UART
    driver is a library: its receive buffer and event queue are state here, its interrupt
    a step of its own. *)

From stdpp Require Import gmap.
From S2P Require Import Prelude Nvs Config Provisioning Uart.

#[local] Open Scope Z_scope.

(** ** Set-up *)

Definition USBC_PORT : Z := 0.
Definition GNSS_PORT : Z := 2.
Definition USBC_BAUD : Z := 115200.
Definition GNSS_BAUD : Z := 115200.
Definition UART_BUFFER_SIZE : Z := 4096.
Definition RX_BUFF_SIZE : Z := 4096.
Definition UART_QUEUE_NUM : Z := 20.
Definition USBC_UART_RX_THRES : Z := 96.
Definition GNSS_UART_RX_THRES : Z := 96.
Definition GNSS_UART_RX_BUFF_SIZE : Z := 1024.

(** Calls of the driver and the tasks and mutexes made. *)
Inductive uart_call :=
  | U_param (port baud data_bits parity stop_bits : Z)
  | U_pins (port tx rx : Z)
  | U_install (port rx_size tx_size queue : Z)
  | U_threshold (port bytes : Z)
  | U_flush (port : Z)
  | U_stats | U_mutex (port : Z) | U_reader_task | U_event_task (port : Z) | U_callback (port : Z).

Definition drv_uart_usbc_init : list uart_call :=
  [U_mutex USBC_PORT; U_install USBC_PORT RX_BUFF_SIZE 0 UART_QUEUE_NUM; U_param USBC_PORT USBC_BAUD 8 0 1;
   U_pins USBC_PORT 1 3; U_threshold USBC_PORT USBC_UART_RX_THRES; U_event_task USBC_PORT].

(** [None]: [ESP_ERROR_CHECK] stops the device on [checks], the first failure. *)
Definition uart_init `{Nvs St} (checks : Z) (n : St) : option (bool * Z * list uart_call) :=
  let uart_log_forward := config_get_bool1 (conf "uart_log_fwd") n in
  if negb (is_ok checks) then None
  else
    Some (uart_log_forward, GNSS_PORT,
      [U_param GNSS_PORT (config_get_u32 (conf "uart_baud_rate") n) (config_get_u8 (conf "uart_data_bits") n)
               (config_get_u8 (conf "uart_parity") n) (config_get_u8 (conf "uart_stop_bits") n);
       U_pins GNSS_PORT 17 14; U_install GNSS_PORT UART_BUFFER_SIZE UART_BUFFER_SIZE 0; U_stats; U_mutex GNSS_PORT; U_reader_task] ++
      drv_uart_usbc_init ++ [U_callback USBC_PORT]).

(** ** The event task *)

Inductive uart_event := UART_DATA (size : Z) | UART_FIFO_OVF | UART_BUFFER_FULL | UART_OTHER.

Definition MAX_RX_SZ : Z := 100.

(** The driver's queue and receive buffer, whether the callback is set, and what it was
    given. *)
Record console_t := mk_console {
  co_queue : list uart_event;
  co_rx : list Z;
  co_cb : bool;
  co_given : list (list Z)
}.

(** [drv_uart_event_task] stops at once on a port it does not know. *)
Definition event_task_runs (port : Z) : bool := port =? USBC_PORT.

(** One event.  [None]: [uart_read_bytes] waits for bytes that are not there. *)
Definition event_turn (event : uart_event) (c : console_t) : option console_t :=
  match event with
  | UART_DATA size =>
    if negb (co_cb c) then Some (mk_console (co_queue c) [] (co_cb c) (co_given c))
    else
      let size := if MAX_RX_SZ <? size then MAX_RX_SZ else size in
      if zlen (co_rx c) <? size then None
      else Some (mk_console (co_queue c) (zdrop size (co_rx c)) (co_cb c) (co_given c ++ [ztake size (co_rx c)]))
  | UART_FIFO_OVF | UART_BUFFER_FULL => Some (mk_console [] [] (co_cb c) (co_given c))
  | UART_OTHER => Some c
  end.

Definition drv_uart_event_task (c : console_t) : option console_t :=
  match co_queue c with
  | [] => Some c
  | event :: queue => event_turn event (mk_console queue (co_rx c) (co_cb c) (co_given c))
  end.

Definition drv_uart_usbc_read_set_cb (c : console_t) : console_t := mk_console (co_queue c) (co_rx c) true (co_given c).

(** The driver's interrupt: bytes that fit into the buffer, with their event if the
    queue has room for it; or another event. *)
Definition rx_interrupt (data : list Z) (c : console_t) : console_t :=
  mk_console (if zlen (co_queue c) <? UART_QUEUE_NUM then co_queue c ++ [UART_DATA (zlen data)] else co_queue c)
    (co_rx c ++ data) (co_cb c) (co_given c).
Definition other_interrupt (event : uart_event) (c : console_t) : console_t :=
  mk_console (if zlen (co_queue c) <? UART_QUEUE_NUM then co_queue c ++ [event] else co_queue c) (co_rx c) (co_cb c) (co_given c).

Inductive console_step : console_t -> console_t -> Prop :=
  | con_turn c c' : drv_uart_event_task c = Some c' -> console_step c c'
  | con_rx c data : zlen (co_rx c) + zlen data <= RX_BUFF_SIZE -> console_step c (rx_interrupt data c)
  | con_other c event : event = UART_FIFO_OVF \/ event = UART_BUFFER_FULL \/ event = UART_OTHER ->
      console_step c (other_interrupt event c)
  | con_set_cb c : console_step c (drv_uart_usbc_read_set_cb c).

Inductive console_run (c0 : console_t) : console_t -> Prop :=
  | con_here : console_run c0 c0
  | con_next c c' : console_run c0 c -> console_step c c' -> console_run c0 c'.

(** After [drv_uart_usbc_init], with the callback set or not yet. *)
Definition console_boot (cb : bool) : console_t := mk_console [] [] cb [].

(** [drv_uart_usbc_printf] on the formatted text: what is sent, unless its terminator goes
    past the buffer of 129 bytes. *)
Definition PRINTF_SIZE : Z := 128.
Definition drv_uart_usbc_printf (text : list Z) : list Z + Z :=
  let len := zlen text in
  if PRINTF_SIZE <? len then inr (len - PRINTF_SIZE) else inl (ztake (PRINTF_SIZE - 1) text ++ (if len =? PRINTF_SIZE then [0] else [])).

(** ** The receiver's buffered port *)

Definition drv_uart_gnss_send (data : list Z) (tx : list Z -> Z) : Z := tx data.

Definition drv_uart_gnss_buffer_data (data : list Z) (q : DATA_QUEUE_TYPE) : DATA_QUEUE_TYPE := (data_que_packet_in data q).2.
Definition drv_uart_gnss_set_baudrate (baud_rate : Z) (set : Z -> Z) : Z :=
  if baud_rate =? 0 then ESP_FAIL else set baud_rate.
Definition drv_uart_gnss_enable_buffer_cb (alloc : bool) (q : DATA_QUEUE_TYPE) : DATA_QUEUE_TYPE :=
  data_que_create alloc GNSS_UART_RX_BUFF_SIZE q.
Definition drv_uart_gnss_flush (q : DATA_QUEUE_TYPE) : DATA_QUEUE_TYPE := (data_que_cleanup q).2.
(** The driver's buffer and event queue are emptied; [flush] is its answer. *)
Definition drv_uart_gnss_clear_rx (flush : Z) (queue : list uart_event) (rx : list Z) : Z * list uart_event * list Z :=
  (flush, [], if is_ok flush then [] else rx).
Definition drv_uart_gnss_config_rx_fifo_threshold : list uart_call := [U_threshold GNSS_PORT GNSS_UART_RX_THRES].
Definition drv_uart_gnss_buffered_rx_len (q : DATA_QUEUE_TYPE) : Z := data_que_size q.
(** It does not wait: the time-out is not used. *)
Definition drv_uart_gnss_recv_with_timeout (len ms : Z) (q : DATA_QUEUE_TYPE) : list Z * DATA_QUEUE_TYPE :=
  data_que_packet_out len q.
(** [looks]: the queue at each look, a millisecond apart; [None] as long as it is empty. *)
Fixpoint drv_uart_gnss_recv (len : Z) (looks : list DATA_QUEUE_TYPE) : option (list Z * DATA_QUEUE_TYPE) :=
  match looks with
  | [] => None
  | q :: looks => if data_que_size q =? 0 then drv_uart_gnss_recv len looks else Some (data_que_packet_out len q)
  end.
Definition drv_uart_gnss_init : list uart_call :=
  [U_param GNSS_PORT GNSS_BAUD 8 0 1; U_mutex GNSS_PORT; U_install GNSS_PORT RX_BUFF_SIZE 0 UART_QUEUE_NUM;
   U_event_task GNSS_PORT; U_pins GNSS_PORT 17 14; U_threshold GNSS_PORT GNSS_UART_RX_THRES; U_flush GNSS_PORT].

(** ** Specification *)

(** The bytes announced by the events in the queue. *)
Fixpoint announced (queue : list uart_event) : Z :=
  match queue with
  | [] => 0
  | UART_DATA size :: queue => size + announced queue
  | _ :: queue => announced queue
  end.
Definition sizes_ok (queue : list uart_event) : Prop :=
  Forall (fun e => match e with UART_DATA size => 0 <= size | _ => True end) queue.

Record console_ok (c : console_t) : Prop := {
  ck_cb : co_cb c = true;
  ck_announced : announced (co_queue c) <= zlen (co_rx c);
  ck_sizes : sizes_ok (co_queue c);
  ck_queue : zlen (co_queue c) <= UART_QUEUE_NUM;
  ck_rx : zlen (co_rx c) <= RX_BUFF_SIZE;
  ck_given : Forall (fun l => zlen l <= MAX_RX_SZ) (co_given c)
}.

Lemma announced_app q1 q2 : announced (q1 ++ q2) = announced q1 + announced q2.
Proof. induction q1 as [|[]]; cbn [announced app]; lia. Qed.

Lemma announced_nonneg q : sizes_ok q -> 0 <= announced q.
Proof. induction 1 as [|[] q]; cbn [announced]; lia. Qed.

Lemma event_task_ok c : console_ok c -> exists c', drv_uart_event_task c = Some c' /\ console_ok c'.
Proof.
  intros [K1 K2 K3 K4 K5 K6]. unfold drv_uart_event_task. destruct (co_queue c) as [|event queue] eqn:Eq.
  { exists c. split; [done|]. by split; rewrite ?Eq. }
  apply Forall_cons in K3 as [Ks K3]. rewrite zlen_cons in K4. pose proof (announced_nonneg queue K3).
  destruct event as [size| | |]; cbn [event_turn co_queue co_rx co_cb co_given announced] in *.
  - rewrite K1. cbn [negb].
    set (n := if MAX_RX_SZ <? size then MAX_RX_SZ else size).
    assert (Hn : 0 <= n <= size /\ n <= MAX_RX_SZ) by (unfold n, MAX_RX_SZ; destruct (Z.ltb_spec 100 size); lia).
    replace (zlen (co_rx c) <? n) with false by lia. eexists. split; [reflexivity|].
    split; cbn [co_queue co_rx co_cb co_given]; try done; rewrite ?zlen_zdrop by lia; try lia.
    apply Forall_app. split; [done|]. apply Forall_singleton. rewrite zlen_ztake_le by lia. lia.
  - eexists. split; [reflexivity|]. by split; cbn [co_queue co_rx co_cb co_given announced]; try apply Forall_nil.
  - eexists. split; [reflexivity|]. by split; cbn [co_queue co_rx co_cb co_given announced]; try apply Forall_nil.
  - eexists. split; [reflexivity|]. split; cbn [co_queue co_rx co_cb co_given]; try done; lia.
Qed.

Lemma rx_ok c data : console_ok c -> zlen (co_rx c) + zlen data <= RX_BUFF_SIZE -> console_ok (rx_interrupt data c).
Proof.
  intros [K1 K2 K3 K4 K5 K6] Hl. pose proof (zlen_nonneg data). unfold rx_interrupt.
  split; cbn [co_queue co_rx co_cb co_given]; try done; rewrite ?zlen_app; try lia.
  - case_if; rewrite ?announced_app; cbn [announced]; lia.
  - case_if; [|done]. apply Forall_app. split; [done|]. by apply Forall_singleton.
  - destruct (Z.ltb_spec (zlen (co_queue c)) UART_QUEUE_NUM); [|done]. rewrite zlen_snoc. lia.
Qed.

Lemma other_ok c event : console_ok c -> event = UART_FIFO_OVF \/ event = UART_BUFFER_FULL \/ event = UART_OTHER ->
  console_ok (other_interrupt event c).
Proof.
  intros [K1 K2 K3 K4 K5 K6] He. unfold other_interrupt.
  split; cbn [co_queue co_rx co_cb co_given]; try done.
  - case_if; [|done]. rewrite announced_app. destruct He as [-> | [-> | ->]]; cbn [announced]; lia.
  - case_if; [|done]. apply Forall_app. split; [done|]. apply Forall_singleton. by destruct He as [-> | [-> | ->]].
  - destruct (Z.ltb_spec (zlen (co_queue c)) UART_QUEUE_NUM); [|done]. rewrite zlen_snoc. lia.
Qed.

Lemma console_run_ok c0 c : console_ok c0 -> console_run c0 c -> console_ok c.
Proof.
  intros K. induction 1 as [|c c' _ IH St]; [done|]. destruct St as [c c' E|c data Hl|c event He|c].
  - destruct (event_task_ok c IH) as (c1 & E1 & K1). congruence.
  - by apply rx_ok.
  - by apply other_ok.
  - destruct IH as [K1 K2 K3 K4 K5 K6]. by split.
Qed.

(** The format set in the form never takes effect: the three items are stored as
    [int8_t] and read back as [uint8_t], which the store keeps apart. *)
Lemma uart_format_ignored key v (n : flash) : In key ["uart_data_bits"; "uart_parity"; "uart_stop_bits"]%string ->
  let n' := (config_set (conf key) (DV_bits v) n).2 in
  ci_type (conf key) = T_INT8 /\ config_get_u8 (conf key) n' = u8 (val_bits (ci_def (conf key))).
Proof.
  intros [<-|[<-|[<-|[]]]]; (split; [reflexivity|]); unfold config_get_u8, get_or.
  - change (ci_key (conf "uart_data_bits")) with "uart_data_bits"%string.
    unfold config_set. change (ci_type (conf "uart_data_bits")) with T_INT8. cbv beta match. cbn. rewrite lookup_insert_eq. done.
  - unfold config_set. change (ci_type (conf "uart_parity")) with T_INT8. cbv beta match. cbn. rewrite lookup_insert_eq. done.
  - unfold config_set. change (ci_type (conf "uart_stop_bits")) with T_INT8. cbv beta match. cbn. rewrite lookup_insert_eq. done.
Qed.

(** The console's task never waits for bytes that will not come, and never writes past
    its hundred bytes, if the callback is set before the first event: the events in the
    queue never announce more than the buffer holds.  [uart_init] sets it after the task is
    started, and an event taken before that flushes bytes other events still announce:
    then the task waits inside a read. *)
Theorem console_never_blocks :
  (forall c, console_run (console_boot true) c ->
     drv_uart_event_task c <> None /\ Forall (fun l => zlen l <= MAX_RX_SZ) (co_given c)) /\
  (exists c, console_run (console_boot false) c /\ co_cb c = true /\ drv_uart_event_task c = None) /\
  (forall calls log port, uart_init (St := flash) ESP_OK flash_empty = Some (log, port, calls) ->
     exists before, calls = before ++ [U_event_task USBC_PORT; U_callback USBC_PORT]).
Proof.
  split_and!.
  - intros c R. assert (K : console_ok c).
    { apply (console_run_ok (console_boot true)); [|done]. split; [done|by vm_compute|apply Forall_nil; exact I|by vm_compute|by vm_compute|apply Forall_nil; exact I]. }
    destruct (event_task_ok c K) as (c' & -> & _). split; [done|]. apply K.
  - set (c1 := rx_interrupt [65] (rx_interrupt [65] (console_boot false))).
    exists (drv_uart_usbc_read_set_cb (mk_console [UART_DATA 1] [] false [])). split; [|done].
    eapply con_next; [|apply con_set_cb]. apply (con_next _ c1); [|by apply con_turn].
    eapply con_next; [eapply con_next; [apply con_here|]|]; apply con_rx; vm_compute; discriminate.
  - intros calls log port. vm_compute. intros [= <- <- <-]. eexists (_ :: _ :: _ :: _ :: _ :: _ :: _ :: _ :: _ :: _ :: _ :: []). reflexivity.
Qed.
