(* ===== verification/Slist.v ===== *)
(** * Singly linked lists in a shared store (sys/queue.h)

    The queue macros the firmware uses for its LED colours and its socket clients, over
    a store of nodes: a node is its data and the pointer to the next.  [slist_rep] says
    which sequence of nodes a head leads to.  An operation gives [None] where it would
    follow a pointer that leads nowhere. *)

From stdpp Require Import gmap.
From S2P Require Import Prelude.

#[local] Open Scope Z_scope.

Record slist (D : Type) := mk_slist {
  sl_first : option Z;
  sl_mem : gmap Z (D * option Z)
}.
Arguments mk_slist {D}. Arguments sl_first {D}. Arguments sl_mem {D}.

Definition slist_empty {D} : slist D := mk_slist None ∅.

Section Slist.
Context {D : Type}.
Implicit Types (s : slist D) (m : gmap Z (D * option Z)) (l : list Z).

(** [SLIST_INSERT_HEAD] of the node [a]. *)
Definition slist_insert_head (a : Z) (d : D) s : slist D := mk_slist (Some a) (<[a := (d, sl_first s)]> (sl_mem s)).

(** The walk of [SLIST_REMOVE] from [cur] to the node before [a]. *)
Fixpoint slist_unlink (fuel : nat) (cur a : Z) m : option (gmap Z (D * option Z)) :=
  match fuel with
  | O => None
  | S fuel =>
    match m !! cur with
    | Some (d, Some next) =>
      if next =? a then
        match m !! a with Some (_, after) => Some (<[cur := (d, after)]> m) | None => None end
      else slist_unlink fuel next a m
    | _ => None
    end
  end.

(** [SLIST_REMOVE], then [free]. *)
Definition slist_remove (a : Z) s : option (slist D) :=
  match sl_first s with
  | None => None
  | Some first =>
    if first =? a then
      match sl_mem s !! a with
      | Some (_, next) => Some (mk_slist next (delete a (sl_mem s)))
      | None => None
      end
    else
      match slist_unlink (S (size (sl_mem s))) first a (sl_mem s) with
      | Some m => Some (mk_slist (Some first) (delete a m))
      | None => None
      end
  end.

(** Writing a node's data. *)
Definition slist_set (a : Z) (f : D -> D) s : slist D :=
  match sl_mem s !! a with
  | Some (d, next) => mk_slist (sl_first s) (<[a := (f d, next)]> (sl_mem s))
  | None => s
  end.

(** The single accesses the macros are made of: a node [calloc] gives, the writes of the
    head and of a node's pointer, and [free]. *)
Definition slist_alloc (a : Z) (d : D) s : slist D := mk_slist (sl_first s) (<[a := (d, None)]> (sl_mem s)).
Definition slist_set_first (p : option Z) s : slist D := mk_slist p (sl_mem s).
Definition slist_link (c : Z) (next : option Z) s : option (slist D) :=
  match sl_mem s !! c with
  | Some (d, _) => Some (mk_slist (sl_first s) (<[c := (d, next)]> (sl_mem s)))
  | None => None
  end.
Definition slist_free (a : Z) s : option (slist D) :=
  match sl_mem s !! a with Some _ => Some (mk_slist (sl_first s) (delete a (sl_mem s))) | None => None end.

Definition slist_data (a : Z) s : option D := fst <$> sl_mem s !! a.
Definition slist_next (a : Z) s : option Z := match sl_mem s !! a with Some (_, n) => n | None => None end.

(** ** Representation *)

Fixpoint chain m (p : option Z) l : Prop :=
  match l with
  | [] => p = None
  | a :: l => p = Some a /\ exists d next, m !! a = Some (d, next) /\ chain m next l
  end.

Definition slist_rep s l : Prop := NoDup l /\ chain (sl_mem s) (sl_first s) l.

Lemma chain_frame m m' p l : (forall a, a ∈ l -> m' !! a = m !! a) -> chain m p l -> chain m' p l.
Proof.
  revert p. induction l as [|a l IH]; intros p E; cbn [chain]; [done|]. intros (-> & d & next & E1 & E2).
  split; [done|]. exists d, next. rewrite E by (by left). split; [done|]. apply IH; [|done].
  intros b Hb. apply E. by right.
Qed.

Lemma chain_in m p l a : chain m p l -> a ∈ l -> exists d next, m !! a = Some (d, next).
Proof.
  revert p. induction l as [|b l IH]; intros p; cbn [chain]; [by intros _ ?%not_elem_of_nil|].
  intros (_ & d & next & E & C) [-> | Hin]%elem_of_cons; [by exists d, next|by apply (IH next)].
Qed.

Lemma chain_app m p l1 l2 : chain m p (l1 ++ l2) <->
  exists q, (forall l', chain m q l' -> chain m p (l1 ++ l')) /\ chain m q l2.
Proof.
  revert p. induction l1 as [|a l1 IH]; intros p; cbn [app chain].
  - split; [intros C; by exists p|]. intros (q & C1 & C2). by apply C1.
  - split.
    + intros (-> & d & next & E & C). apply IH in C as (q & C1 & C2). exists q. split; [|done].
      intros l' C'. split; [done|]. exists d, next. split; [done|]. by apply C1.
    + intros (q & C1 & C2). apply (C1 l2 C2).
Qed.

(** The node after [a] in the chain. *)
Lemma chain_next m p l1 a l2 : chain m p (l1 ++ a :: l2) ->
  exists d next, m !! a = Some (d, next) /\ chain m next l2 /\
    (next = match l2 with b :: _ => Some b | [] => None end).
Proof.
  intros (q & _ & C)%chain_app. destruct C as (-> & d & next & E & C). exists d, next. split_and!; [done..|].
  destruct l2; [done|]. by destruct C as [-> _].
Qed.

(** Replacing the pointer of the last node of a prefix. *)
Lemma chain_relink m p l1 a l2 l3 d next m' :
  NoDup (l1 ++ a :: l2) -> chain m p (l1 ++ a :: l2) ->
  (forall b, b ∈ l1 -> m' !! b = m !! b) -> m' !! a = Some (d, next) -> chain m' next l3 ->
  chain m' p (l1 ++ a :: l3).
Proof.
  revert p. induction l1 as [|b l1 IH]; intros p Hn C Hf Ha C3; cbn [app chain] in *.
  - destruct C as (-> & _). split; [done|]. by exists d, next.
  - destruct C as (-> & db & nb & E & C). apply NoDup_cons in Hn as [_ Hn]. split; [done|].
    exists db, nb. rewrite Hf by (by left). split; [done|]. apply IH; [done|done| |done|done].
    intros x Hx. apply Hf. by right.
Qed.

Lemma rep_empty : slist_rep (slist_empty : slist D) [].
Proof. by split; [apply NoDup_nil_2|]. Qed.

Lemma chain_unique m l : forall p l', chain m p l -> chain m p l' -> l = l'.
Proof.
  induction l as [|a l IH]; intros p [|b l']; cbn [chain].
  - done.
  - by intros -> [? _].
  - by intros [-> _] ?.
  - intros (-> & d & n & E & C) ([= <-] & d' & n' & E' & C'). rewrite E in E'. injection E' as <- <-. f_equal. by apply (IH n).
Qed.
Lemma rep_unique s l l' : slist_rep s l -> slist_rep s l' -> l = l'.
Proof. intros [_ C] [_ C']. by apply (chain_unique (sl_mem s) l (sl_first s)). Qed.

Lemma rep_first s l : slist_rep s l -> sl_first s = head l.
Proof. intros [_ C]. destruct l; [done|]. by destruct C. Qed.

Lemma rep_insert_head s l a d : slist_rep s l -> sl_mem s !! a = None -> slist_rep (slist_insert_head a d s) (a :: l).
Proof.
  intros [Hn C] Ha. split.
  - apply NoDup_cons. split; [|done]. intros Hin. destruct (chain_in _ _ _ _ C Hin) as (? & ? & E). congruence.
  - cbn [chain slist_insert_head sl_first sl_mem]. split; [done|]. exists d, (sl_first s). rewrite lookup_insert_eq.
    split; [done|]. apply (chain_frame (sl_mem s)); [|done]. intros b Hb. rewrite lookup_insert_ne; [done|].
    intros <-. destruct (chain_in _ _ _ _ C Hb) as (? & ? & E). congruence.
Qed.

Lemma chain_size m p l : NoDup l -> chain m p l -> (length l <= size m)%nat.
Proof.
  intros Hn C. assert (Hs : list_to_set l ⊆ dom m).
  { intros a Ha%elem_of_list_to_set. apply elem_of_dom. destruct (chain_in _ _ _ _ C Ha) as (? & ? & ->). by eexists. }
  apply subseteq_size in Hs. by rewrite size_list_to_set, size_dom in Hs.
Qed.

Lemma unlink_spec m a da after l0 : forall fuel cur c dc l2, m !! a = Some (da, after) ->
  NoDup (cur :: l0 ++ c :: a :: l2) -> (length l0 + 1 < fuel)%nat ->
  chain m (Some cur) (cur :: l0 ++ c :: a :: l2) -> m !! c = Some (dc, Some a) ->
  slist_unlink fuel cur a m = Some (<[c := (dc, after)]> m).
Proof.
  induction l0 as [|b l0 IH]; intros fuel cur c dc l2 Ha Hn Hf (_ & d & next & E & C) Hc;
    destruct fuel as [|fuel]; try lia; cbn [app slist_unlink] in *; rewrite E.
  - destruct C as (-> & d' & n' & Ec & C). rewrite Hc in Ec. injection Ec as <- <-.
    assert (c <> a) by (intros ->; apply NoDup_cons in Hn as [_ Hn]; apply NoDup_cons in Hn as [Hn _]; set_solver).
    replace (c =? a) with false by lia. destruct fuel as [|fuel]; [cbn in Hf; lia|]. cbn [slist_unlink]. rewrite Hc.
    by rewrite Z.eqb_refl, Ha.
  - pose proof C as (-> & _). assert (b <> a) by (intros ->; apply NoDup_cons in Hn as [_ Hn]; apply NoDup_cons in Hn as [Hn _]; set_solver).
    replace (b =? a) with false by lia. apply (IH fuel b c dc l2); try done; [|cbn in Hf; lia].
    by apply NoDup_cons in Hn as [_ Hn].
Qed.

Lemma unlink_from_first m f l1 l0 c a l2 da after dc : f :: l1 = l0 ++ [c] -> m !! a = Some (da, after) ->
  m !! c = Some (dc, Some a) -> NoDup (l0 ++ c :: a :: l2) -> chain m (Some f) (l0 ++ c :: a :: l2) ->
  slist_unlink (S (size m)) f a m = Some (<[c := (dc, after)]> m).
Proof.
  intros El E Ec Hn C. destruct l0 as [|f' l0]; cbn [app] in El; injection El as <- El.
  - subst l1. cbn [slist_unlink]. by rewrite Ec, Z.eqb_refl, E.
  - cbn [app] in C, Hn. pose proof (chain_size _ _ _ Hn C) as Hsz. cbn [length] in Hsz. rewrite length_app in Hsz.
    cbn [length] in Hsz. apply (unlink_spec _ _ da after l0 _ f c dc l2 E Hn); [lia|done|done].
Qed.

Lemma rep_remove s l1 a l2 : slist_rep s (l1 ++ a :: l2) ->
  exists s', slist_remove a s = Some s' /\ slist_rep s' (l1 ++ l2) /\ sl_mem s' !! a = None /\
    (forall b, b <> a -> slist_data b s' = slist_data b s) /\
    (forall b, b ∈ l2 -> slist_next b s' = slist_next b s).
Proof.
  intros [Hn C]. destruct (chain_next _ _ _ _ _ C) as (da & after & E & C2 & _).
  pose proof Hn as (N1 & N12 & N2)%NoDup_app. apply NoDup_cons in N2 as [Na N2].
  assert (Hn' : NoDup (l1 ++ l2)) by (apply NoDup_app; split_and!; [done|set_solver|done]).
  unfold slist_remove. rewrite (rep_first s _ (conj Hn C)). destruct l1 as [|f l1].
  - cbn [app head]. rewrite Z.eqb_refl, E. eexists. split; [reflexivity|]. cbn [sl_first sl_mem].
    split; [split; [done|]|split; [apply lookup_delete_eq|split]].
    + cbn [sl_first sl_mem]. apply (chain_frame (sl_mem s)); [|done]. intros b Hb. rewrite lookup_delete_ne; [done|]. by intros <-.
    + intros b Hb. unfold slist_data. cbn [sl_mem]. by rewrite lookup_delete_ne.
    + intros b Hb. unfold slist_next. cbn [sl_mem]. rewrite lookup_delete_ne; [done|]. by intros <-.
  - cbn [app head]. assert (Hfa : f <> a) by (intros ->; specialize (N12 a); set_solver).
    replace (f =? a) with false by lia.
    assert (Hl : exists l0 c, f :: l1 = l0 ++ [c]).
    { destruct (exists_last (l := f :: l1)) as (l0 & c & ->); [done|]. by exists l0, c. }
    destruct Hl as (l0 & c & El). rewrite El in *. rewrite <- app_assoc in C, Hn. cbn [app] in C, Hn.
    destruct (chain_next _ _ _ _ _ C) as (dc & nc & Ec & _ & ->).
    assert (Hca : c <> a) by (intros ->; specialize (N12 a); set_solver).
    assert (Eu : slist_unlink (S (size (sl_mem s))) f a (sl_mem s) = Some (<[c := (dc, after)]> (sl_mem s))).
    { apply (unlink_from_first _ _ l1 l0 _ _ l2 da); try done.
      destruct l0; cbn [app] in *; injection El as -> _; pose proof C as (Ef & _); by rewrite Ef in C. }
    rewrite Eu. eexists. split; [reflexivity|]. cbn [sl_first sl_mem].
    change (f :: l1 ++ l2) with ((f :: l1) ++ l2). rewrite El.
    split; [split; [done|]|split; [apply lookup_delete_eq|split]].
    + rewrite <- app_assoc. cbn [app]. clear Eu. cbn [sl_first sl_mem].
      assert (Ef : sl_first s = Some f) by (destruct l0; cbn [app] in *; injection El as -> _; by destruct C as [-> _]).
      rewrite <- Ef.
      eapply (chain_relink (sl_mem s)); [exact Hn|exact C| | |].
      * intros b Hb. rewrite lookup_delete_ne, lookup_insert_ne; [done|..].
        -- intros <-. apply NoDup_app in Hn as (_ & Hd & _). specialize (Hd c Hb). set_solver.
        -- intros <-. specialize (N12 a). set_solver.
      * rewrite lookup_delete_ne, lookup_insert_eq by done. reflexivity.
      * apply (chain_frame (sl_mem s)); [|done]. intros b Hb. rewrite lookup_delete_ne, lookup_insert_ne; [done|..].
        -- intros <-. specialize (N12 c). set_solver.
        -- by intros <-.
    + intros b Hb. unfold slist_data. cbn [sl_mem]. rewrite lookup_delete_ne by done.
      destruct (decide (b = c)) as [->|]; [by rewrite lookup_insert_eq, Ec|by rewrite lookup_insert_ne].
    + intros b Hb. unfold slist_next. cbn [sl_mem]. rewrite lookup_delete_ne, lookup_insert_ne; [done|..].
      * intros <-. specialize (N12 c). set_solver.
      * by intros <-.
Qed.

Lemma rep_set s l a f : slist_rep s l -> slist_rep (slist_set a f s) l /\
  (forall b, slist_data b (slist_set a f s) = (if decide (b = a) then f <$> slist_data b s else slist_data b s)) /\
  (forall b, slist_next b (slist_set a f s) = slist_next b s).
Proof.
  intros [Hn C]. unfold slist_set. destruct (sl_mem s !! a) as [[d next]|] eqn:E.
  - split; [split; [done|]|split].
    + cbn [sl_first sl_mem]. clear Hn. revert C. generalize (sl_first s). induction l as [|b l IH]; intros p; cbn [chain]; [done|].
      intros (-> & db & nb & Eb & C). split; [done|]. destruct (decide (b = a)) as [->|Hb].
      * rewrite E in Eb. injection Eb as <- <-. exists (f d), next. rewrite lookup_insert_eq. split; [done|by apply IH].
      * exists db, nb. rewrite lookup_insert_ne by done. split; [done|by apply IH].
    + intros b. unfold slist_data. cbn [sl_mem]. destruct (decide (b = a)) as [->|]; [by rewrite lookup_insert_eq, E|by rewrite lookup_insert_ne].
    + intros b. unfold slist_next. cbn [sl_mem]. destruct (decide (b = a)) as [->|]; [by rewrite lookup_insert_eq, E|by rewrite lookup_insert_ne].
  - split; [done|split; [|done]]. intros b. case_decide; [|done]. subst. unfold slist_data. by rewrite E.
Qed.

(** ** The single accesses *)

Lemma data_link c next s s' b : slist_link c next s = Some s' -> slist_data b s' = slist_data b s.
Proof.
  unfold slist_link, slist_data. destruct (sl_mem s !! c) as [[d n]|] eqn:E; [|done]. intros [= <-]. cbn [sl_mem].
  destruct (decide (b = c)) as [->|]; [by rewrite lookup_insert_eq, E|by rewrite lookup_insert_ne].
Qed.

Lemma rep_outside s l a m' : slist_rep s l -> a ∉ l -> (forall b, b <> a -> m' !! b = sl_mem s !! b) ->
  slist_rep (mk_slist (sl_first s) m') l.
Proof.
  intros [Hn C] Ha Hm. split; [done|]. apply (chain_frame (sl_mem s)); [|done]. intros b Hb. apply Hm. by intros ->.
Qed.

Lemma rep_alloc s l a d : slist_rep s l -> sl_mem s !! a = None -> a ∉ l /\ slist_rep (slist_alloc a d s) l.
Proof.
  intros R Ha. assert (Hl : a ∉ l) by (intros Hin; destruct (chain_in _ _ _ _ (proj2 R) Hin) as (? & ? & ?); congruence).
  split; [done|]. apply (rep_outside s l a _ R Hl). intros b Hb. by rewrite lookup_insert_ne.
Qed.

Lemma rep_free s l a x : slist_rep s l -> a ∉ l -> sl_mem s !! a = Some x ->
  exists s', slist_free a s = Some s' /\ slist_rep s' l /\ sl_mem s' !! a = None /\
    forall b, b <> a -> slist_data b s' = slist_data b s.
Proof.
  intros R Ha E. unfold slist_free. rewrite E. eexists. split; [reflexivity|]. split; [|split; [apply lookup_delete_eq|]].
  - apply (rep_outside s l a _ R Ha). intros b Hb. by rewrite lookup_delete_ne.
  - intros b Hb. unfold slist_data. cbn [sl_mem]. by rewrite lookup_delete_ne.
Qed.

(** The node [a], initialised and outside the list, becomes its head or its tail. *)
Lemma rep_link_first s a d : slist_rep s [] -> sl_mem s !! a = Some (d, None) -> slist_rep (slist_set_first (Some a) s) [a].
Proof. intros _ E. split; [apply NoDup_singleton|]. split; [done|]. by exists d, None. Qed.

Lemma rep_link_tail s l0 c a d : slist_rep s (l0 ++ [c]) -> a ∉ l0 ++ [c] -> sl_mem s !! a = Some (d, None) ->
  exists s', slist_link c (Some a) s = Some s' /\ slist_rep s' ((l0 ++ [c]) ++ [a]).
Proof.
  intros [Hn C] Ha E. destruct (chain_next _ _ _ _ _ C) as (dc & next & Ec & _ & _). unfold slist_link. rewrite Ec.
  assert (Hac : a <> c) by set_solver. assert (Hc0 : c ∉ l0).
  { apply NoDup_app in Hn as (_ & Hd & _). intros Hin. apply (Hd c Hin). set_solver. }
  eexists. split; [reflexivity|]. rewrite <- app_assoc. split.
  - rewrite app_assoc. apply NoDup_app. split_and!; [done|set_solver|apply NoDup_singleton].
  - cbn [sl_first sl_mem app]. eapply (chain_relink (sl_mem s)); [exact Hn|exact C| | |].
    + intros b Hb. rewrite lookup_insert_ne; [done|]. by intros ->.
    + apply lookup_insert_eq.
    + split; [done|]. exists d, None. by rewrite lookup_insert_ne.
Qed.

(** The node [a] leaves the list: the head, or the pointer before it, goes past it. *)
Lemma rep_unlink_first s a l2 : slist_rep s (a :: l2) -> slist_rep (slist_set_first (head l2) s) l2 /\ a ∉ l2.
Proof.
  intros [Hn (_ & d & next & E & C)]. apply NoDup_cons in Hn as [Ha Hn]. split; [|done]. split; [done|].
  cbn [slist_set_first sl_first sl_mem]. destruct l2 as [|b l2]; [done|]. pose proof C as (-> & _). exact C.
Qed.

Lemma rep_unlink_after s l0 c a l2 : slist_rep s (l0 ++ c :: a :: l2) ->
  exists s', slist_link c (head l2) s = Some s' /\ slist_rep s' (l0 ++ c :: l2) /\ a ∉ l0 ++ c :: l2.
Proof.
  intros [Hn C]. destruct (chain_next _ _ _ _ _ C) as (dc & next & Ec & C1 & ->).
  destruct C1 as (_ & da & na & Ea & C2). unfold slist_link. rewrite Ec. eexists. split; [reflexivity|].
  pose proof Hn as (N1 & N12 & N2)%NoDup_app. apply NoDup_cons in N2 as [Nc N2]. apply NoDup_cons in N2 as [Na N2].
  split; [split|].
  - apply NoDup_app. split_and!; [done| |apply NoDup_cons; split; [set_solver|done]].
    intros b Hb. specialize (N12 b Hb). set_solver.
  - cbn [sl_first sl_mem]. eapply (chain_relink (sl_mem s)); [exact Hn|exact C| | |].
    + intros b Hb. rewrite lookup_insert_ne; [done|]. intros <-. specialize (N12 c Hb). set_solver.
    + apply lookup_insert_eq.
    + apply (chain_frame (sl_mem s)).
      * intros b Hb. rewrite lookup_insert_ne; [done|]. intros <-. set_solver.
      * destruct l2 as [|b l2]; [done|]. pose proof C2 as (-> & _). exact C2.
  - intros Hin. apply elem_of_app in Hin as [Hin|[->|Hin]%elem_of_cons]; [|set_solver|done].
    specialize (N12 a Hin). set_solver.
Qed.

Lemma rep_node s l1 a l2 : slist_rep s (l1 ++ a :: l2) -> exists d, sl_mem s !! a = Some (d, head l2).
Proof. intros [_ C]. destruct (chain_next _ _ _ _ _ C) as (d & next & E & _ & ->). exists d. by destruct l2. Qed.
End Slist.

(** ** [SLIST_FOREACH_SAFE] *)

Section Foreach.
Context {D St : Type} (list_of : St -> slist D).
Variable body : Z -> D -> St -> option St.

(** The loop from the node [cur]; the next node is read before the body runs. *)
Fixpoint foreach_safe (fuel : nat) (cur : option Z) (s : St) : option St :=
  match fuel with
  | O => None
  | S fuel =>
    match cur with
    | None => Some s
    | Some a =>
      match sl_mem (list_of s) !! a with
      | None => None
      | Some (d, next) =>
        match body a d s with
        | Some s => foreach_safe fuel next s
        | None => None
        end
      end
    end
  end.
Definition foreach (s : St) : option St :=
  foreach_safe (S (size (sl_mem (list_of s)))) (sl_first (list_of s)) s.

(** A body that keeps its node or takes it out, leaving the others' data alone, goes
    through the whole list. *)
Variable keep : Z -> D -> bool.
Variable inv : St -> Prop.
Hypothesis body_ok : forall s l1 a l2 d, inv s -> slist_rep (list_of s) (l1 ++ a :: l2) ->
  slist_data a (list_of s) = Some d ->
  exists s', body a d s = Some s' /\ inv s' /\
    slist_rep (list_of s') (l1 ++ (if keep a d then [a] else []) ++ l2) /\
    forall b, b <> a -> slist_data b (list_of s') = slist_data b (list_of s).

Definition kept (sl : slist D) (a : Z) : bool :=
  match slist_data a sl with Some d => keep a d | None => true end.

Lemma foreach_from l2 : forall fuel l1 s, (length l2 < fuel)%nat -> inv s -> slist_rep (list_of s) (l1 ++ l2) ->
  exists s', foreach_safe fuel (head l2) s = Some s' /\ inv s' /\
    slist_rep (list_of s') (l1 ++ List.filter (kept (list_of s)) l2) /\
    forall b, b ∉ l2 -> slist_data b (list_of s') = slist_data b (list_of s).
Proof.
  induction l2 as [|a l2 IH]; intros fuel l1 s Hf I R; (destruct fuel as [|fuel]; [cbn in Hf; lia|]); cbn [head foreach_safe].
  - exists s. cbn. rewrite app_nil_r in R. by rewrite app_nil_r.
  - pose proof R as [Nd C]. destruct (chain_next _ _ _ _ _ C) as (d & next & E & _ & En). rewrite E.
    assert (Enx : next = head l2) by (by destruct l2). clear En. subst next.
    assert (Ed : slist_data a (list_of s) = Some d) by (unfold slist_data; by rewrite E).
    destruct (body_ok s l1 a l2 d I R Ed) as (s1 & -> & I1 & R1 & D1).
    pose proof Nd as (_ & N12 & [Na N2]%NoDup_cons)%NoDup_app.
    assert (Ek : List.filter (kept (list_of s1)) l2 = List.filter (kept (list_of s)) l2).
    { apply filter_ext_in. intros b Hb%list_elem_of_In. unfold kept. rewrite D1; [done|]. by intros ->. }
    destruct (IH fuel (l1 ++ if keep a d then [a] else []) s1) as (s' & E2 & I2 & R2 & D2);
      [cbn in Hf; lia|done|by rewrite <- app_assoc|].
    exists s'. split; [done|]. split; [done|]. split.
    + rewrite Ek, <- app_assoc in R2. cbn [List.filter]. unfold kept at 1. rewrite Ed. by destruct (keep a d).
    + intros b Hb. rewrite D2, D1; [done|..]; set_solver.
Qed.

Lemma foreach_ok s l : inv s -> slist_rep (list_of s) l ->
  exists s', foreach s = Some s' /\ inv s' /\ slist_rep (list_of s') (List.filter (kept (list_of s)) l).
Proof.
  intros I R. pose proof R as [Nd C]. pose proof (chain_size _ _ _ Nd C). unfold foreach. rewrite (rep_first _ _ R).
  destruct (foreach_from l (S (size (sl_mem (list_of s)))) [] s) as (s' & E & I' & R' & _); [lia|done|done|].
  by exists s'.
Qed.
End Foreach.
