(* ===== verification/StatusLed.v ===== *)
(** * The status LED (src/main/status_led.c)

    Colours registered by the interfaces are shown in turn by one task.  The list is
    [Slist].  No lock guards it, so a registration ([status_led_add]) and the removal of
    a colour ([slist_remove_turn]) are taken apart into their single accesses to the list;
    [led_exec] is one access of the task or of a caller.  A turn of the task gives the
    calls it makes on the LED driver. *)

From stdpp Require Import gmap.
From S2P Require Import Prelude Slist.

#[local] Open Scope Z_scope.

Inductive status_led_flashing_mode_t := STATUS_LED_STATIC | STATUS_LED_FADE | STATUS_LED_BLINK.

Record status_led_color_t := mk_led {
  ld_red : Z;
  ld_green : Z;
  ld_blue : Z;
  ld_mode : status_led_flashing_mode_t;
  ld_interval : Z;
  ld_duration : Z;
  ld_expire : Z;
  ld_remove : bool;
  ld_active : bool
}.

(** Calls on the driver: a duty set, a fade begun, a delay; the timer, a channel and the
    fading service set up. *)
Inductive led_call :=
  | L_duty (channel value : Z)
  | L_fade (channel value ms : Z)
  | L_delay (ms : Z)
  | L_timer (bits freq_hz : Z)
  | L_channel (channel gpio duty : Z)
  | L_fade_install.

Definition STATUS_LED_RED_CHANNEL : Z := 0.
Definition STATUS_LED_GREEN_CHANNEL : Z := 1.
Definition STATUS_LED_BLUE_CHANNEL : Z := 2.
Definition STATUS_LED_RSSI_CHANNEL : Z := 3.

Definition STATUS_LED_SLEEP_CHANNEL : Z := 4.
Definition STATUS_LED_ASSOC_CHANNEL : Z := 5.
Definition STATUS_LED_FREQ : Z := 1000.

(** The set-up: the colours and the sleep LED at full duty, which is dark, the other two at none. *)
Definition status_led_init : list led_call :=
  [L_timer 8 STATUS_LED_FREQ;
   L_channel STATUS_LED_RED_CHANNEL 21 255; L_channel STATUS_LED_GREEN_CHANNEL 22 255;
   L_channel STATUS_LED_BLUE_CHANNEL 19 255; L_channel STATUS_LED_SLEEP_CHANNEL 27 255;
   L_channel STATUS_LED_RSSI_CHANNEL 32 0; L_channel STATUS_LED_ASSOC_CHANNEL 16 0; L_fade_install].

Definition status_led_channel_set (channel value : Z) : list led_call := [L_duty channel value].
Definition status_led_channel_fade (channel value ms : Z) : list led_call := [L_fade channel value ms].

Definition status_led_set (red green blue : Z) : list led_call :=
  status_led_channel_set STATUS_LED_RED_CHANNEL (u8 (255 - red)) ++
  status_led_channel_set STATUS_LED_GREEN_CHANNEL (u8 (255 - green)) ++
  status_led_channel_set STATUS_LED_BLUE_CHANNEL (u8 (255 - blue)).
Definition status_led_fade (red green blue ms : Z) : list led_call :=
  status_led_channel_fade STATUS_LED_RED_CHANNEL (u8 (255 - red)) ms ++
  status_led_channel_fade STATUS_LED_GREEN_CHANNEL (u8 (255 - green)) ms ++
  status_led_channel_fade STATUS_LED_BLUE_CHANNEL (u8 (255 - blue)) ms.

Definition rssi_led_set (value : Z) : list led_call := status_led_channel_set STATUS_LED_RSSI_CHANNEL value.
Definition rssi_led_fade (value ms : Z) : list led_call := status_led_channel_fade STATUS_LED_RSSI_CHANNEL value ms.
(** One turn of [rssi_led_blink]: the new state of the light. *)
Definition rssi_led_blink (on : bool) : bool * list led_call :=
  (negb on, rssi_led_set (if negb on then 255 else 0) ++ [L_delay 500]).

(** The frames of [status_led_show]'s loop, [n] of them. *)
Fixpoint led_frames (n : nat) (c : status_led_color_t) (active : bool) : list led_call :=
  match n with
  | O => []
  | S n =>
    let red := if active then ld_red c else 0 in
    let green := if active then ld_green c else 0 in
    let blue := if active then ld_blue c else 0 in
    (match ld_mode c with
     | STATUS_LED_FADE => status_led_fade red green blue (ld_interval c / 2)
     | _ => status_led_set red green blue
     end) ++ [L_delay (ld_interval c)] ++ led_frames n c (negb active)
  end.

(** [None]: the division by an interval of zero traps. *)
Definition status_led_show (c : status_led_color_t) : option (list led_call) :=
  match ld_mode c with
  | STATUS_LED_STATIC =>
    Some (status_led_set (ld_red c) (ld_green c) (ld_blue c) ++ [L_delay (ld_duration c)] ++ status_led_set 0 0 0)
  | _ =>
    if ld_interval c =? 0 then None
    else Some (led_frames (Z.to_nat (ld_duration c / ld_interval c)) c true ++ status_led_set 0 0 0)
  end.

(** ** The list *)

Definition new_color (rgba : Z) (mode : status_led_flashing_mode_t) (interval duration expire : Z)
    : status_led_color_t :=
  let red := u8 (Z.shiftr rgba 24) in
  let green := u8 (Z.shiftr rgba 16) in
  let blue := u8 (Z.shiftr rgba 8) in
  let alpha := u8 rgba in
  mk_led (u8 (red * alpha / 255)) (u8 (green * alpha / 255)) (u8 (blue * alpha / 255))
    mode interval duration expire false true.

(** Where a registration is: at the test for an empty list; writing the new node's
    pointer and the head; at the start of the loop and at a node of it; writing the new
    node's pointer and that of the last node; before the resume of the task. *)
Inductive add_pc :=
  | A_empty
  | A_head_next | A_head_first
  | A_first | A_loop (current : Z)
  | A_after_next (current : Z) | A_after_link (current : Z)
  | A_resume.

(** The next access of the registration of the node [a]; [None] where it follows a pointer
    to a node that is gone. *)
Definition status_led_add (a : Z) (pc : add_pc) (s : slist status_led_color_t)
    : option (slist status_led_color_t * add_pc) :=
  match pc with
  | A_empty => Some (s, match sl_first s with None => A_head_next | Some _ => A_first end)
  | A_head_next => match slist_link a (sl_first s) s with Some s => Some (s, A_head_first) | None => None end
  | A_head_first => Some (slist_set_first (Some a) s, A_resume)
  | A_first => Some (s, match sl_first s with None => A_resume | Some current => A_loop current end)
  | A_loop current =>
    match sl_mem s !! current with
    | None => None
    | Some (_, None) => Some (s, A_after_next current)
    | Some (_, Some next) => Some (s, A_loop next)
    end
  | A_after_next current =>
    match sl_mem s !! current with
    | None => None
    | Some (_, next) => match slist_link a next s with Some s => Some (s, A_after_link current) | None => None end
    end
  | A_after_link current => match slist_link current (Some a) s with Some s => Some (s, A_resume) | None => None end
  | A_resume => Some (s, A_resume)
  end.

Definition mark_remove (c : status_led_color_t) : status_led_color_t :=
  mk_led (ld_red c) (ld_green c) (ld_blue c) (ld_mode c) (ld_interval c) (ld_duration c) (ld_expire c) true (ld_active c).
Definition set_active (b : bool) (c : status_led_color_t) : status_led_color_t :=
  mk_led (ld_red c) (ld_green c) (ld_blue c) (ld_mode c) (ld_interval c) (ld_duration c) (ld_expire c) (ld_remove c) b.
Definition set_mode (m : status_led_flashing_mode_t) (c : status_led_color_t) : status_led_color_t :=
  mk_led (ld_red c) (ld_green c) (ld_blue c) m (ld_interval c) (ld_duration c) (ld_expire c) (ld_remove c) (ld_active c).

Definition status_led_remove (color : option Z) (s : slist status_led_color_t) : slist status_led_color_t :=
  match color with None => s | Some a => slist_set a mark_remove s end.

(** ** The task *)

(** Where a removal is: at the test for the head; reading the head, its pointer, and
    writing the head; at the start of the search, comparing and following the pointer of
    a node of it; reading the pointer of the node before, that of the node it leads to,
    and writing the former; freeing. *)
Inductive rem_pc :=
  | R_first
  | R_head | R_head_next (x : Z) | R_head_link (y : option Z)
  | R_scan_first | R_scan (cur : Z) | R_step (cur : Z)
  | R_after (cur : Z) | R_after_next (cur x : Z) | R_after_link (cur : Z) (y : option Z)
  | R_free.

(** The next access of [SLIST_REMOVE] and [free]; no [rem_pc] when they are done. *)
Definition slist_remove_turn {D} (color : Z) (r : rem_pc) (s : slist D) : option (slist D * option rem_pc) :=
  match r with
  | R_first => Some (s, Some (if decide (sl_first s = Some color) then R_head else R_scan_first))
  | R_head => match sl_first s with Some x => Some (s, Some (R_head_next x)) | None => None end
  | R_head_next x => match sl_mem s !! x with Some (_, y) => Some (s, Some (R_head_link y)) | None => None end
  | R_head_link y => Some (slist_set_first y s, Some R_free)
  | R_scan_first => match sl_first s with Some cur => Some (s, Some (R_scan cur)) | None => None end
  | R_scan cur =>
    match sl_mem s !! cur with
    | Some (_, next) => Some (s, Some (if decide (next = Some color) then R_after cur else R_step cur))
    | None => None
    end
  | R_step cur => match sl_mem s !! cur with Some (_, Some next) => Some (s, Some (R_scan next)) | _ => None end
  | R_after cur => match sl_mem s !! cur with Some (_, Some x) => Some (s, Some (R_after_next cur x)) | _ => None end
  | R_after_next cur x =>
    match sl_mem s !! x with Some (_, y) => Some (s, Some (R_after_link cur y)) | None => None end
  | R_after_link cur y => match slist_link cur y s with Some s => Some (s, Some R_free) | None => None end
  | R_free => match slist_free color s with Some s => Some (s, None) | None => None end
  end.

(** Where the task is: before its check of the list, between the check and the suspend,
    suspended, before the loop, at its head with the next colour, in its body with the
    colour and the one read after it, and removing the colour. *)
Inductive led_pc :=
  | P_check | P_suspend | P_suspended | P_foreach
  | P_head (color : option Z)
  | P_body (color : Z) (color_tmp : option Z)
  | P_remove (color : Z) (color_tmp : option Z) (r : rem_pc).

(** The list, the task, and the registrations under way by the node they add. *)
Record led_sys := mk_led_sys {
  ls_list : slist status_led_color_t;
  ls_pc : led_pc;
  ls_adds : gmap Z add_pc
}.

Definition led_boot : led_sys := mk_led_sys slist_empty P_check ∅.

(** One step of [status_led_task]; [None] where it would read a freed node or trap. *)
Definition status_led_task (s : led_sys) : option (led_sys * list led_call) :=
  let l := ls_list s in
  let go pc calls := Some (mk_led_sys l pc (ls_adds s), calls) in
  match ls_pc s with
  | P_check => go (match sl_first l with None => P_suspend | Some _ => P_foreach end) []
  | P_suspend => go P_suspended []
  | P_suspended => Some (s, [])
  | P_foreach => go (P_head (sl_first l)) []
  | P_head None => go P_check []
  | P_head (Some color) => match sl_mem l !! color with Some (_, next) => go (P_body color next) [] | None => None end
  | P_body color color_tmp =>
    match sl_mem l !! color with
    | None => None
    | Some (c, _) =>
      if ld_remove c then go (P_remove color color_tmp R_first) []
      else if ld_active c then
        match status_led_show c with Some calls => go (P_head color_tmp) calls | None => None end
      else go (P_head color_tmp) []
    end
  | P_remove color color_tmp r =>
    match slist_remove_turn color r l with
    | None => None
    | Some (l, r) =>
      Some (mk_led_sys l (match r with Some r => P_remove color color_tmp r | None => P_head color_tmp end) (ls_adds s), [])
    end
  end.

(** [vTaskResume]. *)
Definition led_resume (s : led_sys) : led_sys :=
  match ls_pc s with P_suspended => mk_led_sys (ls_list s) P_foreach (ls_adds s) | _ => s end.

(** A caller enters [status_led_add], [calloc] giving [a], and goes on. *)
Definition led_enter (a : Z) (c : status_led_color_t) (s : led_sys) : led_sys :=
  mk_led_sys (slist_alloc a c (ls_list s)) (ls_pc s) (<[a := A_empty]> (ls_adds s)).
Definition led_add_turn (a : Z) (s : led_sys) : option led_sys :=
  match ls_adds s !! a with
  | None => None
  | Some A_resume => Some (led_resume (mk_led_sys (ls_list s) (ls_pc s) (delete a (ls_adds s))))
  | Some pc =>
    match status_led_add a pc (ls_list s) with
    | Some (l, pc) => Some (mk_led_sys l (ls_pc s) (<[a := pc]> (ls_adds s)))
    | None => None
    end
  end.
Definition led_set (a : Z) (f : status_led_color_t -> status_led_color_t) (s : led_sys) : led_sys :=
  mk_led_sys (slist_set a f (ls_list s)) (ls_pc s) (ls_adds s).

(** The task against the callers: a step of the task, a registration entered and one of
    its accesses, and the writes to a colour. *)
Inductive led_event :=
  | E_turn
  | E_enter (a rgba : Z) (mode : status_led_flashing_mode_t) (interval duration expire : Z)
  | E_add (a : Z)
  | E_remove (a : Z) | E_active (a : Z) (b : bool) | E_mode (a : Z) (m : status_led_flashing_mode_t).

(** No caller passes an interval of zero or writes to a colour that was freed, and [calloc]
    gives an address not in use. *)
Definition led_exec (e : led_event) (s : led_sys) : option led_sys :=
  match e with
  | E_turn => option_map fst (status_led_task s)
  | E_enter a rgba mode interval duration expire =>
    if decide (sl_mem (ls_list s) !! a = None /\ ls_adds s !! a = None /\ 0 < interval)
    then Some (led_enter a (new_color rgba mode interval duration expire) s)
    else None
  | E_add a => led_add_turn a s
  | E_remove a =>
    if decide (is_Some (sl_mem (ls_list s) !! a))
    then Some (mk_led_sys (status_led_remove (Some a) (ls_list s)) (ls_pc s) (ls_adds s)) else None
  | E_active a b => if decide (is_Some (sl_mem (ls_list s) !! a)) then Some (led_set a (set_active b) s) else None
  | E_mode a m => if decide (is_Some (sl_mem (ls_list s) !! a)) then Some (led_set a (set_mode m) s) else None
  end.

(** The registrations and removals under way.  In a [calm] run there is never more than
    one; the task's walk and its showing go on meanwhile. *)
Definition under_way (s : led_sys) : nat :=
  size (ls_adds s) + match ls_pc s with P_remove _ _ _ => 1 | _ => 0 end.

Inductive led_reachable (calm : bool) : led_sys -> Prop :=
  | reach_boot : led_reachable calm led_boot
  | reach_step s e s' : led_reachable calm s -> led_exec e s = Some s' ->
      (calm = true -> (under_way s' <= 1)%nat) -> led_reachable calm s'.

Lemma premultiplied v a : 0 <= v < 256 -> 0 <= a < 256 -> 0 <= v * a / 255 <= v /\ u8 (v * a / 255) = v * a / 255.
Proof.
  intros Hv Ha. assert (0 <= v * a / 255 <= v).
  { split; [apply Z.div_pos; nia|]. apply Z.div_le_upper_bound; nia. }
  split; [done|]. apply u8_small. lia.
Qed.

(** ** Showing *)

Definition call_in_range (x : led_call) : Prop :=
  match x with L_duty _ v | L_fade _ v _ => 0 <= v <= 255 | _ => True end.
Definition delays (calls : list led_call) : Z :=
  foldr (fun x t => match x with L_delay ms => ms + t | _ => t end) 0 calls.

Lemma delays_app a b : delays (a ++ b) = delays a + delays b.
Proof. unfold delays. induction a as [|x a IH]; cbn [app foldr]; [done|]. destruct x; rewrite ?IH; lia. Qed.

Lemma led_set_ok r g b : Forall call_in_range (status_led_set r g b) /\ delays (status_led_set r g b) = 0.
Proof.
  split; [|done]. unfold status_led_set, status_led_channel_set. cbn [app].
  repeat (apply Forall_cons; split); [..|by apply Forall_nil]; cbn [call_in_range];
    match goal with |- 0 <= u8 ?x <= 255 => pose proof (u8_range x); lia end.
Qed.
Lemma led_fade_ok r g b ms : Forall call_in_range (status_led_fade r g b ms) /\ delays (status_led_fade r g b ms) = 0.
Proof.
  split; [|done]. unfold status_led_fade, status_led_channel_fade. cbn [app].
  repeat (apply Forall_cons; split); [..|by apply Forall_nil]; cbn [call_in_range];
    match goal with |- 0 <= u8 ?x <= 255 => pose proof (u8_range x); lia end.
Qed.

Lemma led_frames_ok n c : forall active, Forall call_in_range (led_frames n c active) /\
  delays (led_frames n c active) = Z.of_nat n * ld_interval c.
Proof.
  induction n as [|n IH]; intros active; cbn [led_frames]; [by split; [apply Forall_nil|]|].
  destruct (IH (negb active)) as [F D]. set (frame := match ld_mode c with STATUS_LED_FADE => _ | _ => _ end).
  assert (B : Forall call_in_range frame /\ delays frame = 0)
    by (unfold frame; destruct (ld_mode c); apply led_set_ok || apply led_fade_ok).
  destruct B as [B1 B2]. split.
  - rewrite Forall_app. split; [done|]. cbn [app]. by apply Forall_cons.
  - rewrite delays_app, B2. cbn [app]. change (delays (L_delay (ld_interval c) :: ?l)) with (ld_interval c + delays l). lia.
Qed.

Lemma show_ok c : 0 < ld_interval c -> 0 <= ld_duration c ->
  exists calls, status_led_show c = Some (calls ++ status_led_set 0 0 0) /\ Forall call_in_range calls /\
    0 <= delays calls <= ld_duration c /\ ld_duration c - ld_interval c < delays calls.
Proof.
  intros Hi Hd. unfold status_led_show.
  set (n := Z.to_nat (ld_duration c / ld_interval c)).
  assert (En : Z.of_nat n = ld_duration c / ld_interval c) by (unfold n; apply Z2Nat.id, Z.div_pos; lia).
  pose proof (Z.div_mod (ld_duration c) (ld_interval c) ltac:(lia)) as Dm.
  pose proof (Z.mod_pos_bound (ld_duration c) (ld_interval c) Hi) as Bm.
  assert (Loop : exists calls, (if ld_interval c =? 0 then None else Some (led_frames n c true ++ status_led_set 0 0 0)) =
      Some (calls ++ status_led_set 0 0 0) /\ Forall call_in_range calls /\
      0 <= delays calls <= ld_duration c /\ ld_duration c - ld_interval c < delays calls).
  { rewrite (proj2 (Z.eqb_neq _ _)) by lia. destruct (led_frames_ok n c true) as [F D].
    exists (led_frames n c true). rewrite D, En. split; [done|]. split; [done|]. nia. }
  destruct (ld_mode c); [|exact Loop|exact Loop].
  exists (status_led_set (ld_red c) (ld_green c) (ld_blue c) ++ [L_delay (ld_duration c)]). rewrite <- app_assoc.
  split; [done|]. destruct (led_set_ok (ld_red c) (ld_green c) (ld_blue c)) as [F D]. split.
  - rewrite Forall_app. split; [done|]. apply Forall_cons. by split; [|apply Forall_nil].
  - rewrite delays_app, D. change (delays [L_delay (ld_duration c)]) with (ld_duration c + 0). lia.
Qed.

(** ** A removal, access by access *)

(** The removal of [a] from [l1 ++ a :: l2] has come to [r], with [k] accesses left. *)
Definition rem_ok {D} (k : nat) (l1 : list Z) (a : Z) (l2 : list Z) (r : rem_pc) (s : slist D) : Prop :=
  match r with
  | R_free => k = 1%nat /\ slist_rep s (l1 ++ l2) /\ a ∉ l1 ++ l2 /\ is_Some (sl_mem s !! a)
  | _ =>
    slist_rep s (l1 ++ a :: l2) /\
    match r with
    | R_first => k = (2 * length l1 + 5)%nat
    | R_head => l1 = [] /\ k = 4%nat
    | R_head_next x => l1 = [] /\ x = a /\ k = 3%nat
    | R_head_link y => l1 = [] /\ y = head l2 /\ k = 2%nat
    | R_scan_first => l1 <> [] /\ k = (2 * length l1 + 4)%nat
    | R_scan cur => exists la lb, l1 = la ++ cur :: lb /\ k = (2 * length lb + 5)%nat
    | R_step cur => exists la lb, l1 = la ++ cur :: lb /\ lb <> [] /\ k = (2 * length lb + 4)%nat
    | R_after cur => exists la, l1 = la ++ [cur] /\ k = 4%nat
    | R_after_next cur x => exists la, l1 = la ++ [cur] /\ x = a /\ k = 3%nat
    | R_after_link cur y => exists la, l1 = la ++ [cur] /\ y = head l2 /\ k = 2%nat
    | R_free => False
    end
  end.

Lemma rep_node_in {D} (s : slist D) la cur lb a l2 : slist_rep s ((la ++ cur :: lb) ++ a :: l2) ->
  exists d, sl_mem s !! cur = Some (d, head (lb ++ [a])).
Proof.
  rewrite <- app_assoc. cbn [app]. intros R. destruct (rep_node s la cur _ R) as [d E]. exists d. rewrite E.
  by destruct lb.
Qed.

Lemma rep_middle_not_in {D} (s : slist D) l1 a l2 : slist_rep s (l1 ++ a :: l2) -> a ∉ l1 ++ l2.
Proof.
  intros [(_ & Hd & [Ha _]%NoDup_cons)%NoDup_app _]. intros [Hin|Hin]%elem_of_app; [|done].
  apply (Hd a Hin). by left.
Qed.

Lemma rem_step {D} k l1 a l2 r (s : slist D) : rem_ok k l1 a l2 r s ->
  exists s' r', slist_remove_turn a r s = Some (s', r') /\
    (forall b, b <> a -> slist_data b s' = slist_data b s) /\
    match r' with
    | Some r' => slist_data a s' = slist_data a s /\ exists k', k = S k' /\ rem_ok k' l1 a l2 r' s'
    | None => k = 1%nat /\ slist_rep s' (l1 ++ l2) /\ a ∉ l1 ++ l2 /\ slist_data a s' = None
    end.
Proof.
  destruct r as [| |x|y| |cur|cur|cur|cur x|cur y|]; cbn [rem_ok slist_remove_turn].
  - intros [R ->]. rewrite (rep_first _ _ R). eexists _, _. split; [reflexivity|]. split; [done|]. split; [done|].
    destruct l1 as [|f l1]; cbn [app head].
    + rewrite decide_True by done. exists 4%nat. done.
    + assert (f <> a). { pose proof (rep_middle_not_in s (f :: l1) a l2 R). set_solver. }
      rewrite decide_False by congruence. exists (2 * length (f :: l1) + 4)%nat. split; [lia|done].
  - intros (R & -> & ->). rewrite (rep_first _ _ R). cbn [app head]. eexists _, _. split; [reflexivity|].
    split; [done|]. split; [done|]. exists 3%nat. done.
  - intros (R & -> & -> & ->). destruct (rep_node s [] a l2 R) as [d E]. rewrite E. eexists _, _.
    split; [reflexivity|]. split; [done|]. split; [done|]. exists 2%nat. done.
  - intros (R & -> & -> & ->). eexists _, _. split; [reflexivity|]. split; [done|]. split; [done|].
    exists 1%nat. destruct (rep_unlink_first s a l2 R) as [R' Ha]. destruct (rep_node s [] a l2 R) as [d E].
    cbn [rem_ok app]. by split_and!.
  - intros (R & Hn & ->). destruct l1 as [|f l1]; [done|]. rewrite (rep_first _ _ R). cbn [app head].
    eexists _, _. split; [reflexivity|]. split; [done|]. split; [done|]. exists (2 * length l1 + 5)%nat.
    cbn [length]. split; [lia|]. split; [done|]. by exists [], l1.
  - intros (R & la & lb & -> & ->). destruct (rep_node_in s la cur lb a l2 R) as [d E]. rewrite E.
    eexists _, _. split; [reflexivity|]. split; [done|]. split; [done|]. destruct lb as [|b lb]; cbn [app head].
    + rewrite decide_True by done. exists 4%nat. split; [done|]. split; [done|]. by exists la.
    + assert (b <> a). { pose proof (rep_middle_not_in s _ a l2 R). set_solver. }
      rewrite decide_False by congruence. exists (2 * length (b :: lb) + 4)%nat. split; [lia|]. split; [done|].
      by exists la, (b :: lb).
  - intros (R & la & lb & -> & Hn & ->). destruct (rep_node_in s la cur lb a l2 R) as [d E]. rewrite E.
    destruct lb as [|b lb]; [done|]. cbn [app head]. eexists _, _. split; [reflexivity|]. split; [done|].
    split; [done|]. exists (2 * length lb + 5)%nat. cbn [length]. split; [lia|]. split; [done|].
    exists (la ++ [cur]), lb. by rewrite <- app_assoc.
  - intros (R & la & -> & ->). destruct (rep_node_in s la cur [] a l2 R) as [d E]. rewrite E. cbn [app head].
    eexists _, _. split; [reflexivity|]. split; [done|]. split; [done|]. exists 3%nat. split; [done|].
    split; [done|]. by exists la.
  - intros (R & la & -> & -> & ->). destruct (rep_node s (la ++ [cur]) a l2 R) as [d E]. rewrite E.
    eexists _, _. split; [reflexivity|]. split; [done|]. split; [done|]. exists 2%nat. split; [done|].
    split; [done|]. by exists la.
  - intros (R & la & -> & -> & ->). destruct (rep_node s (la ++ [cur]) a l2 R) as [d E].
    rewrite <- app_assoc in R. cbn [app] in R. destruct (rep_unlink_after s la cur a l2 R) as (s' & El & R' & Ha).
    rewrite El. eexists _, _. split; [reflexivity|]. split; [intros; by apply (data_link _ _ _ _ _ El)|].
    split; [by apply (data_link _ _ _ _ _ El)|]. exists 1%nat. split; [done|]. cbn [rem_ok].
    rewrite <- app_assoc. cbn [app]. split_and!; try done.
    pose proof (data_link _ _ _ _ a El) as Ed. unfold slist_data in Ed. rewrite E in Ed.
    destruct (sl_mem s' !! a); [done|discriminate Ed].
  - intros (-> & R & Ha & [x E]). destruct (rep_free s _ a x R Ha E) as (s' & -> & R' & Em & D').
    eexists _, _. split; [reflexivity|]. split; [done|]. split_and!; try done. unfold slist_data. by rewrite Em.
Qed.

(** ** A registration, access by access *)

(** The node [a] with the colour [c] is on its way to the tail of [l]; [k] accesses left. *)
Definition add_ok (k : nat) (l : list Z) (a : Z) (pc : add_pc) (s : slist status_led_color_t) : Prop :=
  match pc with
  | A_resume => k = 0%nat /\ exists l0, l = l0 ++ [a]
  | _ =>
    a ∉ l /\ (exists c, sl_mem s !! a = Some (c, None)) /\
    match pc with
    | A_empty => k = match l with [] => 3%nat | _ => (length l + 4)%nat end
    | A_head_next => l = [] /\ k = 2%nat
    | A_head_first => l = [] /\ k = 1%nat
    | A_first => l <> [] /\ k = (length l + 3)%nat
    | A_loop current => exists la lb, l = la ++ current :: lb /\ k = (length lb + 3)%nat
    | A_after_next current => exists la, l = la ++ [current] /\ k = 2%nat
    | A_after_link current => exists la, l = la ++ [current] /\ k = 1%nat
    | A_resume => False
    end
  end.

Lemma link_same {D} (s : slist D) a d n : sl_mem s !! a = Some (d, n) -> slist_link a n s = Some s.
Proof. intros E. unfold slist_link. rewrite E, insert_id by done. by destruct s. Qed.

Lemma add_step k l a pc s : pc <> A_resume -> slist_rep s l -> add_ok k l a pc s ->
  exists s' pc' l' k', status_led_add a pc s = Some (s', pc') /\ k = S k' /\ slist_rep s' l' /\ add_ok k' l' a pc' s' /\
    (forall b, slist_data b s' = slist_data b s) /\ l' = match pc' with A_resume => l ++ [a] | _ => l end.
Proof.
  intros Hpc R. destruct pc as [| | | |cur|cur|cur|]; [..|done]; cbn [add_ok status_led_add].
  - intros (Ha & Hc & ->). rewrite (rep_first _ _ R). destruct l as [|f l]; cbn [head].
    + by eexists _, _, [], 2%nat.
    + eexists _, _, (f :: l), (length (f :: l) + 3)%nat. split; [reflexivity|]. by rewrite Nat.add_succ_r.
  - intros (Ha & [c E] & -> & ->). rewrite (rep_first _ _ R). cbn [head]. rewrite (link_same s a c None E).
    eexists _, _, [], 1%nat. split; [reflexivity|]. split; [done|]. split; [done|]. split; [|done].
    split; [done|]. split; [by exists c|done].
  - intros (Ha & [c E] & -> & ->). eexists _, _, [a], 0%nat. split; [reflexivity|]. split; [done|].
    split; [by apply (rep_link_first s a c)|]. split; [by split; [|exists []]|done].
  - intros (Ha & Hc & Hn & ->). rewrite (rep_first _ _ R). destruct l as [|f l]; [done|]. cbn [head length].
    eexists _, _, (f :: l), (length l + 3)%nat. split; [reflexivity|]. split; [done|]. split; [done|].
    split; [|done]. split; [done|]. split; [done|]. by exists [], l.
  - intros (Ha & Hc & la & lb & -> & ->). destruct (rep_node s la cur lb R) as [d E]. rewrite E.
    destruct lb as [|b lb]; cbn [head]; eexists _, _, _, _; (split; [reflexivity|]).
    + split; [done|]. split; [exact R|]. split; [|done]. split; [done|]. split; [done|]. by exists la.
    + split; [done|]. split; [exact R|]. split; [|done]. split; [done|]. split; [done|].
      exists (la ++ [cur]), lb. by rewrite <- app_assoc.
  - intros (Ha & [c Ec] & la & -> & ->). destruct (rep_node s la cur [] R) as [d E]. rewrite E. cbn [head].
    rewrite (link_same s a c None Ec). eexists _, _, _, _. split; [reflexivity|]. split; [done|].
    split; [exact R|]. split; [|done]. split; [done|]. split; [by exists c|]. by exists la.
  - intros (Ha & [c Ec] & la & -> & ->). destruct (rep_link_tail s la cur a c R Ha Ec) as (s' & El & R').
    rewrite El. eexists _, _, _, 0%nat. split; [reflexivity|]. split; [done|]. split; [exact R'|].
    split; [by split; [|eexists]|]. split; [|done]. intros b. by apply (data_link _ _ _ _ _ El).
Qed.

(** ** The list under the task and its callers *)

Definition unlinked (r : rem_pc) (l1 : list Z) (a : Z) (l2 : list Z) : list Z :=
  match r with R_free => l1 ++ l2 | _ => l1 ++ a :: l2 end.

Record led_ok (s : led_sys) (l : list Z) : Prop := {
  lo_rep : slist_rep (ls_list s) l;
  lo_head : forall a, ls_pc s = P_head (Some a) -> a ∈ l;
  lo_body : forall a n, ls_pc s = P_body a n -> a ∈ l /\ forall b, n = Some b -> b ∈ l /\ b <> a;
  lo_remove : forall a n r, ls_pc s = P_remove a n r -> exists k l1 l2,
    rem_ok k l1 a l2 r (ls_list s) /\ l = unlinked r l1 a l2 /\ forall b, n = Some b -> b ∈ l1 ++ l2;
  lo_adds : forall a pc, ls_adds s !! a = Some pc -> exists k, add_ok k l a pc (ls_list s);
  lo_interval : forall a c, slist_data a (ls_list s) = Some c -> 0 < ld_interval c;
  lo_one : (under_way s <= 1)%nat
}.

Lemma data_of (l : slist status_led_color_t) a c next : sl_mem l !! a = Some (c, next) -> slist_data a l = Some c.
Proof. unfold slist_data. by intros ->. Qed.

Lemma show_total c : 0 < ld_interval c -> exists calls, status_led_show c = Some calls.
Proof.
  intros Hi. unfold status_led_show. rewrite (proj2 (Z.eqb_neq _ _)) by lia. destruct (ld_mode c); by eexists.
Qed.

Lemma rem_rep {D} k l1 a l2 r (s : slist D) : rem_ok k l1 a l2 r s -> slist_rep s (unlinked r l1 a l2).
Proof. destruct r; cbn [rem_ok unlinked]; tauto. Qed.

(** Alone, no registration is under way. *)
Lemma removing_alone s a n r : (under_way s <= 1)%nat -> ls_pc s = P_remove a n r -> ls_adds s = ∅.
Proof. unfold under_way. intros Ho E. rewrite E in Ho. apply map_size_empty_inv. lia. Qed.
Lemma adding_alone s a pc : (under_way s <= 1)%nat -> ls_adds s !! a = Some pc ->
  ls_adds s = {[a := pc]} /\ forall b n r, ls_pc s <> P_remove b n r.
Proof.
  unfold under_way. intros Ho E. rewrite <- (insert_delete_id _ _ _ E) in Ho.
  rewrite map_size_insert_None in Ho by apply lookup_delete_eq. split.
  - rewrite <- (insert_delete_id _ _ _ E). rewrite (map_size_empty_inv (delete a (ls_adds s))) by lia. done.
  - intros b n r Ep. rewrite Ep in Ho. lia.
Qed.

(** The steps of the task that leave the list as it is. *)
Lemma led_ok_goto s l pc : led_ok s l -> (forall a n r, ls_pc s <> P_remove a n r) ->
  (forall a, pc = P_head (Some a) -> a ∈ l) ->
  (forall a n, pc = P_body a n -> a ∈ l /\ forall b, n = Some b -> b ∈ l /\ b <> a) ->
  (forall a n r, pc <> P_remove a n r) ->
  led_ok (mk_led_sys (ls_list s) pc (ls_adds s)) l.
Proof.
  intros [R _ _ _ Had Hi Ho] Hs Hh Hb Hr. split; cbn [ls_list ls_pc ls_adds]; try done.
  - intros a n r E. by destruct (Hr a n r).
  - unfold under_way in *. cbn [ls_pc ls_adds]. destruct pc; try lia. by destruct (Hr color color_tmp r).
Qed.

Lemma led_ok_begin_remove s l a n : led_ok s l -> ls_pc s = P_body a n ->
  (under_way (mk_led_sys (ls_list s) (P_remove a n R_first) (ls_adds s)) <= 1)%nat ->
  led_ok (mk_led_sys (ls_list s) (P_remove a n R_first) (ls_adds s)) l.
Proof.
  intros [R _ Hb _ Had Hi _] Epc Ho. split; cbn [ls_list ls_pc ls_adds]; try done.
  destruct (Hb a n Epc) as [Ha Hn]. intros a' n' r [= <- <- <-].
  apply list_elem_of_split in Ha as (l1 & l2 & ->). exists (2 * length l1 + 5)%nat, l1, l2.
  split; [done|]. split; [done|]. intros b ->. destruct (Hn b eq_refl). set_solver.
Qed.

Lemma led_remove_ok s l a n r : led_ok s l -> ls_pc s = P_remove a n r ->
  exists s' calls l', status_led_task s = Some (s', calls) /\ led_ok s' l'.
Proof.
  intros [R _ _ Hr _ Hi Ho] Epc. destruct (Hr a n r Epc) as (k & l1 & l2 & K & _ & Hn).
  destruct (rem_step _ _ _ _ _ _ K) as (m & r' & E & D & P). unfold status_led_task. rewrite Epc, E.
  pose proof (removing_alone s a n r Ho Epc) as Ea.
  assert (Hi' : forall b c, slist_data b m = Some c -> 0 < ld_interval c).
  { intros b c Eb. apply (Hi b). destruct (decide (b = a)) as [->|]; [|by rewrite <- D].
    destruct r'; [destruct P as [P _]; congruence|destruct P as (_ & _ & _ & P); congruence]. }
  destruct r' as [r'|]; eexists _, _, _; (split; [reflexivity|]).
  - destruct P as [_ (k' & _ & K')]. pose proof (rem_rep _ _ _ _ _ _ K') as R'.
    split; cbn [ls_list ls_pc ls_adds]; [exact R'|done|done| | |done|].
    + intros a' n' r0 [= <- <- <-]. by exists k', l1, l2.
    + rewrite Ea. intros b pc Eb. by rewrite lookup_empty in Eb.
    + unfold under_way in *. by rewrite Epc in Ho.
  - destruct P as (_ & R' & _). split; cbn [ls_list ls_pc ls_adds]; [exact R'| |done|done| |done|].
    + intros b [= ->]. by apply Hn.
    + rewrite Ea. intros b pc Eb. by rewrite lookup_empty in Eb.
    + unfold under_way in *. rewrite Epc in Ho. cbn [ls_pc ls_adds]. lia.
Qed.

Lemma led_turn_ok s l : led_ok s l ->
  exists s' calls, status_led_task s = Some (s', calls) /\ ((under_way s' <= 1)%nat -> exists l', led_ok s' l').
Proof.
  intros K. pose proof K as [R Hh Hb _ _ Hi _]. pose proof R as [Nd C].
  destruct (ls_pc s) as [| | | |[a|]|a n|a n r] eqn:Epc.
  8: destruct (led_remove_ok s l a n r K Epc) as (s' & calls & l' & E & K'); rewrite E;
     eexists _, _; split; [reflexivity|]; intros _; by exists l'.
  all: unfold status_led_task; rewrite Epc.
  - eexists _, _. split; [reflexivity|]. intros _. exists l. apply led_ok_goto; try done; try (by rewrite Epc);
      intros; by destruct (sl_first (ls_list s)).
  - eexists _, _. split; [reflexivity|]. intros _. exists l. by apply led_ok_goto; rewrite ?Epc.
  - eexists _, _. split; [reflexivity|]. intros _. by exists l.
  - eexists _, _. split; [reflexivity|]. intros _. exists l. apply led_ok_goto; try done; try (by rewrite Epc).
    intros a [= E]. rewrite (rep_first _ _ R) in E. destruct l; [done|]. injection E as ->. by left.
  - specialize (Hh a eq_refl). apply list_elem_of_split in Hh as (l1 & l2 & ->).
    destruct (rep_node _ l1 a l2 R) as [d E]. rewrite E. eexists _, _. split; [reflexivity|]. intros _.
    exists (l1 ++ a :: l2). apply led_ok_goto; try done; try (by rewrite Epc). intros a' n [= <- <-].
    split; [set_solver|]. intros b Eb. destruct l2 as [|x l2]; [done|]. injection Eb as ->. split; [set_solver|].
    intros ->. apply NoDup_app in Nd as (_ & _ & [Nd _]%NoDup_cons). set_solver.
  - eexists _, _. split; [reflexivity|]. intros _. exists l. by apply led_ok_goto; rewrite ?Epc.
  - destruct (Hb a n eq_refl) as [Ha Hn]. pose proof (Ha) as (l1 & l2 & El)%list_elem_of_split. rewrite El in R.
    destruct (rep_node _ l1 a l2 R) as [d E]. rewrite E. destruct (ld_remove d).
    + eexists _, _. split; [reflexivity|]. intros Ho. exists l. by apply led_ok_begin_remove.
    + assert (Hk : led_ok (mk_led_sys (ls_list s) (P_head n) (ls_adds s)) l).
      { apply led_ok_goto; try done; try (by rewrite Epc). intros b [= ->]. by apply Hn. }
      destruct (ld_active d); [|by eexists _, _; split; [reflexivity|]; intros _; exists l].
      destruct (show_total d (Hi a d (data_of _ _ _ _ E))) as [calls ->].
      eexists _, _. split; [reflexivity|]. intros _. by exists l.
Qed.

(** Writing a colour changes no pointer. *)
Lemma set_lookup {D} (s : slist D) x f a d n : sl_mem s !! a = Some (d, n) ->
  exists d', sl_mem (slist_set x f s) !! a = Some (d', n).
Proof.
  intros E. unfold slist_set. destruct (decide (a = x)) as [->|].
  - rewrite E. cbn [sl_mem]. rewrite lookup_insert_eq. by eexists.
  - destruct (sl_mem s !! x) as [[d' n']|]; cbn [sl_mem]; [rewrite lookup_insert_ne by done|]; by eexists.
Qed.

Lemma rem_ok_set {D} k l1 a l2 r x f (s : slist D) : rem_ok k l1 a l2 r s -> rem_ok k l1 a l2 r (slist_set x f s).
Proof.
  assert (Hr : forall l, slist_rep s l -> slist_rep (slist_set x f s) l) by (intros l Hl; by apply rep_set).
  destruct r; cbn [rem_ok]; try (intros [R P]; split; [by apply Hr|exact P]).
  intros (-> & R & Ha & [[d n] E]). split_and!; [done|by apply Hr|done|].
  destruct (set_lookup s x f a d n E) as [d' ->]. by eexists.
Qed.

Lemma add_ok_set k l a pc x f s : add_ok k l a pc s -> add_ok k l a pc (slist_set x f s).
Proof.
  destruct pc; cbn [add_ok]; try done; intros (Ha & [c E] & P);
    (split; [done|]; split; [by apply (set_lookup s x f a c None)|exact P]).
Qed.

Lemma led_set_keeps s l a f : led_ok s l -> (forall c, ld_interval (f c) = ld_interval c) ->
  led_ok (mk_led_sys (slist_set a f (ls_list s)) (ls_pc s) (ls_adds s)) l.
Proof.
  intros [R Hh Hb Hr Had Hi Ho] Hf. destruct (rep_set (ls_list s) l a f R) as (R' & D & _).
  split; cbn [ls_list ls_pc ls_adds]; try done.
  - intros x n r E. destruct (Hr x n r E) as (k & l1 & l2 & K & P). exists k, l1, l2. split; [by apply rem_ok_set|done].
  - intros x pc E. destruct (Had x pc E) as [k K]. exists k. by apply add_ok_set.
  - intros b c. rewrite D. case_decide; [|by apply Hi]. intros (c1 & E1 & ->)%fmap_Some. rewrite Hf. by apply (Hi b).
Qed.

Lemma led_enter_ok s l a c : led_ok s l -> sl_mem (ls_list s) !! a = None -> ls_adds s !! a = None ->
  0 < ld_interval c -> (under_way (led_enter a c s) <= 1)%nat -> led_ok (led_enter a c s) l.
Proof.
  intros [R Hh Hb Hr _ Hi _] Hm Ha Hc Ho. destruct (rep_alloc (ls_list s) l a c R Hm) as [Hl R'].
  assert (E : ls_adds (led_enter a c s) !! a = Some A_empty) by apply lookup_insert_eq.
  destruct (adding_alone _ _ _ Ho E) as [Ea Ep].
  split; [exact R'|exact Hh|exact Hb| | | |exact Ho].
  - intros b n r Epc. by destruct (Ep b n r).
  - rewrite Ea. intros b pc [-> <-]%lookup_singleton_Some. eexists. split; [done|]. split; [|reflexivity].
    exists c. apply lookup_insert_eq.
  - intros b d. unfold led_enter, slist_data. cbn [ls_list slist_alloc sl_mem].
    destruct (decide (b = a)) as [->|]; [rewrite lookup_insert_eq; by intros [= <-]|].
    rewrite lookup_insert_ne by done. apply (Hi b).
Qed.

Lemma led_resume_same s : ls_list (led_resume s) = ls_list s /\ ls_adds (led_resume s) = ls_adds s.
Proof. unfold led_resume. by destruct (ls_pc s). Qed.

Lemma led_resume_ok s l : led_ok s l -> led_ok (led_resume s) l.
Proof.
  intros K. unfold led_resume. destruct (ls_pc s) eqn:E; try exact K. by apply led_ok_goto; rewrite ?E.
Qed.

(** One access of a registration: [k] accesses are left before the resume. *)
Lemma led_add_ok s l a pc k : led_ok s l -> ls_adds s !! a = Some pc -> add_ok k l a pc (ls_list s) ->
  exists s', led_add_turn a s = Some s' /\ (forall b, slist_data b (ls_list s') = slist_data b (ls_list s)) /\
    match k with
    | O => ls_adds s' !! a = None /\ (exists l0, l = l0 ++ [a]) /\ led_ok s' l
    | S k' => exists pc' l', ls_adds s' !! a = Some pc' /\ led_ok s' l' /\ add_ok k' l' a pc' (ls_list s') /\
        (a ∉ l /\ (l' = l \/ l' = l ++ [a]))
    end.
Proof.
  intros K E Hk. pose proof K as [R Hh Hb Hr Had Hi Ho]. destruct (adding_alone s a pc Ho E) as [Ea Ep].
  unfold led_add_turn. rewrite E. assert (Hpc : pc = A_resume \/ pc <> A_resume) by (by destruct pc; auto).
  destruct Hpc as [->|Hpc].
  - destruct Hk as [-> [l0 El]]. eexists. split; [reflexivity|].
    set (s0 := mk_led_sys (ls_list s) (ls_pc s) (delete a (ls_adds s))).
    destruct (led_resume_same s0) as [E1 E2]. rewrite E1, E2. split; [done|]. split; [apply lookup_delete_eq|].
    split; [by exists l0|]. apply led_resume_ok. split; cbn [ls_list ls_pc ls_adds s0]; try done.
    + intros b pc (_ & Eb)%lookup_delete_Some. by apply Had.
    + unfold under_way in *. cbn [ls_pc ls_adds s0]. rewrite map_size_delete_Some by (by eexists). lia.
  - destruct (add_step k l a pc (ls_list s) Hpc R Hk) as (m & pc' & l' & k' & Es & -> & R' & Hk' & D & El).
    assert (Ha : a ∉ l) by (destruct pc; cbn [add_ok] in Hk; tauto).
    rewrite Es. exists (mk_led_sys m (ls_pc s) (<[a := pc']> (ls_adds s))). split; [by destruct pc|]. split; [done|].
    exists pc', l'. cbn [ls_adds ls_list].
    assert (Hl : l' = l \/ l' = l ++ [a]) by (subst l'; destruct pc'; auto).
    split; [apply lookup_insert_eq|]. split; [|split; [done|split; [done|done]]].
    assert (Hin : forall b, b ∈ l -> b ∈ l') by (destruct Hl as [->| ->]; set_solver).
    split; cbn [ls_list ls_pc ls_adds]; [done|eauto| | | | |].
    + intros x n Epc. destruct (Hb x n Epc) as [B1 B2]. split; [auto|]. intros b Eb. destruct (B2 b Eb). auto.
    + intros b n r Epc. by destruct (Ep b n r).
    + rewrite Ea, insert_singleton_eq. intros b p [-> <-]%lookup_singleton_Some. by exists k'.
    + intros b c. rewrite D. apply Hi.
    + unfold under_way in *. cbn [ls_pc ls_adds]. by rewrite map_size_insert_Some by (by eexists).
Qed.

Lemma led_boot_ok : led_ok led_boot [].
Proof.
  split; [apply rep_empty|done|done|done| | |].
  - intros a pc E. cbn [led_boot ls_adds] in E. by rewrite lookup_empty in E.
  - intros a c. unfold slist_data, led_boot, slist_empty. cbn [ls_list sl_mem]. by rewrite lookup_empty.
  - unfold under_way, led_boot. cbn [ls_adds ls_pc]. rewrite map_size_empty. lia.
Qed.

Lemma led_exec_ok s l e s' : led_ok s l -> led_exec e s = Some s' -> (under_way s' <= 1)%nat -> exists l', led_ok s' l'.
Proof.
  intros K E Ho. destruct e as [|a rgba mode interval duration expire|a|a|a b|a m]; cbn [led_exec] in E.
  - destruct (led_turn_ok s l K) as (s1 & calls & E1 & K1). rewrite E1 in E. injection E as <-. by apply K1.
  - case_decide as Hc; [|done]. injection E as <-. destruct Hc as (Hm & Ha & Hi). exists l. by apply led_enter_ok.
  - destruct (ls_adds s !! a) as [pc|] eqn:Ea; [|by unfold led_add_turn in E; rewrite Ea in E].
    destruct (lo_adds s l K a pc Ea) as [k Hk]. destruct (led_add_ok s l a pc k K Ea Hk) as (s1 & E1 & _ & P).
    rewrite E in E1. injection E1 as <-. destruct k; [destruct P as (_ & _ & K'); by exists l|]. destruct P as (pc' & l' & _ & K' & _). by exists l'.
  - case_decide; [|done]. injection E as <-. exists l. by apply led_set_keeps.
  - case_decide; [|done]. injection E as <-. exists l. by apply led_set_keeps.
  - case_decide; [|done]. injection E as <-. exists l. by apply led_set_keeps.
Qed.

Lemma led_reachable_ok s : led_reachable true s -> exists l, led_ok s l.
Proof.
  induction 1 as [|s e s' _ [l K] E Ho]; [exists []; apply led_boot_ok|]. apply (led_exec_ok s l e); auto.
Qed.

(** A registration that nothing else disturbs from here on. *)
Fixpoint led_adds (n : nat) (a : Z) (s : led_sys) : option led_sys :=
  match n with
  | O => Some s
  | S n => match led_add_turn a s with Some s => led_adds n a s | None => None end
  end.

Lemma led_adds_ok a : forall k s l pc, led_ok s l -> ls_adds s !! a = Some pc -> add_ok k l a pc (ls_list s) ->
  exists s' l', led_adds (S k) a s = Some s' /\ ls_adds s' !! a = None /\ led_ok s' l' /\
    (a ∉ l /\ l' = l ++ [a] \/ (exists l0, l = l0 ++ [a]) /\ l' = l) /\
    (forall b, slist_data b (ls_list s') = slist_data b (ls_list s)).
Proof.
  induction k as [|k IH]; intros s l pc K E Hk; destruct (led_add_ok s l a pc _ K E Hk) as (s1 & E1 & D & P);
    change (led_adds (S ?k) a s) with (match led_add_turn a s with Some s => led_adds k a s | None => None end);
    rewrite E1.
  - destruct P as (En & Hl & K1). exists s1, l. split_and!; try done. by right.
  - destruct P as (pc' & l1 & E' & K1 & Hk1 & Ha & Hl). destruct (IH s1 l1 pc' K1 E' Hk1) as (s' & l' & E2 & En & K' & C & D').
    exists s', l'. split_and!; try done; [|intros b; by rewrite D'].
    left. split; [done|]. destruct Hl as [->| ->], C as [[H1 ->]|[[l0 H1] ->]]; try done.
    + exfalso. apply Ha. rewrite H1. set_solver.
    + exfalso. apply H1. set_solver.
Qed.

(** Runs by a list of events. *)
Fixpoint led_script (calm : bool) (es : list led_event) (s : led_sys) : option led_sys :=
  match es with
  | [] => Some s
  | e :: es =>
    match led_exec e s with
    | Some s => if calm && negb (Nat.leb (under_way s) 1) then None else led_script calm es s
    | None => None
    end
  end.

Lemma script_reachable calm es : forall s s', led_reachable calm s -> led_script calm es s = Some s' -> led_reachable calm s'.
Proof.
  induction es as [|e es IH]; intros s s' R E; cbn [led_script] in E; [by injection E as <-|].
  destruct (led_exec e s) as [s1|] eqn:E1; [|done]. destruct (calm && _) eqn:Ec; [done|].
  apply (IH s1 s'); [|done]. apply (reach_step calm s e); [done..|]. intros ->. cbn [andb] in Ec.
  apply negb_false_iff, Nat.leb_le in Ec. done.
Qed.

Definition enter_red (a : Z) : led_event := E_enter a 0xFF000033 STATUS_LED_BLINK 50 10000 0.
Definition register_red (a : Z) (n : nat) : list led_event := enter_red a :: repeat (E_add a) n.

(** Two registrations in an empty list: both find it empty, and the second writes the head
    over the first. *)
Definition two_at_once : list led_event :=
  [enter_red 1; enter_red 2; E_add 1; E_add 2; E_add 1; E_add 2; E_add 1; E_add 2; E_add 1; E_add 2].
(** A registration has found the only node of the list, which is marked, when the task
    removes and frees it. *)
Definition walk_and_remove : list led_event :=
  register_red 1 4 ++ [E_remove 1; enter_red 2; E_add 2; E_add 2] ++ repeat E_turn 9.

(** C22: as long as no two registrations, and no registration and removal, are under way
    at the same time, and however their single accesses to the list interleave with the
    task's walk, its showing and the callers' writes to colours, the list stays well formed:
    its nodes are distinct and lead to one another, the task never reads a colour it freed
    and never divides by zero, and a registration under way ends with the new colour last
    and every colour as it was.  Nothing in the code keeps two registrations apart: of two
    that start on an empty list both return, and one colour is in no list and is never
    shown; and one that meets a removal follows a node that was freed. *)
Theorem led_list_well_formed :
  (forall s, led_reachable true s ->
     exists l, slist_rep (ls_list s) l /\
       (exists s' calls, status_led_task s = Some (s', calls)) /\
       (forall a pc, ls_adds s !! a = Some pc -> exists n s' l0,
          led_adds n a s = Some s' /\ ls_adds s' !! a = None /\ (l = l0 \/ l = l0 ++ [a]) /\
          slist_rep (ls_list s') (l0 ++ [a]) /\
          (forall b, slist_data b (ls_list s') = slist_data b (ls_list s)))) /\
  (exists s, led_script false two_at_once led_boot = Some s /\ ls_adds s = ∅ /\
     slist_rep (ls_list s) [2] /\ slist_data 1 (ls_list s) = slist_data 2 (ls_list s)) /\
  (exists s, led_script false walk_and_remove led_boot = Some s /\ ls_adds s = {[2 := A_loop 1]} /\
     led_add_turn 2 s = None).
Proof.
  split; [|split].
  - intros s [l K]%led_reachable_ok. exists l. split; [by apply lo_rep|]. split.
    + destruct (led_turn_ok s l K) as (s' & calls & E & _). by eexists _, _.
    + intros a pc E. destruct (lo_adds s l K a pc E) as [k Hk].
      destruct (led_adds_ok a k s l pc K E Hk) as (s' & l' & E' & En & K' & C & D). apply lo_rep in K'.
      destruct C as [[_ ->]|[[l0 ->] ->]]; [exists (S k), s', l|exists (S k), s', l0]; split_and!; auto.
  - eexists. split; [vm_compute; reflexivity|]. split; [vm_compute; reflexivity|].
    split; [|vm_compute; reflexivity]. split; [apply NoDup_singleton|].
    split; [reflexivity|]. eexists _, _. split; reflexivity.
  - eexists. split; [vm_compute; reflexivity|]. split; vm_compute; reflexivity.
Qed.

(** The colour is the configured one scaled by its brightness, channel by channel. *)
Lemma new_color_scaled rgba mode interval duration expire :
  let c := new_color rgba mode interval duration expire in
  0 <= ld_red c <= u8 (Z.shiftr rgba 24) /\ 0 <= ld_green c <= u8 (Z.shiftr rgba 16) /\
  0 <= ld_blue c <= u8 (Z.shiftr rgba 8).
Proof.
  unfold new_color. cbn [ld_red ld_green ld_blue]. split_and!.
  all: match goal with |- context [u8 (u8 ?x * u8 ?r / 255)] =>
      destruct (premultiplied (u8 x) (u8 r) (u8_range x) (u8_range r)) as [B ->]; lia end.
Qed.

(** ** A pass of the task, and the lost wake-up *)

Fixpoint led_run (n : nat) (s : led_sys) : option (led_sys * list led_call) :=
  match n with
  | O => Some (s, [])
  | S n =>
    match status_led_task s with
    | Some (s, calls) => match led_run n s with Some (s, more) => Some (s, calls ++ more) | None => None end
    | None => None
    end
  end.

(** What a pass keeps and what it shows. *)
Definition marked (s : slist status_led_color_t) (a : Z) : bool :=
  match slist_data a s with Some c => ld_remove c | None => false end.
Definition shows (s : slist status_led_color_t) (a : Z) : list led_call :=
  match slist_data a s with
  | Some c => if ld_remove c then [] else if ld_active c then default [] (status_led_show c) else []
  | None => []
  end.

Lemma led_run_step n s s' calls r : status_led_task s = Some (s', calls) -> led_run n s' = Some r ->
  led_run (S n) s = Some (fst r, calls ++ snd r).
Proof. intros E1 E2. cbn [led_run]. rewrite E1, E2. by destruct r. Qed.

(** A removal that nothing disturbs. *)
Lemma led_run_remove a n ad l1 l2 : forall k r s, rem_ok k l1 a l2 r s ->
  exists s', led_run k (mk_led_sys s (P_remove a n r) ad) = Some (mk_led_sys s' (P_head n) ad, []) /\
    slist_rep s' (l1 ++ l2) /\ slist_data a s' = None /\ forall b, b <> a -> slist_data b s' = slist_data b s.
Proof.
  induction k as [|k IH]; intros r s K; destruct (rem_step _ _ _ _ _ _ K) as (s1 & r' & E & D & P).
  - destruct r' as [r'|]; [destruct P as (_ & k' & [=] & _)|destruct P as [[=] _]].
  - assert (T : status_led_task (mk_led_sys s (P_remove a n r) ad) =
      Some (mk_led_sys s1 (match r' with Some r => P_remove a n r | None => P_head n end) ad, []))
      by (unfold status_led_task; cbn [ls_pc ls_list ls_adds]; by rewrite E).
    destruct r' as [r'|].
    + destruct P as (_ & k' & [= <-] & K'). destruct (IH r' s1 K') as (s' & E' & R' & Da & D').
      exists s'. split; [by rewrite (led_run_step _ _ _ [] _ T E')|]. split_and!; try done.
      intros b Hb. by rewrite D', D.
    + destruct P as ([= ->] & R' & _ & Da). exists s1. by rewrite (led_run_step 0 _ _ [] (mk_led_sys s1 (P_head n) ad, []) T eq_refl).
Qed.

Lemma led_run_app n m : forall s s' calls r, led_run n s = Some (s', calls) -> led_run m s' = Some r ->
  led_run (n + m) s = Some (fst r, calls ++ snd r).
Proof.
  induction n as [|n IH]; intros s s' calls r E1 E2; cbn [led_run Nat.add] in *.
  - injection E1 as <- <-. by destruct r.
  - destruct (status_led_task s) as [[s1 c1]|]; [|done]. destruct (led_run n s1) as [[s2 c2]|] eqn:E; [|done].
    injection E1 as <- <-. by rewrite (IH _ _ _ _ E E2), <- app_assoc.
Qed.

Lemma led_pass_from ad l2 : forall l1 s, slist_rep s (l1 ++ l2) ->
  (forall a c, slist_data a s = Some c -> 0 < ld_interval c) ->
  exists n s', led_run n (mk_led_sys s (P_head (head l2)) ad) =
      Some (mk_led_sys s' P_check ad, concat (map (shows s) l2)) /\
    slist_rep s' (l1 ++ List.filter (fun a => negb (marked s a)) l2).
Proof.
  induction l2 as [|a l2 IH]; intros l1 s R Hi.
  - exists 1%nat, s. split; [done|]. done.
  - pose proof R as [Nd C]. destruct (chain_next _ _ _ _ _ C) as (c & next & E & _ & En).
    assert (Enx : next = head l2) by (by destruct l2). clear En. subst next.
    assert (T1 : status_led_task (mk_led_sys s (P_head (Some a)) ad) = Some (mk_led_sys s (P_body a (head l2)) ad, []))
      by (unfold status_led_task; cbn [ls_pc ls_list ls_adds]; by rewrite E).
    assert (Dc : slist_data a s = Some c) by (by apply (data_of _ _ _ (head l2))).
    destruct (show_total c (Hi a c Dc)) as [calls Ec].
    cbn [head map concat List.filter]. unfold marked at 1. unfold shows at 1. rewrite Dc.
    destruct (ld_remove c) eqn:Er; cbn [negb].
    + assert (K : rem_ok (2 * length l1 + 5) l1 a l2 R_first s) by done.
      destruct (led_run_remove a (head l2) ad l1 l2 _ _ s K) as (s1 & E1 & R1 & Em & D1).
      destruct (IH l1 s1 R1) as (n & s' & E2 & R2).
      { intros b cb Eb. apply (Hi b). destruct (decide (b = a)) as [->|]; [congruence|by rewrite <- D1]. }
      assert (Hne : forall b, In b l2 -> slist_data b s1 = slist_data b s).
      { intros b Hb. apply D1. intros ->. apply NoDup_app in Nd as (_ & _ & [Nd _]%NoDup_cons).
        apply Nd. by apply list_elem_of_In. }
      assert (T2 : status_led_task (mk_led_sys s (P_body a (head l2)) ad) =
        Some (mk_led_sys s (P_remove a (head l2) R_first) ad, []))
        by (unfold status_led_task; cbn [ls_pc ls_list ls_adds]; by rewrite E, Er).
      exists (S (S (2 * length l1 + 5 + n))), s'. split.
      * rewrite (led_run_step _ _ _ [] _ T1 (led_run_step _ _ _ [] _ T2 (led_run_app _ _ _ _ _ _ E1 E2))).
        cbn [fst snd app]. do 3 f_equal. apply map_ext_in. intros b Hb. unfold shows. by rewrite Hne.
      * rewrite (filter_ext_in _ (fun b => negb (marked s1 b))); [done|].
        intros b Hb. unfold marked. by rewrite Hne.
    + destruct (IH (l1 ++ [a]) s) as (n & s' & E2 & R2); [by rewrite <- app_assoc|done|].
      exists (S (S n)), s'. split; [|by rewrite <- app_assoc in R2].
      assert (T2 : status_led_task (mk_led_sys s (P_body a (head l2)) ad) =
        Some (mk_led_sys s (P_head (head l2)) ad, if ld_active c then default [] (status_led_show c) else [])).
      { unfold status_led_task; cbn [ls_pc ls_list]. rewrite E, Er, Ec. by destruct (ld_active c). }
      rewrite (led_run_step _ _ _ [] _ T1 (led_run_step _ _ _ _ _ T2 E2)). done.
Qed.

(** A pass of the task shows every active colour once, in the order they were
    registered, and takes out exactly the marked ones; each showing lasts at most
    its duration and more than its duration less one interval, keeps the driver's values in a byte, and
    ends with the light off. *)
Theorem led_pass s l ad : slist_rep s l -> (forall a c, slist_data a s = Some c -> 0 < ld_interval c) ->
  (exists n s', led_run n (mk_led_sys s P_foreach ad) = Some (mk_led_sys s' P_check ad, concat (map (shows s) l)) /\
     slist_rep s' (List.filter (fun a => negb (marked s a)) l)) /\
  (forall a c, slist_data a s = Some c -> 0 <= ld_duration c -> exists calls,
     status_led_show c = Some (calls ++ status_led_set 0 0 0) /\ Forall call_in_range calls /\
     0 <= delays calls <= ld_duration c /\ ld_duration c - ld_interval c < delays calls).
Proof.
  intros R Hi. split.
  - destruct (led_pass_from ad l [] s R Hi) as (n & s' & E & R'). exists (S n), s'. split; [|done].
    assert (T : status_led_task (mk_led_sys s P_foreach ad) = Some (mk_led_sys s (P_head (head l)) ad, []))
      by (unfold status_led_task; cbn [ls_pc ls_list ls_adds]; by rewrite (rep_first s l R)).
    by rewrite (led_run_step _ _ _ [] _ T E).
  - intros a c Ec Hd. apply show_ok; [by apply (Hi a)|done].
Qed.

(** A colour registered between the task's check of the list and its suspend finds nothing to
    resume: the task sleeps with a colour in the list. *)
Lemma lost_wakeup : exists s l, led_reachable true s /\ slist_rep (ls_list s) l /\ l <> [] /\ ls_pc s = P_suspended.
Proof.
  eexists _, [1]. split; [|split; [|split; [done|]]].
  - apply (script_reachable true ([E_turn] ++ register_red 1 4 ++ [E_turn]) led_boot); [apply reach_boot|].
    vm_compute. reflexivity.
  - split; [apply NoDup_singleton|]. split; [reflexivity|]. eexists _, _. split; reflexivity.
  - reflexivity.
Qed.

(** ** Witnesses *)

Definition red_led : status_led_color_t := new_color 0xFF000033 STATUS_LED_BLINK 50 10000 0.

(** One colour is shown while the walk of the next registration is on its way. *)
Definition registering : led_sys :=
  default led_boot (led_script true (register_red 1 4 ++ [E_turn; E_turn; enter_red 2; E_add 2; E_turn; E_add 2]) led_boot).

Lemma led_list_well_formed_witness :
  exists l n s', slist_rep (ls_list registering) l /\ led_adds n 2 registering = Some s' /\
    slist_rep (ls_list s') [1; 2] /\ slist_data 2 (ls_list s') = Some red_led.
Proof.
  assert (R : led_reachable true registering).
  { apply (script_reachable true (register_red 1 4 ++ [E_turn; E_turn; enter_red 2; E_add 2; E_turn; E_add 2]) led_boot);
      [apply reach_boot|]. vm_compute. reflexivity. }
  destruct (proj1 led_list_well_formed registering R) as (l & L & _ & A).
  destruct (A 2 (A_loop 1) ltac:(vm_compute; reflexivity)) as (n & s' & l0 & E & _ & Hl & R' & D).
  assert (L1 : slist_rep (ls_list registering) [1]).
  { split; [apply NoDup_singleton|]. split; [reflexivity|]. eexists _, _. split; reflexivity. }
  rewrite (rep_unique _ _ _ L L1) in Hl.
  assert (l0 = [1]) as ->.
  { destruct Hl as [<-|Hl]; [done|]. destruct l0 as [|x [|]]; discriminate Hl. }
  exists [1], n, s'. split; [exact L1|]. split; [exact E|]. split; [exact R'|]. rewrite D. vm_compute. reflexivity.
Defined.

Definition two_leds : slist status_led_color_t :=
  match led_script true (register_red 1 4 ++ [E_remove 1] ++
      E_enter 2 0xFF000033 STATUS_LED_BLINK 50 130 0 :: repeat (E_add 2) 6) led_boot with
  | Some s => ls_list s
  | None => slist_empty
  end.

Lemma led_pass_witness : exists n s',
  led_run n (mk_led_sys two_leds P_foreach ∅) =
    Some (mk_led_sys s' P_check ∅, status_led_set 51 0 0 ++ [L_delay 50] ++ status_led_set 0 0 0 ++ [L_delay 50] ++
                                 status_led_set 0 0 0) /\ slist_rep s' [2].
Proof.
  destruct (led_pass two_leds [1; 2] ∅) as [P _].
  - split; [apply (bool_decide_unpack _); vm_compute; exact I|]. vm_compute. split; [reflexivity|].
    eexists _, _. split; [reflexivity|]. split; [reflexivity|]. eexists _, _. split; reflexivity.
  - assert (M : map_Forall (fun _ (n : status_led_color_t * option Z) => 0 < ld_interval n.1) (sl_mem two_leds))
      by (apply (bool_decide_unpack _); vm_compute; exact I).
    intros a c (n & E & ->)%fmap_Some. apply (M a n E).
  - exact P.
Defined.
