(* ===== verification/SocketServer.v ===== *)
(** * The local socket server (src/main/interface/socket_server.c)

    TCP and UDP clients on the local network get the receiver's bytes and may send to it.
    The list of clients is [Slist]; a call on a socket takes its answers as arguments
    and the descriptors the server has open are part of the state. *)

From stdpp Require Import gmap.
From S2P Require Import Prelude NetUtil Address StreamStats Slist StatusLed Nvs Config.

#[local] Open Scope Z_scope.

Definition SOCK_STREAM : Z := 1.
Definition SOCK_DGRAM : Z := 2.
Definition EWOULDBLOCK : Z := 11.
Definition SOCKET_BUFFER_SIZE : Z := 1024.

(** [socket_server_init]: whether the task is started. *)
Definition socket_server_init `{Nvs St} (n : St) : bool := config_get_bool1 (conf "sck_srv_active") n.

Record socket_client_t := mk_client {
  cl_socket : Z;
  cl_addr : sockaddr_t;
  cl_type : Z
}.

Record server_t := mk_server {
  sv_tcp : Z;  (* sock_tcp *)
  sv_udp : Z;  (* sock_udp *)
  sv_list : slist socket_client_t;  (* socket_client_list *)
  sv_open : gset Z;  (* descriptors the server has open *)
  sv_led : option status_led_flashing_mode_t;  (* status_led->flashing_mode *)
  sv_stats : stream_stats;
  sv_uart : list Z  (* bytes written to the UART *)
}.

Definition eta_server_t (x : server_t) : server_t := mk_server (sv_tcp x) (sv_udp x) (sv_list x) (sv_open x)
  (sv_led x) (sv_stats x) (sv_uart x).
#[export] Instance set_sv_tcp : Setter sv_tcp := ltac:(derive_setter eta_server_t).
#[export] Instance set_sv_udp : Setter sv_udp := ltac:(derive_setter eta_server_t).
#[export] Instance set_sv_list : Setter sv_list := ltac:(derive_setter eta_server_t).
#[export] Instance set_sv_open : Setter sv_open := ltac:(derive_setter eta_server_t).
#[export] Instance set_sv_led : Setter sv_led := ltac:(derive_setter eta_server_t).
#[export] Instance set_sv_stats : Setter sv_stats := ltac:(derive_setter eta_server_t).
#[export] Instance set_sv_uart : Setter sv_uart := ltac:(derive_setter eta_server_t).


Definition socket_address_equal (a b : sockaddr_t) : bool :=
  if negb (sa_family a =? sa_family b) then false
  else if sa_family a =? PF_INET then (sa_addr4 a =? sa_addr4 b) && (sa_port a =? sa_port b)
  else if sa_family a =? PF_INET6 then bytes_eqb (sa_addr6 a) (sa_addr6 b) && (sa_port a =? sa_port b)
  else false.

(** [destroy_socket] on a descriptor of the server. *)
Definition close_sock (fd : Z) (s : server_t) : server_t :=
  match snd (destroy_socket fd) with
  | Some fd => s <| sv_open := sv_open s ∖ {[fd]} |>
  | None => s
  end.

(** [socket_client_add]; [a] is the node [malloc] gave. *)
Definition socket_client_add (a sock : Z) (addr : sockaddr_t) (socktype : Z) (s : server_t) : server_t :=
  let s := s <| sv_list := slist_insert_head a (mk_client sock addr socktype) (sv_list s) |> in
  s <| sv_led := option_map (fun _ => STATUS_LED_FADE) (sv_led s) |>.

(** [socket_client_remove]; [None] when the node is not in the store. *)
Definition socket_client_remove (a : Z) (s : server_t) : option server_t :=
  match slist_data a (sv_list s) with
  | None => None
  | Some client =>
    let s := close_sock (cl_socket client) s in
    match slist_remove a (sv_list s) with
    | None => None
    | Some l =>
      let s := s <| sv_list := l |> in
      Some (match sl_first l with None => s <| sv_led := option_map (fun _ => STATUS_LED_STATIC) (sv_led s) |> | Some _ => s end)
    end
  end.

(** [socket_server_uart_handler]: [write] is what a write of the chunk answers on a
    descriptor. *)
Definition uart_body (write : Z -> Z) (a : Z) (client : socket_client_t) (s : server_t) : option server_t :=
  let sent := write (cl_socket client) in
  if sent <? 0 then socket_client_remove a s else Some (s <| sv_stats := stream_stats_increment (sv_stats s) 0 sent |>).
Definition socket_server_uart_handler (write : Z -> Z) (s : server_t) : option server_t :=
  foreach sv_list (uart_body write) s.

(** [socket_init]: the descriptor or -1; [answers] are those of [socket],
    [setsockopt] and [bind]. *)
Definition socket_init (sock opt_err bind_err : Z) (s : server_t) : Z * server_t :=
  if sock <? 0 then (-1, s)
  else if negb (opt_err =? 0) || negb (bind_err =? 0) then (-1, s)
  else (sock, s <| sv_open := {[sock]} ∪ sv_open s |>).

Definition socket_tcp_init (sock opt_err bind_err listen_err : Z) (s : server_t) : server_t :=
  let '(fd, s) := socket_init sock opt_err bind_err s in
  let s := s <| sv_tcp := fd |> in
  if fd <? 0 then s
  else if negb (listen_err =? 0) then (close_sock fd s) <| sv_tcp := -1 |>
  else s.
Definition socket_udp_init (sock opt_err bind_err : Z) (s : server_t) : server_t :=
  let '(fd, s) := socket_init sock opt_err bind_err s in s <| sv_udp := fd |>.

(** [socket_tcp_accept]: [sock] is the answer of [accept]. *)
Definition socket_tcp_accept (a sock : Z) (source_addr : sockaddr_t) (s : server_t) : server_t :=
  if sock <? 0 then s
  else socket_client_add a sock source_addr SOCK_STREAM (s <| sv_open := {[sock]} ∪ sv_open s |>).

(** The walk of [socket_udp_has_client]; [None] on a pointer that leads nowhere. *)
Fixpoint has_client_walk (fuel : nat) (cur : option Z) (addr : sockaddr_t) (l : slist socket_client_t) : option bool :=
  match fuel with
  | O => None
  | S fuel =>
    match cur with
    | None => Some false
    | Some a =>
      match sl_mem l !! a with
      | None => None
      | Some (client, next) =>
        if (cl_type client =? SOCK_DGRAM) && socket_address_equal addr (cl_addr client) then Some true
        else has_client_walk fuel next addr l
      end
    end
  end.
Definition socket_udp_has_client (addr : sockaddr_t) (l : slist socket_client_t) : option bool :=
  has_client_walk (S (size (sl_mem l))) (sl_first l) addr l.

(** What the calls for a new UDP client answer. *)
Record udp_answers := mk_udp {
  ua_node : Z;
  ua_sock : Z;
  ua_opt : Z;
  ua_bind : Z;
  ua_connect : Z
}.

Definition socket_udp_client_accept (u : udp_answers) (source_addr : sockaddr_t) (s : server_t) : option server_t :=
  match socket_udp_has_client source_addr (sv_list s) with
  | None => None
  | Some true => Some s
  | Some false =>
    let sock := ua_sock u in
    if sock <? 0 then Some s
    else
      let s := s <| sv_open := {[sock]} ∪ sv_open s |> in
      if negb (ua_opt u =? 0) || negb (ua_bind u =? 0) || negb (ua_connect u =? 0) then Some (close_sock sock s)
      else Some (socket_client_add (ua_node u) sock source_addr SOCK_DGRAM s)
  end.

(** The bytes of a chunk reach the statistics and the UART. *)
Definition take_in (data : list Z) (s : server_t) : server_t :=
  let s := s <| sv_stats := stream_stats_increment (sv_stats s) (zlen data) 0 |> in
  s <| sv_uart := sv_uart s ++ data |>.

(** [socket_udp_accept]: the datagrams waiting, each with the answers of accepting
    its sender.  Its result is ignored by its caller. *)
Fixpoint socket_udp_accept (waiting : list (list Z * sockaddr_t * udp_answers)) (s : server_t) : option server_t :=
  match waiting with
  | [] => Some s
  | (data, source_addr, u) :: waiting =>
    match socket_udp_client_accept u source_addr s with
    | Some s => socket_udp_accept waiting (take_in (ztake SOCKET_BUFFER_SIZE data) s)
    | None => None
    end
  end.

(** What is to be received on a descriptor: chunks, then 0 ([None]) or an error. *)
Definition recv_t : Type := list (list Z) * option Z.
Definition receive_body (isset : Z -> bool) (recv : Z -> recv_t) (a : Z) (client : socket_client_t) (s : server_t)
    : option server_t :=
  if negb (isset (cl_socket client)) then Some s
  else
    let '(chunks, last) := recv (cl_socket client) in
    let s := fold_left (fun s data => take_in data s) chunks s in
    match last with
    | None => Some s
    | Some errno => if errno =? EWOULDBLOCK then Some s else socket_client_remove a s
    end.
Definition socket_clients_receive (isset : Z -> bool) (recv : Z -> recv_t) (s : server_t) : option server_t :=
  foreach sv_list (receive_body isset recv) s.

(** One iteration of the accept and receive loop after [select] returned. *)
Record activity := mk_activity {
  ac_isset : Z -> bool;
  ac_tcp : Z * Z * sockaddr_t;  (** node, [accept]'s answer, its address *)
  ac_udp : list (list Z * sockaddr_t * udp_answers);
  ac_recv : Z -> recv_t
}.
Definition server_iteration (x : activity) (s : server_t) : option server_t :=
  let s := if ac_isset x (sv_tcp s) then let '(a, sock, addr) := ac_tcp x in socket_tcp_accept a sock addr s else s in
  match (if ac_isset x (sv_udp s) then socket_udp_accept (ac_udp x) s else Some s) with
  | Some s => socket_clients_receive (ac_isset x) (ac_recv x) s
  | None => None
  end.

(** The end of an epoch, when [select] fails: everything is closed and freed. *)
Definition cleanup_body (a : Z) (client : socket_client_t) (s : server_t) : option server_t :=
  let s := close_sock (cl_socket client) s in
  match slist_remove a (sv_list s) with
  | Some l => Some (s <| sv_list := l |>)
  | None => None
  end.
Definition server_cleanup (s : server_t) : option server_t :=
  let s := (close_sock (sv_tcp s) s) <| sv_tcp := -1 |> in
  let s := (close_sock (sv_udp s) s) <| sv_udp := -1 |> in
  foreach sv_list cleanup_body s.

(** The beginning of one. *)
Record start_answers := mk_start {
  st_tcp : Z * Z * Z * Z;
  st_udp : Z * Z * Z
}.
Definition server_start (x : start_answers) (s : server_t) : server_t :=
  let s := s <| sv_list := mk_slist None (sl_mem (sv_list s)) |> in
  let '(t1, t2, t3, t4) := st_tcp x in
  let s := socket_tcp_init t1 t2 t3 t4 s in
  let '(u1, u2, u3) := st_udp x in
  socket_udp_init u1 u2 u3 s.

(** ** Specification *)

Definition sock_of (s : server_t) (a : Z) : Z :=
  match slist_data a (sv_list s) with Some c => cl_socket c | None => -1 end.
Definition listener (fd : Z) : list Z := if 0 <=? fd then [fd] else [].
(** The descriptors the server's variables and its list hold. *)
Definition owned (s : server_t) (l : list Z) : list Z :=
  listener (sv_tcp s) ++ listener (sv_udp s) ++ map (sock_of s) l.

Definition udp_distinct (s : server_t) (l : list Z) : Prop :=
  forall a b c d, a ∈ l -> b ∈ l -> a <> b -> slist_data a (sv_list s) = Some c -> slist_data b (sv_list s) = Some d ->
    cl_type c = SOCK_DGRAM -> cl_type d = SOCK_DGRAM -> socket_address_equal (cl_addr c) (cl_addr d) = false.

Record server_ok (s : server_t) (l : list Z) : Prop := {
  so_rep : slist_rep (sv_list s) l;
  so_nodup : NoDup (owned s l);
  so_open : sv_open s = list_to_set (owned s l);
  so_nonneg : forall a, a ∈ l -> 0 <= sock_of s a;
  so_udp : udp_distinct s l;
  so_freed : forall x, slist_data x (sv_list s) <> None -> x ∈ l
}.

(** The server against its peers, the UART and failures of [select].  Fresh
    descriptors and nodes are what the system and [malloc] give. *)
Inductive server_step : server_t -> server_t -> Prop :=
  | srv_tcp s a sock addr : sl_mem (sv_list s) !! a = None -> sock ∉ sv_open s ->
      server_step s (socket_tcp_accept a sock addr s)
  | srv_udp s data addr u s' : sl_mem (sv_list s) !! ua_node u = None -> ua_sock u ∉ sv_open s ->
      socket_udp_accept [(data, addr, u)] s = Some s' -> server_step s s'
  | srv_receive s isset recv s' : socket_clients_receive isset recv s = Some s' -> server_step s s'
  | srv_uart s write s' : socket_server_uart_handler write s = Some s' -> server_step s s'
  | srv_epoch s s1 t1 t2 t3 t4 u1 u2 u3 : server_cleanup s = Some s1 ->
      t1 ∉ sv_open s1 -> u1 ∉ sv_open s1 -> u1 <> t1 \/ u1 < 0 ->
      server_step s (server_start (mk_start (t1, t2, t3, t4) (u1, u2, u3)) s1).

(** Before the first epoch, which writes both listeners' variables. *)
Definition server_boot (led : option status_led_flashing_mode_t) (stats : stream_stats) : server_t :=
  mk_server (-1) (-1) slist_empty ∅ led stats [].

Inductive server_reachable : server_t -> Prop :=
  | srv_boot led stats : server_reachable (server_boot led stats)
  | srv_step s s' : server_reachable s -> server_step s s' -> server_reachable s'.

Lemma address_equal_sym a b : socket_address_equal a b = socket_address_equal b a.
Proof.
  assert (B : forall x y, bytes_eqb x y = bytes_eqb y x).
  { intros x y. destruct (bytes_eqb x y) eqn:E1, (bytes_eqb y x) eqn:E2; try done.
    - apply bytes_eqb_eq in E1. subst. by rewrite bytes_eqb_refl in E2.
    - apply bytes_eqb_eq in E2. subst. by rewrite bytes_eqb_refl in E1. }
  unfold socket_address_equal. rewrite (Z.eqb_sym (sa_family b)).
  destruct (Z.eqb_spec (sa_family a) (sa_family b)) as [->|]; [|done]. cbn [negb].
  by rewrite (Z.eqb_sym (sa_addr4 b)), (Z.eqb_sym (sa_port b)), (B (sa_addr6 b)).
Qed.

(** ** One client less, one client more *)

Lemma owned_split s l1 a l2 : owned s (l1 ++ a :: l2) ≡ₚ sock_of s a :: owned s (l1 ++ l2).
Proof. unfold owned. rewrite !map_app. cbn [map]. rewrite !app_assoc. symmetry. apply Permutation_middle. Qed.

Lemma set_less (x : Z) L (o : gset Z) : NoDup (x :: L) -> o = list_to_set (x :: L) -> o ∖ {[x]} = list_to_set L.
Proof. intros [Hx _]%NoDup_cons ->. apply set_eq. intros y. rewrite elem_of_difference, !elem_of_list_to_set. set_solver. Qed.

Lemma owned_ext s s' l : sv_tcp s' = sv_tcp s -> sv_udp s' = sv_udp s ->
  (forall b, b ∈ l -> slist_data b (sv_list s') = slist_data b (sv_list s)) -> owned s' l = owned s l.
Proof.
  intros E1 E2 D. unfold owned. rewrite E1, E2. do 2 f_equal. apply map_ext_in. intros b Hb%list_elem_of_In.
  unfold sock_of. by rewrite D.
Qed.

(** Any state that closed the node's socket, unlinked it and kept the rest is fine. *)
Lemma dropped_ok s s' l1 a l2 : server_ok s (l1 ++ a :: l2) -> slist_rep (sv_list s') (l1 ++ l2) ->
  (forall b, b <> a -> slist_data b (sv_list s') = slist_data b (sv_list s)) ->
  slist_data a (sv_list s') = None ->
  sv_tcp s' = sv_tcp s -> sv_udp s' = sv_udp s -> sv_open s' = sv_open s ∖ {[sock_of s a]} ->
  server_ok s' (l1 ++ l2).
Proof.
  intros [R Nd Op Ng U Fr] R' D Da Et Eu Eo. pose proof (owned_split s l1 a l2) as P.
  assert (Na : a ∉ l1 ++ l2).
  { destruct R as [(_ & N12 & [N2 _]%NoDup_cons)%NoDup_app _]. intros [H|H]%elem_of_app; [|done].
    specialize (N12 a H). set_solver. }
  assert (Db : forall b, b ∈ l1 ++ l2 -> slist_data b (sv_list s') = slist_data b (sv_list s))
    by (intros b Hb; apply D; intros ->; done).
  assert (Ew : owned s' (l1 ++ l2) = owned s (l1 ++ l2)) by (by apply owned_ext).
  assert (Nd2 : NoDup (sock_of s a :: owned s (l1 ++ l2))) by (by rewrite <- P).
  split; [done|..].
  - rewrite Ew. by apply NoDup_cons in Nd2 as [_ ?].
  - rewrite Eo, Ew. apply set_less; [done|]. rewrite Op. apply set_eq. intros y. rewrite !elem_of_list_to_set. by rewrite P.
  - intros b Hb. unfold sock_of. rewrite Db by done. apply (Ng b). set_solver.
  - intros x y c d Hx Hy Hne. rewrite !Db by done. apply U; [set_solver|set_solver|done].
  - intros x Hx. assert (x <> a) by (by intros ->). rewrite D in Hx by done. specialize (Fr x Hx). set_solver.
Qed.

Lemma close_sock_fields fd s : sv_list (close_sock fd s) = sv_list s /\ sv_tcp (close_sock fd s) = sv_tcp s /\
  sv_udp (close_sock fd s) = sv_udp s /\ (0 <= fd -> sv_open (close_sock fd s) = sv_open s ∖ {[fd]}) /\
  (fd < 0 -> close_sock fd s = s).
Proof.
  unfold close_sock, destroy_socket. destruct (Z.ltb_spec fd 0); cbn [snd]; split_and!; try done; lia.
Qed.

Lemma remove_ok s l1 a l2 : server_ok s (l1 ++ a :: l2) ->
  exists s', socket_client_remove a s = Some s' /\ server_ok s' (l1 ++ l2) /\
    forall b, b <> a -> slist_data b (sv_list s') = slist_data b (sv_list s).
Proof.
  intros K. pose proof K as [R _ _ Ng _ _]. pose proof R as [_ C]. destruct (chain_next _ _ _ _ _ C) as (d & next & E & _).
  assert (Ed : slist_data a (sv_list s) = Some d) by (unfold slist_data; by rewrite E).
  assert (Es : sock_of s a = cl_socket d) by (unfold sock_of; by rewrite Ed).
  unfold socket_client_remove. rewrite Ed.
  destruct (close_sock_fields (cl_socket d) s) as (F1 & F2 & F3 & F4 & _).
  assert (Hd : 0 <= cl_socket d) by (rewrite <- Es; apply Ng; set_solver). specialize (F4 Hd).
  rewrite F1. destruct (rep_remove _ l1 a l2 R) as (l' & -> & R' & Em & D & _). assert (Da : slist_data a l' = None) by (unfold slist_data; by rewrite Em). eexists. split; [reflexivity|].
  destruct (sl_first l'); (split; [apply (dropped_ok s _ l1 a l2 K); [exact R'|exact D|exact Da|exact F2|exact F3|rewrite Es; exact F4]|exact D]).
Qed.

Lemma cleanup_body_ok s l1 a l2 d : server_ok s (l1 ++ a :: l2) -> slist_data a (sv_list s) = Some d ->
  exists s', cleanup_body a d s = Some s' /\ server_ok s' (l1 ++ l2) /\
    forall b, b <> a -> slist_data b (sv_list s') = slist_data b (sv_list s).
Proof.
  intros K Ed. pose proof K as [R _ _ Ng _ _].
  assert (Es : sock_of s a = cl_socket d) by (unfold sock_of; by rewrite Ed).
  unfold cleanup_body. destruct (close_sock_fields (cl_socket d) s) as (F1 & F2 & F3 & F4 & _).
  assert (Hd : 0 <= cl_socket d) by (rewrite <- Es; apply Ng; set_solver). specialize (F4 Hd).
  rewrite F1. destruct (rep_remove _ l1 a l2 R) as (l' & -> & R' & Em & D & _). assert (Da : slist_data a l' = None) by (unfold slist_data; by rewrite Em). eexists. split; [reflexivity|].
  split; [apply (dropped_ok s _ l1 a l2 K); [exact R'|exact D|exact Da|exact F2|exact F3|rewrite Es; exact F4]|exact D].
Qed.

Lemma ok_frame s s' l : sv_list s' = sv_list s -> sv_tcp s' = sv_tcp s -> sv_udp s' = sv_udp s ->
  sv_open s' = sv_open s -> server_ok s l -> server_ok s' l.
Proof.
  intros E1 E2 E3 E4 [R Nd Op Ng U Fr].
  assert (Ew : owned s' l = owned s l) by (apply owned_ext; [done|done|intros; by rewrite E1]).
  split; rewrite ?E1, ?Ew, ?E4; try done.
  - intros a Ha. unfold sock_of. rewrite E1. by apply Ng.
  - unfold udp_distinct. by rewrite E1.
Qed.

Lemma add_ok s l a sock addr ty : server_ok s l -> sl_mem (sv_list s) !! a = None -> 0 <= sock ->
  sock ∉ sv_open s ->
  (ty = SOCK_DGRAM -> forall b c, b ∈ l -> slist_data b (sv_list s) = Some c -> cl_type c = SOCK_DGRAM ->
     socket_address_equal addr (cl_addr c) = false) ->
  server_ok (socket_client_add a sock addr ty (s <| sv_open := {[sock]} ∪ sv_open s |>)) (a :: l).
Proof.
  intros [R Nd Op Ng U Fr] Ha Hs Hf Hu. set (s' := socket_client_add _ _ _ _ _).
  assert (El : sv_list s' = slist_insert_head a (mk_client sock addr ty) (sv_list s)) by done.
  assert (Na : a ∉ l) by (intros Hin; destruct R as [_ C]; destruct (chain_in _ _ _ _ C Hin) as (? & ? & ?); congruence).
  assert (Da : slist_data a (sv_list s') = Some (mk_client sock addr ty))
    by (rewrite El; unfold slist_data, slist_insert_head; cbn [sl_mem]; by rewrite lookup_insert_eq).
  assert (Db : forall b, b <> a -> slist_data b (sv_list s') = slist_data b (sv_list s))
    by (intros b Hb; rewrite El; unfold slist_data, slist_insert_head; cbn [sl_mem]; by rewrite lookup_insert_ne).
  assert (Ew : owned s' (a :: l) ≡ₚ sock :: owned s l).
  { rewrite (owned_split s' [] a l). cbn [app].
    rewrite (owned_ext s s' l) by (try done; intros b Hb; apply Db; intros ->; done).
    unfold sock_of. by rewrite Da. }
  split.
  - rewrite El. by apply rep_insert_head.
  - rewrite Ew. apply NoDup_cons. split; [|done]. rewrite Op in Hf. by rewrite elem_of_list_to_set in Hf.
  - change (sv_open s') with ({[sock]} ∪ sv_open s). rewrite Op. apply set_eq. intros y.
    rewrite elem_of_union, elem_of_singleton, !elem_of_list_to_set, Ew. set_solver.
  - intros b Hb. unfold sock_of. destruct (decide (b = a)) as [->|Hne]; [by rewrite Da|]. rewrite Db by done.
    apply (Ng b). set_solver.
  - intros x y c d Hx Hy Hne. apply elem_of_cons in Hx as [->|Hx], Hy as [->|Hy]; [done|..].
    + rewrite Da, Db by congruence. intros [= <-] Ed Hc. cbn [cl_type cl_addr] in *. by apply (Hu Hc y).
    + rewrite Da, Db by congruence. intros Ec [= <-] Hc Hd. cbn [cl_type cl_addr] in *. rewrite address_equal_sym.
      by apply (Hu Hd x).
    + rewrite !Db by (intros ->; done). by apply U.
  - intros x Hx. destruct (decide (x = a)) as [->|Hne]; [by left|]. right. apply Fr. by rewrite <- Db.
Qed.

Lemma has_client_from addr s l2 : forall fuel l1, (length l2 < fuel)%nat -> slist_rep s (l1 ++ l2) ->
  exists r, has_client_walk fuel (head l2) addr s = Some r /\
    (r = true <-> exists b c, b ∈ l2 /\ slist_data b s = Some c /\ cl_type c = SOCK_DGRAM /\
                              socket_address_equal addr (cl_addr c) = true).
Proof.
  induction l2 as [|a l2 IH]; intros fuel l1 Hf R; (destruct fuel as [|fuel]; [cbn in Hf; lia|]); cbn [head has_client_walk].
  - exists false. split; [done|]. split; [done|]. intros (b & _ & Hb & _). by apply not_elem_of_nil in Hb.
  - pose proof R as [_ C]. destruct (chain_next _ _ _ _ _ C) as (d & next & E & _ & En). rewrite E.
    assert (Enx : next = head l2) by (by destruct l2). clear En. subst next.
    assert (Ed : slist_data a s = Some d) by (unfold slist_data; by rewrite E).
    destruct ((cl_type d =? SOCK_DGRAM) && socket_address_equal addr (cl_addr d)) eqn:Eq.
    + exists true. split; [done|]. split; [|done]. intros _. apply andb_true_iff in Eq as [?%Z.eqb_eq ?].
      exists a, d. split; [by left|done].
    + destruct (IH fuel (l1 ++ [a])) as (r & -> & Hr); [cbn in Hf; lia|by rewrite <- app_assoc|].
      exists r. split; [done|]. rewrite Hr. split.
      * intros (b & c & Hb & H). exists b, c. split; [by right|done].
      * intros (b & c & [->|Hb]%elem_of_cons & Ec & Hc & He); [|by exists b, c].
        rewrite Ed in Ec. injection Ec as <-. rewrite Hc, He in Eq. done.
Qed.

Lemma has_client_ok addr s l : slist_rep s l -> exists r, socket_udp_has_client addr s = Some r /\
  (r = false -> forall b c, b ∈ l -> slist_data b s = Some c -> cl_type c = SOCK_DGRAM ->
     socket_address_equal addr (cl_addr c) = false) /\
  (r = true -> exists b c, b ∈ l /\ slist_data b s = Some c /\ cl_type c = SOCK_DGRAM /\
                           socket_address_equal addr (cl_addr c) = true).
Proof.
  intros R. pose proof R as [Nd C]. pose proof (chain_size _ _ _ Nd C).
  destruct (has_client_from addr s l (S (size (sl_mem s))) []) as (r & E & Hr); [lia|done|].
  unfold socket_udp_has_client. rewrite (rep_first s l R). exists r. split; [done|]. split; [|apply Hr].
  intros -> b c Hb Ec Hc. destruct (socket_address_equal addr (cl_addr c)) eqn:He; [|done].
  destruct Hr as [_ Hr]. by specialize (Hr (ex_intro _ b (ex_intro _ c (conj Hb (conj Ec (conj Hc He)))))).
Qed.

Lemma take_in_frame data s : sv_list (take_in data s) = sv_list s /\ sv_tcp (take_in data s) = sv_tcp s /\
  sv_udp (take_in data s) = sv_udp s /\ sv_open (take_in data s) = sv_open s.
Proof. done. Qed.

Lemma take_all_frame chunks : forall s, let s' := fold_left (fun s data => take_in data s) chunks s in
  sv_list s' = sv_list s /\ sv_tcp s' = sv_tcp s /\ sv_udp s' = sv_udp s /\ sv_open s' = sv_open s.
Proof. induction chunks as [|x chunks IH]; intros s; cbn [fold_left]; [done|]. by destruct (IH (take_in x s)) as (-> & -> & -> & ->). Qed.

Lemma udp_accept_ok u addr s l : server_ok s l -> sl_mem (sv_list s) !! ua_node u = None -> ua_sock u ∉ sv_open s ->
  exists s' l', socket_udp_client_accept u addr s = Some s' /\ server_ok s' l' /\ (l' = l \/ l' = ua_node u :: l).
Proof.
  intros K Hn Hf. unfold socket_udp_client_accept. destruct (has_client_ok addr _ l (so_rep _ _ K)) as (r & -> & Hr & _).
  destruct r; [exists s, l; auto|]. specialize (Hr eq_refl). destruct (Z.ltb_spec (ua_sock u) 0); [exists s, l; auto|].
  case_if.
  - eexists _, l. split; [reflexivity|]. split; [|auto].
    destruct (close_sock_fields (ua_sock u) (s <| sv_open := {[ua_sock u]} ∪ sv_open s |>)) as (F1 & F2 & F3 & F4 & _).
    apply (ok_frame s); [done|done|done| |done]. rewrite F4 by done. cbn. apply set_eq. intros y. set_solver.
  - eexists _, (ua_node u :: l). split; [reflexivity|]. split; [|auto]. by apply add_ok.
Qed.

(** ** The loops *)

Definition some_ok (s : server_t) : Prop := exists l, server_ok s l.

Lemma some_ok_rep s l : some_ok s -> slist_rep (sv_list s) l -> server_ok s l.
Proof. intros [l' K] R. by rewrite (rep_unique _ _ _ R (so_rep _ _ K)). Qed.

Definition uart_keep (write : Z -> Z) (_ : Z) (c : socket_client_t) : bool := negb (write (cl_socket c) <? 0).
Definition receive_keep (isset : Z -> bool) (recv : Z -> recv_t) (_ : Z) (c : socket_client_t) : bool :=
  negb (isset (cl_socket c)) ||
  match snd (recv (cl_socket c)) with None => true | Some errno => errno =? EWOULDBLOCK end.

Lemma uart_body_ok write s l1 a l2 d : some_ok s -> slist_rep (sv_list s) (l1 ++ a :: l2) ->
  slist_data a (sv_list s) = Some d ->
  exists s', uart_body write a d s = Some s' /\ some_ok s' /\
    slist_rep (sv_list s') (l1 ++ (if uart_keep write a d then [a] else []) ++ l2) /\
    forall b, b <> a -> slist_data b (sv_list s') = slist_data b (sv_list s).
Proof.
  intros I R Ed. pose proof (some_ok_rep _ _ I R) as K. unfold uart_body, uart_keep. cbv zeta.
  destruct (write (cl_socket d) <? 0); cbn [negb].
  - destruct (remove_ok s l1 a l2 K) as (s' & -> & K' & D). exists s'.
    split; [done|]. split; [by eexists|]. split; [apply (so_rep _ _ K')|done].
  - eexists. split; [reflexivity|]. split; [|done]. eexists. by apply (ok_frame s).
Qed.

Lemma receive_body_ok isset recv s l1 a l2 d : some_ok s -> slist_rep (sv_list s) (l1 ++ a :: l2) ->
  slist_data a (sv_list s) = Some d ->
  exists s', receive_body isset recv a d s = Some s' /\ some_ok s' /\
    slist_rep (sv_list s') (l1 ++ (if receive_keep isset recv a d then [a] else []) ++ l2) /\
    forall b, b <> a -> slist_data b (sv_list s') = slist_data b (sv_list s).
Proof.
  intros I R Ed. pose proof (some_ok_rep _ _ I R) as K. unfold receive_body, receive_keep. cbv zeta.
  destruct (isset (cl_socket d)); cbn [negb orb]; [|exists s; done].
  destruct (recv (cl_socket d)) as [chunks last]. cbn [snd].
  destruct (take_all_frame chunks s) as (F1 & F2 & F3 & F4). set (s1 := fold_left _ chunks s) in *.
  assert (K1 : server_ok s1 (l1 ++ a :: l2)) by (by apply (ok_frame s)).
  assert (Keep : exists s', Some s1 = Some s' /\ some_ok s' /\ slist_rep (sv_list s') (l1 ++ [a] ++ l2) /\
    forall b, b <> a -> slist_data b (sv_list s') = slist_data b (sv_list s)).
  { exists s1. split; [done|]. split; [by eexists|]. by rewrite F1. }
  destruct last as [errno|]; [|exact Keep]. destruct (errno =? EWOULDBLOCK); [exact Keep|].
  destruct (remove_ok s1 l1 a l2 K1) as (s' & -> & K' & D). exists s'.
  split; [done|]. split; [by eexists|]. split; [apply (so_rep _ _ K')|]. intros b Hb. by rewrite D, F1.
Qed.

Lemma close_listener_ok s l fd : server_ok s l ->
  (fd = sv_tcp s -> server_ok ((close_sock fd s) <| sv_tcp := -1 |>) l) /\
  (fd = sv_udp s -> server_ok ((close_sock fd s) <| sv_udp := -1 |>) l).
Proof.
  intros [R Nd Op Ng U Fr]. destruct (close_sock_fields fd s) as (F1 & F2 & F3 & F4 & F5).
  assert (Gen : forall s' x L, owned s l ≡ₚ listener x ++ L -> fd = x -> owned s' l = L -> sv_list s' = sv_list s ->
    sv_open s' = sv_open (close_sock fd s) -> server_ok s' l).
  { intros s' x L P -> Ew El Eo. split; rewrite ?El, ?Ew; try done.
    - rewrite P in Nd. by apply NoDup_app in Nd as (_ & _ & ?).
    - rewrite Eo. unfold listener in P. destruct (Z.leb_spec 0 x).
      + rewrite F4 by done. rewrite P in Nd. apply set_less; [done|]. rewrite Op. apply set_eq. intros y.
        rewrite !elem_of_list_to_set, P. done.
      + rewrite F5, Op by done. apply set_eq. intros y. by rewrite !elem_of_list_to_set, P.
    - intros a Ha. unfold sock_of. rewrite El. by apply Ng.
    - unfold udp_distinct. by rewrite El. }
  assert (Em : forall s', sv_list s' = sv_list s -> map (sock_of s') l = map (sock_of s) l)
    by (intros s' E; apply map_ext; intros a; unfold sock_of; by rewrite E).
  split; intros E.
  - eapply (Gen _ (sv_tcp s) (listener (sv_udp s) ++ map (sock_of s) l)); [reflexivity|done| |exact F1|done].
    unfold owned. cbn. rewrite F3. by rewrite Em.
  - eapply (Gen _ (sv_udp s) (listener (sv_tcp s) ++ map (sock_of s) l)); [|done| |exact F1|done].
    + unfold owned. rewrite !app_assoc. apply Permutation_app_tail, Permutation_app_comm.
    + unfold owned. cbn. rewrite F2. by rewrite Em.
Qed.

Lemma cleanup_ok s l : server_ok s l -> exists s', server_cleanup s = Some s' /\ server_ok s' [] /\
  sv_tcp s' = -1 /\ sv_udp s' = -1 /\ sv_open s' = ∅ /\ forall x, slist_data x (sv_list s') = None.
Proof.
  intros K. unfold server_cleanup. destruct (close_listener_ok s l (sv_tcp s) K) as [K1 _]. specialize (K1 eq_refl).
  set (s1 := (close_sock (sv_tcp s) s) <| sv_tcp := -1 |>) in *.
  pose proof (close_listener_ok s1 l (sv_udp s1) K1) as [_ K2]. specialize (K2 eq_refl).
  cbv zeta. set (s2 := (close_sock (sv_udp s1) s1) <| sv_udp := -1 |>) in *.
  assert (Ht : sv_tcp s2 = -1 /\ sv_udp s2 = -1).
  { split; [|done]. change (sv_tcp s2) with (sv_tcp (close_sock (sv_udp s1) s1)).
    by destruct (close_sock_fields (sv_udp s1) s1) as (_ & -> & _). }
  destruct (foreach_ok sv_list cleanup_body (fun _ _ => false)
              (fun s => some_ok s /\ sv_tcp s = -1 /\ sv_udp s = -1)) with (s := s2) (l := l)
    as (s' & E & (I & T1 & T2) & R').
  - intros s0 l1 a l2 d (I & T1 & T2) R Ed. pose proof (some_ok_rep _ _ I R) as K0.
    destruct (cleanup_body_ok s0 l1 a l2 d K0 Ed) as (s' & E & K' & D). exists s'.
    split; [done|]. split; [|split; [apply (so_rep _ _ K')|done]]. split; [by eexists|].
    unfold cleanup_body in E. destruct (close_sock_fields (cl_socket d) s0) as (F1 & F2 & F3 & _).
    destruct (slist_remove a _); [|done]. injection E as <-.
    by split; [rewrite <- T1, <- F2|rewrite <- T2, <- F3].
  - split; [by eexists|done].
  - apply K2.
  - exists s'. assert (En : List.filter (kept (fun _ _ => false) (sv_list s2)) l = []).
    { destruct (List.filter _ l) as [|a f] eqn:Ef; [done|]. exfalso.
      assert (Hin : In a (List.filter (kept (fun _ _ => false) (sv_list s2)) l)) by (rewrite Ef; by left).
      apply filter_In in Hin as [Hin%list_elem_of_In Hk]. pose proof (so_rep _ _ K2) as [_ C].
      destruct (chain_in _ _ _ _ C Hin) as (d & n & Ed). unfold kept, slist_data in Hk. by rewrite Ed in Hk. }
    rewrite En in R'. pose proof (some_ok_rep _ _ I R') as K'. split; [done|]. split; [done|]. split; [done|].
    split; [done|]. split.
    + rewrite (so_open _ _ K'). unfold owned. by rewrite T1, T2.
    + intros x. destruct (slist_data x (sv_list s')) eqn:Ex; [|done].
      assert (x ∈ []) as ?%not_elem_of_nil; [|done]. apply (so_freed _ _ K'). congruence.
Qed.

Lemma empty_ok s : slist_rep (sv_list s) [] -> (forall x, slist_data x (sv_list s) = None) -> NoDup (listener (sv_tcp s) ++ listener (sv_udp s)) ->
  sv_open s = list_to_set (listener (sv_tcp s) ++ listener (sv_udp s)) -> server_ok s [].
Proof.
  intros R Fr Nd Op. split; unfold owned; cbn [map]; rewrite ?app_nil_r; try done.
  - intros a Ha. by apply not_elem_of_nil in Ha.
  - intros a b c d Ha. by apply not_elem_of_nil in Ha.
  - intros x Hx. by rewrite Fr in Hx.
Qed.


Lemma tcp_init_ok t1 t2 t3 t4 s : sv_open s = ∅ -> let s' := socket_tcp_init t1 t2 t3 t4 s in
  sv_open s' = list_to_set (listener (sv_tcp s')) /\ sv_list s' = sv_list s /\ (sv_tcp s' = t1 \/ sv_tcp s' < 0).
Proof.
  intros E. unfold socket_tcp_init, socket_init, close_sock, destroy_socket.
  destruct (Z.ltb_spec t1 0); [cbn; rewrite E; split_and!; [done|done|right; lia]|].
  destruct (negb (t2 =? 0) || negb (t3 =? 0)); [cbn; rewrite E; split_and!; [done|done|right; lia]|].
  rewrite (proj2 (Z.ltb_ge t1 0)) by done. destruct (negb (t4 =? 0)); cbn.
  - rewrite E. split_and!; [set_solver|done|right; lia].
  - rewrite E. unfold listener. rewrite (proj2 (Z.leb_le 0 t1)) by done. split_and!; [done|done|by left].
Qed.

Lemma epoch_start_ok t1 t2 t3 t4 u1 u2 u3 s : sv_open s = ∅ -> (forall x, slist_data x (sv_list s) = None) -> u1 <> t1 \/ u1 < 0 ->
  server_ok (server_start (mk_start (t1, t2, t3, t4) (u1, u2, u3)) s) [].
Proof.
  intros E Fr Hu. unfold server_start. cbn [st_tcp st_udp].
  set (s0 := s <| sv_list := mk_slist None (sl_mem (sv_list s)) |>).
  destruct (tcp_init_ok t1 t2 t3 t4 s0 E) as (Eo & El & Et). set (s1 := socket_tcp_init t1 t2 t3 t4 s0) in *.
  assert (R : slist_rep (sv_list s1) []) by (rewrite El; split; [apply NoDup_nil_2|done]).
  assert (Fr1 : forall x, slist_data x (sv_list s1) = None) by (intros x; rewrite El; apply (Fr x)).
  unfold socket_udp_init, socket_init.
  assert (Nd : NoDup (listener (sv_tcp s1))).
  { unfold listener. case_if; [|apply NoDup_nil_2]. apply NoDup_cons. split; [apply not_elem_of_nil|apply NoDup_nil_2]. }
  destruct (Z.ltb_spec u1 0); [apply empty_ok; [exact R|exact Fr1|..]; cbn; rewrite app_nil_r; done|].
  destruct (negb (u2 =? 0) || negb (u3 =? 0)); [apply empty_ok; [exact R|exact Fr1|..]; cbn; rewrite app_nil_r; done|].
  apply empty_ok; [exact R|exact Fr1|..]; cbn [sv_tcp sv_udp sv_open upd set_sv_udp set_sv_open].
  - unfold listener. rewrite (proj2 (Z.leb_le 0 u1)) by done. destruct (Z.leb_spec 0 (sv_tcp s1)); cbn [app];
      repeat (apply NoDup_cons; split); try apply NoDup_nil_2; try apply not_elem_of_nil.
    intros [E1|E1]%elem_of_cons; [lia|by apply not_elem_of_nil in E1].
  - rewrite Eo. unfold listener at 3. rewrite (proj2 (Z.leb_le 0 u1)) by done. set_solver.
Qed.

Lemma server_step_ok s l s' : server_ok s l -> server_step s s' -> some_ok s'.
Proof.
  intros K St. destruct St as [s a sock addr Ha Hf|s data addr u s' Ha Hf E|s isset recv s' E|s write s' E|
    s s1 t1 t2 t3 t4 u1 u2 u3 E Ht Hu Hd].
  - unfold socket_tcp_accept. destruct (Z.ltb_spec sock 0); [by exists l|]. exists (a :: l). by apply add_ok.
  - cbn [socket_udp_accept] in E. destruct (udp_accept_ok u addr s l K Ha Hf) as (s1 & l1 & E1 & K1 & _).
    rewrite E1 in E. injection E as <-. exists l1. by apply (ok_frame s1).
  - destruct (foreach_ok sv_list _ _ some_ok (receive_body_ok isset recv) s l) as (s1 & E1 & I & _);
      [by exists l|apply (so_rep _ _ K)|]. unfold socket_clients_receive in E. rewrite E1 in E. by injection E as <-.
  - destruct (foreach_ok sv_list _ _ some_ok (uart_body_ok write) s l) as (s1 & E1 & I & _);
      [by exists l|apply (so_rep _ _ K)|]. unfold socket_server_uart_handler in E. rewrite E1 in E. by injection E as <-.
  - destruct (cleanup_ok s l K) as (s2 & E2 & _ & _ & _ & Eo & Fr). rewrite E in E2. injection E2 as <-.
    exists []. by apply epoch_start_ok.
Qed.

Lemma server_boot_ok led stats : server_ok (server_boot led stats) [].
Proof. apply empty_ok; [apply rep_empty|intros x; unfold slist_data, server_boot, slist_empty; cbn [sv_list sl_mem]; by rewrite lookup_empty|apply NoDup_nil_2|done]. Qed.

Lemma server_reachable_ok s : server_reachable s -> some_ok s.
Proof.
  induction 1 as [led stats|s s' _ [l K] St]; [eexists; apply server_boot_ok|by apply (server_step_ok s l)].
Qed.

(** C21: as long as the server's loops run one after the other, no descriptor is lost or
    closed twice and no freed client is read.  In every reachable state the descriptors open
    are exactly the two listeners' and the clients', all distinct; no two UDP clients
    have the same address; and each of the loops over the clients succeeds, the end
    of an epoch closing everything. *)
Theorem server_descriptors s : server_reachable s ->
  exists l, slist_rep (sv_list s) l /\ NoDup (owned s l) /\ sv_open s = list_to_set (owned s l) /\
    udp_distinct s l /\
    (forall isset recv, exists s', socket_clients_receive isset recv s = Some s') /\
    (forall write, exists s', socket_server_uart_handler write s = Some s') /\
    (exists s', server_cleanup s = Some s' /\ sv_open s' = ∅ /\ slist_rep (sv_list s') []).
Proof.
  intros [l K]%server_reachable_ok. exists l. pose proof K as [R Nd Op Ng U _]. split_and!; try done.
  - intros isset recv. destruct (foreach_ok sv_list _ _ some_ok (receive_body_ok isset recv) s l) as (s1 & E1 & _);
      [by exists l|done|by exists s1].
  - intros write. destruct (foreach_ok sv_list _ _ some_ok (uart_body_ok write) s l) as (s1 & E1 & _);
      [by exists l|done|by exists s1].
  - destruct (cleanup_ok s l K) as (s1 & E1 & K1 & _ & _ & Eo & _). exists s1. split; [done|]. split; [done|apply K1].
Qed.

(** Who is removed.  After the receiving loop the list holds exactly the clients
    with nothing to read, those whose receive would block, and those whose peer
    closed the connection: [recv] answering 0 is not an error, so a closed client stays until
    a write to it fails.  After a chunk of the UART it holds those whose write succeeded. *)
Theorem clients_removed s l : server_reachable s -> slist_rep (sv_list s) l ->
  (forall isset recv, exists s', socket_clients_receive isset recv s = Some s' /\
     slist_rep (sv_list s') (List.filter (kept (receive_keep isset recv) (sv_list s)) l)) /\
  (forall write, exists s', socket_server_uart_handler write s = Some s' /\
     slist_rep (sv_list s') (List.filter (kept (uart_keep write) (sv_list s)) l)) /\
  (forall isset recv a c chunks, slist_data a (sv_list s) = Some c -> recv (cl_socket c) = (chunks, None) ->
     kept (receive_keep isset recv) (sv_list s) a = true).
Proof.
  intros Hr R. pose proof (server_reachable_ok s Hr) as I. split_and!.
  - intros isset recv. destruct (foreach_ok sv_list _ _ some_ok (receive_body_ok isset recv) s l I R) as (s1 & E1 & _ & R1).
    by exists s1.
  - intros write. destruct (foreach_ok sv_list _ _ some_ok (uart_body_ok write) s l I R) as (s1 & E1 & _ & R1).
    by exists s1.
  - intros isset recv a c chunks Ec Er. unfold kept. rewrite Ec. unfold receive_keep. rewrite Er. cbn [snd].
    apply orb_true_r.
Qed.

(** The loops are not safe against each other.  The UART handler runs in another
    task and no lock is taken: when it removes the client the receiving loop has already
    read as the next one, the loop goes on with a freed node. *)
Theorem receive_race s l1 a b l2 write isset recv fuel : server_reachable s ->
  slist_rep (sv_list s) (l1 ++ a :: b :: l2) -> write (sock_of s b) < 0 ->
  slist_next a (sv_list s) = Some b /\
  exists s', socket_server_uart_handler write s = Some s' /\
             foreach_safe sv_list (receive_body isset recv) (S fuel) (slist_next a (sv_list s)) s' = None.
Proof.
  intros Hr R Hw. pose proof (server_reachable_ok s Hr) as I. pose proof R as [Nd C].
  destruct (chain_next _ _ _ _ _ C) as (d & next & E & _ & ->).
  assert (En : slist_next a (sv_list s) = Some b) by (unfold slist_next; by rewrite E). split; [done|].
  destruct (foreach_ok sv_list _ _ some_ok (uart_body_ok write) s _ I R) as (s1 & E1 & I1 & R1).
  exists s1. split; [done|]. pose proof (some_ok_rep _ _ I1 R1) as K1.
  assert (Hb : slist_data b (sv_list s1) = None).
  { destruct (slist_data b (sv_list s1)) eqn:Eb; [|done]. exfalso.
    assert (Hin : b ∈ List.filter (kept (uart_keep write) (sv_list s)) (l1 ++ a :: b :: l2))
      by (apply (so_freed _ _ K1); congruence).
    apply list_elem_of_In, filter_In in Hin as [_ Hk]. unfold kept, sock_of in *.
    destruct (slist_data b (sv_list s)) as [c|] eqn:Ec.
    - unfold uart_keep in Hk. lia.
    - destruct (chain_in _ _ _ b C) as (? & ? & Ex); [set_solver|]. unfold slist_data in Ec. by rewrite Ex in Ec. }
  rewrite En. cbn [foreach_safe]. unfold slist_data in Hb. by destruct (sl_mem (sv_list s1) !! b).
Qed.

(** ** Witnesses *)

Definition peer (port : Z) : sockaddr_t := mk_addr PF_INET6 0 [192; 168; 4; 2] port.
Definition server2 : server_t :=
  socket_tcp_accept 2 6 (peer 1002) (socket_tcp_accept 1 5 (peer 1001)
    (server_start (mk_start (3, 0, 0, 0) (4, 0, 0)) (server_boot None (stats_zero [])))).

Lemma server2_reachable : server_reachable server2.
Proof.
  apply (srv_step (socket_tcp_accept 1 5 (peer 1001)
    (server_start (mk_start (3, 0, 0, 0) (4, 0, 0)) (server_boot None (stats_zero []))))).
  - apply (srv_step (server_start (mk_start (3, 0, 0, 0) (4, 0, 0)) (server_boot None (stats_zero [])))).
    + apply (srv_step (server_boot None (stats_zero []))); [apply srv_boot|].
      apply srv_epoch; [reflexivity|set_solver|set_solver|left; discriminate].
    + apply srv_tcp; [reflexivity|]. vm_compute. discriminate.
  - apply srv_tcp; [reflexivity|]. vm_compute. discriminate.
Qed.

Lemma server2_rep : slist_rep (sv_list server2) [2; 1].
Proof.
  split; [apply (bool_decide_unpack _); vm_compute; exact I|]. vm_compute. split; [reflexivity|].
  eexists _, _. split; [reflexivity|]. split; [reflexivity|]. eexists _, _. split; reflexivity.
Qed.

Lemma server_descriptors_witness : exists l, slist_rep (sv_list server2) l /\ udp_distinct server2 l.
Proof. destruct (server_descriptors server2 server2_reachable) as (l & R & _ & _ & U & _). by exists l. Defined.

Lemma clients_removed_witness :
  exists s', socket_server_uart_handler (fun fd => if fd =? 6 then -1 else 9) server2 = Some s' /\
             slist_rep (sv_list s') [1].
Proof.
  destruct (clients_removed server2 [2; 1] server2_reachable server2_rep) as (_ & P & _).
  apply (P (fun fd => if fd =? 6 then -1 else 9)).
Defined.

Lemma receive_race_witness :
  exists s', socket_server_uart_handler (fun fd => if fd =? 5 then -1 else 9) server2 = Some s' /\
    foreach_safe sv_list (receive_body (fun _ => true) (fun _ => ([], None))) 5 (slist_next 2 (sv_list server2)) s' = None.
Proof.
  apply (receive_race server2 [] 2 1 [] (fun fd => if fd =? 5 then -1 else 9)); [apply server2_reachable|apply server2_rep|].
  vm_compute. reflexivity.
Defined.
