(* ===== verification/SocketClient.v ===== *)
(** * The local socket client (src/main/interface/socket_client.c)

    One connection to a configured host gets the receiver's bytes and may send to it.
    A round of the task gives the calls it makes, releases of its two texts included;
    what [connect_socket], [write] and the reads answer are arguments. *)

From S2P Require Import Prelude NetUtil Retry StreamStats Nvs Config.

(** [socket_client_init]: whether the task is started. *)
Definition socket_client_init `{Nvs St} (n : St) : bool := config_get_bool1 (conf "sck_cli_active") n.

Definition SOCK_STREAM : Z := 1.
Definition SOCK_DGRAM : Z := 2.

Inductive client_call :=
  | K_dial (host : list Z) (port socktype : Z)
  | K_write (fd : Z) (data : list Z)
  | K_uart (data : list Z)
  | K_led (active : bool)
  | K_close (fd : Z)
  | K_free_host
  | K_free_message.

(** The static variables. *)
Record client_t := mk_client_state {
  cs_sock : Z;
  cs_stats : stream_stats;
  cs_delay : option retry_delay_t
}.

(** [socket_client_uart_handler]: [write_err] is the answer of the write. *)
Definition socket_client_uart_handler (write_err : Z) (data : list Z) (s : client_t) : client_t * list client_call :=
  if cs_sock s =? -1 then (s, [])
  else
    let s := mk_client_state (cs_sock s) (stream_stats_increment (cs_stats s) 0 (zlen data)) (cs_delay s) in
    let calls := [K_write (cs_sock s) data] in
    if write_err <? 0 then
      let '(sock, closed) := destroy_socket (cs_sock s) in
      (mk_client_state sock (cs_stats s) (cs_delay s), calls ++ match closed with Some fd => [K_close fd] | None => [] end)
    else (s, calls).

(** The loop that reads: [reads k] is what read [k] gives, [None] an error and no bytes
    the end of the stream.  The result counts the statistics. *)
Fixpoint read_loop (fuel : nat) (reads : nat -> option (list Z)) (k : nat) (stats : stream_stats)
    : option (stream_stats * list client_call) :=
  match fuel with
  | O => None
  | S fuel =>
    match reads k with
    | None => Some (stats, [])
    | Some data =>
      match read_loop fuel reads (S k) (stream_stats_increment stats (zlen data) 0) with
      | Some (stats, calls) => Some (stats, K_uart data :: calls)
      | None => None
      end
    end
  end.

(** The end of a round, from [_error]. *)
Definition client_end (s : client_t) : client_t * list client_call :=
  let '(sock, closed) := destroy_socket (cs_sock s) in
  (mk_client_state sock (cs_stats s) (cs_delay s),
   match closed with Some fd => [K_close fd] | None => [] end ++ [K_free_host; K_free_message]).

Section Round.
Context `{Nvs St}.

(** A round of [socket_client_task] once the station has an address; [None] when
    the fuel for its reads runs out.  [led]: whether it has an LED. *)
Definition client_round (led : bool) (dial : dial_answers) (write_err : Z) (fuel : nat)
    (reads : nat -> option (list Z)) (n : St) (s : client_t) : option (client_t * list client_call) :=
  let s := mk_client_state (cs_sock s) (cs_stats s) (fst (fst (retry_delay (cs_delay s)))) in
  let port := config_get_u16 (conf "sck_cli_port") n in
  let host := default [] (snd (config_get_str_blob_alloc true (conf "sck_cli_host") n)) in
  let connect_message := default [] (snd (config_get_str_blob_alloc true (conf "sck_cli_msg") n)) in
  let socktype := if config_get_bool1 (conf "sck_cli_type") n then SOCK_STREAM else SOCK_DGRAM in
  let '(sock, _, _) := connect_socket dial in
  let s := mk_client_state sock (cs_stats s) (cs_delay s) in
  let dialled := [K_dial host port socktype] in
  if (sock =? CONNECT_SOCKET_ERROR_RESOLVE) || (sock =? CONNECT_SOCKET_ERROR_CONNECT) then
    let '(s, calls) := client_end s in Some (s, dialled ++ calls)
  else
    let calls := dialled ++ [K_write sock connect_message; K_free_message] in
    if write_err <? 0 then let '(s, more) := client_end s in Some (s, calls ++ more)
    else
      let s := mk_client_state sock (cs_stats s) (retry_reset (cs_delay s)) in
      let calls := calls ++ (if led then [K_led true] else []) in
      match read_loop fuel reads 0 (cs_stats s) with
      | None => None
      | Some (stats, received) =>
        let '(s, more) := client_end (mk_client_state (cs_sock s) stats (cs_delay s)) in
        Some (s, calls ++ received ++ (if led then [K_led false] else []) ++ more)
      end.
End Round.

(** ** Properties *)

Definition frees_message (calls : list client_call) : nat :=
  length (List.filter (fun c => match c with K_free_message => true | _ => false end) calls).
Definition frees_host (calls : list client_call) : nat :=
  length (List.filter (fun c => match c with K_free_host => true | _ => false end) calls).
Definition closes (calls : list client_call) : list Z :=
  concat (map (fun c => match c with K_close fd => [fd] | _ => [] end) calls).
Definition to_uart (calls : list client_call) : list Z :=
  concat (map (fun c => match c with K_uart data => data | _ => [] end) calls).

(** Read [m] is the first to fail. *)
Definition fails_at (reads : nat -> option (list Z)) (m : nat) : Prop :=
  reads m = None /\ forall k, (k < m)%nat -> reads k <> None.

Definition received (reads : nat -> option (list Z)) (k m : nat) : list (list Z) :=
  map (fun i => default [] (reads i)) (seq k (m - k)).

Lemma read_loop_ends reads m fuel : forall k stats, fails_at reads m -> (k <= m)%nat -> (m - k < fuel)%nat ->
  exists stats', read_loop fuel reads k stats = Some (stats', map K_uart (received reads k m)).
Proof.
  induction fuel as [|fuel IH]; intros k stats [F1 F2] Hk Hf; [lia|]. cbn [read_loop]. unfold received.
  destruct (Nat.eq_dec k m) as [->|Hne].
  - rewrite F1, Nat.sub_diag. by exists stats.
  - destruct (reads k) as [data|] eqn:E; [|by destruct (F2 k ltac:(lia))].
    destruct (IH (S k) (stream_stats_increment stats (zlen data) 0) (conj F1 F2)) as (st & ->); [lia|lia|].
    exists st. replace (m - k)%nat with (S (m - S k)) by lia. cbn [seq map]. by rewrite E.
Qed.

Lemma read_loop_counts reads fuel : forall k stats stats' calls, read_loop fuel reads k stats = Some (stats', calls) ->
  frees_message calls = 0%nat /\ frees_host calls = 0%nat /\ closes calls = [].
Proof.
  induction fuel as [|fuel IH]; intros k stats stats' calls; [done|]. cbn [read_loop].
  destruct (reads k) as [data|]; [|by intros [= <- <-]].
  destruct (read_loop fuel reads (S k) _) as [[st more]|] eqn:E; [|done]. intros [= <- <-].
  destruct (IH _ _ _ _ E) as (I1 & I2 & I3). split_and!; [exact I1|exact I2|exact I3].
Qed.

Lemma read_loop_spins reads fuel : forall k stats, (forall i, (k <= i)%nat -> reads i <> None) ->
  read_loop fuel reads k stats = None.
Proof.
  induction fuel as [|fuel IH]; intros k stats Hr; [done|]. cbn [read_loop].
  destruct (reads k) as [data|] eqn:E; [|by destruct (Hr k)]. rewrite IH; [done|]. intros i Hi. apply Hr. lia.
Qed.

(** The counts of a list of calls are the sums of those of its parts. *)
Lemma frees_message_app a b : frees_message (a ++ b) = (frees_message a + frees_message b)%nat.
Proof. unfold frees_message. by rewrite List.filter_app, length_app. Qed.
Lemma frees_host_app a b : frees_host (a ++ b) = (frees_host a + frees_host b)%nat.
Proof. unfold frees_host. by rewrite List.filter_app, length_app. Qed.
Lemma closes_app a b : closes (a ++ b) = closes a ++ closes b.
Proof. unfold closes. by rewrite map_app, concat_app. Qed.
Lemma to_uart_app a b : to_uart (a ++ b) = to_uart a ++ to_uart b.
Proof. unfold to_uart. by rewrite map_app, concat_app. Qed.
Lemma to_uart_uart l : to_uart (map K_uart l) = concat l.
Proof. induction l as [|x l IH]; [done|]. unfold to_uart in *. cbn. by rewrite IH. Qed.
Create HintDb calls.
#[local] Hint Rewrite frees_message_app frees_host_app closes_app to_uart_app to_uart_uart : calls.

(** A round of the client.  It releases the host once and closes the socket it
    opened; it releases the connection message once when no connection was made and
    twice in every round that reached the write, failed or not, so each connection
    ends in a double free.  It sends what was read to the UART in order and ends once a read fails;
    a peer that closes the connection makes reads answer nothing for ever, and then
    the round never ends. *)
Theorem client_round_frees `{Nvs St} led dial write_err reads (n : St) s :
  let sock := fst (fst (connect_socket dial)) in
  let dialled := negb ((sock =? CONNECT_SOCKET_ERROR_RESOLVE) || (sock =? CONNECT_SOCKET_ERROR_CONNECT)) in
  (forall fuel s' calls, client_round led dial write_err fuel reads n s = Some (s', calls) ->
     frees_host calls = 1%nat /\ frees_message calls = (if dialled then 2 else 1)%nat /\
     closes calls = (if sock <? 0 then [] else [sock]) /\ cs_sock s' < 0) /\
  (forall m fuel, fails_at reads m -> (m < fuel)%nat -> exists s' calls,
     client_round led dial write_err fuel reads n s = Some (s', calls) /\
     to_uart calls = if dialled && (0 <=? write_err) then concat (received reads 0 m) else []) /\
  (dialled = true -> 0 <= write_err -> (forall k, reads k <> None) ->
     forall fuel, client_round led dial write_err fuel reads n s = None).
Proof.
  cbv zeta. unfold client_round, client_end, destroy_socket. destruct (connect_socket dial) as [[sock opened] closed].
  cbn [fst snd cs_sock cs_stats cs_delay].
  generalize (config_get_bool1 (conf "sck_cli_type") n) as tcp. intros tcp.
  generalize (default [] (snd (config_get_str_blob_alloc true (conf "sck_cli_host") n))) as host. intros host.
  generalize (default [] (snd (config_get_str_blob_alloc true (conf "sck_cli_msg") n))) as msg. intros msg.
  destruct (_ || _); cbn [negb andb]; [|destruct (Z.ltb_spec write_err 0) as [Hw|Hw]].
  - split_and!; [| |done].
    + intros fuel s' calls. destruct (Z.ltb_spec sock 0); intros [= <- <-]; split_and!; done || cbn; lia.
    + intros m fuel _ _. destruct (sock <? 0); eexists _, _; split; reflexivity.
  - rewrite (proj2 (Z.leb_gt 0 write_err)) by lia. split_and!; [| |lia].
    + intros fuel s' calls. destruct (Z.ltb_spec sock 0); intros [= <- <-]; split_and!; done || cbn; lia.
    + intros m fuel _ _. destruct (sock <? 0); eexists _, _; split; reflexivity.
  - rewrite (proj2 (Z.leb_le 0 write_err)) by lia. split_and!.
    + intros fuel s' calls. destruct (read_loop fuel reads 0 _) as [[stats rc]|] eqn:Er; [|by destruct (sock <? 0)].
      destruct (read_loop_counts _ _ _ _ _ _ Er) as (R1 & R2 & R3).
      destruct led, (Z.ltb_spec sock 0); intros [<- <-]%(inj Some)%pair_equal_spec;
        autorewrite with calls; rewrite R1, R2, R3; split_and!; done || cbn; lia.
    + intros m fuel Hf Hm. destruct (read_loop_ends reads m fuel 0 (cs_stats s) Hf) as (st & ->); [lia|lia|].
      destruct led, (sock <? 0); eexists _, _; (split; [reflexivity|]); autorewrite with calls; cbn; by rewrite ?app_nil_r.
    + intros _ _ Hr fuel. by rewrite read_loop_spins by (intros; apply Hr).
Qed.

Definition demo_dial : dial_answers := mk_dial 0 [mk_answer 7 0] [0; 0; 0].
Definition demo_reads (k : nat) : option (list Z) := match k with O => Some [1; 2] | 1%nat => Some [3] | _ => None end.

Lemma client_round_frees_witness :
  exists s' calls, client_round true demo_dial 0 5 demo_reads flash_empty (mk_client_state (-1) (stats_zero []) None) = Some (s', calls) /\
    to_uart calls = [1; 2; 3] /\ frees_message calls = 2%nat.
Proof.
  destruct (client_round_frees true demo_dial 0 demo_reads flash_empty (mk_client_state (-1) (stats_zero []) None)) as (P1 & P2 & _).
  destruct (P2 2%nat 5%nat) as (s' & calls & E & U); [split; [reflexivity|]|lia|].
  - intros k Hk. destruct k as [|[|k]]; [done|done|lia].
  - exists s', calls. split; [exact E|]. split; [exact U|]. apply (P1 5%nat s' calls E).
Defined.
