(* ===== verification/Wifi.v ===== *)
(** * Wi-Fi and the setup access point (src/main/wifi.c)

    The event handlers, the control task that closes the access point, the reconnect
    task and the set-up from the stored configuration.  The driver's answers are
    arguments; [None] is an [ESP_ERROR_CHECK] that aborts.  Calls to the driver and to
    other parts of the firmware are listed in [wifi_call]s; status sentences are left
    out. *)

From S2P Require Import Prelude NetUtil NtripServer Nvs OtaState Config Doubles Provisioning Retry Slist StatusLed.

Definition AP_AUTO_OFF_MS : Z := 15 * 60 * 1000.
Definition AP_MAX_REARMS : Z := 2.
Definition WIFI_MODE_STA : Z := 1.
Definition WIFI_MODE_AP : Z := 2.
Definition WIFI_MODE_APSTA : Z := 3.

Record ap_config := mk_ap {
  ap_ssid : list Z;
  ap_hidden : Z;
  ap_password : list Z;
  ap_authmode : Z
}.
Record sta_config := mk_sta {
  sta_ssid : list Z;
  sta_password : list Z;
  sta_scan_all : bool
}.

Inductive wifi_call :=
  | W_set_mode (mode : Z)
  | W_connect
  | W_disconnect
  | W_stop
  | W_start
  | W_note_ip (up : bool)       (* supervisor_note_sta_ip *)
  | W_dns_start                 (* dns_hijack_start *)
  | W_dns_stop                  (* dns_hijack_stop *)
  | W_napt                      (* ip_napt_enable *)
  | W_propagate_dns             (* the station's DNS server into the access point's DHCP *)
  | W_blink                     (* xTaskCreate(rssi_led_blink) *)
  | W_rssi (calls : list led_call)
  | W_delay (ms : Z).

Record wifi_t := mk_wifi {
  wi_mode : Z;  (* mode of the driver *)
  wi_group : bool;  (* the event group exists *)
  wi_got_v4 : bool;  (* WIFI_STA_GOT_IPV4_BIT *)
  wi_got_v6 : bool;  (* WIFI_STA_GOT_IPV6_BIT *)
  wi_client : bool;  (* WIFI_AP_STA_CONNECTED_BIT *)
  wi_stop_due : bool;  (* WIFI_AP_STOP_DUE_BIT *)
  wi_rearm : Z;  (* ap_rearm_count *)
  wi_timer_made : bool;  (* ap_stop_timer is not NULL *)
  wi_timer : option Z;  (* when it expires *)
  wi_ap_active : bool;
  wi_sta_active : bool;
  wi_sta_connected : bool;
  wi_netif_ap : bool;  (* esp_netif_ap is not NULL *)
  wi_dns_propagated : bool;  (* dhcps_dns_propagated *)
  wi_ap : ap_config;  (* config_ap.ap *)
  wi_sta : sta_config;  (* config_sta.sta *)
  wi_devices : Z;  (* ap_sta_list.num *)
  wi_led_ap : option status_led_flashing_mode_t;  (* status_led_ap *)
  wi_led_sta : option status_led_flashing_mode_t;  (* status_led_sta *)
  wi_leds : Z;  (* colours registered *)
  wi_blink : bool;  (* blink_led_task runs *)
  wi_delay : option retry_delay_t;  (* delay_handle *)
  wi_failed : Z  (* failed_attempts *)
}.

Definition eta_wifi_t (x : wifi_t) : wifi_t := mk_wifi (wi_mode x) (wi_group x) (wi_got_v4 x) (wi_got_v6 x)
  (wi_client x) (wi_stop_due x) (wi_rearm x) (wi_timer_made x) (wi_timer x) (wi_ap_active x) (wi_sta_active x)
  (wi_sta_connected x) (wi_netif_ap x) (wi_dns_propagated x) (wi_ap x) (wi_sta x) (wi_devices x) (wi_led_ap x)
  (wi_led_sta x) (wi_leds x) (wi_blink x) (wi_delay x) (wi_failed x).
#[export] Instance set_wi_mode : Setter wi_mode := ltac:(derive_setter eta_wifi_t).
#[export] Instance set_wi_group : Setter wi_group := ltac:(derive_setter eta_wifi_t).
#[export] Instance set_wi_got_v4 : Setter wi_got_v4 := ltac:(derive_setter eta_wifi_t).
#[export] Instance set_wi_got_v6 : Setter wi_got_v6 := ltac:(derive_setter eta_wifi_t).
#[export] Instance set_wi_client : Setter wi_client := ltac:(derive_setter eta_wifi_t).
#[export] Instance set_wi_stop_due : Setter wi_stop_due := ltac:(derive_setter eta_wifi_t).
#[export] Instance set_wi_rearm : Setter wi_rearm := ltac:(derive_setter eta_wifi_t).
#[export] Instance set_wi_timer_made : Setter wi_timer_made := ltac:(derive_setter eta_wifi_t).
#[export] Instance set_wi_timer : Setter wi_timer := ltac:(derive_setter eta_wifi_t).
#[export] Instance set_wi_ap_active : Setter wi_ap_active := ltac:(derive_setter eta_wifi_t).
#[export] Instance set_wi_sta_active : Setter wi_sta_active := ltac:(derive_setter eta_wifi_t).
#[export] Instance set_wi_sta_connected : Setter wi_sta_connected := ltac:(derive_setter eta_wifi_t).
#[export] Instance set_wi_netif_ap : Setter wi_netif_ap := ltac:(derive_setter eta_wifi_t).
#[export] Instance set_wi_dns_propagated : Setter wi_dns_propagated := ltac:(derive_setter eta_wifi_t).
#[export] Instance set_wi_ap : Setter wi_ap := ltac:(derive_setter eta_wifi_t).
#[export] Instance set_wi_sta : Setter wi_sta := ltac:(derive_setter eta_wifi_t).
#[export] Instance set_wi_devices : Setter wi_devices := ltac:(derive_setter eta_wifi_t).
#[export] Instance set_wi_led_ap : Setter wi_led_ap := ltac:(derive_setter eta_wifi_t).
#[export] Instance set_wi_led_sta : Setter wi_led_sta := ltac:(derive_setter eta_wifi_t).
#[export] Instance set_wi_leds : Setter wi_leds := ltac:(derive_setter eta_wifi_t).
#[export] Instance set_wi_blink : Setter wi_blink := ltac:(derive_setter eta_wifi_t).
#[export] Instance set_wi_delay : Setter wi_delay := ltac:(derive_setter eta_wifi_t).
#[export] Instance set_wi_failed : Setter wi_failed := ltac:(derive_setter eta_wifi_t).


(** ** Helpers *)

(** [ap_stop_timer_cb], as the timer expires. *)
Definition ap_stop_timer_cb (s : wifi_t) : wifi_t := s <| wi_timer := None |> <| wi_stop_due := true |>.

(** [rssi_led_safe_off]. *)
Definition rssi_led_safe_off (s : wifi_t) : wifi_t * list wifi_call :=
  (s <| wi_blink := false |>, [W_rssi (rssi_led_set 0)]).

(** [wifi_ap_start_timer]: [created] and [started] are the answers of [xTimerCreate]
    and [xTimerStart]. *)
Definition wifi_ap_start_timer (now : Z) (created started : bool) (s : wifi_t) : wifi_t :=
  let s := s <| wi_timer_made := wi_timer_made s || created |> in
  if negb (wi_timer_made s) then s
  else s <| wi_timer := if started then Some (now + AP_AUTO_OFF_MS) else None |>.

(** [wifi_ap_stop_only]: [err] is the answer of [esp_wifi_set_mode]. *)
Definition wifi_ap_stop_only (err : Z) (s : wifi_t) : option (wifi_t * list wifi_call) :=
  if negb (wi_netif_ap s) then Some (s, [])
  else if negb (is_ok err) then None
  else Some (s <| wi_mode := WIFI_MODE_STA |> <| wi_ap_active := false |> <| wi_dns_propagated := false |>,
             [W_set_mode WIFI_MODE_STA]).

(** A turn of [wifi_control_task] once the stop bit is set: the bit is cleared. *)
Definition wifi_control_task (now : Z) (created started : bool) (mode_err set_err : Z) (s : wifi_t)
    : option (wifi_t * list wifi_call) :=
  let s := s <| wi_stop_due := false |> in
  if wi_client s && (wi_rearm s <? AP_MAX_REARMS) then
    let s := s <| wi_rearm := wi_rearm s + 1 |> in
    Some (wifi_ap_start_timer now created started s, [])
  else if negb (is_ok mode_err) then None
  else if negb (wi_mode s =? WIFI_MODE_STA) then wifi_ap_stop_only set_err s
  else Some (s, []).

(** A turn of [wifi_sta_status_task]. *)
Definition wifi_sta_status_task (info_err : Z) (s : wifi_t) : list wifi_call :=
  (if wi_blink s then [] else [W_rssi (rssi_led_fade (if is_ok info_err then 255 else 0) 100)]) ++ [W_delay 1000].

(** A turn of [wifi_sta_reconnect_task]; [blink] says whether the task was created. *)
Definition wifi_sta_reconnect_task (blink : bool) (s : wifi_t) : wifi_t * list wifi_call :=
  if negb (wi_sta_active s) then (s, [W_delay 1000])
  else if wi_sta_connected s then (s <| wi_failed := 0 |>, [W_delay 1000])
  else
    let '(handle, delay, _) := retry_delay (wi_delay s) in
    let s := s <| wi_delay := handle |> in
    let start_blink := negb (wi_sta_connected s) && negb (wi_blink s) in
    let s := if start_blink then s <| wi_blink := blink |> else s in
    let s := s <| wi_failed := wi_failed s + 1 |> in
    let restart := 60 <? wi_failed s in
    let s := if restart then s <| wi_failed := 0 |> else s in
    (s, [W_delay delay; W_connect] ++ (if start_blink then [W_blink] else []) ++
        (if restart then [W_stop; W_delay 1000; W_start] else []) ++ [W_delay 5000]).

Section Wifi.
Context `{Nvs St}.
Implicit Types n : St.

(** ** Set-up from the configuration *)

Definition SSID_PREFIX : list Z := Eval compute in of_str "RTKdata_".
Definition has_prefix (ssid : list Z) : bool := bytes_eqb (ztake (zlen SSID_PREFIX) ssid) SSID_PREFIX.
Definition mac_ssid (mac : list Z) : list Z := SSID_PREFIX ++ concat (map (hex2_of upper_digit) (zdrop 3 mac)).

(** A number read with [config_get_primitive]. *)
Definition setting (key : string) (n : St) : Z := default 0 (snd (config_get_primitive (conf key) n)).

(** A text read into a buffer of [cap] bytes, which keeps its content on an error. *)
Definition read_text (key : string) (cap : Z) (old : list Z) (n : St) : list Z * bool :=
  let '(err, _, text) := config_get_str_blob (conf key) (Some cap) n in
  (if is_ok err then text else old, is_ok err).

(** [wifi_init_softap]: [config_err] is the worst answer of the two checked calls. *)
Definition wifi_init_softap (mac : list Z) (config_err : Z) (s : wifi_t) (n : St) : option (wifi_t * St) :=
  let '(ssid, read) := read_text "w_ap_ssid" 32 (ap_ssid (wi_ap s)) n in
  let generate := (read && (zlen ssid =? 0)) || negb (has_prefix ssid) in
  let ssid := if generate then mac_ssid mac else ssid in
  let n := if generate then (config_set_str "w_ap_ssid" ssid n).2 else n in
  let hidden := setting "w_ap_ssid_hid" n in
  let '(password, _) := read_text "w_ap_pass" 64 (ap_password (wi_ap s)) n in
  let s := s <| wi_ap := mk_ap ssid hidden password (setting "w_ap_auth_mode" n) |> in
  if negb (is_ok config_err) then None
  else
    let color := config_get_color (conf "w_ap_color") n in
    Some (if color =? 0 then s
          else s <| wi_led_ap := Some STATUS_LED_STATIC |> <| wi_leds := wi_leds s + 1 |>, n).

(** [wifi_init_sta]. *)
Definition wifi_init_sta (config_err : Z) (s : wifi_t) (n : St) : option wifi_t :=
  let '(ssid, _) := read_text "w_sta_ssid" 32 (sta_ssid (wi_sta s)) n in
  let '(password, _) := read_text "w_sta_pass" 64 (sta_password (wi_sta s)) n in
  let s := s <| wi_sta := mk_sta ssid password (config_get_bool1 (conf "w_sta_scan_mode") n) |> in
  if negb (is_ok config_err) then None
  else
    let color := config_get_color (conf "w_sta_color") n in
    Some (if color =? 0 then s
          else s <| wi_led_sta := Some STATUS_LED_STATIC |> <| wi_leds := wi_leds s + 1 |>).

(** [0xffffffffu << (32u - subnet)]; shifting by 32 or more is undefined. *)
Definition subnet_mask (subnet : Z) : option Z :=
  let shift := u32 (32 - subnet) in
  if 32 <=? shift then None else Some (u32 (Z.shiftl (2 ^ 32 - 1) shift)).

Record ip_info := mk_ip { ip_addr : Z; ip_gw : Z; ip_mask : Z; ip_dns : option (Z * option Z) }.

(** [net_init_softap(true)] and [net_init_sta(true)]: the interface and its addresses;
    [checks] is the worst answer of the checked calls. *)
Definition net_init_softap (checks : Z) (s : wifi_t) (n : St) : option (wifi_t * ip_info) :=
  let s := s <| wi_netif_ap := true |> in
  let ip := setting "w_ap_gw" n in
  match subnet_mask (config_get_u8 (conf "w_sta_subnet") n) with
  | None => None
  | Some mask =>
    if negb (is_ok checks) then None
    else
      let dns := if config_get_bool1 (conf "w_sta_ap_fwd") n then None else Some (ip, None) in
      Some (s, mk_ip ip ip mask dns)
  end.
Definition net_init_sta (checks : Z) (n : St) : option (option ip_info) :=
  if config_get_bool1 (conf "w_sta_static") n then
    match subnet_mask (config_get_u8 (conf "w_sta_subnet") n) with
    | None => None
    | Some mask =>
      if negb (is_ok checks) then None
      else Some (Some (mk_ip (setting "w_sta_ip" n) (setting "w_sta_gw" n) mask
                             (Some (setting "w_sta_dns_a" n, Some (setting "w_sta_dns_b" n)))))
    end
  else Some None.
Definition net_init (ap_checks sta_checks : Z) (s : wifi_t) (n : St)
    : option (wifi_t * ip_info * option ip_info) :=
  match net_init_softap ap_checks s n, net_init_sta sta_checks n with
  | Some (s, ap), Some sta => Some (s, ap, sta)
  | _, _ => None
  end.

(** [wifi_ap_start_only]: [mode_err] is the answer of [esp_wifi_set_mode]. *)
Definition wifi_ap_start_only (mac : list Z) (checks mode_err config_err : Z) (s : wifi_t) (n : St)
    : option (wifi_t * St * list wifi_call) :=
  match (if wi_netif_ap s then Some s else option_map fst (net_init_softap checks s n)) with
  | None => None
  | Some s =>
    if negb (is_ok mode_err) then Some (s, n, [])
    else
      match wifi_init_softap mac config_err (s <| wi_mode := WIFI_MODE_APSTA |>) n with
      | None => None
      | Some (s, n) =>
        Some (s <| wi_ap_active := true |> <| wi_dns_propagated := false |>, n, [W_set_mode WIFI_MODE_APSTA])
      end
  end.

(** [wifi_init], after [esp_wifi_init]; [checks] is the worst answer of the checked calls
    before the set-up, [start_err] that of [esp_wifi_start]. *)
Definition wifi_init (now : Z) (created started : bool) (mac : list Z) (checks ap_err sta_err start_err : Z)
    (delay : option retry_delay_t) (s : wifi_t) (n : St) : option (wifi_t * St * list wifi_call) :=
  if negb (is_ok checks) then None
  else
    let s := s <| wi_group := true |> <| wi_delay := delay |> <| wi_mode := WIFI_MODE_APSTA |> in
    let s := wifi_ap_start_timer now created started s in
    match wifi_init_softap mac ap_err s n with
    | None => None
    | Some (s, n) =>
      match wifi_init_sta sta_err s n with
      | None => None
      | Some s => if is_ok start_err then Some (s, n, [W_set_mode WIFI_MODE_APSTA; W_start]) else None
      end
    end.

(** ** Event handlers *)

Definition handle_sta_start (s : wifi_t) : wifi_t * list wifi_call := (s <| wi_sta_active := true |>, [W_connect]).
Definition handle_sta_stop (s : wifi_t) : wifi_t * list wifi_call := (s <| wi_sta_active := false |>, []).

Definition fade_sta (m : status_led_flashing_mode_t) (s : wifi_t) : wifi_t :=
  s <| wi_led_sta := option_map (fun _ => m) (wi_led_sta s) |>.
Definition fade_ap (m : status_led_flashing_mode_t) (s : wifi_t) : wifi_t :=
  s <| wi_led_ap := option_map (fun _ => m) (wi_led_ap s) |>.

Definition handle_sta_connected (now : Z) (created started : bool) (s : wifi_t) : wifi_t * list wifi_call :=
  let s := s <| wi_sta_connected := true |> in
  let '(s, calls) := rssi_led_safe_off s in
  let s := s <| wi_delay := retry_reset (wi_delay s) |> in
  (wifi_ap_start_timer now created started (fade_sta STATUS_LED_FADE s), calls).

Definition handle_sta_disconnected (now : Z) (created started : bool) (mac : list Z) (checks mode_err config_err : Z)
    (s : wifi_t) (n : St) : option (wifi_t * St * list wifi_call) :=
  let s := s <| wi_sta_connected := false |> <| wi_got_v4 := false |> <| wi_got_v6 := false |> in
  let s := fade_sta STATUS_LED_STATIC s in
  let sta_ssid := (config_get_str_blob_alloc true (conf "w_sta_ssid") n).2 in
  let provisioned := match sta_ssid with Some (c :: _) => true | _ => false end in
  if provisioned then Some (s, n, [W_note_ip false])
  else
    match wifi_ap_start_only mac checks mode_err config_err s n with
    | None => None
    | Some (s, n, calls) => Some (wifi_ap_start_timer now created started s, n, W_note_ip false :: calls)
    end.

Definition handle_ap_start (s : wifi_t) (n : St) : wifi_t * list wifi_call :=
  let forward := config_get_bool1 (conf "w_sta_ap_fwd") n in
  (s <| wi_ap_active := true |> <| wi_rearm := 0 |> <| wi_dns_propagated := false |>,
   if forward then [W_napt] else [W_dns_start]).

Definition handle_ap_stop (s : wifi_t) : wifi_t * list wifi_call :=
  (s <| wi_client := false |> <| wi_rearm := 0 |> <| wi_ap_active := false |> <| wi_dns_propagated := false |>,
   [W_dns_stop]).

Definition handle_ap_sta_connected (s : wifi_t) : wifi_t * list wifi_call :=
  (fade_ap STATUS_LED_FADE (s <| wi_client := true |>), []).

(** [wifi_ap_sta_list]: [devices] is what the driver counts. *)
Definition wifi_ap_sta_list (devices : Z) (s : wifi_t) : wifi_t := s <| wi_devices := devices |>.

Definition handle_ap_sta_disconnected (devices : Z) (s : wifi_t) : wifi_t * list wifi_call :=
  let s := wifi_ap_sta_list devices s in
  (if wi_devices s =? 0 then fade_ap STATUS_LED_STATIC (s <| wi_client := false |>) else s, []).

Definition handle_sta_got_ip (checks : Z) (s : wifi_t) (n : St) : option (wifi_t * list wifi_call) :=
  let propagate := wi_ap_active s && config_get_bool1 (conf "w_sta_ap_fwd") n && negb (wi_dns_propagated s) in
  if propagate && negb (is_ok checks) then None
  else
    let s := if propagate then s <| wi_dns_propagated := true |> else s in
    Some (s <| wi_got_v4 := true |>, (if propagate then [W_propagate_dns] else []) ++ [W_note_ip true]).

Definition handle_sta_lost_ip (s : wifi_t) : wifi_t * list wifi_call :=
  (s <| wi_got_v4 := false |>, [W_note_ip false; W_disconnect]).

(** [wait_for_ip]: whether the bit came within [timeout_ms] (0: for ever), [came] being
    when it does. *)
Definition wait_for_ip (timeout_ms : Z) (came : option Z) (s : wifi_t) : option bool :=
  if wi_got_v4 s then Some true
  else
    match came with
    | Some t => if (timeout_ms =? 0) || (t <=? timeout_ms) then Some true else Some false
    | None => if timeout_ms =? 0 then None else Some false
    end.

(** ** Status, scan, requests *)

Record wifi_ap_status_t := mk_ap_status {
  as_active : bool;
  as_ssid : list Z;
  as_authmode : Z;
  as_devices : Z;
  as_ip4 : Z
}.
Definition wifi_ap_status (devices ip4 : Z) (s : wifi_t) : wifi_t * option wifi_ap_status_t :=
  if wi_ap_active s then
    let s := wifi_ap_sta_list devices s in
    (s, Some (mk_ap_status true (ap_ssid (wi_ap s)) (ap_authmode (wi_ap s)) (wi_devices s) ip4))
  else (s, None).

(** [info] is [sta_ap_info]: name, signal and authentication of the network joined. *)
Record wifi_sta_status_t := mk_sta_status {
  ss_active : bool;
  ss_connected : bool;
  ss_ssid : list Z;
  ss_rest : option (Z * Z * Z)  (** signal, authentication, address *)
}.
Definition wifi_sta_status (info : list Z * Z * Z) (ip4 : Z) (s : wifi_t) : wifi_sta_status_t :=
  let '(ssid, rssi, authmode) := info in
  mk_sta_status (wi_sta_active s) (wi_sta_connected s)
    (if wi_sta_connected s then ssid else sta_ssid (wi_sta s))
    (if wi_sta_connected s then Some (rssi, authmode, ip4) else None).

(** [wifi_scan]: the records found, [None] for NULL; [alloc] is [malloc]'s answer and
    [records] the scan's.  A failed check aborts. *)
Definition wifi_scan {R} (set_err restore_err : Z) (alloc : bool) (records : list R) (s : wifi_t)
    : option (wifi_t * option (list R)) :=
  let prev_mode := wi_mode s in
  let changed := prev_mode =? WIFI_MODE_AP in
  if changed && negb (is_ok set_err) then None
  else
    let s := if changed then s <| wi_mode := WIFI_MODE_APSTA |> else s in
    if changed && negb (is_ok restore_err) then None
    else
      let s := if changed then s <| wi_mode := prev_mode |> else s in
      Some (s, if zlen records =? 0 then None else if alloc then Some records else None).

Definition wifi_auth_mode_name (auth_mode : Z) : string :=
  match auth_mode with
  | 0 => "OPEN" | 1 => "WEP" | 2 => "WPA_PSK" | 3 => "WPA2_PSK" | 4 => "WPA/2_PSK" | 5 => "WPA2_ENTERPRISE"
  | _ => "Unknown"
  end.

Definition wifi_ap_stop_now (s : wifi_t) : wifi_t :=
  if negb (wi_group s) || negb (wi_ap_active s) then s else s <| wi_stop_due := true |>.

Definition wifi_driver_restart : list wifi_call := [W_stop; W_delay 500; W_start].
End Wifi.

(** ** The system in time *)

Inductive wifi_event :=
  | E_tick (ms : Z)
  | E_timer
  | E_control (created started : bool) (mode_err set_err : Z)
  | E_reconnect (blink : bool)
  | E_sta_start
  | E_sta_stop
  | E_sta_connected (created started : bool)
  | E_sta_disconnected (created started : bool) (mac : list Z) (checks mode_err config_err : Z)
  | E_ap_start
  | E_ap_stop
  | E_ap_join
  | E_ap_leave (devices : Z)
  | E_got_ip (checks : Z)
  | E_lost_ip
  | E_stop_now.

Record wifi_sys (St : Type) := mk_ws { ws_now : Z; ws_wifi : wifi_t; ws_nvs : St }.
Arguments mk_ws {St}. Arguments ws_now {St}. Arguments ws_wifi {St}. Arguments ws_nvs {St}.

Section System.
Context `{Nvs St}.
Implicit Types s : wifi_sys St.

(** [None]: a failed check aborts. *)
Definition wifi_do (e : wifi_event) s : option (wifi_sys St) :=
  let now := ws_now s in
  let w := ws_wifi s in
  let n := ws_nvs s in
  let put w := Some (mk_ws now w n) in
  match e with
  | E_tick ms => Some (mk_ws (now + ms) w n)
  | E_timer => put (ap_stop_timer_cb w)
  | E_control created started mode_err set_err =>
    match wifi_control_task now created started mode_err set_err w with Some (w, _) => put w | None => None end
  | E_reconnect blink => put (fst (wifi_sta_reconnect_task blink w))
  | E_sta_start => put (fst (handle_sta_start w))
  | E_sta_stop => put (fst (handle_sta_stop w))
  | E_sta_connected created started => put (fst (handle_sta_connected now created started w))
  | E_sta_disconnected created started mac checks mode_err config_err =>
    match handle_sta_disconnected now created started mac checks mode_err config_err w n with
    | Some (w, n, _) => Some (mk_ws now w n)
    | None => None
    end
  | E_ap_start => put (fst (handle_ap_start w n))
  | E_ap_stop => put (fst (handle_ap_stop w))
  | E_ap_join => put (fst (handle_ap_sta_connected w))
  | E_ap_leave devices => put (fst (handle_ap_sta_disconnected devices w))
  | E_got_ip checks => match handle_sta_got_ip checks w n with Some (w, _) => put w | None => None end
  | E_lost_ip => put (fst (handle_sta_lost_ip w))
  | E_stop_now => put (wifi_ap_stop_now w)
  end.

(** Time stops at the timer's deadline until it expires, and while the control task
    has its bit to handle. *)
Definition enabled (e : wifi_event) s : Prop :=
  match e with
  | E_tick ms => 0 < ms /\ wi_stop_due (ws_wifi s) = false /\
                 forall t, wi_timer (ws_wifi s) = Some t -> ws_now s + ms <= t
  | E_timer => exists t, wi_timer (ws_wifi s) = Some t /\ t <= ws_now s
  | E_control _ _ _ _ => wi_stop_due (ws_wifi s) = true
  | _ => True
  end.

Inductive wifi_run (P : wifi_event -> wifi_sys St -> Prop) : wifi_sys St -> wifi_sys St -> Prop :=
  | run_done s : wifi_run P s s
  | run_step s e s1 s2 : wifi_run P s s1 -> P e s1 -> enabled e s1 -> wifi_do e s1 = Some s2 -> wifi_run P s s2.

Definition provisioned (n : St) : Prop :=
  exists c ssid, (config_get_str_blob_alloc true (conf "w_sta_ssid") n).2 = Some (c :: ssid).

(** What does not open the access point or restart its timer from outside. *)
Definition calm (e : wifi_event) s : Prop :=
  match e with
  | E_control _ started _ _ => started = true
  | E_sta_disconnected _ _ _ _ _ _ => provisioned (ws_nvs s)
  | E_ap_stop => wi_mode (ws_wifi s) = WIFI_MODE_STA
  | E_sta_connected _ _ | E_ap_start => False
  | _ => True
  end.

(** The station flaps; nobody is on the access point. *)
Definition flapping (e : wifi_event) (_ : wifi_sys St) : Prop :=
  match e with E_tick _ | E_sta_connected _ _ | E_sta_disconnected _ _ _ _ _ _ => True | _ => False end.

(** The access point is open with its timer running, or about to be looked at. *)
Record ap_open (limit : Z) s : Prop := {
  ao_netif : wi_netif_ap (ws_wifi s) = true;
  ao_made : wi_timer_made (ws_wifi s) = true;
  ao_rearm : 0 <= wi_rearm (ws_wifi s) <= AP_MAX_REARMS;
  ao_timer : match wi_timer (ws_wifi s) with
             | Some t => ws_now s <= t /\ t + (AP_MAX_REARMS - wi_rearm (ws_wifi s)) * AP_AUTO_OFF_MS <= limit
             | None => wi_stop_due (ws_wifi s) = true /\
                       ws_now s + (AP_MAX_REARMS - wi_rearm (ws_wifi s)) * AP_AUTO_OFF_MS <= limit
             end
}.

Lemma ap_open_frame limit s w : wi_netif_ap w = wi_netif_ap (ws_wifi s) ->
  wi_timer_made w = wi_timer_made (ws_wifi s) -> wi_rearm w = wi_rearm (ws_wifi s) ->
  wi_timer w = wi_timer (ws_wifi s) -> (wi_stop_due (ws_wifi s) = true -> wi_stop_due w = true) ->
  ap_open limit s -> ap_open limit (mk_ws (ws_now s) w (ws_nvs s)).
Proof.
  intros E1 E2 E3 E4 E5 [O1 O2 O3 O4]. split; cbn [ws_wifi ws_now]; rewrite ?E1, ?E2, ?E3, ?E4; try done.
  destruct (wi_timer (ws_wifi s)); [done|]. destruct O4 as [D1 D2]. split; [by apply E5|done].
Qed.

Lemma reconnect_frame blink w : let w' := fst (wifi_sta_reconnect_task blink w) in
  wi_netif_ap w' = wi_netif_ap w /\ wi_timer_made w' = wi_timer_made w /\ wi_rearm w' = wi_rearm w /\
  wi_timer w' = wi_timer w /\ wi_stop_due w' = wi_stop_due w /\ wi_mode w' = wi_mode w.
Proof.
  unfold wifi_sta_reconnect_task. destruct (wi_sta_active w); cbn [negb]; [|done].
  destruct (wi_sta_connected w); [done|]. destruct (retry_delay _) as [[h d] k]. cbv zeta. cbn [fst].
  by repeat case_if.
Qed.

(** A turn of the control task: a fresh period for a client with re-arms left, else the
    access point closes. *)
Lemma control_spec now created mode_err set_err w w' calls :
  wifi_control_task now created true mode_err set_err w = Some (w', calls) ->
  (wi_mode w = WIFI_MODE_STA -> wi_mode w' = WIFI_MODE_STA) /\
  (wi_netif_ap w = true ->
   if wi_client w && (wi_rearm w <? AP_MAX_REARMS)
   then wi_mode w' = wi_mode w /\ wi_rearm w' = wi_rearm w + 1 /\ wi_netif_ap w' = true /\
        (wi_timer_made w || created = true -> wi_timer_made w' = true /\ wi_timer w' = Some (now + AP_AUTO_OFF_MS))
   else wi_mode w' = WIFI_MODE_STA).
Proof.
  unfold wifi_control_task. cbv zeta. cbn [wi_client wi_rearm wi_mode upd set_wi_stop_due].
  destruct (wi_client w && (wi_rearm w <? AP_MAX_REARMS)).
  - intros [= <- _]. unfold wifi_ap_start_timer. cbn. split; [intros; by case_if|intros Hn].
    split_and!; [by case_if..|]. by intros ->.
  - destruct (is_ok mode_err); cbn [negb]; [|done].
    destruct (Z.eqb_spec (wi_mode w) WIFI_MODE_STA) as [Em|Em]; cbn [negb]; [by intros [= <- _]|].
    unfold wifi_ap_stop_only. cbn. destruct (wi_netif_ap w); cbn [negb]; [|by intros [= <- _]].
    destruct (is_ok set_err); [|done]. by intros [= <- _].
Qed.

(** A calm step keeps the access point within its limit or closes it. *)
Lemma calm_step limit e s s' : wi_mode (ws_wifi s) = WIFI_MODE_STA \/ ap_open limit s ->
  calm e s -> enabled e s -> wifi_do e s = Some s' ->
  wi_mode (ws_wifi s') = WIFI_MODE_STA \/ ap_open limit s'.
Proof.
  intros I Hc He E. destruct s as [now w n]. destruct e; cbn [wifi_do calm enabled ws_now ws_wifi ws_nvs] in *; try done.
  - injection E as <-. destruct I as [I|[O1 O2 O3 O4]]; [by left|right]. cbn [ws_wifi ws_now] in *.
    destruct He as (Hm & Hs & Ht). split; cbn [ws_wifi ws_now]; try done. destruct (wi_timer w) as [t|].
    + specialize (Ht t eq_refl). split; [lia|apply O4].
    + rewrite Hs in O4. by destruct O4.
  - injection E as <-. destruct I as [I|[O1 O2 O3 O4]]; [by left|right]. destruct He as (t & Et & Hle).
    split; cbn in *; try done. rewrite Et in O4. split; [done|lia].
  - subst started. destruct (wifi_control_task _ _ _ _ _ _) as [[w' calls]|] eqn:Ew; [|done]. injection E as <-.
    apply control_spec in Ew as [C1 C2]. destruct I as [I|[O1 O2 O3 O4]]; cbn [ws_wifi ws_now] in *; [left; auto|].
    specialize (C2 O1). destruct (wi_client w && (wi_rearm w <? AP_MAX_REARMS)) eqn:Eb; [right|by left].
    apply andb_true_iff in Eb as [_ Eb%Z.ltb_lt]. destruct C2 as (D1 & D2 & D3 & D4). rewrite O2 in D4.
    destruct (D4 eq_refl) as [D5 D6]. split; cbn [ws_wifi ws_now]; rewrite ?D2, ?D6; try done; [lia|].
    unfold AP_AUTO_OFF_MS, AP_MAX_REARMS in *. split; [lia|]. destruct (wi_timer w); [|destruct O4]; lia.
  - injection E as <-. destruct (reconnect_frame blink w) as (F1 & F2 & F3 & F4 & F5 & F6). cbn [ws_wifi] in *.
    destruct I as [I|I]; [left; by rewrite F6|right]. apply (ap_open_frame limit (mk_ws now w n)); cbn [ws_wifi]; congruence.
  - injection E as <-. destruct I as [I|I]; [by left|right]. by apply (ap_open_frame limit (mk_ws now w n)).
  - injection E as <-. destruct I as [I|I]; [by left|right]. by apply (ap_open_frame limit (mk_ws now w n)).
  - destruct Hc as (c & ssid & Hp). unfold handle_sta_disconnected in E. cbv zeta in E. rewrite Hp in E. injection E as <-.
    destruct I as [I|I]; [by left|right]. by apply (ap_open_frame limit (mk_ws now w n)).
  - injection E as <-. by left.
  - injection E as <-. destruct I as [I|I]; [by left|right]. by apply (ap_open_frame limit (mk_ws now w n)).
  - injection E as <-. unfold handle_ap_sta_disconnected, wifi_ap_sta_list. cbn [fst ws_wifi] in *.
    destruct I as [I|I]; [left; by case_if|right].
    apply (ap_open_frame limit (mk_ws now w n)); try done; by case_if.
  - unfold handle_sta_got_ip in E. cbv zeta in E. destruct (_ && negb (is_ok checks)); [done|]. injection E as <-. cbn [ws_wifi] in *.
    destruct I as [I|I]; [left; by case_if|right].
    apply (ap_open_frame limit (mk_ws now w n)); try done; by case_if.
  - injection E as <-. destruct I as [I|I]; [by left|right]. by apply (ap_open_frame limit (mk_ws now w n)).
  - injection E as <-. unfold wifi_ap_stop_now. destruct I as [I|I]; [left; cbn [ws_wifi] in *; by case_if|right].
    apply (ap_open_frame limit (mk_ws now w n)); try done; by case_if.
Qed.
End System.

Section Theorems.
Context `{NvsLaws St}.
Implicit Types (s : wifi_sys St) (n : St).

Lemma calm_run limit s s' : ap_open limit s -> wifi_run calm s s' ->
  wi_mode (ws_wifi s') = WIFI_MODE_STA \/ ap_open limit s'.
Proof.
  intros I R. induction R as [s|s e s1 s2 R IH Hc He E]; [by right|]. apply (calm_step limit e s1); auto.
Qed.

(** C36: the open access point closes by itself.  From its timer's start with [r]
    re-arms used, and as long as the station does not connect, an unprovisioned one
    loses no network and the driver does not restart it, no instant later than
    [2 - r] periods of fifteen minutes after the deadline finds it open, whoever joins and leaves and
    however often an early stop is requested; the control task closes it at once
    unless a client is on it with re-arms left, and then starts a fresh period. *)
Theorem ap_window_bounded s t : wi_netif_ap (ws_wifi s) = true -> wi_timer_made (ws_wifi s) = true ->
  wi_timer (ws_wifi s) = Some t -> ws_now s <= t -> 0 <= wi_rearm (ws_wifi s) <= AP_MAX_REARMS ->
  (forall s', wifi_run calm s s' -> wi_mode (ws_wifi s') = WIFI_MODE_STA \/
     ws_now s' <= t + (AP_MAX_REARMS - wi_rearm (ws_wifi s)) * AP_AUTO_OFF_MS) /\
  (forall now w w' calls, wi_netif_ap w = true -> wifi_control_task now true true ESP_OK ESP_OK w = Some (w', calls) ->
     if wi_client w && (wi_rearm w <? AP_MAX_REARMS)
     then wi_mode w' = wi_mode w /\ wi_timer w' = Some (now + AP_AUTO_OFF_MS) /\ wi_rearm w' = wi_rearm w + 1
     else wi_mode w' = WIFI_MODE_STA).
Proof.
  intros O1 O2 Et Hn Hr. split.
  - intros s' R.
    set (limit := t + (AP_MAX_REARMS - wi_rearm (ws_wifi s)) * AP_AUTO_OFF_MS).
    assert (I : ap_open limit s) by (split; try done; rewrite Et; split; [done|unfold limit; lia]).
    destruct (calm_run limit s s' I R) as [M|[_ _ R1 T]]; [by left|right]. unfold AP_MAX_REARMS, AP_AUTO_OFF_MS in *.
    destruct (wi_timer (ws_wifi s')); lia.
  - intros now w w' calls Hw E. apply control_spec in E as [_ C]. specialize (C Hw).
    destruct (wi_client w && _); [|done]. destruct C as (C1 & C2 & _ & C4). destruct C4; [apply orb_true_r|done].
Qed.

Lemma run_trans (P : wifi_event -> wifi_sys St -> Prop) s1 s2 s3 : wifi_run P s1 s2 -> wifi_run P s2 s3 -> wifi_run P s1 s3.
Proof. intros R1 R2. induction R2 as [|s e a b R2 IH Hp He E]; [done|]. by apply (run_step _ _ e a); [apply IH|..]. Qed.

(** What [wifi_init_softap] does when the driver takes the configuration. *)
Lemma softap_done mac w n : exists w' n', wifi_init_softap mac ESP_OK w n = Some (w', n') /\
  wi_mode w' = wi_mode w /\ wi_timer w' = wi_timer w /\ wi_timer_made w' = wi_timer_made w /\
  wi_leds w' = wi_leds w + (if config_get_color (conf "w_ap_color") n =? 0 then 0 else 1) /\
  (let '(ssid, _) := read_text "w_ap_ssid" 32 (ap_ssid (wi_ap w)) n in
   if has_prefix ssid then ap_ssid (wi_ap w') = ssid /\ n' = n
   else ap_ssid (wi_ap w') = mac_ssid mac /\ n' = (config_set_str "w_ap_ssid" (mac_ssid mac) n).2) /\
  (forall ns key, (ns, key) <> (STORAGE, "w_ap_ssid"%string) -> nvs_agree ns key n n').
Proof.
  unfold wifi_init_softap. destruct (read_text "w_ap_ssid" 32 (ap_ssid (wi_ap w)) n) as [ssid rd].
  change (negb (is_ok ESP_OK)) with false. cbn iota.
  assert (Ez : has_prefix ssid = true -> (zlen ssid =? 0) = false).
  { intros Hp. destruct ssid; [done|]. apply Z.eqb_neq. autorewrite with zlen. pose proof (zlen_nonneg ssid). lia. }
  set (gen := (rd && (zlen ssid =? 0)) || negb (has_prefix ssid)).
  assert (Eg : gen = negb (has_prefix ssid)).
  { unfold gen. destruct (has_prefix ssid); [rewrite Ez by done; by rewrite andb_false_r|]. by rewrite orb_true_r. }
  rewrite Eg. set (n' := if negb (has_prefix ssid) then _ else n).
  assert (A : forall ns key, (ns, key) <> (STORAGE, "w_ap_ssid"%string) -> nvs_agree ns key n n').
  { intros ns key Hk. unfold n', config_set_str. destruct (negb _); [|done]. apply set_str_other. congruence. }
  assert (Ec : config_get_color (conf "w_ap_color") n' = config_get_color (conf "w_ap_color") n).
  { unfold config_get_color, get_or. by rewrite (agree_int STORAGE (ci_key (conf "w_ap_color")) n n') by (apply A; vm_compute; congruence). }
  destruct (read_text "w_ap_pass" 64 _ _) as [pass rd2]. rewrite Ec.
  eexists _, _. split; [reflexivity|].
  destruct (config_get_color (conf "w_ap_color") n =? 0); cbn; (split_and!; [done|done|done|lia| |done]);
    unfold n'; destruct (has_prefix ssid); done.
Qed.

(** One flap of the station: ten minutes connected, a loss, a new connection. *)
Lemma one_flap now w n : wi_timer_made w = true -> wi_stop_due w = false ->
  wi_timer w = Some (now + AP_AUTO_OFF_MS) -> provisioned n ->
  exists w', wifi_run flapping (mk_ws now w n) (mk_ws (now + 600000) w' n) /\ wi_timer_made w' = true /\
    wi_stop_due w' = false /\ wi_timer w' = Some (now + 600000 + AP_AUTO_OFF_MS) /\
    wi_mode w' = wi_mode w /\ wi_client w' = wi_client w /\ wi_rearm w' = wi_rearm w.
Proof.
  intros Hm Hs Ht (c & ssid & Hp).
  set (lost := fade_sta STATUS_LED_STATIC (w <| wi_sta_connected := false |> <| wi_got_v4 := false |> <| wi_got_v6 := false |>)).
  exists (fst (handle_sta_connected (now + 600000) true true lost)). split.
  - apply (run_step _ _ (E_sta_connected true true) (mk_ws (now + 600000) lost n)); [|done..].
    apply (run_step _ _ (E_sta_disconnected true true [] ESP_OK ESP_OK ESP_OK) (mk_ws (now + 600000) w n)); [|done|done|].
    + apply (run_step _ _ (E_tick 600000) (mk_ws now w n)); [apply run_done|done| |done].
      split; [lia|]. split; [done|]. cbn [ws_wifi ws_now]. rewrite Ht. intros t [= <-]. unfold AP_AUTO_OFF_MS. lia.
    + cbn [wifi_do ws_wifi ws_now ws_nvs]. unfold handle_sta_disconnected. by rewrite Hp.
  - unfold handle_sta_connected, rssi_led_safe_off, wifi_ap_start_timer, fade_sta. cbn. rewrite Hm. cbn. done.
Qed.

(** The fifteen minutes do not bound it when the station's network comes and goes.
    Every connection of the station restarts the timer, so a provisioned unit whose
    network is lost and found every ten minutes keeps its open access point up for
    ever, with nobody on it and no re-arm used; on a unit without a network each
    loss reopens the access point, restarts the timer and registers one more LED colour. *)
Theorem ap_held_open :
  (forall s, wi_timer_made (ws_wifi s) = true -> wi_stop_due (ws_wifi s) = false ->
     wi_timer (ws_wifi s) = Some (ws_now s + AP_AUTO_OFF_MS) -> provisioned (ws_nvs s) ->
     forall k : nat, exists s', wifi_run flapping s s' /\ ws_now s' = ws_now s + Z.of_nat k * 600000 /\
       wi_mode (ws_wifi s') = wi_mode (ws_wifi s) /\ wi_client (ws_wifi s') = wi_client (ws_wifi s) /\
       wi_rearm (ws_wifi s') = wi_rearm (ws_wifi s)) /\
  (forall now mac w n, wi_netif_ap w = true -> ~ provisioned n -> config_get_color (conf "w_ap_color") n <> 0 ->
     exists w' n' calls, handle_sta_disconnected now true true mac ESP_OK ESP_OK ESP_OK w n = Some (w', n', calls) /\
       wi_mode w' = WIFI_MODE_APSTA /\ wi_timer w' = Some (now + AP_AUTO_OFF_MS) /\ wi_leds w' = wi_leds w + 1).
Proof.
  split.
  - intros [now w n] Hm Hs Ht Hp k. cbn [ws_wifi ws_now ws_nvs] in *.
    assert (G : exists w', wifi_run flapping (mk_ws now w n) (mk_ws (now + Z.of_nat k * 600000) w' n) /\
      wi_timer_made w' = true /\ wi_stop_due w' = false /\
      wi_timer w' = Some (now + Z.of_nat k * 600000 + AP_AUTO_OFF_MS) /\
      wi_mode w' = wi_mode w /\ wi_client w' = wi_client w /\ wi_rearm w' = wi_rearm w).
    { induction k as [|k (w1 & R1 & M1 & S1 & T1 & E1 & E2 & E3)].
      - exists w. rewrite Z.mul_0_l, Z.add_0_r. split; [apply run_done|done].
      - destruct (one_flap _ _ _ M1 S1 T1 Hp) as (w2 & R2 & M2 & S2 & T2 & F1 & F2 & F3). exists w2.
        replace (now + Z.of_nat (S k) * 600000) with (now + Z.of_nat k * 600000 + 600000) by lia.
        split; [by apply (run_trans _ _ _ _ R1)|]. split_and!; try done; congruence. }
    destruct G as (w' & R & _ & _ & _ & E1 & E2 & E3). exists (mk_ws (now + Z.of_nat k * 600000) w' n). done.
  - intros now mac w n Ha Hp Hc. unfold handle_sta_disconnected. cbv zeta.
    set (w0 := fade_sta STATUS_LED_STATIC _).
    destruct (softap_done mac (w0 <| wi_mode := WIFI_MODE_APSTA |>) n) as (w' & n' & E & M & _ & _ & L & _).
    assert (Eo : wifi_ap_start_only mac ESP_OK ESP_OK ESP_OK w0 n =
      Some (w' <| wi_ap_active := true |> <| wi_dns_propagated := false |>, n', [W_set_mode WIFI_MODE_APSTA])).
    { unfold wifi_ap_start_only. replace (wi_netif_ap w0) with true by (symmetry; exact Ha).
      change (negb (is_ok ESP_OK)) with false. cbn iota. by rewrite E. }
    rewrite (proj2 (Z.eqb_neq _ _) Hc) in L.
    destruct (config_get_str_blob_alloc true (conf "w_sta_ssid") n).2 as [[|c ssid]|] eqn:Es;
      [|exfalso; apply Hp; by exists c, ssid|].
    all: rewrite Eo; eexists _, _, _; split; [reflexivity|];
      unfold wifi_ap_start_timer; cbn; rewrite orb_true_r; cbn; done.
Qed.

Lemma mac_ssid_ok mac : zlen mac = 6 -> has_prefix (mac_ssid mac) = true /\ zlen (mac_ssid mac) = 14.
Proof.
  intros Hm. split.
  - unfold has_prefix, mac_ssid. by rewrite ztake_app_exact, bytes_eqb_refl.
  - unfold mac_ssid. rewrite zlen_app, hex_len, zlen_zdrop by lia. rewrite Hm. reflexivity.
Qed.

Lemma read_back_ssid ssid old n : zlen ssid < 32 ->
  read_text "w_ap_ssid" 32 old (config_set_str "w_ap_ssid" ssid n).2 = (ssid, true).
Proof.
  intros Hl. unfold read_text, config_get_str_blob, config_set_str. change (ci_type (conf "w_ap_ssid")) with T_STRING.
  change (ci_key (conf "w_ap_ssid")) with "w_ap_ssid"%string. cbv iota.
  destruct (get_set_str STORAGE "w_ap_ssid" ssid (Some 32) n) as (_ & G & _).
  rewrite G by (unfold fits; lia). done.
Qed.

(** The access point's name always carries the brand.  Once the driver takes the
    configuration, the name starts with it: a stored name that has it is kept and
    nothing is written; any other one, a foreign brand left in the flash included, is replaced by
    the name made from the MAC address, which is stored, so that every later set-up reads
    it back and writes nothing; no other setting changes. *)
Theorem ap_ssid_branded mac w n : zlen mac = 6 ->
  exists w' n', wifi_init_softap mac ESP_OK w n = Some (w', n') /\
    has_prefix (ap_ssid (wi_ap w')) = true /\
    (forall ns key, (ns, key) <> (STORAGE, "w_ap_ssid"%string) -> nvs_agree ns key n n') /\
    (forall ssid, read_text "w_ap_ssid" 32 (ap_ssid (wi_ap w)) n = (ssid, true) ->
       ap_ssid (wi_ap w') = (if has_prefix ssid then ssid else mac_ssid mac) /\
       forall mac2 w2, exists w2', wifi_init_softap mac2 ESP_OK w2 n' = Some (w2', n') /\
                                   ap_ssid (wi_ap w2') = ap_ssid (wi_ap w')).
Proof.
  intros Hm. destruct (mac_ssid_ok mac Hm) as [Mp Ml].
  destruct (softap_done mac w n) as (w' & n' & E & _ & _ & _ & _ & S1 & A). exists w', n'. split; [done|].
  destruct (read_text "w_ap_ssid" 32 (ap_ssid (wi_ap w)) n) as [ssid0 rd] eqn:Er.
  split; [|split; [done|]].
  - destruct (has_prefix ssid0) eqn:Hp; by destruct S1 as [-> _].
  - intros ssid [= -> ->]. split; [by destruct (has_prefix ssid); destruct S1|]. intros mac2 w2.
    assert (E2 : read_text "w_ap_ssid" 32 (ap_ssid (wi_ap w2)) n' = (ap_ssid (wi_ap w'), true)).
    { destruct (has_prefix ssid); destruct S1 as [-> ->].
      - unfold read_text in *. destruct (config_get_str_blob _ _ n) as [[err len] text]. injection Er as Et Eo.
        rewrite Eo in Et |- *. by rewrite Et.
      - apply read_back_ssid. lia. }
    destruct (softap_done mac2 w2 n') as (w2' & n2 & F & _ & _ & _ & _ & S2 & _). rewrite E2 in S2.
    assert (Hp : has_prefix (ap_ssid (wi_ap w')) = true) by (destruct (has_prefix ssid) eqn:Hp; by destruct S1 as [-> _]).
    rewrite Hp in S2. destruct S2 as [S3 ->]. by exists w2'.
Qed.

(** The access point's netmask is made from the station's subnet setting; its own
    is never read. *)
Lemma ap_mask_from_station w n w' ip : net_init_softap ESP_OK w n = Some (w', ip) ->
  subnet_mask (config_get_u8 (conf "w_sta_subnet") n) = Some (ip_mask ip).
Proof. unfold net_init_softap. destruct (subnet_mask _); [|done]. cbn. by intros [= <- <-]. Qed.

(** A scan leaves the driver in the mode it found. *)
Lemma scan_restores {R} set_err restore_err alloc (records : list R) w w' r :
  wifi_scan set_err restore_err alloc records w = Some (w', r) -> wi_mode w' = wi_mode w.
Proof. unfold wifi_scan. cbv zeta. by repeat case_if; intros [= <- _]. Qed.
End Theorems.

(** ** Witnesses *)

Definition wifi_boot : wifi_t :=
  mk_wifi WIFI_MODE_APSTA true false false false false 0 true (Some AP_AUTO_OFF_MS) true true false true false
    (mk_ap [] 0 [] 0) (mk_sta [] [] false) 0 None None 0 false None 0.
Definition home_store : flash := (config_set_str "w_sta_ssid" (of_str "home") flash_empty).2.

Lemma ap_window_bounded_witness :
  let s' := mk_ws 600000 wifi_boot home_store in
  wifi_run calm (mk_ws 0 wifi_boot home_store) s' /\
  (wi_mode (ws_wifi s') = WIFI_MODE_STA \/ ws_now s' <= 3 * AP_AUTO_OFF_MS).
Proof.
  assert (R : wifi_run calm (mk_ws 0 wifi_boot home_store) (mk_ws 600000 wifi_boot home_store)).
  { apply (run_step _ _ (E_tick 600000) (mk_ws 0 wifi_boot home_store)); [apply run_done|done| |done].
    split; [lia|]. split; [done|]. intros t [= <-]. by vm_compute. }
  split; [exact R|]. apply (ap_window_bounded (mk_ws 0 wifi_boot home_store) AP_AUTO_OFF_MS eq_refl eq_refl eq_refl);
    [done|by vm_compute|exact R].
Defined.

Lemma ap_held_open_witness :
  exists s', wifi_run flapping (mk_ws 0 wifi_boot home_store) s' /\ ws_now s' = 86400000 /\
             wi_mode (ws_wifi s') = WIFI_MODE_APSTA.
Proof.
  destruct ap_held_open as [P _].
  destruct (P (mk_ws 0 wifi_boot home_store) eq_refl eq_refl eq_refl) with (k := 144%nat) as (s' & R & T & M & _).
  - unfold provisioned. vm_compute. eexists _, _. reflexivity.
  - exists s'. split; [exact R|]. split; [exact T|exact M].
Defined.

Lemma ap_ssid_branded_witness :
  exists w' n', wifi_init_softap [36; 111; 40; 1; 2; 254] ESP_OK wifi_boot
                  (config_set_str "w_ap_ssid" (of_str "OnoLink_7") flash_empty).2 = Some (w', n') /\
                ap_ssid (wi_ap w') = of_str "RTKdata_0102FE".
Proof.
  destruct (ap_ssid_branded [36; 111; 40; 1; 2; 254] wifi_boot (config_set_str "w_ap_ssid" (of_str "OnoLink_7") flash_empty).2
              eq_refl) as (w' & n' & E & _ & _ & P).
  exists w', n'. split; [exact E|]. destruct (P (of_str "OnoLink_7") eq_refl) as [-> _]. vm_compute. reflexivity.
Defined.
