(* ===== verification/Dns.v ===== *)
(** * Captive DNS (src/main/dns_server.c)

    The reply to one datagram, specified against the layout of DNS messages, and the
    life of the responder task: [hijack_step] interleaves the event handlers that
    start and stop it with the task at the granularity of its accesses to the shared
    socket variable. *)

From S2P Require Import Prelude Nvs Config Doubles.
From stdpp Require Import gmap.
#[local] Open Scope Z_scope.

Definition DNS_RX_MAX : Z := 512.
Definition DNS_TX_MAX : Z := DNS_RX_MAX + 16.
Definition DNS_HEADER : Z := 12.    (* sizeof(dns_header_t) *)

(** [ap_ip_be]: [info] is what [esp_netif_get_ip_info] says of the access point, if
    there is one. *)
Definition ap_ip_be (info : option (Z * Z)) : Z :=
  match info with
  | Some (err, addr) => if is_ok err && negb (addr =? 0) then addr else ip4 192 168 4 1
  | None => ip4 192 168 4 1
  end.

(** [ntohs] of the two bytes at [off]; storing [htons v] there. *)
Definition ntohs_at (l : list Z) (off : Z) : Z := 256 * zget l off + zget l (off + 1).
Definition put_htons (off v : Z) (l : list Z) : list Z := splice l off [v / 256; v mod 256].

(** The walk over the name: where it stops, or [None] for a compressed label. *)
Fixpoint qname_walk (fuel : nat) (rx : list Z) (p : Z) : option Z :=
  match fuel with
  | O => Some p
  | S fuel =>
    if (p <? zlen rx) && negb (zget rx p =? 0) then
      if negb (Z.land (zget rx p) 0xC0 =? 0) then None
      else qname_walk fuel rx (p + (zget rx p + 1))
    else Some p
  end.

(** The record appended for an A question. *)
Definition answer_record (ip : Z) : list Z :=
  [0xC0; 0x0C; 0x00; 0x01; 0x00; 0x01; 0x00; 0x00; 0x00; 0x1E; 0x00; 0x04] ++ le_bytes 4 ip.

(** What is sent for the received bytes [rx], if anything. *)
Definition dns_reply (ip : Z) (rx : list Z) : option (list Z) :=
  let n := zlen rx in
  if n <? DNS_HEADER then None
  else if negb (Z.land (ntohs_at rx 2) 0x8000 =? 0) then None
  else if negb (ntohs_at rx 4 =? 1) then None
  else
    match qname_walk (Z.to_nat n) rx DNS_HEADER with
    | None => None
    | Some p =>
      if n <=? p then None
      else
        let p := p + 1 in
        if n <? p + 4 then None
        else
          let qtype := u16 (Z.lor (Z.shiftl (zget rx p) 8) (zget rx (p + 1))) in
          let qend := p + 4 in
          if DNS_TX_MAX <? qend + 16 then None
          else
            let tx := ztake qend rx in
            let tx := put_htons 2 0x8180 tx in
            let tx := put_htons 4 1 tx in
            let tx := put_htons 8 0 tx in
            let tx := put_htons 10 0 tx in
            if qtype =? 1 then Some (put_htons 6 1 tx ++ answer_record ip)
            else Some (put_htons 6 0 tx)
    end.

(** ** The layout of messages *)

Record dns_query := mk_query {
  dq_id : list Z;
  dq_flags : list Z;
  dq_counts : list Z;         (* answers, authorities, additional *)
  dq_labels : list (list Z);
  dq_type : list Z;
  dq_class : list Z;
  dq_extra : list Z           (* e.g. the EDNS record *)
}.

Definition label_bytes (l : list Z) : list Z := zlen l :: l.
Definition name_bytes (ls : list (list Z)) : list Z := concat (map label_bytes ls) ++ [0].
Definition good_label (l : list Z) : Prop := 1 <= zlen l <= 63.

Record good_query (q : dns_query) : Prop := {
  gq_id : zlen (dq_id q) = 2;
  gq_flags : exists a b, dq_flags q = [a; b] /\ 0 <= a < 128;
  gq_counts : zlen (dq_counts q) = 6;
  gq_labels : Forall good_label (dq_labels q);
  gq_type : zlen (dq_type q) = 2;
  gq_class : zlen (dq_class q) = 2
}.

Definition question (q : dns_query) : list Z := name_bytes (dq_labels q) ++ dq_type q ++ dq_class q.
Definition query_bytes (q : dns_query) : list Z :=
  dq_id q ++ dq_flags q ++ [0; 1] ++ dq_counts q ++ question q ++ dq_extra q.

Definition is_a (q : dns_query) : bool := bytes_eqb (dq_type q) [0; 1].
(** A response, recursion available, no error, the question, and for an A question
    one record: the name of the question (at offset 12), thirty seconds, [ip]. *)
Definition reply_bytes (ip : Z) (q : dns_query) : list Z :=
  dq_id q ++ [0x81; 0x80] ++ [0; 1] ++ (if is_a q then [0; 1] else [0; 0]) ++ [0; 0; 0; 0] ++
  question q ++ (if is_a q then answer_record ip else []).

(** ** The walk *)

Lemma land_c0 b : 0 <= b < 256 -> (Z.land b 0xC0 =? 0) = (b <? 64).
Proof.
  intros Hb.
  assert (A : forallb (fun b => Bool.eqb (Z.land b 0xC0 =? 0) (b <? 64)) (map Z.of_nat (seq 0 256)) = true)
    by (vm_compute; reflexivity).
  rewrite forallb_forall in A. apply eqb_prop, A, in_map_iff. exists (Z.to_nat b).
  split; [lia|]. apply in_seq. lia.
Qed.

Lemma walk_name ls : forall fuel pre post, Forall good_label ls ->
  (length (concat (map label_bytes ls)) < fuel)%nat ->
  qname_walk fuel (pre ++ name_bytes ls ++ post) (zlen pre) = Some (zlen pre + zlen (name_bytes ls) - 1).
Proof.
  induction ls as [|l ls IH]; intros fuel pre post Hl Hf; destruct fuel as [|fuel]; try (cbn in Hf; lia).
  - cbn [qname_walk name_bytes map concat app].
    rewrite zget_app_r, Z.sub_diag by lia. rewrite zget_cons_0, Z.eqb_refl, andb_false_r. f_equal.
    change (zlen [0]) with 1. lia.
  - apply Forall_cons in Hl as [[L1 L2] Hl]. cbn [map concat] in Hf.
    change (label_bytes l) with (zlen l :: l) in Hf. rewrite length_app in Hf. cbn [length] in Hf.
    unfold name_bytes. cbn [map concat qname_walk]. change (label_bytes l) with (zlen l :: l).
    rewrite zget_app_r, Z.sub_diag by lia. rewrite <- !app_assoc. cbn [app]. rewrite zget_cons_0.
    pose proof (zlen_nonneg post). pose proof (zlen_nonneg (concat (map label_bytes ls))). pose proof (zlen_nonneg l).
    replace (zlen pre <? _) with true
      by (symmetry; rewrite Z.ltb_lt; autorewrite with zlen; lia).
    replace (zlen l =? 0) with false by lia. cbn [andb negb]. rewrite land_c0 by lia.
    replace (zlen l <? 64) with true by lia. cbn [negb].
    replace (pre ++ zlen l :: l ++ concat (map label_bytes ls) ++ 0 :: post)
      with ((pre ++ label_bytes l) ++ name_bytes ls ++ post)
      by (unfold name_bytes, label_bytes; rewrite <- !app_assoc; cbn [app]; by rewrite <- ?app_assoc).
    replace (zlen pre + (zlen l + 1)) with (zlen (pre ++ label_bytes l))
      by (unfold label_bytes; rewrite zlen_app, zlen_cons; lia).
    rewrite IH; [|done|lia]. f_equal. unfold name_bytes, label_bytes. autorewrite with zlen. lia.
Qed.

(** A walk that stops inside the message has read a name. *)
Lemma walk_found fuel : forall rx p e, bytes rx -> 0 <= p -> zlen rx - p < Z.of_nat fuel ->
  qname_walk fuel rx p = Some e -> e < zlen rx ->
  p <= e /\ exists ls, Forall good_label ls /\ zdrop p (ztake (e + 1) rx) = name_bytes ls.
Proof.
  induction fuel as [|fuel IH]; intros rx p e Hb Hp Hf; cbn [qname_walk]; [intros [= <-]; lia|].
  pose proof (zget_byte rx p Hb) as B. unfold is_byte in B.
  destruct (Z.ltb_spec p (zlen rx)) as [Hlt|]; cbn [andb]; [|intros [= <-]; lia].
  destruct (Z.eqb_spec (zget rx p) 0) as [Z0|Z0]; cbn [negb].
  - intros [= <-] _. split; [lia|]. exists []. split; [by apply Forall_nil|].
    rewrite zdrop_ztake by lia. replace (p + 1 - p) with 1 by lia.
    destruct (zdrop p rx) as [|b l] eqn:E.
    { pose proof (zlen_zdrop p rx ltac:(lia)) as L. rewrite E, zlen_nil in L. lia. }
    pose proof (zget_zdrop rx p 0 ltac:(lia) ltac:(lia)) as G. rewrite E, zget_cons_0, Z.add_0_r in G.
    rewrite ztake_cons by lia. by rewrite Z.sub_diag, ztake_0, G, Z0.
  - rewrite land_c0 by lia. destruct (Z.ltb_spec (zget rx p) 64) as [H64|]; cbn [negb]; [|done].
    intros Hw He. set (k := zget rx p) in *.
    destruct (IH rx (p + (k + 1)) e Hb ltac:(lia) ltac:(lia) Hw He) as (Hle & ls & Hls & E).
    split; [lia|]. exists (zdrop (p + 1) (ztake (p + (k + 1)) rx) :: ls).
    assert (L : zlen (zdrop (p + 1) (ztake (p + (k + 1)) rx)) = k)
      by (rewrite zlen_zdrop; rewrite zlen_ztake_le; lia).
    split; [apply Forall_cons; split; [unfold good_label; lia|done]|].
    set (l1 := zdrop (p + 1) _) in *. unfold name_bytes. cbn [map concat]. rewrite <- app_assoc.
    fold (name_bytes ls). rewrite <- E. unfold label_bytes at 1. rewrite L. unfold l1. clear L l1.
    rewrite (zdrop_ztake p) by lia. rewrite (zdrop_ztake (p + (k + 1))) by lia.
    rewrite zdrop_ztake by lia.
    destruct (zdrop p rx) as [|b l] eqn:D.
    { pose proof (zlen_zdrop p rx ltac:(lia)) as L'. rewrite D, zlen_nil in L'. lia. }
    pose proof (zget_zdrop rx p 0 ltac:(lia) ltac:(lia)) as G. rewrite D, zget_cons_0, Z.add_0_r in G.
    fold k in G. subst b.
    assert (D1 : zdrop (p + 1) rx = l).
    { rewrite <- zdrop_zdrop, D by lia. by rewrite zdrop_cons, Z.sub_diag by lia. }
    assert (D2 : zdrop (p + (k + 1)) rx = zdrop k l).
    { rewrite <- zdrop_zdrop, D by lia. rewrite zdrop_cons by lia. f_equal. lia. }
    rewrite D1, D2, ztake_cons by lia. cbn [app]. f_equal.
    replace (p + (k + 1) - (p + 1)) with k by lia. rewrite <- ztake_add by lia. f_equal. lia.
Qed.

(** ** Replies *)

Lemma list2 (l : list Z) : zlen l = 2 -> exists a b, l = [a; b].
Proof.
  destruct l as [|a [|b [|c l]]]; intros E; try discriminate E; [by exists a, b|].
  rewrite !zlen_cons in E. pose proof (zlen_nonneg l). lia.
Qed.

Lemma list6 (l : list Z) : zlen l = 6 -> exists a b c d e f, l = [a; b; c; d; e; f].
Proof.
  intros E. assert (exists x y, l = x ++ y /\ zlen x = 2 /\ zlen y = 4) as (x & y & -> & Hx & Hy).
  { exists (ztake 2 l), (zdrop 2 l). rewrite ztake_zdrop, zlen_ztake_le, zlen_zdrop by lia. split_and!; [done|lia|lia]. }
  assert (exists u v, y = u ++ v /\ zlen u = 2 /\ zlen v = 2) as (u & v & -> & Hu & Hv).
  { exists (ztake 2 y), (zdrop 2 y). rewrite ztake_zdrop, zlen_ztake_le, zlen_zdrop by lia. split_and!; [done|lia|lia]. }
  apply list2 in Hx as (? & ? & ->), Hu as (? & ? & ->), Hv as (? & ? & ->). by repeat eexists.
Qed.

Lemma put_header v i0 i1 f0 f1 q0 q1 c0 c1 c2 c3 c4 c5 rest :
  put_htons 6 v (put_htons 10 0 (put_htons 8 0 (put_htons 4 1 (put_htons 2 0x8180
    (i0 :: i1 :: f0 :: f1 :: q0 :: q1 :: c0 :: c1 :: c2 :: c3 :: c4 :: c5 :: rest))))) =
  i0 :: i1 :: 0x81 :: 0x80 :: 0 :: 1 :: v / 256 :: v mod 256 :: 0 :: 0 :: 0 :: 0 :: rest.
Proof. reflexivity. Qed.

Lemma flag_bit a b : 0 <= a < 256 -> 0 <= b < 256 -> (Z.land (256 * a + b) 0x8000 =? 0) = (a <? 128).
Proof.
  intros Ha Hb. change 0x8000 with (Z.shiftl 1 15).
  assert (E : Z.testbit (256 * a + b) 15 = negb (a <? 128)).
  { rewrite Z.testbit_eqb by lia.
    destruct (Z.ltb_spec a 128).
    - rewrite Z.div_small by lia. done.
    - replace ((256 * a + b) / 2 ^ 15) with 1; [done|].
      apply (Z.div_unique_pos _ _ _ (256 * a + b - 2 ^ 15)); lia. }
  destruct (Z.eqb_spec (Z.land (256 * a + b) (Z.shiftl 1 15)) 0) as [L|L].
  - destruct (a <? 128); [done|]. exfalso.
    assert (T : Z.testbit (Z.land (256 * a + b) (Z.shiftl 1 15)) 15 = true) by (rewrite Z.land_spec, E; done).
    rewrite L in T. discriminate T.
  - destruct (a <? 128); [|done]. exfalso. apply L. apply Z.bits_inj'. intros k Hk.
    rewrite Z.land_spec, Z.bits_0. destruct (decide (k = 15)) as [->|]; [by rewrite E|].
    rewrite Z.shiftl_spec by lia. destruct (Z.ltb_spec k 15).
    + rewrite (Z.testbit_neg_r 1) by lia. apply andb_false_r.
    + rewrite (Z.bits_above_log2 1); [apply andb_false_r|lia|cbn; lia].
Qed.

Lemma type_bits a b : 0 <= a < 256 -> 0 <= b < 256 -> u16 (Z.lor (Z.shiftl a 8) b) = 256 * a + b.
Proof.
  intros Ha Hb. pose proof (Z.add_lor_land (Z.shiftl a 8) b) as S.
  assert (Z.land (Z.shiftl a 8) b = 0) as L0.
  { apply Z.bits_inj'. intros k Hk. rewrite Z.land_spec, Z.bits_0. destruct (Z.ltb_spec k 8).
    - rewrite Z.shiftl_spec_low by lia. done.
    - destruct (decide (b = 0)) as [->|]; [by rewrite Z.bits_0, andb_false_r|].
      rewrite (Z.bits_above_log2 b); [apply andb_false_r|lia|].
      assert (Z.log2 b < 8) by (apply Z.log2_lt_pow2; lia). lia. }
  rewrite L0, Z.shiftl_mul_pow2 in S by lia. rewrite u16_small; rewrite ?Z.shiftl_mul_pow2 by lia; lia.
Qed.

Lemma type_eqb t0 t1 : is_byte t0 -> is_byte t1 -> bytes_eqb [t0; t1] [0; 1] = (256 * t0 + t1 =? 1).
Proof.
  unfold is_byte. intros. destruct (Z.eqb_spec (256 * t0 + t1) 1); cbn [bytes_eqb].
  - by assert (t0 = 0 /\ t1 = 1) as [-> ->] by lia.
  - destruct (Z.eqb_spec t0 0), (Z.eqb_spec t1 1); try done. lia.
Qed.

Lemma zget_behind (pre nm post : list Z) k : 0 <= k ->
  zget (pre ++ nm ++ post) (zlen pre + zlen nm - 1 + 1 + k) = zget post k.
Proof.
  intros Hk. pose proof (zlen_nonneg pre). pose proof (zlen_nonneg nm).
  rewrite app_assoc, zget_app_r by (rewrite zlen_app; lia). f_equal. rewrite zlen_app. lia.
Qed.

(** The walk over a whole name stops at its terminator. *)
Lemma walk_query pre ls post : Forall good_label ls -> zlen pre = 12 ->
  qname_walk (Z.to_nat (zlen (pre ++ name_bytes ls ++ post))) (pre ++ name_bytes ls ++ post) 12 =
  Some (zlen pre + zlen (name_bytes ls) - 1).
Proof.
  intros Hl Lpre. rewrite <- Lpre at 1. apply walk_name; [done|].
  assert (Lc : zlen (name_bytes ls) = Z.of_nat (length (concat (map label_bytes ls))) + 1)
    by (unfold name_bytes; by rewrite zlen_snoc).
  rewrite !zlen_app. pose proof (zlen_nonneg post). lia.
Qed.

(** What is kept of a query: header, name, type and class. *)
Lemma cut_question (pre nm four extra : list Z) e : zlen four = 4 -> e = zlen pre + zlen nm - 1 ->
  ztake (e + 1 + 4) (pre ++ nm ++ four ++ extra) = pre ++ nm ++ four.
Proof.
  intros H4 ->. rewrite !app_assoc. etransitivity; [|apply (ztake_app_exact ((pre ++ nm) ++ four) extra)].
  f_equal. rewrite !zlen_app. lia.
Qed.

Lemma reply_forward ip q : good_query q -> bytes (query_bytes q) -> zlen (query_bytes q) <= DNS_RX_MAX ->
  dns_reply ip (query_bytes q) = Some (reply_bytes ip q).
Proof.
  intros [(i0 & i1 & Ei)%list2 (a & b & Ef & Ha) Hc Hl (t0 & t1 & Et)%list2 (k0 & k1 & Ek)%list2] Hb Hn.
  apply list6 in Hc as (c0 & c1 & c2 & c3 & c4 & c5 & Ec).
  unfold query_bytes, reply_bytes, is_a, question in *. rewrite Ei, Ef, Ec, Et, Ek in *. cbn [app] in *.
  set (pre := [i0; i1; a; b; 0; 1; c0; c1; c2; c3; c4; c5]).
  set (post := t0 :: t1 :: k0 :: k1 :: dq_extra q).
  set (nm := name_bytes (dq_labels q)) in *.
  assert (Erx : i0 :: i1 :: a :: b :: 0 :: 1 :: c0 :: c1 :: c2 :: c3 :: c4 :: c5 :: (nm ++ [t0; t1; k0; k1]) ++ dq_extra q
                = pre ++ nm ++ post) by (unfold pre, post; by rewrite <- app_assoc).
  rewrite Erx in *. clear Erx. pose proof Hb as Hb'.
  apply Forall_app in Hb' as [Hpre [_ Hpost]%Forall_app].
  assert (Bb : is_byte b) by (eapply (Forall_lookup_1 _ _ 3 _ Hpre); reflexivity).
  assert (B0 : is_byte t0) by (eapply (Forall_lookup_1 _ _ 0 _ Hpost); reflexivity).
  assert (B1 : is_byte t1) by (eapply (Forall_lookup_1 _ _ 1 _ Hpost); reflexivity).
  unfold is_byte in *.
  pose proof (zlen_nonneg nm). pose proof (zlen_nonneg (dq_extra q)).
  assert (Lpre : zlen pre = 12) by done.
  assert (Lpost : zlen post = 4 + zlen (dq_extra q)) by (unfold post; autorewrite with zlen; lia).
  assert (Ln : zlen (pre ++ nm ++ post) = 12 + zlen nm + zlen post) by (rewrite !zlen_app; lia).
  unfold dns_reply, DNS_HEADER. cbv zeta. replace (zlen (pre ++ nm ++ post) <? 12) with false by lia.
  change (ntohs_at (pre ++ nm ++ post) 2) with (256 * a + b).
  change (ntohs_at (pre ++ nm ++ post) 4) with 1. rewrite flag_bit by lia.
  replace (a <? 128) with true by lia. change (1 =? 1) with true. cbn [negb].
  unfold nm at 1 2. rewrite walk_query by done. fold nm. set (e := zlen pre + zlen nm - 1).
  replace (zlen (pre ++ nm ++ post) <=? e) with false by lia.
  replace (zlen (pre ++ nm ++ post) <? e + 1 + 4) with false by lia.
  unfold DNS_TX_MAX, DNS_RX_MAX in *. replace (512 + 16 <? e + 1 + 4 + 16) with false by lia.
  pose proof (zget_behind pre nm post) as G. fold e in G. pose proof (G 0 ltac:(lia)) as G0. rewrite Z.add_0_r in G0. rewrite G0, (G 1) by lia.
  change (zget post 0) with t0. change (zget post 1) with t1. rewrite type_bits by lia.
  change post with ([t0; t1; k0; k1] ++ dq_extra q). rewrite cut_question by done.
  unfold pre. cbn [app]. rewrite !put_header.
  rewrite type_eqb by done. fold nm. destruct (256 * t0 + t1 =? 1); cbn [app]; rewrite ?app_nil_r, <- ?app_assoc; done.
Qed.

Lemma reply_decompose ip rx r : bytes rx -> dns_reply ip rx = Some r ->
  exists q, good_query q /\ rx = query_bytes q.
Proof.
  intros Hb. unfold dns_reply, DNS_HEADER. cbv zeta.
  destruct (Z.ltb_spec (zlen rx) 12) as [|Hn]; [done|].
  assert (B : forall i, 0 <= zget rx i < 256) by (intros; by apply zget_byte).
  unfold ntohs_at at 1. rewrite flag_bit by apply B. destruct (Z.ltb_spec (zget rx 2) 128); cbn [negb]; [|done].
  unfold ntohs_at. pose proof (B 4). pose proof (B (4 + 1)).
  destruct (Z.eqb_spec (256 * zget rx 4 + zget rx (4 + 1)) 1) as [Hq|]; cbn [negb]; [|done].
  destruct (qname_walk (Z.to_nat (zlen rx)) rx 12) as [e|] eqn:W; [|done].
  destruct (Z.leb_spec (zlen rx) e) as [|He]; [done|].
  destruct (Z.ltb_spec (zlen rx) (e + 1 + 4)); [done|]. intros _.
  destruct (walk_found (Z.to_nat (zlen rx)) rx 12 e Hb ltac:(lia) ltac:(lia) W He) as (Hle & ls & Hls & E).
  assert (Hdr : exists i0 i1 a b c d x, ztake 12 rx = [i0; i1; a; b; c; d] ++ x /\ zlen x = 6).
  { destruct (list6 (ztake 6 rx)) as (i0 & i1 & a & b & c & d & E6); [rewrite zlen_ztake_le; lia|].
    exists i0, i1, a, b, c, d, (ztake 6 (zdrop 6 rx)). split.
    - rewrite <- E6. by rewrite <- ztake_add by lia.
    - rewrite zlen_ztake_le; rewrite ?zlen_zdrop; lia. }
  destruct Hdr as (i0 & i1 & a & b & c & d & x & E12 & Lx).
  assert (G : forall i, 0 <= i < 12 -> zget rx i = zget ([i0; i1; a; b; c; d] ++ x) i)
    by (intros i Hi; by rewrite <- E12, zget_ztake by lia).
  pose proof (B 2) as B2. rewrite (G 2) in * by lia. rewrite (G 4) in * by lia. rewrite (G (4 + 1)) in * by lia.
  change (zget ([i0; i1; a; b; c; d] ++ x) 2) with a in *.
  change (zget ([i0; i1; a; b; c; d] ++ x) 4) with c in *. change (zget ([i0; i1; a; b; c; d] ++ x) (4 + 1)) with d in *.
  assert (c = 0 /\ d = 1) as [-> ->] by lia.
  exists (mk_query [i0; i1] [a; b] x ls (ztake 2 (zdrop (e + 1) rx)) (ztake 2 (zdrop (e + 3) rx)) (zdrop (e + 5) rx)).
  split.
  - split; cbn [dq_id dq_flags dq_counts dq_labels dq_type dq_class]; try done.
    + exists a, b. split; [done|lia].
    + rewrite zlen_ztake_le; rewrite ?zlen_zdrop; lia.
    + rewrite zlen_ztake_le; rewrite ?zlen_zdrop; lia.
  - unfold query_bytes, question. cbn [dq_id dq_flags dq_counts dq_labels dq_type dq_class dq_extra].
    rewrite <- E. rewrite <- !app_assoc. rewrite <- (ztake_zdrop 12 rx) at 1. rewrite E12. cbn [app].
    do 6 f_equal. f_equal. rewrite zdrop_ztake by lia.
    rewrite <- (ztake_zdrop (e + 1 - 12) (zdrop 12 rx)) at 1. f_equal.
    rewrite zdrop_zdrop by lia. replace (12 + (e + 1 - 12)) with (e + 1) by lia.
    rewrite <- (ztake_zdrop 2 (zdrop (e + 1) rx)) at 1. f_equal. rewrite zdrop_zdrop by lia.
    replace (e + 1 + 2) with (e + 3) by lia. rewrite <- (ztake_zdrop 2 (zdrop (e + 3) rx)) at 1. f_equal.
    rewrite zdrop_zdrop by lia. f_equal. lia.
Qed.

Lemma zlen_le_bytes4 ip : zlen (le_bytes 4 ip) = 4.
Proof. by rewrite zlen_le_bytes. Qed.

(** C18: the responder answers exactly the datagrams that are single-question queries
    and answers them with the message the protocol asks for: the same number and
    question, and one record with the access point's address if the question is for
    an A record, none otherwise.  The reply fits the transmit buffer, so the check
    before it is built never refuses one. *)
Theorem dns_answers_exactly ip rx r : bytes rx -> zlen rx <= DNS_RX_MAX ->
  (dns_reply ip rx = Some r <->
   exists q, good_query q /\ rx = query_bytes q /\ r = reply_bytes ip q) /\
  (dns_reply ip rx = Some r -> zlen r <= zlen rx + 16 <= DNS_TX_MAX).
Proof.
  intros Hb Hn.
  assert (E : dns_reply ip rx = Some r <-> exists q, good_query q /\ rx = query_bytes q /\ r = reply_bytes ip q).
  { split.
    - intros D. destruct (reply_decompose ip rx r Hb D) as (q & Hq & ->). exists q. split_and!; [done..|].
      rewrite reply_forward in D by done. by injection D as <-.
    - intros (q & Hq & -> & ->). by apply reply_forward. }
  split; [done|]. intros (q & [Hi (a & b & Hf & _) Hc _ Ht Hk] & -> & ->)%E.
  unfold DNS_TX_MAX. split; [|lia]. unfold reply_bytes, query_bytes, question. rewrite Hf.
  pose proof (zlen_nonneg (dq_extra q)). unfold answer_record.
  destruct (is_a q); rewrite !zlen_app, ?zlen_le_bytes4, ?(@zlen_nil Z);
    change (zlen [129; 128]) with 2; change (zlen [0; 1]) with 2; change (zlen [0; 0]) with 2;
    change (zlen [a; b]) with 2; change (zlen [0; 0; 0; 0]) with 4;
    change (zlen [192; 12; 0; 1; 0; 1; 0; 0; 0; 30; 0; 4]) with 12; lia.
Qed.

(** The question Apple's devices ask on joining a network, with an EDNS record. *)
Definition demo_query : dns_query :=
  mk_query [18; 52] [1; 0] [0; 0; 0; 0; 0; 1] [of_str "captive"; of_str "apple"; of_str "com"] [0; 1] [0; 1]
    [0; 0; 41; 4; 208; 0; 0; 0; 0; 0; 0].
Lemma dns_answers_exactly_witness :
  dns_reply (ap_ip_be None) (query_bytes demo_query) = Some (reply_bytes (ap_ip_be None) demo_query) /\
  zlen (reply_bytes (ap_ip_be None) demo_query) = 51.
Proof.
  split; [|reflexivity].
  destruct (dns_answers_exactly (ap_ip_be None) (query_bytes demo_query) (reply_bytes (ap_ip_be None) demo_query))
    as [E _]; [by apply bytesb_bytes|by vm_compute|].
  apply E. exists demo_query. split_and!; try done. split; try done; [by exists 1, 0|].
  repeat (apply Forall_cons; split; [done|]). by apply Forall_nil.
Defined.

(** ** The life of the responder

    The task and the event handlers run concurrently; both read and write [s_sock].
    A step is one access to shared state or one call.  [None] is [-1]. *)

Inductive task_pc :=
  | T_socket                     (* about to call socket() *)
  | T_store (fd : Z)             (* socket() returned fd *)
  | T_bind
  | T_loop                       (* while (s_run), receiving and answering *)
  | T_check                      (* if (s_sock >= 0) *)
  | T_close                      (* about to evaluate close(s_sock) *)
  | T_closing (fd : option Z)    (* close of the value read *)
  | T_clear                      (* s_sock = -1 *)
  | T_null.                      (* s_dns_task = NULL *)

Inductive ctl_pc :=
  | C_idle
  | C_read                       (* int sock = s_sock *)
  | C_clear (sock : option Z)    (* s_sock = -1 *)
  | C_close (sock : option Z)    (* if (sock >= 0) close(sock) *)
  | C_wait.                      (* the bounded wait *)

Record hijack := mk_hijack {
  hj_run : bool;
  hj_sock : option Z;
  hj_task : option task_pc;      (* s_dns_task, with where the task is *)
  hj_ctl : ctl_pc;
  hj_open : gset Z;              (* descriptors the responder has open *)
  hj_stray : Z                   (* closes of a descriptor it no longer owned *)
}.

Definition hijack_boot : hijack := mk_hijack false None None C_idle ∅ 0.

(** [close]: of [-1] it does nothing. *)
Definition close_fd (fd : option Z) (h : hijack) : hijack :=
  match fd with
  | None => h
  | Some fd => mk_hijack (hj_run h) (hj_sock h) (hj_task h) (hj_ctl h) (hj_open h ∖ {[fd]})
                 (if decide (fd ∈ hj_open h) then hj_stray h else hj_stray h + 1)
  end.

Definition at_task (t : option task_pc) (h : hijack) : hijack :=
  mk_hijack (hj_run h) (hj_sock h) t (hj_ctl h) (hj_open h) (hj_stray h).
Definition at_ctl (c : ctl_pc) (h : hijack) : hijack :=
  mk_hijack (hj_run h) (hj_sock h) (hj_task h) c (hj_open h) (hj_stray h).
Definition set_sock (s : option Z) (h : hijack) : hijack :=
  mk_hijack (hj_run h) s (hj_task h) (hj_ctl h) (hj_open h) (hj_stray h).
Definition set_run (b : bool) (h : hijack) : hijack :=
  mk_hijack b (hj_sock h) (hj_task h) (hj_ctl h) (hj_open h) (hj_stray h).
Definition open_fd (fd : Z) (h : hijack) : hijack :=
  mk_hijack (hj_run h) (hj_sock h) (hj_task h) (hj_ctl h) ({[fd]} ∪ hj_open h) (hj_stray h).

(** [dns_hijack_start], [created] being the answer of [xTaskCreate]; the beginning of
    [dns_hijack_stop]. *)
Definition dns_hijack_start (created : bool) (h : hijack) : hijack :=
  match hj_task h with
  | Some _ => h
  | None => if created then at_task (Some T_socket) (set_run true h) else set_run false h
  end.
Definition dns_hijack_stop (h : hijack) : hijack :=
  match hj_task h with
  | None => h
  | Some _ => at_ctl C_read (set_run false h)
  end.

Inductive hijack_step : hijack -> hijack -> Prop :=
  | step_start created h : hj_ctl h = C_idle -> hijack_step h (dns_hijack_start created h)
  | step_stop h : hj_ctl h = C_idle -> hijack_step h (dns_hijack_stop h)
  | step_read h : hj_ctl h = C_read -> hijack_step h (at_ctl (C_clear (hj_sock h)) h)
  | step_ctl_clear h fd : hj_ctl h = C_clear fd -> hijack_step h (at_ctl (C_close fd) (set_sock None h))
  | step_ctl_close h fd : hj_ctl h = C_close fd -> hijack_step h (at_ctl C_wait (close_fd fd h))
  | step_waited h : hj_ctl h = C_wait -> hijack_step h (at_ctl C_idle h)  (* the task is gone, or half a second *)
  | step_no_socket h : hj_task h = Some T_socket -> hijack_step h (at_task None h)
  | step_socket h fd : hj_task h = Some T_socket -> fd ∉ hj_open h ->
      hijack_step h (at_task (Some (T_store fd)) (open_fd fd h))
  | step_store h fd : hj_task h = Some (T_store fd) -> hijack_step h (at_task (Some T_bind) (set_sock (Some fd) h))
  | step_bound h : hj_task h = Some T_bind -> hijack_step h (at_task (Some T_loop) h)
  | step_not_bound h : hj_task h = Some T_bind -> hijack_step h (at_task (Some T_close) h)
  | step_served h : hj_task h = Some T_loop -> hj_run h = true -> hijack_step h h
  | step_leaves h : hj_task h = Some T_loop -> hijack_step h (at_task (Some T_check) h)  (* !s_run, or recvfrom failed *)
  | step_check h : hj_task h = Some T_check ->
      hijack_step h (at_task (Some (match hj_sock h with Some _ => T_close | None => T_null end)) h)
  | step_close h : hj_task h = Some T_close -> hijack_step h (at_task (Some (T_closing (hj_sock h))) h)
  | step_closing h fd : hj_task h = Some (T_closing fd) -> hijack_step h (at_task (Some T_clear) (close_fd fd h))
  | step_clear h : hj_task h = Some T_clear -> hijack_step h (at_task (Some T_null) (set_sock None h))
  | step_null h : hj_task h = Some T_null -> hijack_step h (at_task None h).

Inductive hijack_reachable : hijack -> Prop :=
  | reach_boot : hijack_reachable hijack_boot
  | reach_step h h' : hijack_reachable h -> hijack_step h h' -> hijack_reachable h'.

(** The same, when the handler's read of [s_sock] and its reset are not interrupted
    by the task. *)
Inductive calm_reachable : hijack -> Prop :=
  | calm_boot : calm_reachable hijack_boot
  | calm_step h h' : calm_reachable h -> hijack_step h h' ->
      (forall x, hj_ctl h = C_clear x -> hj_task h' = hj_task h) -> calm_reachable h'.

(** Who still has to close [fd]. *)
Definition task_owes (t : option task_pc) (sock : option Z) (fd : Z) : Prop :=
  match t with
  | Some (T_store x) => x = fd
  | Some (T_bind | T_loop | T_check | T_close) => sock = Some fd
  | Some (T_closing x) => x = Some fd
  | _ => False
  end.
Definition ctl_owes (c : ctl_pc) (fd : Z) : Prop :=
  match c with C_clear x | C_close x => x = Some fd | _ => False end.

(** The socket variable is set only while the task is past storing it. *)
Definition sock_at (t : option task_pc) (sock : option Z) (open : gset Z) : Prop :=
  match t with
  | Some (T_bind | T_loop | T_check | T_close) => True
  | Some (T_closing x) => sock = None \/ sock = x
  | Some T_clear => forall fd, sock = Some fd -> fd ∉ open
  | _ => sock = None
  end.

Record hijack_ok (h : hijack) : Prop := {
  hok_owed : forall fd, fd ∈ hj_open h -> task_owes (hj_task h) (hj_sock h) fd \/ ctl_owes (hj_ctl h) fd;
  hok_sock : sock_at (hj_task h) (hj_sock h) (hj_open h);
  hok_fresh : hj_task h = Some T_socket -> hj_open h = ∅ /\ forall x, ~ ctl_owes (hj_ctl h) x;
  hok_read : forall x, hj_ctl h = C_clear x -> x = hj_sock h;
  hok_one : forall x y, x ∈ hj_open h -> y ∈ hj_open h -> x = y
}.

Lemma no_owner h : hijack_ok h -> hj_task h = None -> hj_ctl h = C_idle -> hj_open h = ∅.
Proof.
  intros K T C. apply set_eq. intros fd. split; [|set_solver]. intros [O|O]%(hok_owed _ K).
  - by rewrite T in O.
  - by rewrite C in O.
Qed.

Ltac step_ok := split; cbn in *; try done; set_solver.

Lemma calm_ok h : calm_reachable h -> hijack_ok h.
Proof.
  induction 1 as [|h h' _ K St Calm]; [step_ok|].
  pose proof (no_owner h K) as N. destruct K as [K1 K2 K3 K4 K5].
  destruct h as [run sock task ctl open stray]; cbn in *.
  inversion St; subst; clear St; cbn in *; subst.
  - (* start *) destruct task as [t|]; [done|]. specialize (N eq_refl eq_refl). subst open.
    destruct created; step_ok.
  - (* stop *) destruct task as [t|]; step_ok.
  - (* read *) step_ok.
  - (* the handler resets *)
    specialize (K4 _ eq_refl). subst fd. split; cbn in *; try done.
    + intros fd Hfd. destruct (K1 fd Hfd) as [O|O]; [|by right].
      destruct task as [[]|]; cbn in *; try done; set_solver.
    + destruct task as [[]|]; cbn in *; try done; set_solver.
  - (* the handler closes *) clear Calm. destruct fd as [fd|]; cbn in *; [|step_ok].
    split; cbn in *; try done; try set_solver.
    destruct task as [[]|]; cbn in *; try done; set_solver.
  - (* waited *) step_ok.
  - (* no socket *) step_ok.
  - (* socket *) destruct (K3 eq_refl) as [-> K3']. step_ok.
  - (* store *) step_ok.
  - (* bound *) step_ok.
  - (* not bound *) step_ok.
  - (* served *) step_ok.
  - (* leaves *) step_ok.
  - (* check *) destruct sock as [s|]; step_ok.
  - (* close *) step_ok.
  - (* closing *) destruct fd as [fd|]; step_ok.
  - (* clear *) step_ok.
  - (* null *) step_ok.
Qed.

(** A run of named steps. *)
Ltac fwd lem :=
  match goal with R : hijack_reachable ?h |- _ =>
    let R' := fresh in
    eassert (R' : hijack_reachable _)
      by (eapply (reach_step h _ R); eapply lem; first [reflexivity | apply not_elem_of_empty]);
    clear R; rename R' into R
  end.

(** The handler stops the responder between the task's [socket()] and its assignment
    to [s_sock]: the assignment lands between the handler's read and its reset. *)
Lemma leak_reachable : exists h, hijack_reachable h /\ hj_task h = None /\ hj_ctl h = C_idle /\ 3 ∈ hj_open h.
Proof.
  pose proof reach_boot as R. fwd (step_start true). fwd (fun h => step_socket h 3).
  fwd step_stop. fwd step_read. fwd (fun h => step_store h 3).
  fwd (fun h => step_ctl_clear h None). fwd (fun h => step_ctl_close h None).
  fwd step_not_bound. fwd step_close. fwd (fun h => step_closing h None).
  fwd step_clear. fwd step_null. fwd step_waited.
  eexists. split; [exact R|]. split_and!; [done..|]. apply elem_of_union_l. set_solver.
Qed.

(** The receive fails by itself while the handler stops the responder: both read the
    descriptor before either resets the variable. *)
Lemma stray_reachable : exists h, hijack_reachable h /\ hj_stray h = 1.
Proof.
  pose proof reach_boot as R. fwd (step_start true). fwd (fun h => step_socket h 3).
  fwd (fun h => step_store h 3). fwd step_bound. fwd step_leaves. fwd step_check.
  fwd step_stop. fwd step_read. fwd step_close.
  fwd (fun h => step_closing h (Some 3)). fwd (fun h => step_ctl_clear h (Some 3)).
  fwd (fun h => step_ctl_close h (Some 3)).
  eexists. split; [exact R|]. by vm_compute.
Qed.

(** C37: the responder never has two sockets open, and once it is stopped and its task
    is gone none is open, as long as the handler's read of the socket variable and
    its reset are not torn apart by the task.  Nothing in the code rules that out:
    there is a run that ends with no task and a socket open for good. *)
Theorem hijack_descriptors :
  (forall h, calm_reachable h ->
     (forall x y, x ∈ hj_open h -> y ∈ hj_open h -> x = y) /\
     (hj_task h = None -> hj_ctl h = C_idle -> hj_open h = ∅)) /\
  (exists h fd, hijack_reachable h /\ hj_task h = None /\ hj_ctl h = C_idle /\ fd ∈ hj_open h).
Proof.
  split.
  - intros h K%calm_ok. split; [apply K|]. by apply no_owner.
  - destruct leak_reachable as (h & R & T & C & O). by exists h, 3.
Qed.

(** The same run of named steps, none of them between the handler's read and its reset. *)
Ltac calm_fwd lem :=
  match goal with R : calm_reachable ?h |- _ =>
    let R' := fresh in
    eassert (R' : calm_reachable _)
      by (eapply (calm_step h _ R); [eapply lem; first [reflexivity | apply not_elem_of_empty]|let E := fresh in intros ? E; first [discriminate E | reflexivity]]);
    clear R; rename R' into R
  end.

(** A responder that is started, serves on its socket and is asked to stop, which closes it. *)
Lemma hijack_descriptors_witness :
  exists serving stopped, calm_reachable serving /\ 3 ∈ hj_open serving /\
    (forall y, y ∈ hj_open serving -> y = 3) /\
    hijack_step serving (dns_hijack_stop serving) /\ calm_reachable stopped /\ hj_open stopped = ∅.
Proof.
  pose proof calm_boot as R. calm_fwd (step_start true). calm_fwd (fun h => step_socket h 3).
  calm_fwd (fun h => step_store h 3). calm_fwd step_bound. pose proof R as Stopped.
  calm_fwd step_stop. calm_fwd step_read. calm_fwd (fun h => step_ctl_clear h (Some 3)).
  calm_fwd (fun h => step_ctl_close h (Some 3)). calm_fwd step_leaves. calm_fwd step_check.
  calm_fwd step_null. calm_fwd step_waited.
  eexists _, _. split; [exact R|].
  assert (O : 3 ∈ hj_open (at_task (Some T_loop) (at_task (Some T_bind) (set_sock (Some 3)
     (at_task (Some (T_store 3)) (open_fd 3 (dns_hijack_start true hijack_boot))))))) by set_solver.
  split; [exact O|]. split; [|split; [by apply step_stop|split; [exact Stopped|]]].
  - intros y Hy. exact (proj1 (proj1 hijack_descriptors _ R) y 3 Hy O).
  - exact (proj2 (proj1 hijack_descriptors _ Stopped) eq_refl eq_refl).
Defined.
