(* ===== verification/WebConfig.v ===== *)
(** * The web interface's configuration handlers (src/main/web_server.c)

    Authentication, the JSON response, the form's document and what a posted document
    changes.  A handler gives its result, the calls it makes on the request and the
    new state; the HTTP server and the JSON printer are arguments. *)

From S2P Require Import Prelude NetUtil NtripServer Nvs OtaState Config Doubles Telemetry Json StrNum.

#[export] Instance item_type_eq : EqDecision config_item_type_t.
Proof. solve_decision. Defined.

Definition BUFFER_SIZE : Z := 4096.
Definition AUTH_METHOD_OPEN : Z := 0.
Definition AUTH_METHOD_HOTSPOT : Z := 1.
Definition AUTH_METHOD_BASIC : Z := 2.
Definition CONFIG_VALUE_UNCHANGED : list Z := [26; 26; 26; 26; 26; 26; 26; 26].
Definition HTTPD_SOCK_ERR_TIMEOUT : Z := -3.

(** Calls on the request. *)
Inductive resp_call :=
  | R_type (mime : string)
  | R_hdr (name : string) (value : list Z)
  | R_status (status : string)
  | R_send (body : list Z)
  | R_chunk (body : list Z)
  | R_500 (text : string)
  | R_408.

(** ** Responses and authentication *)

(** [json_response]: [type_err] and [send_err] are what the two calls answer, [print]
    is cJSON's printer into a buffer of the given size. *)
Definition json_response (print : js -> Z -> option (list Z)) (type_err send_err : Z) (root : js)
    : Z * list resp_call :=
  if negb (is_ok type_err) then (type_err, [R_type "application/json"])
  else
    match print root BUFFER_SIZE with
    | None => (ESP_FAIL, [R_type "application/json"; R_500 "Not enough space in buffer to output JSON"])
    | Some text => (send_err, [R_type "application/json"; R_send text])
    end.

(** [basic_auth]: the header of the request, if any; without one the comparison is
    with what the new buffer of one byte happens to hold ([fresh]). *)
Definition basic_auth (basic_authentication : list Z) (header : option (list Z)) (fresh : list Z)
    : Z * list resp_call :=
  let authorization_header := default fresh header in
  if bytes_eqb (map tolower basic_authentication) (map tolower authorization_header) then (ESP_OK, [])
  else (ESP_FAIL, [R_hdr "WWW-Authenticate" (of_str "Basic realm=" ++ [34] ++ of_str "RTKdata Station Config" ++ [34]);
                   R_status "401";
                   R_send (of_str "401 Unauthorized - Incorrect or no password provided")]).

Definition hotspot_auth : Z * list resp_call :=
  (ESP_FAIL, [R_status "401";
              R_send (of_str "401 Unauthorized - Configured to only accept connections from hotspot devices")]).

(** What [web_server_start] set up, and the request's credentials. *)
Record auth_t := mk_auth {
  au_method : Z;
  au_basic : list Z;
  au_header : option (list Z);
  au_fresh : list Z
}.

Definition check_auth (a : auth_t) : Z * list resp_call :=
  if au_method a =? AUTH_METHOD_HOTSPOT then hotspot_auth
  else if au_method a =? AUTH_METHOD_BASIC then basic_auth (au_basic a) (au_header a) (au_fresh a)
  else (ESP_OK, []).

(** The guard every handler but one starts with. *)
Definition guarded {S} (a : auth_t) (s : S) (handler : Z * list resp_call * S) : Z * list resp_call * S :=
  if fst (check_auth a) =? ESP_FAIL then (ESP_FAIL, snd (check_auth a), s) else handler.

(** ** The form's document *)

(** The bytes of a buffer before its first zero. *)
Fixpoint cstr (l : list Z) : list Z :=
  match l with
  | c :: l => if c =? 0 then [] else c :: cstr l
  | [] => []
  end.

Definition hex_lower (v : Z) : Z := if v <? 10 then 48 + v else 87 + v.
Definition hex_byte (b : Z) : list Z := [hex_lower (b / 16); hex_lower (b mod 16)].
(** [red], [green], [blue] of a [config_color_t]. *)
Definition color_byte (k rgba : Z) : Z := (rgba / 2 ^ (8 * k)) mod 256.
Definition color_text (rgba : Z) : list Z :=
  [35] ++ hex_byte (color_byte 3 rgba) ++ hex_byte (color_byte 2 rgba) ++ hex_byte (color_byte 1 rgba).

(** How many bytes [config_get_primitive] writes into the handler's zeroed
    [int64_t]. *)
Definition int_bits (ty : config_item_type_t) : Z :=
  match ty with T_BOOL | T_INT8 => 8 | T_INT16 => 16 | T_INT32 => 32 | _ => 64 end.
Definition widen (ty : config_item_type_t) (v : Z) : Z :=
  match ty with
  | T_INT64 => v
  | _ => v mod 2 ^ int_bits ty
  end.

Section Form.
Context `{Nvs St}.

Definition primitive (item : config_item_t) (n : St) : Z := default 0 (snd (config_get_primitive item n)).

(** The text of an item. *)
Definition str_text (item : config_item_t) (n : St) : list Z :=
  let '(ret, length, _) := config_get_str_blob item None n in
  let cap := if is_ok ret then length else 0 in
  let '(_, _, s) := config_get_str_blob item (Some cap) n in
  match ci_type item with T_BLOB => cstr s | _ => s end.

Definition item_string (item : config_item_t) (n : St) : list Z :=
  match ci_type item with
  | T_STRING | T_BLOB => str_text item n
  | T_COLOR => color_text (primitive item n)
  | T_UINT8 | T_UINT16 | T_UINT32 | T_UINT64 => decimal (primitive item n)
  | T_BOOL | T_INT8 | T_INT16 | T_INT32 | T_INT64 => decimal_signed (widen (ci_type item) (primitive item n))
  | T_IP => []
  end.

Definition ip_bytes (item : config_item_t) (n : St) : list Z := le_bytes 4 (primitive item n).

(** One item of the document: secrets that are not empty are hidden. *)
Definition item_json (item : config_item_t) (n : St) : string * js :=
  (ci_key item,
   match ci_type item with
   | T_IP => JArr (map JNum (ip_bytes item n))
   | _ =>
     let string := item_string item n in
     JStr (if ci_secret item && (0 <? zlen string) then CONFIG_VALUE_UNCHANGED else string)
   end).

Definition config_document (n : St) : js :=
  JObj (("version"%string, JStr (118 :: FW_VERSION)) :: map (fun item => item_json item n) CONFIG_ITEMS).

Definition config_get_handler (a : auth_t) (print : js -> Z -> option (list Z)) (type_err send_err : Z) (n : St)
    : Z * list resp_call * St :=
  guarded a n (json_response print type_err send_err (config_document n), n).

(** ** Posted values *)

Context {J : Type} `{Json J}.

(** Four strings of numbers from 0 to 255. *)
Fixpoint ip_parts (l : list J) : option (list Z) :=
  match l with
  | [] => Some []
  | x :: l =>
    match js_string x with
    | None => None
    | Some s =>
      let '(byte, overflow) := strtol s 10 in
      if overflow || (byte <? 0) || (255 <? byte) then None
      else match ip_parts l with Some bs => Some (byte :: bs) | None => None end
    end
  end.

Definition BLACK : list Z := Eval compute in of_str "#000000".

Definition write_config_value (item : config_item_t) (entry : J) (length : Z) (n : St) : Z * St :=
  let invalid := (ESP_ERR_INVALID_ARG, n) in
  match ci_type item with
  | T_STRING => match js_string entry with None => invalid | Some s => config_set_str (ci_key item) s n end
  | T_BLOB =>
    match js_string entry with
    | None => invalid
    | Some s => nvs_set_blob STORAGE (ci_key item) (ztake length s) n
    end
  | T_COLOR =>
    match js_string entry with
    | None => invalid
    | Some s =>
      if negb (zlen s =? 7) || negb (zget s 0 =? 35) then invalid
      else
        let is_black := bytes_eqb s BLACK in
        let rgba := u32 (Z.shiftl (fst (strtoul (zdrop 1 s) 16)) 8) in
        if negb is_black && (rgba =? 0) then invalid
        else if negb is_black then
          config_set_color (ci_key item) (rgba - rgba mod 256 + u8 (val_bits (ci_def item))) n
        else (ESP_OK, n)
    end
  | T_IP =>
    match js_array entry with
    | None => invalid
    | Some l =>
      if negb (zlen l =? 4) then invalid
      else match ip_parts l with
           | Some [a; b; c; d] => nvs_set_int U32 STORAGE (ci_key item) (ip4 a b c d) n
           | _ => invalid
           end
    end
  | T_BOOL | T_INT8 | T_INT16 | T_INT32 | T_INT64 =>
    match js_string entry with
    | None => invalid
    | Some s =>
      let int64 := fst (strtol s 10) in
      if (int64 =? 0) && negb (bytes_eqb s [48]) then invalid else config_set item (DV_bits int64) n
    end
  | T_UINT8 | T_UINT16 | T_UINT32 | T_UINT64 =>
    match js_string entry with
    | None => invalid
    | Some s =>
      let uint64 := fst (strtoul s 10) in
      if (uint64 =? 0) && negb (bytes_eqb s [48]) then invalid else config_set item (DV_bits uint64) n
    end
  end.

Definition is_ip (item : config_item_t) : bool := match ci_type item with T_IP => true | _ => false end.
Definition is_text (item : config_item_t) : bool :=
  match ci_type item with T_BLOB | T_STRING => true | _ => false end.

Definition apply_config_value (item : config_item_t) (entry : J) (n : St) : Z * St :=
  let string := js_string entry in
  let length := match string with Some s => zlen s | None => 0 end in
  let unchanged := match string with Some s => bytes_eqb s CONFIG_VALUE_UNCHANGED | None => false end in
  if negb (is_ip item) && negb (match string with Some _ => true | None => false end) then (ESP_ERR_INVALID_ARG, n)
  else if negb (is_ip item) && (length =? 0) && negb (is_text item) then (ESP_OK, n)
  else if unchanged then (ESP_OK, n)
  else write_config_value item entry length n.

(** The loop over the items: errors are logged and the next item is taken. *)
Definition apply_item (root : J) (n : St) (item : config_item_t) : St :=
  match js_item root (ci_key item) with
  | Some entry => snd (apply_config_value item entry n)
  | None => n
  end.
Definition apply_items (root : J) (n : St) : St := fold_left (apply_item root) CONFIG_ITEMS n.

(** [recv]: what [httpd_req_recv] answers, negative or the bytes received.  The third
    component says whether the restart task was started. *)
Definition config_post_handler (a : auth_t) (recv : Z + list Z) (print : js -> Z -> option (list Z))
    (type_err send_err : Z) (n : St) : Z * list resp_call * (bool * St) :=
  guarded a (false, n)
    match recv with
    | inl err => (ESP_FAIL, if err =? HTTPD_SOCK_ERR_TIMEOUT then [R_408] else [], (false, n))
    | inr data =>
      if zlen data =? 0 then (ESP_FAIL, [], (false, n))
      else
        match js_parse (ztake (BUFFER_SIZE - 1) data) with
        | None => (ESP_FAIL, [], (false, n))
        | Some root =>
          let n := snd (config_commit (apply_items root n)) in
          let '(err, calls) := json_response print type_err send_err (JObj [("success"%string, JBool true)]) in
          (err, calls, (true, n))
        end
    end.
End Form.

(** ** Specification *)

Definition table_type (ty : config_item_type_t) : bool :=
  match ty with T_INT16 | T_INT32 | T_INT64 | T_UINT64 | T_BLOB => false | _ => true end.

Lemma table_types : forallb (fun item => table_type (ci_type item)) CONFIG_ITEMS = true.
Proof. vm_compute. reflexivity. Qed.

Lemma folded_keys_nodup : NoDup (map (fun item => map tolower (of_str (ci_key item))) CONFIG_ITEMS).
Proof. apply (bool_decide_unpack _). vm_compute. exact I. Qed.

(** What an integer of the type can be. *)
Definition int_range (ty : config_item_type_t) (v : Z) : Prop :=
  match ty with
  | T_BOOL => v = 0 \/ v = 1
  | T_INT8 => - 2 ^ 7 <= v < 2 ^ 7
  | T_UINT8 => 0 <= v < 2 ^ 8
  | T_UINT16 => 0 <= v < 2 ^ 16
  | _ => 0 <= v < 2 ^ 32
  end.

Definition value_text (ty : config_item_type_t) (v : Z) : list Z :=
  match ty with
  | T_COLOR => color_text v
  | T_IP => le_bytes 4 v
  | T_BOOL | T_INT8 => decimal_signed (widen ty v)
  | _ => decimal v
  end.

(** The item can be read, and the form shows [x] for it (before hiding secrets). *)
Definition reads `{Nvs St} (item : config_item_t) (n : St) (x : list Z) : Prop :=
  match ci_type item with
  | T_STRING =>
    config_get_str_blob item None n = (ESP_OK, zlen x + 1, x) /\
    config_get_str_blob item (Some (zlen x + 1)) n = (ESP_OK, zlen x + 1, x)
  | ty => exists v, config_get_primitive item n = (ESP_OK, Some v) /\ int_range ty v /\ x = value_text ty v
  end.

(** What the form shows for an item. *)
Definition shown `{Nvs St} (item : config_item_t) (n : St) : list Z :=
  if is_ip item then ip_bytes item n else item_string item n.

Lemma i8_range x : - 2 ^ 7 <= i8 x < 2 ^ 7.
Proof. unfold i8. pose proof (Z.mod_pos_bound (x + 2 ^ 7) (2 ^ 8)). lia. Qed.

Section FormLaws.
Context `{NvsLaws St}.
Implicit Types n : St.

Lemma table_type_of item : item ∈ CONFIG_ITEMS -> table_type (ci_type item) = true.
Proof. intros Hin%list_elem_of_In. pose proof table_types as T. rewrite forallb_forall in T. by apply T. Qed.

Lemma reads_shown item n x : table_type (ci_type item) = true -> reads item n x -> shown item n = x.
Proof.
  unfold reads, shown, is_ip, item_string, ip_bytes, primitive, str_text.
  destruct (ci_type item); try done; intros _.
  6: by intros [E1 E2]; rewrite E1; change (is_ok ESP_OK) with true; cbn iota; rewrite E2.
  all: by intros (v & -> & _ & ->).
Qed.

Lemma reads_agree item n n' x : nvs_agree STORAGE (ci_key item) n n' -> reads item n x -> reads item n' x.
Proof.
  intros A. destruct (agree_same_value _ _ _ A) as (P & S & _). unfold reads.
  destruct (ci_type item); rewrite ?P, ?S; done.
Qed.

Lemma absent_reads item n : item ∈ CONFIG_ITEMS -> nvs_absent STORAGE (ci_key item) n -> exists x, reads item n x.
Proof.
  intros Hin A. pose proof (table_type_of item Hin) as Ht. pose proof (absent_reads_default item n Hin A) as D.
  pose proof defaults_ok as R. rewrite forallb_forall in R. specialize (R item ltac:(by apply list_elem_of_In)).
  unfold def_in_range in R. destruct A as (_ & A2 & _).
  unfold reads, reads_default in *. destruct (ci_type item) eqn:Ety; try done.
  6: { exists (val_str (ci_def item)). unfold config_get_str_blob. rewrite Ety.
       pose proof (A2 None) as B. pose proof (A2 (Some (zlen (val_str (ci_def item)) + 1))) as C.
       destruct (nvs_get_str STORAGE _ None n) as [e s]. destruct (nvs_get_str STORAGE _ (Some _) n) as [e' s'].
       cbn in B, C. by subst. }
  all: destruct D as (v & D1 & D2); exists (value_text (ci_type item) v); rewrite Ety; exists v; split_and!; [done| |done].
  all: destruct D2 as [-> | [E ->]]; try done; cbn [int_range].
  - lia.
  - unfold val_bool. case_if; lia.
  - assert (E : i8 (val_bits (ci_def item)) = val_bits (ci_def item)) by lia. rewrite <- E. apply i8_range.
  - assert (E : u8 (val_bits (ci_def item)) = val_bits (ci_def item)) by lia. rewrite <- E. apply u8_range.
  - assert (E : u16 (val_bits (ci_def item)) = val_bits (ci_def item)) by lia. rewrite <- E. apply u16_range.
  - assert (E : u32 (val_bits (ci_def item)) = val_bits (ci_def item)) by lia. rewrite <- E. apply u32_range.
  - assert (E : u32 (val_bits (ci_def item)) = val_bits (ci_def item)) by lia. rewrite <- E. apply u32_range.
  - assert (E : u32 (val_bits (ci_def item)) = val_bits (ci_def item)) by lia. rewrite <- E. apply u32_range.
Qed.

(** ** Effect of one entry *)

Lemma set_str_done key s n : (config_set_str key s n).1 = ESP_OK.
Proof. apply (get_set_str STORAGE key s None n). Qed.

Lemma color_in_range rgba a : u32 rgba mod 256 = 0 -> nvs_in_range U32 (u32 rgba - u32 rgba mod 256 + u8 a).
Proof.
  intros Hz. rewrite Hz. cbn. pose proof (u32_range rgba). pose proof (u8_range a).
  assert (u32 rgba <= 2 ^ 32 - 256); [|lia].
  pose proof (Z.div_mod (u32 rgba) 256 ltac:(lia)) as D. rewrite Hz in D.
  assert (u32 rgba / 256 < 2 ^ 24); [|lia]. apply Z.div_lt_upper_bound; lia.
Qed.

Lemma shifted_low v : u32 (Z.shiftl v 8) mod 256 = 0.
Proof.
  unfold u32. rewrite Z.shiftl_mul_pow2 by lia. change (2 ^ 32) with (2 ^ 24 * 256).
  change (2 ^ 8) with 256. rewrite Z.mul_mod_distr_r by lia. apply Z.mod_mul. lia.
Qed.

Lemma ip4_range a b c d : 0 <= a < 256 -> 0 <= b < 256 -> 0 <= c < 256 -> 0 <= d < 256 ->
  nvs_in_range U32 (ip4 a b c d).
Proof. intros. unfold ip4, nvs_in_range. lia. Qed.

Lemma ip_parts_range {J} `{Json J} l : forall bs, ip_parts l = Some bs -> Forall (fun b => 0 <= b < 256) bs.
Proof.
  induction l as [|x l IH]; intros bs; cbn [ip_parts]; [by intros [= <-]; apply Forall_nil|].
  destruct (js_string x) as [s|]; [|done]. destruct (strtol s 10) as [byte ov].
  destruct (ov || (byte <? 0) || (255 <? byte)) eqn:E; [done|].
  destruct (ip_parts l) as [bs'|]; [|done]. intros [= <-]. apply Forall_cons. split; [lia|by apply IH].
Qed.

Lemma config_set_done item v n : table_type (ci_type item) = true -> is_text item = false ->
  (ci_type item <> T_COLOR) -> (ci_type item <> T_IP) ->
  (config_set item (DV_bits v) n).1 = ESP_OK.
Proof.
  intros Ht Hs Hc Hi. unfold config_set, config_set_bool1, is_text in *. cbn [val_bits val_bool].
  destruct (ci_type item); try done; apply set_ok; cbn [nvs_in_range].
  - unfold val_bool. case_if; lia.
  - apply i8_range.
  - apply u8_range.
  - apply u16_range.
  - apply u32_range.
Qed.
End FormLaws.

(** ** Colours *)

Definition hexc (c : Z) : Prop := 48 <= c <= 57 \/ 97 <= c <= 102.

Lemma hex_lower_spec d : 0 <= d < 16 -> hexc (hex_lower d) /\ digit_value (hex_lower d) = d.
Proof.
  intros Hd. unfold hexc, hex_lower, digit_value. destruct (Z.ltb_spec d 10).
  - replace (48 <=? 48 + d) with true by lia. replace (48 + d <=? 57) with true by lia. cbn [andb]. lia.
  - replace (48 <=? 87 + d) with true by lia. replace (87 + d <=? 57) with false by lia.
    replace (97 <=? 87 + d) with true by lia. replace (87 + d <=? 122) with true by lia. cbn [andb]. lia.
Qed.

Lemma hex_byte_digits b rest acc : 0 <= b < 256 ->
  str_digits 16 (hex_byte b ++ rest) acc = str_digits 16 rest (acc * 256 + b).
Proof.
  intros Hb. assert (D1 : 0 <= b / 16 < 16) by (split; [apply Z.div_pos; lia|apply Z.div_lt_upper_bound; lia]).
  pose proof (Z.mod_pos_bound b 16 ltac:(lia)) as D2. pose proof (Z.div_mod b 16 ltac:(lia)).
  destruct (hex_lower_spec _ D1) as [_ E1]. destruct (hex_lower_spec _ D2) as [_ E2].
  unfold hex_byte. cbn [app str_digits]. rewrite E1, E2.
  replace (b / 16 <? 16) with true by lia. replace (b mod 16 <? 16) with true by lia. f_equal. lia.
Qed.

Lemma hex_byte_chars b : 0 <= b < 256 -> Forall hexc (hex_byte b).
Proof.
  intros Hb. unfold hex_byte. repeat (apply Forall_cons; split); [..|by apply Forall_nil].
  - apply hex_lower_spec. split; [apply Z.div_pos; lia|apply Z.div_lt_upper_bound; lia].
  - apply hex_lower_spec. apply Z.mod_pos_bound. lia.
Qed.

Lemma hex_magnitude s : s <> [] -> Forall hexc s -> str_magnitude 16 s = (false, str_digits 16 s 0).
Proof.
  intros Hn Hs. destruct s as [|c s]; [done|]. unfold str_magnitude. cbn [trim_left].
  pose proof Hs as Hs'. apply Forall_cons in Hs' as [Hc Hs']. unfold hexc in Hc. unfold isspace at 1.
  replace ((9 <=? c) && (c <=? 13) || (c =? 32)) with false by lia.
  assert (E : skip_0x 16 (c :: s) = c :: s).
  { unfold skip_0x. destruct s as [|x [|d s]]; repeat case_match; try done.
    apply Forall_cons in Hs' as [Hx _]. unfold hexc in Hx. exfalso.
    match goal with H : _ = true |- _ => apply andb_true_iff in H as [H _]; apply andb_true_iff in H as [_ H];
      apply Z.eqb_eq in H; unfold tolower in H; revert H end.
    replace ((65 <=? x) && (x <=? 90)) with false by lia. lia. }
  destruct (decide (c = 45)); [lia|]. destruct (decide (c = 43)); [lia|].
  repeat case_match; try lia; by rewrite E.
Qed.

Lemma color_bytes rgba k : 0 <= color_byte k rgba < 256.
Proof. unfold color_byte. apply Z.mod_pos_bound. lia. Qed.

Lemma rgb_sum v : 0 <= v < 2 ^ 32 ->
  (color_byte 3 v * 256 + color_byte 2 v) * 256 + color_byte 1 v = v / 256.
Proof.
  intros Hv. unfold color_byte. change (2 ^ (8 * 3)) with (256 * (256 * 256)). change (2 ^ (8 * 2)) with (256 * 256).
  change (2 ^ (8 * 1)) with 256. rewrite <- !Z.div_div by lia. set (w := v / 256).
  assert (Hw : 0 <= w < 2 ^ 24) by (unfold w; split; [apply Z.div_pos; lia|apply Z.div_lt_upper_bound; lia]).
  rewrite (Z.mod_small (w / 256 / 256)).
  - pose proof (Z.div_mod w 256 ltac:(lia)). pose proof (Z.div_mod (w / 256) 256 ltac:(lia)). lia.
  - split; [do 2 (apply Z.div_pos; [|lia]); lia|]. do 2 (apply Z.div_lt_upper_bound; [lia|]). lia.
Qed.

Lemma strtoul_color v : 0 <= v < 2 ^ 32 -> strtoul (zdrop 1 (color_text v)) 16 = (v / 256, false).
Proof.
  intros Hv. unfold color_text. cbn [app]. rewrite zdrop_cons, Z.sub_diag, zdrop_0 by lia. unfold strtoul.
  rewrite hex_magnitude.
  - rewrite !hex_byte_digits by apply color_bytes. rewrite <- (app_nil_r (hex_byte (color_byte 1 v))).
    rewrite hex_byte_digits by apply color_bytes. cbn [str_digits]. rewrite Z.mul_0_l, Z.add_0_l, rgb_sum by done.
    assert (v / 256 < 2 ^ 24) by (apply Z.div_lt_upper_bound; lia). unfold ULONG_MAX.
    by replace (2 ^ 32 - 1 <? v / 256) with false by lia.
  - done.
  - rewrite !Forall_app. split_and!; apply hex_byte_chars, color_bytes.
Qed.

Lemma color_text_len v : zlen (color_text v) = 7.
Proof. reflexivity. Qed.

(** The text depends on red, green and blue only. *)
Lemma color_text_high v w : 0 <= v < 2 ^ 32 -> 0 <= w < 2 ^ 32 -> v / 256 = w / 256 -> color_text v = color_text w.
Proof.
  intros Hv Hw E. assert (B : forall k, 1 <= k -> color_byte k v = color_byte k w).
  { intros k Hk. unfold color_byte. replace (8 * k) with (8 + 8 * (k - 1)) by lia.
    rewrite Z.pow_add_r by lia. change (2 ^ 8) with 256. rewrite <- !Z.div_div by lia. by rewrite E. }
  unfold color_text. by rewrite !B by lia.
Qed.

Lemma color_black v : 0 <= v < 2 ^ 32 -> v / 256 = 0 -> color_text v = BLACK.
Proof. intros Hv E. rewrite (color_text_high v 0 Hv); [reflexivity|lia|exact E]. Qed.

(** ** One entry *)

Section Entry.
Context `{NvsLaws St} {J : Type} `{Json J}.
Implicit Types n : St.

Lemma entry_agree item entry n ns key : (ns, key) <> (STORAGE, ci_key item) ->
  nvs_agree ns key n (apply_config_value item entry n).2.
Proof.
  intros Hk. unfold apply_config_value. repeat (case_if; [done|]).
  unfold write_config_value, config_set, config_set_str, config_set_bool1, config_set_color.
  destruct (ci_type item); repeat case_match; try done; cbn [snd];
    first [apply set_int_other | apply set_str_other | apply set_blob_other]; congruence.
Qed.

(** A refused value leaves the store alone: under the store's laws the writes
    themselves succeed. *)
Lemma write_int_done item v n : table_type (ci_type item) = true -> is_text item = false ->
  ci_type item <> T_COLOR -> ci_type item <> T_IP -> forall b : bool,
  (if b then (ESP_ERR_INVALID_ARG, n) else config_set item (DV_bits v) n).1 <> ESP_OK ->
  (if b then (ESP_ERR_INVALID_ARG, n) else config_set item (DV_bits v) n).2 = n.
Proof. intros ? ? ? ? [|]; [done|]. intros []. by apply config_set_done. Qed.

Lemma write_refused item entry len n : table_type (ci_type item) = true ->
  (write_config_value item entry len n).1 <> ESP_OK -> (write_config_value item entry len n).2 = n.
Proof.
  intros Ht. unfold write_config_value. destruct (ci_type item) eqn:E; try done.
  1-5: destruct (js_string entry) as [s|]; [|done]; apply write_int_done; unfold is_text; by rewrite E.
  - destruct (js_string entry) as [s|]; [|done]. intros []. apply set_str_done.
  - destruct (js_string entry) as [s|]; [|done]. case_if; [done|]. case_if; [done|]. case_if; [|done].
    intros []. apply set_ok, color_in_range, shifted_low.
  - destruct (js_array entry) as [l|]; [|done]. case_if; [done|]. destruct (ip_parts l) as [bs|] eqn:P; [|done].
    apply ip_parts_range in P. destruct bs as [|a [|b [|c [|d [|]]]]]; try done. intros [].
    repeat (apply Forall_cons in P as [? P]). by apply set_ok, ip4_range.
Qed.

Lemma apply_refused item entry n : table_type (ci_type item) = true ->
  (apply_config_value item entry n).1 <> ESP_OK -> (apply_config_value item entry n).2 = n.
Proof.
  intros Ht. unfold apply_config_value. repeat (case_if; [done|]). by apply write_refused.
Qed.

(** What a write leaves to be read. *)
Lemma primitive_after_set item v n : table_type (ci_type item) = true -> is_text item = false ->
  ci_type item <> T_COLOR -> ci_type item <> T_IP -> int_range (ci_type item) v ->
  forall w, (ci_type item = T_INT8 -> w = v \/ w = v mod 2 ^ 8) -> (ci_type item <> T_INT8 -> w = v) ->
  config_get_primitive item (config_set item (DV_bits w) n).2 = (ESP_OK, Some v).
Proof.
  intros Ht Hs Hc Hi R w W1 W2. unfold config_set, config_get_primitive, config_set_bool1, is_text in *.
  cbn [val_bits val_bool]. destruct (ci_type item); try done; cbn [int_range] in R.
  - rewrite (W2 ltac:(done)). assert (E : val_bool (DV_bits v) = v) by (destruct R as [-> | ->]; done).
    rewrite E. rewrite read_after_set by (cbn [nvs_in_range]; lia). done.
  - assert (E : i8 w = v).
    { destruct (W1 eq_refl) as [-> | ->]; [by apply i8_small|]. unfold i8. rewrite Zplus_mod_idemp_l.
      fold (i8 v). by apply i8_small. }
    rewrite E, read_after_set by (cbn [nvs_in_range]; lia). done.
  - rewrite (W2 ltac:(done)), (u8_small v), read_after_set by (cbn [nvs_in_range]; lia). done.
  - rewrite (W2 ltac:(done)), (u16_small v), read_after_set by (cbn [nvs_in_range]; lia). done.
  - rewrite (W2 ltac:(done)), (u32_small v), read_after_set by (cbn [nvs_in_range]; lia). done.
Qed.
End Entry.

(** ** The form posted back *)

Definition entry_of (item : config_item_t) (x : list Z) : js :=
  match ci_type item with
  | T_IP => JArr (map JNum x)
  | _ => JStr (if ci_secret item && (0 <? zlen x) then CONFIG_VALUE_UNCHANGED else x)
  end.

Lemma item_json_entry `{Nvs St} item (n : St) : item_json item n = (ci_key item, entry_of item (shown item n)).
Proof. unfold item_json, entry_of, shown, is_ip. by destruct (ci_type item). Qed.

Section PostBack.
Context `{NvsLaws St}.
Implicit Types n : St.
Variable parse : list Z -> option js.
#[local] Instance posted : Json js := js_json parse.

Lemma write_number item n x v : table_type (ci_type item) = true -> is_text item = false ->
  ci_type item <> T_COLOR -> ci_type item <> T_IP ->
  config_get_primitive item n = (ESP_OK, Some v) -> int_range (ci_type item) v -> x = value_text (ci_type item) v ->
  reads item (write_config_value item (JStr x) (zlen x) n).2 x.
Proof.
  intros Ht Hs Hc Hi E R ->. unfold write_config_value, reads. cbn [js_string posted js_json].
  assert (A : forall w, (ci_type item = T_INT8 -> w = v \/ w = v mod 2 ^ 8) -> (ci_type item <> T_INT8 -> w = v) ->
    config_get_primitive item (config_set item (DV_bits w) n).2 = (ESP_OK, Some v))
    by (intros; by apply primitive_after_set).
  unfold is_text in Hs. destruct (ci_type item) eqn:Ety; try done; cbn [value_text int_range] in *.
  - assert (Ew : widen T_BOOL v = v) by (destruct R as [-> | ->]; done). rewrite Ew, strtol_decimal by lia.
    cbn [fst]. case_if; exists v; rewrite ?A by done; by rewrite Ew.
  - assert (Hw : 0 <= v mod 2 ^ 8 < 2 ^ 8) by (apply Z.mod_pos_bound; lia). change (widen T_INT8 v) with (v mod 2 ^ 8) at 1 2 3.
    rewrite strtol_decimal by lia. cbn [fst]. case_if; exists v; [done|]. rewrite A; [done| |done]. by right.
  - rewrite strtoul_decimal by lia. cbn [fst]. case_if; exists v; [done|]. by rewrite A.
  - rewrite strtoul_decimal by lia. cbn [fst]. case_if; exists v; [done|]. by rewrite A.
  - rewrite strtoul_decimal by lia. cbn [fst]. case_if; exists v; [done|]. by rewrite A.
Qed.

Lemma write_text item n x : ci_type item = T_STRING -> reads item (write_config_value item (JStr x) (zlen x) n).2 x.
Proof.
  intros Ht. unfold write_config_value, reads. rewrite Ht. cbn [js_string posted js_json].
  unfold config_get_str_blob, config_set_str. rewrite Ht.
  destruct (get_set_str STORAGE (ci_key item) x None n) as (_ & G2 & _).
  destruct (get_set_str STORAGE (ci_key item) x (Some (zlen x + 1)) n) as (_ & G4 & _).
  rewrite G2, G4 by (simpl; done || lia). done.
Qed.

Lemma write_color item n v : ci_type item = T_COLOR -> config_get_primitive item n = (ESP_OK, Some v) ->
  0 <= v < 2 ^ 32 ->
  reads item (write_config_value item (JStr (color_text v)) 7 n).2 (color_text v).
Proof.
  intros Ht E Hv. unfold write_config_value, reads. rewrite Ht. cbn [js_string posted js_json].
  rewrite color_text_len. change (zget (color_text v) 0) with 35.
  change (negb (7 =? 7) || negb (35 =? 35)) with false. cbn iota. rewrite strtoul_color by done. cbn [fst].
  assert (Hq : 0 <= v / 256 < 2 ^ 24) by (split; [apply Z.div_pos; lia|apply Z.div_lt_upper_bound; lia]).
  rewrite Z.shiftl_mul_pow2 by lia. change (2 ^ 8) with 256. rewrite (u32_small (v / 256 * 256)) by lia.
  case_if; [by exists v|]. case_if; [|by exists v]. cbn [snd].
  rewrite Z.mod_mul, Z.sub_0_r by lia. set (w := v / 256 * 256 + u8 _).
  pose proof (u8_range (val_bits (ci_def item))) as B. assert (Hw : 0 <= w < 2 ^ 32) by (unfold w; lia).
  exists w. unfold config_get_primitive, config_set_color. rewrite Ht.
  rewrite read_after_set by (cbn [nvs_in_range]; lia). split_and!; [done|cbn; lia|].
  cbn [value_text]. apply color_text_high; [done|done|]. unfold w.
  rewrite Z.div_add_l, (Z.div_small (u8 _)) by lia. lia.
Qed.

Lemma post_back_ip item n x : ci_type item = T_IP -> (apply_config_value item (JArr (map JNum x)) n).2 = n.
Proof.
  intros E. unfold apply_config_value, write_config_value, is_ip. rewrite E.
  cbn [js_string js_array posted js_json negb andb]. case_if; [done|].
  destruct x as [|b x]; done.
Qed.

Lemma post_back_secret item n : ci_type item <> T_IP ->
  (apply_config_value item (JStr CONFIG_VALUE_UNCHANGED) n).2 = n.
Proof.
  intros Hi. unfold apply_config_value. cbn [js_string posted js_json].
  rewrite andb_false_r. case_if; [done|]. by rewrite bytes_eqb_refl.
Qed.

Lemma post_back_plain item n x : table_type (ci_type item) = true -> ci_type item <> T_IP -> reads item n x ->
  reads item (apply_config_value item (JStr x) n).2 x.
Proof.
  intros Ht Hi R. unfold apply_config_value. cbn [js_string posted js_json].
  rewrite andb_false_r. case_if; [done|]. case_if; [done|].
  destruct (decide (ci_type item = T_STRING)) as [E|Hs]; [by apply write_text|].
  destruct (decide (ci_type item = T_COLOR)) as [E|Hc].
  - unfold reads in R. rewrite E in R. destruct R as (v & R1 & R2 & ->).
    change (zlen (value_text T_COLOR v)) with 7. by apply write_color.
  - assert (R' : exists v, config_get_primitive item n = (ESP_OK, Some v) /\ int_range (ci_type item) v /\
      x = value_text (ci_type item) v) by (unfold reads in R; by destruct (ci_type item)).
    destruct R' as (v & R1 & R2 & R3). apply (write_number item n x v); try done.
    unfold is_text. by destruct (ci_type item).
Qed.

Lemma post_back item n x : table_type (ci_type item) = true -> reads item n x ->
  reads item (apply_config_value item (entry_of item x) n).2 x.
Proof.
  intros Ht R. unfold entry_of. destruct (decide (ci_type item = T_IP)) as [E|Hi].
  - rewrite E. by rewrite post_back_ip.
  - assert (Ee : forall a b : js, match ci_type item with T_IP => a | _ => b end = b) by (by destruct (ci_type item)).
    rewrite Ee. destruct (ci_secret item && _); [by rewrite post_back_secret|by apply post_back_plain].
Qed.
End PostBack.

(** ** The loop over the items *)

Section Items.
Context `{NvsLaws St} {J : Type} `{Json J}.
Implicit Types n : St.

(** What a write answers does not depend on the store. *)
Lemma set_int_status ty key v n m : nvs_in_range ty v ->
  (nvs_set_int ty STORAGE key v n).1 = (nvs_set_int ty STORAGE key v m).1.
Proof. intros R. by rewrite !set_ok. Qed.

Lemma write_int_status item v n m (b : bool) : table_type (ci_type item) = true -> is_text item = false ->
  ci_type item <> T_COLOR -> ci_type item <> T_IP ->
  (if b then (ESP_ERR_INVALID_ARG, n) else config_set item (DV_bits v) n).1 =
  (if b then (ESP_ERR_INVALID_ARG, m) else config_set item (DV_bits v) m).1.
Proof. intros. destruct b; [done|]. by rewrite !config_set_done. Qed.

Lemma write_status item entry len n m : table_type (ci_type item) = true ->
  (write_config_value item entry len n).1 = (write_config_value item entry len m).1.
Proof.
  intros Ht. unfold write_config_value. destruct (ci_type item) eqn:E; try done.
  1-5: destruct (js_string entry) as [s|]; [|done]; apply write_int_status; unfold is_text; by rewrite E.
  - destruct (js_string entry) as [s|]; [|done]. by rewrite !set_str_done.
  - destruct (js_string entry) as [s|]; [|done]. repeat (case_if; [done|]). case_if; [|done].
    apply set_int_status, color_in_range, shifted_low.
  - destruct (js_array entry) as [l|]; [|done]. case_if; [done|]. destruct (ip_parts l) as [bs|] eqn:P; [|done].
    apply ip_parts_range in P. destruct bs as [|a [|b [|c [|d [|]]]]]; try done.
    repeat (apply Forall_cons in P as [? P]). by apply set_int_status, ip4_range.
Qed.

Lemma apply_status item entry n m : table_type (ci_type item) = true ->
  (apply_config_value item entry n).1 = (apply_config_value item entry m).1.
Proof. intros Ht. unfold apply_config_value. repeat (case_if; [done|]). by apply write_status. Qed.

Lemma apply_item_agree (root : J) n item ns key : (ns, key) <> (STORAGE, ci_key item) ->
  nvs_agree ns key n (apply_item root n item).
Proof. intros Hk. unfold apply_item. destruct (js_item _ _); [by apply entry_agree|done]. Qed.

Lemma apply_fold_agree (root : J) ns key items : (forall item, In item items -> (ns, key) <> (STORAGE, ci_key item)) ->
  forall n, nvs_agree ns key n (fold_left (apply_item root) items n).
Proof.
  induction items as [|x items IH]; intros Hk n; cbn [fold_left]; [done|].
  etrans; [apply apply_item_agree, Hk; by left|]. apply IH. intros item Hin. apply Hk. by right.
Qed.

(** The final value of an item is what its own entry made of it. *)
Lemma apply_items_own (root : J) item n : item ∈ CONFIG_ITEMS ->
  exists m, nvs_agree STORAGE (ci_key item) n m /\
            nvs_agree STORAGE (ci_key item) (apply_item root m item) (apply_items root n).
Proof.
  intros Hin%list_elem_of_In. unfold apply_items. pose proof keys_nodup as Hn.
  apply in_split in Hin as (before & after & E). rewrite E in Hn |- *. rewrite map_app in Hn. cbn [map] in Hn.
  apply NoDup_app in Hn as (_ & Hb & Ha). apply NoDup_cons in Ha as [Ha _].
  rewrite fold_left_app. cbn [fold_left]. exists (fold_left (apply_item root) before n). split.
  - apply apply_fold_agree. intros x Hx [= Ek]. apply (Hb (ci_key x)).
    + apply list_elem_of_In, in_map, Hx.
    + rewrite Ek. by left.
  - apply apply_fold_agree. intros x Hx [= Ek]. apply Ha. rewrite Ek. apply list_elem_of_In, in_map, Hx.
Qed.

Lemma apply_items_other (root : J) n ns key : (ns, key) ∉ map (fun item => (STORAGE, ci_key item)) CONFIG_ITEMS ->
  nvs_agree ns key n (apply_items root n).
Proof.
  intros Hk. apply apply_fold_agree. intros item Hin E. apply Hk. rewrite E.
  apply list_elem_of_In, (in_map (fun item => (STORAGE, ci_key item))), Hin.
Qed.

Definition unsigned_wrap (ty : config_item_type_t) (v : Z) : Z :=
  match ty with T_UINT8 => u8 v | T_UINT16 => u16 v | _ => u32 v end.

Lemma bytes_ne_unchanged s : Forall (fun c => 48 <= c <= 57) s -> s <> [] -> bytes_eqb s CONFIG_VALUE_UNCHANGED = false.
Proof.
  intros Hs Hn. destruct (bytes_eqb s _) eqn:E; [|done]. apply bytes_eqb_eq in E. subst s.
  apply Forall_cons in Hs as [Hs _]. lia.
Qed.

Lemma apply_decimal item entry v n : 0 <= v -> js_string entry = Some (decimal v) ->
  is_ip item = false ->
  apply_config_value item entry n = write_config_value item entry (zlen (decimal v)) n.
Proof.
  intros Hv Hs Hi. destruct (decimal_spec v ltac:(lia)) as (D1 & _ & D3). unfold apply_config_value.
  rewrite Hs, Hi, bytes_ne_unchanged by done. cbn [negb andb].
  assert (zlen (decimal v) <> 0) by (destruct (decimal v); [done|]; autorewrite with zlen; pose proof (zlen_nonneg l); lia).
  by replace (zlen (decimal v) =? 0) with false by lia.
Qed.

(** C20: a posted form is applied entry by entry.  An item whose entry is missing or
    refused keeps its value, whatever the others do; an accepted text is the item's
    new value; a decimal number for an unsigned item is cut to 2^32-1, where [strtoul]
    stops, and stored modulo the item's width, so one that is too large is not refused
    but changed (70000 in a port becomes 4464, and anything from 2^32 on the largest
    value of the width); and no key outside the table is touched. *)
Theorem config_post_errors (root : J) n :
  (forall item, item ∈ CONFIG_ITEMS ->
     (js_item root (ci_key item) = None -> same_value item n (apply_items root n)) /\
     (forall entry, js_item root (ci_key item) = Some entry ->
        ((apply_config_value item entry n).1 <> ESP_OK -> same_value item n (apply_items root n)) /\
        (forall s, js_string entry = Some s -> ci_type item = T_STRING -> s <> CONFIG_VALUE_UNCHANGED ->
           config_get_str_blob_alloc true item (apply_items root n) = (ESP_OK, Some s)) /\
        (forall v, js_string entry = Some (decimal v) -> 0 <= v ->
           ci_type item = T_UINT8 \/ ci_type item = T_UINT16 \/ ci_type item = T_UINT32 ->
           config_get_primitive item (apply_items root n) =
             (ESP_OK, Some (unsigned_wrap (ci_type item) (Z.min v (2 ^ 32 - 1))))))) /\
  (forall ns key, (ns, key) ∉ map (fun item => (STORAGE, ci_key item)) CONFIG_ITEMS ->
     nvs_agree ns key n (apply_items root n)).
Proof.
  split; [|by apply apply_items_other]. intros item Hin. pose proof (table_type_of item Hin) as Ht.
  destruct (apply_items_own root item n Hin) as (m & Hm & Hf). unfold apply_item in Hf. split.
  - intros E. rewrite E in Hf. apply agree_same_value. by etrans.
  - intros entry E. rewrite E in Hf. destruct (agree_same_value _ _ _ Hf) as (F1 & _ & F3). split_and!.
    + intros Hr. rewrite (apply_status item entry n m Ht) in Hr. apply agree_same_value.
      rewrite (apply_refused _ _ _ Ht Hr) in Hf. by etrans.
    + intros s Hs Hty Hu. rewrite F3. unfold apply_config_value, write_config_value, is_ip, is_text.
      rewrite Hs, Hty. cbn [negb andb]. rewrite andb_false_r.
      destruct (bytes_eqb s _) eqn:Eu; [by apply bytes_eqb_eq in Eu|]. by apply str_read_back.
    + intros v Hs Hv Hty. rewrite F1. destruct (decimal_spec v ltac:(lia)) as (_ & _ & D).
      rewrite (apply_decimal item entry v m Hv Hs) by (unfold is_ip; by destruct Hty as [-> | [-> | ->]]).
      unfold write_config_value, config_set. rewrite Hs, strtoul_decimal_sat by done. unfold ULONG_MAX. cbn [val_bits].
      assert (Hz : (Z.min v (2 ^ 32 - 1) =? 0) && negb (bytes_eqb (decimal v) [48]) = false)
        by (destruct (Z.eqb_spec v 0) as [->|]; [done|replace (_ =? 0) with false by lia; done]).
      unfold config_get_primitive.
      destruct Hty as [Hty | [Hty | Hty]]; rewrite Hty, Hz; cbn [unsigned_wrap];
        rewrite read_after_set by (apply u8_range || apply u16_range || apply u32_range); done.
Qed.
End Items.

(** ** The form sent back as it came *)

Section RoundTrip.
Context `{NvsLaws St}.
Implicit Types n : St.
Variable parse : list Z -> option js.
#[local] Instance tree : Json js := js_json parse.

Lemma document_keys_nodup : NoDup (map tolower (of_str "version") :: map (fun item => map tolower (of_str (ci_key item))) CONFIG_ITEMS).
Proof. apply (bool_decide_unpack _). vm_compute. exact I. Qed.

Lemma document_entry item n : item ∈ CONFIG_ITEMS ->
  js_item (config_document n) (ci_key item) = Some (entry_of item (shown item n)).
Proof.
  intros Hin. cbn [js_item tree js_json config_document]. apply assoc_in.
  - cbn [map fst]. rewrite map_map. apply document_keys_nodup.
  - right. apply in_map_iff. exists item. split; [apply item_json_entry|by apply list_elem_of_In].
Qed.

(** C19: the form posted back as it was shown changes nothing the form shows.  On a
    store where every item of the table can be read, a device that accepts the request
    and receives the document its own GET handler printed ends with every item showing
    what it showed, secrets included although the document hides them, and asks for
    the restart. *)
Theorem config_form_round_trip print type_err send_err a data n :
  (check_auth a).1 <> ESP_FAIL -> 0 < zlen data < BUFFER_SIZE -> parse data = Some (config_document n) ->
  (forall item, item ∈ CONFIG_ITEMS -> exists x, reads item n x) ->
  let '(restart, n') := (config_post_handler a (inr data) print type_err send_err n).2 in
  restart = true /\ forall item, item ∈ CONFIG_ITEMS -> shown item n' = shown item n.
Proof.
  intros Ha Hd Hp Hr. unfold config_post_handler, guarded.
  replace ((check_auth a).1 =? ESP_FAIL) with false by lia. replace (zlen data =? 0) with false by lia.
  rewrite ztake_ge by (unfold BUFFER_SIZE in *; lia). cbn [js_parse tree js_json]. rewrite Hp.
  destruct (json_response _ _ _ _) as [err calls]. cbn [snd]. split; [done|]. intros item Hin.
  pose proof (table_type_of item Hin) as Ht. destruct (Hr item Hin) as [x Hx].
  rewrite (reads_shown item n x Ht Hx). apply (reads_shown item _ _ Ht).
  apply (reads_agree item (apply_items (config_document n) n)); [apply commit_agree|].
  destruct (apply_items_own (config_document n) item n Hin) as (m & Hm & Hf).
  apply (reads_agree item _ _ x Hf). unfold apply_item.
  rewrite (document_entry item n Hin), (reads_shown item n x Ht Hx).
  apply post_back; [done|]. by apply (reads_agree item n).
Qed.
End RoundTrip.

(** What the guard lets through.  A device set to an open interface serves every
    request; one set to hotspot connections serves none (the check of the peer's address is
    commented out); with a password a request is served exactly when its header (or
    the uninitialised byte compared when it has none) equals the expected one
    regardless of case, and otherwise it gets the challenge and changes nothing. *)
Theorem auth_guard {S} (a : auth_t) (s : S) handler :
  (au_method a <> AUTH_METHOD_HOTSPOT -> au_method a <> AUTH_METHOD_BASIC -> guarded a s handler = handler) /\
  (au_method a = AUTH_METHOD_HOTSPOT ->
     exists calls, guarded a s handler = (ESP_FAIL, calls, s) /\ In (R_status "401") calls) /\
  (au_method a = AUTH_METHOD_BASIC ->
     let sent := default (au_fresh a) (au_header a) in
     (map tolower (au_basic a) = map tolower sent -> guarded a s handler = handler) /\
     (map tolower (au_basic a) <> map tolower sent ->
        exists calls, guarded a s handler = (ESP_FAIL, calls, s) /\ In (R_status "401") calls)).
Proof.
  unfold guarded, check_auth. split_and!.
  - intros H1 H2. by replace (au_method a =? AUTH_METHOD_HOTSPOT) with false by lia;
      replace (au_method a =? AUTH_METHOD_BASIC) with false by lia.
  - intros ->. eexists. split; [reflexivity|]. by left.
  - intros ->. change (AUTH_METHOD_BASIC =? AUTH_METHOD_HOTSPOT) with false. rewrite Z.eqb_refl. unfold basic_auth.
    split; intros E.
    + by rewrite E, bytes_eqb_refl.
    + destruct (bytes_eqb _ _) eqn:Eb; [by apply bytes_eqb_eq in Eb|]. eexists. split; [reflexivity|]. right. by left.
Qed.

Lemma secrets_not_ip : forallb (fun item => negb (ci_secret item && is_ip item)) CONFIG_ITEMS = true.
Proof. vm_compute. reflexivity. Qed.

(** C38: the document of the form tells nothing about a secret but whether it is set.
    Two stores that show the same for every other item, and have the same secrets set,
    whatever their values, give the same document, and so the same response. *)
Theorem config_hides_secrets `{Nvs St} (n n' : St) :
  (forall item, item ∈ CONFIG_ITEMS ->
     if ci_secret item then shown item n = [] <-> shown item n' = [] else shown item n = shown item n') ->
  config_document n = config_document n' /\
  forall a print type_err send_err,
    (config_get_handler a print type_err send_err n).1 = (config_get_handler a print type_err send_err n').1.
Proof.
  intros Hs. assert (E : config_document n = config_document n').
  { unfold config_document. do 2 f_equal. apply map_ext_in. intros item Hin. rewrite !item_json_entry. f_equal.
    pose proof secrets_not_ip as Sip. rewrite forallb_forall in Sip. specialize (Sip item Hin).
    specialize (Hs item ltac:(by apply list_elem_of_In)). unfold entry_of, is_ip in *.
    destruct (ci_secret item); [|by rewrite Hs].
    assert (L : forall x y : list Z, (x = [] <-> y = []) -> (0 <? zlen x) = (0 <? zlen y) /\ ((0 <? zlen x) = false -> x = y)).
    { intros [|a x] [|b y] [H1 H2]; [done|by specialize (H1 eq_refl)|by specialize (H2 eq_refl)|].
      autorewrite with zlen. pose proof (zlen_nonneg x). pose proof (zlen_nonneg y).
      split; [|intros F]; lia. }
    destruct (L _ _ Hs) as [L1 L2]. destruct (ci_type item); try done; rewrite <- L1; cbn [andb];
      destruct (0 <? zlen (shown item n)); try done; by rewrite L2. }
  split; [done|]. intros. unfold config_get_handler, guarded. rewrite E. by case_if.
Qed.

(** ** Witnesses *)

Lemma config_hides_secrets_witness :
  config_document (config_set_str "w_sta_pass" (of_str "hunter2") flash_empty).2 =
  config_document (config_set_str "w_sta_pass" (of_str "correct horse") flash_empty).2.
Proof.
  apply config_hides_secrets. intros item Hin.
  destruct (decide (ci_key item = "w_sta_pass"%string)) as [E|E].
  - assert (Hp : mk_item "w_sta_pass" T_STRING true (DV_str []) ∈ CONFIG_ITEMS)
      by (apply list_elem_of_In; vm_compute; repeat (first [left; reflexivity | right])).
    pose proof (find_item_in _ _ keys_nodup Hin) as F.
    rewrite E in F. change "w_sta_pass"%string with (ci_key (mk_item "w_sta_pass" T_STRING true (DV_str []))) in F.
    rewrite (find_item_in _ _ keys_nodup Hp) in F. injection F as <-. vm_compute. split; intros; discriminate.
  - assert (A : forall s, nvs_agree STORAGE (ci_key item) flash_empty (config_set_str "w_sta_pass" s flash_empty).2)
      by (intros s; apply flash_put_other; congruence).
    assert (Es : forall s, shown item (config_set_str "w_sta_pass" s flash_empty).2 = shown item flash_empty).
    { intros s. destruct (agree_same_value item _ _ (A s)) as (P & S & _).
      unfold shown, ip_bytes, item_string, primitive, str_text. rewrite P, S.
      destruct (config_get_str_blob item None flash_empty) as [[ret len] x]. by rewrite S. }
    rewrite !Es. by destruct (ci_secret item).
Defined.


Definition pass_item : config_item_t := mk_item "w_sta_pass" T_STRING true (DV_str []).
Definition port_item : config_item_t := mk_item "sck_cli_port" T_UINT16 false (DV_bits 23).
Definition server_port_item : config_item_t := mk_item "sck_srv_t_port" T_UINT16 false (DV_bits 23).
Definition store1 : flash := (config_set_str "w_sta_pass" (of_str "hunter2") flash_empty).2.
Definition open_auth : auth_t := mk_auth AUTH_METHOD_OPEN [] None [0].
Definition no_print (_ : js) (_ : Z) : option (list Z) := Some [].

Lemma pass_item_in : pass_item ∈ CONFIG_ITEMS.
Proof. apply list_elem_of_In. vm_compute. repeat (first [left; reflexivity | right]). Qed.
Lemma port_item_in : port_item ∈ CONFIG_ITEMS.
Proof. apply list_elem_of_In. vm_compute. repeat (first [left; reflexivity | right]). Qed.
Lemma server_port_item_in : server_port_item ∈ CONFIG_ITEMS.
Proof. apply list_elem_of_In. vm_compute. repeat (first [left; reflexivity | right]). Qed.

Lemma store1_readable item : item ∈ CONFIG_ITEMS -> exists x, reads item store1 x.
Proof.
  intros Hin. destruct (decide (ci_key item = ci_key pass_item)) as [E|E].
  - exists (of_str "hunter2"). pose proof (find_item_in _ _ keys_nodup Hin) as F.
    rewrite E, (find_item_in _ _ keys_nodup pass_item_in) in F. injection F as <-.
    unfold reads. cbn [ci_type pass_item]. unfold store1. done.
  - apply absent_reads; [done|]. apply (absent_agree _ _ flash_empty); [|by apply flash_absent].
    apply flash_put_other. cbn in E. congruence.
Qed.

Lemma config_form_round_trip_witness :
  shown pass_item (config_post_handler (H0 := js_json (fun _ => Some (config_document store1)))
                     open_auth (inr [123]) no_print ESP_OK ESP_OK store1).2.2 = of_str "hunter2".
Proof.
  pose proof (config_form_round_trip (fun _ => Some (config_document store1)) no_print ESP_OK ESP_OK open_auth [123] store1
    ltac:(vm_compute; discriminate) ltac:(vm_compute; split; reflexivity) eq_refl store1_readable) as P.
  destruct (config_post_handler _ _ _ _ _ _) as [? [? n']]. destruct P as [_ P]. cbn [snd].
  rewrite (P _ pass_item_in). vm_compute. reflexivity.
Defined.

(** A port that does not fit, one beyond 32 bits, a refused colour and a new
    password in one form. *)
Definition form1 : js :=
  JObj [("sck_cli_port"%string, JStr (of_str "70000")); ("sck_srv_t_port"%string, JStr (of_str "4294967296"));
        ("sck_cli_color"%string, JStr (of_str "red")); ("w_sta_pass"%string, JStr (of_str "correct horse"))].

Lemma config_post_errors_witness :
  let n := apply_items (H0 := js_json (fun _ => None)) form1 store1 in
  config_get_primitive port_item n = (ESP_OK, Some 4464) /\
  config_get_primitive server_port_item n = (ESP_OK, Some 65535) /\
  config_get_str_blob_alloc true pass_item n = (ESP_OK, Some (of_str "correct horse")).
Proof.
  destruct (config_post_errors (H1 := js_json (fun _ => None)) form1 store1) as [P _]. split_and!.
  - destruct (P port_item port_item_in) as [_ Q]. destruct (Q (JStr (of_str "70000")) eq_refl) as (_ & _ & R).
    apply (R 70000); [reflexivity|lia|right; left; reflexivity].
  - destruct (P server_port_item server_port_item_in) as [_ Q].
    destruct (Q (JStr (of_str "4294967296")) eq_refl) as (_ & _ & R).
    apply (R 4294967296); [reflexivity|lia|right; left; reflexivity].
  - destruct (P pass_item pass_item_in) as [_ Q].
    destruct (Q (JStr (of_str "correct horse")) eq_refl) as (_ & R & _). by apply R.
Defined.

Lemma auth_guard_witness :
  let a := mk_auth AUTH_METHOD_BASIC (of_str "Basic YWRtaW46eHl6") (Some (of_str "basic YWRTAW46EHL6")) [0] in
  guarded a 7 (ESP_OK, [], 8) = (ESP_OK, [], 8).
Proof. apply (auth_guard (mk_auth _ _ _ _)); reflexivity. Defined.
