(* ===== verification/WebFiles.v ===== *)
(** * The web interface's files (src/main/web_server.c)

    Paths built from the request's address, the content type, the entity tag kept next
    to each file, and the loop that sends a file.  The file system is a map from paths
    to contents; whether a file can be opened, the sends' answers and the ROM's CRC are
    arguments. *)

From stdpp Require Import gmap.
From S2P Require Import Prelude NetUtil NtripServer Nvs OtaState Config Doubles Telemetry Json Provisioning WebConfig.

#[local] Open Scope Z_scope.

Definition ESP_ERR_NOT_FOUND : Z := 261.
Definition ESP_ERR_INVALID_CRC : Z := 265.

(** [ESP_VFS_PATH_MAX + CONFIG_SPIFFS_OBJ_NAME_LEN]. *)
Definition FILE_PATH_MAX : Z := 15 + 32.
Definition FILE_HASH_SUFFIX : list Z := Eval compute in of_str ".crc".
Definition WWW_PARTITION_PATH : list Z := Eval compute in of_str "/www".
Definition INDEX_HTML : list Z := Eval compute in of_str "index.html".

(** ** Paths *)

(** The offset of the first [c]. *)
Fixpoint strchr (c : Z) (s : list Z) : option Z :=
  match s with
  | [] => None
  | x :: s => if x =? c then Some 0 else match strchr c s with Some i => Some (i + 1) | None => None end
  end.

(** [get_path_from_uri]: the path after the base, [None] when it does not fit. *)
Definition get_path_from_uri (base_path uri : list Z) (destsize : Z) : option (list Z) :=
  let pathlen := zlen uri in
  let pathlen := match strchr 63 uri with Some quest => Z.min pathlen quest | None => pathlen end in
  let pathlen := match strchr 35 uri with Some hash => Z.min pathlen hash | None => pathlen end in
  if destsize <? zlen base_path + pathlen + 1 then None else Some (ztake pathlen uri).

(** [IS_FILE_EXT]: [off] is where the comparison starts in the buffer that holds the
    base and the name. *)
Definition ext_offset (name : list Z) (ext : string) : Z :=
  zlen WWW_PARTITION_PATH + zlen name - zlen (of_str ext).
Definition is_file_ext (name : list Z) (ext : string) : bool :=
  bytes_eqb (map tolower (zdrop (ext_offset name ext) (WWW_PARTITION_PATH ++ name))) (map tolower (of_str ext)).

Definition set_content_type_from_file (name : list Z) : resp_call :=
  if is_file_ext name ".html" then R_type "text/html"
  else if is_file_ext name ".js" then R_type "application/javascript"
  else if is_file_ext name ".css" then R_type "text/css"
  else if is_file_ext name ".ico" then R_type "image/x-icon"
  else R_type "text/plain".

(** ** Files *)

Record web_fs := mk_web_fs {
  wf_files : gmap (list Z) (list Z);
  wf_leaked : Z  (** buffers allocated and never freed *)
}.

Definition upper_hex8 (crc : Z) : list Z := concat (map (hex2_of upper_digit) (rev (le_bytes 4 crc))).

Section Files.
Variables can_read can_write : list Z -> bool.
Variable send_ok : Z -> bool.
Variable crc32_le : Z -> list Z -> Z.

(** [file_check_etag_hash]: the error, the tag, and the new state: the buffer for
    the client's header is not freed on either return. *)
Definition file_check_etag_hash (file_hash_path : list Z) (if_none_match : option (list Z)) (fs : web_fs)
    : Z * list Z * web_fs :=
  match wf_files fs !! file_hash_path with
  | None => (ESP_ERR_NOT_FOUND, [], fs)
  | Some stored =>
    if negb (can_read file_hash_path) then (ESP_FAIL, [], fs)
    else if zlen stored <? 4 then (ESP_FAIL, [], fs)
    else
      let etag := [34] ++ upper_hex8 (le_value (ztake 4 stored)) ++ [34] in
      let if_none_match := default [] if_none_match in
      if 1 <? zlen if_none_match + 1 then
        (if bytes_eqb etag if_none_match then ESP_OK else ESP_ERR_INVALID_CRC, etag,
         mk_web_fs (wf_files fs) (wf_leaked fs + 1))
      else (ESP_ERR_INVALID_ARG, etag, fs)
  end.

(** The loop of [file_get_handler] over chunk [k] onwards, [rest] still to be read:
    whether the file was sent, the calls and the checksum. *)
Fixpoint send_loop (fuel : nat) (k : Z) (rest : list Z) (crc : Z) : option (bool * list resp_call * Z) :=
  match fuel with
  | O => None
  | S fuel =>
    let data := ztake BUFFER_SIZE rest in
    if negb (send_ok k) then Some (false, [R_chunk data; R_chunk []; R_500 "Failed to send file"], crc)
    else
      let crc := crc32_le crc data in
      if zlen data =? 0 then Some (true, [R_chunk data], crc)
      else match send_loop fuel (k + 1) (zdrop BUFFER_SIZE rest) crc with
           | Some (sent, calls, crc) => Some (sent, R_chunk data :: calls, crc)
           | None => None
           end
  end.

(** The reads of a file: one for every block, the last one perhaps not full, and an empty one. *)
Definition send_reads (content : list Z) : Z := (zlen content + BUFFER_SIZE - 1) / BUFFER_SIZE + 1.
Definition send_fuel (content : list Z) : nat := Z.to_nat (send_reads content).

(** What the handler comes to: an error, its calls and the new state; the number of
    bytes its first copy out of bounds writes past a path buffer; or no fuel left. *)
Inductive file_result :=
  | F_done (err : Z) (calls : list resp_call) (fs : web_fs)
  | F_overflow (past : Z)
  | F_fuel.

Definition file_get_handler (a : auth_t) (uri : list Z) (if_none_match : option (list Z)) (fs : web_fs)
    : file_result :=
  if fst (check_auth a) =? ESP_FAIL then F_done ESP_FAIL (snd (check_auth a)) fs
  else
    let file_path_size := FILE_PATH_MAX - zlen FILE_HASH_SUFFIX in
    match get_path_from_uri WWW_PARTITION_PATH uri file_path_size with
    | None => F_done ESP_FAIL [R_500 "Filename too long"] fs
    | Some name =>
      let index := (zget name (zlen name - 1) =? 47) && (zlen name + zlen INDEX_HTML <? FILE_PATH_MAX) in
      let file_name := if index then name ++ INDEX_HTML else name in
      let file_path := WWW_PARTITION_PATH ++ file_name in
      if file_path_size <? zlen file_path + 1 then F_overflow (zlen file_path + 1 - file_path_size)
      else
        let calls := (if index then [R_hdr "Access-Control-Allow-Origin" [42]] else []) ++
                     [set_content_type_from_file file_name] in
        match wf_files fs !! file_path with
        | None => F_done ESP_OK (calls ++ [R_status "302 Found"; R_hdr "Location" [47]; R_send []]) fs
        | Some content =>
          let file_hash_path := file_path ++ FILE_HASH_SUFFIX in
          if FILE_PATH_MAX <? zlen file_hash_path + 1 then F_overflow (zlen file_hash_path + 1 - FILE_PATH_MAX)
          else
            let '(err, etag, fs) := file_check_etag_hash file_hash_path if_none_match fs in
            if is_ok err then F_done ESP_OK (calls ++ [R_status "304 Not Modified"; R_send []]) fs
            else
              let calls := calls ++ (if 0 <? zlen etag then [R_hdr "ETag" etag] else []) in
              if negb (can_read file_path) then F_done ESP_FAIL (calls ++ [R_500 "Could not read file"]) fs
              else
                match send_loop (send_fuel content) 0 content 0 with
                | None => F_fuel
                | Some (false, sends, _) => F_done ESP_FAIL (calls ++ sends) fs
                | Some (true, sends, crc) =>
                  F_done ESP_OK (calls ++ sends)
                    (if can_write file_hash_path
                     then mk_web_fs (<[file_hash_path := le_bytes 4 crc]> (wf_files fs)) (wf_leaked fs)
                     else fs)
                end
        end
    end.
End Files.

(** ** Specification *)

(** The path of an address. *)
Fixpoint path_part (uri : list Z) : list Z :=
  match uri with
  | [] => []
  | c :: uri => if (c =? 63) || (c =? 35) then [] else c :: path_part uri
  end.

Definition ends_slash (name : list Z) : bool := zget name (zlen name - 1) =? 47.
(** The file a path names. *)
Definition file_of (name : list Z) : list Z := if ends_slash name then name ++ INDEX_HTML else name.

(** The bytes of the response's body. *)
Definition body_of (calls : list resp_call) : list Z :=
  concat (map (fun c => match c with R_chunk b | R_send b => b | _ => [] end) calls).

Definition MAX_NAME : Z := 38.

Lemma strchr_nonneg c s i : strchr c s = Some i -> 0 <= i.
Proof.
  revert i. induction s as [|x s IH]; intros i; cbn [strchr]; [done|]. case_if; [intros [= <-]; lia|].
  destruct (strchr c s) as [j|]; [|done]. intros [= <-]. specialize (IH j eq_refl). lia.
Qed.

Lemma path_part_spec uri :
  ztake (let p := zlen uri in
         let p := match strchr 63 uri with Some quest => Z.min p quest | None => p end in
         match strchr 35 uri with Some hash => Z.min p hash | None => p end) uri = path_part uri /\
  (let p := zlen uri in
   let p := match strchr 63 uri with Some quest => Z.min p quest | None => p end in
   match strchr 35 uri with Some hash => Z.min p hash | None => p end) = zlen (path_part uri).
Proof.
  induction uri as [|c uri [IH1 IH2]]; [done|]. cbv zeta in *. cbn [strchr path_part]. autorewrite with zlen in *.
  set (q := strchr 63 uri) in *. set (h := strchr 35 uri) in *.
  assert (Hq : forall i, q = Some i -> 0 <= i) by (intros i; apply strchr_nonneg).
  assert (Hh : forall i, h = Some i -> 0 <= i) by (intros i; apply strchr_nonneg).
  pose proof (zlen_nonneg uri). pose proof (zlen_nonneg (path_part uri)).
  destruct (Z.eqb_spec c 63); cbn [orb].
  - assert (E : (match (if c =? 35 then Some 0 else match h with Some i => Some (i + 1) | None => None end) with
                 | Some hash => Z.min (Z.min (1 + zlen uri) 0) hash | None => Z.min (1 + zlen uri) 0 end) = 0).
    { destruct (Z.eqb_spec c 35); [lia|]. destruct h as [i|]; [|lia]. specialize (Hh i eq_refl). lia. }
    by rewrite E, ztake_0.
  - destruct (Z.eqb_spec c 35).
    + assert (E : Z.min match (match q with Some i => Some (i + 1) | None => None end) with
                  | Some quest => Z.min (1 + zlen uri) quest | None => 1 + zlen uri end 0 = 0).
      { destruct q as [i|]; [specialize (Hq i eq_refl)|]; lia. }
      by rewrite E, ztake_0.
    + autorewrite with zlen. rewrite <- IH1, <- IH2 at 1.
      assert (E : match (match h with Some i => Some (i + 1) | None => None end) with
        | Some hash => Z.min (match (match q with Some i => Some (i + 1) | None => None end) with
            | Some quest => Z.min (1 + zlen uri) quest | None => 1 + zlen uri end) hash
        | None => match (match q with Some i => Some (i + 1) | None => None end) with
            | Some quest => Z.min (1 + zlen uri) quest | None => 1 + zlen uri end end = 1 + zlen (path_part uri)).
      { rewrite <- IH2. destruct q, h; lia. }
      rewrite E. split; [|lia]. rewrite ztake_cons by lia.
      replace (1 + zlen (path_part uri) - 1) with (zlen (path_part uri)) by lia. by rewrite <- IH2 at 1.
Qed.

Lemma get_path_spec base uri n :
  get_path_from_uri base uri n =
  if n <? zlen base + zlen (path_part uri) + 1 then None else Some (path_part uri).
Proof. destruct (path_part_spec uri) as [E1 E2]. cbv zeta in *. unfold get_path_from_uri. by rewrite E1, E2. Qed.

(** ** The buffers *)

Section Overflow.
Variables can_read can_write : list Z -> bool.
Variable send_ok : Z -> bool.
Variable crc32_le : Z -> list Z -> Z.
Abbreviation handler := (file_get_handler can_read can_write send_ok crc32_le).

Lemma send_reads_pos rest : 1 <= send_reads rest.
Proof. unfold send_reads, BUFFER_SIZE. pose proof (zlen_nonneg rest). pose proof (Z.div_pos (zlen rest + 4096 - 1) 4096). lia. Qed.

Lemma send_reads_next rest : zlen (ztake BUFFER_SIZE rest) <> 0 ->
  send_reads rest = send_reads (zdrop BUFFER_SIZE rest) + 1.
Proof.
  intros Hd. unfold send_reads, BUFFER_SIZE in *. pose proof (zlen_nonneg rest). rewrite zlen_ztake in Hd by lia.
  destruct (Z.le_gt_cases (zlen rest) 4096).
  - rewrite zdrop_ge by done. change (zlen (@nil Z)) with 0. change ((0 + 4096 - 1) / 4096) with 0.
    replace ((zlen rest + 4096 - 1) / 4096) with 1; [done|]. apply (Z.div_unique _ _ _ (zlen rest - 1)); lia.
  - rewrite zlen_zdrop by lia. replace (zlen rest + 4096 - 1) with (zlen rest - 4096 + 4096 - 1 + 1 * 4096) by lia.
    rewrite Z.div_add by lia. lia.
Qed.

(** The loop with enough turns: how many reads it makes, and its last call. *)
Lemma send_loop_spec fuel : forall k rest crc, send_reads rest <= Z.of_nat fuel ->
  exists sent calls crc', send_loop send_ok crc32_le fuel k rest crc = Some (sent, calls, crc') /\
    if sent then zlen calls = send_reads rest /\ last calls = Some (R_chunk [])
    else zlen calls - 2 <= send_reads rest /\ exists text, last calls = Some (R_500 text).
Proof.
  induction fuel as [|fuel IH]; intros k rest crc Hl; pose proof (send_reads_pos rest) as Hp; [lia|].
  cbn [send_loop]. case_if; [eexists _, _, _; split; [reflexivity|]; split; [change (zlen [_; _; _]) with 3; lia|by eexists]|].
  destruct (Z.eqb_spec (zlen (ztake BUFFER_SIZE rest)) 0) as [E|E].
  - eexists _, _, _. split; [reflexivity|]. rewrite (zlen_0 _ E). split; [|done].
    rewrite zlen_ztake in E by (unfold BUFFER_SIZE; lia). pose proof (zlen_nonneg rest).
    rewrite (zlen_0 rest) by (unfold BUFFER_SIZE in *; lia). done.
  - pose proof (send_reads_next rest E) as N.
    destruct (IH (k + 1) (zdrop BUFFER_SIZE rest) (crc32_le crc (ztake BUFFER_SIZE rest))) as (sent & calls & crc' & -> & P); [lia|].
    eexists _, _, _. split; [reflexivity|].
    assert (Hn : calls <> []) by (intros ->; destruct sent; [destruct P as [_ [=]]|destruct P as [_ [? [=]]]]).
    assert (L : last (R_chunk (ztake BUFFER_SIZE rest) :: calls) = last calls) by (destruct calls; done).
    rewrite zlen_cons, L, N. destruct sent; (split; [lia|apply P]).
Qed.

Lemma send_fuel_enough content : send_reads content <= Z.of_nat (send_fuel content).
Proof. unfold send_fuel. pose proof (send_reads_pos content). lia. Qed.

(** The last call gives the client an end of its response. *)
Definition answered (calls : list resp_call) : Prop :=
  match last calls with Some (R_send _) | Some (R_chunk []) | Some (R_500 _) => True | _ => False end.

Lemma answered_app calls more : answered more -> answered (calls ++ more).
Proof. unfold answered. intros A. rewrite last_app. by destruct (last more). Qed.


(** C39: which requests write past the handler's path buffers.  The check before the
    index page is appended compares with the size of a path without its base, and
    the buffer is shorter by the suffix: an address whose path ends in a slash and has
    29 to 36 bytes makes the copy write up to eight bytes past the 43 of [file_path],
    and no other address does.  The comparisons of the file's extension never start
    before the buffer. *)
Theorem file_path_overflow a uri if_none_match fs past :
  (check_auth a).1 <> ESP_FAIL ->
  let name := path_part uri in
  (handler a uri if_none_match fs = F_overflow past <->
   ends_slash name = true /\ 29 <= zlen name <= 36 /\ past = zlen name - 28) /\
  (name <> [] -> forall ext, ext ∈ [".html"; ".js"; ".css"; ".ico"]%string -> 0 <= ext_offset name ext).
Proof.
  intros Ha name. pose proof (zlen_nonneg name) as Hl. split.
  - unfold file_get_handler. replace ((check_auth a).1 =? ESP_FAIL) with false by lia.
    rewrite get_path_spec. change (zlen WWW_PARTITION_PATH) with 4. fold name.
    change (FILE_PATH_MAX - zlen FILE_HASH_SUFFIX) with 43. change (zlen INDEX_HTML) with 10.
    change FILE_PATH_MAX with 47. fold (ends_slash name).
    destruct (Z.ltb_spec 43 (4 + zlen name + 1)); [split; [done|lia]|].
    assert (Hp : zlen (WWW_PARTITION_PATH ++ (if ends_slash name && (zlen name + 10 <? 47) then name ++ INDEX_HTML else name)) =
      if ends_slash name && (zlen name + 10 <? 47) then zlen name + 14 else zlen name + 4).
    { case_if; autorewrite with zlen; change (zlen WWW_PARTITION_PATH) with 4; change (zlen INDEX_HTML) with 10; lia. }
    cbv zeta. set (file_path := WWW_PARTITION_PATH ++ _) in *. rewrite Hp.
    destruct (Z.ltb_spec 43 ((if ends_slash name && (zlen name + 10 <? 47) then zlen name + 14 else zlen name + 4) + 1)) as [Ho|Ho].
    + destruct (ends_slash name); cbn [andb] in *; [|lia]. destruct (Z.ltb_spec (zlen name + 10) 47); [|lia].
      split; [intros [= <-]; lia|]. intros (_ & _ & ->). f_equal. lia.
    + split; [|intros (E1 & E2 & _); rewrite E1 in Ho; cbn [andb] in Ho; exfalso; revert Ho; case_if; lia].
      destruct (wf_files fs !! file_path) as [content|]; [|done]. rewrite zlen_app, Hp. change (zlen FILE_HASH_SUFFIX) with 4.
      rewrite (proj2 (Z.ltb_ge _ _)) by lia.
      destruct (file_check_etag_hash _ _ _ _) as [[err etag] fs']. do 2 (case_if; [done|]).
      by destruct (send_loop _ _ _ _ _ _) as [[[[|] ?] ?]|].
  - intros Hn ext Hin. unfold ext_offset. assert (zlen name <> 0) by (by intros E%zlen_0).
    change (zlen WWW_PARTITION_PATH) with 4.
    assert (Hx : zlen (of_str ext) <= 5); [|lia]. apply list_elem_of_In in Hin. cbn [In] in Hin.
    destruct Hin as [<- | [<- | [<- | [<- | []]]]]; vm_compute; discriminate.
Qed.
End Overflow.

(** ** What is sent *)

Lemma body_app a b : body_of (a ++ b) = body_of a ++ body_of b.
Proof. unfold body_of. by rewrite map_app, concat_app. Qed.

Section Served.
Variables can_read can_write : list Z -> bool.
Variable send_ok : Z -> bool.
Variable crc32_le : Z -> list Z -> Z.
Abbreviation handler := (file_get_handler can_read can_write send_ok crc32_le).
Hypothesis crc_app : forall c a b, crc32_le (crc32_le c a) b = crc32_le c (a ++ b).
Hypothesis crc_range : forall c a, 0 <= crc32_le c a < 2 ^ 32.

Lemma send_loop_all fuel : (forall k, send_ok k = true) -> forall k rest crc,
  send_reads rest <= Z.of_nat fuel ->
  exists calls, send_loop send_ok crc32_le fuel k rest crc = Some (true, calls, crc32_le crc rest) /\
                body_of calls = rest.
Proof.
  intros Hs. induction fuel as [|fuel IH]; intros k rest crc Hl; pose proof (send_reads_pos rest); [lia|].
  cbn [send_loop]. rewrite Hs. cbn [negb]. destruct (Z.eqb_spec (zlen (ztake BUFFER_SIZE rest)) 0) as [E|E].
  - rewrite zlen_ztake in E by (unfold BUFFER_SIZE; lia). pose proof (zlen_nonneg rest).
    rewrite (zlen_0 rest) by (unfold BUFFER_SIZE in *; lia). by eexists.
  - pose proof (send_reads_next rest E) as N.
    destruct (IH (k + 1) (zdrop BUFFER_SIZE rest) (crc32_le crc (ztake BUFFER_SIZE rest)) ltac:(lia)) as (calls & -> & Hb).
    eexists. rewrite crc_app, ztake_zdrop. split; [reflexivity|].
    change (body_of (R_chunk (ztake BUFFER_SIZE rest) :: calls)) with (ztake BUFFER_SIZE rest ++ body_of calls).
    by rewrite Hb, ztake_zdrop.
Qed.

(** The tag of a content. *)
Definition etag_of (content : list Z) : list Z := [34] ++ upper_hex8 (crc32_le 0 content) ++ [34].

(** The handler on a file that exists, up to the check of its tag. *)
Definition serve (prefix : list resp_call) (path content : list Z) (if_none_match : option (list Z)) (fs : web_fs)
    : file_result :=
  let '(err, etag, fs) := file_check_etag_hash can_read (path ++ FILE_HASH_SUFFIX) if_none_match fs in
  if is_ok err then F_done ESP_OK (prefix ++ [R_status "304 Not Modified"; R_send []]) fs
  else
    let calls := prefix ++ (if 0 <? zlen etag then [R_hdr "ETag" etag] else []) in
    if negb (can_read path) then F_done ESP_FAIL (calls ++ [R_500 "Could not read file"]) fs
    else
      match send_loop send_ok crc32_le (send_fuel content) 0 content 0 with
      | None => F_fuel
      | Some (false, sends, _) => F_done ESP_FAIL (calls ++ sends) fs
      | Some (true, sends, crc) =>
        F_done ESP_OK (calls ++ sends)
          (if can_write (path ++ FILE_HASH_SUFFIX)
           then mk_web_fs (<[path ++ FILE_HASH_SUFFIX := le_bytes 4 crc]> (wf_files fs)) (wf_leaked fs)
           else fs)
      end.

Lemma handler_serves a uri inm fs content :
  (check_auth a).1 <> ESP_FAIL -> let path := WWW_PARTITION_PATH ++ file_of (path_part uri) in
  zlen (file_of (path_part uri)) <= MAX_NAME -> wf_files fs !! path = Some content ->
  exists prefix, body_of prefix = [] /\ (forall h, ~ In (R_hdr "ETag" h) prefix) /\
    handler a uri inm fs = serve prefix path content inm fs.
Proof.
  intros Ha path Hl Hc. unfold file_get_handler. replace ((check_auth a).1 =? ESP_FAIL) with false by lia.
  rewrite get_path_spec. change (zlen WWW_PARTITION_PATH) with 4.
  change (FILE_PATH_MAX - zlen FILE_HASH_SUFFIX) with 43. change (zlen INDEX_HTML) with 10. change FILE_PATH_MAX with 47.
  set (name := path_part uri) in *. unfold MAX_NAME, file_of in Hl. pose proof (zlen_nonneg name).
  assert (Hz : zlen name <= 38 /\ (ends_slash name = true -> zlen name <= 28)).
  { destruct (ends_slash name); [|lia]. rewrite zlen_app in Hl. change (zlen INDEX_HTML) with 10 in Hl. lia. }
  rewrite (proj2 (Z.ltb_ge _ _)) by lia. fold (ends_slash name).
  assert (Ei : ends_slash name && (zlen name + 10 <? 47) = ends_slash name).
  { destruct (ends_slash name); [|done]. cbn [andb]. apply Z.ltb_lt. lia. }
  cbv zeta. rewrite Ei. change (if ends_slash name then name ++ INDEX_HTML else name) with (file_of name). fold path.
  assert (Hp : zlen path <= 42).
  { unfold path, file_of. rewrite zlen_app. change (zlen WWW_PARTITION_PATH) with 4. lia. }
  rewrite (proj2 (Z.ltb_ge 43 _)) by lia. rewrite Hc.
  rewrite (proj2 (Z.ltb_ge 47 _)) by (rewrite zlen_app; change (zlen FILE_HASH_SUFFIX) with 4; lia).
  eexists. split; [|split]; [| |reflexivity].
  - rewrite body_app. unfold set_content_type_from_file. by destruct (ends_slash name); repeat case_if.
  - intros h Hin. apply in_app_iff in Hin as [Hin|Hin].
    + destruct (ends_slash name); [|done]. by destruct Hin as [Hin|Hin].
    + unfold set_content_type_from_file in Hin. destruct Hin as [Hin|Hin]; [|done]. revert Hin. by repeat case_if.
Qed.

Lemma suffix_differs path : path <> path ++ FILE_HASH_SUFFIX.
Proof. intros E. apply (f_equal zlen) in E. rewrite zlen_app in E. change (zlen FILE_HASH_SUFFIX) with 4 in E. lia. Qed.

(** The check on a stored checksum. *)
Lemma check_stored hash inm fs crc : 0 <= crc < 2 ^ 32 -> can_read hash = true ->
  wf_files fs !! hash = Some (le_bytes 4 crc) ->
  let etag := [34] ++ upper_hex8 crc ++ [34] in
  file_check_etag_hash can_read hash inm fs =
  match default [] inm with
  | [] => (ESP_ERR_INVALID_ARG, etag, fs)
  | h => (if bytes_eqb etag h then ESP_OK else ESP_ERR_INVALID_CRC, etag, mk_web_fs (wf_files fs) (wf_leaked fs + 1))
  end.
Proof.
  intros Hc Hr Hf. unfold file_check_etag_hash. rewrite Hf, Hr. cbn [negb].
  change (zlen (le_bytes 4 crc) <? 4) with false. cbn iota. rewrite ztake_ge by done.
  rewrite le_value_bytes by (change (256 ^ Z.of_nat 4) with (2 ^ 32); lia).
  destruct (default [] inm) as [|c h]; [done|]. autorewrite with zlen. pose proof (zlen_nonneg h).
  by rewrite (proj2 (Z.ltb_lt _ _)) by lia.
Qed.

Lemma serve_all prefix path content inm fs err etag fs' :
  (forall k, send_ok k = true) -> can_read path = true -> can_write (path ++ FILE_HASH_SUFFIX) = true ->
  file_check_etag_hash can_read (path ++ FILE_HASH_SUFFIX) inm fs = (err, etag, fs') -> err <> ESP_OK ->
  exists calls, serve prefix path content inm fs =
    F_done ESP_OK (prefix ++ (if 0 <? zlen etag then [R_hdr "ETag" etag] else []) ++ calls)
      (mk_web_fs (<[path ++ FILE_HASH_SUFFIX := le_bytes 4 (crc32_le 0 content)]> (wf_files fs')) (wf_leaked fs')) /\
    body_of calls = content.
Proof.
  intros Hs Hr Hw E He. unfold serve. rewrite E, Hr, Hw.
  destruct (is_ok err) eqn:Eo; [unfold is_ok in Eo; lia|]. cbn [negb].
  destruct (send_loop_all (send_fuel content) Hs 0 content 0 (send_fuel_enough content)) as (calls & -> & Hb).
  exists calls. by rewrite app_assoc.
Qed.

(** A file once sent is recognised by its tag.  A request for a file that has no
    stored checksum yet is answered with the whole file, in order, and stores the checksum
    of what was sent; every later request that presents the tag of that content is
    answered 304 with no body, and every other one is answered with the whole file and its tag;
    no file but the checksum's changes.  Each request with an [If-None-Match] header
    leaves one more buffer allocated. *)
Theorem etag_revalidates a uri inm fs content :
  (check_auth a).1 <> ESP_FAIL -> let path := WWW_PARTITION_PATH ++ file_of (path_part uri) in
  let hash := path ++ FILE_HASH_SUFFIX in
  zlen (file_of (path_part uri)) <= MAX_NAME ->
  wf_files fs !! path = Some content -> wf_files fs !! hash = None ->
  (forall f, can_read f = true) -> can_write hash = true -> (forall k, send_ok k = true) ->
  let files := <[hash := le_bytes 4 (crc32_le 0 content)]> (wf_files fs) in
  (exists calls, handler a uri inm fs = F_done ESP_OK calls (mk_web_fs files (wf_leaked fs)) /\
                 body_of calls = content) /\
  (forall leaked,
     exists calls, handler a uri (Some (etag_of content)) (mk_web_fs files leaked) =
                   F_done ESP_OK calls (mk_web_fs files (leaked + 1)) /\
                   body_of calls = [] /\ In (R_status "304 Not Modified") calls) /\
  (forall leaked inm, inm <> Some (etag_of content) ->
     exists calls, handler a uri inm (mk_web_fs files leaked) =
                   F_done ESP_OK calls (mk_web_fs files (leaked + if decide (default [] inm = []) then 0 else 1)) /\
                   body_of calls = content /\ In (R_hdr "ETag" (etag_of content)) calls).
Proof.
  intros Ha path hash Hl Hc Hn Hr Hw Hs files.
  assert (Hd : hash <> path) by (intros E; symmetry in E; by apply suffix_differs in E).
  assert (Hp : files !! path = Some content) by (unfold files; by rewrite lookup_insert_ne).
  assert (Hh : files !! hash = Some (le_bytes 4 (crc32_le 0 content))) by apply lookup_insert_eq.
  assert (Hf : <[hash := le_bytes 4 (crc32_le 0 content)]> files = files) by apply insert_insert_eq.
  split_and!.
  - destruct (handler_serves a uri inm fs content Ha Hl Hc) as (pre & P1 & _ & ->). fold path.
    destruct (serve_all pre path content inm fs ESP_ERR_NOT_FOUND [] fs Hs (Hr _) Hw) as (calls & -> & Hb); [|done|].
    { unfold file_check_etag_hash. fold hash. by rewrite Hn. }
    eexists. split; [reflexivity|]. by rewrite !body_app, P1, Hb.
  - intros leaked. destruct (handler_serves a uri (Some (etag_of content)) (mk_web_fs files leaked) content Ha Hl Hp)
      as (pre & P1 & _ & ->). unfold serve. fold path hash.
    rewrite (check_stored hash _ (mk_web_fs files leaked) _ (crc_range 0 content) (Hr hash) Hh). unfold etag_of. cbn [from_option id app].
    rewrite bytes_eqb_refl. eexists. split; [reflexivity|]. split; [by rewrite body_app, P1|].
    apply in_app_iff. right. by left.
  - intros leaked inm' Hi. destruct (handler_serves a uri inm' (mk_web_fs files leaked) content Ha Hl Hp)
      as (pre & P1 & _ & ->). fold path.
    pose proof (check_stored hash inm' (mk_web_fs files leaked) _ (crc_range 0 content) (Hr hash) Hh) as Ec.
    assert (Ed : exists err, err <> ESP_OK /\ file_check_etag_hash can_read hash inm' (mk_web_fs files leaked) =
      (err, etag_of content, mk_web_fs files (leaked + if decide (default [] inm' = []) then 0 else 1))).
    { rewrite Ec. destruct (default [] inm') as [|c h] eqn:Ei.
      - exists ESP_ERR_INVALID_ARG. rewrite decide_True, Z.add_0_r by done. done.
      - exists ESP_ERR_INVALID_CRC. rewrite decide_False by done. fold (etag_of content).
        destruct (bytes_eqb (etag_of content) (c :: h)) eqn:Eb; [|done].
        apply bytes_eqb_eq in Eb. destruct inm'; [|done]. cbn in Ei. subst. congruence. }
    destruct Ed as (err & He & Ed).
    destruct (serve_all pre path content inm' _ err _ _ Hs (Hr _) Hw Ed He) as (calls & -> & Hb).
    cbn [wf_files wf_leaked]. fold hash. rewrite Hf. eexists. split; [reflexivity|].
    rewrite !body_app, P1, Hb. split; [done|]. apply in_app_iff. right. by left.
Qed.
End Served.

(** ** Witnesses *)

Definition sum32 (c : Z) (l : list Z) : Z := (c + foldr Z.add 0 l) mod 2 ^ 32.
Definition page : list Z := of_str "<html>".
Definition www1 : web_fs := mk_web_fs {[ of_str "/www/index.html" := page ]} 0.
Definition always {A} (_ : A) : bool := true.

Lemma sum32_app c a b : sum32 (sum32 c a) b = sum32 c (a ++ b).
Proof.
  unfold sum32. rewrite Zplus_mod_idemp_l. f_equal. rewrite <- Z.add_assoc. f_equal.
  induction a as [|x a IH]; cbn [app foldr]; lia.
Qed.

Lemma file_path_overflow_witness :
  file_get_handler always always always sum32 open_auth (of_str "/123456789012345678901234567890/?x") None www1 =
    F_overflow 4.
Proof.
  apply (file_path_overflow always always always sum32 open_auth (of_str "/123456789012345678901234567890/?x") None www1 4).
  - vm_compute. discriminate.
  - vm_compute. split_and!; [reflexivity|discriminate|discriminate|reflexivity].
Defined.


Lemma etag_revalidates_witness :
  exists calls, file_get_handler always always always sum32 open_auth (of_str "/") None www1 =
    F_done ESP_OK calls (mk_web_fs (<[of_str "/www/index.html.crc" := le_bytes 4 (sum32 0 page)]> (wf_files www1)) 0) /\
    body_of calls = page.
Proof.
  apply (etag_revalidates always always always sum32 sum32_app ltac:(intros c l; apply Z.mod_pos_bound; reflexivity)
           open_auth (of_str "/") None www1 page); try done.
Defined.
