(* ===== verification/WebStatus.v ===== *)
(** * The web interface's status pages and start (src/main/web_server.c)

    The documents of /status, /rtk/status, /wifi/scan, /ntrip/tx_stats and /heap_info,
    the two plain downloads, the OTA progress shown, and the routes.  What the other
    components report is taken from their models; sizes of the heap and of sockets are
    arguments. *)

From S2P Require Import Prelude NtripTx Ingest NetUtil Address Supervisor NtripServer Nvs OtaState Config Doubles StreamStats.
From S2P Require Import Gnss Telemetry Json Provisioning WebConfig StatusLed Wifi.

(** ** OTA progress *)

Record web_ota := mk_web_ota {
  wo_updating : bool;
  wo_completed : bool;
  wo_progress : Z
}.
Inductive ota_event := OTA_EVENT_UPDATE_STARTED | OTA_EVENT_UPDATE_PROGRESS (progress : Z) | OTA_EVENT_UPDATE_COMPLETED
  | OTA_EVENT_OTHER.
Definition handle_ota_events (e : ota_event) (o : web_ota) : web_ota :=
  match e with
  | OTA_EVENT_UPDATE_STARTED => mk_web_ota true false 0
  | OTA_EVENT_UPDATE_PROGRESS progress => mk_web_ota true false progress
  | OTA_EVENT_UPDATE_COMPLETED => mk_web_ota false true 0
  | OTA_EVENT_OTHER => o
  end.

(** ** /status *)

Definition stream_json (v : stream_stats_values_t) : string * js :=
  (str_key (vl_name v),
   JObj [("total"%string, JObj [("in"%string, JNum (vl_total_in v)); ("out"%string, JNum (vl_total_out v))]);
         ("rate"%string, JObj [("in"%string, JNum (vl_rate_in v)); ("out"%string, JNum (vl_rate_out v))])]).

(** A descriptor that is a socket: its type and the texts of its addresses. *)
Record socket_info := mk_socket { si_type : Z; si_local : option (list Z); si_peer : option (list Z) }.
Definition socktype_name (t : Z) : string :=
  if t =? 1 then "TCP" else if t =? 2 then "UDP" else if t =? 3 then "RAW" else "???".
Definition opt_str (key : string) (v : option (list Z)) : list (string * js) :=
  match v with Some s => [(key, JStr s)] | None => [] end.
Definition socket_json (i : socket_info) : js :=
  JObj (("type"%string, JStr (of_str (socktype_name (si_type i)))) :: opt_str "local" (si_local i) ++ opt_str "peer" (si_peer i)).

(** [IPSTR] of an address in network order. *)
Definition ip4_text (ip : Z) : list Z :=
  match le_bytes 4 ip with
  | [a; b; c; d] => decimal a ++ [46] ++ decimal b ++ [46] ++ decimal c ++ [46] ++ decimal d
  | _ => []
  end.

Definition ap_json (ap : option wifi_ap_status_t) (ip6 : list Z) : js :=
  JObj (("active"%string, JBool (match ap with Some _ => true | None => false end)) ::
    match ap with
    | None => []
    | Some a => [("ssid"%string, JStr (as_ssid a)); ("authmode"%string, JStr (of_str (wifi_auth_mode_name (as_authmode a))));
                 ("devices"%string, JNum (as_devices a)); ("ip4"%string, JStr (ip4_text (as_ip4 a))); ("ip6"%string, JStr ip6)]
    end).
Definition sta_json (sta : wifi_sta_status_t) (ip6 : list Z) : js :=
  JObj (("active"%string, JBool (ss_active sta)) ::
    if ss_active sta then
      ("connected"%string, JBool (ss_connected sta)) ::
      match ss_rest sta with
      | None => []
      | Some (rssi, authmode, ip4) =>
        [("ssid"%string, JStr (ss_ssid sta)); ("authmode"%string, JStr (of_str (wifi_auth_mode_name authmode)));
         ("rssi"%string, JNum rssi); ("ip4"%string, JStr (ip4_text ip4)); ("ip6"%string, JStr ip6)]
      end
    else []).

(** Which interface the request came by: [local] is the text of the request's local
    address, when [getsockname] gives it. *)
Definition request_via (ap : option wifi_ap_status_t) (local : option (list Z)) : string :=
  match ap, local with
  | Some a, Some local =>
    match str_find (fun c => c) local (ip4_text (as_ip4 a)) with Some _ => "ap" | None => "sta" end
  | _, _ => "sta"
  end.

Record status_in := mk_status_in {
  in_uptime_us : Z;
  in_heap_total : Z;
  in_heap_free : Z;
  in_streams : list stream_stats;
  in_sockets : list socket_info;
  in_ap : option wifi_ap_status_t;
  in_ap_ip6 : list Z;
  in_sta : wifi_sta_status_t;
  in_sta_ip6 : list Z;
  in_local : option (list Z)
}.

Definition status_document (o : web_ota) (i : status_in) : js :=
  JObj [("firmwareupdate"%string, JBool (wo_updating o));
        ("firmwareupdateprogress"%string, JNum (wo_progress o));
        ("firmwareupdatecompleted"%string, JBool (wo_completed o));
        ("uptime"%string, JNum (in_uptime_us i / 1000000));
        ("heap"%string, JObj [("total"%string, JNum (in_heap_total i)); ("free"%string, JNum (in_heap_free i))]);
        ("streams"%string, JObj (map (fun s => stream_json (stream_stats_values s)) (in_streams i)));
        ("sockets"%string, JArr (map socket_json (in_sockets i)));
        ("wifi"%string, JObj [("ap"%string, ap_json (in_ap i) (in_ap_ip6 i)); ("sta"%string, sta_json (in_sta i) (in_sta_ip6 i))]);
        ("via"%string, JStr (of_str (request_via (in_ap i) (in_local i))))].

Section Pages.
Variable print : js -> Z -> option (list Z).
Variables type_err send_err : Z.

Definition status_get_handler (a : auth_t) (o : web_ota) (i : status_in) : Z * list resp_call * unit :=
  guarded a tt (json_response print type_err send_err (status_document o i), tt).

(** ** /wifi/scan, /heap_info, /log *)

Definition scan_json (r : list Z * Z * Z) : js :=
  let '(ssid, rssi, authmode) := r in
  JObj [("ssid"%string, JStr ssid); ("rssi"%string, JNum rssi); ("authmode"%string, JStr (of_str (wifi_auth_mode_name authmode)))].
(** [records] is what [wifi_scan] gave. *)
Definition wifi_scan_get_handler (a : auth_t) (records : option (list (list Z * Z * Z))) : Z * list resp_call * unit :=
  guarded a tt
    match records with
    | None => (ESP_OK, [], tt)
    | Some l => (json_response print type_err send_err (JArr (map scan_json l)), tt)
    end.

Record heap_info := mk_heap {
  hi_total_free : Z; hi_total_allocated : Z; hi_largest_free : Z; hi_minimum_free : Z;
  hi_allocated_blocks : Z; hi_free_blocks : Z; hi_total_blocks : Z
}.
Definition heap_info_get_handler (a : auth_t) (i : heap_info) : Z * list resp_call * unit :=
  guarded a tt
    (json_response print type_err send_err
       (JObj [("total_free_bytes"%string, JNum (hi_total_free i)); ("total_allocated_bytes"%string, JNum (hi_total_allocated i));
              ("largest_free_block"%string, JNum (hi_largest_free i)); ("minimum_free_bytes"%string, JNum (hi_minimum_free i));
              ("allocated_blocks"%string, JNum (hi_allocated_blocks i)); ("free_blocks"%string, JNum (hi_free_blocks i));
              ("total_blocks"%string, JNum (hi_total_blocks i))]), tt).

(** ** /rtk/status: no guard *)

(** [provisioning_fill_status]: [None] for the state before [provisioning_init]. *)
Definition provisioning_fill_status (h : supervisor_health_t) (st : option status_t) : list (string * js) :=
  match st with
  | None => [("state"%string, JStr (of_str "provisioning")); ("enrolled"%string, JBool false)]
  | Some st =>
    [("state"%string, JStr (match st_state st with [] => of_str "provisioning" | s => s end));
     ("progress_pct"%string, JNum (st_progress_pct st)); ("matures_in_s"%string, JNum (st_matures_in_s st))] ++
    (match st_station_id st with [] => [] | s => [("station_id"%string, JStr s)] end) ++
    [("enrolled"%string, JBool (st_enrolled st));
     ("quality"%string, JObj [("sats"%string, JNum (st_q_sats st)); ("fix"%string, JNum (st_q_fix st))])] ++
    (match st_pos st with
     | None => []
     | Some p => [("position"%string, JObj [("valid"%string, JBool true); ("lat"%string, JReal (fx_lat p));
                                             ("lon"%string, JReal (fx_lon p)); ("h"%string, JReal (fx_h p))])]
     end) ++
    [("data_ok"%string, JBool (h_caster_ok h)); ("uptime_s"%string, JNum (h_uptime_s h));
     ("self_heal"%string, JObj [("gnss_ok"%string, JBool (h_gnss_ok h)); ("caster_ok"%string, JBool (h_caster_ok h));
        ("link_ok"%string, JBool (h_link_ok h)); ("rec_gnss"%string, JNum (h_recoveries_gnss h));
        ("rec_caster"%string, JNum (h_recoveries_caster h)); ("rec_wifi"%string, JNum (h_recoveries_wifi h));
        ("reboots"%string, JNum (h_reboots_supervised h))])]
  end.
Definition rtk_status_get_handler (h : supervisor_health_t) (st : option status_t) : Z * list resp_call :=
  json_response print type_err send_err (JObj (provisioning_fill_status h st)).

(** ** /ntrip/tx_stats *)

Definition ingest_json (ing : ntrip_ingest_stats_t) (fresh : ntrip_msg_freshness_t) (post_drops read_errors : Z) : js :=
  JObj [("frames_ok"%string, JNum (is_frames_ok ing)); ("bytes_ok"%string, JNum (is_bytes_ok ing));
        ("bytes_discarded"%string, JNum (is_bytes_discarded ing)); ("crc_errors"%string, JNum (is_crc_errors ing));
        ("ring_pushed_frames"%string, JNum (is_ring_pushed_frames ing)); ("ring_cum_bytes"%string, JNum (is_ring_cum_bytes ing));
        ("uart_event_post_drops"%string, JNum post_drops); ("uart_read_errors"%string, JNum read_errors);
        ("required_age_ms"%string, JObj (map (fun p => (str_key (decimal (fst p)), if snd p =? 2 ^ 32 - 1 then JNull else JNum (snd p)))
                                     (combine (f_type fresh) (f_age_ms fresh))));
        ("required_all_fresh"%string, JBool (f_all_fresh fresh))].
Definition instance_json (s : ntrip_tx_stats_t) : js :=
  let tx := st_tx s in
  JObj [("index"%string, JNum (st_index s)); ("connected"%string, JBool (st_connected s));
        ("accepted_to_lwip"%string, JNum (tx_accepted_to_lwip tx)); ("sent_frames"%string, JNum (tx_sent_frames tx));
        ("copied_bytes"%string, JNum (tx_copied_bytes tx)); ("dropped_bytes"%string, JNum (tx_dropped_bytes tx));
        ("skipped_bytes"%string, JNum (tx_skipped_bytes tx)); ("skipped_frames"%string, JNum (tx_skipped_frames tx));
        ("dropped_frames_stale"%string, JNum (tx_dropped_frames_stale tx));
        ("dropped_stale_bytes"%string, JNum (tx_dropped_stale_bytes tx)); ("eagain_count"%string, JNum (tx_eagain_count tx));
        ("reconnects"%string, JNum (tx_reconnects tx)); ("pending"%string, JNum (st_pending s));
        ("max_queue_age_ms"%string, JNum (tx_max_queue_age_ms tx)); ("last_sock_errno"%string, JNum (tx_last_sock_errno tx))].
Definition ntrip_tx_stats_get_handler (a : auth_t) (ing : ntrip_ingest_stats_t) (fresh : ntrip_msg_freshness_t)
    (post_drops read_errors : Z) (stats : list ntrip_tx_stats_t) : Z * list resp_call * unit :=
  guarded a tt
    (json_response print type_err send_err
       (JObj [("ingest"%string, ingest_json ing fresh post_drops read_errors); ("instances"%string, JArr (map instance_json stats))]), tt).
End Pages.

(** [log_get_handler]: [received] is what [log_receive] gave. *)
Definition log_get_handler (a : auth_t) (received : option (list Z)) : Z * list resp_call * unit :=
  guarded a tt (ESP_OK, [R_type "text/plain"; R_send (default [] received)], tt).

(** ** /core_dump *)

(** The loop over the offsets of a dump read with [read]. *)
Fixpoint dump_chunks (fuel : nat) (offset size : Z) (read : Z -> Z -> list Z) : option (list resp_call) :=
  match fuel with
  | O => None
  | S fuel =>
    if offset <? size then
      let len := size - offset in
      let len := if BUFFER_SIZE <? len then BUFFER_SIZE else len in
      match dump_chunks fuel (offset + BUFFER_SIZE) size read with
      | Some calls => Some (R_chunk (read offset len) :: calls)
      | None => None
      end
    else Some [R_chunk []]
  end.
Definition core_dump_name (version elf_sha256 date : list Z) : list Z :=
  ztake 127 (of_str "attachment; filename=" ++ [34] ++ of_str "esp32_xbee_" ++ version ++ of_str "_core_dump_" ++ elf_sha256 ++
             date ++ of_str ".bin" ++ [34]).
Definition core_dump_get_handler (a : auth_t) (version elf_sha256 date dump : list Z) : option (Z * list resp_call * unit) :=
  if fst (check_auth a) =? ESP_FAIL then Some (ESP_FAIL, snd (check_auth a), tt)
  else if zlen dump =? 0 then Some (ESP_OK, [R_send (of_str "No core dump available")], tt)
  else
    match dump_chunks (S (S (Z.to_nat (zlen dump / BUFFER_SIZE)))) 0 (zlen dump) (fun off len => ztake len (zdrop off dump)) with
    | Some calls =>
      Some (ESP_OK, [R_type "application/octet-stream"; R_hdr "Content-Disposition" (core_dump_name version elf_sha256 date)] ++ calls, tt)
    | None => None
    end.

(** ** Start of the server *)

Inductive web_handler := H_config_get | H_config_post | H_status | H_log | H_core_dump | H_heap_info | H_wifi_scan
  | H_rtk_status | H_tx_stats | H_file.

(** What [web_server_start] registers, in its order. *)
Definition web_routes : list (string * string * web_handler) :=
  [("/config", "GET", H_config_get); ("/config", "POST", H_config_post); ("/status", "GET", H_status);
   ("/log", "GET", H_log); ("/core_dump", "GET", H_core_dump); ("/heap_info", "GET", H_heap_info);
   ("/wifi/scan", "GET", H_wifi_scan); ("/rtk/status", "GET", H_rtk_status); ("/ntrip/tx_stats", "GET", H_tx_stats);
   ("/*", "GET", H_file)]%string.
Definition maxWebHandlerCount : Z := 16.

Record web_server := mk_web {
  wb_method : Z;
  wb_basic : list Z;
  wb_routes : list (string * string * web_handler);
  wb_count : Z;
  wb_buffer : bool
}.

Section Start.
Context `{Nvs St}.

(** [web_server_start]: [basic_header] is [http_auth_basic_header], [started] and
    [allocated] are the answers of [httpd_start] and [malloc]; the result says whether
    it gives the server. *)
Definition web_server_start (base64 : list Z -> list Z) (started allocated : bool) (n : St) (w : web_server)
    : web_server * bool :=
  let method := default 0 (snd (config_get_primitive (conf "adm_auth") n)) in
  let text key := default [] (snd (config_get_str_blob_alloc true (conf key) n)) in
  let basic := if method =? AUTH_METHOD_BASIC then http_auth_basic_header base64 (text "adm_user"%string) (text "adm_pass"%string) else wb_basic w in
  if started then (mk_web method basic (wb_routes w ++ web_routes) (wb_count w + zlen web_routes) allocated, allocated)
  else (mk_web method basic (wb_routes w) (wb_count w) (wb_buffer w), false).
End Start.

(** [www_spiffs_init]: [registered] and [info] are the answers of mounting the file system
    and of asking for its size. *)
Definition www_spiffs_init (registered info : Z) : Z :=
  if negb (is_ok registered) then ESP_FAIL else if negb (is_ok info) then ESP_FAIL else ESP_OK.

(** [web_server_init] starts the server whether or not there are files to serve. *)
Definition web_server_init `{Nvs St} (registered info : Z) (base64 : list Z -> list Z) (started allocated : bool)
    (n : St) (w : web_server) : Z * web_server :=
  (www_spiffs_init registered info, fst (web_server_start base64 started allocated n w)).

(** [check_count_webhandler]: whether it complains. *)
Definition check_count_webhandler (w : web_server) : bool := maxWebHandlerCount <? wb_count w.

(** ** Properties *)

Lemma str_find_complete norm pre needle post : str_find norm (pre ++ needle ++ post) needle <> None.
Proof.
  induction pre as [|c pre IH]; cbn [app].
  - destruct (needle ++ post) eqn:E; cbn [str_find]; rewrite <- E, ztake_app_exact, bytes_eqb_refl; done.
  - cbn [str_find]. destruct (bytes_eqb _ _); [done|]. destruct (str_find norm (pre ++ needle ++ post) needle) as [[]|]; done.
Qed.

(** Which side a request is said to come from.  It is "ap" exactly when the access
    point is active and the text of its address occurs in the text of the request's
    local address; so every request to the gateway is recognised, and so is one to any
    local address whose text extends it, 192.168.4.12 for the gateway 192.168.4.1. *)
Theorem via_by_text ap local :
  (request_via ap local = "ap"%string <->
   exists a pre post, ap = Some a /\ local = Some (pre ++ ip4_text (as_ip4 a) ++ post)) /\
  (forall a, as_ip4 a = ip4 192 168 4 1 -> request_via (Some a) (Some (of_str "192.168.4.12:80")) = "ap"%string).
Proof.
  split.
  - unfold request_via. destruct ap as [a|]; [|split; [done|intros (? & ? & ? & ? & _); done]].
    destruct local as [local|]; [|split; [done|intros (? & ? & ? & _ & ?); done]].
    split.
    + destruct (str_find _ local _) as [[pre post]|] eqn:E; [|done]. intros _.
      apply str_find_spec in E as (m & -> & Em). rewrite !map_id in Em. subst m. by exists a, pre, post.
    + intros (a' & pre & post & [= <-] & [= ->]).
      destruct (str_find _ _ _) as [[]|] eqn:E; [done|]. by apply str_find_complete in E.
  - intros a Ha. unfold request_via. rewrite Ha. vm_compute. reflexivity.
Qed.

Lemma via_by_text_witness :
  request_via (Some (mk_ap_status true [] 0 1 (ip4 192 168 4 1))) (Some (of_str "192.168.4.12:80")) = "ap"%string.
Proof. apply (proj2 (via_by_text None None)). reflexivity. Defined.

(** The dump is sent whole, in order, and the loop over it ends. *)
Lemma dump_chunks_whole dump fuel : forall off, 0 <= off -> zlen dump - off <= BUFFER_SIZE * (Z.of_nat fuel - 1) ->
  (1 <= fuel)%nat ->
  exists calls, dump_chunks fuel off (zlen dump) (fun off len => ztake len (zdrop off dump)) = Some calls /\
    concat (map (fun c => match c with R_chunk b => b | _ => [] end) calls) = zdrop off dump.
Proof.
  induction fuel as [|fuel IH]; intros off Ho Hf H1; [lia|]. cbn [dump_chunks]. unfold BUFFER_SIZE in *.
  destruct (Z.ltb_spec off (zlen dump)); [|by eexists; split; [reflexivity|]; rewrite zdrop_ge by lia].
  destruct (IH (off + 4096)) as (calls & -> & Hc); [lia|lia|lia|]. eexists. split; [reflexivity|].
  cbn [map concat]. rewrite Hc. destruct (Z.ltb_spec 4096 (zlen dump - off)).
  - rewrite <- (zdrop_zdrop 4096 off) by lia. apply ztake_zdrop.
  - rewrite ztake_ge by (rewrite zlen_zdrop; lia). rewrite (zdrop_ge (off + 4096)) by lia. by rewrite app_nil_r.
Qed.

Lemma core_dump_whole a version sha date dump : (check_auth a).1 <> ESP_FAIL -> 0 < zlen dump ->
  exists calls, core_dump_get_handler a version sha date dump = Some (ESP_OK, calls, tt) /\
    concat (map (fun c => match c with R_chunk b => b | _ => [] end) calls) = dump.
Proof.
  intros Ha Hd. unfold core_dump_get_handler. replace ((check_auth a).1 =? ESP_FAIL) with false by lia.
  rewrite (proj2 (Z.eqb_neq _ _)) by lia.
  destruct (dump_chunks_whole dump (S (S (Z.to_nat (zlen dump / BUFFER_SIZE)))) 0) as (calls & -> & Hc); [lia| |lia|].
  - unfold BUFFER_SIZE. pose proof (Z.div_mod (zlen dump) 4096 ltac:(lia)). pose proof (Z.mod_pos_bound (zlen dump) 4096).
    pose proof (Z.div_pos (zlen dump) 4096). lia.
  - eexists. split; [reflexivity|]. cbn [app map concat]. by rewrite Hc, zdrop_0.
Qed.

(** The progress shown is never both running and done. *)
Lemma ota_progress_consistent es : let o := fold_left (fun o e => handle_ota_events e o) es (mk_web_ota false false 0) in
  ~ (wo_updating o = true /\ wo_completed o = true) /\ (wo_updating o = false -> wo_progress o = 0).
Proof.
  cbv zeta. induction es as [|e es IH] using rev_ind; [cbn; naive_solver|]. rewrite fold_left_app. cbn [fold_left].
  destruct e; cbn; naive_solver.
Qed.
