(* ===== verification/Log.v ===== *)
(** * The log buffer (src/main/log.c)

    Each log line is copied without its colours into a ring the web interface reads.
    The ring buffer of the system is the list of what was sent to it; a send that
    does not fit is refused as a whole. *)

From S2P Require Import Prelude.

Definition INITIAL_MAGIC : list Z := [64; 64; 64; 64; 10].
Definition LOG_RING_SIZE : Z := 4096.
(** [LOG_COLOR_E] and [LOG_RESET_COLOR]. *)
Definition LOG_COLOR_E : list Z := [27; 91; 48; 59; 51; 49; 109].
Definition LOG_RESET_COLOR : list Z := [27; 91; 48; 109].

Record log_t := mk_log {
  lg_ring : list Z;
  lg_uart : list (list Z)   (* what uart_log was given *)
}.

(** [xRingbufferSend] of [len] bytes, a [size_t]: whether there is room is the ring's
    answer, but never for more than its size. *)
Definition ring_send (room : bool) (len : Z) (data : list Z) (ring : list Z) : list Z :=
  if room && (len <=? LOG_RING_SIZE) then ring ++ ztake len data else ring.

Definition log_init (created : bool) : option log_t :=
  if created then Some (mk_log INITIAL_MAGIC []) else None.

(** [log_vprintf]: [text] is the formatted line; [vsnprintf] leaves 511 bytes of it and
    a terminator in the buffer and answers its whole length. *)
Definition log_vprintf (text : list Z) (room1 room2 : bool) (l : log_t) : Z * log_t :=
  let buffer := ztake 511 text ++ [0] in
  let n := zlen text in
  let n := if 512 <? n then 512 else n in
  let len := u32 (n - zlen LOG_COLOR_E - zlen LOG_RESET_COLOR - 1) in
  let ring := ring_send room1 len (zdrop (zlen LOG_COLOR_E) buffer) (lg_ring l) in
  let ring := ring_send room2 1 [10] ring in
  (n, mk_log ring (lg_uart l ++ [ztake n buffer])).

(** [log_receive]: the system hands out the [n] bytes it has in one piece, or nothing;
    they leave the ring when [log_return] gives them back. *)
Definition log_receive (n : Z) (l : log_t) : option (list Z) :=
  if (zlen (lg_ring l) =? 0) || (n <=? 0) then None else Some (ztake n (lg_ring l)).
Definition log_return (item : list Z) (l : log_t) : log_t := mk_log (zdrop (zlen item) (lg_ring l)) (lg_uart l).

(** ** The core dump (src/main/core_dump.c) *)

Record core_dump_t := mk_core_dump {
  cd_partition : bool;      (* core_dump_partition is set *)
  cd_size : Z
}.

(** [image]: what [esp_core_dump_image_get] answers and leaves in the size. *)
Definition core_dump_check (image : Z * Z) (found : bool) (c : core_dump_t) : core_dump_t :=
  let c := mk_core_dump (cd_partition c) image.2 in
  if negb (image.1 =? 0) || (image.2 =? 0) then c else mk_core_dump found (cd_size c).

Definition core_dump_available (c : core_dump_t) : Z := cd_size c.

(** [esp_partition_read], [None] without a partition. *)
Definition core_dump_read (partition_read : Z -> Z -> list Z) (offset len : Z) (c : core_dump_t) : option (list Z) :=
  if cd_partition c then Some (partition_read offset len) else None.

(** A reader who gives back what it gets reads the log in the order it was written. *)
Fixpoint read_log (sizes : list Z) (l : log_t) : list Z :=
  match sizes with
  | [] => []
  | n :: sizes => match log_receive n l with
                  | Some item => item ++ read_log sizes (log_return item l)
                  | None => read_log sizes l
                  end
  end.

Lemma read_log_prefix sizes : forall l, read_log sizes l `prefix_of` lg_ring l.
Proof.
  induction sizes as [|n sizes IH]; intros l; cbn [read_log]; [apply prefix_nil|].
  unfold log_receive. destruct ((_ =? 0) || (n <=? 0)) eqn:E; [apply IH|].
  destruct (IH (log_return (ztake n (lg_ring l)) l)) as [rest Er]. exists rest.
  unfold log_return in *. cbn [lg_ring] in Er. rewrite <- app_assoc, <- Er.
  destruct (Z.le_gt_cases n (zlen (lg_ring l))) as [Hn|Hn].
  - rewrite zlen_ztake_le, ztake_zdrop by lia. done.
  - rewrite !ztake_ge, zdrop_ge by lia. by rewrite app_nil_r.
Qed.

(** A coloured line of up to 511 bytes reaches the ring as its body and a newline; a
    line too short to have its colours is not sent at all. *)
Lemma log_line body l : zlen body <= 499 ->
  lg_ring (log_vprintf (LOG_COLOR_E ++ body ++ LOG_RESET_COLOR ++ [10]) true true l).2 = lg_ring l ++ body ++ [10].
Proof.
  intros Hb. pose proof (zlen_nonneg body). unfold log_vprintf, ring_send.
  assert (En : zlen (LOG_COLOR_E ++ body ++ LOG_RESET_COLOR ++ [10]) = zlen body + 12)
    by (autorewrite with zlen; change (zlen LOG_COLOR_E) with 7; change (zlen LOG_RESET_COLOR) with 4; lia).
  rewrite En. rewrite (proj2 (Z.ltb_ge 512 _)) by lia.
  replace (zlen body + 12 - zlen LOG_COLOR_E - zlen LOG_RESET_COLOR - 1) with (zlen body)
    by (change (zlen LOG_COLOR_E) with 7; change (zlen LOG_RESET_COLOR) with 4; lia).
  rewrite u32_small by lia.
  rewrite (proj2 (Z.leb_le (zlen body) LOG_RING_SIZE)) by (unfold LOG_RING_SIZE; lia). cbn [andb snd lg_ring].
  rewrite (ztake_ge 511) by lia. rewrite <- !app_assoc, zdrop_app_exact, ztake_app_exact. reflexivity.
Qed.

Lemma log_short text room1 l : zlen text < 12 ->
  lg_ring (log_vprintf text room1 true l).2 = lg_ring l ++ [10].
Proof.
  intros Hs. pose proof (zlen_nonneg text). unfold log_vprintf, ring_send. rewrite (proj2 (Z.ltb_ge 512 _)) by lia.
  assert (E : LOG_RING_SIZE < u32 (zlen text - zlen LOG_COLOR_E - zlen LOG_RESET_COLOR - 1)).
  { change (zlen LOG_COLOR_E) with 7. change (zlen LOG_RESET_COLOR) with 4. unfold u32, LOG_RING_SIZE. rewrite <- (Z_mod_plus_full _ 1), Z.mod_small; lia. }
  rewrite (proj2 (Z.leb_gt (u32 _) _)) by lia. rewrite andb_false_r. reflexivity.
Qed.
