(* ===== verification/Main.v ===== *)
(** * Start-up (src/main/main.c, src/main/state.c)

    The order in which [app_main] brings the firmware up, the reset button and the
    stored mode.  A component's initialisation is one action here; two of them may
    restart the device, which ends the list. *)

From S2P Require Import Prelude Nvs OtaState Config Provisioning.

Inductive boot_action :=
  | B_status_led | B_log | B_core_dump_check | B_stream_stats | B_config | B_state
  | B_ingest | B_uart | B_boot_loop_guard | B_reset_button | B_event_loop
  | B_net | B_wifi | B_ota_init | B_gnss | B_web_server | B_wait_ip (timeout_ms : Z)
  | B_sntp | B_clock_wait | B_ota_check
  | B_ntrip_server | B_socket_server | B_socket_client
  | B_recovery | B_supervisor | B_provisioning | B_check_handlers
  | B_nmea (text : string) | B_confirm_task | B_bootloop_task | B_schedule_task.

(** What the calls answer: whether the boot-loop guard falls back to the factory image,
    whether the address came in time, the clock at each look, whether an update was
    installed, and whether the two tasks could be created. *)
Record boot_in := mk_boot {
  bt_fallback : bool;
  bt_got_ip : bool;
  bt_clock : nat -> Z;
  bt_updated : bool;
  bt_confirm : bool;
  bt_bootloop : bool
}.

Definition WIFI_BOOT_IP_TIMEOUT_MS : Z := 30000.

(** The bounded wait for the clock: twenty looks, half a second apart. *)
Fixpoint clock_wait (looks : nat) (i : nat) (clock : nat -> Z) : list boot_action :=
  match looks with
  | O => []
  | S looks => if clock i <? 1700000000 then B_clock_wait :: clock_wait looks (S i) clock else []
  end.

Section Boot.
Context `{Nvs St}.

Definition sta_provisioned (n : St) : bool :=
  match (config_get_str_blob_alloc true (conf "w_sta_ssid") n).2 with Some (_ :: _) => true | _ => false end.

Definition app_main (i : boot_in) (n : St) : list boot_action :=
  [B_status_led; B_log; B_core_dump_check; B_stream_stats; B_config; B_state; B_ingest; B_uart; B_boot_loop_guard] ++
  if bt_fallback i then []
  else
    let early := negb (sta_provisioned n) in
    let late := negb (bt_got_ip i) && negb early in
    let web_started := early || late in
    [B_reset_button; B_nmea "INIT,START"; B_event_loop; B_net; B_wifi; B_ota_init; B_gnss] ++
    (if early then [B_web_server] else []) ++
    [B_wait_ip WIFI_BOOT_IP_TIMEOUT_MS] ++
    (if late then [B_web_server] else []) ++
    [B_sntp] ++ clock_wait 20 0 (bt_clock i) ++ [B_ota_check] ++
    if bt_updated i then []
    else
      [B_ntrip_server] ++
      (if web_started then [] else [B_web_server]) ++
      [B_socket_server; B_socket_client; B_recovery; B_supervisor; B_provisioning; B_check_handlers;
       B_nmea "INIT,COMPLETE"] ++
      (if bt_confirm i then [B_confirm_task] else [B_nmea "OTA,NOCONFIRMTASK"]) ++
      (if bt_bootloop i then [B_bootloop_task] else [B_nmea "OTA,NOBOOTLOOPTASK"]) ++
      [B_schedule_task].

(** ** The stored mode (state.c) *)

Definition init_state (n : St) : Z := config_get_u16 (conf "mode_active") n.
Definition set_state (state : Z) (n : St) : Z * St :=
  (state, snd (nvs_set_int U16 STORAGE "mode_active" (u16 state) n)).
Definition get_state (n : St) : Z := config_get_u16 (conf "mode_active") n.

(** ** The reset button *)

(** A turn of [reset_button_task] with the level read: the counter, and the store after a
    reset when it restarts the device. *)
Definition reset_button_turn (level : Z) (duration_counter : Z) (n : St) : Z * option St :=
  if level =? 1 then
    let duration_counter := duration_counter + 1 in
    if 3 <? duration_counter then (0, Some (ota_note_planned_reboot (config_reset n).2)) else (duration_counter, None)
  else (0, None).

(** Turns until the restart. *)
Fixpoint reset_button_run (levels : list Z) (duration_counter : Z) (n : St) : option St :=
  match levels with
  | [] => None
  | level :: levels =>
    match reset_button_turn level duration_counter n with
    | (_, Some n) => Some n
    | (duration_counter, None) => reset_button_run levels duration_counter n
    end
  end.
End Boot.

Definition reset_reason_name (reason : Z) : string :=
  match reason with
  | 1 => "POWERON" | 2 => "EXTERNAL" | 3 => "SOFTWARE" | 4 => "PANIC" | 5 => "INTERRUPT_WATCHDOG"
  | 6 => "TASK_WATCHDOG" | 7 => "OTHER_WATCHDOG" | 8 => "DEEPSLEEP" | 9 => "BROWNOUT" | 10 => "SDIO"
  | _ => "UNKNOWN"
  end.

(** ** Properties *)

#[export] Instance boot_action_eq : EqDecision boot_action.
Proof. solve_decision. Defined.

(** Some action [a] comes before every [b]. *)
Definition before (a b : boot_action) (l : list boot_action) : Prop :=
  forall l1 l2, l = l1 ++ b :: l2 -> In a l1.
Definition count (a : boot_action) (l : list boot_action) : nat := count_occ (decide_rel (=)) l a.

(** [before], computed. *)
Fixpoint before_b (a b : boot_action) (l : list boot_action) : bool :=
  match l with
  | [] => true
  | x :: l => if decide (x = a) then true else if decide (x = b) then false else before_b a b l
  end.

Lemma before_b_ok a b l : a <> b -> before_b a b l = true -> before a b l.
Proof.
  intros Hab. induction l as [|x l IH]; cbn [before_b]; intros Hb l1 l2 E; [by destruct l1|].
  destruct l1 as [|y l1]; injection E as -> E.
  - destruct (decide (b = a)); [congruence|]. by rewrite decide_True in Hb.
  - destruct (decide (y = a)) as [->|]; [by left|]. destruct (decide (y = b)); [done|]. right. by apply (IH Hb l1 l2).
Qed.

Lemma before_b_skip a b l1 l2 : Forall (fun x => x <> a /\ x <> b) l1 -> before_b a b (l1 ++ l2) = before_b a b l2.
Proof.
  induction l1 as [|x l1 IH]; [done|]. intros [[Ha Hb] Hl]%Forall_cons. cbn [app before_b].
  rewrite !decide_False by done. by apply IH.
Qed.

Lemma clock_wait_spec looks i clock : (length (clock_wait looks i clock) <= looks)%nat /\
  Forall (fun x => x = B_clock_wait) (clock_wait looks i clock).
Proof.
  revert i. induction looks as [|looks IH]; intros i; cbn [clock_wait]; [by split; [|apply Forall_nil]|].
  case_if; [|by split; [cbn; lia|apply Forall_nil]]. destruct (IH (S i)) as [L F]. cbn [length].
  split; [lia|]. by apply Forall_cons.
Qed.

Lemma before_b_middle a b c l1 l2 : Forall (fun x => x = B_clock_wait) c -> a <> B_clock_wait -> b <> B_clock_wait ->
  before_b a b (l1 ++ c ++ l2) = before_b a b (l1 ++ l2).
Proof.
  intros Hc Ha Hb. induction l1 as [|x l1 IH]; cbn [app before_b].
  - apply before_b_skip. apply (Forall_impl _ _ _ Hc). intros x ->. split; congruence.
  - by rewrite IH.
Qed.

Lemma count_middle a c l1 l2 : Forall (fun x => x = B_clock_wait) c -> a <> B_clock_wait ->
  count a (l1 ++ c ++ l2) = count a (l1 ++ l2).
Proof.
  intros Hc Ha. unfold count. rewrite !count_occ_app. f_equal.
  induction Hc as [|x c -> Hc IH]; [done|]. cbn [count_occ]. destruct (decide_rel (=) B_clock_wait a); [congruence|done].
Qed.

Lemma count_clock c l1 l2 : (count B_clock_wait (l1 ++ c ++ l2) <= length c + count B_clock_wait l1 + count B_clock_wait l2)%nat.
Proof.
  unfold count. rewrite !count_occ_app. pose proof (count_occ_bound (decide_rel (=)) B_clock_wait c). lia.
Qed.

Section BootOrder.
Context `{Nvs St}.

(** The list with what its conditions depend on made explicit; [c] are the waits. *)
Definition boot_head (early late : bool) : list boot_action :=
  [B_status_led; B_log; B_core_dump_check; B_stream_stats; B_config; B_state; B_ingest; B_uart; B_boot_loop_guard;
   B_reset_button; B_nmea "INIT,START"; B_event_loop; B_net; B_wifi; B_ota_init; B_gnss] ++
  (if early then [B_web_server] else []) ++ [B_wait_ip WIFI_BOOT_IP_TIMEOUT_MS] ++
  (if late then [B_web_server] else []) ++ [B_sntp].
Definition boot_tail (web updated confirm bootloop : bool) : list boot_action :=
  B_ota_check ::
  if updated then []
  else [B_ntrip_server] ++ (if web then [] else [B_web_server]) ++
    [B_socket_server; B_socket_client; B_recovery; B_supervisor; B_provisioning; B_check_handlers; B_nmea "INIT,COMPLETE"] ++
    (if confirm then [B_confirm_task] else [B_nmea "OTA,NOCONFIRMTASK"]) ++
    (if bootloop then [B_bootloop_task] else [B_nmea "OTA,NOBOOTLOOPTASK"]) ++ [B_schedule_task].

Lemma app_main_split i (n : St) : bt_fallback i = false ->
  let early := negb (sta_provisioned n) in
  let late := negb (bt_got_ip i) && negb early in
  app_main i n = boot_head early late ++ clock_wait 20 0 (bt_clock i) ++
                 boot_tail (early || late) (bt_updated i) (bt_confirm i) (bt_bootloop i).
Proof.
  intros E early late. unfold app_main, boot_head. rewrite E. cbv zeta. fold early. fold late.
  rewrite <- !app_assoc. reflexivity.
Qed.

(** Start-up.  Whatever the calls answer, the ingest path is up before the UART task
    exists, the settings before anything that reads them, the boot-loop guard runs
    before the network, the receiver is configured before the update window, the update
    check before the data plane, and the recovery actions are known before the supervisor runs; the clock
    is waited for at most twenty times; the web server starts exactly once on every boot
    that reaches the data plane, and before the update check exactly when there is no network
    configured or no address came in time. *)
Theorem boot_order i (n : St) : let l := app_main i n in
  before B_ingest B_uart l /\ before B_config B_boot_loop_guard l /\ before B_boot_loop_guard B_wifi l /\
  before B_wifi B_web_server l /\ before B_gnss B_ota_check l /\ before B_ota_check B_ntrip_server l /\
  before B_recovery B_supervisor l /\
  (count B_clock_wait l <= 20)%nat /\
  count B_web_server l = (if bt_fallback i then 0 else if negb (sta_provisioned n) || negb (bt_got_ip i) then 1
                          else if bt_updated i then 0 else 1)%nat /\
  (bt_fallback i = false -> sta_provisioned n = true -> bt_got_ip i = true -> before B_ota_check B_web_server l) /\
  (bt_fallback i = false -> sta_provisioned n = false \/ bt_got_ip i = false -> before B_web_server B_ota_check l).
Proof.
  cbv zeta. destruct (bt_fallback i) eqn:Ef.
  - unfold app_main. rewrite Ef. cbn [app].
    split_and!; try (intros; discriminate); try (apply before_b_ok; [done|reflexivity]); vm_compute; lia.
  - rewrite app_main_split by done. cbv zeta. destruct (clock_wait_spec 20 0 (bt_clock i)) as [L F].
    set (c := clock_wait 20 0 (bt_clock i)) in *.
    assert (B : forall a b l1 l2, a <> b -> a <> B_clock_wait -> b <> B_clock_wait -> before_b a b (l1 ++ l2) = true ->
      before a b (l1 ++ c ++ l2)).
    { intros a b l1 l2 Hab Ha Hb Hl. apply before_b_ok; [done|]. by rewrite before_b_middle. }
    split_and!; try (apply B; try done; by destruct (sta_provisioned n), (bt_got_ip i), (bt_updated i), (bt_confirm i), (bt_bootloop i)).
    + pose proof (count_clock c (boot_head (negb (sta_provisioned n)) (negb (bt_got_ip i) && negb (negb (sta_provisioned n))))
        (boot_tail (negb (sta_provisioned n) || negb (bt_got_ip i) && negb (negb (sta_provisioned n))) (bt_updated i) (bt_confirm i) (bt_bootloop i))) as P.
      etrans; [exact P|]. destruct (sta_provisioned n), (bt_got_ip i), (bt_updated i), (bt_confirm i), (bt_bootloop i);
        cbn [negb andb orb]; match goal with |- (_ + ?x + ?y <= _)%nat => change x with 0%nat; change y with 0%nat end; lia.
    + rewrite count_middle by done.
      by destruct (sta_provisioned n), (bt_got_ip i), (bt_updated i), (bt_confirm i), (bt_bootloop i).
    + intros _ -> ->. apply B; first [done|by destruct (bt_updated i), (bt_confirm i), (bt_bootloop i)].
    + intros _ Hor. apply B; [done..|].
      destruct (sta_provisioned n), (bt_got_ip i); try (by destruct Hor); by destruct (bt_updated i), (bt_confirm i), (bt_bootloop i).
Qed.
End BootOrder.

Section Button.
Context `{NvsLaws St}.

Lemma run_result levels : forall k (n n' : St), reset_button_run levels k n = Some n' ->
  n' = ota_note_planned_reboot (config_reset n).2.
Proof.
  induction levels as [|x levels IH]; intros k n n'; cbn [reset_button_run]; [done|]. unfold reset_button_turn.
  destruct (x =? 1); [|apply IH]. cbv zeta. destruct (3 <? k + 1); [by intros [= <-]|apply IH].
Qed.

Definition held (levels : list Z) : Prop := exists l1 l2, levels = l1 ++ [1; 1; 1; 1] ++ l2.

Lemma run_held levels : forall (k : nat) (n : St), (k <= 3)%nat ->
  (reset_button_run levels (Z.of_nat k) n <> None <->
   (exists l2, levels = repeat 1 (4 - k) ++ l2) \/ held levels).
Proof.
  induction levels as [|x levels IH]; intros k n Hk; cbn [reset_button_run].
  - split; [done|]. intros [[l2 E]|(l1 & l2 & E)]; [|by destruct l1].
    replace (4 - k)%nat with (S (3 - k)) in E by lia. done.
  - unfold reset_button_turn. cbv zeta. destruct (Z.eqb_spec x 1) as [->|Hx].
    + destruct (Z.ltb_spec 3 (Z.of_nat k + 1)).
      * split; [|done]. intros _. left. assert (k = 3)%nat as -> by lia. by exists levels.
      * replace (Z.of_nat k + 1) with (Z.of_nat (S k)) by lia. rewrite IH by lia.
        replace (4 - k)%nat with (S (4 - S k)) by lia. split.
        -- intros [[l2 ->]|(l1 & l2 & ->)]; [left; by exists l2|right; by exists (1 :: l1), l2].
        -- intros [[l2 E]|(l1 & l2 & E)]; [injection E as ->; left; by exists l2|].
           destruct l1 as [|y l1]; injection E as E; [|subst; right; by exists l1, l2].
           subst. left. destruct k as [|[|[|k]]]; [by exists l2|by exists (1 :: l2)|by exists (1 :: 1 :: l2)|lia].
    + change (reset_button_run levels 0 n) with (reset_button_run levels (Z.of_nat 0) n). rewrite IH by lia. split.
      * intros [[l2 ->]|(l1 & l2 & ->)]; [right; by exists [x], l2|right; by exists (x :: l1), l2].
      * intros [[l2 E]|(l1 & l2 & E)]; [replace (4 - k)%nat with (S (3 - k)) in E by lia; by injection E|].
        destruct l1 as [|y l1]; injection E as E; [done|]. subst. right. by exists l1, l2.
Qed.

(** The button restarts the device exactly when it is seen down at four looks in a row,
    and then the network settings are forgotten and the restart is noted as planned. *)
Lemma reset_button_hold levels (n : St) :
  (reset_button_run levels 0 n <> None <-> held levels) /\
  (forall n', reset_button_run levels 0 n = Some n' -> n' = ota_note_planned_reboot (config_reset n).2).
Proof.
  split; [|apply run_result]. change 0 with (Z.of_nat 0). rewrite run_held by lia. split; [|by right].
  intros [[l2 ->]|Hh]; [by exists [], l2|done].
Qed.

Lemma state_kept state (n : St) : get_state (set_state state n).2 = u16 state.
Proof.
  unfold get_state, set_state, config_get_u16, get_or. cbn [snd].
  change (ci_key (conf "mode_active")) with "mode_active"%string.
  destruct (get_set_int U16 STORAGE "mode_active" (u16 state) n) as [_ ->]; [apply u16_range|done].
Qed.
End Button.
